(* ===== verification/_CoqProject ===== *)
-Q . S2P
Prelude.v
PyStr.v
PyFloat.v
PyVal.v
Regex.v
RegexFacts.v
Json.v
JsonFacts.v
JsonIndent.v
Hashing.v
PyPath.v
PyText.v
PyIO.v
ArgParse.v
Redaction.v
RedactionFacts.v
Storage.v
UdpClient.v
UdpClientFacts.v
UdpPool.v
Views.v
ViewsFacts.v
SimSettings.v
Provenance.v
Freshness.v
RunIndex.v
RunIndexFacts.v
RunContext.v
RunContextFacts.v
Collectors.v
CompareRuns.v
CompareRunsFacts.v
Links.v
CollectPytest.v
Tracer.v
Sentry.v
BestEffort.v
RunCommand.v
Diagnosis.v
DiagnosisFacts.v
ClassifyFailure.v
ClassifyFacts.v
FailureReport.v
ReportFacts.v
Regenerate.v
ObservedRun.v
Confinement.v
ObservedRunFacts.v
RegenerateFacts.v
IndexLock.v
CiEvidence.v
CiEvidenceFacts.v
CiCommands.v
CiCommandsFacts.v
CiAggregate.v
CiAggregateFacts.v
CiMain.v
CiMainFacts.v
Secrecy.v
KubePolicy.v
KubePolicyFacts.v
LocalCi.v
LocalCiFacts.v
Architecture.v
ArchitectureFacts.v
Pipeline.v
PipelineFacts.v
Fallback.v
CommandLines.v
CommandLinesFacts.v
