(* ===== verification/Prelude.v ===== *)
(** * Eve Trade: the Python code

    The repository is a trading game whose services are written in Go, Rust and TypeScript.  Its
    Python code, the subject of this development, has three parts.

    - The _simulator_ ([simulator/]) is a Django application.  Pressing a button of its page builds
      a packet, signs it with the secret of an actor, sends it over UDP through Quilkin to the
      gateway, authenticates the answer and records the interaction.
    - The _observability_ layer ([distributed-backend/observability/]) runs the commands of CI,
      records what they did in a run directory, redacts secrets, diagnoses failures, keeps an index
      of runs shared by concurrent processes, decides whether recorded evidence still describes the
      current source, and, in a CI workflow, collects the evidence of all jobs and gives the verdict
      of the workflow.
    - The _gates and tools_ ([eve_trade_local_ci_k8s.py], [scripts/], [distributed-backend/ci-cd/])
      decide what may be merged and deployed: the verification entry point, the architecture and
      manifest policies, the Dagger pipeline, and two helpers for local development.

    ** How the code is modelled

    Every Python function is a Rocq function of the same name (without a leading underscore).  A
    function that may raise returns [res A]; one that also writes files, sends datagrams or starts
    processes is in the monad [io S A] of [PyIO], a state passed through a computation that may
    raise, where the state survives an exception as files do.  A [try]/[except] is [catch], a
    [try]/[finally] is [finally].  JSON and dataclass values are [pyval] of [PyVal], with Python's
    truthiness, equality, conversions and ordered dictionaries.  Regular expressions are parsed from
    the source's own pattern strings and run by a backtracking matcher ([Regex]); [json.dumps] and
    [json.loads] are a printer and a parser ([Json]); SHA-256 and HMAC are computed ([Hashing]);
    floats are exact binary64 values ([PyFloat]).  A string is its UTF-8 bytes; case mapping,
    stripping and the classes of regular expressions treat ASCII characters only.

    Whatever lies outside the sources is an argument: the operating system and its errors, the
    processes and their outcomes, git, the clock, the SDKs of Sentry, OpenTelemetry and Dagger, the
    S3 client, the parsers of XML and YAML, the ZIP encoder and the Python parser of [ast].  A
    record [host] collects what a run reads of its machine; one operation sees one host, so one
    reading of the clock serves all its time stamps.

    ** Files

    Foundations, not tied to one source file: [Prelude] (errors, lists, hints), [PyStr], [PyFloat],
    [PyVal], [Regex] and [RegexFacts], [Json], [JsonFacts] (parsing inverts printing) and
    [JsonIndent], [Hashing], [PyPath], [PyText] (UTF-8), [PyIO], [ArgParse] (command lines).

    The simulator:
    - [UdpClient], [UdpClientFacts] ([trade_gui/udp_client.py]): packets, signatures, the retry loop
      with its sockets and the errors of every socket call; [UdpPool]: the session queue shared by
      threads, as a step relation.
    - [Views], [ViewsFacts] ([trade_gui/views.py], [models.py], [serializers.py], the seeding
      command): the press handler over a database of buttons and interactions.
    - [SimSettings] ([eve_trade_simulator/settings.py]): the configuration as a function of the
      environment, down to the packets signed with it.

    The observability layer:
    - [Redaction], [RedactionFacts] ([redaction.py]); [Storage] ([storage.py]).
    - [Provenance], [Freshness] ([provenance.py], [freshness.py]); [RunContext], [RunContextFacts]
      ([run_context.py]); [RunIndex], [RunIndexFacts] ([run_index.py]) and [IndexLock], the index
      behind its lock file as a step relation of concurrent processes: the deadline, the polling,
      every call that can fail and kills at any point.
    - [Collectors] ([collect_db.py], [collect_kubernetes.py], [collect_environment.py]),
      [CollectPytest], [CompareRuns], [CompareRunsFacts], [Links], [Tracer]
      ([honeycomb_tracer.py], with the SDK's calls on a span, which may raise), [Sentry]
      ([sentry_reporter.py]), [BestEffort] (what of the two can raise), [RunCommand].
    - [Diagnosis], [DiagnosisFacts] ([diagnosis.py]); [ClassifyFailure], [ClassifyFacts];
      [FailureReport] ([generate_failure_report.py]), [ReportFacts] (every diagnosis is reported);
      [Regenerate], [RegenerateFacts]: recorded
      results read back, and the script that regenerates a report from them.
    - [ObservedRun], [Confinement], [ObservedRunFacts] ([observed_run.py]): the runner that composes
      all of the above.
    - [CiEvidence], [CiEvidenceFacts], [CiCommands], [CiCommandsFacts] ([ci_evidence.py]) and
      [CiAggregate], [CiAggregateFacts] ([ci_aggregate.py]); [CiMain], [CiMainFacts]: the entry
      points of both; [Secrecy]: the aggregator does not depend on the secrets of its environment.

    The gates and tools:
    - [LocalCi], [LocalCiFacts] ([eve_trade_local_ci_k8s.py]); [KubePolicy], [KubePolicyFacts]
      ([scripts/verify_rendered_kubernetes.py]); [Architecture], [ArchitectureFacts]
      ([scripts/verify_architecture_boundaries.py], [verify_schema_ownership.py]); [Pipeline],
      [PipelineFacts] ([ci-cd/pipeline.py]); [Fallback] ([scripts/quilkin_udp_fallback.py],
      [scripts/downloads/fetch_simulator_deps.py]).
    - [CommandLines], [CommandLinesFacts]: the parsers of all the scripts, and their entry points
      from the arguments of the process to its exit status.

    ** What the theorems show

    - Green means evidenced.  Exit code 0 of the aggregator implies that every job succeeded and has
      a bundle of this very workflow run with command records; the code and the diagnosis left on
      disk agree; producers' files are accepted by the aggregator of their run and by no other; the
      observed runner, the verification entry point and the pipeline report success only when every
      process did, and what they start is exactly their plan.
    - Gates are exact.  The manifest policy, the architecture rules, the freshness of evidence, the
      product status and the membership of evidence are characterised by specifications stated
      without reference to the code ([production_ready], [conforming], [exact_evidence],
      [belongs]): they accept if and only if the specification holds.
    - Data survives.  A context reloads as it was created, an encoded request verifies, the index
      refines insertion into a sorted duplicate-free list through its JSON text, recorded command
      results and test summaries are read back as they were written, a regenerated report is the
      report of the recorded failure, and a command line parses to what is written on it.
    - Concurrency.  No two threads hold one UDP session; concurrent runs update the index one after
      the other and lose no run, whatever calls fail; each ends after a bounded number of actions,
      and only a process that is cut off while it holds the lock file leaves it behind.
    - Secrets and files.  Values under sensitive keys do not influence redacted output, and the
      secrets of a CI job influence nothing the aggregator leaves behind; a run changes,
      whether it returns or raises, only files of its run directory and, by [update_run_index], the
      index of runs and the pointer to the latest one.
    - Robustness.  Outside strict mode no failure of the Sentry SDK, of the start and shutdown of the
      OpenTelemetry SDK or of the Honeycomb API makes reporting raise, while its calls on spans are
      not guarded; every diagnosis is classified and reported without an exception; the parity
      report of two runs is empty exactly when they agree.
    - Bounds.  A request makes at most [max_attempts] attempts, sends a datagram exactly in those
      whose [sendto] succeeds and leaks no socket; verification
      starts at most 74 processes; downloads make at most four attempts.
    - Defects.  Some theorems state what the code does against its intent: a bearer token survives
      redaction, a forged datagram leaves an interaction pending, a failing git passes the candidate
      test, the Terraform lock check never runs, the relay mixes up clients.

    ** Recursion bounds

    The regex matcher, the JSON parser and the UTF-8 decoder recurse on fuel computed from the length
    of their input.  [JsonFacts] proves that the fuel is enough for every printed value, [RegexFacts]
    what the matcher finds for the patterns the theorems depend on; everything else is structural.
    The UDP retry loop is bounded by its configuration, and the step relations have no fuel.

    ** Not modelled

    - A bare [--] on a command line, which releases of [argparse] treat differently; usage texts.
    - Reading a recorded test summary whose fields are not of their declared types: the dataclass
      takes any value, the records of the model do not.
    - Django's generic list views, templates, administration, URL table and migrations; the WSGI and
      ASGI modules.
    - Functions that nothing calls ([run_shell], [pump], [_read_if_exists]); the interrupt from the
      keyboard.
    - Case mapping, white space and the classes of regular expressions outside ASCII.
    - CPython's limits on nesting and on the digits of integers in JSON, and the error of encoding a
      lone surrogate.
    - Temporary files: an atomic write is one step, and a file that a failed rename leaves behind is
      not seen.  The lock file of the index exists in [IndexLock] only; where one run is modelled,
      an update of the index is one step.
    - The Go, Rust and TypeScript services. *)
From Stdlib Require Export Ascii.
From stdpp Require Export prelude gmap strings pretty sorting.

(** * Errors *)

(** The Python exceptions the modelled code raises or catches.  [OSError] carries its
    subclass and errno so that handlers can discriminate as the source does. *)
Inductive os_kind : Type :=
| OsTimeout
| OsConnectionReset
| OsConnectionRefused
| OsOther.

#[export] Instance os_kind_eq_dec : EqDecision os_kind.
Proof. solve_decision. Defined.

Inductive exn : Type :=
| KeyError
| TypeError
| ValueError (msg : string)
| AttributeError
| OverflowError
| RuntimeError (msg : string)
| OSError (kind : os_kind) (errno : Z) (msg : string).

#[export] Instance exn_eq_dec : EqDecision exn.
Proof. solve_decision. Defined.

(** A fallible computation. *)
Inductive res (A : Type) : Type :=
| Ok (a : A)
| Raise (e : exn).
Arguments Ok {A} _.
Arguments Raise {A} _.

#[export] Instance res_eq_dec {A} `{EqDecision A} : EqDecision (res A).
Proof. solve_decision. Defined.

Definition res_bind {A B} (x : res A) (f : A → res B) : res B :=
  match x with Ok a => f a | Raise e => Raise e end.

Definition res_map {A B} (f : A → B) (x : res A) : res B :=
  match x with Ok a => Ok (f a) | Raise e => Raise e end.

Declare Scope py_scope.
Delimit Scope py_scope with py.
Notation "'let!' x := c1 'in' c2" := (res_bind c1 (fun x => c2))
  (at level 10, x pattern, c1 at level 100, c2 at level 200) : py_scope.
Open Scope py_scope.

Fixpoint res_mapM {A B} (f : A → res B) (l : list A) : res (list B) :=
  match l with
  | [] => Ok []
  | x :: l' => let! y := f x in let! ys := res_mapM f l' in Ok (y :: ys)
  end.

(** [is_ok] is the test "did not raise". *)
Definition is_ok {A} (x : res A) : bool :=
  match x with Ok _ => true | Raise _ => false end.

Lemma Ok_inj {A} (x y : A) : Ok x = Ok y → x = y.
Proof. by intros [=]. Qed.

Lemma res_bind_Ok {A B} (x : res A) (f : A → res B) b :
  res_bind x f = Ok b ↔ ∃ a, x = Ok a ∧ f a = Ok b.
Proof. destruct x; naive_solver. Qed.

Lemma res_mapM_Ok {A B} (f : A → res B) l l' :
  res_mapM f l = Ok l' ↔ Forall2 (fun x y => f x = Ok y) l l'.
Proof.
  revert l'. induction l as [|x l IH]; intros l'; simpl.
  - split; [by intros [= <-]|by inversion 1].
  - rewrite res_bind_Ok. setoid_rewrite res_bind_Ok. setoid_rewrite IH.
    split; [naive_solver|inversion 1; naive_solver].
Qed.

(** * Tactics *)

(** Case analysis on the scrutinee of an [if] or [match] in the goal or a hypothesis. *)
Ltac py_case :=
  match goal with
  | |- context [match ?x with _ => _ end] => destruct x eqn:?
  | H : context [match ?x with _ => _ end] |- _ => destruct x eqn:?
  end.

Ltac py_simp := repeat (py_case; simplify_eq/=; try done).

(** Turn boolean connectives in hypotheses and goals into propositions. *)
Create Rewrite HintDb pybool.
#[export] Hint Rewrite Bool.andb_true_iff Bool.orb_true_iff Bool.negb_true_iff
  Bool.andb_false_iff Bool.orb_false_iff Bool.negb_false_iff
  bool_decide_eq_true bool_decide_eq_false : pybool.
Ltac breflect := autorewrite with pybool in *.

(** * Lists *)

Section lists.
Context {A : Type}.

(** [any] and [all] over a generator. *)
Definition any (f : A → bool) (l : list A) : bool := existsb f l.
Definition all (f : A → bool) (l : list A) : bool := forallb f l.

Lemma any_true f l : any f l = true ↔ ∃ x, x ∈ l ∧ f x = true.
Proof.
  unfold any. rewrite existsb_exists. by setoid_rewrite list_elem_of_In.
Qed.

Lemma any_false f l : any f l = false ↔ ∀ x, x ∈ l → f x = false.
Proof.
  unfold any. induction l as [|y l IH]; simpl; [set_solver|].
  rewrite Bool.orb_false_iff, IH. set_solver.
Qed.

Lemma all_true f l : all f l = true ↔ ∀ x, x ∈ l → f x = true.
Proof.
  unfold all. rewrite forallb_forall. by setoid_rewrite list_elem_of_In.
Qed.

(** [next((x for x in l if f(x)), None)]. *)
Fixpoint find_first (f : A → bool) (l : list A) : option A :=
  match l with [] => None | x :: l' => if f x then Some x else find_first f l' end.

Lemma find_first_Some f l x :
  find_first f l = Some x → ∃ l1 l2, l = l1 ++ x :: l2 ∧ f x = true ∧ any f l1 = false.
Proof.
  induction l as [|y l IH]; simpl; [done|].
  destruct (f y) eqn:Hy.
  - intros [= ->]. by exists [], l.
  - intros (l1 & l2 & -> & ? & ?)%IH. exists (y :: l1), l2. by rewrite <-app_comm_cons; simpl; rewrite Hy.
Qed.

Lemma find_first_None f l : find_first f l = None ↔ any f l = false.
Proof.
  induction l as [|y l IH]; simpl; [done|]. by destruct (f y).
Qed.

(** List comprehension filter with a boolean test. *)
Definition filterb (f : A → bool) (l : list A) : list A := List.filter f l.

Lemma elem_of_filterb f l x : x ∈ filterb f l ↔ x ∈ l ∧ f x = true.
Proof. unfold filterb. by rewrite !list_elem_of_In, filter_In. Qed.

Lemma filterb_id f l : (∀ x, x ∈ l → f x = true) → filterb f l = l.
Proof.
  induction l as [|x l IH]; intros Hl; simpl; [done|].
  rewrite Hl by set_solver. f_equal. apply IH. set_solver.
Qed.
End lists.

Lemma filterb_nil {A} (f : A → bool) l : filterb f l = [] ↔ ∀ x, x ∈ l → f x = false.
Proof.
  split.
  - intros H x Hx. destruct (f x) eqn:E; [|done]. exfalso. apply (not_elem_of_nil x). rewrite <- H. by apply elem_of_filterb.
  - intros H. destruct (filterb f l) as [|x l'] eqn:E; [done|].
    assert (x ∈ x :: l') as Hx by left. rewrite <- E in Hx. apply elem_of_filterb in Hx as [Hx Hf]. apply H in Hx. congruence.
Qed.

Lemma flat_map_nil {A B} (f : A → list B) l : flat_map f l = [] ↔ ∀ x, x ∈ l → f x = [].
Proof.
  induction l as [|x l IH]; simpl; [split; [by intros _ ? ?%not_elem_of_nil|done]|].
  rewrite app_nil, IH. setoid_rewrite elem_of_cons. naive_solver.
Qed.

Lemma filterb_sublist {A} (f : A → bool) l : sublist (filterb f l) l.
Proof. induction l as [|x l IH]; simpl; [constructor|]. by destruct (f x); constructor. Qed.

Lemma NoDup_map_filterb {A B} (g : A → B) (f : A → bool) l :
  NoDup (map g l) → NoDup (map g (filterb f l)).
Proof.
  intros H. eapply sublist_NoDup; [exact H|].
  induction l as [|x l IH]; simpl; [constructor|].
  apply NoDup_cons in H as [_ H].
  destruct (f x); simpl; constructor; auto.
Qed.

#[global] Instance filterb_perm {A} (f : A → bool) : Proper (Permutation ==> Permutation) (filterb f).
Proof.
  intros l m H. unfold filterb. induction H as [|x l m _ IH|x y l|l m n _ IH1 _ IH2]; simpl; [done| | |by etrans].
  - destruct (f x); [by constructor|done].
  - destruct (f x), (f y); try done. constructor.
Qed.

(** * Stable sorting: [list.sort] / [sorted] with a comparison on keys. *)
Section stable_sort.
Context {A : Type} (leb : A → A → bool).

Fixpoint insert_by (x : A) (l : list A) : list A :=
  match l with
  | [] => [x]
  | y :: l' => if leb x y then x :: l else y :: insert_by x l'
  end.

Fixpoint sort_by (l : list A) : list A :=
  match l with [] => [] | x :: l' => insert_by x (sort_by l') end.

Lemma insert_by_perm x l : insert_by x l ≡ₚ x :: l.
Proof.
  induction l as [|y l IH]; simpl; [done|].
  destruct (leb x y); [done|]. rewrite IH. constructor.
Qed.

Lemma sort_by_perm l : sort_by l ≡ₚ l.
Proof. induction l as [|x l IH]; simpl; [done|]. by rewrite insert_by_perm, IH. Qed.

Context (total : ∀ x y, leb x y = true ∨ leb y x = true)
        (trans : ∀ x y z, leb x y = true → leb y z = true → leb x z = true).

Notation R := (fun x y => leb x y = true).

Lemma insert_by_sorted x l :
  StronglySorted R l → StronglySorted R (insert_by x l).
Proof.
  induction l as [|y l IH]; simpl; intros Hl; [repeat constructor|].
  apply StronglySorted_inv in Hl as [Hs Hall].
  destruct (leb x y) eqn:E.
  - constructor; [by constructor|]. constructor; [done|].
    eapply Forall_impl; [exact Hall|]. simpl. eauto.
  - constructor; [by apply IH|].
    rewrite insert_by_perm. constructor; [|done].
    by destruct (total x y) as [|]; [congruence|].
Qed.

Lemma sort_by_sorted l : StronglySorted R (sort_by l).
Proof. induction l; simpl; [constructor|by apply insert_by_sorted]. Qed.

(** A list already in order is left alone. *)
Lemma sort_by_id l : StronglySorted R l → sort_by l = l.
Proof.
  induction 1 as [|x l _ IH Hall]; simpl; [done|]. rewrite IH.
  destruct l as [|y l]; simpl; [done|].
  apply Forall_cons in Hall as [-> _]. done.
Qed.

(** Sorting is idempotent. *)
Lemma sort_by_idemp l : sort_by (sort_by l) = sort_by l.
Proof. apply sort_by_id, sort_by_sorted. Qed.
End stable_sort.

(** Two sorted permutations agree when the order is antisymmetric on their elements. *)
Lemma sorted_perm_unique {A} (leb : A → A → bool) l1 l2 :
  StronglySorted (fun x y => leb x y = true) l1 →
  StronglySorted (fun x y => leb x y = true) l2 →
  (∀ x y, x ∈ l1 → y ∈ l1 → leb x y = true → leb y x = true → x = y) →
  l1 ≡ₚ l2 → l1 = l2.
Proof.
  intros Hs1. revert l2. induction Hs1 as [|x l1 Hs1 IH Hall1]; intros l2 Hs2 Hanti Hp.
  { by apply Permutation_nil_l in Hp. }
  destruct Hs2 as [|y l2 Hs2 Hall2]; [by symmetry in Hp; apply Permutation_nil_cons in Hp|].
  assert (x = y) as ->.
  { rewrite Forall_forall in Hall1, Hall2.
    assert (x ∈ y :: l2) as Hx by (rewrite <-Hp; set_solver).
    assert (y ∈ x :: l1) as Hy by (rewrite Hp; set_solver).
    apply elem_of_cons in Hx as [|Hx]; [done|]. apply elem_of_cons in Hy as [|Hy]; [done|].
    apply Hanti; [set_solver..|by apply Hall1|by apply Hall2]. }
  f_equal. apply IH; [done| |by apply Permutation.Permutation_cons_inv in Hp].
  intros; apply Hanti; set_solver.
Qed.

(** [dict.fromkeys(l)]: keep the first occurrence of each element, in order. *)
Fixpoint dedup_first_aux {A} `{EqDecision A} (seen : list A) (l : list A) : list A :=
  match l with
  | [] => []
  | x :: l' => if bool_decide (x ∈ seen) then dedup_first_aux seen l'
               else x :: dedup_first_aux (x :: seen) l'
  end.
Definition dedup_first {A} `{EqDecision A} (l : list A) : list A := dedup_first_aux [] l.

Lemma dedup_first_aux_spec {A} `{EqDecision A} (seen l : list A) :
  NoDup (dedup_first_aux seen l) ∧
  ∀ x, x ∈ dedup_first_aux seen l ↔ x ∈ l ∧ x ∉ seen.
Proof.
  revert seen. induction l as [|y l IH]; intros seen; simpl.
  { split; [constructor|set_solver]. }
  case_bool_decide as Hy.
  - destruct (IH seen) as [Hnd Hin]. split; [done|].
    intros x. rewrite Hin, elem_of_cons. naive_solver.
  - destruct (IH (y :: seen)) as [Hnd Hin]. split.
    + constructor; [rewrite Hin; set_solver|done].
    + intros x. rewrite !elem_of_cons, Hin, elem_of_cons.
      destruct (decide (x = y)); naive_solver.
Qed.

Lemma dedup_first_NoDup {A} `{EqDecision A} (l : list A) : NoDup (dedup_first l).
Proof. apply dedup_first_aux_spec. Qed.

Lemma elem_of_dedup_first {A} `{EqDecision A} (l : list A) x : x ∈ dedup_first l ↔ x ∈ l.
Proof. unfold dedup_first. rewrite (proj2 (dedup_first_aux_spec [] l)). set_solver. Qed.

(** Errors gathered over a list are none when every item has none. *)
Lemma gathered_nil {A E} (f : A → res (list E)) (P : A → Prop) l errors :
  (∀ x e, f x = Ok e → (e = [] ↔ P x)) → res_mapM f l = Ok errors → (concat errors = [] ↔ ∀ x, x ∈ l → P x).
Proof.
  intros Hf. revert errors. induction l as [|x l IH]; simpl; intros errors.
  { intros [= <-]. split; [by intros _ ? ?%not_elem_of_nil|done]. }
  intros (e & He & (es & Hes & [= <-])%res_bind_Ok)%res_bind_Ok. simpl.
  rewrite app_nil, (Hf _ _ He), (IH _ Hes). setoid_rewrite elem_of_cons. naive_solver.
Qed.
