(* ===== verification/PyStr.v ===== *)
(** Python's [str] operations.

    A Python string is represented by its UTF-8 bytes in a [string].  Equality, substring
    tests, prefix and suffix tests, concatenation, splitting on ASCII separators and the
    code-point order agree with Python on all text; counting and slicing ([len], [s[:n]])
    and case mapping agree with Python on ASCII text, which is what the modelled code feeds
    them.  Bytes of 128 and above are opaque, non-alphabetic, non-space characters here. *)
From S2P Require Import Prelude.

(** * Characters *)

Definition code (c : ascii) : N := N_of_ascii c.
Definition chr (n : N) : ascii := ascii_of_N n.

Definition between (lo hi : N) (c : ascii) : bool := (lo <=? code c)%N && (code c <=? hi)%N.

Definition is_upper := between 65 90.
Definition is_lower := between 97 122.
Definition is_digit := between 48 57.
Definition is_alnum (c : ascii) : bool := is_upper c || is_lower c || is_digit c.
(** [str.isspace] and regular-expression [\s] on ASCII. *)
Definition is_space (c : ascii) : bool := between 9 13 c || between 28 32 c.
Definition is_ascii_char (c : ascii) : bool := (code c <? 128)%N.

Definition upper_char (c : ascii) : ascii := if is_lower c then chr (code c - 32) else c.
Definition lower_char (c : ascii) : ascii := if is_upper c then chr (code c + 32) else c.

Definition ch_dq : ascii := chr 34.
Definition ch_nl : ascii := chr 10.
Definition ch_bs : ascii := chr 92.
Definition ch_sq : ascii := chr 39.

Definition str1 (c : ascii) : string := String c "".
Definition nl : string := str1 ch_nl.
Definition dq : string := str1 ch_dq.
Definition bs : string := str1 ch_bs.

(** * Strings *)

Fixpoint smap (f : ascii → ascii) (s : string) : string :=
  match s with "" => "" | String c s' => String (f c) (smap f s') end.
Definition upper := smap upper_char.
Definition lower := smap lower_char.

Fixpoint sall (p : ascii → bool) (s : string) : bool :=
  match s with "" => true | String c s' => p c && sall p s' end.
Definition is_ascii_str := sall is_ascii_char.

(** [s.isdigit()] on ASCII. *)
Definition isdigit (s : string) : bool :=
  match s with "" => false | _ => sall is_digit s end.

Definition nonempty (s : string) : bool := match s with "" => false | _ => true end.

Fixpoint startswith (pre s : string) : bool :=
  match pre, s with
  | "", _ => true
  | String c pre', String d s' => if ascii_dec c d then startswith pre' s' else false
  | _, _ => false
  end.

(** [sub in s] *)
Fixpoint contains (sub s : string) : bool :=
  startswith sub s || match s with "" => false | String _ s' => contains sub s' end.

(** [s.find(sub)]; [None] stands for -1. *)
Fixpoint find_sub (sub s : string) : option nat :=
  if startswith sub s then Some 0
  else match s with "" => None | String _ s' => S <$> find_sub sub s' end.

Fixpoint sdrop (n : nat) (s : string) : string :=
  match n, s with
  | 0, _ => s
  | S n', "" => ""
  | S n', String _ s' => sdrop n' s'
  end.
(** [s[:n]] *)
Fixpoint stake (n : nat) (s : string) : string :=
  match n, s with
  | S n', String c s' => String c (stake n' s')
  | _, _ => ""
  end.
(** [s[-n:]] for [n > 0]. *)
Definition slast (n : nat) (s : string) : string := sdrop (String.length s - n) s.

Definition endswith (suf s : string) : bool :=
  (String.length suf <=? String.length s) && bool_decide (slast (String.length suf) s = suf).

Definition removesuffix (suf s : string) : string :=
  if nonempty suf && endswith suf s then stake (String.length s - String.length suf) s else s.
Definition removeprefix (pre s : string) : string :=
  if startswith pre s then sdrop (String.length pre) s else s.

(** [s.lstrip(chars)], [s.rstrip(chars)], [s.strip(chars)] with the class of characters. *)
Fixpoint lstrip (p : ascii → bool) (s : string) : string :=
  match s with "" => "" | String c s' => if p c then lstrip p s' else s end.
Fixpoint rstrip (p : ascii → bool) (s : string) : string :=
  match s with
  | "" => ""
  | String c s' =>
      match rstrip p s' with
      | "" => if p c then "" else str1 c
      | t => String c t
      end
  end.
Definition strip_by (p : ascii → bool) (s : string) : string := rstrip p (lstrip p s).
Definition strip := strip_by is_space.
Definition is_char (c : ascii) : ascii → bool := fun d => if ascii_dec c d then true else false.

(** [s.split(sep, 1)]: [None] when [sep] does not occur. *)
Fixpoint split1 (sep s : string) : option (string * string) :=
  if startswith sep s then Some ("", sdrop (String.length sep) s)
  else match s with
       | "" => None
       | String c s' => prod_map (String c) id <$> split1 sep s'
       end.

(** [s.split(c)] on one character. *)
Fixpoint split_char (c : ascii) (s : string) : list string :=
  match s with
  | "" => [""]
  | String d s' =>
      if ascii_dec c d then "" :: split_char c s'
      else match split_char c s' with
           | [] => [str1 d]
           | w :: ws => String d w :: ws
           end
  end.

(** [s.rsplit(c, 1)]: the part before and the part after the last [c]. *)
Fixpoint rsplit1 (c : ascii) (s : string) : option (string * string) :=
  match s with
  | "" => None
  | String d s' =>
      match rsplit1 c s' with
      | Some (a, b) => Some (String d a, b)
      | None => if ascii_dec c d then Some ("", s') else None
      end
  end.

(** [s.replace(a, b)] on one-character [a]. *)
Definition replace_char (a b : ascii) : string → string :=
  smap (fun c => if ascii_dec c a then b else c).

(** [s.count(c)] on one character. *)
Fixpoint count_char (c : ascii) (s : string) : nat :=
  match s with "" => 0 | String d s' => (if ascii_dec c d then 1 else 0) + count_char c s' end.

(** The line boundaries of [str.splitlines] in ASCII; [\r\n] counts once. *)
Definition is_line_break (c : ascii) : bool := between 10 13 c || between 28 30 c.
Fixpoint splitlines_go (cur : string) (s : string) : list string :=
  match s with
  | "" => match cur with "" => [] | _ => [String.rev cur] end
  | String c s' =>
      if is_line_break c then
        match s' with
        | String d s'' =>
            if bool_decide (code c = 13%N) && bool_decide (code d = 10%N)
            then String.rev cur :: splitlines_go "" s''
            else String.rev cur :: splitlines_go "" s'
        | "" => [String.rev cur]
        end
      else splitlines_go (String c cur) s'
  end.
Definition splitlines : string → list string := splitlines_go "".

Fixpoint join (sep : string) (l : list string) : string :=
  match l with
  | [] => ""
  | [x] => x
  | x :: l' => x +:+ sep +:+ join sep l'
  end.

(** [str(n)] for an integer. *)
Definition str_of_Z (z : Z) : string := pretty z.
Definition str_of_nat (n : nat) : string := pretty n.

(** * Lemmas *)

Lemma sapp_nil_l (s : string) : "" +:+ s = s.
Proof. done. Qed.
Lemma sapp_cons c (s t : string) : String c s +:+ t = String c (s +:+ t).
Proof. done. Qed.
Lemma sapp_nil_r (s : string) : s +:+ "" = s.
Proof. induction s as [|c s IH]; [done|]. by rewrite sapp_cons, IH. Qed.
Lemma sapp_assoc (s t u : string) : (s +:+ t) +:+ u = s +:+ t +:+ u.
Proof. induction s as [|c s IH]; [done|]. by rewrite !sapp_cons, IH. Qed.
Create Rewrite HintDb pystr.
#[export] Hint Rewrite sapp_nil_l sapp_nil_r sapp_cons sapp_assoc : pystr.

Lemma slength_app (s t : string) : String.length (s +:+ t) = String.length s + String.length t.
Proof. induction s as [|c s IH]; [done|]. rewrite sapp_cons. simpl. by rewrite IH. Qed.

Lemma sall_app p s t : sall p (s +:+ t) = sall p s && sall p t.
Proof.
  induction s as [|c s IH]; [done|]. rewrite sapp_cons. simpl. by rewrite IH, andb_assoc.
Qed.

Lemma startswith_spec pre s : startswith pre s = true ↔ ∃ t, s = pre +:+ t.
Proof.
  revert s. induction pre as [|c pre IH]; intros s; simpl.
  { split; [by exists s|done]. }
  destruct s as [|d s].
  { split; [done|]. by intros [t ?]. }
  destruct (ascii_dec c d) as [->|Hne].
  - rewrite IH. split; intros [t Ht]; exists t; [by rewrite sapp_cons, Ht|].
    rewrite sapp_cons in Ht. congruence.
  - split; [done|]. intros [t Ht]. rewrite sapp_cons in Ht. congruence.
Qed.

Lemma startswith_app pre s : startswith pre (pre +:+ s) = true.
Proof. apply startswith_spec. by exists s. Qed.

Lemma contains_spec sub s : contains sub s = true ↔ ∃ a b, s = a +:+ sub +:+ b.
Proof.
  induction s as [|c s IH].
  - simpl. rewrite Bool.orb_false_r, startswith_spec. split.
    + intros [t Ht]. by exists "", t.
    + intros ([|d a] & b & H); [|done]. by exists b.
  - simpl. rewrite Bool.orb_true_iff, startswith_spec, IH. split.
    + intros [[t ->]|(a & b & ->)]; [by exists "", t|]. by exists (String c a), b.
    + intros ([|d a] & b & H); [left; by exists b|].
      rewrite sapp_cons in H. simplify_eq. right. by exists a, b.
Qed.

(** Sequencing of substring occurrences. *)
Lemma contains_mono sub a s b : contains sub s = true → contains sub (a +:+ s +:+ b) = true.
Proof.
  rewrite !contains_spec. intros (x & y & ->). exists (a +:+ x), (y +:+ b).
  by autorewrite with pystr.
Qed.

Lemma split1_spec sep s a b :
  split1 sep s = Some (a, b) → s = a +:+ sep +:+ b.
Proof.
  revert a b. induction s as [|c s IH]; intros a b; simpl.
  - destruct (startswith sep "") eqn:E; [|done].
    apply startswith_spec in E as [t Ht]. destruct sep; [|done]. by intros [= <- <-].
  - destruct (startswith sep (String c s)) eqn:E.
    + intros [= <- <-]. apply startswith_spec in E as [t Ht]. rewrite Ht.
      assert (∀ u v, sdrop (String.length u) (u +:+ v) = v) as Hd.
      { induction u as [|x u IHu]; intros v; [done|]. rewrite sapp_cons. apply IHu. }
      by rewrite Hd.
    + destruct (split1 sep s) as [[a' b']|]; [|done]. intros [= <- <-].
      rewrite sapp_cons. f_equal. by apply IH.
Qed.

Lemma split1_None sep s : split1 sep s = None → contains sep s = false.
Proof.
  induction s as [|c s IH].
  - simpl. by destruct (startswith sep "").
  - simpl. destruct (startswith sep (String c s)) eqn:E; [done|].
    destruct (split1 sep s); [done|]. intros _. by apply IH.
Qed.

#[export] Instance str_of_Z_inj : Inj (=) (=) str_of_Z.
Proof. intros x y. apply (inj pretty). Qed.
#[export] Instance str_of_nat_inj : Inj (=) (=) str_of_nat.
Proof. intros x y. apply (inj pretty). Qed.

(** The lexicographic order used by [sorted] on strings. *)
Definition str_leb (a b : string) : bool := String.leb a b.
Lemma str_leb_total a b : str_leb a b = true ∨ str_leb b a = true.
Proof. apply String.leb_total. Qed.
Lemma str_leb_trans a b c : str_leb a b = true → str_leb b c = true → str_leb a c = true.
Proof.
  unfold str_leb. intros H1%Is_true_true H2%Is_true_true. apply Is_true_true.
  exact (transitivity (R:=String.le) H1 H2).
Qed.
Lemma str_leb_antisym a b : str_leb a b = true → str_leb b a = true → a = b.
Proof. apply String.leb_antisym. Qed.
Lemma str_leb_refl a : str_leb a a = true.
Proof. by destruct (str_leb_total a a). Qed.
#[export] Hint Resolve str_leb_total str_leb_trans str_leb_antisym str_leb_refl : core.

Lemma lower_char_idemp c : lower_char (lower_char c) = lower_char c.
Proof. by destruct c as [[] [] [] [] [] [] [] []]. Qed.
Lemma lower_idemp s : lower (lower s) = lower s.
Proof.
  induction s as [|c s IH]; [done|].
  change (String (lower_char (lower_char c)) (lower (lower s)) = String (lower_char c) (lower s)).
  by rewrite lower_char_idemp, IH.
Qed.

(** [strip] removes exactly the outer characters of the class. *)
Lemma rstrip_nil p s : sall p s = true → rstrip p s = "".
Proof.
  induction s as [|c s IH]; simpl; [done|]. intros [Hc Hs]%Bool.andb_true_iff.
  by rewrite (IH Hs), Hc.
Qed.
Lemma lstrip_app p s t : sall p s = true → lstrip p (s +:+ t) = lstrip p t.
Proof.
  induction s as [|c s IH]; [done|]. rewrite sapp_cons. simpl.
  intros [Hc Hs]%Bool.andb_true_iff. rewrite Hc. by apply IH.
Qed.

Example split1_ex : split1 "=" "--token=a=b" = Some ("--token", "a=b").
Proof. reflexivity. Qed.
Example splitlines_ex : splitlines ("a" +:+ nl +:+ nl +:+ "b" +:+ nl) = ["a"; ""; "b"].
Proof. reflexivity. Qed.
Example strip_ex : strip "  a b " = "a b".
Proof. reflexivity. Qed.
