(* ===== verification/PyFloat.v ===== *)
(** Python's [float]: IEEE-754 binary64, on the Standard Library's executable
    specification of floating-point numbers ([SpecFloat], axiom-free).

    Literals are correctly rounded quotients of integers, arithmetic is the rounded
    arithmetic of the format (53 bits, maximal exponent 1024), and [f_repr] is the shortest
    decimal that reads back to the same number, laid out as Python's [repr]. *)
From Stdlib Require Export SpecFloat.
From S2P Require Import Prelude PyStr.

Abbreviation float := spec_float.

#[export] Instance spec_float_eq_dec : EqDecision spec_float.
Proof. solve_decision. Defined.

Definition f_zero : float := S754_zero false.
Definition f_ratio (neg : bool) (p q : positive) : float :=
  SFdiv 53 1024 (S754_finite neg p 0) (S754_finite false q 0).

(** The binary64 number nearest to [n / d]: [f_lit 95 100] is the literal [0.95]. *)
Definition f_lit (n : Z) (d : positive) : float :=
  match n with
  | Z0 => f_zero
  | Zpos p => f_ratio false p d
  | Zneg p => f_ratio true p d
  end.
Definition f_of_Z (n : Z) : float := f_lit n 1.

Definition f_add : float → float → float := SFadd 53 1024.
Definition f_mul : float → float → float := SFmul 53 1024.
Definition f_eqb : float → float → bool := SFeqb.
Definition f_ltb : float → float → bool := SFltb.
Definition f_leb : float → float → bool := SFleb.
(** [max(a, b)] and [min(a, b)] return the first argument unless the second wins. *)
Definition f_max (a b : float) : float := if f_ltb a b then b else a.
Definition f_min (a b : float) : float := if f_ltb b a then b else a.
Definition f_nonzero (f : float) : bool := match f with S754_zero _ => false | _ => true end.

(** [int(f)]: truncation, with the two exceptions of non-finite arguments. *)
Definition f_trunc (f : float) : res Z :=
  match f with
  | S754_zero _ => Ok 0%Z
  | S754_infinity _ => Raise OverflowError
  | S754_nan => Raise (ValueError "cannot convert float NaN to integer")
  | S754_finite s m e =>
      let a := if (0 <=? e)%Z then (Zpos m * 2 ^ e)%Z else (Zpos m / 2 ^ (- e))%Z in
      Ok (if s then (- a)%Z else a)
  end.

(** ** [repr] *)

Definition f_num (m : positive) (e : Z) : Z := if (0 <=? e)%Z then (Zpos m * 2 ^ e)%Z else Zpos m.
Definition f_den (e : Z) : Z := if (0 <=? e)%Z then 1%Z else (2 ^ (- e))%Z.

(** The [k] with [10^(k-1) <= num/den < 10^k]. *)
Fixpoint dec_zeros (fuel : nat) (num den : Z) : Z :=
  match fuel with
  | 0 => 0%Z
  | S n => if (den <=? num * 10)%Z then 0%Z else (dec_zeros n (num * 10) den - 1)%Z
  end.
Definition dec_exp (num den : Z) : Z :=
  if (den <=? num)%Z then Z.of_nat (String.length (str_of_Z (num / den)))
  else dec_zeros 400 num den.

Definition pos_of (z : Z) : positive := match z with Zpos p => p | _ => 1%positive end.
Definition f_of_dec (q k : Z) : float :=
  if (0 <=? k)%Z then f_lit (q * 10 ^ k) 1 else f_lit q (pos_of (10 ^ (- k))).

(** Candidates of [n] digits, nearest first. *)
Definition dec_candidates (num den k n : Z) : list Z :=
  let sh := (n - k)%Z in
  let a := if (0 <=? sh)%Z then (num * 10 ^ sh)%Z else num in
  let b := if (0 <=? sh)%Z then den else (den * 10 ^ (- sh))%Z in
  let lo := (a / b)%Z in
  let r := (a - lo * b)%Z in
  if (2 * r <? b)%Z then [lo; lo + 1]%Z
  else if (b <? 2 * r)%Z then [lo + 1; lo]%Z
  else if Z.even lo then [lo; lo + 1]%Z else [lo + 1; lo]%Z.

Fixpoint shortest (fuel : nat) (n : Z) (f : float) (num den k : Z) : Z * Z :=
  match fuel with
  | 0 => (0, 0)%Z
  | S fuel' =>
      match find_first (fun q => f_eqb (f_of_dec q (k - n)) f) (dec_candidates num den k n) with
      | Some q => (q, k - n)%Z
      | None => shortest fuel' (n + 1) f num den k
      end
  end.

Fixpoint zeros (n : nat) : string := match n with 0 => "" | S n' => String "0" (zeros n') end.

Definition f_layout (ds : string) (decpt : Z) : string :=
  let n := Z.of_nat (String.length ds) in
  if (-4 <? decpt)%Z && (decpt <=? 16)%Z then
    if (decpt <=? 0)%Z then "0." +:+ zeros (Z.to_nat (- decpt)) +:+ ds
    else if (n <=? decpt)%Z then ds +:+ zeros (Z.to_nat (decpt - n)) +:+ ".0"
    else stake (Z.to_nat decpt) ds +:+ "." +:+ sdrop (Z.to_nat decpt) ds
  else
    let ex := (decpt - 1)%Z in
    let digits := str_of_Z (Z.abs ex) in
    stake 1 ds +:+ (if (1 <? n)%Z then "." +:+ sdrop 1 ds else "") +:+ "e"
      +:+ (if (ex <? 0)%Z then "-" else "+")
      +:+ (if String.length digits <? 2 then "0" +:+ digits else digits).

Definition f_repr (f : float) : string :=
  match f with
  | S754_zero s => if s then "-0.0" else "0.0"
  | S754_infinity s => if s then "-inf" else "inf"
  | S754_nan => "nan"
  | S754_finite s m e =>
      let num := f_num m e in let den := f_den e in
      let k := dec_exp num den in
      let '(q, ex) := shortest 17 1 (S754_finite false m e) num den k in
      let ds := str_of_Z q in
      let stripped := rstrip (is_char "0") ds in
      (if s then "-" else "") +:+ f_layout stripped (ex + Z.of_nat (String.length ds))
  end.

Example f_repr_sum : f_repr (f_add (f_add (f_lit 30 100) (f_lit 25 100)) (f_lit 15 100))
                     = "0.7000000000000001".
Proof. vm_compute. reflexivity. Qed.
Example f_repr_small : f_repr (f_lit 1 10) = "0.1" ∧ f_repr (f_lit 7 1) = "7.0"
                       ∧ f_repr (f_lit 1 1000000) = "1e-06" ∧ f_repr (f_lit (-5) 2) = "-2.5".
Proof. vm_compute. done. Qed.
