(* ===== verification/PyVal.v ===== *)
(** The dynamically typed values ([Any]) the Python code passes around: the values of
    [json.loads], plus tuples.  Dictionaries are association lists in insertion order with
    distinct keys ([wf_val]); the operations below keep that order as Python's [dict] does. *)
From S2P Require Import Prelude PyStr PyFloat.

Inductive pyval : Type :=
| PNone
| PBool (b : bool)
| PInt (z : Z)
| PFloat (f : float)
| PStr (s : string)
| PList (l : list pyval)
| PTuple (l : list pyval)
| PDict (d : list (string * pyval)).

Abbreviation dict := (list (string * pyval)).

(** Induction that reaches into lists and dictionaries. *)
Section pyval_ind.
Context (P : pyval → Prop).
Context (HNone : P PNone) (HBool : ∀ b, P (PBool b)) (HInt : ∀ z, P (PInt z))
        (HFloat : ∀ f, P (PFloat f)) (HStr : ∀ s, P (PStr s))
        (HList : ∀ l, Forall P l → P (PList l))
        (HTuple : ∀ l, Forall P l → P (PTuple l))
        (HDict : ∀ d, Forall (fun kv => P kv.2) d → P (PDict d)).

Fixpoint pyval_ind' (v : pyval) : P v :=
  match v with
  | PNone => HNone
  | PBool b => HBool b
  | PInt z => HInt z
  | PFloat f => HFloat f
  | PStr s => HStr s
  | PList l => HList l ((fix go l : Forall P l :=
      match l with [] => Forall_nil_2 _ | x :: l' => Forall_cons_2 _ _ _ (pyval_ind' x) (go l') end) l)
  | PTuple l => HTuple l ((fix go l : Forall P l :=
      match l with [] => Forall_nil_2 _ | x :: l' => Forall_cons_2 _ _ _ (pyval_ind' x) (go l') end) l)
  | PDict d => HDict d ((fix go d : Forall (fun kv => P kv.2) d :=
      match d with
      | [] => Forall_nil_2 _
      | (k, x) :: d' => Forall_cons_2 _ (k, x) _ (pyval_ind' x) (go d')
      end) d)
  end.
End pyval_ind.

Fixpoint pyval_eq_dec_aux (v w : pyval) {struct v} : {v = w} + {v ≠ w}.
Proof.
  decide equality; try apply bool_dec; try apply Z.eq_dec; try apply spec_float_eq_dec;
    try apply string_dec; repeat (decide equality; try apply string_dec).
Defined.
#[export] Instance pyval_eq_dec : EqDecision pyval := pyval_eq_dec_aux.

(** * Dictionaries *)

Section dicts.
Context {V : Type}.
Implicit Types d : list (string * V).

Fixpoint dget (k : string) (d : list (string * V)) : option V :=
  match d with
  | [] => None
  | (k', v) :: d' => if decide (k = k') then Some v else dget k d'
  end.

(** [d[k] = v]: an existing key keeps its place, a new one goes last. *)
Fixpoint dset (k : string) (v : V) (d : list (string * V)) : list (string * V) :=
  match d with
  | [] => [(k, v)]
  | (k', v') :: d' => if decide (k = k') then (k, v) :: d' else (k', v') :: dset k v d'
  end.

(** [d.pop(k, None)] without the returned value. *)
Definition ddel (k : string) d : list (string * V) :=
  filterb (fun kv => negb (bool_decide (k = kv.1))) d.

(** [d.update(e)] and [{**d, **e}]. *)
Definition dupdate d (e : list (string * V)) : list (string * V) :=
  foldl (fun acc kv => dset kv.1 kv.2 acc) d e.

Definition dhas (k : string) d : bool := match dget k d with Some _ => true | None => false end.

Definition dkeys d : list string := map fst d.

Lemma dget_dset_eq k v d : dget k (dset k v d) = Some v.
Proof.
  induction d as [|[k' v'] d IH]; simpl; [by rewrite decide_True|].
  destruct (decide (k = k')) as [->|]; simpl; [by rewrite decide_True|].
  by rewrite decide_False.
Qed.

Lemma dget_dset_ne k k' v d : k ≠ k' → dget k (dset k' v d) = dget k d.
Proof.
  intros Hne. induction d as [|[k0 v0] d IH]; simpl; [by rewrite decide_False|].
  destruct (decide (k' = k0)) as [->|]; simpl.
  - by rewrite !decide_False.
  - by destruct (decide (k = k0)).
Qed.

Lemma dget_dset k k' v d : dget k (dset k' v d) = if decide (k = k') then Some v else dget k d.
Proof. case_decide as H; [subst; apply dget_dset_eq|by apply dget_dset_ne]. Qed.

Lemma dget_Some_elem k v d : dget k d = Some v → (k, v) ∈ d.
Proof.
  induction d as [|[k' v'] d IH]; simpl; [done|].
  case_decide; [intros [= ->]; subst; set_solver|]. intros; right; auto.
Qed.

Lemma dget_None k d : dget k d = None ↔ k ∉ dkeys d.
Proof.
  unfold dkeys. induction d as [|[k' v'] d IH]; simpl; [set_solver|].
  case_decide; [subst; set_solver|]. rewrite IH. set_solver.
Qed.

Lemma dget_elem k v d : NoDup (dkeys d) → (k, v) ∈ d → dget k d = Some v.
Proof.
  unfold dkeys. induction d as [|[k' v'] d IH]; simpl; [set_solver|].
  intros [Hn Hd]%NoDup_cons [Heq|Hin]%elem_of_cons; [simplify_eq; by rewrite decide_True|].
  rewrite decide_False; [auto|]. intros ->. apply Hn. apply list_elem_of_fmap.
  by exists (k', v).
Qed.

Lemma dset_keys k v d : dkeys (dset k v d) = if dhas k d then dkeys d else dkeys d ++ [k].
Proof.
  unfold dhas, dkeys. induction d as [|[k' v'] d IH]; simpl; [done|].
  case_decide; simpl; [by subst|]. rewrite IH. by destruct (dget k d).
Qed.

Lemma dset_NoDup k v d : NoDup (dkeys d) → NoDup (dkeys (dset k v d)).
Proof.
  intros Hd. rewrite dset_keys. unfold dhas. destruct (dget k d) eqn:E; [done|].
  apply NoDup_app. split; [done|]. split; [|apply NoDup_singleton].
  apply dget_None in E. set_solver.
Qed.

Lemma dget_ddel_eq k d : dget k (ddel k d) = None.
Proof.
  apply dget_None. unfold dkeys, ddel. intros (x & -> & Hx)%list_elem_of_fmap.
  apply elem_of_filterb in Hx as [_ Hx]. breflect. done.
Qed.

Lemma dget_ddel_ne k k' d : k ≠ k' → dget k (ddel k' d) = dget k d.
Proof.
  intros Hne. unfold ddel. induction d as [|[k0 v0] d IH]; simpl; [done|].
  case_bool_decide; simpl; [subst; by rewrite decide_False|]. by case_decide.
Qed.

Lemma dget_app k d e : dget k (d ++ e) = match dget k d with Some v => Some v | None => dget k e end.
Proof. induction d as [|[k0 v0] d IH]; simpl; [done|]. by case_decide. Qed.

Lemma dget_dupdate k d e :
  NoDup (dkeys e) →
  dget k (dupdate d e) = match dget k e with Some v => Some v | None => dget k d end.
Proof.
  unfold dupdate, dkeys. revert d.
  induction e as [|[k0 v0] e IH]; intros d; simpl; [done|].
  intros [Hn He]%NoDup_cons. rewrite IH by done. rewrite dget_dset.
  destruct (decide (k = k0)) as [->|]; destruct (dget _ e) eqn:E; try done. exfalso. apply Hn.
  apply dget_Some_elem in E. apply list_elem_of_fmap. by exists (k0, v).
Qed.

Lemma dupdate_NoDup d e : NoDup (dkeys d) → NoDup (dkeys (dupdate d e)).
Proof.
  unfold dupdate. revert d. induction e as [|[k v] e IH]; intros d Hd; simpl; [done|].
  apply IH. by apply dset_NoDup.
Qed.
End dicts.

Create HintDb pydict.
#[export] Hint Resolve dset_NoDup dupdate_NoDup : pydict.

Lemma dget_map {V W} (f : V → W) k (d : list (string * V)) :
  dget k (map (prod_map id f) d) = f <$> dget k d.
Proof. induction d as [|[k0 v0] d IH]; simpl; [done|]. by case_decide. Qed.

(** All dictionaries inside a value have distinct keys. *)
Fixpoint wf_val (v : pyval) : Prop :=
  match v with
  | PList l | PTuple l => (fix go l := match l with [] => True | x :: l' => wf_val x ∧ go l' end) l
  | PDict d => NoDup (dkeys d) ∧
      (fix go d := match d with [] => True | (_, x) :: d' => wf_val x ∧ go d' end) d
  | _ => True
  end.

Lemma wf_PList l : wf_val (PList l) ↔ Forall wf_val l.
Proof. induction l as [|x l IH]; simpl in *; [done|]. rewrite Forall_cons. naive_solver. Qed.
Lemma wf_PDict d : wf_val (PDict d) ↔ NoDup (dkeys d) ∧ Forall (fun kv => wf_val kv.2) d.
Proof.
  simpl. f_equiv. induction d as [|[k x] d IH]; simpl; [done|]. rewrite Forall_cons. naive_solver.
Qed.

(** The same, decided: witnesses discharge [wf_val] by evaluation. *)
Fixpoint wf_valb (v : pyval) : bool :=
  match v with
  | PList l | PTuple l => forallb wf_valb l
  | PDict d => bool_decide (NoDup (dkeys d)) && forallb (fun kv => wf_valb kv.2) d
  | _ => true
  end.

Lemma wf_valb_wf v : wf_valb v = true → wf_val v.
Proof.
  induction v as [|b|z|f|s|l IH|l IH|d IH] using pyval_ind'; try done.
  1, 2: intros Hf; simpl in Hf; induction IH as [|x l Hx _ IHl]; [done|]; simpl in Hf; apply Bool.andb_true_iff in Hf as [H1 H2];
    split; [by apply Hx|by apply IHl].
  intros [Hn Hf]%Bool.andb_true_iff. apply bool_decide_eq_true in Hn. apply wf_PDict. split; [done|]. clear Hn.
  induction IH as [|x d Hx _ IHd]; [done|]. simpl in Hf. apply Bool.andb_true_iff in Hf as [H1 H2].
  constructor; [by apply Hx|by apply IHd].
Qed.

(** * Truth, equality, conversion *)

Definition truthy (v : pyval) : bool :=
  match v with
  | PNone => false
  | PBool b => b
  | PInt z => negb (z =? 0)%Z
  | PFloat f => f_nonzero f
  | PStr s => nonempty s
  | PList l | PTuple l => match l with [] => false | _ => true end
  | PDict d => match d with [] => false | _ => true end
  end.

(** [a or b] *)
Definition py_or (a b : pyval) : pyval := if truthy a then a else b.

Definition is_dict (v : pyval) : bool := match v with PDict _ => true | _ => false end.
Definition is_list (v : pyval) : bool := match v with PList _ => true | _ => false end.
Definition is_str (v : pyval) : bool := match v with PStr _ => true | _ => false end.

(** An integer equals a float when their exact values agree. *)
Definition Z_f_eqb (z : Z) (f : float) : bool :=
  match f with
  | S754_zero _ => (z =? 0)%Z
  | S754_finite s m e =>
      let n := if s then Zneg m else Zpos m in
      if (0 <=? e)%Z then (z =? n * 2 ^ e)%Z else (z * 2 ^ (- e) =? n)%Z
  | _ => false
  end.
Definition Z_of_bool (b : bool) : Z := if b then 1%Z else 0%Z.

Section list_eqb.
Context (eqb : pyval → pyval → bool).
Fixpoint list_eqb (l m : list pyval) : bool :=
  match l, m with
  | [], [] => true
  | x :: l', y :: m' => eqb x y && list_eqb l' m'
  | _, _ => false
  end.
Fixpoint dict_sub_eqb (d e : dict) : bool :=
  match d with
  | [] => true
  | (k, x) :: d' => match dget k e with Some y => eqb x y | None => false end && dict_sub_eqb d' e
  end.
End list_eqb.

(** [v == w] *)
Fixpoint py_eqb (v w : pyval) : bool :=
  match v, w with
  | PNone, PNone => true
  | PBool a, PBool b => Bool.eqb a b
  | PBool a, PInt z | PInt z, PBool a => (Z_of_bool a =? z)%Z
  | PInt a, PInt b => (a =? b)%Z
  | PInt a, PFloat f | PFloat f, PInt a => Z_f_eqb a f
  | PBool a, PFloat f | PFloat f, PBool a => Z_f_eqb (Z_of_bool a) f
  | PFloat f, PFloat g => f_eqb f g
  | PStr a, PStr b => bool_decide (a = b)
  | PList l, PList m | PTuple l, PTuple m => list_eqb py_eqb l m
  | PDict d, PDict e => (length d =? length e) && dict_sub_eqb py_eqb d e
  | _, _ => false
  end.

(** [v in {"a", "b", ...}]: a list or dict cannot be hashed. *)
Definition in_set (v : pyval) (l : list string) : res bool :=
  match v with
  | PList _ | PDict _ => Raise TypeError
  | _ => Ok (any (fun s => py_eqb v (PStr s)) l)
  end.

Lemma py_eqb_PStr v s : py_eqb v (PStr s) = bool_decide (v = PStr s).
Proof.
  destruct v; try done. change (py_eqb (PStr s0) (PStr s)) with (bool_decide (s0 = s)).
  apply bool_decide_ext. split; [by intros ->|by intros [= ->]].
Qed.

(** Without NaN, a well-formed value equals itself. *)
Fixpoint nan_free (v : pyval) : bool :=
  match v with
  | PFloat S754_nan => false
  | PList l | PTuple l => (fix go l := match l with [] => true | x :: l' => nan_free x && go l' end) l
  | PDict d => (fix go d := match d with [] => true | (_, x) :: d' => nan_free x && go d' end) d
  | _ => true
  end.

Lemma f_eqb_refl f : f ≠ S754_nan → f_eqb f f = true.
Proof.
  destruct f as [|[]| |[] m e]; try done; intros _; unfold f_eqb, SFeqb; simpl;
    by rewrite Z.compare_refl, Pos.compare_cont_refl.
Qed.

Lemma list_eqb_refl l :
  Forall (fun v => nan_free v = true → wf_val v → py_eqb v v = true) l →
  nan_free (PList l) = true → wf_val (PList l) → list_eqb py_eqb l l = true.
Proof.
  induction 1 as [|x l Hx _ IH]; [done|]. simpl. intros [Hn Hl]%Bool.andb_true_iff [Hw Hws].
  by rewrite Hx, IH.
Qed.

Lemma py_eqb_refl v : nan_free v = true → wf_val v → py_eqb v v = true.
Proof.
  induction v as [|b|z|f|s|l IH|l IH|d IH] using pyval_ind'; simpl; try done.
  - by destruct b.
  - by rewrite Z.eqb_refl.
  - intros Hf _. apply f_eqb_refl. by intros ->.
  - intros _ _. by apply bool_decide_eq_true.
  - intros. by apply list_eqb_refl.
  - intros. by apply list_eqb_refl.
  - rewrite Nat.eqb_refl. simpl. intros Hn [Hnd Hw].
    assert (∀ e, e ⊆ d → Forall (fun kv => nan_free kv.2 = true → wf_val kv.2 → py_eqb kv.2 kv.2 = true) e →
      nan_free (PDict e) = true → Forall (fun kv => wf_val kv.2) e → dict_sub_eqb py_eqb e d = true) as Hgo.
    { clear Hn Hw IH. induction e as [|[k x] e IHe]; [done|]. simpl.
      intros Hsub [Hx He]%Forall_cons [Hnx Hne]%Bool.andb_true_iff [Hwx Hwe]%Forall_cons. simpl in *.
      rewrite (dget_elem k x d Hnd) by set_solver. rewrite Hx by done. apply IHe; [set_solver|done..]. }
    apply Hgo; [done..|]. apply (wf_PDict d). done.
Qed.

(** ** [repr] and [str] *)

Definition hex_digit (n : N) : ascii := if (n <? 10)%N then chr (48 + n) else chr (87 + n).
Definition hex2 (n : N) : string := String (hex_digit (n / 16)) (str1 (hex_digit (n mod 16))).

Definition repr_char (q : ascii) (c : ascii) : string :=
  let n := code c in
  if bool_decide (c = ch_bs) || bool_decide (c = q) then bs +:+ str1 c
  else if (n =? 10)%N then bs +:+ "n"
  else if (n =? 13)%N then bs +:+ "r"
  else if (n =? 9)%N then bs +:+ "t"
  else if (n <? 32)%N || (n =? 127)%N then bs +:+ "x" +:+ hex2 n
  else str1 c.
Fixpoint sflat (f : ascii → string) (s : string) : string :=
  match s with "" => "" | String c s' => f c +:+ sflat f s' end.
Definition repr_str (s : string) : string :=
  let q := if contains (str1 ch_sq) s && negb (contains dq s) then ch_dq else ch_sq in
  str1 q +:+ sflat (repr_char q) s +:+ str1 q.

Fixpoint py_repr (v : pyval) : string :=
  match v with
  | PNone => "None"
  | PBool b => if b then "True" else "False"
  | PInt z => str_of_Z z
  | PFloat f => f_repr f
  | PStr s => repr_str s
  | PList l => "[" +:+ join ", " (map py_repr l) +:+ "]"
  | PTuple [x] => "(" +:+ py_repr x +:+ ",)"
  | PTuple l => "(" +:+ join ", " (map py_repr l) +:+ ")"
  | PDict d => "{" +:+ join ", " (map (fun kv => repr_str kv.1 +:+ ": " +:+ py_repr kv.2) d) +:+ "}"
  end.

(** [str(v)] *)
Definition py_str (v : pyval) : string := match v with PStr s => s | _ => py_repr v end.

(** ** [int(v)] *)

Definition digit_val (c : ascii) : option Z :=
  if is_digit c then Some (Z.of_N (code c - 48)) else None.
(** Digits with single underscores between them. *)
Fixpoint digits_to_Z (acc : Z) (s : string) : option Z :=
  match s with
  | "" => Some acc
  | String c s' =>
      match digit_val c with
      | Some d => digits_to_Z (acc * 10 + d) s'
      | None => None
      end
  end.
Fixpoint undigits_to_Z (acc : Z) (prev : bool) (s : string) : option Z :=
  match s with
  | "" => if prev then Some acc else None
  | String c s' =>
      match digit_val c with
      | Some d => undigits_to_Z (acc * 10 + d) true s'
      | None => if bool_decide (c = "_"%char) && prev then undigits_to_Z acc false s' else None
      end
  end.
Definition int_of_str (s : string) : option Z :=
  match strip s with
  | String "-"%char s' => Z.opp <$> undigits_to_Z 0 false s'
  | String "+"%char s' => undigits_to_Z 0 false s'
  | s' => undigits_to_Z 0 false s'
  end.
Definition py_int (v : pyval) : res Z :=
  match v with
  | PBool b => Ok (Z_of_bool b)
  | PInt z => Ok z
  | PFloat f => f_trunc f
  | PStr s => match int_of_str s with
              | Some z => Ok z
              | None => Raise (ValueError "invalid literal for int()")
              end
  | _ => Raise TypeError
  end.

(** ** Member access *)

(** [v.get(k)]: only dictionaries have the method. *)
Definition py_get (v : pyval) (k : string) : res pyval :=
  match v with
  | PDict d => Ok (default PNone (dget k d))
  | _ => Raise AttributeError
  end.
(** [v.get(k, dflt)] *)
Definition py_get_or (v : pyval) (k : string) (dflt : pyval) : res pyval :=
  match v with
  | PDict d => Ok (default dflt (dget k d))
  | _ => Raise AttributeError
  end.
(** [v[k]] with a string key. *)
Definition py_item (v : pyval) (k : string) : res pyval :=
  match v with
  | PDict d => match dget k d with Some x => Ok x | None => Raise KeyError end
  | _ => Raise TypeError
  end.

(** Lookups on a value known to be a dictionary. *)
Definition dgetd (d : dict) (k : string) (dflt : pyval) : pyval := default dflt (dget k d).
Definition dget0 (d : dict) (k : string) : pyval := dgetd d k PNone.

Example py_repr_ex :
  py_repr (PDict [("a", PList [PInt (-3); PNone]); ("b'", PStr "x")])
  = "{'a': [-3, None], " +:+ dq +:+ "b'" +:+ dq +:+ ": 'x'}".
Proof. vm_compute. reflexivity. Qed.
Example py_int_ex : py_int (PStr " -1_0 ") = Ok (-10)%Z ∧ py_int (PStr "1__0") = Raise (ValueError "invalid literal for int()").
Proof. by vm_compute. Qed.
