(* ===== verification/Regex.v ===== *)
(** Python's [re] on the constructs the source uses.

    [regex] is the syntax, [rm] the backtracking matcher with Python's preference order
    (leftmost alternative first, greedy or lazy repetition), [denote] its declarative
    meaning.  [rm_sound] and [rm_complete] relate the two, and [re_search] / [re_finditer] /
    [re_sub] are the library functions on top of it.  [re_compile] reads the concrete
    pattern syntax, so the components write the patterns as the source does. *)
From S2P Require Import Prelude PyStr.

Abbreviation text := (list ascii).

Inductive regex : Type :=
| REps
| RSet (p : ascii → bool)
| RSeq (a b : regex)
| RAlt (a b : regex)
| RStar (greedy : bool) (a : regex)
| RGroup (n : nat) (a : regex)
| RWordB        (* \b *)
| RBol          (* ^ with re.MULTILINE *)
| REol          (* $ with re.MULTILINE *)
| RStart        (* ^ *)
| RDollar       (* $ *)
| REnd          (* \Z *)
| RLook (a : regex).

(** A position: the characters before it, nearest first, and those after it. *)
Definition pos : Type := text * text.

Record st : Type := St { st_pos : pos; st_caps : list (nat * text) }.

Definition is_word (c : ascii) : bool := is_alnum c || is_char "_" c.
Definition head_word (t : text) : bool := match t with c :: _ => is_word c | [] => false end.
Definition word_boundary (p : pos) : bool := xorb (head_word p.1) (head_word p.2).
Definition at_bol (p : pos) : bool := match p.1 with [] => true | c :: _ => is_char ch_nl c end.
Definition at_eol (p : pos) : bool := match p.2 with [] => true | c :: _ => is_char ch_nl c end.
Definition at_start (p : pos) : bool := match p.1 with [] => true | _ => false end.
Definition at_end (p : pos) : bool := match p.2 with [] => true | _ => false end.
Definition at_dollar (p : pos) : bool :=
  match p.2 with [] => true | [c] => is_char ch_nl c | _ => false end.

(** The text between two positions, the second reached from the first. *)
Definition consumed (p q : pos) : text := rev (take (length q.1 - length p.1) q.1).

Definition shorter (p q : pos) : bool := length q.2 <? length p.2.

Definition orelse {A} (x : option A) (y : unit → option A) : option A :=
  match x with Some a => Some a | None => y () end.

(** A guard; an abbreviation, so that evaluation stays lazy in the continuation. *)
Abbreviation when b x := (if b then x else None).

Fixpoint rm (r : regex) (s : st) (k : st → option st) {struct r} : option st :=
  match r with
  | REps => k s
  | RSet p => match (st_pos s).2 with
              | c :: t => when (p c) (k (St (c :: (st_pos s).1, t) (st_caps s)))
              | [] => None
              end
  | RSeq a b => rm a s (fun s' => rm b s' k)
  | RAlt a b => orelse (rm a s k) (fun _ => rm b s k)
  | RStar greedy a =>
      (fix star (n : nat) (s : st) : option st :=
         let again (_ : unit) := match n with
           | 0 => None
           | S n' => rm a s (fun s' => when (shorter (st_pos s) (st_pos s')) (star n' s'))
           end in
         if greedy then orelse (again ()) (fun _ => k s) else orelse (k s) again)
      (length (st_pos s).2) s
  | RGroup n a => rm a s (fun s' =>
      k (St (st_pos s') ((n, consumed (st_pos s) (st_pos s')) :: st_caps s')))
  | RWordB => when (word_boundary (st_pos s)) (k s)
  | RBol => when (at_bol (st_pos s)) (k s)
  | REol => when (at_eol (st_pos s)) (k s)
  | RStart => when (at_start (st_pos s)) (k s)
  | RDollar => when (at_dollar (st_pos s)) (k s)
  | REnd => when (at_end (st_pos s)) (k s)
  | RLook a => match rm a s Some with Some _ => k s | None => None end
  end.

(** Declarative meaning: the positions a pattern can lead from and to. *)
Fixpoint denote (r : regex) (p q : pos) : Prop :=
  match r with
  | REps => q = p
  | RSet f => ∃ c t, p.2 = c :: t ∧ f c = true ∧ q = (c :: p.1, t)
  | RSeq a b => ∃ m, denote a p m ∧ denote b m q
  | RAlt a b => denote a p q ∨ denote b p q
  | RStar _ a => rtc (fun p q => denote a p q ∧ shorter p q = true) p q
  | RGroup _ a => denote a p q
  | RWordB => q = p ∧ word_boundary p = true
  | RBol => q = p ∧ at_bol p = true
  | REol => q = p ∧ at_eol p = true
  | RStart => q = p ∧ at_start p = true
  | RDollar => q = p ∧ at_dollar p = true
  | REnd => q = p ∧ at_end p = true
  | RLook a => q = p ∧ ∃ q', denote a p q'
  end.

Lemma orelse_Some {A} (x : option A) y a :
  orelse x y = Some a ↔ x = Some a ∨ (x = None ∧ y () = Some a).
Proof. destruct x; simpl; naive_solver. Qed.
Lemma orelse_None {A} (x : option A) y : orelse x y = None ↔ x = None ∧ y () = None.
Proof. destruct x; simpl; naive_solver. Qed.
Lemma when_Some {A} (b : bool) (x : option A) a : when b x = Some a ↔ b = true ∧ x = Some a.
Proof. destruct b; naive_solver. Qed.

(** The matcher only goes where the pattern leads. *)
Lemma rm_sound r s k x :
  rm r s k = Some x → ∃ s', denote r (st_pos s) (st_pos s') ∧ k s' = Some x.
Proof.
  revert s k x. induction r as [|p|a IHa b IHb|a IHa b IHb|g a IHa|n a IHa| | | | | | |a IHa];
    intros s k x; simpl.
  - naive_solver.
  - destruct s as [[bef [|c aft]] cs]; simpl; [done|]. intros [Hp Hk]%when_Some. naive_solver.
  - intros (s1 & H1 & (s2 & H2 & Hk)%IHb)%IHa. naive_solver.
  - intros [(s' & ? & ?)%IHa | [_ (s' & ? & ?)%IHb]]%orelse_Some; naive_solver.
  - generalize (length (st_pos s).2) as n. intros n. revert s. induction n as [|n IHn]; intros s.
    + intros Hm. exists s. split; [constructor|].
      by destruct g; apply orelse_Some in Hm as [?|[_ ?]].
    + intros Hm.
      assert (k s = Some x ∨ ∃ s', (denote a (st_pos s) (st_pos s') ∧ shorter (st_pos s) (st_pos s') = true) ∧
         ∃ s'', rtc (fun p q => denote a p q ∧ shorter p q = true) (st_pos s') (st_pos s'') ∧ k s'' = Some x)
        as [?|(s' & Hs' & s'' & Hr & Hk)].
      { destruct g; apply orelse_Some in Hm as [Hm|[_ Hm]]; try (by left);
          right; apply IHa in Hm as (s' & Hd & [Hsh Hm]%when_Some);
          apply IHn in Hm as (s'' & ? & ?); naive_solver. }
      * exists s. split; [constructor|done].
      * exists s''. split; [by eapply rtc_l|done].
  - intros (s' & Hd & Hk)%IHa. eexists. split; [|exact Hk]. done.
  - intros [? ?]%when_Some. naive_solver.
  - intros [? ?]%when_Some. naive_solver.
  - intros [? ?]%when_Some. naive_solver.
  - intros [? ?]%when_Some. naive_solver.
  - intros [? ?]%when_Some. naive_solver.
  - intros [? ?]%when_Some. naive_solver.
  - destruct (rm a s Some) as [s1|] eqn:E; [|done]. intros Hk. exists s. split; [|done].
    apply IHa in E as (s' & Hd & _). naive_solver.
Qed.

(** If the pattern leads to a position the continuation accepts, the matcher succeeds. *)
Lemma rm_complete r s k q :
  denote r (st_pos s) q → (∀ s', st_pos s' = q → k s' ≠ None) → rm r s k ≠ None.
Proof.
  revert s k q. induction r as [|p|a IHa b IHb|a IHa b IHb|g a IHa|n a IHa| | | | | | |a IHa];
    intros s k q; simpl.
  - intros -> Hk. by apply Hk.
  - intros (c & t & Hp & Hc & ->) Hk. rewrite Hp, Hc. simpl. by apply Hk.
  - intros (m & Ha & Hb) Hk. eapply IHa; [exact Ha|]. intros s' <-. by eapply IHb.
  - intros [Ha|Hb] Hk Hn; apply orelse_None in Hn as [Hn1 Hn2].
    + by eapply IHa.
    + by eapply IHb.
  - intros Hr Hk. assert (length (st_pos s).2 ≤ length (st_pos s).2) as Hlen by lia. revert Hlen.
    generalize (length (st_pos s).2) at 2 3 as n.
    remember (st_pos s) as p eqn:Hp. revert s Hp.
    induction Hr as [p|p p' q [Hd Hsh] Hr IHr]; intros s -> n Hlen.
    + specialize (Hk s eq_refl).
      destruct n; destruct g; intros Hn; apply orelse_None in Hn as [? ?]; done.
    + destruct n as [|n].
      { unfold shorter in Hsh. apply Nat.ltb_lt in Hsh. lia. }
      assert (rm a s (fun s' => when (shorter (st_pos s) (st_pos s'))
        ((fix star (n : nat) (s : st) : option st :=
         let again (_ : unit) := match n with
           | 0 => None
           | S n' => rm a s (fun s' => when (shorter (st_pos s) (st_pos s')) (star n' s'))
           end in
         if g then orelse (again ()) (fun _ => k s) else orelse (k s) again) n s')) ≠ None) as Hagain.
      { eapply IHa; [exact Hd|]. intros s' <-. rewrite Hsh. simpl.
        apply IHr; [done|done|]. unfold shorter in Hsh. apply Nat.ltb_lt in Hsh. lia. }
      destruct g; intros Hn; apply orelse_None in Hn as [? ?]; done.
  - intros Hd Hk. eapply IHa; [exact Hd|]. intros s' <-. by apply Hk.
  - intros [-> ->] Hk. by apply Hk.
  - intros [-> ->] Hk. by apply Hk.
  - intros [-> ->] Hk. by apply Hk.
  - intros [-> ->] Hk. by apply Hk.
  - intros [-> ->] Hk. by apply Hk.
  - intros [-> ->] Hk. by apply Hk.
  - intros [-> (q' & Hd)] Hk. specialize (IHa s Some q' Hd).
    destruct (rm a s Some); [by apply Hk|]. by destruct IHa.
Qed.

(** * Search *)

Record rmatch : Type := Match { m_start : pos; m_end : pos; m_caps : list (nat * text) }.

Definition match_at (r : regex) (p : pos) : option rmatch :=
  match rm r (St p []) Some with
  | Some s => Some (Match p (st_pos s) (st_caps s))
  | None => None
  end.

(** The leftmost match at or after a position. *)
Fixpoint search_from (r : regex) (bef aft : text) : option rmatch :=
  match match_at r (bef, aft) with
  | Some m => Some m
  | None => match aft with [] => None | c :: t => search_from r (c :: bef) t end
  end.

Definition m_text (m : rmatch) : text := consumed (m_start m) (m_end m).
Definition group (m : rmatch) (n : nat) : option string :=
  (fun c => String.string_of_list_ascii c.2) <$> find_first (fun c => c.1 =? n) (m_caps m).
Definition group0 (m : rmatch) : string := String.string_of_list_ascii (m_text m).
Definition groupd (m : rmatch) (n : nat) : string := default "" (group m n).

(** The non-overlapping matches, each with the text skipped before it, and the final text.
    An empty match moves one character on.  The fuel is one more than the characters left. *)
Fixpoint scan (fuel : nat) (r : regex) (bef aft : text) : list (text * rmatch) * text :=
  match fuel with
  | 0 => ([], aft)
  | S n =>
      match search_from r bef aft with
      | None => ([], aft)
      | Some m =>
          let gap := consumed (bef, aft) (m_start m) in
          match m_end m with
          | (bef', aft') =>
              if shorter (m_start m) (m_end m) then
                let '(ms, tail) := scan n r bef' aft' in ((gap, m) :: ms, tail)
              else match aft' with
                   | [] => ([(gap, m)], [])
                   | c :: t =>
                       let '(ms, tail) := scan n r (c :: bef') t in
                       match ms with
                       | [] => ([(gap, m)], c :: tail)
                       | (g', m') :: ms' => ((gap, m) :: (c :: g', m') :: ms', tail)
                       end
                   end
          end
      end
  end.

Definition explode (s : string) : text := String.list_ascii_of_string s.
Definition implode (t : text) : string := String.string_of_list_ascii t.

Definition re_search (r : regex) (s : string) : option rmatch := search_from r [] (explode s).
Definition re_test (r : regex) (s : string) : bool :=
  match re_search r s with Some _ => true | None => false end.
Definition re_scan (r : regex) (s : string) : list (text * rmatch) * text :=
  scan (S (length (explode s))) r [] (explode s).
Definition re_finditer (r : regex) (s : string) : list rmatch := map snd (re_scan r s).1.
Definition re_sub (r : regex) (f : rmatch → string) (s : string) : string :=
  let '(ms, tail) := re_scan r s in
  foldr (fun gm acc => implode gm.1 +:+ f gm.2 +:+ acc) (implode tail) ms.
Definition re_fullmatch (r : regex) (s : string) : option rmatch :=
  match_at (RSeq r REnd) ([], explode s).

(** ** Specification of search *)

Lemma match_at_Some r p m :
  match_at r p = Some m → m_start m = p ∧ denote r p (m_end m).
Proof.
  unfold match_at. destruct (rm r (St p []) Some) as [s|] eqn:E; [|done]. intros [= <-]; simpl.
  apply rm_sound in E as (s' & Hd & [= ->]). done.
Qed.

Lemma match_at_None r p : match_at r p = None ↔ ∀ q, ¬ denote r p q.
Proof.
  unfold match_at. split.
  - intros H q Hd. apply (rm_complete r (St p []) Some q) in Hd; [|done].
    by destruct (rm r (St p []) Some).
  - intros H. destruct (rm r (St p []) Some) as [s|] eqn:E; [|done].
    apply rm_sound in E as (s' & Hd & _). by apply H in Hd.
Qed.

(** [p] is reached from [bef, aft] by moving right over [w]. *)
Definition moved (bef aft : text) (w : text) (p : pos) : Prop :=
  aft = w ++ p.2 ∧ p.1 = rev w ++ bef.

Lemma search_from_Some r bef aft m :
  search_from r bef aft = Some m →
  ∃ w, moved bef aft w (m_start m) ∧ denote r (m_start m) (m_end m) ∧ match_at r (m_start m) = Some m
       ∧ ∀ w1 w2 c, w = w1 ++ c :: w2 → ∀ q, ¬ denote r (rev w1 ++ bef, c :: w2 ++ (m_start m).2) q.
Proof.
  revert bef. induction aft as [|c aft IH]; intros bef; simpl.
  - destruct (match_at r (bef, [])) as [m'|] eqn:E; [|done]. intros [= ->].
    pose proof (match_at_Some _ _ _ E) as [Hs Hd]. rewrite Hs in *.
    exists []. split_and!; [done..|]. by intros [].
  - destruct (match_at r (bef, c :: aft)) as [m'|] eqn:E.
    + intros [= ->]. pose proof (match_at_Some _ _ _ E) as [Hs Hd]. rewrite Hs in *.
      exists []. split_and!; [done..|]. by intros [].
    + intros (w & [Haft Hbef] & Hd & Hm & Hfirst)%IH. exists (c :: w). split_and!; [|done..|].
      * split; simpl; [by rewrite Haft|]. by rewrite Hbef, <-app_assoc.
      * intros w1 w2 c' Hw q. destruct w1 as [|c1 w1]; simplify_eq/=.
        -- by apply match_at_None.
        -- rewrite <-app_assoc. simpl. by apply Hfirst.
Qed.

Lemma search_from_None r bef aft :
  search_from r bef aft = None ↔ ∀ w p, moved bef aft w p → ∀ q, ¬ denote r p q.
Proof.
  revert bef. induction aft as [|c aft IH]; intros bef; simpl.
  - split.
    + destruct (match_at r (bef, [])) eqn:E; [done|]. intros _ w [b a] [Ha Hb] q. simpl in *.
      symmetry in Ha. apply app_eq_nil in Ha as [-> ->]. subst. by apply match_at_None.
    + intros H. assert (match_at r (bef, []) = None) as ->; [|done].
      apply match_at_None. by apply (H []).
  - split.
    + destruct (match_at r (bef, c :: aft)) eqn:E; [done|]. intros Hs w [b a] [Ha Hb] q. simpl in *.
      destruct w as [|c' w]; simplify_eq/=; [by apply match_at_None|].
      rewrite IH in Hs. apply (Hs w). split; simpl; [done|]. by rewrite <-app_assoc.
    + intros H. assert (match_at r (bef, c :: aft) = None) as ->.
      { apply match_at_None. by apply (H []). }
      apply IH. intros w [b a] [Ha Hb]. apply (H (c :: w)). split; simpl in *; [by rewrite Ha|].
      by rewrite Hb, <-app_assoc.
Qed.

(** ** Text of matches *)

Lemma denote_moved r p q : denote r p q → ∃ w, moved p.1 p.2 w q.
Proof.
  revert p q. induction r as [|f|a IHa b IHb|a IHa b IHb|g a IHa|n a IHa| | | | | | |a IHa];
    intros p q; simpl; try (intros [-> _]; by exists []).
  - intros ->. by exists [].
  - intros (c & t & Hp & _ & ->). by exists [c].
  - intros (m & [w1 [H1 H1']]%IHa & [w2 [H2 H2']]%IHb). exists (w1 ++ w2). split.
    + by rewrite H1, H2, app_assoc.
    + by rewrite H2', H1', rev_app_distr, app_assoc.
  - naive_solver.
  - induction 1 as [p|p p' q [Hd _] _ [w2 [H2 H2']]]; [by exists []|].
    apply IHa in Hd as [w1 [H1 H1']]. exists (w1 ++ w2). split.
    + by rewrite H1, H2, app_assoc.
    + by rewrite H2', H1', rev_app_distr, app_assoc.
  - apply IHa.
Qed.

Lemma consumed_moved p w q : moved p.1 p.2 w q → consumed p q = w.
Proof.
  intros [_ H]. unfold consumed. rewrite H, length_app, length_rev.
  replace (length w + length p.1 - length p.1) with (length (rev w)) by (rewrite length_rev; lia).
  by rewrite take_app_length, rev_involutive.
Qed.

Lemma moved_trans b a w1 p w2 q : moved b a w1 p → moved p.1 p.2 w2 q → moved b a (w1 ++ w2) q.
Proof.
  intros [H1 H1'] [H2 H2']. split; [by rewrite H1, H2, app_assoc|].
  by rewrite H2', H1', rev_app_distr, app_assoc.
Qed.

Lemma search_from_moved r bef aft m :
  search_from r bef aft = Some m →
  ∃ g, moved bef aft g (m_start m) ∧ consumed (bef, aft) (m_start m) = g
       ∧ moved (m_start m).1 (m_start m).2 (m_text m) (m_end m).
Proof.
  intros (g & Hg & Hd & _ & _)%search_from_Some. exists g. split_and!; [done| |].
  - by apply (consumed_moved (bef, aft)).
  - apply denote_moved in Hd as [w Hw]. unfold m_text. by rewrite (consumed_moved _ w).
Qed.

Definition pieces (ms : list (text * rmatch)) : text :=
  concat (map (fun gm => gm.1 ++ m_text gm.2) ms).

(** Scanning loses no text: gaps, matches and the tail spell the input. *)
Lemma scan_text fuel r bef aft ms tail :
  length aft < fuel → scan fuel r bef aft = (ms, tail) → aft = pieces ms ++ tail.
Proof.
  revert bef aft ms tail. induction fuel as [|n IH]; intros bef aft ms tail Hlen; [lia|]. simpl.
  destruct (search_from r bef aft) as [m|] eqn:E; [|by intros [= <- <-]].
  apply search_from_moved in E as (g & [Hg1 _] & Hc & [Hm1 _]). rewrite Hc.
  destruct (m_end m) as [bef' aft'] eqn:Hend. simpl in *.
  destruct (shorter (m_start m) (bef', aft')) eqn:Hs; unfold shorter in Hs; simpl in Hs.
  - destruct (scan n r bef' aft') as [ms' tail'] eqn:E. intros [= <- <-].
    apply Nat.ltb_lt in Hs.
    apply IH in E; [|apply (f_equal length) in Hg1; rewrite length_app in Hg1; lia].
    rewrite Hg1, Hm1, E. unfold pieces. simpl. by rewrite <-!app_assoc.
  - destruct aft' as [|c t].
    { intros [= <- <-]. rewrite Hg1, Hm1. unfold pieces. simpl. by rewrite !app_nil_r. }
    destruct (scan n r (c :: bef') t) as [ms' tail'] eqn:E.
    apply IH in E; [|apply (f_equal length) in Hg1, Hm1; rewrite length_app in Hg1, Hm1; simpl in *; lia].
    destruct ms' as [|[g' m'] ms']; intros [= <- <-]; rewrite Hg1, Hm1, E; unfold pieces; simpl;
      rewrite ?app_nil_r, <-?app_assoc; simpl; by rewrite <-?app_assoc.
Qed.

Lemma implode_explode s : implode (explode s) = s.
Proof. apply String.string_of_list_ascii_of_string. Qed.
Lemma explode_implode t : explode (implode t) = t.
Proof. apply String.list_ascii_of_string_of_list_ascii. Qed.
Lemma explode_app s t : explode (s +:+ t) = explode s ++ explode t.
Proof. induction s as [|c s IH]; [done|]. rewrite sapp_cons. unfold explode in *. simpl. by rewrite IH. Qed.
Lemma implode_app s t : implode (s ++ t) = implode s +:+ implode t.
Proof. induction s as [|c s IH]; [done|]. unfold implode in *. simpl. by rewrite IH, sapp_cons. Qed.

(** Substitution leaves a text with no match alone. *)
Lemma re_sub_no_match r f s : re_search r s = None → re_sub r f s = s.
Proof.
  unfold re_search, re_sub, re_scan. intros H. simpl. rewrite H. simpl. apply implode_explode.
Qed.

Lemma re_test_false r s :
  re_test r s = false ↔ ∀ w p, moved [] (explode s) w p → ∀ q, ¬ denote r p q.
Proof.
  unfold re_test, re_search. rewrite <-search_from_None.
  by destruct (search_from r [] (explode s)).
Qed.

(** Equation of [scan] on a text that starts with a gap-free match. *)
Lemma scan_match n r bef aft m :
  match_at r (bef, aft) = Some m → shorter (bef, aft) (m_end m) = true →
  scan (S n) r bef aft =
    let '(ms, tail) := scan n r (m_end m).1 (m_end m).2 in (([], m) :: ms, tail).
Proof.
  intros Hm Hs. pose proof (match_at_Some _ _ _ Hm) as [Hst _].
  assert (search_from r bef aft = Some m) as Hsearch by (by destruct aft; simpl; rewrite Hm).
  simpl. rewrite Hsearch, Hst, Hs. unfold consumed. simpl. rewrite Nat.sub_diag.
  by destruct (m_end m).
Qed.

(** * Concrete syntax *)

Record flags : Type := Flags { fl_i : bool; fl_m : bool; fl_s : bool }.

Definition ci (p : ascii → bool) (c : ascii) : bool := p (lower_char c) || p (upper_char c).
Definition with_ci (fl : flags) (p : ascii → bool) : ascii → bool := if fl_i fl then ci p else p.
Definition not_nl (c : ascii) : bool := negb (is_char ch_nl c).

(** The class of [\s], [\d], [\w] and their complements, or an escaped character. *)
Definition esc_class (c : ascii) : ascii → bool :=
  match c with
  | "s"%char => is_space
  | "S"%char => fun d => negb (is_space d)
  | "d"%char => is_digit
  | "w"%char => is_word
  | "n"%char => is_char ch_nl
  | "t"%char => is_char (chr 9)
  | _ => is_char c
  end.

(** The items of a character class, after the opening bracket. *)
Fixpoint parse_class (fuel : nat) (acc : ascii → bool) (t : text) : option ((ascii → bool) * text) :=
  match fuel with
  | 0 => None
  | S n =>
      match t with
      | [] => None
      | "]"%char :: t' => Some (acc, t')
      | "\"%char :: c :: t' => parse_class n (fun d => acc d || esc_class c d) t'
      | a :: "-"%char :: "]"%char :: t' =>
          Some (fun d => acc d || is_char a d || is_char "-" d, t')
      | a :: "-"%char :: b :: t' => parse_class n (fun d => acc d || between (code a) (code b) d) t'
      | a :: t' => parse_class n (fun d => acc d || is_char a d) t'
      end
  end.

Fixpoint rrep (n : nat) (a : regex) : regex :=
  match n with 0 => REps | 1 => a | S n' => RSeq a (rrep n' a) end.

Fixpoint parse_num (acc : nat) (t : text) : nat * text :=
  match t with
  | c :: t' => if is_digit c then parse_num (acc * 10 + N.to_nat (code c - 48)) t' else (acc, t)
  | [] => (acc, [])
  end.

(** A quantifier applied to the atom before it. *)
Definition parse_quant (a : regex) (t : text) : regex * text :=
  match t with
  | "*"%char :: "?"%char :: t' => (RStar false a, t')
  | "*"%char :: t' => (RStar true a, t')
  | "+"%char :: "?"%char :: t' => (RSeq a (RStar false a), t')
  | "+"%char :: t' => (RSeq a (RStar true a), t')
  | "?"%char :: t' => (RAlt a REps, t')
  | "{"%char :: t' =>
      let '(n, t1) := parse_num 0 t' in
      match t1 with
      | "}"%char :: t2 => (rrep n a, t2)
      | ","%char :: "}"%char :: t2 => (RSeq (rrep n a) (RStar true a), t2)
      | _ => (a, t)
      end
  | _ => (a, t)
  end.

Fixpoint skip_name (t : text) : text :=
  match t with [] => [] | ">"%char :: t' => t' | _ :: t' => skip_name t' end.

(** Alternation inside a group or the whole pattern; [n] is the next group number. *)
Fixpoint parse_alt (fuel : nat) (fl : flags) (n : nat) (t : text) : option (regex * nat * text) :=
  match fuel with
  | 0 => None
  | S f =>
      match parse_seq f fl n t with
      | None => None
      | Some (a, n', t') =>
          match t' with
          | "|"%char :: t'' =>
              match parse_alt f fl n' t'' with
              | Some (b, n'', t3) => Some (RAlt a b, n'', t3)
              | None => None
              end
          | _ => Some (a, n', t')
          end
      end
  end
with parse_seq (fuel : nat) (fl : flags) (n : nat) (t : text) : option (regex * nat * text) :=
  match fuel with
  | 0 => None
  | S f =>
      match t with
      | [] => Some (REps, n, [])
      | "|"%char :: _ | ")"%char :: _ => Some (REps, n, t)
      | _ =>
          match parse_atom f fl n t with
          | None => None
          | Some (a, n', t') =>
              let '(a', t'') := parse_quant a t' in
              match parse_seq f fl n' t'' with
              | Some (REps, n'', t3) => Some (a', n'', t3)
              | Some (b, n'', t3) => Some (RSeq a' b, n'', t3)
              | None => None
              end
          end
      end
  end
with parse_atom (fuel : nat) (fl : flags) (n : nat) (t : text) : option (regex * nat * text) :=
  match fuel with
  | 0 => None
  | S f =>
      let close (x : option (regex * nat * text)) (g : regex → regex) :=
        match x with Some (a, n', ")"%char :: t') => Some (g a, n', t') | _ => None end in
      match t with
      | "("%char :: "?"%char :: ":"%char :: t' => close (parse_alt f fl n t') id
      | "("%char :: "?"%char :: "="%char :: t' => close (parse_alt f fl n t') RLook
      | "("%char :: "?"%char :: "P"%char :: "<"%char :: t' =>
          close (parse_alt f fl (S n) (skip_name t')) (RGroup n)
      | "("%char :: t' => close (parse_alt f fl (S n) t') (RGroup n)
      | "["%char :: "^"%char :: t' =>
          match parse_class (S (length t')) (fun _ => false) t' with
          | Some (p, t'') => Some (RSet (fun c => negb (with_ci fl p c)), n, t'')
          | None => None
          end
      | "["%char :: t' =>
          match parse_class (S (length t')) (fun _ => false) t' with
          | Some (p, t'') => Some (RSet (with_ci fl p), n, t'')
          | None => None
          end
      | "\"%char :: "b"%char :: t' => Some (RWordB, n, t')
      | "\"%char :: "Z"%char :: t' => Some (REnd, n, t')
      | "\"%char :: c :: t' => Some (RSet (with_ci fl (esc_class c)), n, t')
      | "^"%char :: t' => Some (if fl_m fl then RBol else RStart, n, t')
      | "$"%char :: t' => Some (if fl_m fl then REol else RDollar, n, t')
      | "."%char :: t' => Some (RSet (if fl_s fl then (fun _ => true) else not_nl), n, t')
      | c :: t' => Some (RSet (with_ci fl (is_char c)), n, t')
      | [] => None
      end
  end.

Fixpoint parse_flags (t : text) (fl : flags) : flags * text :=
  match t with
  | "i"%char :: t' => parse_flags t' (Flags true (fl_m fl) (fl_s fl))
  | "m"%char :: t' => parse_flags t' (Flags (fl_i fl) true (fl_s fl))
  | "s"%char :: t' => parse_flags t' (Flags (fl_i fl) (fl_m fl) true)
  | ")"%char :: t' => (fl, t')
  | _ => (fl, t)
  end.

(** Inline flags at the head of a pattern: [(?i)], [(?m)], [(?ms)]. *)
Definition inline_flags (t : text) (fl : flags) : flags * text :=
  match t with
  | "("%char :: "?"%char :: (("i"%char | "m"%char | "s"%char) :: _) as t' =>
      parse_flags (drop 2 t) fl
  | _ => (fl, t)
  end.

(** [re.compile(pattern, flags)]; [None] on a pattern outside the supported syntax. *)
Definition re_compile_opt (ignorecase dotall : bool) (p : string) : option regex :=
  let '(fl, t) := inline_flags (explode p) (Flags ignorecase false dotall) in
  match parse_alt (2 * length t + 8) fl 1 t with
  | Some (r, _, []) => Some r
  | _ => None
  end.

(** A pattern that does not compile would match nothing; [re_compiles] rules that out. *)
Definition RFail : regex := RSet (fun _ => false).
Definition re_compile (p : string) : regex := default RFail (re_compile_opt false false p).
Definition re_compile_i (p : string) : regex := default RFail (re_compile_opt true false p).
Definition re_compile_s (p : string) : regex := default RFail (re_compile_opt false true p).
Definition re_compiles (p : string) : bool :=
  match re_compile_opt false false p with Some _ => true | None => false end.

Example re_ex1 :
  let r := re_compile "(?m)^Ran\s+(\d+)\s+tests?\b" in
  (fun m => groupd m 1) <$> re_search r ("x" +:+ nl +:+ "Ran 12 tests in 3s") = Some "12".
Proof. vm_compute. reflexivity. Qed.
Example re_ex2 :
  re_sub (re_compile "[^A-Za-z0-9_.-]+") (fun _ => "-") "a b/c" = "a-b-c".
Proof. vm_compute. reflexivity. Qed.
Example re_ex3 :
  (fun m => (group0 m, group m 1, group m 2)) <$> re_search (re_compile "a(b|bc)(c)?x{2,}") "zabcxxxy"
  = Some ("abcxxx", Some "b", Some "c").
Proof. vm_compute. reflexivity. Qed.

(** * Deriving the text of matches *)

Fixpoint groupfree (r : regex) : bool :=
  match r with
  | RSeq a b | RAlt a b => groupfree a && groupfree b
  | RStar _ a | RLook a => groupfree a
  | RGroup _ _ => false
  | _ => true
  end.

(** Without groups the matcher leaves the captures alone. *)
Lemma rm_sound_gf r s k x :
  groupfree r = true → rm r s k = Some x →
  ∃ p, denote r (st_pos s) p ∧ k (St p (st_caps s)) = Some x.
Proof.
  revert s k x. induction r as [|p|a IHa b IHb|a IHa b IHb|g a IHa|n a IHa| | | | | | |a IHa];
    intros s k x Hg; simpl in *; try done.
  - intros Hk. exists (st_pos s). by destruct s.
  - destruct s as [[bef [|c aft]] cs]; simpl; [done|]. intros [Hp Hk]%when_Some. eauto 10.
  - apply Bool.andb_true_iff in Hg as [Hga Hgb].
    intros (p1 & H1 & (p2 & H2 & Hk)%IHb)%IHa; [|done..]. eauto.
  - apply Bool.andb_true_iff in Hg as [Hga Hgb].
    intros [(p' & ? & ?)%IHa | [_ (p' & ? & ?)%IHb]]%orelse_Some; eauto.
  - generalize (length (st_pos s).2) as n. intros n. revert s. induction n as [|n IHn]; intros s.
    + intros Hm. exists (st_pos s). split; [constructor|].
      destruct s. by destruct g; apply orelse_Some in Hm as [?|[_ ?]].
    + intros Hm.
      assert (k s = Some x ∨ ∃ p', (denote a (st_pos s) p' ∧ shorter (st_pos s) p' = true) ∧
         ∃ p'', rtc (fun p q => denote a p q ∧ shorter p q = true) p' p'' ∧ k (St p'' (st_caps s)) = Some x)
        as [?|(p' & Hp' & p'' & Hr & Hk)].
      { destruct g; apply orelse_Some in Hm as [Hm|[_ Hm]]; try (by left);
          right; apply IHa in Hm as (p' & Hd & [Hsh Hm]%when_Some); [|done|..|done];
          apply IHn in Hm as (p'' & ? & ?); eauto 10. }
      * exists (st_pos s). split; [constructor|by destruct s].
      * exists p''. split; [by eapply rtc_l|done].
  - intros [? ?]%when_Some. exists (st_pos s). by destruct s.
  - intros [? ?]%when_Some. exists (st_pos s). by destruct s.
  - intros [? ?]%when_Some. exists (st_pos s). by destruct s.
  - intros [? ?]%when_Some. exists (st_pos s). by destruct s.
  - intros [? ?]%when_Some. exists (st_pos s). by destruct s.
  - intros [? ?]%when_Some. exists (st_pos s). by destruct s.
  - destruct (rm a s Some) as [s1|] eqn:E; [|done]. intros Hk. exists (st_pos s). split; [|by destruct s].
    apply IHa in E as (p' & Hd & _); [|done]. eauto.
Qed.

(** Moving right over characters of a class is what a star of that class denotes. *)
Lemma denote_star_set g f p q :
  denote (RStar g (RSet f)) p q ↔ ∃ w, moved p.1 p.2 w q ∧ Forall (fun c => f c = true) w.
Proof.
  simpl. split.
  - induction 1 as [p|p p' q [(c & t & Hp & Hf & ->) _] _ (w & [H1 H2] & Hw)]; [by exists []|].
    simpl in *. subst. exists (c :: w). split; [|by constructor]. split; simpl; [by rewrite Hp|].
    by rewrite H2, <-app_assoc.
  - intros (w & Hm & Hw). revert p Hm. induction Hw as [|c w Hc _ IH]; intros [b a] [H1 H2]; simpl in *.
    + subst. by destruct q.
    + eapply rtc_l; [|apply (IH (c :: b, w ++ q.2)); split; simpl; [done|by rewrite H2, <-app_assoc]].
      split; [by exists c, (w ++ q.2)|]. unfold shorter. simpl. rewrite H1. apply Nat.ltb_lt. simpl. lia.
Qed.

(** A run of a class up to its end is taken whole by a greedy star that ends the pattern. *)
Lemma rm_star_all f bef w rest caps (k : st → option st) :
  Forall (fun c => f c = true) w →
  match rest with [] => True | c :: _ => f c = false end →
  (∀ s, k s ≠ None) →
  rm (RStar true (RSet f)) (St (bef, w ++ rest) caps) k = k (St (rev w ++ bef, rest) caps).
Proof.
  intros Hw Hrest Hk. cbn [rm st_pos snd].
  assert (length w ≤ length (w ++ rest)) as Hlen by (rewrite length_app; lia). revert Hlen.
  generalize (length (w ++ rest)) as n. revert bef. induction Hw as [|c w Hc Hw IH]; intros bef n Hlen.
  - destruct n as [|n]; simpl; [done|]. destruct rest as [|d rest]; simpl; [done|]. by rewrite Hrest.
  - destruct n as [|n]; [simpl in Hlen; lia|]. simpl. rewrite Hc. simpl.
    unfold shorter at 1. simpl.
    assert ((length (w ++ rest) <? S (length (w ++ rest))) = true) as -> by (apply Nat.ltb_lt; lia).
    rewrite (IH (c :: bef) n) by (simpl in Hlen; lia).
    rewrite <-app_assoc. simpl. specialize (Hk (St (rev w ++ c :: bef, rest) caps)).
    by destruct (k (St (rev w ++ c :: bef, rest) caps)).
Qed.

(** Two splits of a text after a run of a class agree. *)
Lemma run_unique f (a b c d : text) :
  Forall (fun x => f x = true) a → Forall (fun x => f x = true) c →
  match b with [] => True | x :: _ => f x = false end →
  match d with [] => True | x :: _ => f x = false end →
  a ++ b = c ++ d → a = c ∧ b = d.
Proof.
  intros Ha. revert c. induction Ha as [|x a Hx Ha IH]; intros c Hc Hb Hd Heq.
  - destruct Hc as [|y c Hy Hc]; [done|]. simpl in *. subst b. simpl in Hb. congruence.
  - destruct Hc as [|y c Hy Hc]; simpl in *.
    + subst d. simpl in Hd. congruence.
    + injection Heq as -> Heq. destruct (IH c Hc Hb Hd Heq) as [-> ->]. done.
Qed.

(** A literal word and an alternation of literal words, ignoring case. *)
Fixpoint rchars (w : text) : regex :=
  match w with
  | [] => REps
  | [c] => RSet (ci (is_char c))
  | c :: w' => RSeq (RSet (ci (is_char c))) (rchars w')
  end.
Fixpoint ralts (ws : list text) : regex :=
  match ws with
  | [] => RFail
  | [w] => rchars w
  | w :: ws' => RAlt (rchars w) (ralts ws')
  end.

Lemma denote_rchars w p q :
  denote (rchars w) p q ↔
  ∃ v, moved p.1 p.2 v q ∧ Forall2 (fun c x => ci (is_char c) x = true) w v.
Proof.
  revert p. induction w as [|c w IH]; intros p.
  { simpl. split; [intros ->; by exists []|]. intros (v & [H1 H2] & Hv). apply Forall2_nil_inv_l in Hv as ->.
    destruct p, q. simpl in *. congruence. }
  assert (denote (rchars (c :: w)) p q ↔ ∃ m, denote (RSet (ci (is_char c))) p m ∧ denote (rchars w) m q) as ->.
  { destruct w; [|done]. simpl. split.
    - intros H. exists q. by split.
    - intros (m & H & ->). done. }
  split.
  - intros (m & (x & t & Hp & Hx & ->) & (v & [H1 H2] & Hv)%IH). simpl in *. exists (x :: v).
    split; [|by constructor]. split; simpl; [congruence|]. by rewrite H2, <-app_assoc.
  - intros (v & [H1 H2] & Hv). destruct v as [|x v]; [by inversion Hv|].
    apply Forall2_cons in Hv as [Hx Hv]. exists (x :: p.1, v ++ q.2). split; [by exists x, (v ++ q.2)|].
    apply IH. exists v. split; [|done]. split; simpl; [done|]. simpl in H2. by rewrite H2, <-app_assoc.
Qed.

Lemma denote_ralts ws p q : denote (ralts ws) p q ↔ ∃ w, w ∈ ws ∧ denote (rchars w) p q.
Proof.
  induction ws as [|w ws IH].
  { simpl. split; [by intros (c & t & _ & ? & _)|]. intros (w & Hw & _). set_solver. }
  assert (denote (ralts (w :: ws)) p q ↔ denote (rchars w) p q ∨ denote (ralts ws) p q) as ->.
  { destruct ws; [|done]. simpl. split; [by left|]. by intros [|(c & t & _ & ? & _)]. }
  rewrite IH. set_solver.
Qed.

(** Sequencing of denotations through the text between. *)
Lemma denote_seq a b p q : denote (RSeq a b) p q ↔ ∃ m, denote a p m ∧ denote b m q.
Proof. done. Qed.
