(* ===== verification/RegexFacts.v ===== *)
(** Further lemmas on patterns: what sequences and repetitions of character classes denote, and
    what the matcher consumes for them. *)
From S2P Require Import Prelude PyStr Regex.

Lemma moved_nil p : moved p.1 p.2 [] p.
Proof. done. Qed.
Lemma moved_nil_inv p q : moved p.1 p.2 [] q → q = p.
Proof. destruct p, q. intros [H1 H2]. simpl in *. by subst. Qed.

(** One character of a class. *)
Lemma denote_set f p q : denote (RSet f) p q ↔ ∃ c, moved p.1 p.2 [c] q ∧ f c = true.
Proof.
  split.
  - intros (c & t & Hp & Hc & ->). by exists c.
  - intros (c & [H1 H2] & Hc). exists c, q.2. destruct q. simpl in *. by subst.
Qed.

(** A concatenation moves over a concatenation. *)
Lemma moved_split p w1 w2 q :
  moved p.1 p.2 (w1 ++ w2) q → ∃ m, moved p.1 p.2 w1 m ∧ moved m.1 m.2 w2 q.
Proof.
  intros [H1 H2]. exists (rev w1 ++ p.1, w2 ++ q.2). split; split; simpl; [|done|done|].
  - by rewrite H1, <-app_assoc.
  - by rewrite H2, rev_app_distr, <-app_assoc.
Qed.

Lemma denote_plus_set f p q :
  denote (RSeq (RSet f) (RStar true (RSet f))) p q ↔ ∃ w, moved p.1 p.2 w q ∧ w ≠ [] ∧ Forall (fun c => f c = true) w.
Proof.
  rewrite denote_seq. split.
  - intros (m & (c & Hc & Hf)%denote_set & (w & Hw & Hall)%denote_star_set). exists (c :: w).
    split; [by apply (moved_trans _ _ [c] m w q)|]. by split; [|constructor].
  - intros (w & Hw & Hn & Hall). destruct w as [|c w]; [done|]. apply Forall_cons in Hall as [Hc Hall].
    apply (moved_split p [c] w) in Hw as (m & H1 & H2). exists m. split; [apply denote_set; eauto|apply denote_star_set; eauto].
Qed.

Lemma denote_rep_set f n p q :
  denote (rrep n (RSet f)) p q ↔ ∃ w, moved p.1 p.2 w q ∧ length w = n ∧ Forall (fun c => f c = true) w.
Proof.
  revert p. induction n as [|n IH]; intros p.
  { simpl. split; [intros ->; by exists []|]. intros (w & Hw & ->%nil_length_inv & _). by apply moved_nil_inv in Hw. }
  assert (denote (rrep (S n) (RSet f)) p q ↔ ∃ m, denote (RSet f) p m ∧ denote (rrep n (RSet f)) m q) as ->.
  { destruct n; [|done]. cbn [rrep]. split; [intros H; by exists q|]. by intros (m & H & ->). }
  setoid_rewrite IH. split.
  - intros (m & (c & Hc & Hf)%denote_set & w & Hw & <- & Hall). exists (c :: w).
    split; [by apply (moved_trans _ _ [c] m w q)|]. by split; [|constructor].
  - intros (w & Hw & Hn & Hall). destruct w as [|c w]; [done|]. apply Forall_cons in Hall as [Hc Hall].
    apply (moved_split p [c] w) in Hw as (m & H1 & H2). exists m.
    split; [apply denote_set; eauto|]. exists w. simpl in Hn. by simplify_eq.
Qed.

(** Characters of given classes one after the other, then the rest. *)
Definition rsets_then (fs : list (ascii → bool)) (r : regex) : regex := foldr (fun f x => RSeq (RSet f) x) r fs.

Lemma denote_sets_then fs r p q :
  denote (rsets_then fs r) p q ↔ ∃ w m, moved p.1 p.2 w m ∧ Forall2 (fun f c => f c = true) fs w ∧ denote r m q.
Proof.
  revert p. induction fs as [|f fs IH]; intros p; simpl.
  { split; [intros H; by exists [], p|]. intros (w & m & Hw & ->%Forall2_nil_inv_l & H). by apply moved_nil_inv in Hw as ->. }
  setoid_rewrite IH. split.
  - intros (m & (c & Hc & Hf)%denote_set & w & m' & Hw & Hall & H). exists (c :: w), m'.
    split; [by apply (moved_trans _ _ [c] m w m')|]. by split; [constructor|].
  - intros (w & m & Hw & Hall & H). apply Forall2_cons_inv_l in Hall as (c & w' & Hc & Hall & ->).
    apply (moved_split p [c] w') in Hw as (m' & H1 & H2). exists m'. split; [apply denote_set; eauto|eauto 10].
Qed.

Lemma rm_sets_then fs r s k x :
  rm (rsets_then fs r) s k = Some x →
  ∃ w m, moved (st_pos s).1 (st_pos s).2 w m ∧ Forall2 (fun f c => f c = true) fs w ∧ rm r (St m (st_caps s)) k = Some x.
Proof.
  revert s. induction fs as [|f fs IH]; intros s; simpl.
  { intros H. exists [], (st_pos s). by destruct s. }
  destruct (st_pos s) as [b [|c t]] eqn:Es; [done|]. cbn [fst snd]. intros [Hf (w & m & Hw & Hall & H)%IH]%when_Some.
  simpl in *. exists (c :: w), m. split; [|by split; [constructor|]]. by apply (moved_trans _ _ [c] (c :: b, t) w m).
Qed.

Lemma is_char_eq c d : is_char c d = true ↔ c = d.
Proof. unfold is_char. by destruct (ascii_dec c d). Qed.

(** The classes of single characters spell a text. *)
Lemma is_char_text t w : Forall2 (fun (f : ascii → bool) c => f c = true) (map is_char t) w ↔ w = t.
Proof.
  revert w. induction t as [|c t IH]; intros w; simpl.
  { split; [by intros ->%Forall2_nil_inv_l|intros ->; constructor]. }
  split.
  - intros (d & w' & Hd%is_char_eq & Hw & ->)%Forall2_cons_inv_l. apply IH in Hw as ->. by subst.
  - intros ->. constructor; [by apply is_char_eq|by apply IH].
Qed.

(** A full match of [^(A)...(D)$] with single characters between the groups. *)
Lemma fullmatch_groups A fs D s m :
  groupfree A = true → groupfree D = true →
  re_fullmatch (RSeq RStart (RSeq (RGroup 1 A) (rsets_then fs (RSeq (RGroup 2 D) RDollar)))) s = Some m →
  ∃ p1 p2 p3, denote A ([], explode s) p1 ∧ denote D p2 p3 ∧ p3.2 = []
    ∧ (∃ v, moved p1.1 p1.2 v p2 ∧ Forall2 (fun f c => f c = true) fs v)
    ∧ groupd m 1 = implode (consumed ([], explode s) p1) ∧ groupd m 2 = implode (consumed p2 p3).
Proof.
  intros HA HD. unfold re_fullmatch, match_at. destruct (rm _ _ _) as [x|] eqn:E; [|done]. intros [= <-]. cbn [rm] in E.
  apply when_Some in E as [_ E]. apply rm_sound_gf in E as (p1 & H1 & E); [|done].
  apply rm_sets_then in E as (v & p2 & Hv & Hl & E). cbn [rm] in E. apply rm_sound_gf in E as (p3 & H3 & E); [|done].
  cbn [rm] in E. apply when_Some in E as [_ [He [= <-]]%when_Some]. cbn [st_pos st_caps] in *.
  exists p1, p2, p3. split; [done|]. split; [done|]. split; [unfold at_end in He; by destruct p3 as [? []]|]. eauto.
Qed.

(** * Evaluation on a text with an unknown tail *)

(** [rm] without the progress test where the body of a repetition is a class, which always
    makes progress; it computes as far as it does not read the tail. *)
Fixpoint rm_free (r : regex) (s : st) (k : st → option st) {struct r} : option st :=
  match r with
  | REps => k s
  | RSet p => match (st_pos s).2 with
              | c :: t => when (p c) (k (St (c :: (st_pos s).1, t) (st_caps s)))
              | [] => None
              end
  | RSeq a b => rm_free a s (fun s' => rm_free b s' k)
  | RAlt a b => orelse (rm_free a s k) (fun _ => rm_free b s k)
  | RStar greedy a =>
      let progress := match a with RSet _ => fun _ _ => true | _ => shorter end in
      (fix star (n : nat) (s : st) : option st :=
         let again (_ : unit) := match n with
           | 0 => None
           | S n' => rm_free a s (fun s' => when (progress (st_pos s) (st_pos s')) (star n' s'))
           end in
         if greedy then orelse (again ()) (fun _ => k s) else orelse (k s) again)
      (length (st_pos s).2) s
  | RGroup n a => rm_free a s (fun s' => k (St (st_pos s') ((n, consumed (st_pos s) (st_pos s')) :: st_caps s')))
  | RWordB => when (word_boundary (st_pos s)) (k s)
  | RBol => when (at_bol (st_pos s)) (k s)
  | REol => when (at_eol (st_pos s)) (k s)
  | RStart => when (at_start (st_pos s)) (k s)
  | RDollar => when (at_dollar (st_pos s)) (k s)
  | REnd => when (at_end (st_pos s)) (k s)
  | RLook a => match rm a s Some with Some _ => k s | None => None end
  end.

Lemma shorter_cons b c t : shorter (b, c :: t) (c :: b, t) = true.
Proof. unfold shorter. apply Nat.ltb_lt. simpl. lia. Qed.

Lemma rm_free_eq r s k k' : (∀ s', k s' = k' s') → rm r s k = rm_free r s k'.
Proof.
  revert s k k'. induction r as [|p|a IHa b IHb|a IHa b IHb|g a IHa|n a IHa| | | | | | |a IHa];
    intros s k k' Hk; cbn [rm rm_free]; try (by rewrite ?Hk).
  - destruct (st_pos s) as [bef [|c t]]; cbn [fst snd]; [done|]. by rewrite Hk.
  - apply IHa. intros s'. by apply IHb.
  - unfold orelse. by rewrite (IHa s k k' Hk), (IHb s k k' Hk).
  - generalize (length (st_pos s).2) as n. intros n. revert s. induction n as [|n IHn]; intros s; [unfold orelse; by rewrite Hk|].
    assert (∀ x y, (∀ s', x s' = y s') →
      rm a s (fun s' => when (shorter (st_pos s) (st_pos s')) (x s'))
      = rm_free a s (fun s' => when (match a with RSet _ => fun _ _ => true | _ => shorter end (st_pos s) (st_pos s')) (y s'))) as Ha.
    { intros x y Hxy. destruct a; try (apply IHa; intros s'; by rewrite Hxy).
      cbn [rm rm_free]. destruct s as [[bef [|c t]] cs]; [done|]. cbn [st_pos st_caps fst snd]. by rewrite shorter_cons, Hxy. }
    unfold orelse in *. rewrite (Ha _ _ IHn). by rewrite Hk.
  - apply IHa. intros s'. by rewrite Hk.
Qed.

Lemma match_at_free r p s : rm_free r (St p []) Some = Some s → match_at r p = Some (Match p (st_pos s) (st_caps s)).
Proof. intros H. unfold match_at. by rewrite (rm_free_eq r _ Some Some), H. Qed.
