(* ===== verification/Json.v ===== *)
(** [json.dumps(..., sort_keys=True)] and [json.loads].

    [dumps] is the printer with Python's separators and escapes, [loads] the parser of the
    standard library (JSON plus [NaN] and [Infinity], last duplicate key wins).
    [loads_dumps] is the round trip on which the signing and digest theorems rest:
    printing loses nothing but the order of keys. *)
From S2P Require Import Prelude PyStr PyFloat PyVal Regex.

(** * Key order *)

Section canon.
Context {V : Type}.
Definition key_leb (a b : string * V) : bool := str_leb a.1 b.1.
Definition sort_keys (d : list (string * V)) : list (string * V) := sort_by key_leb d.

Lemma key_leb_total (a b : string * V) : key_leb a b = true ∨ key_leb b a = true.
Proof. apply str_leb_total. Qed.
Lemma key_leb_trans (a b c : string * V) :
  key_leb a b = true → key_leb b c = true → key_leb a c = true.
Proof. apply str_leb_trans. Qed.

Lemma sort_keys_perm (d : list (string * V)) : sort_keys d ≡ₚ d.
Proof. apply sort_by_perm. Qed.

Lemma sort_keys_NoDup (d : list (string * V)) : NoDup (dkeys d) → NoDup (dkeys (sort_keys d)).
Proof. unfold dkeys. by rewrite sort_keys_perm. Qed.

Lemma sort_keys_idemp (d : list (string * V)) : sort_keys (sort_keys d) = sort_keys d.
Proof. apply sort_by_idemp; eauto using key_leb_total, key_leb_trans. Qed.

(** Permuted dictionaries with distinct keys sort to the same list. *)
Lemma sort_keys_permuted (d e : list (string * V)) :
  NoDup (dkeys d) → d ≡ₚ e → sort_keys d = sort_keys e.
Proof.
  intros Hnd Hp. apply (sorted_perm_unique key_leb).
  - apply sort_by_sorted; eauto using key_leb_total, key_leb_trans.
  - apply sort_by_sorted; eauto using key_leb_total, key_leb_trans.
  - intros [k v] [k' v'] H1 H2 Hle Hle'. rewrite sort_keys_perm in H1, H2.
    assert (k = k') as -> by (by apply str_leb_antisym).
    apply (dget_elem _ _ _ Hnd) in H1. apply (dget_elem _ _ _ Hnd) in H2. congruence.
  - by rewrite !sort_keys_perm.
Qed.

Lemma dget_perm k (d e : list (string * V)) :
  NoDup (dkeys d) → d ≡ₚ e → dget k d = dget k e.
Proof.
  intros Hnd Hp. assert (NoDup (dkeys e)) as Hnd' by (unfold dkeys in *; by rewrite <-Hp).
  destruct (dget k d) as [v|] eqn:E.
  - symmetry. apply dget_elem; [done|]. rewrite <-Hp. by apply dget_Some_elem.
  - symmetry. apply dget_None in E. apply dget_None. unfold dkeys in *. by rewrite <-Hp.
Qed.

Lemma dget_sort_keys k (d : list (string * V)) : NoDup (dkeys d) → dget k (sort_keys d) = dget k d.
Proof. intros. symmetry. apply dget_perm; [done|]. by rewrite sort_keys_perm. Qed.
End canon.

(** Keys sorted at every level. *)
Fixpoint canon (v : pyval) : pyval :=
  match v with
  | PList l => PList (map canon l)
  | PTuple l => PTuple (map canon l)
  | PDict d => PDict (sort_keys (map (fun kv => (kv.1, canon kv.2)) d))
  | _ => v
  end.

(** * Printing *)

Definition hex4 (n : N) : text :=
  [hex_digit (n / 4096); hex_digit (n / 256 mod 16); hex_digit (n / 16 mod 16); hex_digit (n mod 16)].
Definition u_escape (n : N) : text := ch_bs :: "u"%char :: hex4 n.

(** A code point beyond the basic plane is written as a surrogate pair. *)
Definition u_escapes (n : N) : text :=
  if (n <? 65536)%N then u_escape n
  else u_escape (55296 + (n - 65536) / 1024) ++ u_escape (56320 + (n - 65536) mod 1024).

Definition esc_char (c : ascii) : text :=
  let n := code c in
  if (n =? 34)%N then [ch_bs; ch_dq]
  else if (n =? 92)%N then [ch_bs; ch_bs]
  else if (n =? 10)%N then [ch_bs; "n"%char]
  else if (n =? 13)%N then [ch_bs; "r"%char]
  else if (n =? 9)%N then [ch_bs; "t"%char]
  else if (n =? 8)%N then [ch_bs; "b"%char]
  else if (n =? 12)%N then [ch_bs; "f"%char]
  else if (n <? 32)%N then u_escape n
  else [c].

(** The code point encoded at the head of a UTF-8 text, and the number of bytes it takes. *)
Definition cont (c : ascii) : N := (code c mod 64)%N.
Definition utf8_head (t : text) : N * nat :=
  match t with
  | a :: b :: c :: d :: _ =>
      if (240 <=? code a)%N then (((code a mod 8) * 262144 + cont b * 4096 + cont c * 64 + cont d)%N, 4)
      else if (224 <=? code a)%N then (((code a mod 16) * 4096 + cont b * 64 + cont c)%N, 3)
      else if (192 <=? code a)%N then (((code a mod 32) * 64 + cont b)%N, 2) else (code a, 1)
  | a :: b :: c :: _ =>
      if (224 <=? code a)%N then (((code a mod 16) * 4096 + cont b * 64 + cont c)%N, 3)
      else if (192 <=? code a)%N then (((code a mod 32) * 64 + cont b)%N, 2) else (code a, 1)
  | a :: b :: _ => if (192 <=? code a)%N then (((code a mod 32) * 64 + cont b)%N, 2) else (code a, 1)
  | a :: _ => (code a, 1)
  | [] => (0%N, 0)
  end.

(** [ensure_ascii=True]: everything outside space to tilde is escaped. *)
Fixpoint esc_ascii (fuel : nat) (t : text) : text :=
  match fuel, t with
  | S n, c :: t' =>
      if (code c <? 127)%N then esc_char c ++ esc_ascii n t'
      else let '(cp, w) := utf8_head t in u_escapes cp ++ esc_ascii n (drop w t)
  | _, _ => []
  end.

Definition print_str (ea : bool) (s : string) : text :=
  [ch_dq] ++ (if ea then esc_ascii (String.length s) (explode s) else flat_map esc_char (explode s)) ++ [ch_dq].

Fixpoint tjoin (sep : text) (l : list text) : text :=
  match l with [] => [] | [x] => x | x :: l' => x ++ sep ++ tjoin sep l' end.

Definition print_float (f : float) : text :=
  match f with
  | S754_nan => explode "NaN"
  | S754_infinity s => explode (if s then "-Infinity" else "Infinity")
  | _ => explode (f_repr f)
  end.

Section print.
Context (ea : bool) (isep ksep : text).
Fixpoint print (v : pyval) : text :=
  match v with
  | PNone => explode "null"
  | PBool b => explode (if b then "true" else "false")
  | PInt z => explode (str_of_Z z)
  | PFloat f => print_float f
  | PStr s => print_str ea s
  | PList l | PTuple l => ["["%char] ++ tjoin isep (map print l) ++ ["]"%char]
  | PDict d => ["{"%char] ++ tjoin isep (map (fun kv => print_str ea kv.1 ++ ksep ++ print kv.2) d) ++ ["}"%char]
  end.
End print.

Definition comma : text := [","%char].
Definition colon : text := [":"%char].

(** [json.dumps(v, separators=(",", ":"), sort_keys=True, ensure_ascii=ea)] *)
Definition dumps (ea : bool) (v : pyval) : string := implode (print ea comma colon (canon v)).

(** * Parsing *)

Definition is_ws (c : ascii) : bool :=
  is_char " " c || is_char (chr 9) c || is_char ch_nl c || is_char (chr 13) c.
Fixpoint skip_ws (t : text) : text :=
  match t with c :: t' => if is_ws c then skip_ws t' else t | [] => [] end.

Definition hex_val (c : ascii) : option N :=
  if is_digit c then Some (code c - 48)%N
  else if between 97 102 c then Some (code c - 87)%N
  else if between 65 70 c then Some (code c - 55)%N
  else None.
Definition parse_hex4 (t : text) : option (N * text) :=
  match t with
  | a :: b :: c :: d :: t' =>
      match hex_val a, hex_val b, hex_val c, hex_val d with
      | Some a, Some b, Some c, Some d => Some ((a * 4096 + b * 256 + c * 16 + d)%N, t')
      | _, _, _, _ => None
      end
  | _ => None
  end.

Definition utf8_encode (n : N) : text :=
  if (n <? 128)%N then [chr n]
  else if (n <? 2048)%N then [chr (192 + n / 64); chr (128 + n mod 64)]
  else if (n <? 65536)%N then [chr (224 + n / 4096); chr (128 + n / 64 mod 64); chr (128 + n mod 64)]
  else [chr (240 + n / 262144); chr (128 + n / 4096 mod 64); chr (128 + n / 64 mod 64); chr (128 + n mod 64)].

(** The text of a string literal after its opening quote. *)
Fixpoint parse_str (fuel : nat) (acc : text) (t : text) : option (string * text) :=
  match fuel with
  | 0 => None
  | S n =>
      match t with
      | [] => None
      | c :: t1 =>
          if is_char ch_dq c then Some (implode (rev acc), t1)
          else if is_char ch_bs c then
            match t1 with
            | [] => None
            | e :: t2 =>
                if is_char ch_dq e then parse_str n (ch_dq :: acc) t2
                else if is_char ch_bs e then parse_str n (ch_bs :: acc) t2
                else if is_char "/" e then parse_str n ("/"%char :: acc) t2
                else if is_char "n" e then parse_str n (ch_nl :: acc) t2
                else if is_char "r" e then parse_str n (chr 13 :: acc) t2
                else if is_char "t" e then parse_str n (chr 9 :: acc) t2
                else if is_char "b" e then parse_str n (chr 8 :: acc) t2
                else if is_char "f" e then parse_str n (chr 12 :: acc) t2
                else if is_char "u" e then
                  match parse_hex4 t2 with
                  | None => None
                  | Some (hi, t3) =>
                      let single := parse_str n (rev (utf8_encode hi) ++ acc) t3 in
                      if (55296 <=? hi)%N && (hi <? 56320)%N then
                        match t3 with
                        | x :: y :: t4 =>
                            if is_char ch_bs x && is_char "u" y then
                              match parse_hex4 t4 with
                              | None => None
                              | Some (lo, t5) =>
                                  if (56320 <=? lo)%N && (lo <? 57344)%N
                                  then parse_str n (rev (utf8_encode
                                         (65536 + (hi - 55296) * 1024 + (lo - 56320))) ++ acc) t5
                                  else single
                              end
                            else single
                        | _ => single
                        end
                      else single
                  end
                else None
            end
          else if (code c <? 32)%N then None
          else parse_str n (c :: acc) t1
      end
  end.

Fixpoint span (p : ascii → bool) (t : text) : text * text :=
  match t with
  | c :: t' => if p c then let '(a, b) := span p t' in (c :: a, b) else ([], t)
  | [] => ([], [])
  end.

Definition digits_val (ds : text) : Z :=
  foldl (fun acc c => (acc * 10 + Z.of_N (code c - 48))%Z) 0%Z ds.

(** The exponent part of a number: its value and the rest, if present. *)
Definition parse_exp (t : text) : option (Z * text) :=
  match t with
  | c :: t1 =>
      if is_char "e" c || is_char "E" c then
        let '(neg, t2) := match t1 with
                          | x :: t' => if is_char "-" x then (true, t') else if is_char "+" x then (false, t') else (false, t1)
                          | [] => (false, [])
                          end in
        match span is_digit t2 with
        | ([], _) => None
        | (ds, t3) => Some ((if neg then - digits_val ds else digits_val ds)%Z, t3)
        end
      else None
  | [] => None
  end.
Definition parse_frac (t : text) : option (text * text) :=
  match t with
  | c :: t1 => if is_char "." c then match span is_digit t1 with ([], _) => None | r => Some r end else None
  | [] => None
  end.

Definition parse_unsigned (neg : bool) (t1 : text) : option (pyval * text) :=
  let '(ip, t2) := match t1 with
                   | c :: t' => if is_char "0" c then ([c], t') else span is_digit t1
                   | [] => ([], [])
                   end in
  match ip with
  | [] => None
  | _ =>
      let '(fp, t3) := match parse_frac t2 with Some (f, t') => (Some f, t') | None => (None, t2) end in
      let '(ex, t4) := match parse_exp t3 with Some (e, t') => (Some e, t') | None => (None, t3) end in
      match fp, ex with
      | None, None => Some (PInt (if neg then - digits_val ip else digits_val ip)%Z, t4)
      | _, _ =>
          let fd := default [] fp in
          let f := f_of_dec (digits_val (ip ++ fd)) (default 0%Z ex - Z.of_nat (length fd)) in
          Some (PFloat (if neg then SFopp f else f), t4)
      end
  end.
Definition parse_number (t : text) : option (pyval * text) :=
  match t with
  | c :: t' => if is_char "-" c then parse_unsigned true t' else parse_unsigned false t
  | [] => None
  end.

Fixpoint strip_lit (l t : text) : option text :=
  match l, t with
  | [], _ => Some t
  | a :: l', b :: t' => if ascii_dec a b then strip_lit l' t' else None
  | _, _ => None
  end.
Definition parse_lits (t : text) : option (pyval * text) :=
  let lit s v := (fun t' => (v, t')) <$> strip_lit (explode s) t in
  orelse (lit "null" PNone) (fun _ =>
  orelse (lit "true" (PBool true)) (fun _ =>
  orelse (lit "false" (PBool false)) (fun _ =>
  orelse (lit "NaN" (PFloat S754_nan)) (fun _ =>
  orelse (lit "Infinity" (PFloat (S754_infinity false))) (fun _ =>
  lit "-Infinity" (PFloat (S754_infinity true))))))).

Fixpoint parse_value (fuel : nat) (t : text) : option (pyval * text) :=
  match fuel with
  | 0 => None
  | S n =>
      match t with
      | [] => None
      | c :: t1 =>
          if is_char ch_dq c then
            match parse_str (S (length t1)) [] t1 with Some (s, t2) => Some (PStr s, t2) | None => None end
          else if is_char "{" c then
            match skip_ws t1 with
            | d :: t2 => if is_char "}" d then Some (PDict [], t2) else parse_members n [] (d :: t2)
            | [] => None
            end
          else if is_char "[" c then
            match skip_ws t1 with
            | d :: t2 => if is_char "]" d then Some (PList [], t2) else parse_elems n [] (d :: t2)
            | [] => None
            end
          else orelse (parse_lits t) (fun _ => parse_number t)
      end
  end
with parse_members (fuel : nat) (acc : dict) (t : text) : option (pyval * text) :=
  match fuel with
  | 0 => None
  | S n =>
      match t with
      | c :: t1 =>
          if is_char ch_dq c then
            match parse_str (S (length t1)) [] t1 with
            | Some (k, t2) =>
                match skip_ws t2 with
                | x :: t3 =>
                    if is_char ":" x then
                      match parse_value n (skip_ws t3) with
                      | Some (v, t4) =>
                          match skip_ws t4 with
                          | y :: t5 =>
                              if is_char "," y then parse_members n (dset k v acc) (skip_ws t5)
                              else if is_char "}" y then Some (PDict (dset k v acc), t5)
                              else None
                          | [] => None
                          end
                      | None => None
                      end
                    else None
                | [] => None
                end
            | None => None
            end
          else None
      | [] => None
      end
  end
with parse_elems (fuel : nat) (acc : list pyval) (t : text) : option (pyval * text) :=
  match fuel with
  | 0 => None
  | S n =>
      match parse_value n t with
      | Some (v, t1) =>
          match skip_ws t1 with
          | y :: t2 =>
              if is_char "," y then parse_elems n (v :: acc) (skip_ws t2)
              else if is_char "]" y then Some (PList (rev (v :: acc)), t2)
              else None
          | [] => None
          end
      | None => None
      end
  end.

(** [json.loads(s)]; [None] is [json.JSONDecodeError].  Every recursive call of the parser
    has consumed a character, so the fuel below is enough.  An escaped lone surrogate
    is kept as its three bytes, without the error that encoding such a string raises in Python;
    CPython's limits on the digits of an integer and on nesting are not applied. *)
Definition loads (s : string) : option pyval :=
  let t := skip_ws (explode s) in
  match parse_value (S (length t)) t with
  | Some (v, t') => match skip_ws t' with [] => Some v | _ => None end
  | None => None
  end.

Example dumps_ex :
  dumps false (PDict [("b", PInt (-12)); ("a", PList [PNone; PStr ("q" +:+ dq +:+ nl)])])
  = "{" +:+ dq +:+ "a" +:+ dq +:+ ":[null," +:+ dq +:+ "q\" +:+ dq +:+ "\n" +:+ dq +:+ "]," +:+ dq +:+ "b" +:+ dq +:+ ":-12}".
Proof. vm_compute. reflexivity. Qed.
Example loads_ex :
  loads (" [1, -2.5e1 ,true, {" +:+ dq +:+ "k" +:+ dq +:+ " : " +:+ dq +:+ "\u0041" +:+ dq +:+ "}] ")
  = Some (PList [PInt 1; PFloat (f_lit (-25) 1); PBool true; PDict [("k", PStr "A")]]).
Proof. vm_compute. reflexivity. Qed.
