(* ===== verification/JsonFacts.v ===== *)
(** Round trip of the JSON printer and parser: [loads (dumps v) = canon v] on values
    without floats or tuples, and the injectivity that follows from it. *)
From S2P Require Import Prelude PyStr PyFloat PyVal Regex Json.

(** Evaluate the character tests on literal characters. *)
Ltac eval_char t :=
  let b := eval vm_compute in t in
  lazymatch b with true => idtac | false => idtac end; change t with b.
Ltac char_simp :=
  repeat match goal with
  | |- context [is_ws ?c] => eval_char (is_ws c); cbv iota
  | |- context [is_char ?a ?c] => eval_char (is_char a c); cbv iota
  end.

(** * Strings *)

Lemma parse_esc n acc c t : parse_str (S n) acc (esc_char c ++ t) = parse_str n (c :: acc) t.
Proof. by destruct c as [[] [] [] [] [] [] [] []]. Qed.

Lemma parse_flat n acc cs rest :
  length cs < n →
  parse_str n acc (flat_map esc_char cs ++ ch_dq :: rest) = Some (implode (rev acc ++ cs), rest).
Proof.
  revert n acc. induction cs as [|c cs IH]; intros n acc Hn; (destruct n as [|n]; [simpl in *; lia|]).
  - simpl. by rewrite app_nil_r.
  - cbn [flat_map]. rewrite <-app_assoc, parse_esc, IH by (simpl in *; lia).
    simpl. by rewrite <-app_assoc.
Qed.

Lemma esc_char_length c : 1 ≤ length (esc_char c).
Proof. destruct c as [[] [] [] [] [] [] [] []]; vm_compute; lia. Qed.
Lemma flat_esc_length cs : length cs ≤ length (flat_map esc_char cs).
Proof.
  induction cs as [|c cs IH]; simpl; [lia|]. rewrite length_app.
  pose proof (esc_char_length c). lia.
Qed.

Lemma parse_print_str s rest :
  let body := flat_map esc_char (explode s) ++ ch_dq :: rest in
  parse_str (S (length body)) [] body = Some (s, rest).
Proof.
  intros body. unfold body. rewrite parse_flat.
  - cbn [rev app]. by rewrite implode_explode.
  - rewrite length_app. simpl. pose proof (flat_esc_length (explode s)). lia.
Qed.

Lemma print_str_app s rest :
  print_str false s ++ rest = ch_dq :: flat_map esc_char (explode s) ++ ch_dq :: rest.
Proof. unfold print_str. simpl. by rewrite <-app_assoc. Qed.

(** * Integers *)

Lemma digits_val_app a b :
  digits_val (a ++ b) = foldl (fun acc c => (acc * 10 + Z.of_N (code c - 48))%Z) (digits_val a) b.
Proof. unfold digits_val. by rewrite foldl_app. Qed.

Lemma pretty_N_char_digit x :
  (x < 10)%N → is_digit (pretty_N_char x) = true ∧ (code (pretty_N_char x) - 48 = x)%N ∧
               (x ≠ 0%N → pretty_N_char x ≠ "0"%char).
Proof.
  intros Hx. assert (x = 0 ∨ x = 1 ∨ x = 2 ∨ x = 3 ∨ x = 4 ∨ x = 5 ∨ x = 6 ∨ x = 7 ∨ x = 8 ∨ x = 9)%N as H by lia.
  by destruct H as [->|[->|[->|[->|[->|[->|[->|[->|[->| ->]]]]]]]]].
Qed.

(** The decimal digits that [pretty] writes. *)
Definition is_decimal (x : N) (ds : text) : Prop :=
  digits_val ds = Z.of_N x ∧ Forall (fun c => is_digit c = true) ds ∧
  (x ≠ 0%N → ∃ c ds', ds = c :: ds' ∧ c ≠ "0"%char).

Lemma pretty_N_go_digits x s :
  ∃ ds, explode (pretty_N_go x s) = ds ++ explode s ∧ is_decimal x ds ∧ (x = 0%N → ds = []).
Proof.
  revert s. induction (N.lt_wf_0 x) as [x _ IH]; intros s.
  destruct (decide (x = 0%N)) as [->|Hx].
  { exists []. rewrite pretty_N_go_0. split_and!; [done| |done]. by split_and!. }
  rewrite pretty_N_go_step by lia.
  destruct (IH (x / 10)%N ltac:(apply N.div_lt; lia) (String (pretty_N_char (x mod 10)) s))
    as (ds & Heq & (Hv & Hd & Hnz) & Hz).
  pose proof (pretty_N_char_digit (x mod 10)%N ltac:(apply N.mod_lt; lia)) as (Hc1 & Hc2 & Hc3).
  exists (ds ++ [pretty_N_char (x mod 10)]). split_and!; [|split_and!|].
  - rewrite Heq. unfold explode. simpl. by rewrite <-app_assoc.
  - rewrite digits_val_app, Hv. simpl. rewrite Hc2.
    pose proof (N.div_mod x 10 ltac:(lia)). lia.
  - apply Forall_app. split; [done|]. by constructor.
  - intros _. destruct (decide (x / 10 = 0)%N) as [H0|H0].
    + rewrite (Hz H0). exists (pretty_N_char (x mod 10)), []. split; [done|]. apply Hc3.
      intros Hm. pose proof (N.div_mod x 10 ltac:(lia)). lia.
    + destruct (Hnz H0) as (c & ds' & -> & Hne). by exists c, (ds' ++ [pretty_N_char (x mod 10)]).
  - done.
Qed.

Lemma pretty_N_digits x :
  ∃ c ds, explode (pretty x) = c :: ds ∧ digits_val (c :: ds) = Z.of_N x
          ∧ Forall (fun c => is_digit c = true) (c :: ds) ∧ (c = "0"%char → ds = []).
Proof.
  destruct (decide (x = 0%N)) as [->|Hx].
  { exists "0"%char, []. split_and!; try done. by repeat constructor. }
  unfold pretty, pretty_N. rewrite decide_False by done.
  destruct (pretty_N_go_digits x "") as (ds & Heq & (Hv & Hd & Hnz) & _).
  destruct (Hnz Hx) as (c & ds' & -> & Hne). rewrite Heq, app_nil_r.
  exists c, ds'. by split_and!.
Qed.

(** What may follow a printed number. *)
Definition num_end (t : text) : Prop :=
  match t with
  | [] => True
  | c :: _ => is_digit c = false ∧ is_char "." c = false ∧ is_char "e" c = false ∧ is_char "E" c = false
  end.

Lemma span_digits ds rest :
  Forall (fun c => is_digit c = true) ds → num_end rest → span is_digit (ds ++ rest) = (ds, rest).
Proof.
  intros Hds Hr. induction Hds as [|c ds Hc _ IH]; simpl.
  - destruct rest as [|c rest]; [done|]. simpl. by destruct Hr as (-> & _).
  - by rewrite Hc, IH.
Qed.

Lemma num_end_frac rest : num_end rest → parse_frac rest = None ∧ parse_exp rest = None.
Proof. destruct rest as [|c rest]; [done|]. intros (_ & H1 & H2 & H3). simpl. by rewrite H1, H2, H3. Qed.

Lemma is_char_true c d : is_char c d = true ↔ c = d.
Proof. unfold is_char. destruct (ascii_dec c d); naive_solver. Qed.

Lemma digit_not_minus c : is_digit c = true → is_char "-" c = false.
Proof. by destruct c as [[] [] [] [] [] [] [] []]. Qed.

Lemma parse_unsigned_N neg x rest :
  num_end rest →
  parse_unsigned neg (explode (pretty x) ++ rest) = Some (PInt (if neg then - Z.of_N x else Z.of_N x)%Z, rest).
Proof.
  intros Hr. destruct (pretty_N_digits x) as (c & ds & -> & Hv & Hd & Hz).
  destruct (num_end_frac rest Hr) as [Hf He].
  unfold parse_unsigned. cbn [app].
  destruct (is_char "0" c) eqn:E0.
  - apply is_char_true in E0 as <-. rewrite (Hz eq_refl). simpl. rewrite Hf, He.
    rewrite (Hz eq_refl) in Hv. by rewrite Hv.
  - pose proof (span_digits (c :: ds) rest) as Hs. cbn [app] in Hs. rewrite Hs by done.
    rewrite Hf, He. by rewrite Hv.
Qed.

Lemma str_of_Z_text z :
  explode (str_of_Z z) = match z with
                         | Zneg p => "-"%char :: explode (pretty (Npos p))
                         | _ => explode (pretty (Z.to_N z))
                         end.
Proof. by destruct z. Qed.

Lemma parse_number_Z z rest :
  num_end rest → parse_number (explode (str_of_Z z) ++ rest) = Some (PInt z, rest).
Proof.
  intros Hr. rewrite str_of_Z_text.
  assert (∀ x, parse_number (explode (pretty (x : N)) ++ rest) = Some (PInt (Z.of_N x), rest)) as HN.
  { intros x. pose proof (parse_unsigned_N false x rest Hr) as H.
    destruct (pretty_N_digits x) as (c & ds & Heq & _ & [Hc _]%Forall_cons & _). rewrite Heq in *.
    cbn [app parse_number]. by rewrite (digit_not_minus c Hc). }
  destruct z as [|p|p]; [apply (HN 0%N)|apply (HN (Npos p))|].
  by apply (parse_unsigned_N true (Npos p)).
Qed.

(** * Values *)

Fixpoint jsonable (v : pyval) : bool :=
  match v with
  | PFloat _ | PTuple _ => false
  | PList l => forallb jsonable l
  | PDict d => forallb (fun kv => jsonable kv.2) d
  | _ => true
  end.

(** Fuel the parser needs for a printed value. *)
Fixpoint vsize (v : pyval) : nat :=
  match v with
  | PList l => S (foldr (fun x n => S (vsize x) + n) 0 l)
  | PDict d => S (foldr (fun kv n => S (vsize kv.2) + n) 0 d)
  | _ => 1
  end.

Notation pr := (print false comma colon).

(** The first character of a printed value. *)
Lemma print_head v : jsonable v = true → ∃ c t, pr v = c :: t ∧ is_ws c = false ∧ is_char "]" c = false.
Proof.
  destruct v as [|[]|z|f|s|l|l|d]; simpl; try done; intros _.
  - by eexists _, _.
  - by eexists _, _.
  - by eexists _, _.
  - rewrite str_of_Z_text.
    assert (∀ x, ∃ c t, explode (pretty (x : N)) = c :: t ∧ is_ws c = false ∧ is_char "]" c = false) as HN.
    { intros x. destruct (pretty_N_digits x) as (c & ds & -> & _ & [Hc _]%Forall_cons & _).
      exists c, ds. split; [done|]. revert Hc. by destruct c as [[] [] [] [] [] [] [] []]. }
    destruct z; [apply HN|apply HN|by eexists _, _].
  - by eexists _, _.
  - by eexists _, _.
  - by eexists _, _.
Qed.

Lemma skip_ws_print v rest : jsonable v = true → skip_ws (pr v ++ rest) = pr v ++ rest.
Proof. intros (c & t & -> & Hws & _)%print_head. simpl. by rewrite Hws. Qed.

Lemma parse_lits_None_num c t :
  (is_digit c = true ∨ (c = "-"%char ∧ ∃ d t', t = d :: t' ∧ is_digit d = true)) → parse_lits (c :: t) = None.
Proof.
  intros [Hc|(-> & d & t' & -> & Hd)].
  - revert Hc. by destruct c as [[] [] [] [] [] [] [] []].
  - revert Hd. by destruct d as [[] [] [] [] [] [] [] []].
Qed.

Lemma parse_value_Z n z rest :
  num_end rest → parse_value (S n) (explode (str_of_Z z) ++ rest) = Some (PInt z, rest).
Proof.
  intros Hr. pose proof (parse_number_Z z rest Hr) as Hp.
  assert (∃ c t, explode (str_of_Z z) = c :: t ∧ (is_digit c = true ∨ (c = "-"%char ∧ ∃ d t', t = d :: t' ∧ is_digit d = true)))
    as (c & t & Heq & Hc).
  { rewrite str_of_Z_text.
    assert (∀ x, ∃ c t, explode (pretty (x : N)) = c :: t ∧ is_digit c = true) as HN.
    { intros x. destruct (pretty_N_digits x) as (c & ds & -> & _ & [Hc _]%Forall_cons & _). by exists c, ds. }
    destruct z as [|p|p].
    - destruct (HN 0%N) as (c & t & Heq & ?). exists c, t. auto.
    - destruct (HN (Npos p)) as (c & t & Heq & ?). exists c, t. auto.
    - destruct (HN (Npos p)) as (c & t & -> & ?). eauto 10. }
  rewrite Heq in *. cbn [app] in *. cbn [parse_value].
  rewrite parse_lits_None_num by (destruct Hc as [?|(? & d & t' & -> & ?)]; eauto 10).
  assert (is_char ch_dq c = false ∧ is_char "{" c = false ∧ is_char "[" c = false) as (-> & -> & ->).
  { destruct Hc as [Hc|[-> _]]; [|done]. revert Hc. by destruct c as [[] [] [] [] [] [] [] []]. }
  simpl. done.
Qed.

Lemma dset_new {V} k (v : V) d : k ∉ dkeys d → dset k v d = d ++ [(k, v)].
Proof.
  unfold dkeys. induction d as [|[k' v'] d IH]; simpl; [done|]. intros Hk.
  rewrite decide_False by set_solver. rewrite IH by set_solver. done.
Qed.

(** Round trip of one value, with any text after it. *)
Definition reads_back (v : pyval) : Prop :=
  jsonable v = true → wf_val v →
  ∀ n rest, vsize v ≤ n → num_end rest → parse_value n (pr v ++ rest) = Some (v, rest).

Lemma tjoin_cons sep x l : l ≠ [] → tjoin sep (x :: l) = x ++ sep ++ tjoin sep l.
Proof. by destruct l. Qed.

Lemma parse_elems_print l acc n rest :
  Forall reads_back l → forallb jsonable l = true → Forall wf_val l → l ≠ [] →
  foldr (fun x n => S (vsize x) + n) 0 l ≤ n →
  parse_elems n acc (tjoin comma (map pr l) ++ "]"%char :: rest) = Some (PList (rev acc ++ l), rest).
Proof.
  intros HP. revert acc n. induction HP as [|x l Hx HP IH]; intros acc n Hj Hw Hne Hn; [done|].
  apply Bool.andb_true_iff in Hj as [Hjx Hjl]. apply Forall_cons in Hw as [Hwx Hwl].
  cbn [foldr] in Hn. destruct n as [|n]; [lia|]. cbn [parse_elems].
  destruct l as [|y l].
  - cbn [map tjoin]. rewrite Hx by (done || lia). simpl. done.
  - cbn [map]. rewrite tjoin_cons by done. rewrite <-!app_assoc.
    rewrite Hx by (done || lia). cbn [comma app skip_ws].
    assert (skip_ws (tjoin comma (pr y :: map pr l) ++ "]"%char :: rest) =
            tjoin comma (pr y :: map pr l) ++ "]"%char :: rest) as Hws.
    { apply Bool.andb_true_iff in Hjl as [Hjy _]. destruct l; cbn [map tjoin]; rewrite <-?app_assoc;
        by apply skip_ws_print. }
    char_simp. rewrite Hws.
    pose proof (IH (x :: acc) n Hjl Hwl ltac:(done) ltac:(lia)) as IH'. cbn [map] in IH'. rewrite IH'.
    simpl. by rewrite <-app_assoc.
Qed.

Lemma parse_members_print d acc n rest :
  Forall (fun kv => reads_back kv.2) d → forallb (fun kv => jsonable kv.2) d = true →
  Forall (fun kv => wf_val kv.2) d → NoDup (dkeys acc ++ dkeys d) → d ≠ [] →
  foldr (fun kv n => S (vsize kv.2) + n) 0 d ≤ n →
  parse_members n acc (tjoin comma (map (fun kv => print_str false kv.1 ++ colon ++ pr kv.2) d) ++ "}"%char :: rest)
  = Some (PDict (acc ++ d), rest).
Proof.
  intros HP. revert acc n. induction HP as [|[k x] d Hx HP IH]; intros acc n Hj Hw Hnd Hne Hn; [done|].
  apply Bool.andb_true_iff in Hj as [Hjx Hjl]. apply Forall_cons in Hw as [Hwx Hwl]. simpl in Hx, Hjx, Hwx.
  cbn [foldr snd] in Hn. destruct n as [|n]; [lia|].
  assert (k ∉ dkeys acc) as Hk.
  { apply NoDup_app in Hnd as (_ & Hnd & _). intros H. apply (Hnd k H). unfold dkeys. set_solver. }
  assert (NoDup (dkeys (acc ++ [(k, x)]) ++ dkeys d)) as Hnd'.
  { unfold dkeys in *. rewrite map_app, <-app_assoc. done. }
  cbn [map fst snd].
  assert (∀ more, parse_members (S n) acc ((print_str false k ++ colon ++ pr x) ++ more)
    = match parse_value n (pr x ++ more) with
      | Some (v, t4) => match skip_ws t4 with
                        | y :: t5 => if is_char "," y then parse_members n (dset k v acc) (skip_ws t5)
                                     else if is_char "}" y then Some (PDict (dset k v acc), t5) else None
                        | [] => None
                        end
      | None => None
      end) as Hstep.
  { intros more. rewrite <-!app_assoc, print_str_app. cbn [parse_members].
    char_simp. pose proof (parse_print_str k (colon ++ pr x ++ more)) as Hs.
    cbv zeta in Hs. rewrite Hs. cbn [colon app skip_ws]. char_simp. by rewrite skip_ws_print. }
  destruct d as [|[k2 y] d].
  - cbn [map tjoin]. rewrite Hstep, Hx by (done || lia). cbn [skip_ws].
    char_simp. by rewrite dset_new.
  - cbn [map]. rewrite tjoin_cons by done. rewrite <-app_assoc, Hstep.
    rewrite <-!app_assoc, Hx by (done || lia). cbn [comma app skip_ws].
    char_simp. rewrite dset_new by done.
    pose proof (IH (acc ++ [(k, x)]) n Hjl Hwl Hnd' ltac:(done) ltac:(lia)) as IH'. cbn [map fst snd] in *.
    assert (∀ t, skip_ws (print_str false k2 ++ t) = print_str false k2 ++ t) as Hws by done.
    destruct d as [|z d]; cbn [map tjoin] in *; rewrite <-?app_assoc in *; rewrite Hws, IH'; by rewrite <-?app_assoc.
Qed.

Lemma parse_print v : reads_back v.
Proof.
  induction v as [|b|z|f|s|l IH|l IH|d IH] using pyval_ind'; intros Hj Hw n rest Hn Hr;
    try done; (destruct n as [|n]; [simpl in Hn; lia|]).
  - done.
  - by destruct b.
  - cbn [print]. by apply parse_value_Z.
  - cbn [print]. rewrite print_str_app. cbn [parse_value]. char_simp.
    pose proof (parse_print_str s rest) as Hs. cbv zeta in Hs. by rewrite Hs.
  - apply wf_PList in Hw. cbn [print vsize] in *. rewrite <-app_assoc. cbn [app parse_value].
    rewrite <-app_assoc. char_simp.
    destruct l as [|x l]; [done|].
    assert (∃ c t, tjoin comma (map pr (x :: l)) ++ ["]"%char] ++ rest = c :: t ∧ is_ws c = false ∧ is_char "]" c = false)
      as (c & t & Heq & Hws & Hc).
    { simpl in Hj. apply Bool.andb_true_iff in Hj as [Hjx _]. destruct (print_head x Hjx) as (c & t & Hp & ? & ?).
      destruct l; cbn [map tjoin]; rewrite Hp; simpl; eauto. }
    pose proof (parse_elems_print (x :: l) [] n rest IH Hj Hw ltac:(done) ltac:(lia)) as He.
    cbn [app] in Heq, He |- *. rewrite Heq in He |- *. cbn [skip_ws]. by rewrite Hws, Hc.
  - apply wf_PDict in Hw as [Hnd Hw]. cbn [print vsize] in *. rewrite <-app_assoc. cbn [app parse_value].
    rewrite <-app_assoc. char_simp.
    destruct d as [|[k x] d]; [done|].
    pose proof (parse_members_print ((k, x) :: d) [] n rest IH Hj Hw Hnd ltac:(done) ltac:(lia)) as He.
    assert (∃ t, tjoin comma (map (fun kv => print_str false kv.1 ++ colon ++ pr kv.2) ((k, x) :: d)) ++ "}"%char :: rest
       = ch_dq :: t) as (t & Heq).
    { destruct d; cbn [map tjoin fst snd]; rewrite <-!app_assoc, print_str_app; eauto. }
    cbn [app] in *. rewrite Heq in *. cbn [skip_ws]. by char_simp.
Qed.

Lemma tjoin_length sep l : length (tjoin sep l) = foldr (fun x n => length x + n) 0 l + length sep * (length l - 1).
Proof.
  induction l as [|x l IH]; [simpl; lia|]. destruct l as [|y l]; [simpl; lia|].
  rewrite tjoin_cons by done. rewrite !length_app, IH. simpl. lia.
Qed.

Lemma vsize_print v : vsize v ≤ length (pr v).
Proof.
  induction v as [|b|z|f|s|l IH|l IH|d IH] using pyval_ind'.
  - simpl. lia.
  - destruct b; simpl; lia.
  - cbn [print vsize]. rewrite str_of_Z_text.
    destruct z as [|p|p]; [simpl; lia| |simpl; lia].
    destruct (pretty_N_digits (Npos p)) as (c & ds & Heq & _). simpl in *. rewrite Heq. simpl. lia.
  - cbn [print vsize]. destruct f as [s|s| |s m e]; try (destruct s; simpl; lia); [simpl; lia|].
    unfold print_float, f_repr. destruct (shortest _ _ _ _ _ _) as [q ex]. rewrite explode_app, length_app.
    destruct s; [simpl; lia|]. unfold f_layout. repeat case_match; rewrite ?explode_app, ?length_app; simpl; try lia.
  - cbn [print vsize]. unfold print_str. rewrite !length_app. simpl. lia.
  - cbn [print vsize]. rewrite !length_app, tjoin_length. simpl.
    assert (foldr (fun x n => S (vsize x + n)) 0 l ≤ foldr (fun x n => length x + n) 0 (map pr l) + length l) as H.
    { clear -IH. induction IH as [|x l Hx _ IHl]; simpl; [lia|]. lia. }
    rewrite length_map. destruct l; simpl in *; lia.
  - cbn [print vsize]. rewrite !length_app. simpl. lia.
  - cbn [print vsize]. rewrite !length_app, tjoin_length. simpl.
    assert (foldr (fun kv n => S (vsize kv.2 + n)) 0 d ≤
      foldr (fun x n => length x + n) 0 (map (fun kv => print_str false kv.1 ++ colon ++ pr kv.2) d) + length d) as H.
    { clear -IH. induction IH as [|x l Hx _ IHl]; cbn [foldr map length]; [lia|]. rewrite !length_app. lia. }
    rewrite length_map. destruct d; simpl in *; lia.
Qed.

Lemma jsonable_canon v : jsonable v = true → jsonable (canon v) = true.
Proof.
  induction v as [|b|z|f|s|l IH|l IH|d IH] using pyval_ind'; simpl; try done.
  - intros Hj. rewrite forallb_forall in Hj |- *. intros x (y & <- & Hy)%in_map_iff.
    rewrite Forall_forall in IH. apply IH; [by apply list_elem_of_In|by apply Hj].
  - intros Hj. rewrite forallb_forall in Hj |- *. intros x Hx. apply list_elem_of_In in Hx.
    unfold sort_keys in Hx. rewrite sort_by_perm in Hx. apply list_elem_of_fmap in Hx as (y & -> & Hy).
    rewrite Forall_forall in IH. simpl. apply IH; [done|]. by apply Hj, list_elem_of_In.
Qed.

Lemma dkeys_canon (d : dict) : dkeys (map (fun kv => (kv.1, canon kv.2)) d) = dkeys d.
Proof. unfold dkeys. rewrite map_map. by apply map_ext. Qed.

Lemma wf_canon v : jsonable v = true → wf_val v → wf_val (canon v).
Proof.
  induction v as [|b|z|f|s|l IH|l IH|d IH] using pyval_ind'; intros Hj; try done.
  - cbn [canon]. rewrite !wf_PList. intros Hw. simpl in Hj. rewrite forallb_forall in Hj.
    rewrite Forall_forall in *. intros x (y & -> & Hy)%list_elem_of_fmap.
    apply IH; [done|by apply Hj, list_elem_of_In|by apply Hw].
  - cbn [canon]. rewrite !wf_PDict. intros [Hnd Hw]. simpl in Hj. rewrite forallb_forall in Hj. split.
    + apply sort_keys_NoDup. by rewrite dkeys_canon.
    + unfold sort_keys. rewrite sort_by_perm. rewrite Forall_forall in *.
      intros x (y & -> & Hy)%list_elem_of_fmap. simpl.
      apply IH; [done|by apply Hj, list_elem_of_In|by apply Hw].
Qed.

(** Printing and reading back gives the value with its keys in order. *)
Lemma loads_dumps v : jsonable v = true → wf_val v → loads (dumps false v) = Some (canon v).
Proof.
  intros Hj Hw. unfold loads, dumps. rewrite explode_implode.
  pose proof (jsonable_canon v Hj) as Hj'. pose proof (wf_canon v Hj Hw) as Hw'.
  pose proof (skip_ws_print (canon v) [] Hj') as Hs. rewrite app_nil_r in Hs. rewrite Hs.
  pose proof (parse_print (canon v) Hj' Hw' (S (length (pr (canon v)))) []) as Hp.
  rewrite app_nil_r in Hp. rewrite Hp; [done| |done].
  pose proof (vsize_print (canon v)). lia.
Qed.

(** Equal printed forms come from values equal up to key order. *)
Lemma dumps_inj v w :
  jsonable v = true → wf_val v → jsonable w = true → wf_val w →
  dumps false v = dumps false w → canon v = canon w.
Proof.
  intros Hv Hv' Hw Hw' H. apply (f_equal loads) in H. rewrite !loads_dumps in H by done. congruence.
Qed.

(** The printed form does not depend on the order of keys. *)
Lemma dumps_perm ea d e :
  NoDup (dkeys d) → d ≡ₚ e → dumps ea (PDict d) = dumps ea (PDict e).
Proof.
  intros Hnd Hp. unfold dumps. cbn [canon]. do 3 f_equal.
  apply sort_keys_permuted; [by rewrite dkeys_canon|]. by rewrite Hp.
Qed.

Lemma dget_canon k d :
  NoDup (dkeys d) → dget k (sort_keys (map (fun kv => (kv.1, canon kv.2)) d)) = canon <$> dget k d.
Proof.
  intros Hnd. rewrite dget_sort_keys by (by rewrite dkeys_canon).
  clear Hnd. induction d as [|[k0 v0] d IH]; simpl; [done|]. by case_decide.
Qed.

(** ** ASCII text: [ensure_ascii] makes no difference *)

Fixpoint ascii_val (v : pyval) : bool :=
  match v with
  | PStr s => sall (fun c => (code c <? 127)%N) s
  | PList l | PTuple l => forallb ascii_val l
  | PDict d => forallb (fun kv => sall (fun c => (code c <? 127)%N) kv.1 && ascii_val kv.2) d
  | _ => true
  end.

Lemma print_str_ascii s : sall (fun c => (code c <? 127)%N) s = true → print_str true s = print_str false s.
Proof.
  intros Hs. unfold print_str. do 2 f_equal.
  induction s as [|c s IH]; [done|]. simpl in *. apply Bool.andb_true_iff in Hs as [Hc Hs].
  unfold explode in *. simpl. rewrite Hc, IH by done. done.
Qed.

Lemma print_ascii i k v : ascii_val v = true → print true i k v = print false i k v.
Proof.
  induction v as [|b|z|f|s|l IH|l IH|d IH] using pyval_ind'; cbn [print ascii_val]; try done.
  - apply print_str_ascii.
  - intros Ha. rewrite forallb_forall in Ha. rewrite Forall_forall in IH. do 3 f_equal.
    apply map_ext_in. intros x Hx. apply IH; [by apply list_elem_of_In|by apply Ha].
  - intros Ha. rewrite forallb_forall in Ha. rewrite Forall_forall in IH. do 3 f_equal.
    apply map_ext_in. intros x Hx. apply IH; [by apply list_elem_of_In|by apply Ha].
  - intros Ha. rewrite forallb_forall in Ha. rewrite Forall_forall in IH. do 3 f_equal.
    apply map_ext_in. intros [k' x] Hx. pose proof (Ha _ Hx) as [Hk Hv]%Bool.andb_true_iff. cbn [fst snd] in *.
    rewrite print_str_ascii by done. do 2 f_equal. apply (IH (k', x)); [by apply list_elem_of_In|done].
Qed.

Lemma ascii_canon v : ascii_val v = true → ascii_val (canon v) = true.
Proof.
  induction v as [|b|z|f|s|l IH|l IH|d IH] using pyval_ind'; simpl; try done.
  1, 2: intros Ha; rewrite forallb_forall in Ha |- *; intros x (y & <- & Hy)%in_map_iff;
    rewrite Forall_forall in IH; apply IH; [by apply list_elem_of_In|by apply Ha].
  intros Ha. rewrite forallb_forall in Ha |- *. intros x Hx. apply list_elem_of_In in Hx.
  unfold sort_keys in Hx. rewrite sort_by_perm in Hx. apply list_elem_of_fmap in Hx as ([k y] & -> & Hy).
  rewrite Forall_forall in IH. simpl.
  pose proof (Ha _ (proj1 (list_elem_of_In _ _) Hy)) as [Hk Hv]%Bool.andb_true_iff. simpl in *.
  rewrite Hk. by apply (IH (k, y)).
Qed.

Lemma dumps_ascii v : ascii_val v = true → dumps true v = dumps false v.
Proof. intros Ha. unfold dumps. by rewrite print_ascii by (by apply ascii_canon). Qed.

Lemma sort_keys_map {V W} (f : V → W) (d : list (string * V)) :
  sort_keys (map (fun kv => (kv.1, f kv.2)) d) = map (fun kv => (kv.1, f kv.2)) (sort_keys d).
Proof.
  unfold sort_keys. induction d as [|x d IH]; simpl; [done|]. rewrite IH. clear IH.
  generalize (sort_by key_leb d). intros l. induction l as [|y l IH]; simpl; [done|].
  change (key_leb (x.1, f x.2) (y.1, f y.2)) with (str_leb x.1 y.1).
  change (key_leb x y) with (str_leb x.1 y.1). destruct (str_leb x.1 y.1); simpl; [done|]. by rewrite IH.
Qed.

Lemma canon_idemp v : canon (canon v) = canon v.
Proof.
  induction v as [|b|z|f|s|l IH|l IH|d IH] using pyval_ind'; try done.
  1, 2: cbn [canon]; f_equal; rewrite map_map; apply map_ext_in; intros x Hx;
    rewrite Forall_forall in IH; by apply IH, list_elem_of_In.
  cbn [canon]. f_equal. rewrite <-sort_keys_map, map_map. simpl. rewrite sort_keys_idemp. f_equal.
  apply map_ext_in. intros x Hx. f_equal. rewrite Forall_forall in IH. by apply IH, list_elem_of_In.
Qed.

Lemma dumps_canon ea v : dumps ea (canon v) = dumps ea v.
Proof. unfold dumps. by rewrite canon_idemp. Qed.

(** Values equal up to key order print alike inside any field. *)
Lemma dumps_field ea d k v w :
  canon v = canon w → dumps ea (PDict (d ++ [(k, v)])) = dumps ea (PDict (d ++ [(k, w)])).
Proof. intros H. unfold dumps. cbn [canon]. rewrite !map_app. simpl. by rewrite H. Qed.
