(* ===== verification/JsonIndent.v ===== *)
(** [json.dumps(value, indent=2, sort_keys=True)], the form every artifact and the run index
    are written in, and its round trip through the parser. *)
From S2P Require Import Prelude PyStr PyFloat PyVal Regex Json JsonFacts.

(** A line break and the indentation of depth [d]. *)
Definition newline (d : nat) : text := ch_nl :: repeat " "%char (2 * d).

Fixpoint pprint (ea : bool) (d : nat) (v : pyval) : text :=
  match v with
  | PList [] | PTuple [] => explode "[]"
  | PDict [] => explode "{}"
  | PList l | PTuple l =>
      ["["%char] ++ newline (S d) ++ tjoin (comma ++ newline (S d)) (map (pprint ea (S d)) l) ++ newline d ++ ["]"%char]
  | PDict m =>
      ["{"%char] ++ newline (S d)
      ++ tjoin (comma ++ newline (S d)) (map (fun kv => print_str ea kv.1 ++ explode ": " ++ pprint ea (S d) kv.2) m)
      ++ newline d ++ ["}"%char]
  | _ => print ea comma colon v
  end.

Definition dumps_indent (v : pyval) : string := implode (pprint true 0 (canon v)).

Example dumps_indent_ex :
  dumps_indent (PDict [("b", PList [PInt 1; PInt 2]); ("a", PDict [])])
  = "{" +:+ nl +:+ "  " +:+ dq +:+ "a" +:+ dq +:+ ": {}," +:+ nl +:+ "  " +:+ dq +:+ "b" +:+ dq +:+ ": ["
    +:+ nl +:+ "    1," +:+ nl +:+ "    2" +:+ nl +:+ "  ]" +:+ nl +:+ "}".
Proof. vm_compute. reflexivity. Qed.

Lemma skip_newline d t : skip_ws (newline d ++ t) = skip_ws t.
Proof.
  unfold newline. cbn [app skip_ws]. char_simp. induction (2 * d) as [|n IH]; [done|].
  cbn [repeat app skip_ws]. by char_simp.
Qed.

Lemma num_end_newline d t : num_end (newline d ++ t).
Proof. by repeat split. Qed.

Lemma pprint_head d v : jsonable v = true → ∃ c t, pprint false d v = c :: t ∧ is_ws c = false ∧ is_char "]" c = false.
Proof.
  intros Hj. destruct v as [|b|z|f|s|l|l|m]; try (by apply (print_head _ Hj)); try done.
  - destruct l; by eexists _, _.
  - destruct m; by eexists _, _.
Qed.

Lemma skip_pprint d v rest : jsonable v = true → skip_ws (pprint false d v ++ rest) = pprint false d v ++ rest.
Proof. intros (c & t & -> & Hws & _)%(pprint_head d). simpl. by rewrite Hws. Qed.

Definition preads_back (v : pyval) : Prop :=
  jsonable v = true → wf_val v →
  ∀ d n rest, vsize v ≤ n → num_end rest → parse_value n (pprint false d v ++ rest) = Some (v, rest).

Lemma parse_elems_pprint d l acc n rest :
  Forall preads_back l → forallb jsonable l = true → Forall wf_val l → l ≠ [] →
  foldr (fun x n => S (vsize x) + n) 0 l ≤ n →
  parse_elems n acc (tjoin (comma ++ newline (S d)) (map (pprint false (S d)) l) ++ newline d ++ "]"%char :: rest)
  = Some (PList (rev acc ++ l), rest).
Proof.
  intros HP. revert acc n. induction HP as [|x l Hx HP IH]; intros acc n Hj Hw Hne Hn; [done|].
  apply Bool.andb_true_iff in Hj as [Hjx Hjl]. apply Forall_cons in Hw as [Hwx Hwl].
  cbn [foldr] in Hn. destruct n as [|n]; [lia|]. cbn [parse_elems].
  destruct l as [|y l].
  - cbn [map tjoin]. rewrite Hx; [|done|done|lia|apply num_end_newline]. rewrite skip_newline.
    cbn [skip_ws]. by char_simp.
  - cbn [map]. rewrite tjoin_cons by done. rewrite <-!app_assoc.
    rewrite Hx; [|done|done|lia|done]. cbn [comma app skip_ws].
    char_simp. rewrite skip_newline.
    assert (∀ r, skip_ws (tjoin (comma ++ newline (S d)) (map (pprint false (S d)) (y :: l)) ++ r) =
            tjoin (comma ++ newline (S d)) (map (pprint false (S d)) (y :: l)) ++ r) as Hws.
    { intros r. apply Bool.andb_true_iff in Hjl as [Hjy _]. destruct l; cbn [map tjoin]; rewrite <-?app_assoc;
        by apply skip_pprint. }
    pose proof (IH (x :: acc) n Hjl Hwl ltac:(done) ltac:(lia)) as IH'.
    unfold comma in *. cbn [map app] in *. rewrite Hws, IH'. simpl. by rewrite <-app_assoc.
Qed.

Lemma parse_members_pprint d m acc n rest :
  Forall (fun kv => preads_back kv.2) m → forallb (fun kv => jsonable kv.2) m = true →
  Forall (fun kv => wf_val kv.2) m → NoDup (dkeys acc ++ dkeys m) → m ≠ [] →
  foldr (fun kv n => S (vsize kv.2) + n) 0 m ≤ n →
  parse_members n acc
    (tjoin (comma ++ newline (S d)) (map (fun kv => print_str false kv.1 ++ explode ": " ++ pprint false (S d) kv.2) m)
     ++ newline d ++ "}"%char :: rest)
  = Some (PDict (acc ++ m), rest).
Proof.
  intros HP. revert acc n. induction HP as [|[k x] m Hx HP IH]; intros acc n Hj Hw Hnd Hne Hn; [done|].
  apply Bool.andb_true_iff in Hj as [Hjx Hjl]. apply Forall_cons in Hw as [Hwx Hwl]. simpl in Hx, Hjx, Hwx.
  cbn [foldr snd] in Hn. destruct n as [|n]; [lia|].
  assert (k ∉ dkeys acc) as Hk.
  { apply NoDup_app in Hnd as (_ & Hnd & _). intros H. apply (Hnd k H). unfold dkeys. set_solver. }
  assert (NoDup (dkeys (acc ++ [(k, x)]) ++ dkeys m)) as Hnd'.
  { unfold dkeys in *. rewrite map_app, <-app_assoc. done. }
  assert (∀ more, parse_members (S n) acc ((print_str false k ++ explode ": " ++ pprint false (S d) x) ++ more)
    = match parse_value n (pprint false (S d) x ++ more) with
      | Some (v, t4) => match skip_ws t4 with
                        | y :: t5 => if is_char "," y then parse_members n (dset k v acc) (skip_ws t5)
                                     else if is_char "}" y then Some (PDict (dset k v acc), t5) else None
                        | [] => None
                        end
      | None => None
      end) as Hstep.
  { intros more. rewrite <-!app_assoc, print_str_app. cbn [parse_members].
    char_simp. pose proof (parse_print_str k (explode ": " ++ pprint false (S d) x ++ more)) as Hs.
    cbv zeta in Hs. rewrite Hs. change (explode ": ") with [":"%char; " "%char]. cbn [app skip_ws]. char_simp.
    cbn [skip_ws]. char_simp. by rewrite skip_pprint. }
  destruct m as [|[k2 y] m].
  - cbn [map tjoin fst snd]. rewrite Hstep, Hx; [|done|done|lia|apply num_end_newline]. rewrite skip_newline.
    cbn [skip_ws]. char_simp. by rewrite dset_new.
  - cbn [map fst snd]. rewrite tjoin_cons by done. rewrite <-app_assoc, Hstep.
    rewrite <-!app_assoc, Hx; [|done|done|lia|done]. cbn [comma app skip_ws].
    char_simp. rewrite dset_new, skip_newline by done.
    pose proof (IH (acc ++ [(k, x)]) n Hjl Hwl Hnd' ltac:(done) ltac:(lia)) as IH'.
    unfold comma in *. cbn [map fst snd app] in *.
    assert (∀ t, skip_ws (print_str false k2 ++ t) = print_str false k2 ++ t) as Hws by done.
    destruct m as [|z m]; cbn [map tjoin] in *; rewrite <-?app_assoc in *; rewrite Hws, IH'; by rewrite <-?app_assoc.
Qed.

Lemma parse_pprint v : preads_back v.
Proof.
  induction v as [|b|z|f|s|l IH|l IH|m IH] using pyval_ind'; intros Hj Hw d n rest Hn Hr;
    try done; try (by apply parse_print); (destruct n as [|n]; [simpl in Hn; lia|]).
  - apply wf_PList in Hw. destruct l as [|x l]; [done|]. cbn [pprint vsize] in *.
    rewrite <-!app_assoc. cbn [app parse_value]. char_simp. rewrite skip_newline.
    pose proof (parse_elems_pprint d (x :: l) [] n rest IH Hj Hw ltac:(done) ltac:(lia)) as He.
    assert (∃ c t, tjoin (comma ++ newline (S d)) (map (pprint false (S d)) (x :: l)) ++ newline d ++ "]"%char :: rest = c :: t
        ∧ is_ws c = false ∧ is_char "]" c = false) as (c & t & Heq & Hws & Hc).
    { simpl in Hj. apply Bool.andb_true_iff in Hj as [Hjx _]. destruct (pprint_head (S d) x Hjx) as (c & t & Hp & ? & ?).
      destruct l; cbn [map tjoin]; rewrite Hp; simpl; eauto. }
    cbn [app] in Heq, He |- *. rewrite Heq in He |- *. cbn [skip_ws]. by rewrite Hws, Hc.
  - apply wf_PDict in Hw as [Hnd Hw]. destruct m as [|[k x] m]; [done|]. cbn [pprint vsize] in *.
    rewrite <-!app_assoc. cbn [app parse_value]. char_simp. rewrite skip_newline.
    pose proof (parse_members_pprint d ((k, x) :: m) [] n rest IH Hj Hw Hnd ltac:(done) ltac:(lia)) as He.
    assert (∃ t, tjoin (comma ++ newline (S d))
        (map (fun kv => print_str false kv.1 ++ explode ": " ++ pprint false (S d) kv.2) ((k, x) :: m)) ++ newline d ++ "}"%char :: rest
       = ch_dq :: t) as (t & Heq).
    { destruct m; cbn [map tjoin fst snd]; rewrite <-!app_assoc, print_str_app; eauto. }
    cbn [app] in *. rewrite Heq in *. cbn [skip_ws]. by char_simp.
Qed.

Lemma pprint_ascii d v : ascii_val v = true → pprint true d v = pprint false d v.
Proof.
  revert d. induction v as [|b|z|f|s|l IH|l IH|m IH] using pyval_ind'; intros d Ha; try (by apply print_ascii).
  1, 2: destruct l as [|x l]; [done|]; cbn [pprint ascii_val] in *; rewrite forallb_forall in Ha;
    rewrite Forall_forall in IH; do 3 f_equal; f_equal; apply map_ext_in; intros y Hy;
    apply IH; [by apply list_elem_of_In|by apply Ha].
  destruct m as [|[k x] m]; [done|]. cbn [pprint ascii_val] in *. rewrite forallb_forall in Ha.
  rewrite Forall_forall in IH. do 3 f_equal. f_equal. apply map_ext_in. intros y Hy.
  pose proof (Ha y Hy) as [Hk Hv]%Bool.andb_true_iff. rewrite print_str_ascii by done.
  by rewrite (IH y) by (done || by apply list_elem_of_In).
Qed.

Lemma vsize_pprint d v : jsonable v = true → vsize v ≤ length (pprint false d v).
Proof.
  revert d. induction v as [|b|z|f|s|l IH|l IH|m IH] using pyval_ind'; intros d Hj; try (by apply vsize_print).
  - destruct l as [|x0 l0] eqn:El; [simpl; lia|]. rewrite <- El in *.
    assert (pprint false d (PList l) = ["["%char] ++ newline (S d)
      ++ tjoin (comma ++ newline (S d)) (map (pprint false (S d)) l) ++ newline d ++ ["]"%char]) as -> by (by rewrite El).
    cbn [vsize jsonable] in *. rewrite !length_app, tjoin_length, length_map. simpl.
    assert (foldr (fun x n => S (vsize x + n)) 0 l
            ≤ foldr (fun x n => length x + n) 0 (map (pprint false (S d)) l) + length l) as H.
    { clear -IH Hj. induction IH as [|x l Hx _ IHl]; simpl in *; [lia|].
      apply Bool.andb_true_iff in Hj as [H1 H2]. specialize (Hx (S d) H1). specialize (IHl H2). lia. }
    rewrite El in *. simpl in *. nia.
  - done.
  - destruct m as [|x0 m0] eqn:Em; [simpl; lia|]. rewrite <- Em in *.
    set (pk := fun kv : string * pyval => print_str false kv.1 ++ explode ": " ++ pprint false (S d) kv.2).
    assert (pprint false d (PDict m) = ["{"%char] ++ newline (S d)
      ++ tjoin (comma ++ newline (S d)) (map pk m) ++ newline d ++ ["}"%char]) as -> by (by rewrite Em).
    cbn [vsize jsonable] in *. rewrite !length_app, tjoin_length, length_map. simpl.
    assert (foldr (fun kv n => S (vsize kv.2 + n)) 0 m
            ≤ foldr (fun x n => length x + n) 0 (map pk m) + length m) as H.
    { clear -IH Hj. induction IH as [|x l Hx _ IHl]; cbn [foldr map length]; [lia|]. simpl in Hj.
      apply Bool.andb_true_iff in Hj as [H1 H2]. specialize (Hx (S d) H1). specialize (IHl H2).
      unfold pk at 1. rewrite !length_app. lia. }
    rewrite Em in *. simpl in *. nia.
Qed.

(** What was written with [indent=2] reads back as the value with sorted keys, also after
    the newline the writers append. *)
Lemma loads_dumps_indent v tail :
  jsonable v = true → wf_val v → ascii_val v = true → tail = "" ∨ tail = nl →
  loads (dumps_indent v +:+ tail) = Some (canon v).
Proof.
  intros Hj Hw Ha Ht. unfold loads, dumps_indent. rewrite explode_app, explode_implode.
  rewrite pprint_ascii by (by apply ascii_canon).
  pose proof (jsonable_canon v Hj) as Hj'. pose proof (wf_canon v Hj Hw) as Hw'.
  rewrite skip_pprint by done.
  rewrite (parse_pprint (canon v) Hj' Hw' 0 _ (explode tail)); [by destruct Ht as [-> | ->]| |by destruct Ht as [-> | ->]].
  pose proof (vsize_pprint 0 (canon v) Hj'). rewrite length_app. lia.
Qed.

(** * [ensure_ascii] output is ASCII *)

Notation all_ascii t := (forallb is_ascii_char t = true).

Lemma all_ascii_app a b : all_ascii (a ++ b) ↔ all_ascii a ∧ all_ascii b.
Proof. rewrite forallb_app. apply Bool.andb_true_iff. Qed.

Lemma code_lt c : (code c < 256)%N.
Proof. apply N_ascii_bounded. Qed.

Lemma chr_ascii n : (n < 128)%N → is_ascii_char (chr n) = true.
Proof. intros Hn. unfold is_ascii_char, code, chr. rewrite N_ascii_embedding by lia. by apply N.ltb_lt. Qed.

Lemma hex_digit_ascii n : (n < 16)%N → is_ascii_char (hex_digit n) = true.
Proof. intros Hn. unfold hex_digit. destruct (n <? 10)%N eqn:E; apply chr_ascii; [apply N.ltb_lt in E|]; lia. Qed.

Lemma u_escape_ascii n : (n < 65536)%N → all_ascii (u_escape n).
Proof.
  intros Hn. unfold u_escape, hex4. cbn [forallb].
  rewrite !hex_digit_ascii; [done|apply N.mod_lt; lia..|]. apply N.Div0.div_lt_upper_bound. lia.
Qed.

Lemma u_escapes_ascii n : (n < 2097152)%N → all_ascii (u_escapes n).
Proof.
  intros Hn. unfold u_escapes. destruct (n <? 65536)%N eqn:E; [apply N.ltb_lt in E; by apply u_escape_ascii|].
  apply N.ltb_ge in E. apply all_ascii_app. split; apply u_escape_ascii.
  - assert ((n - 65536) / 1024 < 2048)%N by (apply N.Div0.div_lt_upper_bound; lia). lia.
  - assert ((n - 65536) mod 1024 < 1024)%N by (apply N.mod_lt; lia). lia.
Qed.

Lemma esc_char_ascii c : (code c <? 127)%N = true → all_ascii (esc_char c).
Proof.
  intros Hc%N.ltb_lt. unfold esc_char. repeat (case_match; [done|]).
  case_match; [apply u_escape_ascii; lia|]. cbn [forallb]. unfold is_ascii_char.
  rewrite (proj2 (N.ltb_lt _ 128)); [done|lia].
Qed.

Lemma utf8_head_bound t : ((utf8_head t).1 < 2097152)%N.
Proof.
  assert (∀ c, (cont c < 64)%N) as Hc by (intros c; apply N.mod_lt; lia).
  destruct t as [|a [|b [|c [|d t]]]]; simpl; [lia|pose proof (code_lt a); lia|..];
    pose proof (code_lt a); pose proof (Hc b); try pose proof (Hc c); try pose proof (Hc d);
    assert (code a mod 8 < 8)%N by (apply N.mod_lt; lia);
    assert (code a mod 16 < 16)%N by (apply N.mod_lt; lia);
    assert (code a mod 32 < 32)%N by (apply N.mod_lt; lia);
    repeat case_match; cbn [fst]; lia.
Qed.

Lemma esc_ascii_ascii n t : all_ascii (esc_ascii n t).
Proof.
  revert t. induction n as [|n IH]; intros t; [done|]. destruct t as [|c t]; [done|]. cbn [esc_ascii].
  destruct (code c <? 127)%N eqn:E; [apply all_ascii_app; split; [by apply esc_char_ascii|apply IH]|].
  pose proof (utf8_head_bound (c :: t)) as Hb. destruct (utf8_head (c :: t)) as [cp w].
  apply all_ascii_app. split; [by apply u_escapes_ascii|apply IH].
Qed.

Lemma print_str_all_ascii s : all_ascii (print_str true s).
Proof. unfold print_str. rewrite !all_ascii_app. split_and!; [done|apply esc_ascii_ascii|done]. Qed.

Lemma newline_ascii d : all_ascii (newline d).
Proof. unfold newline. cbn [forallb]. simpl. induction (d + (d + 0)) as [|n IH]; [done|]. by simpl. Qed.

Lemma tjoin_ascii sep l : all_ascii sep → Forall (fun t => all_ascii t) l → all_ascii (tjoin sep l).
Proof.
  intros Hs. induction 1 as [|x l Hx Hl IH]; [done|]. destruct l as [|y l]; [done|].
  rewrite tjoin_cons by done. rewrite !all_ascii_app. done.
Qed.

Lemma digits_ascii z : all_ascii (explode (str_of_Z z)).
Proof.
  assert (∀ x, all_ascii (explode (pretty (x : N)))) as HN.
  { intros x. destruct (pretty_N_digits x) as (c & ds & -> & _ & Hd & _). apply forallb_forall. intros y Hy.
    rewrite Forall_forall in Hd. apply list_elem_of_In, Hd in Hy. unfold is_digit, between in Hy. 
    apply Bool.andb_true_iff in Hy as [_ Hy%N.leb_le]. unfold is_ascii_char. apply N.ltb_lt. lia. }
  rewrite str_of_Z_text. destruct z; [apply HN|apply HN|]. cbn [forallb]. by rewrite HN.
Qed.

Lemma pprint_all_ascii d v : jsonable v = true → all_ascii (pprint true d v).
Proof.
  revert d. induction v as [|b|z|f|s|l IH|l IH|m IH] using pyval_ind'; intros d Hj; try done.
  - by destruct b.
  - apply digits_ascii.
  - apply print_str_all_ascii.
  - destruct l as [|x l]; [done|]. cbn [pprint]. rewrite !all_ascii_app. split_and!; [done|apply newline_ascii| |apply newline_ascii|done].
    apply tjoin_ascii; [apply all_ascii_app; split; [done|apply newline_ascii]|].
    rewrite Forall_forall in IH. apply Forall_forall. intros t (y & -> & Hy)%list_elem_of_fmap. apply IH; [done|].
    cbn [jsonable] in Hj. rewrite forallb_forall in Hj. by apply Hj, list_elem_of_In.
  - destruct m as [|x m]; [done|]. cbn [pprint]. rewrite !all_ascii_app. split_and!; [done|apply newline_ascii| |apply newline_ascii|done].
    apply tjoin_ascii; [apply all_ascii_app; split; [done|apply newline_ascii]|].
    rewrite Forall_forall in IH. apply Forall_forall. intros t (y & -> & Hy)%list_elem_of_fmap. rewrite !all_ascii_app.
    split_and!; [apply print_str_all_ascii|done|]. apply IH; [done|].
    cbn [jsonable] in Hj. rewrite forallb_forall in Hj. by apply Hj, list_elem_of_In.
Qed.

Lemma implode_ascii t : all_ascii t → is_ascii_str (implode t) = true.
Proof.
  unfold is_ascii_str, implode. induction t as [|c t IH]; [done|]. simpl. intros [-> Ht]%Bool.andb_true_iff. by apply IH.
Qed.

Lemma dumps_indent_ascii v : jsonable v = true → is_ascii_str (dumps_indent v) = true.
Proof. intros Hj. by apply implode_ascii, pprint_all_ascii, jsonable_canon. Qed.
