(* ===== verification/Hashing.v ===== *)
(** The parts of [hashlib], [hmac] and [base64] the source uses, executable: SHA-256 on
    32-bit words kept in [N] with their wrap-around, HMAC-SHA256, URL-safe Base64. *)
From S2P Require Import Prelude PyStr PyVal Regex.

(** * SHA-256 *)

Open Scope N_scope.

Definition w32 (x : N) : N := x mod 4294967296.
Definition add32 (x y : N) : N := w32 (x + y).
Definition rotr (n x : N) : N := N.lor (N.shiftr x n) (w32 (N.shiftl x (32 - n))).
Definition bsig0 x := N.lxor (rotr 2 x) (N.lxor (rotr 13 x) (rotr 22 x)).
Definition bsig1 x := N.lxor (rotr 6 x) (N.lxor (rotr 11 x) (rotr 25 x)).
Definition ssig0 x := N.lxor (rotr 7 x) (N.lxor (rotr 18 x) (N.shiftr x 3)).
Definition ssig1 x := N.lxor (rotr 17 x) (N.lxor (rotr 19 x) (N.shiftr x 10)).
Definition sha_ch x y z := N.lxor (N.land x y) (N.land (N.lxor x 4294967295) z).
Definition sha_maj x y z := N.lxor (N.land x y) (N.lxor (N.land x z) (N.land y z)).

(** The round constants are the first 32 bits of the fractional parts of the cube roots of the
    first 64 primes, the initial state those of the square roots of the first 8. *)
Fixpoint cbrt_bits (i : nat) (r n : N) : N :=
  match i with
  | O => r
  | S i' => let r' := r + 2 ^ N.of_nat i' in cbrt_bits i' (if r' * r' * r' <=? n then r' else r) n
  end.
Definition sha_primes : list N :=
  [2; 3; 5; 7; 11; 13; 17; 19; 23; 29; 31; 37; 41; 43; 47; 53; 59; 61; 67; 71; 73; 79; 83; 89; 97; 101; 103; 107; 109; 113; 127; 131;
   137; 139; 149; 151; 157; 163; 167; 173; 179; 181; 191; 193; 197; 199; 211; 223; 227; 229; 233; 239; 241; 251; 257; 263; 269; 271;
   277; 281; 283; 293; 307; 311].
Definition sha_k : list N := Eval vm_compute in map (fun p => w32 (cbrt_bits 40 0 (p * 2 ^ 96))) sha_primes.
Definition sha_init : list N := Eval vm_compute in map (fun p => w32 (N.sqrt (p * 2 ^ 64))) (take 8 sha_primes).

Definition nthN (l : list N) (i : nat) : N := nth i l 0.

(** The message schedule, newest word first. *)
Fixpoint sha_schedule (n : nat) (ws : list N) : list N :=
  match n with
  | O => ws
  | S n' =>
      let w := add32 (add32 (ssig1 (nthN ws 1)) (nthN ws 6)) (add32 (ssig0 (nthN ws 14)) (nthN ws 15)) in
      sha_schedule n' (w :: ws)
  end.

Definition sha_round (h : list N) (kw : N * N) : list N :=
  match h with
  | [a; b; c; d; e; f; g; hh] =>
      let t1 := add32 (add32 hh (bsig1 e)) (add32 (sha_ch e f g) (add32 kw.1 kw.2)) in
      let t2 := add32 (bsig0 a) (sha_maj a b c) in
      [add32 t1 t2; a; b; c; add32 d t1; e; f; g]
  | _ => h
  end.

Definition sha_block (h block : list N) : list N :=
  let ws := rev (sha_schedule 48 (rev block)) in
  map (fun p => add32 p.1 p.2) (zip h (foldl sha_round h (zip sha_k ws))).

Definition word_of (a b c d : ascii) : N := code a * 16777216 + code b * 65536 + code c * 256 + code d.
Fixpoint words_of (t : text) : list N :=
  match t with a :: b :: c :: d :: t' => word_of a b c d :: words_of t' | _ => [] end.

Definition bytes_of_word (w : N) : text :=
  [chr (w / 16777216); chr (w / 65536 mod 256); chr (w / 256 mod 256); chr (w mod 256)].

Definition sha_pad (t : text) : text :=
  let len := length t in
  let zeros := ((119 - len mod 64) mod 64)%nat in
  let bits := 8 * N.of_nat len in
  t ++ [chr 128] ++ replicate zeros (chr 0) ++ bytes_of_word (bits / 4294967296) ++ bytes_of_word (w32 bits).

Fixpoint sha_blocks (n : nat) (h ws : list N) : list N :=
  match n with
  | O => h
  | S n' => match ws with [] => h | _ => sha_blocks n' (sha_block h (take 16 ws)) (drop 16 ws) end
  end.

Definition sha256 (t : text) : text :=
  let ws := words_of (sha_pad t) in
  flat_map bytes_of_word (sha_blocks (S (length ws)) sha_init ws).

Definition hexdigest (t : text) : string :=
  implode (flat_map (fun c => [hex_digit (code c / 16); hex_digit (code c mod 16)]) t).
Definition sha256_hex (s : string) : string := hexdigest (sha256 (explode s)).

(** * HMAC *)

Definition xor_pad (n : N) (key : text) : text :=
  map (fun c => chr (N.lxor (code c) n)) (key ++ replicate (64 - length key)%nat (chr 0)).
Definition hmac_key (key : text) : text := if (64 <? length key)%nat then sha256 key else key.
(** [hmac.new(secret, message, hashlib.sha256).digest()] *)
Definition hmac_sha256 (secret message : string) : string :=
  let key := hmac_key (explode secret) in
  implode (sha256 (xor_pad 92 key ++ sha256 (xor_pad 54 key ++ explode message))).

(** * Base64 *)

Definition b64_char (n : N) : ascii :=
  if n <? 26 then chr (65 + n) else if n <? 52 then chr (71 + n) else if n <? 62 then chr (n - 4)
  else if n =? 62 then "-"%char else "_"%char.

(** [base64.urlsafe_b64encode(b).rstrip(b"=")]: the padding is never produced. *)
Fixpoint b64_nopad (t : text) : text :=
  match t with
  | a :: b :: c :: t' =>
      let n := code a * 65536 + code b * 256 + code c in
      [b64_char (n / 262144); b64_char (n / 4096 mod 64); b64_char (n / 64 mod 64); b64_char (n mod 64)] ++ b64_nopad t'
  | [a; b] =>
      let n := code a * 1024 + code b * 4 in
      [b64_char (n / 4096); b64_char (n / 64 mod 64); b64_char (n mod 64)]
  | [a] => let n := code a * 16 in [b64_char (n / 64); b64_char (n mod 64)]
  | [] => []
  end.
Definition b64url (s : string) : string := implode (b64_nopad (explode s)).

Close Scope N_scope.

Example sha256_abc :
  sha256_hex "abc" = "ba7816bf8f01cfea414140de5dae2223b00361a396177a9cb410ff61f20015ad".
Proof. vm_compute. reflexivity. Qed.
Example hmac_ex :
  hexdigest (explode (hmac_sha256 "key" "The quick brown fox jumps over the lazy dog"))
  = "f7bc83f430538424b13298e6aa6fb143ef4d59a14946175997479dbc2d1a3cd8".
Proof. vm_compute. reflexivity. Qed.
Example b64url_ex : b64url "fooba?>" = "Zm9vYmE_Pg".
Proof. vm_compute. reflexivity. Qed.

(** Base64 text is printable ASCII. *)
Lemma b64_char_print n : (code (b64_char n) <? 127)%N = true.
Proof.
  unfold b64_char, code, chr.
  destruct (n <? 26)%N eqn:H1; [|destruct (n <? 52)%N eqn:H2; [|destruct (n <? 62)%N eqn:H3; [|by destruct (n =? 62)%N]]];
    repeat match goal with H : (_ <? _)%N = true |- _ => apply N.ltb_lt in H end;
    rewrite N_ascii_embedding by lia; apply N.ltb_lt; lia.
Qed.

Lemma b64url_print s : sall (fun c => (code c <? 127)%N) (b64url s) = true.
Proof.
  unfold b64url. generalize (explode s). intros t.
  assert (∀ n t, length t ≤ n → sall (fun c => (code c <? 127)%N) (implode (b64_nopad t)) = true) as H.
  { clear. intros n. induction n as [n IH] using lt_wf_ind. intros [|a [|b [|c t]]] Hn; [done|..]; simpl;
      unfold implode in *; simpl; rewrite ?b64_char_print; try done.
    simpl. apply (IH (length t)); simpl in *; lia. }
  by apply (H (length t)).
Qed.

Lemma b64url_ascii s : is_ascii_str (b64url s) = true.
Proof.
  generalize (b64url_print s). unfold is_ascii_str. generalize (b64url s). clear s.
  intros s. induction s as [|c s IH]; simpl; [done|].
  intros [Hc Hs]%Bool.andb_true_iff. rewrite IH by done. unfold is_ascii_char.
  apply N.ltb_lt in Hc. rewrite (proj2 (N.ltb_lt _ 128)) by lia. done.
Qed.
