(* ===== verification/PyPath.v ===== *)
(** [pathlib] paths (POSIX) and the decoding of process output.  A path is its root flag and
    its parts; [resolve] follows the symbolic links of a file system, so it is a parameter
    of the definitions that use it, except for [normpath], the resolution without links. *)
From S2P Require Import Prelude PyStr PyFloat PyVal Regex.

Record path : Type := Path { p_abs : bool; p_parts : list string }.
#[global] Instance path_eq_dec : EqDecision path.
Proof. solve_decision. Defined.

(** [Path(s)]: empty parts and [.] disappear. *)
Definition path_of (s : string) : path :=
  Path (startswith "/" s) (filterb (fun x => nonempty x && negb (bool_decide (x = "."))) (split_char "/" s)).

(** [str(p)], also [as_posix()] *)
Definition path_str (p : path) : string :=
  match p_abs p, p_parts p with
  | false, [] => "."
  | false, l => join "/" l
  | true, l => "/" +:+ join "/" l
  end.

(** [a / b] *)
Definition path_join (a b : path) : path := if p_abs b then b else Path (p_abs a) (p_parts a ++ p_parts b).
Definition path_name (p : path) : string := List.last (p_parts p) "".
Definition path_parent (p : path) : path := Path (p_abs p) (removelast (p_parts p)).

(** [p.parents], nearest first. *)
Fixpoint prefixes (l : list string) : list (list string) :=
  match l with [] => [] | x :: l' => [] :: map (cons x) (prefixes l') end.
Definition path_parents (p : path) : list path := map (Path (p_abs p)) (rev (prefixes (p_parts p))).

(** [p.relative_to(base)]; [None] is [ValueError]. *)
Fixpoint strip_parts (base l : list string) : option (list string) :=
  match base, l with
  | [], _ => Some l
  | a :: base', b :: l' => if bool_decide (a = b) then strip_parts base' l' else None
  | _, [] => None
  end.
Definition relative_to (base p : path) : option path :=
  if bool_decide (p_abs base = p_abs p) then Path false <$> strip_parts (p_parts base) (p_parts p) else None.

(** Resolution of [..] when there are no symbolic links. *)
Fixpoint norm_parts (acc l : list string) : list string :=
  match l with
  | [] => rev acc
  | ".." :: l' => norm_parts (tl acc) l'
  | x :: l' => norm_parts (x :: acc) l'
  end.
Definition normpath (p : path) : path := Path (p_abs p) (norm_parts [] (p_parts p)).

Lemma prefixes_spec q l : q ∈ prefixes l ↔ ∃ r, r ≠ [] ∧ l = q ++ r.
Proof.
  revert q. induction l as [|x l IH]; intros q; simpl.
  - split; [set_solver|]. intros (r & Hr & He). symmetry in He. apply app_nil in He as [_ ->]. done.
  - rewrite elem_of_cons, list_elem_of_fmap. split.
    + intros [->|(q' & -> & (r & Hr & ->)%IH)]; [by exists (x :: l)|by exists r].
    + intros (r & Hr & He). destruct q as [|y q]; [by left|]. right. simplify_eq/=.
      exists q. split; [done|]. apply IH. by exists r.
Qed.

(** A proper ancestor is a proper prefix of the parts. *)
Lemma parents_spec a p : a ∈ path_parents p ↔ p_abs a = p_abs p ∧ ∃ r, r ≠ [] ∧ p_parts p = p_parts a ++ r.
Proof.
  unfold path_parents. rewrite list_elem_of_fmap. split.
  - intros (q & -> & Hq). rewrite <- Permutation_rev in Hq. by apply prefixes_spec in Hq.
  - intros (Ha & Hr). exists (p_parts a). rewrite <- Permutation_rev, prefixes_spec, <- Ha. by destruct a.
Qed.

Lemma strip_parts_spec base l r : strip_parts base l = Some r ↔ l = base ++ r.
Proof.
  revert l. induction base as [|a base IH]; intros l; simpl; [naive_solver|].
  destruct l as [|b l]; [naive_solver|]. case_bool_decide as E; [rewrite IH; naive_solver|naive_solver].
Qed.

Lemma relative_to_spec base p q :
  relative_to base p = Some q ↔ p_abs base = p_abs p ∧ p_abs q = false ∧ p_parts p = p_parts base ++ p_parts q.
Proof.
  unfold relative_to. case_bool_decide as E; [|naive_solver]. rewrite fmap_Some.
  setoid_rewrite strip_parts_spec. destruct q as [ab parts]. simpl. split; [naive_solver|].
  intros (_ & -> & Hp). by exists parts.
Qed.

Example path_ex : path_str (normpath (path_join (path_of "/a/b") (path_of "../c//./d"))) = "/a/c/d".
Proof. vm_compute. reflexivity. Qed.

(** * Decoding bytes *)

(** [bytes.decode("utf-8")] succeeds on well-formed UTF-8 only; the text is its bytes. *)
Definition is_cont (c : ascii) : bool := between 128 191 c.
Fixpoint utf8_valid (fuel : nat) (t : text) : bool :=
  match fuel with
  | 0 => match t with [] => true | _ => false end
  | S n =>
      match t with
      | [] => true
      | a :: t1 =>
          if (code a <? 128)%N then utf8_valid n t1
          else match t1 with
               | b :: t2 =>
                   if between 194 223 a && is_cont b then utf8_valid n t2
                   else match t2 with
                        | c :: t3 =>
                            if (between 224 239 a && is_cont b && is_cont c)
                               && negb ((code a =? 224)%N && (code b <? 160)%N)
                               && negb ((code a =? 237)%N && (159 <? code b)%N)
                            then utf8_valid n t3
                            else match t3 with
                                 | d :: t4 =>
                                     if (between 240 244 a && is_cont b && is_cont c && is_cont d)
                                        && negb ((code a =? 240)%N && (code b <? 144)%N)
                                        && negb ((code a =? 244)%N && (143 <? code b)%N)
                                     then utf8_valid n t4 else false
                                 | [] => false
                                 end
                        | [] => false
                        end
               | [] => false
               end
      end
  end.
Definition utf8_decode (bytes : string) : option string :=
  if utf8_valid (String.length bytes) (explode bytes) then Some bytes else None.

(** [bytes.decode("utf-8", errors="replace")] *)

Definition replacement : text := map chr [239; 191; 189]%N.

(** Continuation bytes a lead byte needs, and the range of the first of them. *)
Definition utf8_lead (a : ascii) : option (nat * N * N) :=
  if between 194 223 a then Some (1, 128%N, 191%N)
  else if is_char (chr 224) a then Some (2, 160%N, 191%N)
  else if is_char (chr 237) a then Some (2, 128%N, 159%N)
  else if between 225 239 a then Some (2, 128%N, 191%N)
  else if is_char (chr 240) a then Some (3, 144%N, 191%N)
  else if is_char (chr 244) a then Some (3, 128%N, 143%N)
  else if between 241 243 a then Some (3, 128%N, 191%N)
  else None.

Fixpoint conts (k : nat) (lo hi : N) (t : text) : text * text :=
  match k, t with
  | S k', c :: t' => if between lo hi c then let '(cs, r) := conts k' 128 191 t' in (c :: cs, r) else ([], t)
  | _, _ => ([], t)
  end.

Fixpoint decode_replace_go (fuel : nat) (t : text) : text :=
  match fuel, t with
  | S n, a :: t' =>
      if (code a <? 128)%N then a :: decode_replace_go n t'
      else match utf8_lead a with
           | None => replacement ++ decode_replace_go n t'
           | Some (k, lo, hi) =>
               let '(cs, r) := conts k lo hi t' in
               (if (length cs =? k)%nat then a :: cs else replacement) ++ decode_replace_go n r
           end
  | _, _ => []
  end.
Definition decode_replace (s : string) : string := implode (decode_replace_go (String.length s) (explode s)).

Lemma utf8_decode_ascii s : is_ascii_str s = true → utf8_decode s = Some s.
Proof.
  intros Hs. unfold utf8_decode. assert (utf8_valid (String.length s) (explode s) = true) as ->; [|done].
  unfold is_ascii_str in Hs. induction s as [|c s IH]; [done|]. simpl in *. apply Bool.andb_true_iff in Hs as [Hc Hs].
  unfold is_ascii_char in Hc. unfold explode in *. simpl. by rewrite Hc, IH.
Qed.

Lemma decode_replace_ascii s : is_ascii_str s = true → decode_replace s = s.
Proof.
  unfold decode_replace, is_ascii_str. induction s as [|c s IH]; [done|]. simpl. intros [Hc Hs]%Bool.andb_true_iff.
  unfold explode in *. simpl. unfold is_ascii_char in Hc. rewrite Hc. unfold implode in *. simpl. by rewrite IH.
Qed.

Example decode_replace_ex : decode_replace (implode (map chr [97; 195; 169; 226; 130; 98]%N)) = "aé�b".
Proof. vm_compute. reflexivity. Qed.

(** * Processes *)

(** What [subprocess.run] does: the exit status and the output, or an [OSError] or
    [TimeoutExpired] named by its class. *)
Inductive proc : Type :=
| Completed (rc : Z) (out : string)
| ProcError (cls : string).

(** Text mode translates the line ends of what it reads. *)
Fixpoint universal_newlines (s : string) : string :=
  match s with
  | "" => ""
  | String c s' =>
      if is_char (chr 13) c then
        match s' with
        | String d s'' => if is_char ch_nl d then String ch_nl (universal_newlines s'') else String ch_nl (universal_newlines s')
        | "" => nl
        end
      else String c (universal_newlines s')
  end.
(** The output of a process run with [text=True, encoding="utf-8", errors="replace"]. *)
Definition decode_output (bytes : string) : string := universal_newlines (decode_replace bytes).

(** [os.getenv(name, default)] *)
Definition getenv (env : list (string * string)) (name dflt : string) : string := default dflt (dget name env).

(** * Files and errors *)

(** A file as [exists]/[read_text] see it: missing, unreadable (an [OSError], printed), or
    its bytes. *)
Inductive file : Type :=
| Missing
| Unreadable (cls msg : string)
| Content (bytes : string).

(** [str(exc)]: an [OSError] with an errno prints it. *)
Definition exn_str (e : exn) : string :=
  match e with
  | ValueError m | RuntimeError m => m
  | OSError _ n m => if (n =? 0)%Z then m else "[Errno " +:+ str_of_Z n +:+ "] " +:+ m
  | _ => ""
  end.

