(* ===== verification/PyText.v ===== *)
(** Text by characters rather than bytes (slicing, [len]), iteration over values, and
    [float()]. *)
From S2P Require Import Prelude PyStr PyFloat PyVal Regex PyPath.

(** * Characters of a text *)

(** Bytes 128 to 191 continue the character before them. *)
Fixpoint chars_go (t : text) : list text :=
  match t with
  | [] => []
  | c :: t' =>
      match chars_go t' with
      | (d :: g) :: r => if is_cont d then (c :: d :: g) :: r else [c] :: (d :: g) :: r
      | r => [c] :: r
      end
  end.
Definition chars (s : string) : list string := map implode (chars_go (explode s)).
Definition ulen (s : string) : nat := length (chars s).
(** [s[:n]], [s[n:]] and [s[-n:]] for [n >= 0] *)
Definition utake (n : nat) (s : string) : string := join "" (take n (chars s)).
Definition udrop (n : nat) (s : string) : string := join "" (drop n (chars s)).
Definition ulast (n : nat) (s : string) : string := udrop (if (n =? 0)%nat then 0 else ulen s - n) s.

Lemma chars_go_concat t : concat (chars_go t) = t.
Proof.
  induction t as [|c t IH]; [done|]. simpl. destruct (chars_go t) as [|[|d g] r]; simpl in *.
  - by rewrite <- IH.
  - by rewrite IH.
  - destruct (is_cont d); simpl; by rewrite <- IH.
Qed.

Lemma join_empty l : join "" (map implode l) = implode (concat l).
Proof.
  induction l as [|x l IH]; [done|]. simpl. destruct l as [|y l]; simpl in *; [by rewrite app_nil_r|].
  rewrite IH. simpl. rewrite !implode_app. by autorewrite with pystr.
Qed.

Lemma utake_all n s : ulen s ≤ n → utake n s = s.
Proof.
  intros H. unfold utake. rewrite take_ge by done. unfold chars. rewrite join_empty, chars_go_concat. apply implode_explode.
Qed.

Lemma utake_ulen_le n s : ∃ rest, s = utake n s +:+ rest.
Proof.
  exists (udrop n s). unfold utake, udrop, chars. rewrite !firstn_map, !skipn_map, !join_empty, <- implode_app.
  by rewrite <- concat_app, take_drop, chars_go_concat, implode_explode.
Qed.

(** * Iteration: [for x in v] *)
Definition py_iter (v : pyval) : res (list pyval) :=
  match v with
  | PList l | PTuple l => Ok l
  | PDict d => Ok (map PStr (dkeys d))
  | PStr s => Ok (map PStr (chars s))
  | _ => Raise TypeError
  end.

(** * [float(v)] *)
Definition float_syntax : regex :=
  re_compile "[+-]?(?:[0-9](?:_?[0-9])*\.?(?:[0-9](?:_?[0-9])*)?|\.[0-9](?:_?[0-9])*)(?:[eE][+-]?[0-9](?:_?[0-9])*)?".
Definition z_digits (s : string) : Z :=
  foldl (fun acc c => (acc * 10 + Z.of_N (code c - 48))%Z) 0%Z (explode s).
Definition unsigned_float (s : string) : float :=
  let '(mant, ex) := match split1 "e" s with Some (m, e) => (m, e) | None => (s, "0") end in
  let e := match ex with
           | String "-" e' => (- z_digits e')%Z
           | String "+" e' => z_digits e'
           | e' => z_digits e'
           end in
  let '(i, f) := match split1 "." mant with Some (i, f) => (i, f) | None => (mant, "") end in
  f_of_dec (z_digits (i +:+ f)) (e - Z.of_nat (String.length f)).
Definition f_opp (f : float) : float := SFopp f.
Definition float_of_str (s : string) : option float :=
  let t := lower (strip s) in
  let '(neg, body) := match t with
                      | String "-" b => (true, b)
                      | String "+" b => (false, b)
                      | b => (false, b)
                      end in
  let signed f := if neg : bool then f_opp f else f in
  if bool_decide (body = "inf" ∨ body = "infinity") then Some (signed (S754_infinity false))
  else if bool_decide (body = "nan") then Some S754_nan
  else match re_fullmatch float_syntax t with
       | Some _ => Some (signed (unsigned_float (join "" (split_char "_" body))))
       | None => None
       end.
Definition py_float (v : pyval) : res float :=
  match v with
  | PFloat f => Ok f
  | PInt z => match f_of_Z z with S754_infinity _ => Raise OverflowError | f => Ok f end
  | PBool b => Ok (f_of_Z (Z_of_bool b))
  | PStr s => match float_of_str s with
              | Some f => Ok f
              | None => Raise (ValueError ("could not convert string to float: " +:+ repr_str s))
              end
  | _ => Raise TypeError
  end.

Example py_float_ex : py_float (PStr " -2.5e1 ") = Ok (f_lit (-25) 1) ∧ py_float (PStr "1_0.5") = Ok (f_lit 21 2)
  ∧ is_ok (py_float (PStr "1__0")) = false.
Proof. by vm_compute. Qed.
Example chars_ex : ulen "aéb" = 3 ∧ utake 2 "aéb" = "aé" ∧ ulast 2 "aéb" = "éb".
Proof. by vm_compute. Qed.
