(* ===== verification/PyIO.v ===== *)
(** Computations with effects: a state that survives an exception, as the files a Python
    program wrote before it raised do.  [io S A] is the monad, [catch] and [finally] are
    [try]/[except Exception] and [try]/[finally], and [keeps R m] says that [m] moves the state
    along the preorder [R] whether it returns or raises; the components prove what they may
    touch with it, one lemma per operation. *)
From S2P Require Import Prelude PyStr PyFloat PyVal Regex PyPath.

Definition io (S A : Type) : Type := S → res A * S.

#[export] Instance io_ret {S} : MRet (io S) := fun A a s => (Ok a, s).
#[export] Instance io_bind {S} : MBind (io S) := fun A B f m s =>
  match m s with (Ok a, s') => f a s' | (Raise e, s') => (Raise e, s') end.

Definition throw {S A} (e : exn) : io S A := fun s => (Raise e, s).
(** A pure step that may raise. *)
Definition lift {S A} (r : res A) : io S A := fun s => (r, s).
Definition catch {S A} (m : io S A) (h : exn → io S A) : io S A := fun s =>
  match m s with (Raise e, s') => h e s' | r => r end.
(** [try: m finally: f]: an exception of [f] replaces the outcome of [m]. *)
Definition finally {S A} (m : io S A) (f : io S unit) : io S A := fun s =>
  let '(r, s') := m s in match f s' with (Ok _, s'') => (r, s'') | (Raise e, s'') => (Raise e, s'') end.
Definition skip {S} : io S unit := mret ().
Definition reads {S A} (f : S → A) : io S A := fun s => (Ok (f s), s).
Definition modify {S} (f : S → S) : io S unit := fun s => (Ok (), f s).

Fixpoint io_mapM {S A B} (f : A → io S B) (l : list A) : io S (list B) :=
  match l with
  | [] => mret []
  | x :: l' => y ← f x; ys ← io_mapM f l'; mret (y :: ys)
  end.
Fixpoint io_iter {S A} (f : A → io S unit) (l : list A) : io S unit :=
  match l with [] => skip | x :: l' => _ ← f x; io_iter f l' end.

(** * What a computation may do to the state *)

Section keeps.
Context {S : Type} (R : relation S) `{!PreOrder R}.

Definition keeps {A} (m : io S A) : Prop := ∀ s, R s (m s).2.

Lemma keeps_ret {A} (a : A) : keeps (mret a).
Proof. intros s. reflexivity. Qed.
Lemma keeps_throw {A} e : keeps (throw (A := A) e).
Proof. intros s. reflexivity. Qed.
Lemma keeps_lift {A} (r : res A) : keeps (lift r).
Proof. intros s. reflexivity. Qed.
Lemma keeps_reads {A} (f : S → A) : keeps (reads f).
Proof. intros s. reflexivity. Qed.
Lemma keeps_bind {A B} (m : io S A) (f : A → io S B) : keeps m → (∀ a, keeps (f a)) → keeps (m ≫= f).
Proof.
  intros Hm Hf s. unfold mbind, io_bind. specialize (Hm s).
  destruct (m s) as [[a|e] s']; simpl in *; [|done]. etrans; [exact Hm|apply Hf].
Qed.
Lemma keeps_catch {A} (m : io S A) h : keeps m → (∀ e, keeps (h e)) → keeps (catch m h).
Proof.
  intros Hm Hh s. unfold catch. specialize (Hm s).
  destruct (m s) as [[a|e] s']; simpl in *; [done|]. etrans; [exact Hm|apply Hh].
Qed.
Lemma keeps_finally {A} (m : io S A) f : keeps m → keeps f → keeps (finally m f).
Proof.
  intros Hm Hf s. unfold finally. specialize (Hm s). destruct (m s) as [r s']. specialize (Hf s').
  destruct (f s') as [[u|e] s'']; simpl in *; by etrans.
Qed.
Lemma keeps_mapM {A B} (f : A → io S B) l : (∀ x, keeps (f x)) → keeps (io_mapM f l).
Proof.
  intros Hf. induction l as [|x l IH]; simpl; [apply keeps_ret|].
  apply keeps_bind; [apply Hf|]. intros y. apply keeps_bind; [done|]. intros ys. apply keeps_ret.
Qed.
Lemma keeps_iter {A} (f : A → io S unit) l : (∀ x, keeps (f x)) → keeps (io_iter f l).
Proof.
  intros Hf. induction l as [|x l IH]; simpl; [apply keeps_ret|].
  apply keeps_bind; [apply Hf|]. intros _. done.
Qed.
End keeps.

Create HintDb effects.
#[export] Hint Resolve keeps_ret keeps_throw keeps_lift keeps_reads keeps_bind keeps_catch keeps_finally keeps_mapM keeps_iter : effects.

(** Reduce a goal [keeps R m] to the operations [m] is built from. *)
Ltac keeps_step :=
  match goal with
  | |- keeps _ (mret _) => apply keeps_ret; try typeclasses eauto
  | |- keeps _ (throw _) => apply keeps_throw; try typeclasses eauto
  | |- keeps _ (lift _) => apply keeps_lift; try typeclasses eauto
  | |- keeps _ (reads _) => apply keeps_reads; try typeclasses eauto
  | |- keeps _ skip => apply keeps_ret; try typeclasses eauto
  | |- keeps _ (_ ≫= _) => apply keeps_bind; [typeclasses eauto| |intros ?]
  | |- keeps _ (catch _ _) => apply keeps_catch; [typeclasses eauto| |intros ?]
  | |- keeps _ (finally _ _) => apply keeps_finally; [typeclasses eauto| |]
  | |- keeps _ (io_mapM _ _) => apply keeps_mapM; [typeclasses eauto|intros ?]
  | |- keeps _ (io_iter _ _) => apply keeps_iter; [typeclasses eauto|intros ?]
  | |- keeps _ (match ?x with _ => _ end) => destruct x
  end.
Ltac keeps_auto := repeat keeps_step; eauto with effects.

(** An outcome that does not depend on the state, and leaves it alone. *)
Lemma bind_ok {S A B} (m : io S A) (f : A → io S B) s a s' :
  m s = (Ok a, s') → (m ≫= f) s = f a s'.
Proof. intros H. unfold mbind, io_bind. by rewrite H. Qed.
Lemma bind_raise {S A B} (m : io S A) (f : A → io S B) s e s' :
  m s = (Raise e, s') → (m ≫= f) s = (Raise e, s').
Proof. intros H. unfold mbind, io_bind. by rewrite H. Qed.
Lemma bind_inv {S A B} (m : io S A) (f : A → io S B) s b s' :
  (m ≫= f) s = (Ok b, s') → ∃ a s1, m s = (Ok a, s1) ∧ f a s1 = (Ok b, s').
Proof. unfold mbind, io_bind. destruct (m s) as [[a|e] s1]; [by eauto|done]. Qed.
