(* ===== verification/ArgParse.v ===== *)
(** Command lines: the part of [argparse] the scripts use, as the interpreter of the workflows
    (3.13) behaves.  Options with a value, flags, repeated options, required options, choices,
    conversions, [--option=value], unambiguous abbreviations, positionals and one level of
    sub-commands.

    A bare [--] is left out: its treatment differs between releases, and no caller in the
    repository passes it.  A command line that has one is [Separator], about which nothing is
    said. *)
From S2P Require Import Prelude PyStr PyVal Regex.

(** * Parsers *)

Inductive action : Type := StoreValue | StoreTrue | AppendValue | ShowHelp.

(** [o_conv] is the conversion with the choices; [None] is a rejected value. *)
Record opt : Type := Opt {
  o_names : list string; o_dest : string; o_action : action; o_conv : string → option pyval; o_required : bool }.
Record positional : Type := Pos { p_dest : string; p_conv : string → option pyval }.
Record parser : Type := Parser { pr_options : list opt; pr_positionals : list positional; pr_defaults : dict }.

Definition help : opt := Opt ["-h"; "--help"] "help" ShowHelp (fun _ => None) false.

Definition conv_str (s : string) : option pyval := Some (PStr s).
Definition conv_int (s : string) : option pyval := PInt <$> int_of_str s.
Definition conv_choice (choices : list string) (s : string) : option pyval :=
  if bool_decide (s ∈ choices) then Some (PStr s) else None.

(** [add_argument] in the forms the scripts use. *)
Definition text_option (name dest : string) : opt := Opt [name] dest StoreValue conv_str false.
Definition required_option (name dest : string) : opt := Opt [name] dest StoreValue conv_str true.
Definition int_option (name dest : string) : opt := Opt [name] dest StoreValue conv_int false.
Definition flag (names : list string) (dest : string) : opt := Opt names dest StoreTrue (fun _ => None) false.

(** [ArgumentParser()] adds [-h]. *)
Definition argument_parser (options : list opt) (positionals : list positional) (defaults : dict) : parser :=
  Parser (help :: options) positionals defaults.

(** * Words *)

(** What an argument is taken for: [Known] has the explicit value of [--option=value], and
    [Clustered] the characters after [-h]. *)
Inductive word : Type :=
| Plain (s : string)
| Known (o : opt) (explicit : option string)
| Clustered (o : opt) (tail : string)
| Ambiguous
| Unknown.

Definition option_strings (p : parser) : list (string * opt) :=
  flat_map (fun o => map (fun n => (n, o)) (o_names o)) (pr_options p).

Definition NEGATIVE_NUMBER : regex := re_compile "^-\d+$|^-\d*\.\d+$".

(** [_get_option_tuples] *)
Definition option_tuples (table : list (string * opt)) (s : string) : list word :=
  let '(prefix, explicit) := match split1 "=" s with Some (a, b) => (a, Some b) | None => (s, None) end in
  if startswith "--" s then map (fun no => Known no.2 explicit) (filterb (fun no => startswith prefix no.1) table)
  else flat_map (fun no => if bool_decide (no.1 = stake 2 s) then [Clustered no.2 (sdrop 2 s)]
                           else if startswith prefix no.1 then [Known no.2 explicit] else []) table.

(** [_parse_optional] *)
Definition classify_word (table : list (string * opt)) (s : string) : word :=
  if negb (startswith "-" s) then Plain s
  else match dget s table with
       | Some o => Known o None
       | None =>
           if (String.length s =? 1)%nat then Plain s
           else match (match split1 "=" s with
                       | Some (name, value) => (fun o => Known o (Some value)) <$> dget name table
                       | None => None
                       end) with
                | Some w => w
                | None =>
                    match option_tuples table s with
                    | [w] => w
                    | _ :: _ :: _ => Ambiguous
                    | [] => match re_search NEGATIVE_NUMBER s with
                            | Some _ => Plain s
                            | None => if contains " " s then Plain s else Unknown
                            end
                    end
                end
       end.

(** * Parsing *)

Inductive parsed (A : Type) : Type :=
| Parsed (a : A)
| Help                (* exit status 0 *)
| Rejected            (* usage on stderr, exit status 2 *)
| Separator.
Arguments Parsed {A} _.
Arguments Help {A}.
Arguments Rejected {A}.
Arguments Separator {A}.

Definition parsed_map {A B} (f : A → B) (x : parsed A) : parsed B :=
  match x with Parsed a => Parsed (f a) | Help => Help | Rejected => Rejected | Separator => Separator end.

(** The namespace, the positionals still to come, the destinations seen, and whether an
    argument was not recognised. *)
Record pstate : Type := PState { st_ns : dict; st_pending : list positional; st_seen : list string; st_extras : bool }.

Definition put_value (o : opt) (v : pyval) (st : pstate) : pstate :=
  let old := match dget (o_dest o) (st_ns st) with Some (PList l) => l | _ => [] end in
  let v := match o_action o with AppendValue => PList (old ++ [v]) | _ => v end in
  PState (dset (o_dest o) v (st_ns st)) (st_pending st) (o_dest o :: st_seen st) (st_extras st).
Definition unrecognised (st : pstate) : pstate := PState (st_ns st) (st_pending st) (st_seen st) true.

(** An option with its value. *)
Definition take_value (o : opt) (s : string) (st : pstate) : option pstate := (fun v => put_value o v st) <$> o_conv o s.
(** A positional. *)
Definition take_positional (s : string) (st : pstate) : option pstate :=
  match st_pending st with
  | [] => Some (unrecognised st)
  | p :: rest => (fun v => PState (dset (p_dest p) v (st_ns st)) rest (st_seen st) (st_extras st)) <$> p_conv p s
  end.

(** [-hx...]: the characters are read as further short options. *)
Fixpoint help_cluster {A} (tail : string) : parsed A :=
  match tail with
  | "" => Help
  | String "-" _ => Rejected
  | String "h" "" => Help
  | String "h" (String "=" _) => Rejected
  | String "h" rest => help_cluster rest
  | String _ _ => Help
  end.

(** The end of the line: every positional and required option must be there, and nothing else. *)
Definition finish (p : parser) (st : pstate) : parsed dict :=
  if negb (bool_decide (length (st_pending st) = 0)) then Rejected
  else if existsb (fun o => o_required o && negb (bool_decide (o_dest o ∈ st_seen st))) (pr_options p) then Rejected
  else if st_extras st then Rejected
  else Parsed (st_ns st).

Fixpoint consume (p : parser) (st : pstate) (words : list word) : parsed dict :=
  match words with
  | [] => finish p st
  | Plain s :: rest => match take_positional s st with Some st => consume p st rest | None => Rejected end
  | Unknown :: rest => consume p (unrecognised st) rest
  | Ambiguous :: _ => Rejected
  | Clustered o tail :: _ => match o_action o with ShowHelp => help_cluster tail | _ => Rejected end
  | Known o explicit :: rest =>
      match o_action o, explicit with
      | ShowHelp, None => Help
      | StoreTrue, None => consume p (put_value o (PBool true) st) rest
      | ShowHelp, Some _ | StoreTrue, Some _ => Rejected
      | _, Some s => match take_value o s st with Some st => consume p st rest | None => Rejected end
      | _, None => match rest with
                   | Plain s :: rest' => match take_value o s st with Some st => consume p st rest' | None => Rejected end
                   | _ => Rejected
                   end
      end
  end.

Definition has_separator (argv : list string) : bool := bool_decide ("--" ∈ argv).

Definition parse_words (p : parser) (argv : list string) : parsed dict :=
  consume p (PState (pr_defaults p) (pr_positionals p) [] false) (map (classify_word (option_strings p)) argv).

(** [parser.parse_args(argv)] *)
Definition parse_args (p : parser) (argv : list string) : parsed dict :=
  if has_separator argv then Separator else parse_words p argv.

(** ** Sub-commands: [add_subparsers(dest=dest, required=True)] *)

Fixpoint sub_words (dest : string) (subs : list (string * parser)) (extras : bool) (argv : list string) : parsed dict :=
  match argv with
  | [] => Rejected
  | s :: rest =>
      match classify_word [("-h", help); ("--help", help)] s with
      | Plain name =>
          match dget name subs with
          | None => Rejected
          | Some p => match parse_words p rest with
                      | Parsed ns => if extras then Rejected else Parsed (dset dest (PStr name) ns)
                      | other => other
                      end
          end
      | Known _ None => Help
      | Known _ (Some _) | Ambiguous => Rejected
      | Clustered _ tail => help_cluster tail
      | Unknown => sub_words dest subs true rest
      end
  end.
Definition parse_subcommand (dest : string) (subs : list (string * parser)) (argv : list string) : parsed dict :=
  if has_separator argv then Separator else sub_words dest subs false argv.

(** * Reading a namespace *)

Definition ns_str (ns : dict) (k : string) : string := match dget k ns with Some (PStr s) => s | _ => "" end.
Definition ns_opt (ns : dict) (k : string) : option string := match dget k ns with Some (PStr s) => Some s | _ => None end.
Definition ns_bool (ns : dict) (k : string) : bool := match dget k ns with Some (PBool b) => b | _ => false end.
Definition ns_int (ns : dict) (k : string) : Z := match dget k ns with Some (PInt z) => z | _ => 0%Z end.
Definition ns_strs (ns : dict) (k : string) : list string :=
  match dget k ns with Some (PList l) => omap (fun v => match v with PStr s => Some s | _ => None end) l | _ => [] end.
