(* ===== verification/Redaction.v ===== *)
(** Secret-safe serialization ([observability/ci/redaction.py]): which keys are sensitive,
    the masking of values, mappings, free text and argument vectors. *)
From S2P Require Import Prelude PyStr PyFloat PyVal Regex Json.

(** * Definitions *)

Definition SENSITIVE_KEY_PARTS : list string :=
  ["TOKEN"; "SECRET"; "PASSWORD"; "DSN"; "KEY"; "AUTH"; "CREDENTIAL"; "PRIVATE"].

(** Python's classes [\s], [\w] and [\b] cover Unicode; those of [Regex] are their ASCII part, so
    the model agrees with the code on text whose blanks and word characters are ASCII. *)
Definition _ASSIGNMENT : regex := re_compile
  "(?i)(\b[A-Z0-9_]*(?:TOKEN|SECRET|PASSWORD|DSN|KEY|AUTH|CREDENTIAL|PRIVATE)[A-Z0-9_]*\b\s*[=:]\s*)([^\s,;]+)".
Definition _AUTH_HEADER : regex := re_compile
  "(?i)(authorization\s*:\s*)(?:bearer\s+|basic\s+)?[^\s]+".
Definition _URL_CREDENTIALS : regex := re_compile_i
  "(?P<scheme>[a-z][a-z0-9+.-]*://)(?P<credentials>[^/@\s]+@)".

Definition is_sensitive_key (key : string) : bool :=
  let upper_key := upper key in
  any (fun part => contains part upper_key) SENSITIVE_KEY_PARTS.

(** [value not in (None, "")] *)
Definition present (value : pyval) : bool := negb (py_eqb value PNone || py_eqb value (PStr "")).

Definition redacted_presence (value : pyval) : string :=
  if present value then "<redacted:present>" else "<redacted:empty>".

Definition redact_text (text : string) : string :=
  let text := re_sub _ASSIGNMENT (fun m => groupd m 1 +:+ "<redacted:present>") text in
  let text := re_sub _AUTH_HEADER (fun m => groupd m 1 +:+ "<redacted:present>") text in
  re_sub _URL_CREDENTIALS (fun m => groupd m 1 +:+ "<redacted>@") text.

(** The dictionary branch is [redact_mapping]: items in key order, each value redacted under
    its own key. *)
Fixpoint redact_value (key : string) (value : pyval) : pyval :=
  if is_sensitive_key key then PStr (redacted_presence value)
  else match value with
       | PDict d => PDict (sort_keys (map (fun kv => (kv.1, redact_value kv.1 kv.2)) d))
       | PList l | PTuple l => PList (map (redact_value key) l)
       | PStr s => PStr (redact_text s)
       | v => v
       end.

Definition redact_mapping (values : dict) : dict :=
  sort_keys (map (fun kv => (kv.1, redact_value kv.1 kv.2)) values).

Definition is_eq_arg (value : string) : bool := startswith "--" value && contains "=" value.

(** One turn of the loop: the emitted argument and the next [redact_next]. *)
Definition safe_arg (redact_next : bool) (value : string) : string * bool :=
  if redact_next then ("<redacted:present>", false)
  else if is_eq_arg value then
    match split1 "=" value with
    | Some (name, raw) =>
        (if is_sensitive_key name then name +:+ "=" +:+ redacted_presence (PStr raw) else redact_text value, false)
    | None => (redact_text value, false)
    end
  else (redact_text value, startswith "-" value && is_sensitive_key (lstrip (is_char "-") value)).

Fixpoint safe_argv_from (redact_next : bool) (argv : list string) : list string :=
  match argv with
  | [] => []
  | value :: argv' =>
      let '(out, redact_next') := safe_arg redact_next value in
      out :: safe_argv_from redact_next' argv'
  end.
Definition safe_argv (argv : list string) : list string := safe_argv_from false argv.

(** * Behaviour on the inputs of the repository's own tests *)

Example redact_text_test :
  redact_text "DATABASE_URL=postgres://user:secret@db/eve" = "DATABASE_URL=postgres://<redacted>@db/eve".
Proof. vm_compute. reflexivity. Qed.
Example safe_argv_test :
  safe_argv ["tool"; "--auth-token"; "secret"; "--password=x"; "v"] =
  ["tool"; "--auth-token"; "<redacted:present>"; "--password=<redacted:present>"; "v"].
Proof. vm_compute. reflexivity. Qed.
Example redact_mapping_test :
  redact_mapping [("SENTRY_DSN", PStr "https://x"); ("EMPTY_TOKEN", PStr ""); ("SAFE", PStr "visible")] =
  [("EMPTY_TOKEN", PStr "<redacted:empty>"); ("SAFE", PStr "visible"); ("SENTRY_DSN", PStr "<redacted:present>")].
Proof. vm_compute. reflexivity. Qed.
Example redact_multi :
  redact_text "a TOKEN=x,y API_KEY: zz; postgres://u:p@h PASSWORD =  q" =
  "a TOKEN=<redacted:present>,y API_KEY: <redacted:present>; postgres://<redacted>@h PASSWORD =  <redacted:present>".
Proof. vm_compute. reflexivity. Qed.
