(* ===== verification/Storage.v ===== *)
(** Artifact storage of a run ([observability/ci/storage.py]): the path guard, the writers, the
    bundle and the optional upload.  The state is the tree of files.  Symbolic links, the errors
    of the operating system, the ZIP encoder and the S3 client are parameters. *)
From S2P Require Import Prelude PyStr PyFloat PyVal Regex Json JsonIndent PyPath PyText PyIO Redaction.

#[export] Program Instance path_countable : Countable path :=
  inj_countable' (fun p => (p_abs p, p_parts p)) (fun x => Path x.1 x.2) _.
Next Obligation. by intros []. Qed.

(** The regular files, by absolute path. *)
Abbreviation fs := (gmap path string).

Record RunStorage : Type := Storage { run_dir : path; strict : bool }.

(** [p.with_suffix(suffix)]: the suffix starts at the last dot, unless that is the first or
    the last character of the name. *)
Definition with_suffix (suffix : string) (p : path) : path :=
  let name := path_name p in
  let stem := match rsplit1 "." name with
              | Some (a, b) => if nonempty a && nonempty b then a else name
              | None => name
              end in
  Path (p_abs p) (removelast (p_parts p) ++ [stem +:+ suffix]).

(** The order of [sorted] on paths: part by part. *)
Fixpoint parts_leb (a b : list string) : bool :=
  match a, b with
  | [], _ => true
  | _ :: _, [] => false
  | x :: a', y :: b' => if bool_decide (x = y) then parts_leb a' b' else str_leb x y
  end.

(** [sorted(dir.rglob("*"))], the regular files. *)
Definition rglob_files (dir : path) (files : fs) : list (path * string) :=
  sort_by (fun a b => parts_leb (p_parts a.1) (p_parts b.1))
    (filterb (fun kv => bool_decide (dir ∈ path_parents kv.1)) (map_to_list files)).

Section storage.
(** Resolution of symbolic links, what creating or replacing a file at a path raises, the ZIP
    archive of named entries, and what importing the S3 client and an upload raise. *)
Context (resolve : path → path) (os_error : path → option exn).
Context (zip : list (string * string) → string) (boto3_import : option exn).
Context (s3_upload : path → string → string → option exn).

(** [RunStorage(run_dir, strict=strict)] *)
Definition init (dir : path) (strict : bool) : io fs RunStorage :=
  let dir := resolve dir in
  match os_error dir with Some e => throw e | None => mret (Storage dir strict) end.

Definition escapes (self : RunStorage) (candidate : path) : bool :=
  bool_decide (candidate ≠ run_dir self) && negb (bool_decide (run_dir self ∈ path_parents candidate)).

(** [self.path(relative)]: refuses a path that leaves the run directory, creates the parents. *)
Definition path_in (self : RunStorage) (relative : path) : io fs path :=
  let candidate := resolve (path_join (run_dir self) relative) in
  if escapes self candidate then throw (ValueError ("artifact path escapes run directory: " +:+ path_str relative))
  else match os_error (path_parent candidate) with Some e => throw e | None => mret candidate end.

(** The temporary file and its rename are one step: the old content or the new one.  A temporary
    file that a failed rename leaves beside the target is not among the files of the model. *)
Definition atomic_write (target : path) (payload : string) : io fs unit :=
  match os_error target with Some e => throw e | None => modify (<[target := payload]>) end.

Definition write_text (self : RunStorage) (relative : path) (text : string) : io fs path :=
  target ← path_in self relative;
  _ ← atomic_write target text;
  mret target.

Definition write_json (self : RunStorage) (relative : path) (value : pyval) : io fs path :=
  write_text self relative (dumps_indent value +:+ nl).

(** [shutil.copy2] *)
Definition copy2 (source target : path) : io fs unit := fun files =>
  match files !! source with
  | None => (Raise (OSError OsOther 2 "No such file or directory"), files)
  | Some bytes => atomic_write target bytes files
  end.

Definition copy (self : RunStorage) (source relative : path) : io fs path :=
  target ← path_in self relative;
  if bool_decide (resolve source = resolve target) then mret target
  else _ ← copy2 (resolve source) target; mret target.

(** The entries of the archive: names relative to the parent of the run directory. *)
Definition bundle_entries (self : RunStorage) (files : fs) : list (string * string) :=
  map (fun kv => (path_str (default kv.1 (relative_to (path_parent (run_dir self)) kv.1)), kv.2))
      (rglob_files (run_dir self) files).

Definition bundle (self : RunStorage) (destination : option path) : io fs path :=
  let destination := default (with_suffix ".zip" (run_dir self)) destination in
  match os_error (path_parent destination) with
  | Some e => throw e
  | None =>
      entries ← reads (bundle_entries self);
      _ ← atomic_write destination (zip entries);
      mret destination
  end.

Definition fail_or_none (self : RunStorage) (message : string) : io fs (option string) :=
  let message := redact_text message in
  _ ← write_text self (path_of "storage-error.txt") (message +:+ nl);
  if strict self then throw (RuntimeError message) else mret None.

(** The object key of the upload. *)
Definition s3_key (env : list (string * string)) (artifact : path) : string :=
  let prefix := strip_by (is_char "/") (getenv env "OBS_S3_PREFIX" "eve-trade-observability") in
  if nonempty prefix then prefix +:+ "/" +:+ path_name artifact else path_name artifact.

Definition upload_optional (env : list (string * string)) (self : RunStorage) (b : option path) : io fs (option string) :=
  let backend := lower (strip (getenv env "OBS_STORAGE_BACKEND" "local")) in
  if bool_decide (backend ∈ [""; "local"]) then mret None
  else if negb (bool_decide (backend = "s3")) then fail_or_none self ("unsupported OBS_STORAGE_BACKEND=" +:+ backend)
  else
    let bucket := strip (getenv env "OBS_S3_BUCKET" "") in
    if negb (nonempty bucket) then fail_or_none self "OBS_S3_BUCKET is required for S3 storage"
    else catch
      (_ ← match boto3_import with Some e => throw e | None => skip end;
       artifact ← match b with Some p => mret p | None => bundle self None end;
       let key := s3_key env artifact in
       match s3_upload artifact bucket key with
       | Some e => throw e
       | None => mret (Some ("s3://" +:+ bucket +:+ "/" +:+ key))
       end)
      (fun exc => fail_or_none self ("S3 upload failed: " +:+ exn_str exc)).

End storage.

(** * Containment *)

Section containment.
Context (resolve : path → path) (os_error : path → option exn).
Abbreviation path_in := (path_in resolve os_error).
Abbreviation write_text := (write_text resolve os_error).
Abbreviation write_json := (write_json resolve os_error).
Abbreviation copy := (copy resolve os_error).
Abbreviation copy2 := (copy2 os_error).
Abbreviation atomic_write := (atomic_write os_error).
Abbreviation fail_or_none := (fail_or_none resolve os_error).

(** The run directory itself or something under it. *)
Definition inside (dir p : path) : Prop := p = dir ∨ dir ∈ path_parents p.

Lemma inside_prefix dir p :
  inside dir p ↔ p_abs p = p_abs dir ∧ ∃ r, p_parts p = p_parts dir ++ r.
Proof.
  unfold inside. rewrite parents_spec. split.
  - intros [->|(Ha & r & _ & Hr)]; [split; [done|]; exists []; by rewrite app_nil_r|]. split; [done|]. by exists r.
  - intros [Ha [r Hr]]. destruct r as [|x r]; [left|right].
    + rewrite app_nil_r in Hr. destruct p, dir; simpl in *; by subst.
    + split; [done|]. by exists (x :: r).
Qed.

#[global] Instance inside_dec dir p : Decision (inside dir p).
Proof. unfold inside. apply _. Defined.

Lemma escapes_inside self p : escapes self p = negb (bool_decide (inside (run_dir self) p)).
Proof.
  unfold escapes, inside. destruct (decide (p = run_dir self)) as [->|Hne].
  - rewrite (bool_decide_eq_false_2 (run_dir self ≠ _)) by (intros H; by apply H).
    rewrite (bool_decide_eq_true_2 (_ ∨ _)) by (by left). done.
  - rewrite (bool_decide_eq_true_2 (p ≠ _)) by done. simpl. f_equal. apply bool_decide_ext. tauto.
Qed.

(** The files outside [dir] are as they were. *)
Definition outside_same (dir : path) : relation fs := fun files files' =>
  ∀ p, ¬ inside dir p → files' !! p = files !! p.

#[global] Instance outside_same_preorder dir : PreOrder (outside_same dir).
Proof.
  split; [by intros files p _|]. intros f1 f2 f3 H1 H2 p Hp. by rewrite (H2 p Hp), (H1 p Hp).
Qed.

Lemma path_in_spec self relative files :
  let candidate := resolve (path_join (run_dir self) relative) in
  path_in self relative files =
  (if bool_decide (inside (run_dir self) candidate)
   then match os_error (path_parent candidate) with Some e => Raise e | None => Ok candidate end
   else Raise (ValueError ("artifact path escapes run directory: " +:+ path_str relative)), files).
Proof.
  intros candidate. unfold Storage.path_in. rewrite escapes_inside. fold candidate.
  destruct (decide (inside (run_dir self) candidate)) as [H|H].
  - rewrite bool_decide_eq_true_2 by done. simpl. by destruct (os_error _).
  - by rewrite bool_decide_eq_false_2 by done.
Qed.

Lemma path_in_ok self relative files p files' :
  path_in self relative files = (Ok p, files') → inside (run_dir self) p ∧ files' = files.
Proof.
  rewrite path_in_spec. destruct (decide (inside (run_dir self) (resolve (path_join (run_dir self) relative)))) as [H|H].
  - rewrite bool_decide_eq_true_2 by done. destruct (os_error _); intros [= <- <-]. done.
  - by rewrite bool_decide_eq_false_2 by done.
Qed.

Lemma keeps_path_in self relative dir : keeps (outside_same dir) (path_in self relative).
Proof. intros files. by rewrite path_in_spec. Qed.

Lemma keeps_atomic_write dir target payload :
  inside dir target → keeps (outside_same dir) (atomic_write target payload).
Proof.
  intros Hin files p Hp. unfold Storage.atomic_write. destruct (os_error target); [done|]. cbn [modify snd].
  rewrite lookup_insert_ne; [done|]. by intros ->.
Qed.

(** A continuation of [path_in] only sees paths inside. *)
Lemma keeps_path_then {A} self relative (f : path → io fs A) :
  (∀ p, inside (run_dir self) p → keeps (outside_same (run_dir self)) (f p)) →
  keeps (outside_same (run_dir self)) (path_in self relative ≫= f).
Proof.
  intros Hf files. unfold mbind, io_bind. destruct (path_in self relative files) as [[p|e] files'] eqn:E.
  - apply path_in_ok in E as [Hin ->]. by apply Hf.
  - rewrite path_in_spec in E. injection E as _ <-. intros p _. done.
Qed.

Lemma keeps_write_text self relative text : keeps (outside_same (run_dir self)) (write_text self relative text).
Proof.
  apply keeps_path_then. intros p Hp. apply keeps_bind; [apply _|by apply keeps_atomic_write|].
  intros _. apply keeps_ret, _.
Qed.
Lemma keeps_write_json self relative v : keeps (outside_same (run_dir self)) (write_json self relative v).
Proof. apply keeps_write_text. Qed.
Lemma keeps_copy2 dir source target : inside dir target → keeps (outside_same dir) (copy2 source target).
Proof.
  intros Hin files. unfold Storage.copy2. destruct (files !! source); [|by intros p _]. by apply keeps_atomic_write.
Qed.
Lemma keeps_copy self source relative : keeps (outside_same (run_dir self)) (copy self source relative).
Proof.
  apply keeps_path_then. intros p Hp. destruct (bool_decide _); [apply keeps_ret, _|].
  apply keeps_bind; [apply _|by apply keeps_copy2|]. intros _. apply keeps_ret, _.
Qed.
Lemma keeps_fail_or_none self m : keeps (outside_same (run_dir self)) (fail_or_none self m).
Proof.
  unfold Storage.fail_or_none. apply keeps_bind; [apply _|apply keeps_write_text|]. intros _.
  destruct (strict self); [apply keeps_throw, _|apply keeps_ret, _].
Qed.

(** A write that succeeds is read back, and nothing but its target changes. *)
Lemma write_text_ok self relative text files p files' :
  write_text self relative text files = (Ok p, files') →
  inside (run_dir self) p ∧ files' = <[p := text]> files.
Proof.
  unfold Storage.write_text. intros (p' & f1 & Hp & H)%bind_inv. apply path_in_ok in Hp as [Hin ->].
  apply bind_inv in H as (u & f2 & Hw & H). unfold Storage.atomic_write in Hw.
  destruct (os_error p'); [done|]. injection Hw as _ <-. injection H as <- <-. done.
Qed.
End containment.

#[export] Hint Resolve keeps_path_in keeps_write_text keeps_write_json keeps_copy keeps_fail_or_none : effects.
