(* ===== verification/UdpClient.v ===== *)
(** The simulator's UDP client ([simulator/trade_gui/udp_client.py]): signing of GUI
    packets, authentication of responses, the retry loop and the session pool. *)
From S2P Require Import Prelude PyStr PyFloat PyVal Regex Json Hashing PyPath.

(** * Configuration and constants *)

(** The Django settings the client reads. *)
Record settings : Type := Settings {
  QUILKIN_UDP_HOST : string;
  QUILKIN_UDP_PORT : Z;
  QUILKIN_UDP_TIMEOUT_SECONDS : float;
  QUILKIN_UDP_MAX_ATTEMPTS : Z;
  QUILKIN_UDP_RETRY_BACKOFF_SECONDS : float;
  QUILKIN_UDP_SESSION_POOL_SIZE : Z;
  GAME_PACKET_HMAC_SECRET : string;
  GAME_PACKET_HMAC_KEY_ID : string;
  GAME_PACKET_PRINCIPAL_KEYS_JSON : string
}.

Definition RETRYABLE_RESPONSE_CODES : list string :=
  ["request_in_progress"; "downstream_timeout"; "downstream_unavailable"].
Definition EDGE_REQUEST_SCHEMA := "eve-trade-edge.v2".
Definition EDGE_RESPONSE_SCHEMA := "eve-trade-edge-response.v2".
Definition HMAC_SHA256_ALGORITHM := "hmac-sha256".
Definition ENVELOPE_SIGNING_DOMAIN := "eve-trade.udp-envelope.hmac-sha256.v1".

(** * Signing *)

Definition envelope_signing_bytes (schema_version algorithm key_id : string) (payload : pyval) : string :=
  dumps false (PDict [("algorithm", PStr algorithm); ("domain", PStr ENVELOPE_SIGNING_DOMAIN);
                      ("key_id", PStr key_id); ("payload", payload); ("schema_version", PStr schema_version)]).

Definition response_signing_bytes (schema_version key_id : string) (payload : pyval) : string :=
  envelope_signing_bytes schema_version HMAC_SHA256_ALGORITHM key_id payload.

Definition sign (secret message : string) : string := b64url (hmac_sha256 secret message).

Definition actor_field (action : string) : option string :=
  dget action
    [("market_place_sell_order", "issued_by_capsuleer_id");
     ("contract_create_item_exchange", "issued_by_capsuleer_id");
     ("direct_trade_offer", "issued_by_capsuleer_id");
     ("market_buy_from_sell_order", "buyer_capsuleer_id");
     ("contract_accept_item_exchange", "buyer_capsuleer_id");
     ("direct_trade_accept", "buyer_capsuleer_id");
     ("market_cancel_order", "cancelled_by_capsuleer_id");
     ("contract_cancel_item_exchange", "cancelled_by_capsuleer_id");
     ("direct_trade_cancel", "cancelled_by_capsuleer_id")].

(** [except (KeyError, TypeError, ValueError)] around the reading of the actor. *)
Definition actor_errors (field : string) {A} (x : res A) : res A :=
  match x with
  | Raise (KeyError | TypeError | ValueError _) =>
      Raise (ValueError (field +:+ " is required to authenticate this request"))
  | _ => x
  end.

Definition packet_principal_id (packet : pyval) : res Z :=
  let! ui := py_get_or packet "ui" (PDict []) in
  let! raw := py_get ui "action" in
  let action := strip (py_str (py_or raw (PStr ""))) in
  match actor_field action with
  | None => Raise (ValueError ("unsupported trade GUI action " +:+ repr_str action))
  | Some field =>
      let! principal_id := actor_errors field
        (let! input := py_get_or packet "input" (PDict []) in
         let! raw := py_item input field in py_int raw) in
      if (principal_id <=? 0)%Z then Raise (ValueError (field +:+ " must be positive"))
      else Ok principal_id
  end.

(** The configured key id and secret of a principal. *)
Definition lookup_credential (cfg : settings) (principal_id : Z) : res (string * string) :=
  match loads (GAME_PACKET_PRINCIPAL_KEYS_JSON cfg) with
  | None => Raise (ValueError "JSONDecodeError")
  | Some principal_keys =>
      let! credential := py_item principal_keys (str_of_Z principal_id) in
      let! key_id := py_item credential "key_id" in
      let! secret := py_item credential "secret" in
      Ok (py_str key_id, py_str secret)
  end.
Definition credential_errors (principal_id : Z) {A} (x : res A) : res A :=
  match x with
  | Raise (KeyError | TypeError | ValueError _) =>
      Raise (ValueError ("no signing credential is configured for capsuleer " +:+ str_of_Z principal_id))
  | _ => x
  end.

Definition request_envelope (key_id signature : string) (packet : pyval) : pyval :=
  PDict [("schema_version", PStr EDGE_REQUEST_SCHEMA); ("payload", packet);
         ("auth", PDict [("algorithm", PStr HMAC_SHA256_ALGORITHM); ("key_id", PStr key_id);
                         ("signature", PStr signature)])].

Definition encode_udp_packet (cfg : settings) (packet : pyval) : res string :=
  let! principal_id := packet_principal_id packet in
  let! credential := credential_errors principal_id (lookup_credential cfg principal_id) in
  let '(key_id, secret) := credential in
  if negb (nonempty key_id) || negb (nonempty secret)
  then Raise (ValueError ("invalid signing credential for capsuleer " +:+ str_of_Z principal_id))
  else
    let signing_bytes := envelope_signing_bytes EDGE_REQUEST_SCHEMA HMAC_SHA256_ALGORITHM key_id packet in
    Ok (dumps true (request_envelope key_id (sign secret signing_bytes) packet)).

(** * Authentication of responses *)

(** [hmac.compare_digest] on two [str]: ASCII only. *)
Definition compare_digest (a b : string) : res bool :=
  if is_ascii_str a && is_ascii_str b then Ok (bool_decide (a = b)) else Raise TypeError.

Definition decode_udp_response (cfg : settings) (response : string) : res pyval :=
  match utf8_decode response with
  | None => Raise (ValueError "UDP response is not valid JSON")
  | Some text =>
  match loads text with
  | None => Raise (ValueError "UDP response is not valid JSON")
  | Some (PDict decoded) =>
      if py_eqb (dget0 decoded "schema_version") (PStr EDGE_RESPONSE_SCHEMA) then
        match dget0 decoded "payload", dget0 decoded "auth" with
        | PDict payload, PDict auth =>
            if negb (py_eqb (dget0 auth "algorithm") (PStr HMAC_SHA256_ALGORITHM))
               || negb (py_eqb (dget0 auth "key_id") (PStr (GAME_PACKET_HMAC_KEY_ID cfg)))
            then Raise (ValueError "signed UDP response uses unexpected authentication metadata")
            else
              let canonical := response_signing_bytes EDGE_RESPONSE_SCHEMA
                (py_str (py_or (dget0 auth "key_id") (PStr ""))) (PDict payload) in
              let expected := sign (GAME_PACKET_HMAC_SECRET cfg) canonical in
              let! equal := compare_digest (py_str (py_or (dget0 auth "signature") (PStr ""))) expected in
              if equal then Ok (PDict payload)
              else Raise (ValueError "signed UDP response signature is invalid")
        | _, _ => Raise (ValueError "signed UDP response envelope is malformed")
        end
      else Raise (ValueError "UDP response is not an authenticated edge response envelope")
  | Some _ => Raise (ValueError "UDP response envelope must be a JSON object")
  end
  end.

(** * Transport *)

Record os_error : Type := OsError { oe_kind : os_kind; oe_errno : Z; oe_msg : string }.
Definition raise_os {A} (e : os_error) : res A := Raise (OSError (oe_kind e) (oe_errno e) (oe_msg e)).

(** EAGAIN = EWOULDBLOCK, ECONNRESET, ECONNREFUSED, ENETUNREACH, EHOSTUNREACH on Linux. *)
Definition transient_errnos : list Z := [11; 104; 111; 101; 113]%Z.
Definition is_transient_socket_error (e : os_error) : bool :=
  match oe_kind e with
  | OsTimeout | OsConnectionReset | OsConnectionRefused => true
  | OsOther => bool_decide (oe_errno e ∈ transient_errnos)
  end.

Section transport.
(** Name resolution and the outcome of the socket calls of each attempt are the environment:
    [getaddrinfo] returns the addresses of a host or fails; [net n] is what the [n]-th
    attempt's calls do: [get_socket] raises, in [socket.socket] ([created] is false; only when
    the session has no socket) or in [settimeout]; [sendto] raises; the datagram is sent and
    [recvfrom] raises; or a datagram is received. *)
Context (getaddrinfo : string → Z → res (list string)).

Inductive net_outcome : Type :=
| NetSetupError (created : bool) (e : exn)
| NetSendError (e : os_error)
| NetRecvError (e : os_error)
| NetResponse (response : string) (address : string * Z).

Definition response_from_expected_endpoint (actual expected : string * Z) : res bool :=
  if negb (actual.2 =? expected.2)%Z then Ok false
  else let! expected_addresses := getaddrinfo expected.1 expected.2 in
       Ok (bool_decide (actual.1 ∈ expected_addresses)).

(** A session's socket, named by a counter of opened sockets, and what the client did. *)
Inductive udp_event : Type :=
| EvOpen (sock : nat)
| EvSend (sock : nat) (payload : string) (address : string * Z)
| EvClose (sock : nat)
| EvSleep (seconds : float).

Record udp_state : Type := UdpState { us_sock : option nat; us_opened : nat; us_trace : list udp_event }.

Definition emit (e : udp_event) (st : udp_state) : udp_state :=
  UdpState (us_sock st) (us_opened st) (us_trace st ++ [e]).

(** [_UdpSession.get_socket]: [socket.socket(...)] when the session has none, then
    [settimeout]; the handle in use and the state.  [err] is the error of these calls, if
    any: a socket whose [settimeout] raised stays in the session. *)
Definition get_socket (err : option (bool * exn)) (st : udp_state) : res nat * udp_state :=
  match us_sock st, err with
  | None, Some (false, e) => (Raise e, st)
  | sock, err =>
      let '(h, st) :=
        match sock with
        | Some h => (h, st)
        | None => (us_opened st, emit (EvOpen (us_opened st)) (UdpState (Some (us_opened st)) (S (us_opened st)) (us_trace st)))
        end in
      match err with Some (_, e) => (Raise e, st) | None => (Ok h, st) end
  end.
Definition setup_error (o : net_outcome) : option (bool * exn) :=
  match o with NetSetupError created e => Some (created, e) | _ => None end.

(** [_UdpSession.reset] *)
Definition reset (st : udp_state) : udp_state :=
  match us_sock st with
  | Some h => emit (EvClose h) (UdpState None (us_opened st) (us_trace st))
  | None => st
  end.

(** [decoded.get("code") in RETRYABLE_RESPONSE_CODES]: testing membership hashes the value. *)
Definition code_retryable (decoded : pyval) : res bool :=
  let! c := py_get decoded "code" in in_set c RETRYABLE_RESPONSE_CODES.

Definition repr_endpoint (a : string * Z) : string :=
  "(" +:+ repr_str a.1 +:+ ", " +:+ str_of_Z a.2 +:+ ")".

Context (cfg : settings).

Definition udp_address : string * Z := (QUILKIN_UDP_HOST cfg, QUILKIN_UDP_PORT cfg).
Definition max_attempts : Z := Z.max 1 (QUILKIN_UDP_MAX_ATTEMPTS cfg).
Definition retry_backoff : float := f_max f_zero (QUILKIN_UDP_RETRY_BACKOFF_SECONDS cfg).

(** The checks between receiving a datagram and using it. *)
Definition accept_response (packet : pyval) (response : string) (response_address : string * Z) : res pyval :=
  let! expected := response_from_expected_endpoint response_address udp_address in
  if negb expected then
    Raise (ValueError ("UDP response came from unexpected endpoint " +:+ repr_endpoint response_address))
  else
    let! decoded := decode_udp_response cfg response in
    let! got := py_get decoded "interaction_id" in
    let! want := py_get packet "interaction_id" in
    if negb (py_eqb got want) then Raise (ValueError "UDP response interaction_id does not match request")
    else Ok decoded.

Definition retry_delay (decoded : pyval) (attempt : Z) : float :=
  let d := f_mul retry_backoff (f_of_Z attempt) in
  match py_get decoded "code" with
  | Ok c => if py_eqb c (PStr "request_in_progress") then f_max d (QUILKIN_UDP_TIMEOUT_SECONDS cfg) else d
  | Raise _ => d
  end.

Definition timeout_error {A} : res A :=
  Raise (OSError OsTimeout 0 "UDP request did not produce a terminal response").

(** [except OSError]: the socket is closed, and the error is raised or the attempt repeated. *)
Definition retries (e : os_error) (attempt : Z) : bool :=
  negb ((max_attempts <=? attempt)%Z || negb (is_transient_socket_error e)).
Definition backoff (attempt : Z) (st : udp_state) : udp_state :=
  emit (EvSleep (f_mul retry_backoff (f_of_Z attempt))) st.

(** The [for attempt in range(1, max_attempts + 1)] loop; [n] attempts are left.  [get_socket]
    is outside the [try]. *)
Fixpoint send_attempts (packet : pyval) (payload : string) (net : Z → net_outcome)
    (n : nat) (attempt : Z) (st : udp_state) : res pyval * udp_state :=
  match n with
  | 0 => (timeout_error, st)
  | S n' =>
      let '(sock, st) := get_socket (setup_error (net attempt)) st in
      match sock with
      | Raise e => (Raise e, st)
      | Ok h =>
      match net attempt with
      | NetSetupError _ e => (Raise e, st)
      | NetSendError e =>
          let st := reset st in
          if retries e attempt then send_attempts packet payload net n' (attempt + 1) (backoff attempt st)
          else (raise_os e, st)
      | NetRecvError e =>
          let st := reset (emit (EvSend h payload udp_address) st) in
          if retries e attempt then send_attempts packet payload net n' (attempt + 1) (backoff attempt st)
          else (raise_os e, st)
      | NetResponse response response_address =>
          let st := emit (EvSend h payload udp_address) st in
          match accept_response packet response response_address with
          | Raise (ValueError m) => (Raise (ValueError m), reset st)
          | Raise e => (Raise e, st)
          | Ok decoded =>
              match code_retryable decoded with
              | Raise e => (Raise e, st)
              | Ok retryable =>
                  if negb retryable || (max_attempts <=? attempt)%Z then (Ok decoded, st)
                  else send_attempts packet payload net n' (attempt + 1)
                         (emit (EvSleep (retry_delay decoded attempt)) st)
              end
          end
      end
      end
  end.

(** [send_gui_packet] on the session it has checked out. *)
Definition send_gui_packet (packet : pyval) (net : Z → net_outcome) (st : udp_state) : res pyval * udp_state :=
  match encode_udp_packet cfg packet with
  | Raise e => (Raise e, st)
  | Ok payload => send_attempts packet payload net (Z.to_nat max_attempts) 1 st
  end.
End transport.
