(* ===== verification/UdpClientFacts.v ===== *)
(** Correctness of the UDP client: what a signature covers, which responses are accepted,
    how many datagrams a request can cost and what state the session is left in. *)
From S2P Require Import Prelude PyStr PyFloat PyVal Regex Json JsonFacts Hashing PyPath UdpClient.

(** * Signing *)

Lemma envelope_wf s a k p : wf_val p → wf_val (PDict [("algorithm", PStr a); ("domain", PStr ENVELOPE_SIGNING_DOMAIN);
  ("key_id", PStr k); ("payload", p); ("schema_version", PStr s)]).
Proof.
  intros Hp. apply wf_PDict. split; [by apply (bool_decide_unpack _); vm_compute|]. by repeat constructor.
Qed.

Lemma canon_envelope s a k p :
  canon (PDict [("algorithm", PStr a); ("domain", PStr ENVELOPE_SIGNING_DOMAIN);
                ("key_id", PStr k); ("payload", p); ("schema_version", PStr s)]) =
  PDict [("algorithm", PStr a); ("domain", PStr ENVELOPE_SIGNING_DOMAIN);
         ("key_id", PStr k); ("payload", canon p); ("schema_version", PStr s)].
Proof. done. Qed.

Lemma signing_bytes_canon s a k p q :
  canon p = canon q → envelope_signing_bytes s a k p = envelope_signing_bytes s a k q.
Proof. intros H. unfold envelope_signing_bytes, dumps. by rewrite !canon_envelope, H. Qed.

Lemma signing_bytes_inj s a k p s' a' k' p' :
  jsonable p = true → wf_val p → jsonable p' = true → wf_val p' →
  envelope_signing_bytes s a k p = envelope_signing_bytes s' a' k' p' →
  s = s' ∧ a = a' ∧ k = k' ∧ canon p = canon p'.
Proof.
  intros Hj Hw Hj' Hw' H. unfold envelope_signing_bytes in H.
  apply dumps_inj in H; [|by simpl; rewrite Hj|by apply envelope_wf|by simpl; rewrite Hj'|by apply envelope_wf].
  rewrite !canon_envelope in H. by simplify_eq.
Qed.

(** * The encoded request *)

Lemma encode_udp_packet_Ok cfg packet bytes :
  encode_udp_packet cfg packet = Ok bytes ↔
  ∃ pid key_id secret, packet_principal_id packet = Ok pid ∧ lookup_credential cfg pid = Ok (key_id, secret)
    ∧ nonempty key_id = true ∧ nonempty secret = true
    ∧ bytes = dumps true (request_envelope key_id
        (sign secret (envelope_signing_bytes EDGE_REQUEST_SCHEMA HMAC_SHA256_ALGORITHM key_id packet)) packet).
Proof.
  unfold encode_udp_packet. rewrite res_bind_Ok. split.
  - intros (pid & Hpid & ([key_id secret] & Hcred & Hbytes)%res_bind_Ok).
    destruct (lookup_credential cfg pid) as [[k s]|e] eqn:E.
    2: { by destruct e. }
    simpl in Hcred. simplify_eq.
    destruct (nonempty key_id) eqn:?, (nonempty secret) eqn:?; simplify_eq/=. by exists pid, key_id, secret.
  - intros (pid & key_id & secret & Hpid & Hcred & Hk & Hs & ->). exists pid. split; [done|].
    rewrite Hcred. simpl. by rewrite Hk, Hs.
Qed.

Lemma packet_principal_id_Ok packet pid :
  packet_principal_id packet = Ok pid → (0 < pid)%Z.
Proof.
  unfold packet_principal_id. intros (ui & _ & (raw & _ & H)%res_bind_Ok)%res_bind_Ok.
  destruct (actor_field _); [|done]. apply res_bind_Ok in H as (z & _ & H).
  destruct (z <=? 0)%Z eqn:E; [done|]. simplify_eq. apply Z.leb_gt in E. done.
Qed.

Lemma request_envelope_canon key_id signature packet :
  canon (request_envelope key_id signature packet) =
  PDict [("auth", PDict [("algorithm", PStr HMAC_SHA256_ALGORITHM); ("key_id", PStr key_id);
                         ("signature", PStr signature)]);
         ("payload", canon packet); ("schema_version", PStr EDGE_REQUEST_SCHEMA)].
Proof. done. Qed.

Lemma request_envelope_jsonable key_id signature packet :
  jsonable packet = true → wf_val packet →
  jsonable (request_envelope key_id signature packet) = true ∧ wf_val (request_envelope key_id signature packet).
Proof.
  intros Hj Hw. split; [by simpl; rewrite Hj|]. apply wf_PDict.
  split; [by apply (bool_decide_unpack _); vm_compute|].
  apply Forall_cons. split; [done|]. apply Forall_cons. split; [done|]. apply Forall_singleton.
  apply wf_PDict. split; [by apply (bool_decide_unpack _); vm_compute|]. by repeat constructor.
Qed.

(** * Responses *)

Lemma compare_digest_true a b : compare_digest a b = Ok true ↔ is_ascii_str a = true ∧ is_ascii_str b = true ∧ a = b.
Proof.
  unfold compare_digest. destruct (is_ascii_str a), (is_ascii_str b); simpl; split; try naive_solver.
  - intros [= H]. by apply bool_decide_eq_true in H.
  - intros (_ & _ & ->). by rewrite bool_decide_eq_true_2.
Qed.

(** The envelope a datagram must carry to be believed. *)
Definition authentic (cfg : settings) (response : string) (payload : pyval) : Prop :=
  ∃ decoded auth p,
    payload = PDict p ∧ utf8_decode response = Some response ∧ loads response = Some (PDict decoded)
    ∧ dget0 decoded "schema_version" = PStr EDGE_RESPONSE_SCHEMA
    ∧ dget0 decoded "payload" = PDict p ∧ dget0 decoded "auth" = PDict auth
    ∧ dget0 auth "algorithm" = PStr HMAC_SHA256_ALGORITHM
    ∧ dget0 auth "key_id" = PStr (GAME_PACKET_HMAC_KEY_ID cfg)
    ∧ py_str (py_or (dget0 auth "signature") (PStr "")) =
      sign (GAME_PACKET_HMAC_SECRET cfg)
        (response_signing_bytes EDGE_RESPONSE_SCHEMA (GAME_PACKET_HMAC_KEY_ID cfg) payload).

Lemma utf8_decode_id s t : utf8_decode s = Some t → t = s.
Proof. unfold utf8_decode. case_match; naive_solver. Qed.

Lemma py_str_or_str s : py_str (py_or (PStr s) (PStr "")) = s.
Proof. by destruct s. Qed.

Lemma decode_authentic cfg response payload :
  decode_udp_response cfg response = Ok payload ↔ authentic cfg response payload.
Proof.
  unfold decode_udp_response, authentic. split.
  - destruct (utf8_decode response) as [t|] eqn:Hu; [|done]. pose proof (utf8_decode_id _ _ Hu) as ->.
    destruct (loads response) as [[| | | | | | |decoded]|] eqn:Hl; try done.
    rewrite py_eqb_PStr. case_bool_decide as Hs; [|done].
    destruct (dget0 decoded "payload") as [| | | | | | |p] eqn:Hp; try done.
    destruct (dget0 decoded "auth") as [| | | | | | |auth] eqn:Ha; try done.
    rewrite !py_eqb_PStr. case_bool_decide as Halg; [|done]. case_bool_decide as Hkey; [|done]. simpl.
    rewrite Hkey, py_str_or_str. intros ([|] & Hc & H)%res_bind_Ok; [|done]. simplify_eq.
    apply compare_digest_true in Hc as (_ & _ & Hc). by exists decoded, auth, p.
  - intros (decoded & auth & p & -> & Hu & Hl & Hs & Hp & Ha & Halg & Hkey & Hsig).
    rewrite Hu, Hl, Hs, Hp, Ha, Halg, Hkey, !py_eqb_PStr, !bool_decide_eq_true_2, py_str_or_str, Hsig by done. simpl.
    rewrite (proj2 (compare_digest_true _ _)); [done|]. split_and!; [apply b64url_ascii|apply b64url_ascii|done].
Qed.

(** * The retry loop *)

Definition is_value_error (e : exn) : bool := match e with ValueError _ => true | _ => false end.

Section loop.
Context (getaddrinfo : string → Z → res (list string)) (cfg : settings) (packet : pyval) (payload : string)
        (net : Z → net_outcome).
Notation loop := (send_attempts getaddrinfo cfg packet payload net).

Definition is_send (e : udp_event) : bool := match e with EvSend _ _ _ => true | _ => false end.
Definition sends (t : list udp_event) : nat := length (filterb is_send t).
Definition is_open (e : udp_event) : bool := match e with EvOpen _ => true | _ => false end.
Definition is_close (e : udp_event) : bool := match e with EvClose _ => true | _ => false end.
(** Sockets opened and not closed. *)
Definition live (st : udp_state) : nat := length (filterb is_open (us_trace st)).
Definition closed (st : udp_state) : nat := length (filterb is_close (us_trace st)).
Definition sock_balance (st : udp_state) : Prop := live st = closed st + (if us_sock st then 1 else 0).

Lemma filterb_snoc {A} (f : A → bool) l x : filterb f (l ++ [x]) = filterb f l ++ (if f x then [x] else []).
Proof. unfold filterb. rewrite List.filter_app. simpl. done. Qed.

Lemma sends_snoc t e : sends (t ++ [e]) = sends t + (if is_send e then 1 else 0).
Proof. unfold sends. rewrite filterb_snoc, length_app. by destruct (is_send e). Qed.

Lemma reset_sends st : sends (us_trace (reset st)) = sends (us_trace st).
Proof. unfold reset. destruct (us_sock st); simpl; [rewrite sends_snoc; simpl; lia|done]. Qed.
Lemma get_socket_sends err st : sends (us_trace (get_socket err st).2) = sends (us_trace st).
Proof.
  unfold get_socket. destruct (us_sock st), err as [[[] e]|]; cbn [snd emit us_trace]; try done; rewrite sends_snoc; simpl; lia.
Qed.
Lemma get_socket_Ok o st : setup_error o = None → ∃ h, (get_socket (setup_error o) st).1 = Ok h.
Proof. intros ->. unfold get_socket. destruct (us_sock st); by eexists. Qed.
Lemma get_socket_Raise created e st : (get_socket (Some (created, e)) st).1 = Raise e.
Proof. unfold get_socket. by destruct (us_sock st), created. Qed.
Lemma reset_sock st : us_sock (reset st) = None.
Proof. unfold reset. by destruct (us_sock st) eqn:E. Qed.

Lemma balance_emit e st : is_open e = false → is_close e = false → sock_balance st → sock_balance (emit e st).
Proof.
  unfold sock_balance, live, closed, emit. simpl. intros H1 H2. rewrite !filterb_snoc, H1, H2, !app_nil_r. done.
Qed.
Lemma balance_reset st : sock_balance st → sock_balance (reset st).
Proof.
  unfold sock_balance, live, closed, reset. destruct (us_sock st) eqn:E; simpl; [|by rewrite E].
  rewrite !filterb_snoc, !length_app. simpl. lia.
Qed.
Lemma balance_get err st : sock_balance st → sock_balance (get_socket err st).2.
Proof.
  unfold sock_balance, live, closed, get_socket.
  destruct (us_sock st) eqn:E, err as [[[] e]|]; cbn; rewrite ?E; try done; rewrite !filterb_snoc, !length_app; simpl; lia.
Qed.

(** The attempt is repeated. *)
Definition repeated (attempt : Z) : Prop :=
  match net attempt with
  | NetSetupError _ _ => False
  | NetSendError e | NetRecvError e => is_transient_socket_error e = true
  | NetResponse response address => ∃ decoded,
      accept_response getaddrinfo cfg packet response address = Ok decoded ∧ code_retryable decoded = Ok true
  end.

(** The request ends in this attempt with [r]; [kept] says whether the session may keep its
    socket. *)
Definition ends (attempt : Z) (r : res pyval) (kept : bool) : Prop :=
  match net attempt with
  | NetSetupError _ e => r = Raise e ∧ kept = true
  | NetSendError e | NetRecvError e =>
      r = raise_os e ∧ kept = false ∧ (attempt = max_attempts cfg ∨ is_transient_socket_error e = false)
  | NetResponse response address =>
      match accept_response getaddrinfo cfg packet response address with
      | Raise e => r = Raise e ∧ kept = negb (is_value_error e)
      | Ok decoded =>
          kept = true ∧
          match code_retryable decoded with
          | Raise e => r = Raise e
          | Ok retryable => r = Ok decoded ∧ (retryable = false ∨ attempt = max_attempts cfg)
          end
      end
  end.

(** [sendto] did not raise. *)
Definition was_sent (attempt : Z) : bool :=
  match net attempt with NetSetupError _ _ | NetSendError _ => false | _ => true end.
(** The datagrams of [n] attempts. *)
Fixpoint sent_in (n : nat) (attempt : Z) : nat :=
  match n with 0 => 0 | S n => (if was_sent attempt then 1 else 0) + sent_in n (attempt + 1) end.

(** What the loop does from an attempt on: it repeats [k] attempts and ends in the next. *)
Definition loop_result (n : nat) (attempt : Z) (st : udp_state) (r : res pyval) (st' : udp_state) : Prop :=
  ∃ k kept, k < n ∧ (∀ j, (attempt ≤ j < attempt + Z.of_nat k)%Z → repeated j) ∧ ends (attempt + Z.of_nat k) r kept
    ∧ sends (us_trace st') = sends (us_trace st) + sent_in (S k) attempt
    ∧ (sock_balance st → sock_balance st') ∧ (kept = false → us_sock st' = None).

Lemma loop_result_end n attempt st r st' kept :
  ends attempt r kept → sends (us_trace st') = sends (us_trace st) + (if was_sent attempt then 1 else 0) →
  (sock_balance st → sock_balance st') → (kept = false → us_sock st' = None) → loop_result (S n) attempt st r st'.
Proof.
  intros He Hs Hb Hk. exists 0, kept. rewrite Z.add_0_r. split_and!; [lia|intros j Hj; lia|done|simpl; lia|done|done].
Qed.

Lemma loop_result_repeat n attempt st r st' stx e :
  repeated attempt → sends (us_trace stx) = sends (us_trace st) + (if was_sent attempt then 1 else 0) →
  (sock_balance st → sock_balance stx) → is_open e = false → is_close e = false → is_send e = false →
  loop_result n (attempt + 1) (emit e stx) r st' → loop_result (S n) attempt st r st'.
Proof.
  intros Hr Hs Hb Ho Hc Hse (k & kept & Hk & Hrep & Hend & Hsent & Hbal & Hkept).
  exists (S k), kept. replace (attempt + Z.of_nat (S k))%Z with (attempt + 1 + Z.of_nat k)%Z by lia.
  split_and!; [lia| |done| |intros; apply Hbal, balance_emit; auto|done].
  - intros j Hj. destruct (decide (j = attempt)) as [->|]; [done|]. apply Hrep. lia.
  - rewrite Hsent. cbn [emit us_trace]. rewrite sends_snoc, Hse, Hs. cbn [sent_in]. lia.
Qed.

Lemma retries_false e attempt : (attempt ≤ max_attempts cfg)%Z → retries cfg e attempt = false →
  attempt = max_attempts cfg ∨ is_transient_socket_error e = false.
Proof.
  unfold retries. intros Hle H%Bool.negb_false_iff. apply Bool.orb_true_iff in H as [H%Z.leb_le|H%Bool.negb_true_iff]; [left; lia|by right].
Qed.

(** The three parts of an attempt: the errors of the socket calls, and a response. *)
Lemma loop_os_error n attempt st st2 e r st' :
  net attempt = NetSendError e ∨ net attempt = NetRecvError e → (attempt ≤ max_attempts cfg)%Z →
  sends (us_trace st2) = sends (us_trace st) + (if was_sent attempt then 1 else 0) → (sock_balance st → sock_balance st2) →
  (∀ stx ev, (max_attempts cfg <=? attempt)%Z = false → loop n (attempt + 1) (emit ev stx) = (r, st') →
     loop_result n (attempt + 1) (emit ev stx) r st') →
  (if retries cfg e attempt then loop n (attempt + 1) (backoff cfg attempt (reset st2)) else (raise_os e, reset st2)) = (r, st') →
  loop_result (S n) attempt st r st'.
Proof.
  intros Hnet Hle Hs Hb Hnext. destruct (retries cfg e attempt) eqn:Hre.
  - apply Bool.negb_true_iff, Bool.orb_false_iff in Hre as [Hm Ht%Bool.negb_false_iff]. intros Hrun.
    eapply (loop_result_repeat _ _ _ _ _ (reset st2)); [|by rewrite reset_sends|intros; apply balance_reset; auto| | | |by apply Hnext]; try done.
    unfold repeated. by destruct Hnet as [-> | ->].
  - intros [= <- <-]. apply (loop_result_end _ _ _ _ _ false);
      [|by rewrite reset_sends|intros; apply balance_reset; auto|intros; apply reset_sock].
    pose proof (retries_false _ _ Hle Hre). unfold ends. by destruct Hnet as [-> | ->].
Qed.

Lemma loop_response n attempt st st2 response address r st' :
  net attempt = NetResponse response address → (attempt ≤ max_attempts cfg)%Z →
  sends (us_trace st2) = sends (us_trace st) + (if was_sent attempt then 1 else 0) → (sock_balance st → sock_balance st2) →
  (∀ stx ev, (max_attempts cfg <=? attempt)%Z = false → loop n (attempt + 1) (emit ev stx) = (r, st') →
     loop_result n (attempt + 1) (emit ev stx) r st') →
  match accept_response getaddrinfo cfg packet response address with
  | Raise (ValueError m) => (Raise (ValueError m), reset st2)
  | Raise e => (Raise e, st2)
  | Ok decoded =>
      match code_retryable decoded with
      | Raise e => (Raise e, st2)
      | Ok retryable =>
          if negb retryable || (max_attempts cfg <=? attempt)%Z then (Ok decoded, st2)
          else loop n (attempt + 1) (emit (EvSleep (retry_delay cfg decoded attempt)) st2)
      end
  end = (r, st') → loop_result (S n) attempt st r st'.
Proof.
  intros Hnet Hle Hs Hb Hnext. destruct (accept_response getaddrinfo cfg packet response address) as [decoded|e] eqn:Hacc.
  - destruct (code_retryable decoded) as [retry|e] eqn:Hcode.
    + destruct (negb retry || (max_attempts cfg <=? attempt)%Z) eqn:Hstop.
      * intros [= <- <-]. apply (loop_result_end _ _ _ _ _ true); [|done..].
        unfold ends. rewrite Hnet, Hacc, Hcode. split_and!; [done|done|]. destruct retry; [right|by left].
        apply Z.leb_le in Hstop. lia.
      * apply Bool.orb_false_iff in Hstop as [Hr%Bool.negb_false_iff Hmax]. subst retry. intros Hrun.
        eapply (loop_result_repeat _ _ _ _ _ st2); [|done|done| | | |by apply Hnext]; try done.
        unfold repeated. rewrite Hnet. by exists decoded.
    + intros [= <- <-]. apply (loop_result_end _ _ _ _ _ true); [|done..].
      unfold ends. by rewrite Hnet, Hacc, Hcode.
  - destruct (is_value_error e) eqn:Hv.
    + destruct e as [| |m| | |m|k z m]; try done. intros [= <- <-]. apply (loop_result_end _ _ _ _ _ false);
        [|by rewrite reset_sends|intros; apply balance_reset; auto|intros; apply reset_sock].
      unfold ends. by rewrite Hnet, Hacc.
    + intros H. assert (r = Raise e ∧ st' = st2) as [-> ->] by (destruct e; try done; by simplify_eq).
      apply (loop_result_end _ _ _ _ _ true); [|done..]. unfold ends. rewrite Hnet, Hacc, Hv. done.
Qed.

(** Everything a run of the loop can do, by induction on the attempts left. *)
Lemma send_attempts_spec n attempt st r st' :
  (Z.of_nat n + attempt = max_attempts cfg + 1)%Z → 0 < n → loop n attempt st = (r, st') → loop_result n attempt st r st'.
Proof.
  revert attempt st. induction n as [|n IH]; intros attempt st Hn Hlt; [lia|]. clear Hlt. cbn [send_attempts].
  pose proof (get_socket_sends (setup_error (net attempt)) st) as Hgs.
  pose proof (balance_get (setup_error (net attempt)) st) as Hgb.
  assert (∀ stx e, (max_attempts cfg <=? attempt)%Z = false → loop n (attempt + 1) (emit e stx) = (r, st') →
    loop_result n (attempt + 1) (emit e stx) r st') as Hnext.
  { intros stx e Hmore%Z.leb_gt. apply IH; lia. }
  destruct (setup_error (net attempt)) as [[created e]|] eqn:Herr.
  - pose proof (get_socket_Raise created e st) as HR. destruct (get_socket _ st) as [h st1]. cbn [fst snd] in *. subst h.
    intros [= <- <-]. destruct (net attempt) as [created' e'| | |] eqn:Hnet; simplify_eq/=.
    eapply (loop_result_end _ _ _ _ _ true); unfold ends, was_sent; rewrite ?Hnet; auto; lia.
  - destruct (get_socket_Ok (net attempt) st Herr) as [h HO]. rewrite Herr in HO.
    destruct (get_socket None st) as [sock st1]. cbn [fst snd] in *. subst sock.
    set (st2 := emit (EvSend h payload (udp_address cfg)) st1).
    assert (sends (us_trace st2) = sends (us_trace st) + 1) as Hs2 by (unfold st2; simpl; rewrite sends_snoc; simpl; lia).
    assert (sock_balance st → sock_balance st2) as Hb2 by (intros; apply balance_emit; auto).
    destruct (net attempt) as [|e|e|response address] eqn:Hnet; [done|..].
    + apply loop_os_error; auto; [lia|]. unfold was_sent. rewrite Hnet. lia.
    + apply loop_os_error; auto; [lia|]. unfold was_sent. rewrite Hnet. lia.
    + apply loop_response; auto; [lia|]. unfold was_sent. rewrite Hnet. lia.
Qed.

End loop.

(** * Signing: properties *)

(** What a signature covers.  The canonical text that is signed determines every field
    of the envelope: two envelopes with the same signing bytes have the same schema version,
    algorithm and key id, and payloads that are the same JSON document (equal up to the
    order of object keys).  So no value can be moved between fields, and a signature of one
    domain never verifies in the other. *)
Theorem signing_bytes_injective s a k p s' a' k' p' :
  jsonable p = true → wf_val p → jsonable p' = true → wf_val p' →
  envelope_signing_bytes s a k p = envelope_signing_bytes s' a' k' p' ↔
  s = s' ∧ a = a' ∧ k = k' ∧ canon p = canon p'.
Proof.
  intros Hj Hw Hj' Hw'. split; [by apply signing_bytes_inj|]. intros (-> & -> & -> & H). by apply signing_bytes_canon.
Qed.

(** The receiver's side of a request, stated without the client's code: the text a signature
    is over, the HMAC of that text, and what the receiver takes from a datagram. *)
Definition jstr (s : string) : string := dumps false (PStr s).
Definition signed_text (key_id : string) (payload : pyval) : string :=
  "{" +:+ jstr "algorithm" +:+ ":" +:+ jstr "hmac-sha256"
  +:+ "," +:+ jstr "domain" +:+ ":" +:+ jstr "eve-trade.udp-envelope.hmac-sha256.v1"
  +:+ "," +:+ jstr "key_id" +:+ ":" +:+ jstr key_id
  +:+ "," +:+ jstr "payload" +:+ ":" +:+ dumps false payload
  +:+ "," +:+ jstr "schema_version" +:+ ":" +:+ jstr "eve-trade-edge.v2" +:+ "}".
Definition signature_of (secret key_id : string) (payload : pyval) : string :=
  b64url (hmac_sha256 secret (signed_text key_id payload)).
Definition signed_datagram (key_id signature : string) (payload : pyval) : pyval :=
  PDict [("auth", PDict [("algorithm", PStr "hmac-sha256"); ("key_id", PStr key_id); ("signature", PStr signature)]);
         ("payload", payload); ("schema_version", PStr "eve-trade-edge.v2")].

Lemma signed_text_spec key_id payload :
  envelope_signing_bytes EDGE_REQUEST_SCHEMA HMAC_SHA256_ALGORITHM key_id payload = signed_text key_id payload.
Proof.
  unfold envelope_signing_bytes, signed_text, jstr. unfold dumps at 1. rewrite canon_envelope.
  cbn [print map tjoin fst snd]. rewrite !implode_app. unfold dumps. cbn [print canon].
  by rewrite ?sapp_assoc.
Qed.

Lemma signed_text_canon key_id payload : signed_text key_id (canon payload) = signed_text key_id payload.
Proof. unfold signed_text. by rewrite dumps_canon. Qed.

Lemma sign_print secret m : sall (fun c => (code c <? 127)%N) (sign secret m) = true.
Proof. apply b64url_print. Qed.

(** C24: A signed request survives the wire.  For every packet of JSON values without floats,
    with ASCII strings, that encodes, its actor is a positive capsuleer id with a configured
    key id and secret; when the key id is printable ASCII, the datagram parses to exactly the
    envelope of the request schema with the packet as payload (up to key order), the key id and
    the URL-safe Base64 HMAC-SHA256, under the secret, of the JSON text with the algorithm, the
    signing domain, the key id, the parsed payload and the schema version ([signed_text]); and
    that text is the text of no other payload: nothing of the packet is outside the signature. *)
Theorem encoded_request_verifies cfg packet bytes :
  jsonable packet = true → wf_val packet → ascii_val packet = true →
  encode_udp_packet cfg packet = Ok bytes →
  ∃ pid key_id secret,
    packet_principal_id packet = Ok pid ∧ (0 < pid)%Z ∧ lookup_credential cfg pid = Ok (key_id, secret)
    ∧ (sall (fun c => (code c <? 127)%N) key_id = true →
       loads bytes = Some (signed_datagram key_id (signature_of secret key_id (canon packet)) (canon packet))
       ∧ ∀ packet', jsonable packet' = true → wf_val packet' →
           signed_text key_id packet' = signed_text key_id packet → canon packet' = canon packet).
Proof.
  intros Hj Hw Ha (pid & key_id & secret & Hpid & Hcred & Hk & Hs & ->)%encode_udp_packet_Ok.
  exists pid, key_id, secret. split_and!; [done|by eapply packet_principal_id_Ok|done|]. intros Hka.
  split; [|intros packet' Hj' Hw'; rewrite <- !signed_text_spec; intros H; apply signing_bytes_inj in H; [by destruct H as (_ & _ & _ & ?)|done..]].
  set (sg := sign secret _).
  destruct (request_envelope_jsonable key_id sg packet Hj Hw) as [Hj' Hw'].
  assert (ascii_val (request_envelope key_id sg packet) = true) as Ha'.
  { cbn [ascii_val request_envelope forallb fst snd]. rewrite Ha, Hka. unfold sg. by rewrite sign_print. }
  rewrite dumps_ascii, loads_dumps, request_envelope_canon by done. unfold sg, sign, signature_of.
  by rewrite signed_text_spec, signed_text_canon.
Qed.

(** C3: A response is believed exactly when it is authentic: well-formed UTF-8 JSON, the
    response schema, object payload and auth, the configured algorithm and key id, and a
    signature equal to the HMAC of the payload under the configured secret.  Everything else
    raises. *)
Theorem decode_iff_authentic cfg response payload :
  decode_udp_response cfg response = Ok payload ↔ authentic cfg response payload.
Proof. apply decode_authentic. Qed.

(** A response the gateway would send. *)
Definition authentic_datagram (cfg : settings) (payload : pyval) : string :=
  let key_id := GAME_PACKET_HMAC_KEY_ID cfg in
  dumps true (PDict [("schema_version", PStr EDGE_RESPONSE_SCHEMA); ("payload", payload);
    ("auth", PDict [("algorithm", PStr HMAC_SHA256_ALGORITHM); ("key_id", PStr key_id);
       ("signature", PStr (sign (GAME_PACKET_HMAC_SECRET cfg) (response_signing_bytes EDGE_RESPONSE_SCHEMA key_id payload)))])]).

Definition demo_cfg : settings :=
  Settings "quilkin" 26001 (f_lit 2 1) 3 (f_lit 1 10) 2 "secret" "gateway-1"
    (dumps false (PDict [("7", PDict [("key_id", PStr "capsuleer-7"); ("secret", PStr "s3cret")])])).
Definition demo_packet : pyval :=
  PDict [("interaction_id", PStr "i-1"); ("ui", PDict [("action", PStr "market_cancel_order")]);
         ("input", PDict [("cancelled_by_capsuleer_id", PInt 7)])].
Definition demo_payload (code : string) : pyval := PDict [("code", PStr code); ("interaction_id", PStr "i-1")].
Definition demo_dns (host : string) (port : Z) : res (list string) := Ok ["10.0.0.7"].
(** The gateway is busy twice, then answers. *)
Definition demo_net (final : string) (attempt : Z) : net_outcome :=
  if (attempt <? 3)%Z
  then NetResponse (authentic_datagram demo_cfg (demo_payload "request_in_progress")) ("10.0.0.7", 26001%Z)
  else NetResponse (authentic_datagram demo_cfg (demo_payload final)) ("10.0.0.7", 26001%Z).

Lemma signing_bytes_injective_witness :
  jsonable demo_packet = true ∧ canon demo_packet = canon (canon demo_packet).
Proof.
  split; [reflexivity|].
  apply (signing_bytes_injective "s" "a" "k" demo_packet "s" "a" "k" (canon demo_packet));
    [reflexivity|by apply wf_valb_wf|reflexivity|by apply wf_valb_wf|vm_compute; reflexivity].
Defined.

Lemma encoded_request_verifies_witness : ∃ bytes,
  encode_udp_packet demo_cfg demo_packet = Ok bytes
  ∧ loads bytes = Some (signed_datagram "capsuleer-7" (signature_of "s3cret" "capsuleer-7" (canon demo_packet)) (canon demo_packet)).
Proof.
  eexists. split; [vm_compute; reflexivity|].
  edestruct (encoded_request_verifies demo_cfg demo_packet) as (pid & k & s & Hp & _ & Hl & H);
    [reflexivity|by apply wf_valb_wf|reflexivity|vm_compute; reflexivity|].
  assert (pid = 7%Z) as -> by (vm_compute in Hp; congruence).
  assert (k = "capsuleer-7" ∧ s = "s3cret") as [-> ->] by (vm_compute in Hl; split; congruence).
  apply H. reflexivity.
Defined.

(** * The retry loop: properties *)

Lemma send_gui_packet_spec getaddrinfo cfg packet net st payload r st' :
  encode_udp_packet cfg packet = Ok payload →
  send_gui_packet getaddrinfo cfg packet net st = (r, st') →
  send_attempts getaddrinfo cfg packet payload net (Z.to_nat (max_attempts cfg)) 1 st = (r, st').
Proof. unfold send_gui_packet. by intros ->. Qed.

Lemma max_attempts_pos cfg : (1 ≤ max_attempts cfg)%Z.
Proof. unfold max_attempts. lia. Qed.

Lemma accept_response_Ok getaddrinfo cfg packet response address decoded :
  accept_response getaddrinfo cfg packet response address = Ok decoded →
  authentic cfg response decoded
  ∧ address.2 = QUILKIN_UDP_PORT cfg
  ∧ (∃ addresses, getaddrinfo (QUILKIN_UDP_HOST cfg) (QUILKIN_UDP_PORT cfg) = Ok addresses ∧ address.1 ∈ addresses)
  ∧ (∃ got want, py_get decoded "interaction_id" = Ok got ∧ py_get packet "interaction_id" = Ok want ∧ py_eqb got want = true).
Proof.
  unfold accept_response. intros (ok & Hend & H)%res_bind_Ok. destruct ok; [|done]. simpl in H.
  apply res_bind_Ok in H as (d & Hdec & (got & Hgot & (want & Hwant & H)%res_bind_Ok)%res_bind_Ok).
  destruct (py_eqb got want) eqn:Heq; [|done]. simpl in H. simplify_eq.
  apply decode_authentic in Hdec. unfold response_from_expected_endpoint in Hend.
  destruct (address.2 =? (udp_address cfg).2)%Z eqn:Hport; [|done]. simpl in Hend, Hport.
  apply res_bind_Ok in Hend as (addrs & Hdns & Hin). simplify_eq.
  split_and!; [done|by apply Z.eqb_eq|exists addrs|by exists got, want].
  split; [done|]. by apply bool_decide_eq_true in Hin.
Qed.

(** C4: What [send_gui_packet] returns can be trusted: the payload it returns arrived in
    some attempt between 1 and [max_attempts], in an authentic datagram, from the configured
    port of an address the configured host resolves to, and answers this packet's
    interaction; a retryable code is returned only by the last attempt. *)
Theorem returned_payload_trusted getaddrinfo cfg packet net st decoded st' :
  send_gui_packet getaddrinfo cfg packet net st = (Ok decoded, st') →
  ∃ i response address,
    (1 ≤ i ≤ max_attempts cfg)%Z ∧ net i = NetResponse response address
    ∧ authentic cfg response decoded
    ∧ address.2 = QUILKIN_UDP_PORT cfg
    ∧ (∃ addresses, getaddrinfo (QUILKIN_UDP_HOST cfg) (QUILKIN_UDP_PORT cfg) = Ok addresses ∧ address.1 ∈ addresses)
    ∧ (∃ got want, py_get decoded "interaction_id" = Ok got ∧ py_get packet "interaction_id" = Ok want
                   ∧ py_eqb got want = true)
    ∧ (code_retryable decoded = Ok true → i = max_attempts cfg).
Proof.
  intros H. destruct (encode_udp_packet cfg packet) as [payload|e] eqn:He.
  2: { unfold send_gui_packet in H. by rewrite He in H. }
  pose proof (max_attempts_pos cfg). eapply send_gui_packet_spec in H; [|done].
  apply send_attempts_spec in H as (k & kept & Hk & _ & Hend & _); [|lia|lia]. unfold ends in Hend.
  destruct (net (1 + Z.of_nat k)%Z) as [created e|e|e|response address] eqn:Hnet; [by destruct Hend..|].
  destruct (accept_response getaddrinfo cfg packet response address) as [d|e] eqn:Hacc; [|by destruct Hend].
  destruct Hend as [_ Hend]. destruct (code_retryable d) as [retry|e] eqn:Hcode; [|done].
  destruct Hend as [[= <-] Hlast]. exists (1 + Z.of_nat k)%Z, response, address.
  apply accept_response_Ok in Hacc as (? & ? & ? & ?). split_and!; try done; [lia|lia|].
  rewrite Hcode. intros [= ->]. by destruct Hlast.
Qed.


(** A defect: a response with the right schema, algorithm and key id whose signature is
    not ASCII is not rejected with [ValueError] like every other forgery:
    [hmac.compare_digest] raises [TypeError], which neither [send_gui_packet] nor its caller
    handles. *)
Theorem decode_non_ascii_signature cfg response decoded auth p sig :
  utf8_decode response = Some response → loads response = Some (PDict decoded) →
  dget0 decoded "schema_version" = PStr EDGE_RESPONSE_SCHEMA →
  dget0 decoded "payload" = PDict p → dget0 decoded "auth" = PDict auth →
  dget0 auth "algorithm" = PStr HMAC_SHA256_ALGORITHM →
  dget0 auth "key_id" = PStr (GAME_PACKET_HMAC_KEY_ID cfg) →
  dget0 auth "signature" = PStr sig → is_ascii_str sig = false →
  decode_udp_response cfg response = Raise TypeError.
Proof.
  intros Hu Hl Hs Hp Ha Halg Hkey Hsig Hn. unfold decode_udp_response.
  rewrite Hu, Hl, Hs, Hp, Ha, Halg, Hkey, !py_eqb_PStr, !bool_decide_eq_true_2 by done. simpl negb. cbn [orb].
  rewrite Hsig, py_str_or_str. unfold compare_digest. by rewrite Hn.
Qed.

(** * Witnesses *)

Definition demo_state : udp_state := UdpState None 0 [].

Lemma returned_payload_trusted_witness :
  ∃ i, (1 ≤ i ≤ max_attempts demo_cfg)%Z ∧ code_retryable (demo_payload "accepted") = Ok false
       ∧ ∃ response address, demo_net "accepted" i = NetResponse response address
                             ∧ authentic demo_cfg response (demo_payload "accepted").
Proof.
  destruct (returned_payload_trusted demo_dns demo_cfg demo_packet (demo_net "accepted") demo_state
              (demo_payload "accepted")
              (send_gui_packet demo_dns demo_cfg demo_packet (demo_net "accepted") demo_state).2)
    as (i & response & address & Hi & Hnet & Hauth & _); [vm_compute; reflexivity|].
  exists i. split; [exact Hi|]. split; [reflexivity|]. by exists response, address.
Defined.



Definition forged : string :=
  "{" +:+ dq +:+ "schema_version" +:+ dq +:+ ":" +:+ dq +:+ EDGE_RESPONSE_SCHEMA +:+ dq
  +:+ "," +:+ dq +:+ "payload" +:+ dq +:+ ":{}," +:+ dq +:+ "auth" +:+ dq +:+ ":{" +:+ dq +:+ "algorithm" +:+ dq
  +:+ ":" +:+ dq +:+ "hmac-sha256" +:+ dq +:+ "," +:+ dq +:+ "key_id" +:+ dq +:+ ":" +:+ dq +:+ "gateway-1" +:+ dq
  +:+ "," +:+ dq +:+ "signature" +:+ dq +:+ ":" +:+ dq +:+ "é" +:+ dq +:+ "}}".

Lemma decode_non_ascii_signature_witness : decode_udp_response demo_cfg forged = Raise TypeError.
Proof.
  eapply (decode_non_ascii_signature demo_cfg forged); vm_compute; reflexivity.
Defined.
