(* ===== verification/UdpPool.v ===== *)
(** The session pool of [simulator/trade_gui/udp_client.py] under concurrent requests:
    [_UdpSessionPool] is a LIFO queue of sessions shared by threads, [_get_udp_session_pool]
    and [reset_udp_session_pool] replace the process-wide pool under a lock.  The pools are
    objects of a heap (a thread keeps using the pool it was given after it was replaced) and
    the threads interleave as a step relation. *)
From S2P Require Import Prelude PyStr PyFloat PyVal PyPath UdpClient.

(** * The pool object *)

Record session_pool : Type := SessionPool { sp_maxsize : nat; sp_sessions : list (option nat); sp_available : list nat }.

(** [put_nowait] on a [LifoQueue(maxsize)]; [None] is [queue.Full]. *)
Definition put_nowait (s : nat) (pool : session_pool) : option session_pool :=
  if (0 <? sp_maxsize pool)%nat && (sp_maxsize pool <=? length (sp_available pool))%nat then None
  else Some (SessionPool (sp_maxsize pool) (sp_sessions pool) (s :: sp_available pool)).

(** [get]: [None] blocks. *)
Definition queue_get (pool : session_pool) : option (nat * session_pool) :=
  match sp_available pool with
  | [] => None
  | s :: rest => Some (s, SessionPool (sp_maxsize pool) (sp_sessions pool) rest)
  end.

(** [__init__] *)
Fixpoint put_all (l : list nat) (pool : session_pool) : option session_pool :=
  match l with
  | [] => Some pool
  | s :: l => match put_nowait s pool with None => None | Some pool => put_all l pool end
  end.
Definition new_pool (size : nat) : option session_pool :=
  put_all (seq 0 size) (SessionPool size (replicate size None) []).

Definition close_pool (pool : session_pool) : session_pool :=
  SessionPool (sp_maxsize pool) (map (fun _ => None) (sp_sessions pool)) (sp_available pool).

(** * The process-wide pool *)

Definition pool_config : Type := (string * Z * float * nat).
Definition pool_size (cfg : settings) : nat := Z.to_nat (Z.max 1 (QUILKIN_UDP_SESSION_POOL_SIZE cfg)).
Definition config_of (cfg : settings) : pool_config :=
  (QUILKIN_UDP_HOST cfg, QUILKIN_UDP_PORT cfg, QUILKIN_UDP_TIMEOUT_SECONDS cfg, pool_size cfg).
(** Tuples compare field by field, floats as numbers. *)
Definition config_eqb (a b : pool_config) : bool :=
  let '(h, p, t, n) := a in let '(h', p', t', n') := b in
  bool_decide (h = h') && (p =? p')%Z && f_eqb t t' && (n =? n')%nat.

(** What a request's thread is doing: nothing, holding a pool, holding one of its sessions. *)
Inductive phase : Type :=
| Idle
| HasPool (p : nat)
| Using (p s : nat).

Record pool_world : Type := PoolWorld {
  pw_pools : list session_pool;                 (* every pool object ever made *)
  pw_state : option (pool_config * nat);        (* _session_pool_state *)
  pw_threads : list phase;
  pw_sockets : nat                              (* sockets opened so far *)
}.

Definition with_pools (w : pool_world) (ps : list session_pool) : pool_world :=
  PoolWorld ps (pw_state w) (pw_threads w) (pw_sockets w).
Definition with_thread (t : nat) (ph : phase) (w : pool_world) : pool_world :=
  PoolWorld (pw_pools w) (pw_state w) (<[t := ph]> (pw_threads w)) (pw_sockets w).

(** [_session_pool_state[1].close()] when there is one. *)
Definition close_current (w : pool_world) : pool_world :=
  match pw_state w with
  | Some (_, p) => with_pools w (alter close_pool p (pw_pools w))
  | None => w
  end.

Definition reset_udp_session_pool (w : pool_world) : pool_world :=
  let w := close_current w in PoolWorld (pw_pools w) None (pw_threads w) (pw_sockets w).

(** [_get_udp_session_pool]: the current pool when its configuration still holds, else a
    fresh one; [None] when filling the fresh pool raised [queue.Full]. *)
Definition current_pool (cfg : settings) (w : pool_world) : option nat :=
  match pw_state w with
  | Some (c, p) => if config_eqb c (config_of cfg) then Some p else None
  | None => None
  end.
Definition get_udp_session_pool (cfg : settings) (w : pool_world) : option (nat * pool_world) :=
  match current_pool cfg w with
  | Some p => Some (p, w)
  | None =>
      let w := close_current w in
      match new_pool (pool_size cfg) with
      | None => None
      | Some pool =>
          Some (length (pw_pools w),
                PoolWorld (pw_pools w ++ [pool]) (Some (config_of cfg, length (pw_pools w))) (pw_threads w) (pw_sockets w))
      end
  end.

(** * Threads *)

(** One atomic action of a thread of the process. *)
Inductive pool_step : pool_world → pool_world → Prop :=
| StepGet t cfg p w w' :
    pw_threads w !! t = Some Idle → get_udp_session_pool cfg w = Some (p, w') →
    pool_step w (with_thread t (HasPool p) w')
| StepCheckout t p pool s pool' w :
    pw_threads w !! t = Some (HasPool p) → pw_pools w !! p = Some pool → queue_get pool = Some (s, pool') →
    pool_step w (with_thread t (Using p s) (with_pools w (<[p := pool']> (pw_pools w))))
| StepOpen t p s pool w :
    pw_threads w !! t = Some (Using p s) → pw_pools w !! p = Some pool → sp_sessions pool !! s = Some None →
    pool_step w (PoolWorld
      (<[p := SessionPool (sp_maxsize pool) (<[s := Some (pw_sockets w)]> (sp_sessions pool)) (sp_available pool)]> (pw_pools w))
      (pw_state w) (pw_threads w) (S (pw_sockets w)))
| StepReset t p s pool w :
    pw_threads w !! t = Some (Using p s) → pw_pools w !! p = Some pool →
    pool_step w (with_pools w
      (<[p := SessionPool (sp_maxsize pool) (<[s := None]> (sp_sessions pool)) (sp_available pool)]> (pw_pools w)))
| StepPutBack t p s pool pool' w :
    pw_threads w !! t = Some (Using p s) → pw_pools w !! p = Some pool → put_nowait s pool = Some pool' →
    pool_step w (with_thread t Idle (with_pools w (<[p := pool']> (pw_pools w))))
| StepResetPool w :
    pool_step w (reset_udp_session_pool w).

Definition initial_pools (threads : nat) : pool_world := PoolWorld [] None (replicate threads Idle) 0.

Inductive pool_reachable (threads : nat) : pool_world → Prop :=
| reach_init : pool_reachable threads (initial_pools threads)
| reach_step w w' : pool_reachable threads w → pool_step w w' → pool_reachable threads w'.

(** * The invariant *)

(** The session of pool [p] a thread holds. *)
Definition holds (p : nat) (ph : phase) : list nat :=
  match ph with Using p' s => if decide (p' = p) then [s] else [] | _ => [] end.
Definition held (p : nat) (threads : list phase) : list nat := flat_map (holds p) threads.

Definition pool_ok (threads : list phase) (p : nat) (pool : session_pool) : Prop :=
  sp_available pool ++ held p threads ≡ₚ seq 0 (sp_maxsize pool)
  ∧ length (sp_sessions pool) = sp_maxsize pool ∧ 0 < sp_maxsize pool.

Definition known (n : nat) (ph : phase) : Prop :=
  match ph with Idle => True | HasPool p | Using p _ => p < n end.

Record pools_inv (w : pool_world) : Prop := {
  inv_pools : ∀ p pool, pw_pools w !! p = Some pool → pool_ok (pw_threads w) p pool;
  inv_threads : ∀ t ph, pw_threads w !! t = Some ph → known (length (pw_pools w)) ph;
  inv_state : ∀ c p, pw_state w = Some (c, p) → ∃ pool, pw_pools w !! p = Some pool ∧ sp_maxsize pool = c.2
}.

Lemma held_insert p ts t old new :
  ts !! t = Some old → holds p old ++ held p (<[t := new]> ts) ≡ₚ holds p new ++ held p ts.
Proof.
  intros Ht. rewrite <- (take_drop_middle _ _ _ Ht) at 2.
  rewrite insert_take_drop by (by eapply lookup_lt_Some). unfold held. rewrite !flat_map_app. simpl.
  rewrite !(Permutation_app_comm (flat_map (holds p) (take t ts))), !(assoc_L (++)).
  rewrite <- !(assoc_L (++)). rewrite (assoc_L (++) (holds p old)), (assoc_L (++) (holds p new)).
  by rewrite (Permutation_app_comm (holds p old)).
Qed.

Lemma held_unknown p n ts :
  (∀ t ph, ts !! t = Some ph → known n ph) → n ≤ p → held p ts = [].
Proof.
  intros H Hp. unfold held. induction ts as [|ph ts IH]; [done|]. simpl.
  rewrite IH by (intros t ph'; apply (H (S t))). pose proof (H 0 ph eq_refl) as H0.
  destruct ph; simpl in *; [done|done|]. rewrite decide_False by lia. done.
Qed.

Lemma put_all_length l pool : length (sp_available pool) + length l ≤ sp_maxsize pool →
  put_all l pool = Some (SessionPool (sp_maxsize pool) (sp_sessions pool) (rev l ++ sp_available pool)).
Proof.
  revert pool. induction l as [|s l IH]; intros [m ss av] H; simpl in *; [done|].
  unfold put_nowait. simpl. rewrite (proj2 (Nat.leb_gt m (length av))), Bool.andb_false_r by lia.
  rewrite IH by (simpl; lia). simpl. by rewrite <- (assoc_L (++)).
Qed.

Lemma new_pool_total size :
  new_pool size = Some (SessionPool size (replicate size None) (rev (seq 0 size))).
Proof.
  unfold new_pool. rewrite put_all_length by (simpl; rewrite length_seq; lia). simpl. by rewrite app_nil_r.
Qed.

Lemma pool_ok_threads ts ts' p pool :
  held p ts' ≡ₚ held p ts → pool_ok ts p pool → pool_ok ts' p pool.
Proof. unfold pool_ok. intros ->. done. Qed.

Lemma close_pool_ok ts p pool : pool_ok ts p pool → pool_ok ts p (close_pool pool).
Proof. unfold pool_ok, close_pool. simpl. by rewrite length_map. Qed.

Lemma close_current_inv w : pools_inv w → pools_inv (close_current w).
Proof.
  intros [Hp Ht Hs]. unfold close_current. destruct (pw_state w) as [[c q]|] eqn:E; [|by split; rewrite ?E].
  split; simpl.
  - intros p pool Hl. destruct (decide (p = q)) as [->|].
    + rewrite list_lookup_alter_eq in Hl. destruct (pw_pools w !! q) eqn:Eq; simplify_eq/=. by apply close_pool_ok, Hp.
    + rewrite list_lookup_alter_ne in Hl by done. by apply Hp.
  - intros t ph Hl. rewrite length_alter. by apply (Ht t).
  - rewrite E. intros c' p' [= <- <-]. destruct (Hs c q eq_refl) as (pool & Hl & Hc).
    exists (close_pool pool). by rewrite list_lookup_alter_eq, Hl.
Qed.

Lemma close_current_threads w : pw_threads (close_current w) = pw_threads w.
Proof. unfold close_current. by destruct (pw_state w) as [[c q]|]. Qed.

Lemma get_pool_inv cfg w p w' :
  pools_inv w → get_udp_session_pool cfg w = Some (p, w') →
  pools_inv w' ∧ pw_threads w' = pw_threads w ∧ p < length (pw_pools w').
Proof.
  intros Hinv. unfold get_udp_session_pool, current_pool. rewrite new_pool_total.
  destruct (match pw_state w with Some (c, p) => if config_eqb c (config_of cfg) then Some p else None | None => None end)
    as [q|] eqn:E.
  - intros [= -> ->]. split_and!; [done..|]. destruct (pw_state w') as [[c q]|] eqn:Es; [|done].
    destruct (config_eqb c (config_of cfg)); simplify_eq.
    destruct (inv_state _ Hinv c p Es) as (pool & Hl & _). by eapply lookup_lt_Some.
  - intros [= <- <-]. pose proof (close_current_inv w Hinv) as [Hp Ht Hs].
    split_and!; [split; simpl|apply close_current_threads|simpl; rewrite length_app; simpl; lia].
    + intros p pool Hl. apply lookup_app_Some in Hl as [Hl|[Hle Hl]]; [by apply Hp|].
      apply list_lookup_singleton_Some in Hl as [Hz <-]. unfold pool_ok. simpl.
      rewrite (held_unknown p (length (pw_pools (close_current w)))) by (done || lia). rewrite app_nil_r.
      rewrite length_replicate. split_and!; [by rewrite Permutation_rev, rev_involutive|done|unfold pool_size; lia].
    + intros t ph Hl. rewrite length_app. apply Ht in Hl. destruct ph; simpl in *; lia.
    + intros c q [= <- <-]. eexists. rewrite lookup_app_r by done. rewrite Nat.sub_diag. by split.
Qed.

(** A step that replaces pool [p] and moves one thread preserves the invariant when the
    sessions that are available or held stay the same. *)
Lemma inv_update w t old new p pool pool' :
  pools_inv w → pw_threads w !! t = Some old → pw_pools w !! p = Some pool →
  sp_maxsize pool' = sp_maxsize pool → length (sp_sessions pool') = length (sp_sessions pool) →
  sp_available pool' ++ holds p new ≡ₚ sp_available pool ++ holds p old →
  (∀ q, q ≠ p → holds q new = holds q old) → known (length (pw_pools w)) new →
  pools_inv (with_thread t new (with_pools w (<[p := pool']> (pw_pools w)))).
Proof.
  intros [Hp Ht Hs] Hold Hpool Hm Hlen Hav Hother Hknown. split; simpl.
  - intros q pq Hq. destruct (decide (q = p)) as [->|Hne].
    + rewrite list_lookup_insert_eq in Hq by (by eapply lookup_lt_Some). simplify_eq.
      destruct (Hp p pool Hpool) as (Hperm & Hl & H0). unfold pool_ok. rewrite Hm. split_and!; [|lia|lia].
      rewrite <- Hperm. pose proof (held_insert p _ _ _ new Hold) as Hh.
      apply (Permutation_app_inv_l (holds p old)). rewrite (assoc_L (++)), (Permutation_app_comm (holds p old)).
      rewrite <- (assoc_L (++)), Hh, (assoc_L (++)), Hav, <- (assoc_L (++)).
      rewrite !(assoc_L (++)). by rewrite (Permutation_app_comm (sp_available pool)).
    + rewrite list_lookup_insert_ne in Hq by done. apply (pool_ok_threads (pw_threads w)); [|by apply Hp].
      pose proof (held_insert q _ _ _ new Hold) as Hh. rewrite Hother in Hh by done.
      by apply Permutation_app_inv_l in Hh.
  - intros t' ph Hl. rewrite length_insert. destruct (decide (t' = t)) as [->|].
    + rewrite list_lookup_insert_eq in Hl by (by eapply lookup_lt_Some). by simplify_eq.
    + rewrite list_lookup_insert_ne in Hl by done. by apply (Ht t').
  - intros c q Hq. destruct (Hs c q Hq) as (pq & Hl & Hc). destruct (decide (q = p)) as [->|].
    + exists pool'. rewrite list_lookup_insert_eq by (by eapply lookup_lt_Some). split; [done|]. simplify_eq. lia.
    + exists pq. by rewrite list_lookup_insert_ne.
Qed.

Lemma threads_id w t old ps : pw_threads w !! t = Some old → with_pools w ps = with_thread t old (with_pools w ps).
Proof. intros H. unfold with_thread, with_pools. simpl. by rewrite list_insert_id. Qed.

Lemma known_using w t p s : pools_inv w → pw_threads w !! t = Some (Using p s) → p < length (pw_pools w).
Proof. intros Hi Ht. apply (inv_threads _ Hi t _ Ht). Qed.

Lemma step_inv w w' : pools_inv w → pool_step w w' → pools_inv w'.
Proof.
  intros Hinv. destruct 1 as [t cfg p w w' Ht Hget|t p pool s pool' w Ht Hp Hq|t p s pool w Ht Hp Hs
                             |t p s pool w Ht Hp|t p s pool pool' w Ht Hp Hput|w].
  - destruct (get_pool_inv cfg w p w' Hinv Hget) as ([Hp' Ht' Hs'] & Hth & Hlt). rewrite <- Hth in Ht. split; simpl.
    + intros q pool Hq. apply (pool_ok_threads (pw_threads w')); [|by apply Hp'].
      apply (held_insert q _ _ _ (HasPool p) Ht).
    + intros t' ph Hl. destruct (decide (t' = t)) as [->|].
      * rewrite list_lookup_insert_eq in Hl by (by eapply lookup_lt_Some). by simplify_eq.
      * rewrite list_lookup_insert_ne in Hl by done. by apply (Ht' t').
    + done.
  - unfold queue_get in Hq. destruct (sp_available pool) as [|s0 rest] eqn:Ea; simplify_eq.
    eapply inv_update; [done|done|done|done|done|..]; simpl.
    + rewrite decide_True, Ea by done. rewrite app_nil_r. by rewrite (Permutation_app_comm rest).
    + intros q Hne. by rewrite decide_False.
    + by eapply lookup_lt_Some.
  - assert (∀ n ps, pools_inv (with_pools w ps) → pools_inv (PoolWorld ps (pw_state w) (pw_threads w) n)) as Hn
      by (intros n ps [? ? ?]; by split).
    apply Hn. rewrite (threads_id w t _ _ Ht). eapply inv_update; [done|done|done|done|by simpl; rewrite length_insert|done|done|].
    by apply (known_using w t p s).
  - rewrite (threads_id w t _ _ Ht). eapply inv_update; [done|done|done|done|by simpl; rewrite length_insert|done|done|].
    by apply (known_using w t p s).
  - unfold put_nowait in Hput. destruct (_ && _); simplify_eq.
    eapply inv_update; [done|done|done|done|done|..]; simpl; [|intros q Hne; by rewrite decide_False|done].
    rewrite decide_True by done. rewrite app_nil_r. by rewrite (Permutation_app_comm (sp_available pool)).
  - pose proof (close_current_inv w Hinv) as [Hp Ht Hs]. by split.
Qed.

Lemma reachable_inv n w : pool_reachable n w → pools_inv w.
Proof.
  induction 1 as [|w w' _ IH Hstep]; [|by eapply step_inv]. split; simpl; [done| |done].
  intros t ph Hl. apply lookup_replicate in Hl as [-> _]. done.
Qed.

Lemma held_elem p s ts t : ts !! t = Some (Using p s) → s ∈ held p ts.
Proof.
  intros Ht. unfold held. apply list_elem_of_In, in_flat_map. exists (Using p s).
  split; [by apply list_elem_of_In, list_elem_of_lookup_2 with t|]. simpl. rewrite decide_True by done. by left.
Qed.

Lemma held_unique p s ts t t' :
  NoDup (held p ts) → ts !! t = Some (Using p s) → ts !! t' = Some (Using p s) → t = t'.
Proof.
  unfold held. revert t t'. induction ts as [|ph ts IH]; intros [|t] [|t'] Hnd Ht Ht'; simplify_eq/=; [done|..].
  - rewrite decide_True in Hnd by done. apply NoDup_app in Hnd as (_ & Hd & _).
    destruct (Hd s); [by left|by eapply held_elem].
  - rewrite decide_True in Hnd by done. apply NoDup_app in Hnd as (_ & Hd & _).
    destruct (Hd s); [by left|by eapply held_elem].
  - f_equal. apply IH; [|done|done]. by apply NoDup_app in Hnd as (_ & _ & Hnd).
Qed.

(** * Properties *)

(** C13: Session isolation.  However requests, configuration changes and resets interleave,
    (1) no two threads ever hold the same session of a pool; (2) a thread that finishes can
    always put its session back: [put_nowait] in the [finally] block never raises
    [queue.Full]; (3) a session a thread holds is a session of the pool. *)
Theorem sessions_exclusive n w :
  pool_reachable n w →
  ∀ t p s, pw_threads w !! t = Some (Using p s) →
  (∀ t', pw_threads w !! t' = Some (Using p s) → t' = t)
  ∧ ∃ pool pool', pw_pools w !! p = Some pool ∧ put_nowait s pool = Some pool' ∧ s < length (sp_sessions pool).
Proof.
  intros Hinv%reachable_inv t p s Ht.
  destruct (lookup_lt_is_Some_2 (pw_pools w) p) as [pool Hp]; [by eapply known_using|].
  destruct (inv_pools _ Hinv p pool Hp) as (Hperm & Hlen & Hpos).
  assert (NoDup (sp_available pool ++ held p (pw_threads w))) as Hnd by (rewrite Hperm; apply NoDup_seq).
  split.
  - intros t' Ht'. apply NoDup_app in Hnd as (_ & _ & Hnd). by eapply held_unique.
  - pose proof (Permutation_length Hperm) as Hl. rewrite length_app, length_seq in Hl.
    pose proof (held_elem _ _ _ _ Ht) as Hin.
    assert (s ∈ seq 0 (sp_maxsize pool)) as Hs by (rewrite <- Hperm; set_solver).
    destruct (held p (pw_threads w)) as [|x l] eqn:Eh; [set_solver|]. simpl in Hl.
    exists pool. unfold put_nowait. rewrite (proj2 (Nat.leb_gt (sp_maxsize pool) _)), Bool.andb_false_r by lia.
    eexists. split_and!; [done|done|]. apply elem_of_seq in Hs. lia.
Qed.

(** No session leaks: whenever no thread holds a session, every pool object has all of
    its sessions in its queue, and the process-wide pool has exactly the configured number
    of sessions, at least one, so [checkout] cannot block forever on an idle process. *)
Theorem sessions_returned n w :
  pool_reachable n w →
  (∀ t p s, pw_threads w !! t ≠ Some (Using p s)) →
  (∀ p pool, pw_pools w !! p = Some pool → sp_available pool ≡ₚ seq 0 (sp_maxsize pool) ∧ is_Some (queue_get pool))
  ∧ ∀ c p, pw_state w = Some (c, p) → ∃ pool, pw_pools w !! p = Some pool ∧ length (sp_available pool) = c.2.
Proof.
  intros Hinv%reachable_inv Hidle.
  assert (∀ p, held p (pw_threads w) = []) as Hh.
  { intros p. destruct (held p (pw_threads w)) as [|x l] eqn:E; [done|].
    assert (In x (held p (pw_threads w))) as Hin by (rewrite E; by left).
    apply in_flat_map in Hin as (ph & (t & Ht)%list_elem_of_In%list_elem_of_lookup & Hx).
    destruct ph as [| |p' s]; simpl in Hx; [done|done|]. by destruct (Hidle t p' s). }
  assert (∀ p pool, pw_pools w !! p = Some pool → sp_available pool ≡ₚ seq 0 (sp_maxsize pool)) as Hall.
  { intros p pool Hp. destruct (inv_pools _ Hinv p pool Hp) as (Hperm & _). by rewrite Hh, app_nil_r in Hperm. }
  split.
  - intros p pool Hp. split; [by eapply Hall|]. destruct (inv_pools _ Hinv p pool Hp) as (_ & _ & Hpos).
    pose proof (Permutation_length (Hall p pool Hp)) as Hl. rewrite length_seq in Hl. unfold queue_get.
    destruct (sp_available pool); [simpl in Hl; lia|by eexists].
  - intros c p Hs. destruct (inv_state _ Hinv c p Hs) as (pool & Hp & Hc). exists pool. split; [done|].
    by rewrite (Hall p pool Hp), length_seq.
Qed.

(** * Witnesses: two threads, a pool of two sessions, one of them in use *)

Definition demo_settings : settings :=
  Settings "quilkin" 26001 (f_lit 2 1) 3 (f_lit 1 10) 2 "secret" "gateway-1"
    "{}".

Definition demo_pool_world (available : list nat) (threads : list phase) : pool_world :=
  PoolWorld [SessionPool 2 [None; None] available] (Some (config_of demo_settings, 0)) threads 0.

Lemma demo_reachable_has : pool_reachable 2 (demo_pool_world [1; 0] [HasPool 0; Idle]).
Proof.
  eapply reach_step; [apply reach_init|].
  by apply (StepGet 0 demo_settings 0 _ (demo_pool_world [1; 0] [Idle; Idle])).
Qed.

Lemma demo_reachable_using : pool_reachable 2 (demo_pool_world [0] [Using 0 1; Idle]).
Proof.
  eapply reach_step; [apply demo_reachable_has|].
  by apply (StepCheckout 0 0 (SessionPool 2 [None; None] [1; 0]) 1 (SessionPool 2 [None; None] [0])).
Qed.

Lemma sessions_exclusive_witness :
  pw_threads (demo_pool_world [0] [Using 0 1; Idle]) !! 0 = Some (Using 0 1)
  ∧ ∀ t', pw_threads (demo_pool_world [0] [Using 0 1; Idle]) !! t' = Some (Using 0 1) → t' = 0.
Proof. split; [reflexivity|]. apply (sessions_exclusive 2 _ demo_reachable_using 0 0 1). reflexivity. Defined.

Lemma sessions_returned_witness :
  ∃ pool, pw_pools (demo_pool_world [1; 0] [HasPool 0; Idle]) !! 0 = Some pool ∧ length (sp_available pool) = 2.
Proof.
  apply (proj2 (sessions_returned 2 _ demo_reachable_has ltac:(by intros [|[|[]]])) (config_of demo_settings) 0).
  reflexivity.
Defined.
