(* ===== verification/Views.v ===== *)
(** The simulator's web layer: [trade_gui/models.py], [views.py], [serializers.py], the
    seed command and the defaults of [settings.py].  The tables of buttons and interactions
    are lists of rows; a handler works on an in-memory object and writes the columns it names
    with [save(update_fields=...)]. *)
From S2P Require Import Prelude PyStr PyFloat PyVal Regex Json Hashing PyPath UdpClient.

(** * Models *)

(** [GameGuiButton.Window] and [GameGuiInteraction.Status] *)
Definition REGIONAL_MARKET := "regional_market".
Definition CONTRACTS := "contracts".
Definition DIRECT_TRADE := "direct_trade".
Definition WALLET_ORDERS := "wallet_orders".
Inductive istatus : Type := PENDING | SENT | FAILED.
#[global] Instance istatus_eq_dec : EqDecision istatus.
Proof. solve_decision. Defined.
Definition status_str (s : istatus) : string :=
  match s with PENDING => "pending" | SENT => "sent" | FAILED => "failed" end.

Record button : Type := Button {
  b_id : nat;
  b_window : string;
  b_label : string;
  b_action : string;
  b_tooltip : string;
  b_wiki_reference : string;
  b_default_payload : dict;
  b_enabled : bool;
  b_sort_order : Z
}.

Record interaction : Type := Interaction {
  i_id : nat;
  i_button : option nat;
  i_action : string;
  i_player_input : dict;
  i_raw_packet : pyval;
  i_response_payload : pyval;
  i_status : istatus;
  i_error_message : string;
  i_created_at : string
}.

(** [GameGuiInteractionSerializer(interaction).data] *)
Definition serialize_interaction (i : interaction) : pyval :=
  PDict [("id", PInt (Z.of_nat (i_id i)));
         ("button", match i_button i with Some b => PInt (Z.of_nat b) | None => PNone end);
         ("action", PStr (i_action i)); ("player_input", PDict (i_player_input i));
         ("raw_packet", i_raw_packet i); ("response_payload", i_response_payload i);
         ("status", PStr (status_str (i_status i))); ("error_message", PStr (i_error_message i));
         ("created_at", PStr (i_created_at i))].

(** [objects.create]: a new row with the column defaults and the primary key [key] the database
    assigned. *)
Definition create_interaction (key : nat) (b : button) (player_input : dict) (packet : pyval) (now : string)
    (rows : list interaction) : interaction * list interaction :=
  let i := Interaction key (Some (b_id b)) (b_action b) player_input packet (PDict []) PENDING "" now in
  (i, rows ++ [i]).

(** [interaction.save(update_fields=[...])] copies the named columns into the row. *)
Definition save_fields (fields : list string) (i row : interaction) : interaction :=
  let has f := bool_decide (f ∈ fields) in
  Interaction (i_id row) (i_button row) (i_action row) (i_player_input row) (i_raw_packet row)
    (if has "response_payload" then i_response_payload i else i_response_payload row)
    (if has "status" then i_status i else i_status row)
    (if has "error_message" then i_error_message i else i_error_message row)
    (i_created_at row).
Definition save (fields : list string) (i : interaction) (rows : list interaction) : list interaction :=
  map (fun row => if (i_id row =? i_id i)%nat then save_fields fields i row else row) rows.

Definition set_status (s : istatus) (i : interaction) : interaction :=
  Interaction (i_id i) (i_button i) (i_action i) (i_player_input i) (i_raw_packet i) (i_response_payload i) s
    (i_error_message i) (i_created_at i).
Definition set_error (m : string) (i : interaction) : interaction :=
  Interaction (i_id i) (i_button i) (i_action i) (i_player_input i) (i_raw_packet i) (i_response_payload i)
    (i_status i) m (i_created_at i).
Definition set_response (p : pyval) (i : interaction) : interaction :=
  Interaction (i_id i) (i_button i) (i_action i) (i_player_input i) (i_raw_packet i) p (i_status i)
    (i_error_message i) (i_created_at i).

(** * Packets *)

(** [value or default] with the default a thunk's value. *)
Definition build_gui_packet (uuid uuid' : string) (b : button) (player_input : dict) (interaction_id : pyval) : pyval :=
  let '(chosen, rest) :=
    if truthy interaction_id then (interaction_id, player_input)
    else
      let '(v1, d1) := (dget0 player_input "interaction_id", ddel "interaction_id" player_input) in
      if truthy v1 then (v1, d1)
      else
        let '(v2, d2) := (dget0 d1 "idempotency_key", ddel "idempotency_key" d1) in
        if truthy v2 then (v2, d2) else (PStr uuid, d2) in
  let s := strip (py_str chosen) in
  PDict [("schema_version", PStr "eve-trade-gui.v1");
         ("interaction_id", PStr (if nonempty s then s else uuid'));
         ("ui", PDict [("window", PStr (b_window b)); ("control_id", PStr (b_action b)); ("action", PStr (b_action b))]);
         ("input", PDict rest)].

(** [d.update(v)] for a JSON value: a mapping, or a sequence of pairs whose keys are strings
    (a pair with another key is refused here). *)
Definition as_pair (v : pyval) : res (string * pyval) :=
  match v with
  | PList [PStr k; x] => Ok (k, x)
  | PList [_; _] => Raise TypeError
  | PDict [(k, _); (x, _)] => Ok (k, PStr x)
  | PList _ | PDict _ => Raise (ValueError "dictionary update sequence element has wrong length; 2 is required")
  | PStr s => if (String.length s =? 2)%nat then Ok (stake 1 s, PStr (sdrop 1 s))
              else Raise (ValueError "dictionary update sequence element has wrong length; 2 is required")
  | _ => Raise TypeError
  end.
Definition py_update (d : dict) (v : pyval) : res dict :=
  match v with
  | PDict e => Ok (dupdate d e)
  | PList l => let! pairs := res_mapM as_pair l in Ok (dupdate d pairs)
  | PStr s => if nonempty s then Raise (ValueError "dictionary update sequence element has wrong length; 2 is required")
              else Ok d
  | _ => Raise TypeError
  end.

(** * HTTP *)

Definition udp_error_http_status (c : string) : Z :=
  default 502%Z (dget c
    [("invalid_argument", 400); ("unauthenticated", 401); ("permission_denied", 403); ("not_found", 404);
     ("already_exists", 409); ("replay", 409); ("failed_precondition", 409); ("request_in_progress", 409);
     ("resource_exhausted", 429); ("rate_limited", 429); ("downstream_timeout", 504);
     ("downstream_unavailable", 503)]%Z).

Record response : Type := Response { r_status : Z; r_data : pyval }.

Definition ERR_NOT_ACCEPTED := "gateway did not return an accepted or queued interaction".

(** The handler after the packet was sent. *)
Definition finish_press (i : interaction) (rows : list interaction) (sent : res pyval) : res response * list interaction :=
  match sent with
  | Raise e =>
      match e with
      | OSError _ _ _ | ValueError _ =>
          let i := set_error (exn_str e) (set_status FAILED i) in
          (Ok (Response 502 (serialize_interaction i)), save ["status"; "error_message"] i rows)
      | _ => (Raise e, rows)
      end
  | Ok payload =>
      let i := set_response payload i in
      match payload with
      | PDict p =>
          let error_code := strip (py_str (py_or (dget0 p "code") (PStr ""))) in
          if nonempty error_code then
            let i := set_error (py_str (py_or (dget0 p "message") (PStr error_code))) (set_status FAILED i) in
            (Ok (Response (udp_error_http_status error_code) (PDict (dset "interaction" (serialize_interaction i) p))),
             save ["response_payload"; "status"; "error_message"] i rows)
          else
            match in_set (dget0 p "status") ["accepted"; "queued"] with
            | Raise e => (Raise e, rows)
            | Ok false =>
                let i := set_error ERR_NOT_ACCEPTED (set_status FAILED i) in
                (Ok (Response 502 (PDict [("code", PStr "invalid_gateway_response"); ("message", PStr (i_error_message i));
                                          ("interaction", serialize_interaction i)])),
                 save ["response_payload"; "status"; "error_message"] i rows)
            | Ok true =>
                let i := set_status SENT i in
                (Ok (Response 202 (serialize_interaction i)), save ["response_payload"; "status"] i rows)
            end
      | _ => (Raise AttributeError, rows)
      end
  end.

(** The player's input and the packet of a request, before anything is stored. *)
Definition press_request (uuid uuid' : string) (b : button) (data : pyval) : res (dict * pyval) :=
  let! input := py_get_or data "player_input" data in
  let! player_input := py_update (b_default_payload b) (py_or input (PDict [])) in
  let! given := py_get data "interaction_id" in
  Ok (player_input, build_gui_packet uuid uuid' b player_input given).

(** [GameGuiButtonViewSet.press]; [send] is [send_gui_packet], [key] the primary key the
    database gives the new row. *)
Definition press (send : pyval → res pyval) (key : nat) (uuid uuid' now : string) (b : button) (data : pyval)
    (rows : list interaction) : res response * list interaction :=
  if negb (b_enabled b) then (Ok (Response 409 (PDict [("detail", PStr "button is disabled")])), rows)
  else
    match press_request uuid uuid' b data with
    | Raise e => (Raise e, rows)
    | Ok (player_input, packet) =>
        let '(i, rows) := create_interaction key b player_input packet now rows in
        finish_press i rows (send packet)
    end.

(** [index]: the enabled buttons by [sort_order], [window], [label]. *)
Definition str_ltb (a b : string) : bool := str_leb a b && negb (bool_decide (a = b)).
Definition button_leb (a b : button) : bool :=
  if (b_sort_order a =? b_sort_order b)%Z then
    if bool_decide (b_window a = b_window b) then str_leb (b_label a) (b_label b)
    else str_ltb (b_window a) (b_window b)
  else (b_sort_order a <? b_sort_order b)%Z.
Definition index_buttons (rows : list button) : list button := sort_by button_leb (filterb b_enabled rows).

(** * The seed command *)

Record seed_row : Type := SeedRow {
  s_window : string; s_label : string; s_action : string; s_tooltip : string; s_wiki : string;
  s_sort_order : Z; s_default_payload : dict
}.

Definition item_stack : pyval :=
  PDict [("item_stack_id", PStr ""); ("owner_id", PInt 1001); ("item_type_id", PInt 34);
         ("station_id", PInt 60003760); ("quantity", PInt 10)].
Definition sell_payload (quantity : Z) : dict :=
  [("issued_by_capsuleer_id", PInt 1001); ("item_stack", item_stack); ("quantity", PInt quantity);
   ("unit_price_isk", PInt 25)].
Definition buy_payload : dict :=
  [("trade_instance_id", PStr ""); ("buyer_capsuleer_id", PInt 2002); ("quantity_requested", PInt 1);
   ("buyer_wallet_id", PStr ""); ("buyer_destination_item_stack_id", PStr "")].
Definition wiki (page : string) : string := "https://wiki.eveuniversity.org/" +:+ page.

Definition BUTTONS : list seed_row :=
  [SeedRow REGIONAL_MARKET "Sell This Item" "market_place_sell_order"
     "Create a regional-market sell order from the selected item stack." (wiki "Trading") 10 (sell_payload 4);
   SeedRow REGIONAL_MARKET "Buy" "market_buy_from_sell_order"
     "Buy quantity from an available sell order." (wiki "Trading") 20 buy_payload;
   SeedRow WALLET_ORDERS "Cancel Order" "market_cancel_order"
     "Cancel an outstanding sell order from the Wallet orders tab." (wiki "Neocom") 30
     [("trade_instance_id", PStr ""); ("cancelled_by_capsuleer_id", PInt 1001)];
   SeedRow CONTRACTS "Create Item Exchange" "contract_create_item_exchange"
     "Create an item-exchange contract for items or ISK." (wiki "Contracts") 40 (sell_payload 1);
   SeedRow CONTRACTS "Accept Item Exchange" "contract_accept_item_exchange"
     "Accept an item-exchange contract." (wiki "Contracts") 50 buy_payload;
   SeedRow DIRECT_TRADE "Offer" "direct_trade_offer"
     "Offer selected items in a direct player-to-player trade." (wiki "Trading") 60 (sell_payload 1);
   SeedRow DIRECT_TRADE "Accept" "direct_trade_accept"
     "Accept a direct player-to-player trade." (wiki "Trading") 70 buy_payload].

(** [update_or_create(action=..., defaults=row)]; the table of buttons with the next key. *)
Definition apply_defaults (r : seed_row) (b : button) : button :=
  Button (b_id b) (s_window r) (s_label r) (s_action r) (s_tooltip r) (s_wiki r) (s_default_payload r)
    (b_enabled b) (s_sort_order r).
Fixpoint update_action (r : seed_row) (rows : list button) : option (list button) :=
  match rows with
  | [] => None
  | b :: rows =>
      if bool_decide (b_action b = s_action r) then Some (apply_defaults r b :: rows)
      else (b ::.) <$> update_action r rows
  end.
Definition update_or_create (r : seed_row) (db : nat * list button) : nat * list button :=
  let '(next, rows) := db in
  match update_action r rows with
  | Some rows => (next, rows)
  | None => (S next, rows ++ [apply_defaults r (Button next "" "" "" "" "" [] true 0)])
  end.
Definition seed_handle (db : nat * list button) : nat * list button :=
  foldl (fun db r => update_or_create r db) db BUTTONS.

(** The settings with no environment variable set. *)
Definition default_settings : settings :=
  Settings "127.0.0.1" 26001 (f_lit 6 1) 3 (f_lit 1 10) 4 "local-game-edge-secret" "primary"
    ("{" +:+ dq +:+ "1001" +:+ dq +:+ ":{" +:+ dq +:+ "key_id" +:+ dq +:+ ":" +:+ dq +:+ "seller" +:+ dq +:+ ","
     +:+ dq +:+ "secret" +:+ dq +:+ ":" +:+ dq +:+ "seller-player-secret" +:+ dq +:+ "},"
     +:+ dq +:+ "2002" +:+ dq +:+ ":{" +:+ dq +:+ "key_id" +:+ dq +:+ ":" +:+ dq +:+ "buyer" +:+ dq +:+ ","
     +:+ dq +:+ "secret" +:+ dq +:+ ":" +:+ dq +:+ "buyer-player-secret" +:+ dq +:+ "}}").
