(* ===== verification/ViewsFacts.v ===== *)
(** Correctness of the web layer: every accepted press is recorded once, the recorded status
    agrees with the HTTP answer, and the seed data is usable and idempotent. *)
From S2P Require Import Prelude PyStr PyFloat PyVal Regex Json Hashing PyPath UdpClient UdpClientFacts Views.

(** * Rows *)

(** The database gives a new row a primary key no row has. *)
Definition key_fresh (key : nat) (rows : list interaction) : Prop := Forall (fun row => i_id row ≠ key) rows.

Lemma save_other fields i rows : key_fresh (i_id i) rows → save fields i rows = rows.
Proof.
  unfold save. induction 1 as [|row rows Hne _ IH]; [done|]. simpl. by rewrite (proj2 (Nat.eqb_neq _ _)), IH by done.
Qed.

Lemma save_last fields i row rows :
  key_fresh (i_id row) rows → i_id i = i_id row → save fields i (rows ++ [row]) = rows ++ [save_fields fields i row].
Proof.
  intros Hf Hi. pose proof (save_other fields i rows) as Hs. unfold save in *. rewrite map_app. simpl.
  rewrite Hs by (by rewrite Hi). by rewrite Hi, Nat.eqb_refl.
Qed.

Lemma udp_error_http_status_range c : (400 ≤ udp_error_http_status c ≤ 504)%Z.
Proof.
  unfold udp_error_http_status.
  destruct (dget c _) as [z|] eqn:E; [|simpl; lia]. simpl.
  revert E. cbn [dget]. repeat (case_decide; [intros [= <-]; lia|]). done.
Qed.

(** * The handler *)

(** A payload that means success: no code, and a status the gateway gives to taken orders. *)
Definition accepted (sent : res pyval) : Prop :=
  ∃ p, sent = Ok (PDict p) ∧ nonempty (strip (py_str (py_or (dget0 p "code") (PStr "")))) = false
       ∧ (dget0 p "status" = PStr "accepted" ∨ dget0 p "status" = PStr "queued").

Lemma in_set_true v : in_set v ["accepted"; "queued"] = Ok true ↔ v = PStr "accepted" ∨ v = PStr "queued".
Proof.
  unfold in_set. destruct v; simpl; split; try (by intros [?|?]); try done.
  - intros H. destruct (bool_decide (s = "accepted")) eqn:E1; [apply bool_decide_eq_true in E1; naive_solver|].
    destruct (bool_decide (s = "queued")) eqn:E2; [apply bool_decide_eq_true in E2; naive_solver|].
    simpl in H. done.
  - by intros [[= ->]|[= ->]].
Qed.

(** A payload the handler cannot read: not an object, or without a code and with a status
    that cannot be looked up in a set. *)
Definition unreadable (payload : pyval) (e : exn) : Prop :=
  (is_dict payload = false ∧ e = AttributeError)
  ∨ ∃ p, payload = PDict p ∧ nonempty (strip (py_str (py_or (dget0 p "code") (PStr "")))) = false
         ∧ in_set (dget0 p "status") ["accepted"; "queued"] = Raise e.

(** [except (OSError, ValueError)] *)
Definition handled (e : exn) : bool := match e with OSError _ _ _ | ValueError _ => true | _ => false end.

(** What [press] answers and leaves in the table once the packet was sent. *)
Definition recorded (packet : pyval) (sent : res pyval) (r : res response) (row : interaction) : Prop :=
  i_raw_packet row = packet ∧
  match sent with
  | Raise e =>
      if handled e
      then r = Ok (Response 502 (serialize_interaction row)) ∧ i_status row = FAILED ∧ i_error_message row = exn_str e
      else r = Raise e ∧ i_status row = PENDING
  | Ok payload =>
      (accepted sent ∧ r = Ok (Response 202 (serialize_interaction row)) ∧ i_status row = SENT ∧ i_response_payload row = payload)
      ∨ (¬ accepted sent ∧ i_status row = FAILED ∧ i_response_payload row = payload
         ∧ ∃ resp, r = Ok resp ∧ (400 ≤ r_status resp ≤ 504)%Z ∧ py_get (r_data resp) "interaction" = Ok (serialize_interaction row))
      ∨ (∃ e, unreadable payload e ∧ r = Raise e ∧ i_status row = PENDING)
  end.

Lemma finish_press_spec i rows sent r rows' :
  key_fresh (i_id i) rows → i_status i = PENDING → finish_press i (rows ++ [i]) sent = (r, rows') →
  ∃ row, rows' = rows ++ [row] ∧ i_id row = i_id i ∧ recorded (i_raw_packet i) sent r row.
Proof.
  intros Hf Hst. unfold finish_press, recorded. destruct sent as [payload|e].
  - destruct (is_dict payload) eqn:Hd; [destruct payload as [| | | | | | |p]; try done|].
    2: { destruct payload; try done; (intros [= <- <-]; exists i; do 3 (split; [done|]); right; right; eexists; split; [by left|done]). }
    destruct (nonempty (strip (py_str (py_or (dget0 p "code") (PStr ""))))) eqn:Hcode.
    + intros [= <- <-]. rewrite save_last by done. eexists. do 3 (split; [done|]). right. left.
      pose proof (udp_error_http_status_range (strip (py_str (py_or (dget0 p "code") (PStr ""))))).
      split_and!; [intros (p' & [= <-] & Hc & _); congruence|done|done|]. eexists. split; [done|]. split; [done|].
      cbn [py_get r_data]. unfold dget0. by rewrite dget_dset_eq.
    + destruct (in_set (dget0 p "status") ["accepted"; "queued"]) as [[|]|e] eqn:Hset; intros [= <- <-].
      * rewrite save_last by done. eexists. do 3 (split; [done|]). left.
        apply in_set_true in Hset. split_and!; [by exists p|done|done|done].
      * rewrite save_last by done. eexists. do 3 (split; [done|]). right. left.
        split_and!; [|done|done|by eexists]. intros (p' & [= <-] & _ & Hs). apply in_set_true in Hs. congruence.
      * exists i. do 3 (split; [done|]). right. right. exists e. split; [|done]. right. by exists p.
  - destruct e; cbn [handled]; intros [= <- <-]; try (by exists i);
      (rewrite save_last by done; by eexists).
Qed.

(** C11: The audit trail agrees with the answer.  Pressing an enabled button, where the database
    gives the new row an unused key, raises before anything was stored when the request is
    malformed, and otherwise appends exactly one row, of the packet that was sent, leaving the
    others alone.  When sending raises [OSError] or [ValueError] the answer is 502 with that row,
    FAILED with the error's text; any other exception escapes and leaves the row PENDING.  When
    the gateway answers, the row is SENT and the answer 202 with that row exactly when the payload
    has no error code and is accepted or queued; any other payload that can be read gives a status
    between 400 and 504 and a FAILED row, with the payload stored and the row in the answer. *)
Theorem press_recorded send key uuid uuid' now b data rows r rows' :
  b_enabled b = true → key_fresh key rows →
  press send key uuid uuid' now b data rows = (r, rows') →
  match press_request uuid uuid' b data with
  | Raise e => r = Raise e ∧ rows' = rows
  | Ok (player_input, packet) => ∃ row, rows' = rows ++ [row] ∧ i_id row = key ∧ recorded packet (send packet) r row
  end.
Proof.
  intros Hen Hf. unfold press. rewrite Hen. cbn [negb].
  destruct (press_request uuid uuid' b data) as [[player_input packet]|e]; [|by intros [= <- <-]].
  cbn [create_interaction]. intros H. by apply finish_press_spec in H.
Qed.

(** The interaction id is read from the request, then from the input, and those two input
    fields are the only ones that may be dropped. *)
Lemma build_gui_packet_shape uuid uuid' b player_input given :
  nonempty uuid' = true →
  ∃ iid rest, build_gui_packet uuid uuid' b player_input given =
      PDict [("schema_version", PStr "eve-trade-gui.v1"); ("interaction_id", PStr iid);
             ("ui", PDict [("window", PStr (b_window b)); ("control_id", PStr (b_action b)); ("action", PStr (b_action b))]);
             ("input", PDict rest)]
    ∧ nonempty iid = true
    ∧ (truthy given = true → rest = player_input)
    ∧ ∀ k, k ≠ "interaction_id" → k ≠ "idempotency_key" → dget k rest = dget k player_input.
Proof.
  intros Hu. unfold build_gui_packet.
  assert (∀ chosen, nonempty (if nonempty (strip (py_str chosen)) then strip (py_str chosen) else uuid') = true) as Hne
    by (intros c; by destruct (nonempty (strip (py_str c))) eqn:?).
  destruct (truthy given); [eexists _, _; split; [reflexivity|]; split_and!; auto|].
  destruct (truthy (dget0 player_input "interaction_id"));
    [eexists _, _; split; [reflexivity|]; split_and!; [done|done|intros k H1 H2; by rewrite dget_ddel_ne]|].
  destruct (truthy _); (eexists _, _; split; [reflexivity|]; split_and!;
    [done|done|intros k H1 H2; by rewrite !dget_ddel_ne]).
Qed.

(** A packet always names an interaction (the retry and replay protection of the
    gateway key on it) and carries the player's input: the id is never empty, and every
    input field other than [interaction_id] and [idempotency_key] reaches the packet
    unchanged. *)
Theorem packet_names_interaction uuid uuid' b player_input given :
  nonempty uuid' = true →
  ∃ iid rest, py_get (build_gui_packet uuid uuid' b player_input given) "interaction_id" = Ok (PStr iid)
    ∧ nonempty iid = true
    ∧ py_get (build_gui_packet uuid uuid' b player_input given) "input" = Ok (PDict rest)
    ∧ ∀ k, k ≠ "interaction_id" → k ≠ "idempotency_key" → dget k rest = dget k player_input.
Proof.
  intros Hu. destruct (build_gui_packet_shape uuid uuid' b player_input given Hu) as (iid & rest & -> & Hn & _ & Hk).
  by exists iid, rest.
Qed.

(** * Seeding *)

Local Arguments apply_defaults : simpl never.

Definition settled (r : seed_row) (rows : list button) : Prop := update_action r rows = Some rows.

Lemma update_action_app_None r rows rows' :
  update_action r rows = None → update_action r (rows ++ rows') = app rows <$> update_action r rows'.
Proof.
  induction rows as [|b rows IH]; simpl; [by destruct (update_action r rows')|]. case_bool_decide; [done|].
  destruct (update_action r rows); [done|]. intros _. rewrite IH by done. by destruct (update_action r rows').
Qed.

Lemma update_action_settles r rows rows' : update_action r rows = Some rows' → settled r rows'.
Proof.
  unfold settled. revert rows'. induction rows as [|b rows IH]; intros rows'; simpl; [done|]. case_bool_decide.
  - intros [= <-]. simpl. by rewrite bool_decide_eq_true_2.
  - destruct (update_action r rows) as [rs|] eqn:E; [|done]. intros [= <-]. simpl.
    rewrite bool_decide_eq_false_2 by done. by rewrite IH.
Qed.

Lemma update_or_create_settles r db : settled r (update_or_create r db).2.
Proof.
  destruct db as [next rows]. unfold update_or_create. destruct (update_action r rows) as [rs|] eqn:E.
  - by eapply update_action_settles.
  - unfold settled. simpl. rewrite update_action_app_None by done. simpl. by rewrite bool_decide_eq_true_2.
Qed.

Lemma settled_other r r' db :
  s_action r' ≠ s_action r → settled r db.2 → settled r (update_or_create r' db).2.
Proof.
  intros Hne. destruct db as [next rows]. unfold settled, update_or_create. simpl.
  assert (∀ rows rs, update_action r rows = Some rows → update_action r' rows = Some rs → update_action r rs = Some rs) as H.
  { clear -Hne. intros rows. induction rows as [|b rows IH]; intros rs; simpl; [done|].
    destruct (bool_decide (b_action b = s_action r)) eqn:Er, (bool_decide (b_action b = s_action r')) eqn:Er'.
    - apply bool_decide_eq_true in Er, Er'. congruence.
    - intros Hb. destruct (update_action r' rows) as [rs'|]; [|done]. intros [= <-]. simpl. rewrite Er.
      assert (apply_defaults r b = b) as -> by congruence. done.
    - intros Hb [= <-]. simpl. rewrite bool_decide_eq_false_2 by exact Hne.
      destruct (update_action r rows) as [rr|]; [|done]. injection Hb as ->. done.
    - destruct (update_action r rows) as [rr|] eqn:E; [|done]. intros [= ->].
      destruct (update_action r' rows) as [rs'|] eqn:E'; [|done]. intros [= <-]. simpl. rewrite Er.
      by rewrite (IH rs'). }
  intros Hs. destruct (update_action r' rows) as [rs|] eqn:E; simpl; [by eapply H|].
  clear H E. revert Hs. generalize (apply_defaults r' (Button next "" "" "" "" "" [] true 0)). intros nb.
  revert rows. induction rows as [|b rows IH]; simpl; [done|]. case_bool_decide; [congruence|].
  destruct (update_action r rows) as [rr|]; [|done]. intros [= ->]. by rewrite IH.
Qed.

Lemma seed_settles rs db r :
  NoDup (map s_action rs) → r ∈ rs ∨ (settled r db.2 ∧ s_action r ∉ map s_action rs) →
  settled r (foldl (fun db r => update_or_create r db) db rs).2.
Proof.
  revert db. induction rs as [|r0 rs IH]; intros db Hnd H; simpl; [set_solver|].
  inversion_clear Hnd as [|? ? Hni Hnd']. apply IH; [done|]. destruct H as [[->|Hr]%elem_of_cons|[Hs Hn]].
  - right. split; [apply update_or_create_settles|done].
  - by left.
  - right. simpl in Hn. split; [|set_solver]. apply settled_other; [set_solver|done].
Qed.

Lemma seed_settled_id rs db :
  (∀ r, r ∈ rs → settled r db.2) → foldl (fun db r => update_or_create r db) db rs = db.
Proof.
  induction rs as [|r rs IH]; intros H; simpl; [done|].
  assert (update_or_create r db = db) as ->; [|apply IH; set_solver].
  destruct db as [next rows]. unfold update_or_create. rewrite (H r) by set_solver. done.
Qed.

(** What a reseed may not touch in an existing row. *)
Definition stable_columns (b : button) : nat * string * bool := (b_id b, b_action b, b_enabled b).

Lemma update_action_stable r rows rs :
  update_action r rows = Some rs → map stable_columns rs = map stable_columns rows.
Proof.
  revert rs. induction rows as [|b rows IH]; intros rs; simpl; [done|]. case_bool_decide as Ha.
  - intros [= <-]. simpl. unfold stable_columns, apply_defaults. simpl. congruence.
  - destruct (update_action r rows) as [rs'|]; [|done]. intros [= <-]. simpl. f_equal. by apply IH.
Qed.

Lemma seed_stable rs db :
  ∃ new, map stable_columns (foldl (fun db r => update_or_create r db) db rs).2 = map stable_columns db.2 ++ new.
Proof.
  revert db. induction rs as [|r rs IH]; intros db; simpl; [exists []; by rewrite app_nil_r|].
  destruct (IH (update_or_create r db)) as [new ->]. destruct db as [next rows]. unfold update_or_create.
  destruct (update_action r rows) as [rows'|] eqn:E; simpl.
  - rewrite (update_action_stable _ _ _ E). by exists new.
  - rewrite map_app, <- (assoc_L (++)). by eexists.
Qed.

(** Seeding is idempotent and safe to repeat on a live database: a second run changes
    nothing, every seeded action is then present with the seed's columns, and existing rows
    keep their primary key, action and whether they are enabled, in place. *)
Theorem seed_idempotent db :
  seed_handle (seed_handle db) = seed_handle db
  ∧ (∀ r, r ∈ BUTTONS → ∃ b, b ∈ (seed_handle db).2 ∧ b_action b = s_action r ∧ apply_defaults r b = b)
  ∧ ∃ new, map stable_columns (seed_handle db).2 = map stable_columns db.2 ++ new.
Proof.
  assert (NoDup (map s_action BUTTONS)) as Hnd by (apply (bool_decide_unpack _); by vm_compute).
  assert (∀ r, r ∈ BUTTONS → settled r (seed_handle db).2) as Hset by (intros r Hr; apply seed_settles; auto).
  split_and!; [by apply seed_settled_id| |apply seed_stable].
  intros r Hr. specialize (Hset r Hr). unfold settled in Hset. revert Hset. generalize (seed_handle db).2.
  intros rows. induction rows as [|b rows IH]; simpl; [done|]. case_bool_decide as Ha.
  - intros [= H]. exists b. split; [by left|]. done.
  - destruct (update_action r rows) as [rs|]; [|done]. intros [= ->]. destruct IH as (b' & Hb & Hrest); [done|].
    exists b'. split; [by right|done].
Qed.

(** The seeded buttons work out of the box: with the default settings, pressing any of
    them with its default payload, whatever interaction id is given or generated, yields a
    packet that authenticates as a configured capsuleer and encodes. *)
Theorem seeded_buttons_encode r b uuid uuid' given :
  r ∈ BUTTONS →
  ∃ bytes, encode_udp_packet default_settings
             (build_gui_packet uuid uuid' (apply_defaults r b) (s_default_payload r) given) = Ok bytes.
Proof.
  intros Hr.
  assert (∃ pid, packet_principal_id (build_gui_packet uuid uuid' (apply_defaults r b) (s_default_payload r) given) = Ok pid
                 ∧ (pid = 1001 ∨ pid = 2002)%Z) as (pid & Hpid & Hcase).
  { unfold build_gui_packet. unfold BUTTONS in Hr.
    repeat (apply elem_of_cons in Hr as [->|Hr]; [destruct (truthy given); eexists; (split; [vm_compute; reflexivity|lia])|]).
    set_solver. }
  destruct Hcase as [-> | ->].
  - eexists. apply encode_udp_packet_Ok. exists 1001%Z, "seller", "seller-player-secret".
    split_and!; [exact Hpid|vm_compute; reflexivity|done|done|reflexivity].
  - eexists. apply encode_udp_packet_Ok. exists 2002%Z, "buyer", "buyer-player-secret".
    split_and!; [exact Hpid|vm_compute; reflexivity|done|done|reflexivity].
Qed.

(** * End to end *)

Definition cancel_button : button :=
  Button 3 WALLET_ORDERS "Cancel Order" "market_cancel_order" "" "" [("cancelled_by_capsuleer_id", PInt 7)] true 30.
Definition demo_data : pyval := PDict [("interaction_id", PStr "i-1")].

(** What the first attempt receives in the attack: a datagram from the gateway's address with the
    right metadata, any payload, and a signature that is not ASCII. *)
Record forgery (cfg : settings) (response : string) : Prop := {
  forged_bytes : utf8_decode response = Some response;
  forged_object : ∃ decoded auth p sig,
    loads response = Some (PDict decoded) ∧ dget0 decoded "schema_version" = PStr EDGE_RESPONSE_SCHEMA
    ∧ dget0 decoded "payload" = PDict p ∧ dget0 decoded "auth" = PDict auth
    ∧ dget0 auth "algorithm" = PStr HMAC_SHA256_ALGORITHM ∧ dget0 auth "key_id" = PStr (GAME_PACKET_HMAC_KEY_ID cfg)
    ∧ dget0 auth "signature" = PStr sig ∧ is_ascii_str sig = false }.

Lemma forgery_raises getaddrinfo cfg packet bytes net st response from :
  encode_udp_packet cfg packet = Ok bytes → net 1%Z = NetResponse response from →
  response_from_expected_endpoint getaddrinfo from (udp_address cfg) = Ok true → forgery cfg response →
  (send_gui_packet getaddrinfo cfg packet net st).1 = Raise TypeError.
Proof.
  intros He Hn Hf [Hu (decoded & auth & p & sig & Hl & Hs & Hp & Ha & Halg & Hk & Hsig & Hna)].
  unfold send_gui_packet. rewrite He.
  destruct (Z.to_nat (max_attempts cfg)) as [|n] eqn:Em; [unfold max_attempts in Em; lia|].
  cbn [send_attempts]. rewrite Hn. destruct (get_socket_Ok (NetResponse response from) st eq_refl) as [h Hsock].
  destruct (get_socket _ st) as [sock st1]. cbn [fst] in Hsock. subst sock. unfold accept_response.
  rewrite Hf. cbn [res_bind negb]. by rewrite (decode_non_ascii_signature cfg response decoded auth p sig).
Qed.

(** C36: A defect, end to end: for every button, request and configuration, if the first datagram
    that arrives from the gateway's address is a forgery with a non-ASCII signature, which takes
    no secret, the request fails with an unhandled [TypeError] and leaves the interaction it
    recorded PENDING for ever, where every other bad response gives 502 and FAILED. *)
Theorem forged_response_leaves_pending getaddrinfo cfg net st key uuid uuid' now b data input player_input given bytes response from rows :
  b_enabled b = true → py_get_or data "player_input" data = Ok input →
  py_update (b_default_payload b) (py_or input (PDict [])) = Ok player_input → py_get data "interaction_id" = Ok given →
  encode_udp_packet cfg (build_gui_packet uuid uuid' b player_input given) = Ok bytes →
  net 1%Z = NetResponse response from → response_from_expected_endpoint getaddrinfo from (udp_address cfg) = Ok true →
  forgery cfg response →
  ∃ row, press (fun packet => (send_gui_packet getaddrinfo cfg packet net st).1) key uuid uuid' now b data rows
         = (Raise TypeError, rows ++ [row]) ∧ i_status row = PENDING.
Proof.
  intros Hb Hi Hu Hg He Hn Hf Hr. unfold press, press_request. rewrite Hb, Hi. cbn [negb res_bind]. rewrite Hu. cbn [res_bind]. rewrite Hg.
  cbn [res_bind create_interaction]. rewrite (forgery_raises _ _ _ bytes _ _ response from) by done.
  eexists. split; reflexivity.
Qed.

(** * Witnesses *)

Definition accepted_send (packet : pyval) : res pyval := Ok (PDict [("status", PStr "queued")]).

Definition refused_send (packet : pyval) : res pyval := Raise (OSError OsTimeout 0 "timed out").
Definition demo_press (send : pyval → res pyval) : res response * list interaction :=
  press send 5 "u" "v" "now" cancel_button demo_data [].

Lemma press_recorded_witness :
  (∃ row, (demo_press accepted_send).2 = [row] ∧ i_status row = SENT)
  ∧ ∃ row, (demo_press refused_send).2 = [row] ∧ i_status row = FAILED.
Proof.
  split.
  - pose proof (press_recorded accepted_send 5 "u" "v" "now" cancel_button demo_data [] (demo_press accepted_send).1
      (demo_press accepted_send).2 eq_refl ltac:(constructor) ltac:(vm_compute; reflexivity)) as H.
    destruct (press_request "u" "v" cancel_button demo_data) as [[pi packet]|e] eqn:E; [|vm_compute in E; discriminate E].
    destruct H as (row & Hrow & _ & _ & H). exists row. split; [exact Hrow|]. cbn [accepted_send] in H.
    destruct H as [(_ & _ & H & _)|[(Hn & _)|(e & [[Hd _]|(p & Hp & _ & He)] & _)]]; [exact H| |discriminate Hd|].
    + destruct Hn. eexists. split; [reflexivity|]. split; [reflexivity|by right].
    + injection Hp as <-. vm_compute in He. discriminate He.
  - pose proof (press_recorded refused_send 5 "u" "v" "now" cancel_button demo_data [] (demo_press refused_send).1
      (demo_press refused_send).2 eq_refl ltac:(constructor) ltac:(vm_compute; reflexivity)) as H.
    destruct (press_request "u" "v" cancel_button demo_data) as [[pi packet]|e] eqn:E; [|vm_compute in E; discriminate E].
    destruct H as (row & Hrow & _ & _ & _ & H & _). by exists row.
Defined.

Lemma packet_names_interaction_witness : ∃ iid rest,
  py_get (build_gui_packet "u" "v" cancel_button [("quantity", PInt 2); ("idempotency_key", PStr " k ")] PNone)
    "interaction_id" = Ok (PStr iid) ∧ nonempty iid = true ∧ dget "quantity" rest = Some (PInt 2).
Proof.
  destruct (packet_names_interaction "u" "v" cancel_button [("quantity", PInt 2); ("idempotency_key", PStr " k ")] PNone)
    as (iid & rest & Hi & Hn & _ & Hk); [reflexivity|].
  exists iid, rest. split; [exact Hi|]. split; [exact Hn|]. rewrite Hk by done. reflexivity.
Defined.

Lemma seeded_buttons_encode_witness : ∃ bytes,
  encode_udp_packet default_settings
    (build_gui_packet "u" "v" (apply_defaults (SeedRow REGIONAL_MARKET "Buy" "market_buy_from_sell_order"
        "Buy quantity from an available sell order." (wiki "Trading") 20 buy_payload) cancel_button) buy_payload PNone)
  = Ok bytes.
Proof.
  apply (seeded_buttons_encode (SeedRow REGIONAL_MARKET "Buy" "market_buy_from_sell_order"
    "Buy quantity from an available sell order." (wiki "Trading") 20 buy_payload)). right. left.
Defined.

Lemma forged_response_leaves_pending_witness :
  ∃ row, press (fun packet => (send_gui_packet demo_dns demo_cfg packet (fun _ => NetResponse forged ("10.0.0.7", 26001%Z)) demo_state).1)
           5 "u-1" "u-2" "now" cancel_button demo_data [] = (Raise TypeError, [row]) ∧ i_status row = PENDING.
Proof.
  eapply (forged_response_leaves_pending demo_dns demo_cfg _ demo_state 5 "u-1" "u-2" "now" cancel_button demo_data).
  all: try (vm_compute; reflexivity).
  split; [vm_compute; reflexivity|]. do 4 eexists. split_and!; vm_compute; reflexivity.
Defined.
