(* ===== verification/SimSettings.v ===== *)
(** The configuration of the simulator ([eve_trade_simulator/settings.py]) as a function of the
    process environment, and the page that shows it ([views.index]). *)
From S2P Require Import Prelude PyStr PyFloat PyVal Regex Json Hashing PyPath PyText UdpClient UdpClientFacts Views ViewsFacts.

(** [os.environ.get(name, default)] *)
Abbreviation environ := (list (string * string)).

Definition SECRET_KEY (env : environ) : string := getenv env "SIMULATOR_SECRET_KEY" "local-eve-trade-simulator".
Definition DEBUG (env : environ) : bool := negb (bool_decide (getenv env "SIMULATOR_DEBUG" "1" = "0")).
Definition ALLOWED_HOSTS (env : environ) : list string :=
  split_char "," (getenv env "SIMULATOR_ALLOWED_HOSTS" "127.0.0.1,localhost,*").

(** [DATABASES["default"]["NAME"]]; [base] is [BASE_DIR]. *)
Definition DATABASE_NAME (base : path) (env : environ) : string :=
  getenv env "SIMULATOR_DB" (path_str (path_join base (path_of "db.sqlite3"))).

Definition PRINCIPAL_KEYS_DEFAULT : string := GAME_PACKET_PRINCIPAL_KEYS_JSON default_settings.

(** The settings the client reads.  A number that does not parse raises while the module is
    imported. *)
Definition settings_of_env (env : environ) : res settings :=
  let! port := py_int (PStr (getenv env "QUILKIN_UDP_PORT" "26001")) in
  let! timeout := py_float (PStr (getenv env "QUILKIN_UDP_TIMEOUT_SECONDS" "6.0")) in
  let! attempts := py_int (PStr (getenv env "QUILKIN_UDP_MAX_ATTEMPTS" "3")) in
  let! backoff := py_float (PStr (getenv env "QUILKIN_UDP_RETRY_BACKOFF_SECONDS" "0.1")) in
  let! pool := py_int (PStr (getenv env "QUILKIN_UDP_SESSION_POOL_SIZE" "4")) in
  Ok (Settings (getenv env "QUILKIN_UDP_HOST" "127.0.0.1") port timeout attempts backoff pool
        (getenv env "GAME_PACKET_HMAC_SECRET" "local-game-edge-secret") (getenv env "GAME_PACKET_HMAC_KEY_ID" "primary")
        (getenv env "GAME_PACKET_PRINCIPAL_KEYS_JSON" PRINCIPAL_KEYS_DEFAULT)).

(** [index]: the context of the template. *)
Definition index_context (cfg : settings) (rows : list button) : list button * string :=
  (index_buttons rows, QUILKIN_UDP_HOST cfg +:+ ":" +:+ str_of_Z (QUILKIN_UDP_PORT cfg)).

Example settings_without_environment : settings_of_env [] = Ok default_settings.
Proof. vm_compute. done. Qed.

(** * From the environment to a signed packet *)

Lemma py_int_str_errors s e : py_int (PStr s) = Raise e → ∃ m, e = ValueError m.
Proof. cbn. destruct (int_of_str s); [done|]. intros [= <-]. by eexists. Qed.
Lemma py_float_str_errors s e : py_float (PStr s) = Raise e → ∃ m, e = ValueError m.
Proof. cbn [py_float]. destruct (float_of_str s); [done|]. intros [= <-]. by eexists. Qed.

(** What signing reads of the configuration. *)
Lemma encode_keys_only cfg cfg' packet :
  GAME_PACKET_PRINCIPAL_KEYS_JSON cfg = GAME_PACKET_PRINCIPAL_KEYS_JSON cfg' → encode_udp_packet cfg packet = encode_udp_packet cfg' packet.
Proof. unfold encode_udp_packet, lookup_credential. by intros ->. Qed.

Lemma settings_of_env_cases env :
  (∃ cfg, settings_of_env env = Ok cfg
          ∧ GAME_PACKET_PRINCIPAL_KEYS_JSON cfg = getenv env "GAME_PACKET_PRINCIPAL_KEYS_JSON" PRINCIPAL_KEYS_DEFAULT)
  ∨ ∃ m, settings_of_env env = Raise (ValueError m).
Proof.
  unfold settings_of_env.
  destruct (py_int (PStr (getenv env "QUILKIN_UDP_PORT" "26001"))) as [port|e] eqn:E1;
    [|right; destruct (py_int_str_errors _ _ E1) as [m ->]; by exists m]. cbn [res_bind].
  destruct (py_float (PStr (getenv env "QUILKIN_UDP_TIMEOUT_SECONDS" "6.0"))) as [timeout|e] eqn:E2;
    [|right; destruct (py_float_str_errors _ _ E2) as [m ->]; by exists m]. cbn [res_bind].
  destruct (py_int (PStr (getenv env "QUILKIN_UDP_MAX_ATTEMPTS" "3"))) as [attempts|e] eqn:E3;
    [|right; destruct (py_int_str_errors _ _ E3) as [m ->]; by exists m]. cbn [res_bind].
  destruct (py_float (PStr (getenv env "QUILKIN_UDP_RETRY_BACKOFF_SECONDS" "0.1"))) as [backoff|e] eqn:E4;
    [|right; destruct (py_float_str_errors _ _ E4) as [m ->]; by exists m]. cbn [res_bind].
  destruct (py_int (PStr (getenv env "QUILKIN_UDP_SESSION_POOL_SIZE" "4"))) as [pool|e] eqn:E5;
    [|right; destruct (py_int_str_errors _ _ E5) as [m ->]; by exists m]. cbn [res_bind].
  left. eexists. split; reflexivity.
Qed.

(** The seeded buttons work out of the box.  Whatever the environment, the settings either
    load or the import stops with [ValueError] on a malformed number, never anything else; and
    when they load and the player keys are not replaced, pressing any seeded button with its
    default payload, whatever interaction id is given or generated, yields a packet that
    authenticates as a configured capsuleer and encodes. *)
Theorem seeded_buttons_encode_anywhere env :
  (∃ m, settings_of_env env = Raise (ValueError m))
  ∨ ∃ cfg, settings_of_env env = Ok cfg
      ∧ (dget "GAME_PACKET_PRINCIPAL_KEYS_JSON" env = None → ∀ r b uuid uuid' given, r ∈ BUTTONS →
           ∃ bytes, encode_udp_packet cfg (build_gui_packet uuid uuid' (apply_defaults r b) (s_default_payload r) given) = Ok bytes).
Proof.
  destruct (settings_of_env_cases env) as [(cfg & E & Hk)|[m E]]; [right|left; by exists m].
  exists cfg. split; [done|]. intros Hn r b uuid uuid' given Hr.
  rewrite (encode_keys_only cfg default_settings); [by apply seeded_buttons_encode|].
  rewrite Hk. unfold getenv. by rewrite Hn.
Qed.

Lemma seeded_buttons_encode_anywhere_witness : ∃ cfg bytes,
  settings_of_env [("QUILKIN_UDP_PORT", " 7_000 "); ("QUILKIN_UDP_TIMEOUT_SECONDS", "1e1")] = Ok cfg ∧ QUILKIN_UDP_PORT cfg = 7000%Z
  ∧ encode_udp_packet cfg (build_gui_packet "u" "v" (apply_defaults (SeedRow REGIONAL_MARKET "Buy" "market_buy_from_sell_order"
      "Buy quantity from an available sell order." (wiki "Trading") 20 buy_payload) cancel_button) buy_payload PNone) = Ok bytes.
Proof.
  destruct (seeded_buttons_encode_anywhere [("QUILKIN_UDP_PORT", " 7_000 "); ("QUILKIN_UDP_TIMEOUT_SECONDS", "1e1")])
    as [[m E]|(cfg & E & H)]; [vm_compute in E; discriminate E|].
  destruct (H eq_refl (SeedRow REGIONAL_MARKET "Buy" "market_buy_from_sell_order"
      "Buy quantity from an available sell order." (wiki "Trading") 20 buy_payload) cancel_button "u" "v" PNone) as [bytes Hb].
  { right. left. }
  exists cfg, bytes. split; [exact E|]. split; [|exact Hb]. vm_compute in E. injection E as <-. reflexivity.
Defined.
