(* ===== verification/Provenance.v ===== *)
(** Repository and runner provenance ([observability/ci/provenance.py]): what identifies the
    source a run saw, the start/finish envelope, and the collection of that identity from git
    and the file system. *)
From S2P Require Import Prelude PyStr PyFloat PyVal Regex Hashing PyPath PyText.

Definition PROVENANCE_SCHEMA_VERSION := "o11y.run-provenance.v1".
Definition PROVENANCE_ENVELOPE_SCHEMA_VERSION := "o11y.run-provenance-envelope.v1".
Definition RUNNER_VERSION := "o11y-trust-model-2026-07-09".
Definition SOURCE_PATHSPEC : list string := ["--"; "."; ":(exclude).o11y/runs/**"; ":(exclude).o11y/index.json"].

(** [str(a or b or "")] over fields of a dictionary. *)
Definition str_or (d : dict) (k : string) (dflt : pyval) : string := py_str (py_or (dget0 d k) dflt).

(** * Identity *)

Definition optional_bool (v : pyval) : pyval := match v with PNone => PNone | _ => PBool (truthy v) end.

(** A provenance that is [None] or not there is [{}]. *)
Definition or_empty (v : pyval) : pyval := py_or v (PDict []).
Definition as_dict (v : pyval) : res dict := match v with PDict d => Ok d | _ => Raise AttributeError end.

(** The identity of a dictionary of provenance fields. *)
Definition identity_sha (d : dict) : string :=
  py_str (py_or (dget0 d "full_head_sha") (py_or (dget0 d "github_sha") (PStr ""))).
Definition identity_dirty (d : dict) : pyval := optional_bool (dget0 d "worktree_dirty").
Definition identity_fp (d : dict) : string := str_or d "worktree_diff_fingerprint_if_dirty" (PStr "").
Definition repository_identity (d : dict) : dict :=
  [("full_head_sha", PStr (identity_sha d)); ("worktree_dirty", identity_dirty d);
   ("worktree_diff_fingerprint_if_dirty", PStr (identity_fp d))].

(** [repository_identity(a) == repository_identity(b)] *)
Definition identity_eqb (a b : dict) : bool := py_eqb (PDict (repository_identity a)) (PDict (repository_identity b)).

Definition is_empty (d : dict) : bool := match d with [] => true | _ => false end.

Definition source_stability_from_provenance (start finish : dict) : string :=
  if is_empty start || is_empty finish then "UNKNOWN"
  else if identity_eqb start finish then "UNCHANGED" else "CHANGED".

Definition build_provenance_envelope (run_id : string) (start finish : dict)
    (source_stability run_status : string) : dict :=
  [("schema_version", PStr PROVENANCE_ENVELOPE_SCHEMA_VERSION); ("run_id", PStr run_id);
   ("run_status", PStr run_status); ("run_started_at", dgetd start "run_started_at" (PStr ""));
   ("run_finished_at", dgetd finish "run_finished_at" (PStr "")); ("source_stability", PStr source_stability);
   ("start_provenance", PDict start); ("finish_provenance", PDict finish);
   ("start_repository_identity", PDict (repository_identity start));
   ("finish_repository_identity", PDict (if is_empty finish then [] else repository_identity finish))].

Record split : Type := Split { sp_start : dict; sp_finish : dict; sp_stability : string; sp_status : string }.

Definition dict_or_empty (v : pyval) : dict := match v with PDict d => d | _ => [] end.

Definition split_provenance_envelope (value : dict) : split :=
  if dhas "start_provenance" value || py_eqb (dget0 value "schema_version") (PStr PROVENANCE_ENVELOPE_SCHEMA_VERSION) then
    let start := dict_or_empty (dget0 value "start_provenance") in
    let finish := dict_or_empty (dget0 value "finish_provenance") in
    let run_status := py_str (py_or (dget0 value "run_status") (py_or (dget0 finish "run_status")
                        (py_or (dget0 start "run_status") (PStr "UNKNOWN")))) in
    let source_stability := py_str (py_or (dget0 value "source_stability")
                              (PStr (source_stability_from_provenance start finish))) in
    Split start finish source_stability run_status
  else
    let run_status := str_or value "run_status" (PStr "UNKNOWN") in
    Split value value (if bool_decide (run_status = "SOURCE_CHANGED_DURING_RUN") then "CHANGED" else "UNCHANGED") run_status.

(** * Collection *)

Section collect.
(** The processes the collector runs, the files under the repository and the environment:
    [git args] is [subprocess.run(["git", *args])], [read_file p] the bytes of a file, [None] when it
    is not a file and [Some None] when it cannot be read. *)
Context (git : list string → proc) (read_file : string → option (option string)) (env : list (string * string)).

Definition git_bytes (args : list string) : string :=
  match git args with
  | Completed rc out => if (rc =? 0)%Z then out else "<error:" +:+ str_of_Z rc +:+ "> " +:+ out
  | ProcError cls => "<unavailable:" +:+ cls +:+ ">"
  end.
Definition git_text (args : list string) : string := strip (decode_replace (git_bytes args)).

Definition nul : ascii := chr 0.
Definition untracked_files : list path :=
  let output := git_text (["ls-files"; "--others"; "--exclude-standard"; "-z"] ++ SOURCE_PATHSPEC) in
  if negb (nonempty output) || startswith "<" output then []
  else map path_of (filterb nonempty (split_char nul output)).

Definition fingerprint_commands : list (list string) :=
  [["status"; "--porcelain=v1"; "-z"] ++ SOURCE_PATHSPEC;
   ["diff"; "--binary"; "--full-index"] ++ SOURCE_PATHSPEC;
   ["diff"; "--cached"; "--binary"; "--full-index"] ++ SOURCE_PATHSPEC].

(** The bytes fed to the digest, in order. *)
Definition fingerprint_input : string :=
  join "" (map (fun args => "git " +:+ join " " args +:+ str1 nul +:+ git_bytes args +:+ str1 nul) fingerprint_commands)
  +:+ join "" (map (fun p =>
        match read_file (path_str p) with
        | None => ""
        | Some (Some content) => path_str p +:+ str1 nul +:+ sha256_hex content +:+ str1 nul
        | Some None => path_str p +:+ str1 nul +:+ "<unreadable>" +:+ str1 nul
        end) untracked_files).
Definition worktree_fingerprint : string := sha256_hex fingerprint_input.

Definition collect_git_state : dict :=
  let full_head_sha := git_text ["rev-parse"; "HEAD"] in
  let status := git_text (["status"; "--porcelain=v1"] ++ SOURCE_PATHSPEC) in
  let dirty := nonempty (strip status) && negb (startswith "<" status) in
  let branch := git_text ["branch"; "--show-current"] in
  [("full_head_sha", PStr full_head_sha);
   ("short_head_sha", PStr (if nonempty full_head_sha && negb (startswith "<" full_head_sha) then utake 12 full_head_sha else ""));
   ("branch", PStr (if nonempty branch then branch else getenv env "GITHUB_REF_NAME" ""));
   ("commit_subject", PStr (git_text ["log"; "-1"; "--format=%s"; "HEAD"]));
   ("worktree_dirty", PBool dirty);
   ("worktree_status", PList (if nonempty status && negb (startswith "<" status) then map PStr (splitlines status) else []));
   ("worktree_diff_fingerprint_if_dirty", PStr (if dirty then worktree_fingerprint else ""));
   ("remote_origin", PStr (git_text ["remote"; "get-url"; "origin"]))].

(** [hash_files]: the relative name and content of every readable file. *)
Definition hash_files (files : list (option string * option string)) : string :=
  sha256_hex (join "" (map (fun '(relative, content) =>
    match relative with
    | None => ""                                        (* not under the root: skipped *)
    | Some name =>
        match content with
        | Some c => name +:+ str1 nul +:+ c +:+ str1 nul
        | None => name +:+ str1 nul                     (* the name was already hashed *)
        end
    end) files)).

(** [_capture]: the version a tool reports. *)
Definition capture (available : bool) (run : proc) : string :=
  if negb available then "<unavailable>"
  else match run with
       | Completed rc out => if (rc =? 0)%Z then strip (decode_output out)
                             else "<error:" +:+ str_of_Z rc +:+ "> " +:+ strip (decode_output out)
       | ProcError cls => "<unavailable:" +:+ cls +:+ ">"
       end.

Definition version_commands (executable : string) : list (string * list string) :=
  [("python", [executable; "--version"]); ("git", ["git"; "--version"]); ("go", ["go"; "version"]);
   ("rustc", ["rustc"; "--version"]); ("cargo", ["cargo"; "--version"]); ("encore", ["encore"; "version"]);
   ("buf", ["buf"; "--version"]); ("terraform", ["terraform"; "version"; "-json"]);
   ("docker", ["docker"; "version"; "--format"; "{{json .}}"]);
   ("kubectl", ["kubectl"; "version"; "--client=true"; "-o"; "json"])].

(** [available] is [shutil.which(name) or Path(name).exists()], [run_tool] the process. *)
Definition collect_tool_versions (available : string → bool) (run_tool : list string → proc)
    (executable platform os_name machine : string) : dict :=
  map (fun c => (c.1, PStr (capture (available (List.hd "" c.2)) (run_tool c.2)))) (version_commands executable)
  ++ [("os", PStr platform); ("os.name", PStr os_name); ("architecture", PStr machine)].

(** The digest of the runner's own sources; [None] when the directory is not there. *)
Definition hash_observability_code (files : option (list (option string * option string))) : string :=
  match files with None => "<unavailable>" | Some l => hash_files l end.

Definition collect_run_provenance (root : string) (run_id run_started_at run_finished_at status : string)
    (commands_executed : list pyval) (code_hash os_platform machine : string) (tool_versions : dict) : dict :=
  let git := collect_git_state in
  let ci_or_local := if nonempty (getenv env "GITHUB_ACTIONS" "") then "ci" else "local" in
  let obs := getenv env "OBSERVABILITY_ENV" "" in
  [("schema_version", PStr PROVENANCE_SCHEMA_VERSION); ("run_id", PStr run_id);
   ("run_started_at", PStr run_started_at); ("run_finished_at", PStr run_finished_at); ("run_status", PStr status);
   ("repository_root", PStr root); ("branch", dget0 git "branch"); ("full_head_sha", dget0 git "full_head_sha");
   ("short_head_sha", dget0 git "short_head_sha"); ("commit_subject", dget0 git "commit_subject");
   ("worktree_dirty", dget0 git "worktree_dirty");
   ("worktree_diff_fingerprint_if_dirty", dget0 git "worktree_diff_fingerprint_if_dirty");
   ("runner_version", PStr RUNNER_VERSION); ("o11y_code_version_or_sha", PStr code_hash);
   ("operating_system", PStr os_platform); ("architecture", PStr machine);
   ("execution_environment",
     PStr (if nonempty obs then obs else if bool_decide (ci_or_local = "ci") then "github-actions" else "local"));
   ("ci_or_local", PStr ci_or_local);
   ("workflow_run_id_if_available", PStr (getenv env "GITHUB_RUN_ID" ""));
   ("workflow_job_id_if_available", PStr (getenv env "GITHUB_JOB" ""));
   ("attempt_number_if_available", PStr (getenv env "GITHUB_RUN_ATTEMPT" ""));
   ("github_sha_if_available", PStr (getenv env "GITHUB_SHA" ""));
   ("github_ref_if_available", PStr (getenv env "GITHUB_REF" ""));
   ("commands_executed", PList commands_executed); ("tool_versions", PDict tool_versions)].
End collect.

(** * Facts *)

Lemma optional_bool_cases v : optional_bool v = PNone ∨ ∃ b, optional_bool v = PBool b.
Proof. destruct v; simpl; eauto. Qed.

Lemma py_eqb_opt_bool a b : py_eqb (optional_bool a) (optional_bool b) = bool_decide (optional_bool a = optional_bool b).
Proof.
  by destruct (optional_bool_cases a) as [->|[[] ->]], (optional_bool_cases b) as [->|[[] ->]].
Qed.

Lemma identity_eqb_spec a b :
  identity_eqb a b = true ↔
  identity_sha a = identity_sha b ∧ identity_dirty a = identity_dirty b ∧ identity_fp a = identity_fp b.
Proof.
  unfold identity_eqb, repository_identity, identity_dirty. simpl py_eqb. unfold dict_sub_eqb. simpl dget.
  repeat (rewrite decide_False by done || rewrite decide_True by done).
  cbn. change (py_eqb (PStr ?x) (PStr ?y)) with (bool_decide (x = y)).
  rewrite py_eqb_opt_bool. repeat case_bool_decide; simpl; naive_solver.
Qed.

(** Which branch of [split_provenance_envelope] an envelope takes. *)
Lemma split_build run_id start finish stability status :
  nonempty stability = true → nonempty status = true →
  split_provenance_envelope (build_provenance_envelope run_id start finish stability status)
  = Split start finish stability status.
Proof. intros Hs Ht. unfold split_provenance_envelope. simpl. destruct stability, status; done. Qed.
