(* ===== verification/Freshness.v ===== *)
(** Freshness of evidence ([observability/ci/freshness.py]): does the source a run saw equal
    the current repository? *)
From S2P Require Import Prelude PyStr PyFloat PyVal Regex Hashing PyPath Provenance.

Definition EXACT := "EXACT".
Definition ANCESTOR := "ANCESTOR".
Definition DIVERGED := "DIVERGED".
Definition DIRTY_WORKTREE_MISMATCH := "DIRTY_WORKTREE_MISMATCH".
Definition SOURCE_CHANGED := "SOURCE_CHANGED".
Definition UNKNOWN := "UNKNOWN".
Definition AUTHORITATIVE_RUN_STATUSES : list string := ["COMPLETE"].

Record Freshness : Type := MkFreshness {
  fr_state : string;
  fr_report_full_head_sha : string;
  fr_current_full_head_sha : string;
  fr_report_dirty : pyval;
  fr_current_dirty : pyval;
  fr_reason : string;
  fr_source_stability : string;
  fr_run_status : string
}.

Definition freshness_to_dict (f : Freshness) : dict :=
  [("state", PStr (fr_state f)); ("report_full_head_sha", PStr (fr_report_full_head_sha f));
   ("current_full_head_sha", PStr (fr_current_full_head_sha f)); ("report_dirty", fr_report_dirty f);
   ("current_dirty", fr_current_dirty f); ("reason", PStr (fr_reason f));
   ("source_stability", PStr (fr_source_stability f)); ("run_status", PStr (fr_run_status f))].

Section freshness.
Context (git : list string → proc) (read_file : string → option (option string)) (env : list (string * string)).

Definition is_ancestor (ancestor descendant : string) : bool :=
  match git ["merge-base"; "--is-ancestor"; ancestor; descendant] with
  | Completed rc _ => (rc =? 0)%Z
  | ProcError _ => false
  end.

Definition bad_sha (s : string) : bool := negb (nonempty s) || startswith "<" s.
Definition authoritative (run_status : string) : bool := bool_decide (run_status ∈ AUTHORITATIVE_RUN_STATUSES).

Definition classify_freshness (report_provenance current_state : dict) : Freshness :=
  if is_empty report_provenance then MkFreshness UNKNOWN "" "" PNone PNone "missing run provenance" "UNKNOWN" "UNKNOWN"
  else
    let current := if is_empty current_state then collect_git_state git read_file env else current_state in
    let s := split_provenance_envelope report_provenance in
    let report_sha := identity_sha (sp_start s) in
    let current_sha := str_or current "full_head_sha" (PStr "") in
    let report_dirty := identity_dirty (sp_start s) in
    let current_dirty := identity_dirty current in
    let out state reason :=
      MkFreshness state report_sha current_sha report_dirty current_dirty reason (sp_stability s) (sp_status s) in
    if bad_sha report_sha || bad_sha current_sha then out UNKNOWN "missing or invalid SHA"
    else if bool_decide (sp_stability s = "CHANGED") then
      out SOURCE_CHANGED "run source identity changed between start and finish; evidence cannot be exact for either revision"
    else if negb (bool_decide (sp_stability s = "UNCHANGED")) then
      out UNKNOWN "run source stability is unknown; evidence cannot be exact"
    else if negb (bool_decide (sp_status s = "UNKNOWN")) && negb (authoritative (sp_status s)) then
      out UNKNOWN ("run status " +:+ sp_status s +:+ " is not authoritative current evidence")
    else if bool_decide (report_sha = current_sha) then
      if negb (py_eqb report_dirty current_dirty) then
        out DIRTY_WORKTREE_MISMATCH "same commit SHA but dirty-worktree state differs"
      else if truthy report_dirty && negb (bool_decide (identity_fp (sp_start s) = identity_fp current)) then
        out DIRTY_WORKTREE_MISMATCH "same commit SHA but dirty-worktree fingerprint differs"
      else out EXACT "run provenance matches current repository state and source was stable during the run"
    else if is_ancestor report_sha current_sha then out ANCESTOR "run SHA is an ancestor of current HEAD"
    else if is_ancestor current_sha report_sha then
      out DIVERGED "run SHA is newer than or on another lineage from current HEAD"
    else out DIVERGED "run SHA is not on the current HEAD ancestry".
End freshness.

Definition is_authoritative_current_candidate (record current_state : dict) : bool :=
  let run_status := py_str (dgetd record "run_status" (PStr "")) in
  if negb (authoritative run_status) then false
  else
    let source_stability := py_str (py_or (dget0 record "source_stability")
                              (PStr (if bool_decide (run_status = "COMPLETE") then "UNCHANGED" else "UNKNOWN"))) in
    if negb (bool_decide (source_stability = "UNCHANGED")) then false
    else
      let sha := py_str (py_or (dget0 record "start_full_head_sha") (py_or (dget0 record "full_head_sha") (PStr ""))) in
      let dirty := truthy (dgetd record "start_worktree_dirty" (dgetd record "worktree_dirty" (PBool false))) in
      let fp := py_str (py_or (dget0 record "start_worktree_diff_fingerprint_if_dirty")
                  (py_or (dget0 record "worktree_diff_fingerprint_if_dirty") (PStr ""))) in
      if negb (bool_decide (sha = identity_sha current_state)) then false
      else if negb (py_eqb (PBool dirty) (identity_dirty current_state)) then false
      else if dirty && negb (bool_decide (fp = identity_fp current_state)) then false
      else true.

(** * Facts *)

(** The conditions under which evidence counts as exact, in one place. *)
Definition exact_evidence (report current : dict) : Prop :=
  let s := split_provenance_envelope report in
  bad_sha (identity_sha (sp_start s)) = false
  ∧ identity_sha (sp_start s) = str_or current "full_head_sha" (PStr "")
  ∧ sp_stability s = "UNCHANGED" ∧ (sp_status s = "UNKNOWN" ∨ sp_status s = "COMPLETE")
  ∧ identity_dirty (sp_start s) = identity_dirty current
  ∧ (truthy (identity_dirty (sp_start s)) = true → identity_fp (sp_start s) = identity_fp current).

Lemma authoritative_spec s : authoritative s = true ↔ s = "COMPLETE".
Proof. unfold authoritative. rewrite bool_decide_eq_true. set_solver. Qed.

Lemma classify_exact git read_file env report current :
  current ≠ [] →
  fr_state (classify_freshness git read_file env report current) = EXACT ↔ report ≠ [] ∧ exact_evidence report current.
Proof.
  intros Hc. unfold classify_freshness, exact_evidence. destruct report as [|r0 report0]; [split; [discriminate|by intros [? _]]|].
  destruct current as [|c0 current0]; [done|]. simpl is_empty. cbv zeta. cbv iota.
  generalize (split_provenance_envelope (r0 :: report0)). intros s. generalize (c0 :: current0). intros current.
  unfold identity_dirty. rewrite py_eqb_opt_bool.
  destruct (bad_sha (identity_sha (sp_start s))) eqn:Hb1; [simpl; split; [discriminate|naive_solver]|].
  destruct (bad_sha (str_or current "full_head_sha" (PStr ""))) eqn:Hb2; simpl.
  { split; [discriminate|]. intros (_ & _ & He & _). congruence. }
  destruct (bool_decide (sp_stability s = "CHANGED")) eqn:Hch;
    [apply bool_decide_eq_true in Hch; split; [discriminate|intros (_ & _ & _ & Hu & _); congruence]|].
  destruct (decide (sp_stability s = "UNCHANGED")) as [Hun|Hun];
    [rewrite (bool_decide_eq_true_2 _ Hun)|rewrite (bool_decide_eq_false_2 _ Hun)]; cbn [negb];
    [|split; [discriminate|naive_solver]].
  destruct (negb _ && negb _) eqn:Hst.
  { apply Bool.andb_true_iff in Hst as [H1%negb_true_iff H2%negb_true_iff]. split; [discriminate|].
    intros (_ & _ & _ & _ & [Hs|Hs] & _); [by rewrite bool_decide_eq_true_2 in H1|].
    by rewrite (proj2 (authoritative_spec _) Hs) in H2. }
  assert (sp_status s = "UNKNOWN" ∨ sp_status s = "COMPLETE") as Hstat.
  { apply Bool.andb_false_iff in Hst as [H1%negb_false_iff|H2%negb_false_iff];
      [left; by apply bool_decide_eq_true in H1|right; by apply authoritative_spec]. }
  destruct (decide (identity_sha (sp_start s) = str_or current "full_head_sha" (PStr ""))) as [Hsha|Hsha];
    [rewrite (bool_decide_eq_true_2 _ Hsha)|rewrite (bool_decide_eq_false_2 _ Hsha)].
  2: { assert (∀ b (x y : Freshness), fr_state x ≠ EXACT → fr_state y ≠ EXACT → fr_state (if b : bool then x else y) ≠ EXACT)
         as Hif by (by intros []). split; [|naive_solver].
       intros H. exfalso. revert H. apply Hif; [by intros [=]|]. apply Hif; by intros [=]. }
  destruct (decide (optional_bool (dget0 (sp_start s) "worktree_dirty") = optional_bool (dget0 current "worktree_dirty")))
    as [Hd|Hd]; [rewrite (bool_decide_eq_true_2 _ Hd)|rewrite (bool_decide_eq_false_2 _ Hd)]; cbn [negb];
    [|split; [discriminate|naive_solver]].
  destruct (truthy (optional_bool (dget0 (sp_start s) "worktree_dirty"))) eqn:Ht; simpl.
  - destruct (decide (identity_fp (sp_start s) = identity_fp current)) as [Hfp|Hfp];
      [rewrite (bool_decide_eq_true_2 _ Hfp)|rewrite (bool_decide_eq_false_2 _ Hfp)]; simpl; [split; [intros _; by split_and!|done]|split; [discriminate|naive_solver]].
  - split; [intros _; by split_and!|done].
Qed.

(** C12: Evidence is called EXACT exactly when it is: the run's start commit is a valid SHA
    equal to the current HEAD, the source did not change during the run, the run is complete
    (or an old artifact without a status), and the work trees are both clean or dirty with
    the same fingerprint. *)
Theorem classify_exact_iff git read_file env report current :
  current ≠ [] →
  fr_state (classify_freshness git read_file env report current) = EXACT ↔ report ≠ [] ∧ exact_evidence report current.
Proof. apply classify_exact. Qed.

(** Every run is classified, and only by what git says about the two commits: stable,
    authoritative evidence from a different commit is ANCESTOR when git reports the run's
    commit as an ancestor of HEAD and DIVERGED otherwise, also when git fails. *)
Theorem classify_other_commit git read_file env report current :
  current ≠ [] → report ≠ [] →
  let s := split_provenance_envelope report in
  let current_sha := str_or current "full_head_sha" (PStr "") in
  bad_sha (identity_sha (sp_start s)) = false → bad_sha current_sha = false →
  sp_stability s = "UNCHANGED" → sp_status s = "COMPLETE" → identity_sha (sp_start s) ≠ current_sha →
  fr_state (classify_freshness git read_file env report current) =
  if is_ancestor git (identity_sha (sp_start s)) current_sha then ANCESTOR else DIVERGED.
Proof.
  intros Hc Hr s cs H1 H2 H3 H4 H5. unfold classify_freshness.
  destruct report as [|r0 report0]; [done|]. destruct current as [|c0 current0]; [done|]. simpl is_empty. cbv zeta iota.
  change (split_provenance_envelope (r0 :: report0)) with s. fold cs.
  rewrite H1, H2, H3, H4, (bool_decide_eq_false_2 _ H5). simpl. unfold authoritative.
  destruct (is_ancestor git (identity_sha (sp_start s)) cs); [done|]. by destruct (is_ancestor git cs _).
Qed.

(** * Witnesses *)

Definition demo_git (args : list string) : proc := if bool_decide (args = ["merge-base"; "--is-ancestor"; "a1"; "b2"]) then Completed 0 "" else Completed 1 "".
Definition demo_files (p : string) : option (option string) := None.
Definition demo_start (sha : string) : dict := [("full_head_sha", PStr sha); ("worktree_dirty", PBool false)].
Definition demo_report : dict := build_provenance_envelope "r1" (demo_start "a1") (demo_start "a1") "UNCHANGED" "COMPLETE".

Lemma classify_exact_iff_witness :
  fr_state (classify_freshness demo_git demo_files [] demo_report (demo_start "a1")) = EXACT.
Proof.
  apply (classify_exact_iff demo_git demo_files [] demo_report (demo_start "a1")); [done|].
  split; [done|]. split_and!; try reflexivity. by right.
Defined.

Lemma classify_other_commit_witness :
  fr_state (classify_freshness demo_git demo_files [] demo_report (demo_start "b2")) = ANCESTOR.
Proof.
  rewrite (classify_other_commit demo_git demo_files [] demo_report (demo_start "b2")); try done.
Defined.
