(* ===== verification/RunIndex.v ===== *)
(** The run index and the latest-run pointer ([observability/ci/run_index.py]).  The files
    are values of a small store; [index.json] holds the text [json.dumps(indent=2)] wrote. *)
From S2P Require Import Prelude PyStr PyFloat PyVal Regex Json JsonFacts JsonIndent Hashing PyPath PyText Provenance Freshness.

Definition INDEX_SCHEMA_VERSION := "o11y.run-index.v1".

(** What the module touches under [.o11y]. *)
Record store : Type := Store {
  st_index : file;               (* .o11y/index.json *)
  st_pointer : file;             (* .o11y/runs/latest-local.txt *)
  st_runs : list string          (* names of the directories under .o11y/runs *)
}.

Definition default_index : dict :=
  [("schema_version", PStr INDEX_SCHEMA_VERSION); ("updated_at", PStr ""); ("latest_started_run_id", PStr "");
   ("latest_completed_run_id", PStr ""); ("runs", PList [])].

Definition setdefault (k : string) (v : pyval) (d : dict) : dict := if dhas k d then d else dset k v d.

(** [record.get(key, default)] on an entry of the index, which may be any JSON value. *)
Definition field (k : string) (dflt item : pyval) : res pyval := py_get_or item k dflt.

(** The sort key [(str(run_started_at), str(run_id))]. *)
Definition run_key (item : pyval) : string * string :=
  match item with
  | PDict d => (py_str (dgetd d "run_started_at" (PStr "")), py_str (dgetd d "run_id" (PStr "")))
  | _ => ("", "")
  end.
Definition key_pair_leb (a b : string * string) : bool :=
  if bool_decide (a.1 = b.1) then str_leb a.2 b.2 else str_leb a.1 b.1.
Definition run_leb (a b : pyval) : bool := key_pair_leb (run_key a) (run_key b).

(** [records.sort(key=...)]: computing the key of an entry that is not an object raises. *)
Definition sort_runs (items : list pyval) : res (list pyval) :=
  let! _ := res_mapM as_dict items in Ok (sort_by run_leb items).

Section index.
(** The decoder's message for a malformed text, the repository root, and the resolution of
    symbolic links. *)
Context (json_error : string → string) (root : path) (resolve : path → path).

Definition load_index (s : store) : res (dict * list string) :=
  match st_index s with
  | Missing => Ok (default_index, [])
  | Unreadable cls msg => Ok (default_index, ["malformed index ignored: " +:+ cls +:+ ": " +:+ msg])
  | Content bytes =>
      match utf8_decode bytes with
      | None => Raise (ValueError "UnicodeDecodeError")
      | Some text =>
      match loads text with
      | None => Ok (default_index, ["malformed index ignored: JSONDecodeError: " +:+ json_error text])
      | Some value =>
          match value with
          | PDict d =>
              match dget0 d "runs" with
              | PList _ =>
                  Ok (setdefault "latest_completed_run_id" (PStr "") (setdefault "latest_started_run_id" (PStr "")
                        (setdefault "updated_at" (PStr "") (setdefault "schema_version" (PStr INDEX_SCHEMA_VERSION) d))), [])
              | _ => Ok (default_index, ["malformed index ignored: missing runs list"])
              end
          | _ => Ok (default_index, ["malformed index ignored: missing runs list"])
          end
      end
      end
  end.

Definition default_stability (run_status : string) : string :=
  if bool_decide (run_status = "COMPLETE") then "UNCHANGED"
  else if bool_decide (run_status = "SOURCE_CHANGED_DURING_RUN") then "CHANGED" else "UNKNOWN".

(** A portable path of the run, relative to the repository. *)
Definition normalize_run_path (run_id : string) (record : dict) : string :=
  let fallback := ".o11y/runs/" +:+ run_id in
  let run_path := replace_char ch_bs "/" (str_or record "run_path" (PStr fallback)) in
  if p_abs (path_of run_path) then
    match relative_to (resolve root) (resolve (path_of run_path)) with
    | Some p => path_str p
    | None => fallback
    end
  else run_path.

Definition normalize_record (record : dict) : res dict :=
  let! id := py_item (PDict record) "run_id" in
  let run_id := py_str id in
  let s k := PStr (py_str (dgetd record k (PStr ""))) in
  let s2 k k' := PStr (py_str (py_or (dget0 record k) (dgetd record k' (PStr "")))) in
  let b k := PBool (truthy (dgetd record k (PBool false))) in
  let run_status := py_str (dgetd record "run_status" (PStr "UNKNOWN")) in
  let! exit_code := py_int (py_or (dgetd record "exit_code" (PInt 0)) (PInt 0)) in
  Ok [("run_id", PStr run_id); ("run_path", PStr (normalize_run_path run_id record)); ("run_status", PStr run_status);
      ("run_started_at", s "run_started_at"); ("run_finished_at", s "run_finished_at");
      ("full_head_sha", s "full_head_sha"); ("short_head_sha", s "short_head_sha"); ("branch", s "branch");
      ("worktree_dirty", b "worktree_dirty");
      ("worktree_diff_fingerprint_if_dirty", s "worktree_diff_fingerprint_if_dirty");
      ("start_full_head_sha", s2 "start_full_head_sha" "full_head_sha");
      ("start_short_head_sha", s2 "start_short_head_sha" "short_head_sha");
      ("start_branch", s2 "start_branch" "branch");
      ("start_worktree_dirty", PBool (truthy (dgetd record "start_worktree_dirty" (dgetd record "worktree_dirty" (PBool false)))));
      ("start_worktree_diff_fingerprint_if_dirty",
         s2 "start_worktree_diff_fingerprint_if_dirty" "worktree_diff_fingerprint_if_dirty");
      ("finish_full_head_sha", s "finish_full_head_sha"); ("finish_short_head_sha", s "finish_short_head_sha");
      ("finish_branch", s "finish_branch"); ("finish_worktree_dirty", b "finish_worktree_dirty");
      ("finish_worktree_diff_fingerprint_if_dirty", s "finish_worktree_diff_fingerprint_if_dirty");
      ("source_stability", PStr (py_str (dgetd record "source_stability" (PStr (default_stability run_status)))));
      ("ci_or_local", s "ci_or_local"); ("command", s "command"); ("exit_code", PInt exit_code);
      ("diagnosis_path", s "diagnosis_path"); ("report_path", s "report_path")].

Definition record_from_provenance (provenance : dict) (command : string) (exit_code : Z)
    (diagnosis_path report_path : string) : res dict :=
  let sp := split_provenance_envelope provenance in
  let start := sp_start sp in
  let finish := sp_finish sp in
  let run_id := py_str (py_or (dget0 provenance "run_id") (py_or (dget0 start "run_id") (py_or (dget0 finish "run_id") (PStr "")))) in
  let short d := py_or (dgetd d "short_head_sha" (PStr "")) (PStr (utake 12 (identity_sha d))) in
  normalize_record
    [("run_id", PStr run_id); ("run_path", PStr (".o11y/runs/" +:+ run_id)); ("run_status", PStr (sp_status sp));
     ("run_started_at", py_or (dget0 provenance "run_started_at") (dgetd start "run_started_at" (PStr "")));
     ("run_finished_at", py_or (dget0 provenance "run_finished_at") (dgetd finish "run_finished_at" (PStr "")));
     ("full_head_sha", PStr (identity_sha start)); ("short_head_sha", short start); ("branch", dgetd start "branch" (PStr ""));
     ("worktree_dirty", identity_dirty start); ("worktree_diff_fingerprint_if_dirty", PStr (identity_fp start));
     ("start_full_head_sha", PStr (identity_sha start)); ("start_short_head_sha", short start);
     ("start_branch", dgetd start "branch" (PStr "")); ("start_worktree_dirty", identity_dirty start);
     ("start_worktree_diff_fingerprint_if_dirty", PStr (identity_fp start));
     ("finish_full_head_sha", PStr (identity_sha finish)); ("finish_short_head_sha", short finish);
     ("finish_branch", dgetd finish "branch" (PStr "")); ("finish_worktree_dirty", identity_dirty finish);
     ("finish_worktree_diff_fingerprint_if_dirty", PStr (identity_fp finish)); ("source_stability", PStr (sp_stability sp));
     ("ci_or_local", py_or (dget0 start "ci_or_local") (dgetd finish "ci_or_local" (PStr "")));
     ("command", PStr command); ("exit_code", PInt exit_code); ("diagnosis_path", PStr diagnosis_path);
     ("report_path", PStr report_path)].

(** [_latest_completed]: the filter's condition on one entry. *)
Definition is_completed (item : pyval) : res bool :=
  let! status := field "run_status" PNone item in
  let! ok := in_set status AUTHORITATIVE_RUN_STATUSES in
  if ok then let! st := field "source_stability" PNone item in Ok (py_eqb st (PStr "UNCHANGED")) else Ok false.

Fixpoint res_filter {A} (f : A → res bool) (l : list A) : res (list A) :=
  match l with
  | [] => Ok []
  | x :: l' => let! b := f x in let! r := res_filter f l' in Ok (if b : bool then x :: r else r)
  end.

Definition last_id (items : list pyval) : res pyval :=
  match items with [] => Ok (PStr "") | x :: l => py_item (List.last l x) "run_id" end.
Definition latest_completed (records : list pyval) : res pyval :=
  let! completed := res_filter is_completed records in last_id completed.

(** The entries the new record is added to: all but those with its id. *)
Definition other_runs (run_id : pyval) (runs : list pyval) : res (list pyval) :=
  res_filter (fun item => let! id := field "run_id" PNone item in Ok (negb (py_eqb id run_id))) runs.

Definition runs_of (idx : dict) : list pyval := match dget0 idx "runs" with PList l => l | _ => [] end.

Definition write_latest_pointer (run_id : string) (s : store) : store :=
  Store (st_index s) (Content (strip run_id +:+ nl)) (st_runs s).

(** [update_run_index] with the lock held: the index it returns and the store. *)
Definition update_run_index (now : string) (record : dict) (s : store) : res (dict * store) :=
  let! loaded := load_index s in
  let '(idx, errors) := loaded in
  let! record := normalize_record record in
  let run_id := dget0 record "run_id" in
  let! others := other_runs run_id (runs_of idx) in
  let! records := sort_runs (others ++ [PDict record]) in
  let! started := last_id records in
  let! completed := latest_completed records in
  let idx := [("schema_version", PStr INDEX_SCHEMA_VERSION); ("updated_at", PStr now);
              ("latest_started_run_id", started); ("latest_completed_run_id", completed); ("runs", PList records)]
             ++ (match errors with [] => [] | _ => [("index_warnings", PList (map PStr errors))] end) in
  let s := Store (Content (dumps_indent (PDict idx) +:+ nl)) (st_pointer s) (st_runs s) in
  let! done := in_set (dget0 record "run_status") AUTHORITATIVE_RUN_STATUSES in
  Ok (idx, if done && py_eqb completed run_id then write_latest_pointer (py_str run_id) s else s).

(** [read_latest_pointer] *)
Definition read_latest_pointer (s : store) : res (string * list string) :=
  match st_pointer s with
  | Missing => Ok ("", ["latest pointer is missing"])
  | Unreadable cls msg => Ok ("", ["latest pointer unreadable: " +:+ msg])
  | Content bytes =>
      match utf8_decode bytes with
      | None => Raise (ValueError "UnicodeDecodeError")
      | Some text =>
      let value := strip text in
      if negb (nonempty value) then Ok ("", ["latest pointer is empty"])
      else
        let posix := replace_char ch_bs "/" value in
        if p_abs (path_of value) || contains ":" (match split1 "/" posix with Some (a, _) => a | None => posix end)
        then Ok ("", ["latest pointer is machine-specific and ignored: " +:+ value])
        else
          let run_id := path_name (path_of posix) in
          if bool_decide (run_id ∈ st_runs s) then Ok (run_id, [])
          else Ok (run_id, ["latest pointer target does not exist: " +:+ run_id])
      end
  end.

Fixpoint find_run (run_id : string) (runs : list pyval) : res (option pyval) :=
  match runs with
  | [] => Ok None
  | item :: runs' =>
      let! id := field "run_id" PNone item in
      if py_eqb id (PStr run_id) then Ok (Some item) else find_run run_id runs'
  end.

Definition latest_completed_record (s : store) : res (option pyval * list string) :=
  let! loaded := load_index s in
  let '(idx, errors) := loaded in
  let id0 := str_or idx "latest_completed_run_id" (PStr "") in
  let! chosen :=
    (if nonempty id0 then Ok (id0, errors)
     else let! pointer := read_latest_pointer s in Ok (pointer.1, errors ++ pointer.2)) in
  let '(run_id, errors) := chosen in
  if negb (nonempty run_id) then Ok (None, errors)
  else
    let! found := find_run run_id (runs_of idx) in
    match found with
    | Some r => Ok (Some r, errors)
    | None =>
        if bool_decide (run_id ∈ st_runs s) then
          Ok (Some (PDict [("run_id", PStr run_id); ("run_path", PStr (".o11y/runs/" +:+ run_id));
                           ("run_status", PStr "UNKNOWN")]), errors)
        else Ok (None, errors ++ ["latest completed run not found: " +:+ run_id])
    end.

Definition find_current_exact_record (current_state : dict) (s : store) : res (option pyval * list string) :=
  let! loaded := load_index s in
  let '(idx, errors) := loaded in
  let! candidates := res_filter (fun item => let! d := as_dict item in Ok (is_authoritative_current_candidate d current_state))
                       (runs_of idx) in
  let! sorted := sort_runs candidates in
  Ok (match sorted with [] => None | x :: l => Some (List.last l x) end, errors).
End index.
