(* ===== verification/RunIndexFacts.v ===== *)
(** Correctness of the run index: an update refines an insertion into an abstract sorted list
    of runs, survives the trip through the file, and concurrent updates behind the lock are
    never lost. *)
From S2P Require Import Prelude PyStr PyFloat PyVal Regex Json JsonFacts JsonIndent Hashing PyPath Provenance Freshness RunIndex.

(** * Order of runs *)

Lemma key_pair_total a b : key_pair_leb a b = true ∨ key_pair_leb b a = true.
Proof.
  unfold key_pair_leb. destruct (decide (a.1 = b.1)) as [He|Hne].
  - rewrite !bool_decide_eq_true_2 by done. auto.
  - rewrite !bool_decide_eq_false_2 by congruence. auto.
Qed.
Lemma key_pair_trans a b c : key_pair_leb a b = true → key_pair_leb b c = true → key_pair_leb a c = true.
Proof.
  unfold key_pair_leb. destruct (decide (a.1 = b.1)) as [H1|H1], (decide (b.1 = c.1)) as [H2|H2].
  - rewrite !bool_decide_eq_true_2 by congruence. eauto.
  - rewrite (bool_decide_eq_true_2 _ H1), !bool_decide_eq_false_2 by congruence. by rewrite H1.
  - rewrite (bool_decide_eq_true_2 _ H2), !bool_decide_eq_false_2 by congruence. by rewrite H2.
  - rewrite (bool_decide_eq_false_2 _ H1), (bool_decide_eq_false_2 _ H2). intros Hab Hbc.
    destruct (decide (a.1 = c.1)) as [H3|H3]; [|rewrite bool_decide_eq_false_2 by done; eauto].
    rewrite H3 in Hab. destruct H2. eauto.
Qed.
Lemma run_leb_total a b : run_leb a b = true ∨ run_leb b a = true.
Proof. apply key_pair_total. Qed.
Lemma run_leb_trans a b c : run_leb a b = true → run_leb b c = true → run_leb a c = true.
Proof. apply key_pair_trans. Qed.

Lemma insert_by_map {A} (leb : A → A → bool) (f : A → A) x l :
  (∀ y, y ∈ l → leb (f x) (f y) = leb x y) → map f (insert_by leb x l) = insert_by leb (f x) (map f l).
Proof.
  induction l as [|y l IH]; intros H; simpl; [done|]. rewrite H by set_solver.
  destruct (leb x y); simpl; [done|]. rewrite IH; [done|]. set_solver.
Qed.
Lemma sort_by_map {A} (leb : A → A → bool) (f : A → A) l :
  (∀ x y, x ∈ l → y ∈ l → leb (f x) (f y) = leb x y) → map f (sort_by leb l) = sort_by leb (map f l).
Proof.
  induction l as [|x l IH]; intros H; simpl; [done|].
  rewrite insert_by_map by (intros y Hy; rewrite sort_by_perm in Hy; apply H; set_solver).
  rewrite IH; [done|]. intros; apply H; set_solver.
Qed.

(** * Entries *)

(** The fields of an entry the module reads. *)
Definition eget (k : string) (item : pyval) : pyval := match item with PDict d => dget0 d k | _ => PNone end.
Definition eid (item : pyval) : string := py_str (eget "run_id" item).

(** An entry as the module writes it. *)
Record entry (item : pyval) : Prop := {
  en_dict : ∃ d, item = PDict d;
  en_id : ∃ s, eget "run_id" item = PStr s;
  en_status : ∃ s, eget "run_status" item = PStr s;
  en_stability : ∃ s, eget "source_stability" item = PStr s;
  en_started : ∃ s, eget "run_started_at" item = PStr s;
  en_json : jsonable item = true;
  en_wf : wf_val item;
  en_ascii : ascii_val item = true
}.

Lemma eget_canon k item : wf_val item → eget k (canon item) = canon (eget k item).
Proof.
  destruct item as [| | | | | | |d]; try done. intros [Hnd _]%wf_PDict. cbn [canon eget].
  unfold dget0, dgetd. rewrite dget_canon by done. by destruct (dget k d).
Qed.

Lemma entry_canon item : entry item → entry (canon item).
Proof.
  intros [[d ->] [i Hi] [s Hs] [t Ht] [u Hu] Hj Hw Ha]. split.
  - eexists. reflexivity.
  - rewrite eget_canon, Hi by done. by eexists.
  - rewrite eget_canon, Hs by done. by eexists.
  - rewrite eget_canon, Ht by done. by eexists.
  - rewrite eget_canon, Hu by done. by eexists.
  - by apply jsonable_canon.
  - by apply wf_canon.
  - by apply ascii_canon.
Qed.

Lemma eid_canon item : entry item → eid (canon item) = eid item.
Proof. intros [_ [i Hi] _ _ _ _ Hw _]. unfold eid. by rewrite eget_canon, Hi. Qed.

Lemma dget0_Some d k s : dget0 d k = PStr s → dget k d = Some (PStr s).
Proof. unfold dget0, dgetd. destruct (dget k d); simpl; congruence. Qed.

Lemma run_key_entry item : entry item → run_key item = (py_str (eget "run_started_at" item), eid item).
Proof.
  intros [[d ->] [i Hi] _ _ [u Hu] _ _ _]. unfold eid in *. simpl in *. unfold dgetd.
  by rewrite (dget0_Some _ _ _ Hi), (dget0_Some _ _ _ Hu), Hi, Hu.
Qed.

Lemma run_key_canon item : entry item → run_key (canon item) = run_key item.
Proof.
  intros He. rewrite !run_key_entry by auto using entry_canon. rewrite eid_canon by done.
  destruct He as [_ _ _ _ [u Hu] _ Hw _]. by rewrite eget_canon, Hu.
Qed.

(** * The abstract index *)

(** The specification of an update: replace the run of the same id, keep the list sorted. *)
Definition spec_update (item : pyval) (runs : list pyval) : list pyval :=
  sort_by run_leb (filterb (fun x => negb (bool_decide (eid x = eid item))) runs ++ [item]).
Definition completed (item : pyval) : bool :=
  bool_decide (eget "run_status" item = PStr "COMPLETE") && bool_decide (eget "source_stability" item = PStr "UNCHANGED").
Definition last_eid (runs : list pyval) : string := match runs with [] => "" | x :: l => eid (List.last l x) end.

Record index_ok (runs : list pyval) : Prop := {
  io_entries : Forall entry runs;
  io_canon : Forall (fun x => canon x = x) runs;
  io_ids : NoDup (map eid runs);
  io_sorted : StronglySorted (fun a b => run_leb a b = true) runs
}.

Lemma spec_update_ok item runs :
  index_ok runs → entry item → canon item = item → index_ok (spec_update item runs).
Proof.
  intros [He Hc Hn _] Hi Hci. unfold spec_update.
  assert (∀ P : pyval → Prop, Forall P runs → P item →
    Forall P (filterb (fun x => negb (bool_decide (eid x = eid item))) runs ++ [item])) as Hall.
  { intros P Hr Hp. apply Forall_app. split; [|by apply Forall_singleton].
    rewrite Forall_forall in *. intros x Hx. apply elem_of_filterb in Hx as [Hx _]. by apply Hr. }
  split.
  - rewrite sort_by_perm. by apply Hall.
  - rewrite sort_by_perm. by apply Hall.
  - rewrite sort_by_perm, map_app. apply NoDup_app. split_and!.
    + by apply NoDup_map_filterb.
    + intros i (y & -> & Hy)%list_elem_of_fmap. apply elem_of_filterb in Hy as [_ Hy].
      simpl. apply negb_true_iff, bool_decide_eq_false in Hy. set_solver.
    + simpl. apply NoDup_singleton.
  - apply sort_by_sorted; [apply run_leb_total|apply run_leb_trans].
Qed.

(** The update keeps every other run and stores the new one. *)
Lemma spec_update_elem item runs x :
  x ∈ spec_update item runs ↔ x = item ∨ (x ∈ runs ∧ eid x ≠ eid item).
Proof.
  unfold spec_update. rewrite sort_by_perm, elem_of_app, elem_of_filterb, list_elem_of_singleton.
  rewrite negb_true_iff, bool_decide_eq_false. tauto.
Qed.

(** * The code on well-formed entries *)

Lemma res_filter_Ok {A} (f : A → res bool) (g : A → bool) l :
  (∀ x, x ∈ l → f x = Ok (g x)) → res_filter f l = Ok (filterb g l).
Proof.
  induction l as [|x l IH]; intros H; [done|]. cbn [res_filter filterb List.filter].
  rewrite (H x) by set_solver. cbn [res_bind]. rewrite IH by set_solver. cbn [res_bind]. by destruct (g x).
Qed.

Lemma field_eget k item : entry item → field k PNone item = Ok (eget k item).
Proof. by intros [[d ->] _ _ _ _ _ _ _]. Qed.

Lemma py_eqb_eid item i : entry item → py_eqb (eget "run_id" item) (PStr i) = bool_decide (eid item = i).
Proof.
  intros [_ [s Hs] _ _ _ _ _ _]. unfold eid. rewrite Hs, py_eqb_PStr. apply bool_decide_ext. simpl. naive_solver.
Qed.

Lemma other_runs_ok i runs :
  Forall entry runs → other_runs (PStr i) runs = Ok (filterb (fun x => negb (bool_decide (eid x = i))) runs).
Proof.
  intros H. apply res_filter_Ok. intros x Hx. rewrite Forall_forall in H. specialize (H x Hx).
  rewrite field_eget by done. cbn [res_bind]. by rewrite py_eqb_eid.
Qed.

Lemma sort_runs_ok runs : Forall entry runs → sort_runs runs = Ok (sort_by run_leb runs).
Proof.
  intros H. unfold sort_runs. assert (∃ l, res_mapM as_dict runs = Ok l) as [l ->]; [|done].
  induction H as [|x l [[d ->] _ _ _ _ _ _ _] _ [l' IH]]; [by exists []|]. exists (d :: l'). simpl. by rewrite IH.
Qed.

Lemma last_id_ok runs : Forall entry runs → last_id runs = Ok (PStr (last_eid runs)).
Proof.
  intros H. destruct runs as [|x l]; [done|]. simpl.
  assert (entry (List.last l x)) as [[d Hd] [s Hs] _ _ _ _ _ _].
  { apply Forall_cons in H as [Hx Hl]. destruct l as [|y l]; [done|]. rewrite Forall_forall in Hl. apply Hl.
    clear. revert y. induction l as [|z l IH]; intros y; simpl; [set_solver|]. specialize (IH z). set_solver. }
  unfold eid. rewrite Hd in *. simpl in *. by rewrite (dget0_Some _ _ _ Hs), Hs.
Qed.

Lemma is_completed_ok item : entry item → is_completed item = Ok (completed item).
Proof.
  intros He. unfold is_completed, completed. rewrite !field_eget by done. cbn [res_bind].
  destruct He as [_ _ [s Hs] [t Ht] _ _ _ _]. rewrite Hs, Ht.
  unfold in_set, any, AUTHORITATIVE_RUN_STATUSES. cbn [existsb].
  rewrite py_eqb_PStr, Bool.orb_false_r. cbn [res_bind].
  destruct (bool_decide (PStr s = PStr "COMPLETE")); [|done]. cbn [andb]. by rewrite py_eqb_PStr.
Qed.

Lemma latest_completed_ok runs :
  Forall entry runs → latest_completed runs = Ok (PStr (last_eid (filterb completed runs))).
Proof.
  intros H. unfold latest_completed. rewrite (res_filter_Ok _ completed).
  - cbn [res_bind]. apply last_id_ok. rewrite Forall_forall in *. intros x [Hx _]%elem_of_filterb. by apply H.
  - intros x Hx. rewrite Forall_forall in H. by apply is_completed_ok, H.
Qed.

(** * Normalised records are entries *)

Lemma normalize_record_entry root resolve record r :
  normalize_record root resolve record = Ok r → ascii_val (PDict r) = true → entry (PDict r).
Proof.
  unfold normalize_record. intros (id & _ & (ec & _ & Hr)%res_bind_Ok)%res_bind_Ok Ha.
  assert (wf_val (PDict r)) as Hw.
  { simplify_eq. apply wf_PDict. split; [apply (bool_decide_unpack _); by vm_compute|]. by repeat constructor. }
  simplify_eq. split; [by eexists..|done|done|done].
Qed.

Lemma normalize_record_id root resolve record r :
  normalize_record root resolve record = Ok r → ∃ i, dget0 r "run_id" = PStr i ∧ eid (PDict r) = i.
Proof.
  unfold normalize_record. intros (id & _ & (ec & _ & Hr)%res_bind_Ok)%res_bind_Ok. simplify_eq. by eexists.
Qed.

(** * Through the file *)

(** A store whose index file holds exactly [runs]. *)
Definition holds_runs (json_error : string → string) (s : store) (runs : list pyval) : Prop :=
  ∃ idx, load_index json_error s = Ok (idx, []) ∧ runs_of idx = runs ∧ index_ok runs.

Definition written_index (now started completed : string) (records : list pyval) : dict :=
  [("schema_version", PStr INDEX_SCHEMA_VERSION); ("updated_at", PStr now); ("latest_started_run_id", PStr started);
   ("latest_completed_run_id", PStr completed); ("runs", PList records)].

Lemma written_index_wf now started done records :
  Forall entry records → wf_val (PDict (written_index now started done records))
  ∧ jsonable (PDict (written_index now started done records)) = true.
Proof.
  intros H. split.
  - apply wf_PDict. split; [apply (bool_decide_unpack _); by vm_compute|]. repeat (constructor; [done|]).
    constructor; [|constructor]. apply wf_PList. eapply Forall_impl; [exact H|]. by intros x [].
  - cbn. rewrite Bool.andb_true_r. apply forallb_forall. intros x Hx. rewrite Forall_forall in H.
    by apply list_elem_of_In, H in Hx as [].
Qed.

Lemma load_written json_error now started done records p rs :
  Forall entry records → sall (fun c => (code c <? 127)%N) now = true →
  sall (fun c => (code c <? 127)%N) started = true → sall (fun c => (code c <? 127)%N) done = true →
  ∃ idx, load_index json_error (Store (Content (dumps_indent (PDict (written_index now started done records)) +:+ nl)) p rs)
         = Ok (idx, []) ∧ runs_of idx = map canon records
         ∧ dget0 idx "latest_started_run_id" = PStr started ∧ dget0 idx "latest_completed_run_id" = PStr done.
Proof.
  intros He Hn Hs Hd. set (v := PDict (written_index now started done records)).
  destruct (written_index_wf now started done records He) as [Hw Hj].
  assert (ascii_val v = true) as Ha.
  { assert (forallb ascii_val records = true) as Hr.
    { apply forallb_forall. intros x Hx. rewrite Forall_forall in He. by apply list_elem_of_In, He in Hx as []. }
    unfold v, written_index. cbn [ascii_val forallb fst snd]. rewrite Hn, Hs, Hd, Hr. vm_compute. reflexivity. }
  unfold load_index. simpl st_index. cbv iota.
  rewrite utf8_decode_ascii.
  2: { unfold is_ascii_str. rewrite sall_app. apply Bool.andb_true_iff. split; [by apply dumps_indent_ascii|done]. }
  rewrite loads_dumps_indent by auto.
  eexists. split; [reflexivity|]. cbn. split_and!; reflexivity.
Qed.

Lemma eid_ascii item : entry item → sall (fun c => (code c <? 127)%N) (eid item) = true.
Proof.
  intros [[d ->] [i Hi] _ _ _ _ _ Ha]. unfold eid. rewrite Hi. simpl in Hi. apply dget0_Some, dget_Some_elem in Hi.
  cbn [ascii_val] in Ha. rewrite forallb_forall in Ha. apply list_elem_of_In, Ha in Hi.
  by apply Bool.andb_true_iff in Hi as [_ Hi].
Qed.

Lemma last_cons_elem {A} (x : A) l : List.last l x ∈ x :: l.
Proof. induction l as [|y [|z l] IH]; [set_solver..|]. change (List.last (y :: z :: l) x) with (List.last (z :: l) x). set_solver. Qed.

Lemma last_eid_elem runs : runs ≠ [] → ∃ x, x ∈ runs ∧ last_eid runs = eid x.
Proof.
  destruct runs as [|x l]; [done|]. intros _. exists (List.last l x). split; [apply last_cons_elem|done].
Qed.

Lemma last_eid_ascii runs : Forall entry runs → sall (fun c => (code c <? 127)%N) (last_eid runs) = true.
Proof.
  intros H. destruct (decide (runs = [])) as [->|Hne]; [done|]. destruct (last_eid_elem runs Hne) as (x & Hx & ->).
  rewrite Forall_forall in H. by apply eid_ascii, H.
Qed.

Lemma last_eid_canon runs : Forall entry runs → last_eid (map canon runs) = last_eid runs.
Proof.
  intros H. destruct runs as [|x l]; [done|]. simpl.
  assert (List.last (map canon l) (canon x) = canon (List.last l x)) as ->.
  { clear. induction l as [|y [|z l] IH]; [done..|]. exact IH. }
  apply eid_canon. rewrite Forall_forall in H. apply H, last_cons_elem.
Qed.

Lemma completed_canon item : entry item → completed (canon item) = completed item.
Proof.
  intros [_ _ [s Hs] [t Ht] _ _ Hw _]. unfold completed. by rewrite !eget_canon, Hs, Ht.
Qed.

Lemma filterb_map_canon runs :
  Forall entry runs → filterb completed (map canon runs) = map canon (filterb completed runs).
Proof.
  induction 1 as [|x l Hx _ IH]; [done|]. cbn [map filterb List.filter]. rewrite completed_canon by done.
  destruct (completed x); cbn [map]; f_equal; exact IH.
Qed.

Lemma map_canon_id (l : list pyval) : Forall (fun x => canon x = x) l → map canon l = l.
Proof. induction 1 as [|x l Hx _ IH]; simpl; [done|]. by rewrite Hx, IH. Qed.

Lemma records_canon r runs :
  index_ok runs → entry r →
  map canon (sort_by run_leb (filterb (fun x => negb (bool_decide (eid x = eid r))) runs ++ [r]))
  = spec_update (canon r) runs.
Proof.
  intros [He Hc _ _] Hr. unfold spec_update. rewrite eid_canon by done.
  assert (Forall entry (filterb (fun x => negb (bool_decide (eid x = eid r))) runs)) as Hf.
  { rewrite Forall_forall in *. intros x [Hx _]%elem_of_filterb. by apply He. }
  rewrite sort_by_map.
  - rewrite map_app. f_equal. f_equal. apply map_canon_id. rewrite Forall_forall in *.
    intros x [Hx _]%elem_of_filterb. by apply Hc.
  - assert (Forall entry (filterb (fun x => negb (bool_decide (eid x = eid r))) runs ++ [r])) as Hall
      by (apply Forall_app; split; [done|by apply Forall_singleton]).
    rewrite Forall_forall in Hall. intros x y Hx Hy. unfold run_leb. by rewrite !run_key_canon by (by apply Hall).
Qed.

(** * The refinement *)

Lemma update_run_index_spec json_error root resolve now record r s runs :
  holds_runs json_error s runs → normalize_record root resolve record = Ok r →
  ascii_val (PDict r) = true → sall (fun c => (code c <? 127)%N) now = true →
  let runs' := spec_update (canon (PDict r)) runs in
  ∃ idx s', update_run_index json_error root resolve now record s = Ok (idx, s')
    ∧ holds_runs json_error s' runs'
    ∧ dget0 idx "latest_started_run_id" = PStr (last_eid runs')
    ∧ dget0 idx "latest_completed_run_id" = PStr (last_eid (filterb completed runs'))
    ∧ st_pointer s' = (if bool_decide (dget0 r "run_status" = PStr "COMPLETE")
                          && bool_decide (last_eid (filterb completed runs') = eid (PDict r))
                       then Content (strip (eid (PDict r)) +:+ nl) else st_pointer s).
Proof.
  intros (idx0 & Hload & Hruns & Hok) Hnorm Ha Hnow runs'.
  pose proof (normalize_record_entry _ _ _ _ Hnorm Ha) as Hr.
  destruct (normalize_record_id _ _ _ _ Hnorm) as (i & Hid & Hi).
  set (records := sort_by run_leb (filterb (fun x => negb (bool_decide (eid x = eid (PDict r)))) runs ++ [PDict r])).
  assert (map canon records = runs') as Hcanon by (by apply records_canon).
  assert (Forall entry (filterb (fun x => negb (bool_decide (eid x = eid (PDict r)))) runs ++ [PDict r])) as Hall.
  { apply Forall_app. split; [|by apply Forall_singleton]. rewrite Forall_forall.
    intros x [Hx _]%elem_of_filterb. pose proof (io_entries _ Hok) as H. rewrite Forall_forall in H. by apply H. }
  assert (Forall entry records) as Hrec by (unfold records; by rewrite sort_by_perm).
  unfold update_run_index. rewrite Hload. cbn [res_bind]. rewrite Hnorm. cbn [res_bind]. cbv zeta.
  rewrite Hid, Hruns, other_runs_ok by apply Hok. rewrite <- Hi in *. cbn [res_bind]. rewrite sort_runs_ok by done. cbn [res_bind].
  fold records. rewrite last_id_ok by done. cbn [res_bind]. rewrite latest_completed_ok by done. cbn [res_bind].
  pose proof (en_status _ Hr) as [st Hst]. simpl in Hst. rewrite Hst. unfold in_set, any, AUTHORITATIVE_RUN_STATUSES.
  cbn [existsb res_bind]. rewrite app_nil_r, Bool.orb_false_r, !py_eqb_PStr.
  change ([("schema_version", PStr INDEX_SCHEMA_VERSION); ("updated_at", PStr now); ("latest_started_run_id", PStr (last_eid records));
    ("latest_completed_run_id", PStr (last_eid (filterb completed records))); ("runs", PList records)])
    with (written_index now (last_eid records) (last_eid (filterb completed records)) records).
  assert (Forall entry (filterb completed records)) as Hcomp.
  { rewrite Forall_forall in *. intros x [Hx _]%elem_of_filterb. by apply Hrec. }
  assert (last_eid (filterb completed runs') = last_eid (filterb completed records)) as Hlc
    by (by rewrite <- Hcanon, filterb_map_canon, last_eid_canon).
  assert (last_eid runs' = last_eid records) as Hls by (by rewrite <- Hcanon, last_eid_canon).
  eexists _, _. split; [reflexivity|]. rewrite Hls, Hlc.
  assert (bool_decide (PStr (last_eid (filterb completed records)) = PStr (eid (PDict r)))
          = bool_decide (last_eid (filterb completed records) = eid (PDict r))) as ->
    by (apply bool_decide_ext; split; [congruence|by intros ->]).
  split_and!; [|done|done|by destruct (_ && _)].
  assert (∀ p rs, holds_runs json_error (Store (Content (dumps_indent (PDict (written_index now (last_eid records)
    (last_eid (filterb completed records)) records)) +:+ nl)) p rs) runs') as Hhold.
  { intros p rs. destruct (load_written json_error now (last_eid records) (last_eid (filterb completed records)) records p rs)
      as (idx & Hl & Hrs & _); [done|done|by apply last_eid_ascii|by apply last_eid_ascii|].
    exists idx. split_and!; [done|by rewrite Hrs|]. apply spec_update_ok; [done|by apply entry_canon|by rewrite canon_idemp]. }
  destruct (_ && _); apply Hhold.
Qed.

(** * Properties of one update *)

Lemma last_indep {A} (l : list A) d d' : l ≠ [] → List.last l d = List.last l d'.
Proof. induction l as [|x [|y l] IH]; intros H; [done|done|]. by apply IH. Qed.

Lemma last_run_max y l x :
  StronglySorted (fun a b => run_leb a b = true) (y :: l) → x ∈ y :: l → run_leb x (List.last l y) = true.
Proof.
  revert y. induction l as [|z l IH]; intros y Hs Hx.
  - assert (x = y) as -> by set_solver. by destruct (run_leb_total y y).
  - apply StronglySorted_inv in Hs as [Hs Hall].
    assert (List.last (z :: l) y = List.last l z) as ->.
    { destruct l as [|w l]; [done|]. by apply (last_indep (w :: l)). }
    apply elem_of_cons in Hx as [->|Hx]; [|by apply IH].
    rewrite Forall_forall in Hall. apply Hall, last_cons_elem.
Qed.

Lemma last_eid_max l :
  StronglySorted (fun a b => run_leb a b = true) l → l ≠ [] →
  ∃ m, m ∈ l ∧ last_eid l = eid m ∧ ∀ x, x ∈ l → run_leb x m = true.
Proof.
  destruct l as [|y l]; [done|]. intros Hs _. exists (List.last l y).
  split_and!; [apply last_cons_elem|done|]. intros x Hx. by apply last_run_max.
Qed.

Lemma sorted_filterb {A} (R : A → A → Prop) (f : A → bool) l : StronglySorted R l → StronglySorted R (filterb f l).
Proof.
  induction 1 as [|x l Hs IH Hall]; [constructor|]. cbn [filterb List.filter]. destruct (f x); [|done].
  constructor; [done|]. rewrite Forall_forall in *. intros y Hy. apply Hall. unfold filterb in Hy.
  by apply elem_of_filterb in Hy as [Hy _].
Qed.

(** C5: Updating the index refines insertion into an abstract sorted map.  If the file holds
    the runs [runs] (sorted by start time and id, no id twice) and the record normalises, the
    update succeeds, and the file it wrote, parsed again, holds the runs in which the record
    replaced the run of its id and nothing else changed, again sorted and without duplicates. *)
Theorem update_refines_insertion json_error root resolve now record r s runs :
  holds_runs json_error s runs → normalize_record root resolve record = Ok r →
  ascii_val (PDict r) = true → sall (fun c => (code c <? 127)%N) now = true →
  ∃ idx s' runs', update_run_index json_error root resolve now record s = Ok (idx, s')
    ∧ holds_runs json_error s' runs'
    ∧ ∀ x, x ∈ runs' ↔ x = canon (PDict r) ∨ (x ∈ runs ∧ eid x ≠ eid (PDict r)).
Proof.
  intros Hh Hn Ha Hnow.
  destruct (update_run_index_spec json_error root resolve now record r s runs Hh Hn Ha Hnow) as (idx & s' & Hu & Hh' & _).
  eexists _, _, _. split_and!; [done|done|]. intros x. rewrite spec_update_elem.
  by rewrite (eid_canon _ (normalize_record_entry _ _ _ _ Hn Ha)).
Qed.

(** The pointers of the index.  After an update, [latest_started_run_id] names the run
    that started last; [latest_completed_run_id] is empty exactly when no run is COMPLETE
    with an unchanged source, and otherwise names such a run, later than every other one;
    and [latest-local.txt] is rewritten only for a COMPLETE record that became the latest. *)
Theorem update_latest_pointers json_error root resolve now record r s runs :
  holds_runs json_error s runs → normalize_record root resolve record = Ok r →
  ascii_val (PDict r) = true → sall (fun c => (code c <? 127)%N) now = true →
  ∃ idx s' runs', update_run_index json_error root resolve now record s = Ok (idx, s')
    ∧ holds_runs json_error s' runs'
    ∧ (∃ m, m ∈ runs' ∧ dget0 idx "latest_started_run_id" = PStr (eid m) ∧ ∀ x, x ∈ runs' → run_leb x m = true)
    ∧ (match filterb completed runs' with
       | [] => dget0 idx "latest_completed_run_id" = PStr ""
       | done => ∃ m, m ∈ done ∧ dget0 idx "latest_completed_run_id" = PStr (eid m) ∧ ∀ x, x ∈ done → run_leb x m = true
       end)
    ∧ (st_pointer s' ≠ st_pointer s →
       dget0 r "run_status" = PStr "COMPLETE" ∧ dget0 idx "latest_completed_run_id" = PStr (eid (PDict r))
       ∧ st_pointer s' = Content (strip (eid (PDict r)) +:+ nl)).
Proof.
  intros Hh Hn Ha Hnow.
  destruct (update_run_index_spec json_error root resolve now record r s runs Hh Hn Ha Hnow)
    as (idx & s' & Hu & Hh' & Hst & Hco & Hptr).
  set (runs' := spec_update (canon (PDict r)) runs) in *. exists idx, s', runs'. destruct Hh' as (idx' & Hl & Hr' & Hok).
  pose proof (io_sorted _ Hok) as Hsort.
  split_and!; [done|by exists idx'| | |].
  - destruct (last_eid_max runs' Hsort) as (m & Hm & He & Hle).
    { intros H. assert (canon (PDict r) ∈ runs') as Hin by (apply spec_update_elem; by left). rewrite H in Hin. set_solver. }
    exists m. rewrite Hst, He. done.
  - rewrite Hco. destruct (filterb completed runs') as [|y l] eqn:E; [done|].
    destruct (last_eid_max (y :: l)) as (m & Hm & He & Hle); [rewrite <- E; by apply sorted_filterb|done|].
    exists m. rewrite He. done.
  - rewrite Hptr, Hco. destruct (bool_decide (dget0 r "run_status" = PStr "COMPLETE")) eqn:E1; [|done].
    destruct (bool_decide (last_eid (filterb completed runs') = eid (PDict r))) eqn:E2; [|done]. intros _.
    apply bool_decide_eq_true in E1, E2. rewrite E2. done.
Qed.

(** * Malformed files *)

(** Reading the index never loses control to a broken file: a missing, unreadable or
    malformed index loads as the empty index with a warning (none when it is missing), and
    whatever loads has a list of runs.  The one exception is a file that is not UTF-8, whose
    [UnicodeDecodeError] is not an [OSError] or [JSONDecodeError] and escapes. *)
Theorem load_index_total json_error s :
  (load_index json_error s = Raise (ValueError "UnicodeDecodeError") ∧ ∃ b, st_index s = Content b ∧ utf8_decode b = None)
  ∨ ∃ idx warnings, load_index json_error s = Ok (idx, warnings)
      ∧ (∃ l, dget0 idx "runs" = PList l)
      ∧ (warnings ≠ [] → idx = default_index)
      ∧ ∀ k, k ∈ ["schema_version"; "updated_at"; "latest_started_run_id"; "latest_completed_run_id"] → dhas k idx = true.
Proof.
  assert (∀ k, k ∈ ["schema_version"; "updated_at"; "latest_started_run_id"; "latest_completed_run_id"] →
    dhas k default_index = true) as Hdef by (intros k Hk; repeat (apply elem_of_cons in Hk as [->|Hk]; [done|]); set_solver).
  unfold load_index. destruct (st_index s) as [|cls msg|bytes].
  - right. eexists _, _. split_and!; [done|by eexists|done|done].
  - right. eexists _, _. split_and!; [done|by eexists|done|done].
  - destruct (utf8_decode bytes) as [text|] eqn:Hu; [|left; split; [done|by exists bytes]]. right.
    destruct (loads text) as [v|]; [|eexists _, _; split_and!; [done|by eexists|done|done]].
    destruct v as [| | | | | | |d]; try (eexists _, _; split_and!; [done|by eexists|done|done]).
    destruct (dget0 d "runs") as [| | | | |l| |] eqn:Hr; try (eexists _, _; split_and!; [done|by eexists|done|done]).
    assert (∀ k v d, k ≠ "runs" → dget0 (setdefault k v d) "runs" = dget0 d "runs") as Hruns.
    { intros k v d' Hk. unfold setdefault, dget0, dgetd. destruct (dhas k d'); [done|]. by rewrite dget_dset_ne. }
    assert (∀ k v d, dhas k (setdefault k v d) = true) as Hhas.
    { intros k v d'. unfold setdefault. destruct (dhas k d') eqn:E; [done|]. unfold dhas in *. by rewrite dget_dset_eq. }
    assert (∀ k k' v d, dhas k d = true → dhas k (setdefault k' v d) = true) as Hkeep.
    { intros k k' v d' H. unfold setdefault. destruct (dhas k' d') eqn:E; [done|]. unfold dhas in *.
      destruct (decide (k = k')) as [->|]; [by rewrite dget_dset_eq|by rewrite dget_dset_ne]. }
    eexists _, _. split_and!; [done|exists l; by rewrite !Hruns|done|].
    intros k Hk. repeat (apply elem_of_cons in Hk as [->|Hk]; [auto 6|]). set_solver.
Qed.

(** * Candidates and freshness *)

Lemma py_str_or_same a : py_str (py_or (PStr a) (PStr a)) = a.
Proof. by destruct a. Qed.

(** The fields of a recorded run that the candidate test reads. *)
Lemma record_fields root resolve run_id start finish stability status command code dp rp r :
  nonempty stability = true → nonempty status = true →
  record_from_provenance root resolve (build_provenance_envelope run_id start finish stability status) command code dp rp = Ok r →
  dget "run_status" r = Some (PStr status) ∧ dget "source_stability" r = Some (PStr stability)
  ∧ dget "start_full_head_sha" r = Some (PStr (identity_sha start))
  ∧ dget "full_head_sha" r = Some (PStr (identity_sha start))
  ∧ dget "start_worktree_dirty" r = Some (PBool (truthy (identity_dirty start)))
  ∧ dget "start_worktree_diff_fingerprint_if_dirty" r = Some (PStr (identity_fp start))
  ∧ dget "worktree_diff_fingerprint_if_dirty" r = Some (PStr (identity_fp start)).
Proof.
  intros Hst Hss Hrec. unfold record_from_provenance in Hrec. rewrite (split_build _ _ _ _ _ Hst Hss) in Hrec.
  cbn [sp_start sp_stability sp_status sp_finish] in Hrec. unfold normalize_record in Hrec.
  apply res_bind_Ok in Hrec as (id & _ & (ec & _ & Hr)%res_bind_Ok). injection Hr as <-.
  generalize (identity_sha start) (identity_fp start) (identity_dirty start). intros sha fp dirty.
  split_and!; try reflexivity.
  - change (Some (PStr (py_str (py_or (PStr sha) (PStr sha)))) = Some (PStr sha)). by rewrite py_str_or_same.
  - change (Some (PStr (py_str (py_or (PStr fp) (PStr fp)))) = Some (PStr fp)). by rewrite py_str_or_same.
Qed.

(** The candidate test on such a record. *)
Lemma candidate_fields r current status stability sha dirty fp :
  dget "run_status" r = Some (PStr status) → dget "source_stability" r = Some (PStr stability) → nonempty stability = true →
  dget "start_full_head_sha" r = Some (PStr sha) → dget "full_head_sha" r = Some (PStr sha) →
  dget "start_worktree_dirty" r = Some (PBool dirty) →
  dget "start_worktree_diff_fingerprint_if_dirty" r = Some (PStr fp) →
  dget "worktree_diff_fingerprint_if_dirty" r = Some (PStr fp) →
  is_authoritative_current_candidate r current = true ↔
  status = "COMPLETE" ∧ stability = "UNCHANGED" ∧ sha = identity_sha current ∧ PBool dirty = identity_dirty current
  ∧ (dirty = true → fp = identity_fp current).
Proof.
  intros H1 H2 Hn H3 H4 H5 H6 H7. unfold is_authoritative_current_candidate, dget0, dgetd.
  rewrite H1, H2, H3, H4, H5, H6, H7. cbv beta zeta. repeat change (default ?x (Some ?y)) with y.
  assert (∀ a : string, py_str (py_or (PStr a) (py_or (PStr a) (PStr ""))) = a) as Hor by (by intros []).
  assert (∀ d, py_str (py_or (PStr stability) d) = stability) as Hst by (intros d; by destruct stability).
  rewrite !Hor, Hst. cbn [py_str truthy].
  assert (py_eqb (PBool dirty) (identity_dirty current) = bool_decide (PBool dirty = identity_dirty current)) as ->
    by apply (py_eqb_opt_bool (PBool dirty)).
  clear H1 H2 H3 H4 H5 H6 H7 Hor Hst Hn.
  destruct (authoritative status) eqn:Ha; cbn [negb].
  - apply authoritative_spec in Ha.
    destruct (decide (stability = "UNCHANGED")) as [E1|E1];
      [rewrite (bool_decide_eq_true_2 _ E1)|rewrite (bool_decide_eq_false_2 _ E1)]; cbn [negb]; [|split; [discriminate|tauto]].
    destruct (decide (sha = identity_sha current)) as [E2|E2];
      [rewrite (bool_decide_eq_true_2 _ E2)|rewrite (bool_decide_eq_false_2 _ E2)]; cbn [negb]; [|split; [discriminate|tauto]].
    destruct (decide (PBool dirty = identity_dirty current)) as [E3|E3];
      [rewrite (bool_decide_eq_true_2 _ E3)|rewrite (bool_decide_eq_false_2 _ E3)]; cbn [negb]; [|split; [discriminate|tauto]].
    destruct dirty; cbn [andb]; [|split; [intros _; by split_and!|done]].
    destruct (decide (fp = identity_fp current)) as [E4|E4];
      [rewrite (bool_decide_eq_true_2 _ E4)|rewrite (bool_decide_eq_false_2 _ E4)]; cbn [negb]; [tauto|].
    split; [discriminate|]. intros (_ & _ & _ & _ & H). by destruct E4; apply H.
  - assert (status ≠ "COMPLETE") by (intros E; apply authoritative_spec in E; congruence). split; [discriminate|tauto].
Qed.

(** C23: The index and the freshness check agree on well-formed evidence.  For a run recorded from
    its provenance envelope with a nonempty stability and status, a valid start commit and a known
    work-tree state, against a repository state with a nonempty commit: the record is an
    authoritative candidate for that state exactly when the run is COMPLETE and
    [classify_freshness] calls its evidence EXACT.  The start commit must be valid: see the defect below. *)
Theorem candidate_iff_exact git read_file env root resolve run_id start finish stability status command code dp rp r current :
  nonempty stability = true → nonempty status = true → bad_sha (identity_sha start) = false →
  identity_dirty start ≠ PNone → truthy (dget0 current "full_head_sha") = true →
  record_from_provenance root resolve (build_provenance_envelope run_id start finish stability status) command code dp rp = Ok r →
  is_authoritative_current_candidate r current = true ↔
  status = "COMPLETE" ∧
  fr_state (classify_freshness git read_file env (build_provenance_envelope run_id start finish stability status) current) = EXACT.
Proof.
  intros Hst Hss Hsha Hdirty Hcur Hrec.
  assert (current ≠ []) as Hne by (by intros ->).
  rewrite classify_exact by done. unfold exact_evidence. rewrite split_build by done. cbn [sp_start sp_stability sp_status].
  destruct (record_fields _ _ _ _ _ _ _ _ _ _ _ _ Hst Hss Hrec) as (H1 & H2 & H3 & H4 & H5 & H6 & H7).
  rewrite (candidate_fields r current _ _ _ _ _ H1 H2 Hst H3 H4 H5 H6 H7).
  assert (identity_sha current = str_or current "full_head_sha" (PStr "")) as ->
    by (unfold identity_sha, str_or, py_or; by rewrite Hcur).
  assert (PBool (truthy (identity_dirty start)) = identity_dirty start) as ->
    by (unfold identity_dirty in *; destruct (optional_bool_cases (dget0 start "worktree_dirty")) as [E|[b E]]; by rewrite E in * ).
  assert (build_provenance_envelope run_id start finish stability status ≠ []) by done. tauto.
Qed.

(** ** When git fails *)

(** [subprocess.run] raised, or git returned an error. *)
Definition git_failed (p : proc) : bool := match p with Completed rc _ => negb (rc =? 0)%Z | ProcError _ => true end.
Definition status_args : list string := ["status"; "--porcelain=v1"] ++ SOURCE_PATHSPEC.
(** A machine on which git cannot tell the commit, answering [p], nor the state of the work tree. *)
Definition git_broken (p : proc) (git : list string → proc) : Prop :=
  git ["rev-parse"; "HEAD"] = p ∧ git_failed p = true ∧ git_failed (git status_args) = true.

Lemma strip_lt s : ∃ t, strip (String "<" s) = String "<" t.
Proof. unfold strip, strip_by. cbn [lstrip rstrip]. change (is_space "<") with false. cbn [rstrip]. destruct (rstrip is_space s); by eexists. Qed.
Lemma failed_text git args : git_failed (git args) = true → ∃ t, git_text git args = String "<" t.
Proof.
  intros H. unfold git_text, git_bytes.
  assert (∃ u, (match git args with
                | Completed rc out => if (rc =? 0)%Z then out else "<error:" +:+ str_of_Z rc +:+ "> " +:+ out
                | ProcError cls => "<unavailable:" +:+ cls +:+ ">"
                end) = String "<" u) as [u ->].
  { destruct (git args) as [rc out|cls]; [|by eexists]. cbn in H. apply negb_true_iff in H. rewrite H. by eexists. }
  change (decode_replace (String "<" u)) with (String "<" (decode_replace u)). apply strip_lt.
Qed.

(** What such a machine collects: the text of the failure as the commit, and a clean work tree. *)
Lemma broken_state p git read_file env : git_broken p git →
  ∃ t, git_text git ["rev-parse"; "HEAD"] = String "<" t
    ∧ identity_sha (collect_git_state git read_file env) = String "<" t
    ∧ identity_dirty (collect_git_state git read_file env) = PBool false
    ∧ identity_fp (collect_git_state git read_file env) = "".
Proof.
  intros (Hp & Hf & Hs). rewrite <- Hp in Hf. destruct (failed_text _ _ Hf) as [t Ht]. destruct (failed_text _ _ Hs) as [u Hu].
  assert (∃ rest, collect_git_state git read_file env = ("full_head_sha", PStr (String "<" t)) :: rest
    ∧ dget "worktree_dirty" rest = Some (PBool false) ∧ dget "worktree_diff_fingerprint_if_dirty" rest = Some (PStr "")) as (rest & Hc & Hd & Hfp).
  { unfold collect_git_state. cbv zeta. rewrite Ht. fold status_args. rewrite Hu.
    assert (nonempty (strip (String "<" u)) && negb (startswith "<" (String "<" u)) = false) as -> by apply andb_false_r.
    eexists. split; [reflexivity|]. split; reflexivity. }
  exists t. split; [done|]. rewrite Hc. unfold identity_sha, identity_dirty, identity_fp, str_or, dget0, dgetd. cbn [dget].
  repeat (rewrite decide_True by done || rewrite decide_False by done). rewrite ?Hd, ?Hfp. done.
Qed.

(** C38: A defect: when git cannot be run, or cannot tell the commit and the state of the work tree,
    in the same way at the start of a run, at its end and now, the provenance of the run and the
    current state carry the text of the failure as their SHA.  The freshness check rejects such
    evidence as UNKNOWN, but the candidate test compares the two texts, finds them equal, and
    accepts the run, if COMPLETE, as exact evidence for the current source, whatever was changed. *)
Theorem candidate_accepts_failed_git p git0 git1 git2 rf0 rf1 rf2 env0 env1 env2 root resolve run_id command code dp rp :
  git_broken p git0 → git_broken p git1 → git_broken p git2 →
  let start := collect_git_state git0 rf0 env0 in
  let finish := collect_git_state git1 rf1 env1 in
  let current := collect_git_state git2 rf2 env2 in
  let stability := source_stability_from_provenance start finish in
  let report := build_provenance_envelope run_id start finish stability "COMPLETE" in
  ∃ r, record_from_provenance root resolve report command code dp rp = Ok r
    ∧ is_authoritative_current_candidate r current = true
    ∧ ∀ git read_file env, fr_state (classify_freshness git read_file env report current) = UNKNOWN.
Proof.
  intros H0 H1 H2. cbv zeta.
  destruct (broken_state p git0 rf0 env0 H0) as (t & Ht & Hs0 & Hd0 & Hf0).
  destruct (broken_state p git1 rf1 env1 H1) as (t1 & Ht1 & Hs1 & Hd1 & Hf1).
  destruct (broken_state p git2 rf2 env2 H2) as (t2 & Ht2 & Hs2 & Hd2 & Hf2).
  assert (∀ g g', git_broken p g → git_broken p g' → git_text g ["rev-parse"; "HEAD"] = git_text g' ["rev-parse"; "HEAD"]) as Heq.
  { intros g g' (E & _) (E' & _). unfold git_text, git_bytes. by rewrite E, E'. }
  rewrite (Heq git1 git0), Ht in Ht1 by done. injection Ht1 as <-.
  rewrite (Heq git2 git0), Ht in Ht2 by done. injection Ht2 as <-.
  set (start := collect_git_state git0 rf0 env0) in *. set (finish := collect_git_state git1 rf1 env1) in *.
  set (current := collect_git_state git2 rf2 env2) in *.
  assert (start ≠ [] ∧ finish ≠ [] ∧ current ≠ []) as (Hn0 & Hn1 & Hn2) by done.
  clearbody start finish current.
  assert (source_stability_from_provenance start finish = "UNCHANGED") as ->.
  { unfold source_stability_from_provenance. rewrite (proj2 (identity_eqb_spec start finish)) by (split_and!; congruence).
    by destruct start, finish. }
  assert (∃ r, record_from_provenance root resolve (build_provenance_envelope run_id start finish "UNCHANGED" "COMPLETE") command code dp rp = Ok r)
    as [r Hr] by (destruct code; by eexists).
  exists r. split; [done|].
  destruct (record_fields root resolve run_id start finish "UNCHANGED" "COMPLETE" command code dp rp r eq_refl eq_refl Hr) as (F1 & F2 & F3 & F4 & F5 & F6 & F7). split.
  - apply (candidate_fields r current _ _ _ _ _ F1 F2 eq_refl F3 F4 F5 F6 F7). rewrite Hs0, Hs2, Hd0, Hd2, Hf0, Hf2. done.
  - intros git read_file env. unfold classify_freshness. cbn [is_empty]. rewrite split_build by done. cbn [sp_start].
    rewrite Hs0. done.
Qed.

(** * Witnesses *)

Definition empty_store : store := Store Missing Missing [].
Definition no_message (s : string) : string := "".
Definition demo_record (id started status : string) : dict :=
  [("run_id", PStr id); ("run_started_at", PStr started); ("run_status", PStr status); ("full_head_sha", PStr "a1")].
Definition demo_root : path := path_of "/repo".
Definition normalized (record : dict) : dict :=
  match normalize_record demo_root normpath record with Ok r => r | Raise _ => [] end.

Lemma empty_store_holds : holds_runs no_message empty_store [].
Proof. exists default_index. split_and!; [done|done|]. by split; constructor. Qed.

Lemma update_refines_insertion_witness : ∃ idx s' runs',
  update_run_index no_message demo_root normpath "now" (demo_record "r1" "t1" "COMPLETE") empty_store = Ok (idx, s')
  ∧ holds_runs no_message s' runs' ∧ canon (PDict (normalized (demo_record "r1" "t1" "COMPLETE"))) ∈ runs'.
Proof.
  destruct (update_refines_insertion no_message demo_root normpath "now" (demo_record "r1" "t1" "COMPLETE")
              (normalized (demo_record "r1" "t1" "COMPLETE")) empty_store [])
    as (idx & s' & runs' & Hu & Hh & Hin); [exact empty_store_holds|reflexivity|reflexivity|reflexivity|].
  exists idx, s', runs'. split; [exact Hu|]. split; [exact Hh|]. apply Hin. by left.
Defined.

Lemma update_latest_pointers_witness : ∃ idx s',
  update_run_index no_message demo_root normpath "now" (demo_record "r1" "t1" "COMPLETE") empty_store = Ok (idx, s')
  ∧ ∃ m, dget0 idx "latest_started_run_id" = PStr (eid m).
Proof.
  destruct (update_latest_pointers no_message demo_root normpath "now" (demo_record "r1" "t1" "COMPLETE")
              (normalized (demo_record "r1" "t1" "COMPLETE")) empty_store [])
    as (idx & s' & runs' & Hu & Hh & (m & _ & Hm & _) & _); [exact empty_store_holds|reflexivity|reflexivity|reflexivity|].
  exists idx, s'. split; [exact Hu|]. exists m. exact Hm.
Defined.

Definition recorded_demo : dict :=
  match record_from_provenance demo_root normpath demo_report "test" 0 "" "" with Ok r => r | Raise _ => [] end.

(** No git on the machine. *)
Lemma candidate_accepts_failed_git_witness :
  let git := fun _ : list string => ProcError "FileNotFoundError" in
  let current := collect_git_state git (fun _ => None) [] in
  ∃ r, is_authoritative_current_candidate r current = true
    ∧ fr_state (classify_freshness git (fun _ => None) [] (build_provenance_envelope "run-1" current current "UNCHANGED" "COMPLETE") current) = UNKNOWN.
Proof.
  intros git current.
  assert (git_broken (ProcError "FileNotFoundError") git) as Hb by (split; [reflexivity|split; reflexivity]).
  destruct (candidate_accepts_failed_git (ProcError "FileNotFoundError") git git git (fun _ => None) (fun _ => None) (fun _ => None) [] [] []
              (path_of "/repo") normpath "run-1" "test" 0 "" "" Hb Hb Hb) as (r & _ & Hc & Hf).
  exists r. split; [exact Hc|]. apply Hf.
Defined.

Lemma candidate_iff_exact_witness : is_authoritative_current_candidate recorded_demo (demo_start "a1") = true.
Proof.
  apply (candidate_iff_exact demo_git demo_files [] demo_root normpath "r1" (demo_start "a1") (demo_start "a1")
           "UNCHANGED" "COMPLETE" "test" 0 "" "" recorded_demo (demo_start "a1"));
    [reflexivity|reflexivity|reflexivity|done|reflexivity|reflexivity|]. split; reflexivity.
Defined.
