(* ===== verification/RunContext.v ===== *)
(** Run identity and the life cycle of a run ([observability/ci/run_context.py]): creation,
    reloading and finalisation.  A [host] is what the module sees of the machine at one moment;
    creation and finalisation take their own, since the repository may change in between. *)
From S2P Require Import Prelude PyStr PyFloat PyVal Regex Json JsonFacts JsonIndent Hashing PyPath PyText PyIO Redaction Storage Provenance Freshness RunIndex.

(** Fields other than the two paths hold whatever [run-context.json] held. *)
Record RunContext : Type := Context_ {
  run_id : pyval; ctx_run_dir : path; repo_root : path; started_at : pyval; environment : pyval;
  github_run_id : pyval; github_run_attempt : pyval; github_workflow : pyval; github_job : pyval;
  github_sha : pyval; github_ref : pyval; full_head_sha : pyval; short_head_sha : pyval;
  commit_subject : pyval; branch : pyval; worktree_dirty : pyval; worktree_diff_fingerprint_if_dirty : pyval;
  ctx_status : pyval; finished_at : pyval; provenance : pyval; start_provenance : pyval;
  finish_provenance : pyval; source_stability : pyval }.

Definition is_github_actions (c : RunContext) : bool := truthy (github_run_id c).

Definition ctx_to_dict (c : RunContext) : dict :=
  [("run_id", run_id c); ("run_dir", PStr (path_str (ctx_run_dir c))); ("repo_root", PStr (path_str (repo_root c)));
   ("started_at", started_at c); ("environment", environment c); ("github_run_id", github_run_id c);
   ("github_run_attempt", github_run_attempt c); ("github_workflow", github_workflow c); ("github_job", github_job c);
   ("github_sha", github_sha c); ("github_ref", github_ref c); ("full_head_sha", full_head_sha c);
   ("short_head_sha", short_head_sha c); ("commit_subject", commit_subject c); ("branch", branch c);
   ("worktree_dirty", worktree_dirty c);
   ("worktree_diff_fingerprint_if_dirty", worktree_diff_fingerprint_if_dirty c); ("status", ctx_status c);
   ("finished_at", finished_at c); ("provenance", provenance c); ("start_provenance", start_provenance c);
   ("finish_provenance", finish_provenance c); ("source_stability", source_stability c);
   ("observability.run_id", run_id c)].

(** What the module reads of the machine: environment, git, files, tools, clock, randomness.
    One operation sees one host, so one reading of the clock serves all its time stamps. *)
Record host : Type := Host {
  h_env : list (string * string); h_git : list string → proc; h_read_file : string → option (option string);
  h_exists : path → bool; h_resolve : path → path; h_os_error : path → option exn;
  h_available : string → bool; h_run_tool : list string → proc; h_executable : string;
  h_platform : string; h_os_name : string; h_machine : string;
  h_code_files : option (list (option string * option string));
  h_now : string; h_stamp : string; h_token : string; h_json_error : string → string; h_lock_error : option exn }.

(** The files, the index of all runs, and the id of the Sentry event the process sent. *)
Record world : Type := World { w_files : fs; w_index : store; w_event : string }.
Definition on_files {A} (m : io fs A) : io world A := fun w =>
  let '(r, files) := m (w_files w) in (r, World files (w_index w) (w_event w)).

Definition is_root (exists_ : path → bool) (candidate : path) : bool :=
  exists_ (path_join candidate (path_of ".git")) || exists_ (path_join candidate (path_of "encore.app"))
  || exists_ (path_join candidate (path_of "go.mod")).
(** [start] is the argument or the working directory, resolved. *)
Definition repository_root (exists_ : path → bool) (current : path) : path :=
  default current (find_first (is_root exists_) (current :: path_parents current)).

Section context.
Context (h : host).
Abbreviation env := (h_env h).

Definition collect_git : dict :=
  let state := collect_git_state (h_git h) (h_read_file h) env in
  let sha := dget0 state "full_head_sha" in
  let dirty := PBool (truthy (dget0 state "worktree_dirty")) in
  [("sha", sha); ("short_sha", match sha with PStr s => PStr (utake 12 s) | _ => PStr "" end); ("full_head_sha", sha);
   ("short_head_sha", dget0 state "short_head_sha"); ("commit_subject", dget0 state "commit_subject");
   ("branch", dget0 state "branch"); ("ref", PStr (getenv env "GITHUB_REF" "")); ("dirty", dirty);
   ("status", dgetd state "worktree_status" (PList [])); ("worktree_dirty", dirty);
   ("worktree_diff_fingerprint_if_dirty", dget0 state "worktree_diff_fingerprint_if_dirty");
   ("remote_origin", dget0 state "remote_origin"); ("git.branch", dget0 state "branch"); ("git.dirty", dirty)].

Definition tool_versions : dict :=
  collect_tool_versions (h_available h) (h_run_tool h) (h_executable h) (h_platform h) (h_os_name h) (h_machine h).

(** [collect_run_provenance(root, ...)] on this host. *)
Definition run_provenance (root : path) (run_id started finished status : string) (commands : list pyval) : dict :=
  collect_run_provenance (h_git h) (h_read_file h) env (path_str (h_resolve h root)) run_id started finished status commands
    (hash_observability_code (h_code_files h)) (h_platform h) (h_machine h) tool_versions.

Definition derive_run_id (sha : string) : string :=
  let sha := if nonempty sha then sha else "unknown" in
  let github_run := strip (getenv env "GITHUB_RUN_ID" "") in
  if nonempty github_run then
    let attempt := getenv env "GITHUB_RUN_ATTEMPT" "1" in
    let github_sha := utake 12 (getenv env "GITHUB_SHA" sha) in
    let ref_hash := stake 6 (sha256_hex (getenv env "GITHUB_REF" "")) in
    "gha-" +:+ github_run +:+ "-" +:+ attempt +:+ "-" +:+ github_sha +:+ "-" +:+ ref_hash
  else "local-" +:+ h_stamp h +:+ "-" +:+ utake 8 sha +:+ "-" +:+ h_token h.

Definition environment_name : string :=
  let obs := getenv env "OBSERVABILITY_ENV" "" in
  if nonempty obs then obs else if nonempty (getenv env "GITHUB_ACTIONS" "") then "github-actions" else "local".

(** The context a run starts with. *)
Definition new_context (root : path) (run_id_arg : string) : RunContext :=
  let git := collect_git in
  let sha := py_str (dgetd git "sha" (PStr "unknown")) in
  let id := if nonempty run_id_arg then run_id_arg else derive_run_id sha in
  let start := run_provenance root id (h_now h) "" "IN_PROGRESS" [] in
  let e name := PStr (getenv env name "") in
  {| run_id := PStr id; ctx_run_dir := path_join (path_join root (path_of ".o11y/runs")) (path_of id); repo_root := root;
     started_at := PStr (h_now h); environment := PStr environment_name; github_run_id := e "GITHUB_RUN_ID";
     github_run_attempt := e "GITHUB_RUN_ATTEMPT"; github_workflow := e "GITHUB_WORKFLOW"; github_job := e "GITHUB_JOB";
     github_sha := py_or (e "GITHUB_SHA") (dgetd git "sha" (PStr "")); github_ref := e "GITHUB_REF";
     full_head_sha := dget0 start "full_head_sha"; short_head_sha := dget0 start "short_head_sha";
     commit_subject := dget0 start "commit_subject"; branch := dget0 start "branch";
     worktree_dirty := PBool (truthy (dget0 start "worktree_dirty"));
     worktree_diff_fingerprint_if_dirty := dget0 start "worktree_diff_fingerprint_if_dirty";
     ctx_status := PStr "IN_PROGRESS"; finished_at := PStr "";
     provenance := PDict (build_provenance_envelope id start [] "UNKNOWN" "IN_PROGRESS");
     start_provenance := PDict start; finish_provenance := PDict []; source_stability := PStr "UNKNOWN" |}.

Definition index_update (root : path) (record : dict) : io world unit := fun w =>
  match h_lock_error h with
  | Some e => (Raise e, w)
  | None =>
      match update_run_index (h_json_error h) root (h_resolve h) (h_now h) record (w_index w) with
      | Ok (_, index) => (Ok (), World (w_files w) index (w_event w))
      | Raise e => (Raise e, w)
      end
  end.

Abbreviation wjson := (write_json (h_resolve h) (h_os_error h)).

Definition create_run_context (start : path) (run_id_arg : string) : io world RunContext :=
  let root := repository_root (h_exists h) (h_resolve h start) in
  let c := new_context root run_id_arg in
  storage ← on_files (init (h_resolve h) (h_os_error h) (ctx_run_dir c) false);
  let put name value := on_files (wjson storage (path_of name) value) in
  _ ← put "run-context.json" (PDict (ctx_to_dict c));
  _ ← put "git.json" (PDict collect_git);
  _ ← put "tool-versions.json" (PDict tool_versions);
  _ ← put "env-redacted.json" (PDict (redact_mapping (map (fun kv => (kv.1, PStr kv.2)) env)));
  _ ← put "start-provenance.json" (start_provenance c);
  _ ← put "provenance.json" (provenance c);
  _ ← put "run-status.json" (PDict [("run_id", run_id c); ("status", PStr "IN_PROGRESS"); ("updated_at", PStr (h_now h))]);
  prov ← lift (as_dict (provenance c));
  record ← lift (record_from_provenance root (h_resolve h) prov "" 0 "" "");
  _ ← index_update root record;
  mret c.

(** [value[:12]] *)
Definition slice12 (v : pyval) : res pyval :=
  match v with
  | PStr s => Ok (PStr (utake 12 s))
  | PList l => Ok (PList (take 12 l))
  | PTuple l => Ok (PTuple (take 12 l))
  | PDict _ => Raise KeyError
  | _ => Raise TypeError
  end.

(** [json.loads(path.read_text(encoding="utf-8"))].  The translation of line ends is left out:
    they are white space between JSON tokens and not allowed inside strings. *)
Definition read_json (p : path) (files : fs) : res pyval :=
  match files !! p with
  | None => Raise (OSError OsOther 2 "No such file or directory")
  | Some bytes =>
      match utf8_decode bytes with
      | None => Raise (ValueError "UnicodeDecodeError")
      | Some text => match loads text with
                     | Some v => Ok v
                     | None => Raise (ValueError "JSONDecodeError")
                     end
      end
  end.

(** [cwd] is the working directory, for a run recorded on another machine. *)
Definition load_run_context (cwd dir : path) : io world RunContext :=
  let dir := h_resolve h dir in
  data ← (fun w => (read_json (path_join dir (path_of "run-context.json")) (w_files w), w));
  rr ← lift (py_item data "repo_root");
  recorded ← lift (match rr with PStr s => Ok (path_of s) | _ => Raise TypeError end);
  let root := if h_exists h recorded then recorded else repository_root (h_exists h) (h_resolve h cwd) in
  d ← lift (as_dict data);
  id ← lift (py_item data "run_id");
  started ← lift (py_item data "started_at");
  environ ← lift (py_item data "environment");
  let g k := dgetd d k (PStr "") in
  short ← lift (slice12 (g "github_sha"));
  mret {| run_id := id; ctx_run_dir := dir; repo_root := root; started_at := started; environment := environ;
     github_run_id := g "github_run_id"; github_run_attempt := g "github_run_attempt";
     github_workflow := g "github_workflow"; github_job := g "github_job"; github_sha := g "github_sha";
     github_ref := g "github_ref"; full_head_sha := dgetd d "full_head_sha" (g "github_sha");
     short_head_sha := dgetd d "short_head_sha" short; commit_subject := g "commit_subject"; branch := g "branch";
     worktree_dirty := PBool (truthy (dgetd d "worktree_dirty" (PBool false)));
     worktree_diff_fingerprint_if_dirty := g "worktree_diff_fingerprint_if_dirty";
     ctx_status := dgetd d "status" (PStr "UNKNOWN"); finished_at := g "finished_at";
     provenance := dgetd d "provenance" (PDict []); start_provenance := dgetd d "start_provenance" (PDict []);
     finish_provenance := dgetd d "finish_provenance" (PDict []); source_stability := dgetd d "source_stability" (PStr "UNKNOWN") |}.

(** The provenance of the finished run, from its start and the state at the end. *)
Definition final_status (status stability : string) : string :=
  if bool_decide (stability = "CHANGED") && bool_decide (status = "COMPLETE") then "SOURCE_CHANGED_DURING_RUN" else status.

Definition final_start (c : RunContext) : res dict :=
  let! prov := as_dict (or_empty (provenance c)) in
  let start := sp_start (split_provenance_envelope prov) in
  if is_empty start then as_dict (or_empty (start_provenance c)) else Ok start.

Definition final_envelope (id : string) (start finish : dict) (status : string) : dict * dict * string :=
  let stability := source_stability_from_provenance start finish in
  let status := final_status status stability in
  let finish := dset "run_status" (PStr status) finish in
  (dset "source_changed_during_run" (PBool (bool_decide (stability = "CHANGED")))
     (build_provenance_envelope id start finish stability status), finish, status).

Definition finalize_run_context (c : RunContext) (status command : string) (exit_code : Z)
    (commands_executed : list pyval) (diagnosis_path report_path : string) (storage : RunStorage) : io world dict :=
  let finished := h_now h in
  let id := py_str (run_id c) in
  let collected := run_provenance (repo_root c) id (py_str (started_at c)) finished status commands_executed in
  start ← lift (final_start c);
  let stability := source_stability_from_provenance start collected in
  let '(prov, finish, status) := final_envelope id start collected status in
  let g k := (k, dgetd start k (PStr "")) in
  let value := dupdate (ctx_to_dict c)
    [("status", PStr status); ("finished_at", PStr finished); ("provenance", PDict prov);
     ("start_provenance", PDict start); ("finish_provenance", PDict finish); ("source_stability", PStr stability);
     g "full_head_sha"; g "short_head_sha"; g "commit_subject"; g "branch";
     ("worktree_dirty", dgetd start "worktree_dirty" (PBool false)); g "worktree_diff_fingerprint_if_dirty"] in
  let put name v := on_files (wjson storage (path_of name) v) in
  _ ← put "run-context.json" (PDict value);
  _ ← put "start-provenance.json" (PDict start);
  _ ← put "finish-provenance.json" (PDict finish);
  _ ← put "provenance.json" (PDict prov);
  _ ← put "run-status.json" (PDict
        [("run_id", run_id c); ("status", PStr status); ("updated_at", PStr finished);
         ("source_changed_during_run", PBool (bool_decide (stability = "CHANGED")));
         ("source_stability", PStr stability); ("exit_code", PInt exit_code)]);
  record ← lift (record_from_provenance (repo_root c) (h_resolve h) prov command exit_code diagnosis_path report_path);
  _ ← index_update (repo_root c) record;
  mret prov.
End context.

(** [_source_changed] *)
Definition source_changed (start finish : dict) : bool :=
  any (fun k => negb (py_eqb (dget0 start k) (dget0 finish k)))
    ["full_head_sha"; "worktree_dirty"; "worktree_diff_fingerprint_if_dirty"].
