(* ===== verification/RunContextFacts.v ===== *)
(** Correctness of the life cycle of a run: what finalisation vouches for, and that a context
    is reloaded as it was created. *)
From S2P Require Import Prelude PyStr PyFloat PyVal Regex Json JsonFacts JsonIndent Hashing PyPath PyText PyIO Redaction Storage Provenance Freshness RunIndex RunContext.

(** * Finalisation *)

Lemma finalize_returns h c status command code executed dp rp st w prov w' start :
  final_start c = Ok start →
  finalize_run_context h c status command code executed dp rp st w = (Ok prov, w') →
  prov = (final_envelope (py_str (run_id c)) start
            (run_provenance h (repo_root c) (py_str (run_id c)) (py_str (started_at c)) (h_now h) status executed) status).1.1.
Proof.
  intros Hs. unfold finalize_run_context. cbv zeta. rewrite Hs. intros (x & w0 & Hx & H)%bind_inv. injection Hx as <- <-.
  destruct (final_envelope _ _ _ _) as [[p f] s'] eqn:E. do 7 (apply bind_inv in H as (? & ? & _ & H)).
  by injection H as <- _.
Qed.

Lemma stability_nonempty a b : nonempty (source_stability_from_provenance a b) = true.
Proof. unfold source_stability_from_provenance. destruct (_ || _); [done|]. by destruct (identity_eqb a b). Qed.
Lemma final_status_nonempty status stability : nonempty status = true → nonempty (final_status status stability) = true.
Proof. unfold final_status. by destruct (_ && _). Qed.

(** The envelope reads back as what it was built from. *)
Lemma split_final id start finish status :
  nonempty status = true →
  let s := split_provenance_envelope (final_envelope id start finish status).1.1 in
  sp_start s = start ∧ sp_stability s = source_stability_from_provenance start finish
  ∧ sp_status s = final_status status (source_stability_from_provenance start finish).
Proof.
  intros Hn. unfold final_envelope. cbv zeta. cbn [fst].
  pose proof (stability_nonempty start finish) as H1.
  set (stab := source_stability_from_provenance start finish) in *. pose proof (final_status_nonempty status stab Hn) as H2.
  set (fs := final_status status stab) in *. clearbody stab fs.
  unfold split_provenance_envelope. destruct stab; [done|]. destruct fs; done.
Qed.

Lemma stability_unchanged start finish :
  source_stability_from_provenance start finish = "UNCHANGED" ↔ start ≠ [] ∧ finish ≠ [] ∧ identity_eqb start finish = true.
Proof.
  unfold source_stability_from_provenance. destruct start as [|x start]; [split; [done|by intros [? _]]|].
  destruct finish as [|y finish]; [split; [done|by intros (_ & ? & _)]|]. cbn [is_empty orb].
  destruct (identity_eqb _ _); split; try done. by intros (_ & _ & ?).
Qed.

Lemma final_status_authoritative status stability :
  stability = "UNCHANGED" → (final_status status stability = "UNKNOWN" ∨ final_status status stability = "COMPLETE") ↔
  (status = "UNKNOWN" ∨ status = "COMPLETE").
Proof. intros ->. done. Qed.

(** The source the run saw, at its start and at its end, and the source it is compared with. *)
Definition same_source (a b : dict) : Prop :=
  identity_sha a = identity_sha b ∧ identity_dirty a = identity_dirty b ∧ identity_fp a = identity_fp b.

Lemma final_exact git read_file env id start finish status current :
  nonempty status = true → current ≠ [] → finish ≠ [] →
  fr_state (classify_freshness git read_file env (final_envelope id start finish status).1.1 current) = EXACT ↔
  start ≠ [] ∧ (status = "UNKNOWN" ∨ status = "COMPLETE") ∧ same_source start finish
  ∧ bad_sha (identity_sha start) = false ∧ identity_sha start = str_or current "full_head_sha" (PStr "")
  ∧ identity_dirty start = identity_dirty current
  ∧ (truthy (identity_dirty start) = true → identity_fp start = identity_fp current).
Proof.
  intros Hn Hc Hf. rewrite classify_exact by done. unfold exact_evidence.
  destruct (split_final id start finish status Hn) as (-> & -> & ->).
  rewrite stability_unchanged. unfold same_source. rewrite identity_eqb_spec.
  pose proof (final_status_authoritative status (source_stability_from_provenance start finish)) as Ha.
  rewrite stability_unchanged, identity_eqb_spec in Ha.
  assert ((final_envelope id start finish status).1.1 ≠ []) as Hne by done. clear Hn. tauto.
Qed.

(** The identity in a provenance is that of the repository when it was collected. *)
Lemma provenance_identity h root id started finished status commands :
  let p := run_provenance h root id started finished status commands in
  let g := collect_git_state (h_git h) (h_read_file h) (h_env h) in
  identity_sha p = identity_sha g ∧ identity_dirty p = identity_dirty g ∧ identity_fp p = identity_fp g.
Proof. by cbv zeta. Qed.

(** * Creation and reloading *)

(** What the index and the queries need of a path: it prints and parses back. *)
Definition printable (p : path) : Prop := path_of (path_str p) = p.

(** The context as JSON gives it back: dictionaries with sorted keys. *)
Definition canon_context (c : RunContext) : RunContext :=
  {| run_id := canon (run_id c); ctx_run_dir := ctx_run_dir c; repo_root := repo_root c; started_at := canon (started_at c);
     environment := canon (environment c); github_run_id := canon (github_run_id c);
     github_run_attempt := canon (github_run_attempt c); github_workflow := canon (github_workflow c);
     github_job := canon (github_job c); github_sha := canon (github_sha c); github_ref := canon (github_ref c);
     full_head_sha := canon (full_head_sha c); short_head_sha := canon (short_head_sha c);
     commit_subject := canon (commit_subject c); branch := canon (branch c); worktree_dirty := canon (worktree_dirty c);
     worktree_diff_fingerprint_if_dirty := canon (worktree_diff_fingerprint_if_dirty c); ctx_status := canon (ctx_status c);
     finished_at := canon (finished_at c); provenance := canon (provenance c); start_provenance := canon (start_provenance c);
     finish_provenance := canon (finish_provenance c); source_stability := canon (source_stability c) |}.

(** The recorded context: JSON values, distinct keys, ASCII. *)
Definition recordable (c : RunContext) : bool :=
  jsonable (PDict (ctx_to_dict c)) && wf_valb (PDict (ctx_to_dict c)) && ascii_val (PDict (ctx_to_dict c)).

Lemma ctx_keys_NoDup c : NoDup (dkeys (ctx_to_dict c)).
Proof. by apply (bool_decide_eq_true_1 (NoDup _)); vm_compute. Qed.

Lemma read_recorded c p files :
  recordable c = true → files !! p = Some (dumps_indent (PDict (ctx_to_dict c)) +:+ nl) →
  read_json p files = Ok (canon (PDict (ctx_to_dict c))).
Proof.
  intros [[Hj Hw%wf_valb_wf]%andb_true_iff Ha]%andb_true_iff Hp. unfold read_json. rewrite Hp.
  rewrite utf8_decode_ascii by (unfold is_ascii_str; rewrite sall_app; by apply andb_true_iff; split; [apply dumps_indent_ascii|]).
  rewrite loads_dumps_indent; [done|done|done|done|by right].
Qed.

Lemma load_recorded h cwd dir c w :
  recordable c = true → (∃ b, worktree_dirty c = PBool b) → (∃ s, github_sha c = PStr s) →
  h_resolve h dir = ctx_run_dir c → printable (repo_root c) → h_exists h (repo_root c) = true →
  w_files w !! path_join (ctx_run_dir c) (path_of "run-context.json") = Some (dumps_indent (PDict (ctx_to_dict c)) +:+ nl) →
  load_run_context h cwd dir w = (Ok (canon_context c), w).
Proof.
  intros Hrec [b Hb] [sha Hsha] Hdir Hroot Hex Hp. unfold load_run_context. rewrite Hdir.
  unfold mbind, io_bind. rewrite (read_recorded _ _ _ Hrec Hp).
  assert (∀ k, dget k (sort_keys (map (fun kv => (kv.1, canon kv.2)) (ctx_to_dict c))) = canon <$> dget k (ctx_to_dict c)) as Hg.
  { intros k. rewrite dget_canon; [done|]. apply ctx_keys_NoDup. }
  cbn [canon]. set (d := sort_keys _) in *.
  assert (∀ k v, dget k (ctx_to_dict c) = Some v → dget k d = Some (canon v)) as Hk by (intros k v E; by rewrite Hg, E).
  clearbody d. clear Hg.
  assert (∀ k v, dget k (ctx_to_dict c) = Some v → py_item (PDict d) k = Ok (canon v)) as Hi.
  { intros k v E. unfold py_item. by rewrite (Hk k v E). }
  assert (∀ k v dflt, dget k (ctx_to_dict c) = Some v → dgetd d k dflt = canon v) as Hd.
  { intros k v dflt E. unfold dgetd. by rewrite (Hk k v E). }
  rewrite (Hi "repo_root" _ eq_refl). cbn [canon]. unfold lift. rewrite Hroot, Hex.
  cbn [as_dict]. rewrite (Hi "run_id" _ eq_refl), (Hi "started_at" _ eq_refl), (Hi "environment" _ eq_refl).
  rewrite (Hd "github_sha" _ _ eq_refl), Hsha. cbn [canon slice12].
  unfold mret, io_ret. do 2 f_equal. unfold canon_context. rewrite Hb, Hsha.
  repeat (erewrite Hd by reflexivity). by rewrite Hb.
Qed.

Lemma path_join_inj d a b : path_join d (Path false a) = path_join d (Path false b) → a = b.
Proof. unfold path_join. cbn. intros [= H]. by apply app_inv_head in H. Qed.

Lemma write_json_at resolve os_error st relative v files p files' :
  (∀ q, resolve q = q) → write_json resolve os_error st relative v files = (Ok p, files') →
  files' = <[path_join (run_dir st) relative := dumps_indent v +:+ nl]> files.
Proof.
  intros Hr. unfold write_json, write_text. intros (q & f1 & Hq & H)%bind_inv.
  apply bind_inv in H as (u & f2 & Hw & H). injection H as _ <-.
  rewrite path_in_spec in Hq. rewrite Hr in Hq. unfold atomic_write in Hw.
  destruct (bool_decide _); [|done]. destruct (os_error (path_parent _)); [done|]. injection Hq as <- <-.
  destruct (os_error _); [done|]. by injection Hw as _ <-.
Qed.

Lemma put_at h st name v w p w' :
  (∀ q, h_resolve h q = q) → on_files (write_json (h_resolve h) (h_os_error h) st (path_of name) v) w = (Ok p, w') →
  w_files w' = <[path_join (run_dir st) (path_of name) := dumps_indent v +:+ nl]> (w_files w).
Proof.
  intros Hr. unfold on_files. destruct (write_json _ _ _ _ _ (w_files w)) as [r files] eqn:E. intros [= -> <-].
  by apply write_json_at in E.
Qed.

Lemma index_update_files h root record w u w' : index_update h root record w = (Ok u, w') → w_files w' = w_files w.
Proof.
  unfold index_update. destruct (h_lock_error h); [done|]. destruct (update_run_index _ _ _ _ _ _) as [[]|]; [|done].
  by intros [= _ <-].
Qed.

Lemma created_files h start id w c w' :
  (∀ q, h_resolve h q = q) → create_run_context h start id w = (Ok c, w') →
  w_files w' !! path_join (ctx_run_dir c) (path_of "run-context.json") = Some (dumps_indent (PDict (ctx_to_dict c)) +:+ nl)
  ∧ c = new_context h (repository_root (h_exists h) (h_resolve h start)) id.
Proof.
  intros Hr. unfold create_run_context. cbv zeta. set (c0 := new_context _ _ _).
  intros (st & w0 & Hst & H)%bind_inv.
  assert (run_dir st = ctx_run_dir c0 ∧ w_files w0 = w_files w) as [Hdir _].
  { unfold on_files, init in Hst. rewrite Hr in Hst. destruct (h_os_error h _); [done|]. by injection Hst as <- <-. }
  apply bind_inv in H as (p1 & w1 & H1%put_at & H); [|done].
  do 6 (let Hn := fresh "Hn" in apply bind_inv in H as (? & ? & Hn%put_at & H); [|done]).
  do 2 (let Hn := fresh "Hl" in apply bind_inv in H as (? & ? & Hn & H); injection Hn as _ <-).
  apply bind_inv in H as (? & ? & Hu%index_update_files & H). injection H as <- <-. split; [|done].
  rewrite Hu. rewrite <-Hdir. clear Hu Hst.
  repeat match goal with E : w_files ?a = _ |- w_files ?a !! _ = _ => 
    rewrite E; clear E; try (rewrite lookup_insert_ne by (intros E%path_join_inj; discriminate)) end.
  by rewrite lookup_insert_eq.
Qed.

(** * A small host *)

Definition demo_git (args : list string) : proc :=
  match args with
  | "rev-parse" :: _ => Completed 0 ("0123456789abcdef" +:+ nl)
  | "branch" :: _ => Completed 0 ("main" +:+ nl)
  | "log" :: _ => Completed 0 ("subject" +:+ nl)
  | _ => Completed 0 ""
  end.
Definition demo_host : host :=
  {| h_env := [("HOME", "/root")]; h_git := demo_git; h_read_file := fun _ => None;
     h_exists := fun p => bool_decide (p = path_of "/r/.git"); h_resolve := id; h_os_error := fun _ => None;
     h_available := fun _ => false; h_run_tool := fun _ => ProcError "OSError"; h_executable := "python"; h_platform := "Linux";
     h_os_name := "posix"; h_machine := "x86_64"; h_code_files := None; h_now := "2026-01-01T00:00:00+00:00";
     h_stamp := "20260101T000000Z"; h_token := "abc123"; h_json_error := fun _ => ""; h_lock_error := None |}.

(** * Claims *)

(** C20: Finalisation vouches only for unchanged source.  When [finalize_run_context] returns the
    provenance of a run finalised with a nonempty status, and it is compared with a nonempty
    repository state, it is [EXACT] evidence exactly when the start of the run was recorded, the
    status is COMPLETE (or UNKNOWN, which [classify_freshness] lets through), commit, dirtiness and
    fingerprint collected at the end equal those recorded at the start, the recorded commit is a
    valid one and that of the state compared with, the dirtiness is the same, and, when the work
    tree was dirty, so is the fingerprint. *)
Theorem finalized_evidence_exact_iff h c status command code executed dp rp st w prov w' start git read_file env current :
  final_start c = Ok start → nonempty status = true → current ≠ [] →
  finalize_run_context h c status command code executed dp rp st w = (Ok prov, w') →
  fr_state (classify_freshness git read_file env prov current) = EXACT ↔
  start ≠ [] ∧ (status = "UNKNOWN" ∨ status = "COMPLETE") ∧ same_source start (collect_git_state (h_git h) (h_read_file h) (h_env h))
  ∧ bad_sha (identity_sha start) = false ∧ identity_sha start = str_or current "full_head_sha" (PStr "")
  ∧ identity_dirty start = identity_dirty current
  ∧ (truthy (identity_dirty start) = true → identity_fp start = identity_fp current).
Proof.
  intros Hs Hn Hc H. rewrite (finalize_returns _ _ _ _ _ _ _ _ _ _ _ _ _ Hs H).
  rewrite final_exact by done. unfold same_source.
  destruct (provenance_identity h (repo_root c) (py_str (run_id c)) (py_str (started_at c)) (h_now h) status executed) as (-> & -> & ->).
  done.
Qed.

Definition demo_context : RunContext := new_context demo_host (path_of "/r") "r1".
Definition demo_source : dict := collect_git_state demo_git (fun _ => None) (h_env demo_host).
Definition demo_start : dict := run_provenance demo_host (path_of "/r") "r1" (h_now demo_host) "" "IN_PROGRESS" [].
Local Notation demo_finalized :=
  (finalize_run_context demo_host demo_context "COMPLETE" "check" 0 [] "" "" (Storage (path_of "/r/.o11y/runs/r1") false)
    (World ∅ (Store Missing Missing []) "")).
Lemma finalized_evidence_exact_iff_witness :
  ∃ prov w', demo_finalized = (Ok prov, w')
    ∧ fr_state (classify_freshness demo_git (fun _ => None) [] prov demo_source) = EXACT.
Proof.
  assert (is_ok demo_finalized.1 = true) as H by (vm_compute; reflexivity).
  destruct demo_finalized as [[prov|e] w'] eqn:E; [|discriminate H]. exists prov, w'. split; [reflexivity|].
  apply (finalized_evidence_exact_iff demo_host demo_context "COMPLETE" "check" 0 [] "" "" (Storage (path_of "/r/.o11y/runs/r1") false)
    (World ∅ (Store Missing Missing []) "") prov w' demo_start demo_git (fun _ => None) [] demo_source);
    [reflexivity|reflexivity|discriminate|exact E|].
  split; [discriminate|]. split; [right; reflexivity|]. split; [vm_compute; repeat split; reflexivity|].
  split; [vm_compute; reflexivity|]. split; [vm_compute; reflexivity|]. split; [vm_compute; reflexivity|].
  intros Hd. vm_compute in Hd. discriminate Hd.
Defined.

(** C30: A context round-trips through its run directory: after [create_run_context] returned,
    [load_run_context] on the directory returns the same context, with the keys of its nested
    dictionaries in sorted order, on any later host that still has the repository. *)
Theorem context_reloads h h' start id w c w' cwd :
  (∀ p, h_resolve h p = p) → create_run_context h start id w = (Ok c, w') → recordable c = true →
  printable (repo_root c) → h_exists h' (repo_root c) = true → h_resolve h' (ctx_run_dir c) = ctx_run_dir c →
  load_run_context h' cwd (ctx_run_dir c) w' = (Ok (canon_context c), w').
Proof.
  intros Hr Hc Hrec Hp He Hd. destruct (created_files _ _ _ _ _ _ Hr Hc) as [Hf ->].
  apply load_recorded; [done|by eexists| |done|done|done|done].
  cbn [github_sha new_context]. unfold py_or. destruct (truthy _); by eexists.
Qed.
Local Notation demo_created :=
  (create_run_context demo_host (path_of "/r/sub") "" (World ∅ (Store Missing Missing []) "")).
Definition later_host : host :=
  Host [] demo_git (fun _ => None) (fun _ => true) id (fun _ => None) (fun _ => false) (fun _ => ProcError "OSError") "" "" "" "" None
    "" "" "" (fun _ => "") None.
Lemma context_reloads_witness :
  ∃ c w', demo_created = (Ok c, w') ∧ load_run_context later_host (path_of "/") (ctx_run_dir c) w' = (Ok (canon_context c), w').
Proof.
  assert ((fun r => match r with
                    | Ok c => recordable c && bool_decide (path_of (path_str (repo_root c)) = repo_root c)
                              && bool_decide (repo_root c = path_of "/r")
                    | Raise _ => false
                    end) demo_created.1 = true) as H by (vm_compute; reflexivity).
  destruct demo_created as [[c|e] w'] eqn:E; [|discriminate H]. exists c, w'. split; [reflexivity|].
  apply andb_true_iff in H as [[H1 H2]%andb_true_iff H3]. apply bool_decide_eq_true in H2, H3.
  apply (context_reloads demo_host later_host (path_of "/r/sub") "" (World ∅ (Store Missing Missing []) "") c w').
  - reflexivity.
  - exact E.
  - exact H1.
  - exact H2.
  - reflexivity.
  - reflexivity.
Defined.
