(* ===== verification/Collectors.v ===== *)
(** Evidence collectors ([observability/ci/collect_db.py], [collect_kubernetes.py] and
    [collect_environment.py]).  The programs they start are a parameter: [run argv] is the exit
    status and output, or the class and text of an [OSError] or a time-out. *)
From S2P Require Import Prelude PyStr PyFloat PyVal Regex Json JsonFacts JsonIndent Hashing PyPath PyText PyIO Redaction Storage Provenance Freshness RunIndex RunContext.

Inductive ran : Type :=
| Ran (rc : Z) (out : string)
| Failed (cls msg : string).

(** [_psql] and [_capture]: status 127 when the program did not run. *)
Definition captured (r : ran) : Z * string :=
  match r with Ran rc out => (rc, decode_output out) | Failed cls msg => (127%Z, cls +:+ ": " +:+ msg +:+ nl) end.

(** The nonempty lines, stripped. *)
Definition lines_of (s : string) : list string := filterb nonempty (map strip (splitlines s)).

Section collectors.
Context (env : list (string * string)) (resolve : path → path) (os_error : path → option exn).
Context (which : string → bool) (run : list string → ran).

Abbreviation wtext := (write_text resolve os_error).
Abbreviation wjson := (write_json resolve os_error).

(** * PostgreSQL *)

Definition LIKELY_TABLES : list string :=
  ["trade_instance"; "item_stack"; "item_stack_escrow"; "wallet"; "wallet_escrow"; "idempotency_record"; "request_attempt";
   "settlement_batch"; "settlement_step"; "wallet_ledger"; "item_stack_ledger"].

Definition psql_argv (database_url query : string) (tuples csv : bool) : list string :=
  ["psql"; database_url; "-X"; "-v"; "ON_ERROR_STOP=1"] ++ (if tuples then ["-A"; "-t"] else [])
  ++ (if csv then ["--csv"] else []) ++ ["-c"; query].
Definition psql (database_url query : string) (tuples csv : bool) : Z * string := captured (run (psql_argv database_url query tuples csv)).

Definition database_url : string :=
  let u := getenv env "EVE_TRADE_DATABASE_URL" "" in if nonempty u then u else getenv env "DATABASE_URL" "".
Definition TABLES_QUERY := "SELECT tablename FROM pg_catalog.pg_tables WHERE schemaname='public' ORDER BY tablename;".
Definition SCHEMA_QUERY :=
  "SELECT table_name,column_name,data_type,is_nullable FROM information_schema.columns WHERE table_schema='public' ORDER BY table_name,ordinal_position;".
Definition quoted (table : string) : string := dq +:+ table +:+ dq.
Definition rows_query (table : string) : string := "SELECT * FROM " +:+ quoted table +:+ " ORDER BY 1 DESC LIMIT 200;".
Definition json_query (table : string) : string :=
  "SELECT COALESCE(json_agg(row_to_json(snapshot)), '[]'::json)::text FROM (SELECT * FROM " +:+ quoted table
  +:+ " ORDER BY 1 DESC LIMIT 200) snapshot;".

(** Files go through [redact_text]; the result is the list of errors so far. *)
Definition put (storage : RunStorage) (name text : string) : io fs unit :=
  _ ← wtext storage (path_of name) (redact_text text); skip.
Definition note (bad : bool) (message : string) (errors : list string) : list string :=
  if bad then errors ++ [message] else errors.
Definition nonzero (rc : Z) : bool := negb (rc =? 0)%Z.

Definition snapshot (storage : RunStorage) (url table : string) (errors : list string) : io fs (list string) :=
  let text := psql url (rows_query table) false false in
  let csv := psql url (rows_query table) false true in
  let json := psql url (json_query table) true false in
  _ ← put storage ("db/tables/" +:+ table +:+ ".txt") text.2;
  _ ← put storage ("db/tables/" +:+ table +:+ ".csv") csv.2;
  _ ← put storage ("db/tables/" +:+ table +:+ ".json") json.2;
  mret (note (nonzero text.1 || nonzero csv.1 || nonzero json.1) ("snapshot failed for " +:+ table) errors).

Definition migration_snapshot (storage : RunStorage) (url table : string) (errors : list string) : io fs (list string) :=
  let r := psql url ("SELECT * FROM " +:+ quoted table +:+ " ORDER BY 1;") false false in
  _ ← put storage ("db/migrations/" +:+ table +:+ ".txt") r.2;
  mret (note (nonzero r.1) ("migration snapshot failed for " +:+ table) errors).

(** A loop that carries the errors. *)
Fixpoint io_fold {S A B} (f : A → B → io S A) (acc : A) (l : list B) : io S A :=
  match l with [] => mret acc | x :: l' => acc' ← f acc x; io_fold f acc' l' end.

Definition db_metadata (available : bool) (tables : list string) (errors : list string) (extra : dict) : dict :=
  [("available", PBool available); ("tables", PList (map PStr tables)); ("errors", PList (map PStr errors))] ++ extra.

Definition collect_db (storage : RunStorage) : io fs dict :=
  let url := database_url in
  if negb (nonempty url) || negb (which "psql") then
    let metadata := db_metadata false [] ["EVE_TRADE_DATABASE_URL/DATABASE_URL or psql executable unavailable"] [] in
    _ ← wjson storage (path_of "db/metadata.json") (PDict metadata);
    mret metadata
  else
    let listing := psql url TABLES_QUERY true false in
    _ ← put storage "db/tables.txt" listing.2;
    let errors := note (nonzero listing.1) "table list query failed" [] in
    let tables := lines_of listing.2 in
    let schema := psql url SCHEMA_QUERY true false in
    _ ← put storage "db/schema.txt" schema.2;
    let schema_hash := if (schema.1 =? 0)%Z then sha256_hex schema.2 else "" in
    errors ← io_fold (fun errors table => snapshot storage url table errors) errors
               (filterb (fun table => bool_decide (table ∈ tables)) LIKELY_TABLES);
    errors ← io_fold (fun errors table => migration_snapshot storage url table errors) errors
               (filterb (fun name => contains "migration" (lower name)) tables);
    let metadata := db_metadata true tables errors [("database", PStr "<redacted:url>"); ("db.schema_hash", PStr schema_hash)] in
    _ ← wjson storage (path_of "db/metadata.json") (PDict metadata);
    mret metadata.

(** * Kubernetes *)

Section kubernetes.
Context (namespace : string).

Definition kubectl_commands : list (string * list string) :=
  let n args := ["kubectl"; "-n"; namespace] ++ args in
  [("current-context.txt", ["kubectl"; "config"; "current-context"]);
   ("namespaces.txt", ["kubectl"; "get"; "namespaces"; "-o"; "wide"]);
   ("pods.txt", n ["get"; "pods"; "-o"; "wide"]); ("services.txt", n ["get"; "services"; "-o"; "wide"]);
   ("deployments.txt", n ["get"; "deployments"; "-o"; "wide"]); ("events.txt", n ["get"; "events"; "--sort-by=.lastTimestamp"]);
   ("rendered-local.yaml", ["kubectl"; "kustomize"; "distributed-backend/orchestration/kubernetes/overlay/local"])].

Definition capture_file (storage : RunStorage) (c : string * list string) : io fs (string * pyval) :=
  let r := captured (run c.2) in
  _ ← put storage ("kubernetes/" +:+ c.1) r.2;
  mret (c.1, PInt r.1).

Definition pod_log (storage : RunStorage) (pod : string) : io fs pyval :=
  let safe_name := replace_char "/" "-" pod in
  let r := captured (run ["kubectl"; "-n"; namespace; "logs"; pod; "--all-containers=true"; "--tail=1000"; "--timestamps"]) in
  _ ← put storage ("kubernetes/logs/" +:+ safe_name +:+ ".log") r.2;
  mret (PDict [("kubernetes.namespace", PStr namespace); ("kubernetes.pod.name", PStr (removeprefix "pod/" pod));
               ("log_exit_code", PInt r.1)]).

Definition container_entry (pod_name : string) (container : pyval) : res pyval :=
  let! name := py_get_or container "name" (PStr "") in
  let! image := py_get_or container "image" (PStr "") in
  Ok (PDict [("kubernetes.namespace", PStr namespace); ("kubernetes.pod.name", PStr pod_name);
             ("kubernetes.container.name", PStr (py_str name)); ("container.image", PStr (py_str image))]).
Definition pod_entries (item : pyval) : res (list pyval) :=
  let! meta := py_get_or item "metadata" (PDict []) in
  let! name := py_get_or meta "name" (PStr "") in
  let! spec := py_get_or item "spec" (PDict []) in
  let! cs := py_get_or spec "containers" (PList []) in
  let! containers := py_iter cs in
  res_mapM (container_entry (py_str name)) containers.
(** [None] is a decoding error or an [AttributeError], which the collector notes. *)
Definition pods_metadata (pod_json : string) : res (option (list pyval)) :=
  match loads pod_json with
  | None => Ok None
  | Some v =>
      match (let! items := py_get_or v "items" (PList []) in
             let! l := py_iter items in
             let! es := res_mapM pod_entries l in Ok (List.concat es)) with
      | Ok es => Ok (Some es)
      | Raise AttributeError => Ok None
      | Raise e => Raise e
      end
  end.

Definition k8s_metadata (available : bool) (commands : dict) (pods : list pyval) (extra : dict) : dict :=
  [("available", PBool available); ("namespace", PStr namespace); ("commands", PDict commands); ("pods", PList pods)] ++ extra.

Definition collect_kubernetes (storage : RunStorage) : io fs dict :=
  let finish metadata := _ ← wjson storage (path_of "kubernetes/metadata.json") (PDict metadata); mret metadata in
  if negb (which "kubectl") then finish (k8s_metadata false [] [] [("error", PStr "kubectl executable not found")])
  else
    let current := captured (run ["kubectl"; "config"; "current-context"]) in
    if nonzero current.1 then
      _ ← put storage "kubernetes/current-context.txt" current.2;
      finish (k8s_metadata false [] [] [("error", PStr "kubectl has no configured current context")])
    else
      commands ← io_mapM (capture_file storage) kubectl_commands;
      let listing := captured (run ["kubectl"; "-n"; namespace; "get"; "pods"; "-o"; "name"]) in
      pods ← (if nonzero listing.1 then mret [] else io_mapM (pod_log storage) (lines_of listing.2));
      let json := captured (run ["kubectl"; "-n"; namespace; "get"; "pods"; "-o"; "json"]) in
      let context := ("current_context", PStr (strip current.2)) in
      if nonzero json.1 then finish (k8s_metadata true commands pods [context])
      else
        found ← lift (pods_metadata json.2);
        match found with
        | Some entries =>
            _ ← wjson storage (path_of "kubernetes/pods-metadata.json") (PList entries);
            finish (k8s_metadata true commands pods [context; ("containers", PList entries)])
        | None => finish (k8s_metadata true (commands ++ [("pods-metadata.json", PInt 1)]) pods [context])
        end.
End kubernetes.

(** * Environment *)

(** [sha256_files]: the regular files of [paths], by resolved path, with their content. *)
Definition sha256_files (root : path) (found : list (path * string)) : res dict :=
  let sorted := sort_by (fun a b => parts_leb (p_parts a.1) (p_parts b.1)) (dedup_first found) in
  let! named := res_mapM (fun f => match relative_to (resolve root) f.1 with
                                   | Some p => Ok (path_str p, f.2)
                                   | None => Raise (ValueError "not in the subpath")
                                   end) sorted in
  Ok [("sha256", PStr (sha256_hex (join "" (map (fun f => f.1 +:+ str1 nul +:+ f.2 +:+ str1 nul) named))));
      ("files", PList (map (fun f => PStr f.1) named)); ("file_count", PInt (Z.of_nat (length named)))].

(** The files the four globs find. *)
Record sources : Type := Sources {
  s_migrations : list (path * string); s_protobuf : list (path * string); s_encore : list (path * string);
  s_kubernetes : list (path * string) }.

Definition hash_metadata (m p e k : dict) : dict :=
  [("db.migration_hash", dget0 m "sha256"); ("protobuf.generated_hash", dget0 p "sha256");
   ("encore.config_hash", dget0 e "sha256"); ("kubernetes.manifest_hash", dget0 k "sha256")].

Definition collect_environment (h : host) (c : RunContext) (src : sources) (storage : RunStorage) : io fs dict :=
  let git := collect_git h in
  let tools := tool_versions h in
  let environ := redact_mapping (map (fun kv => (kv.1, PStr kv.2)) env) in
  m ← lift (sha256_files (repo_root c) (s_migrations src));
  p ← lift (sha256_files (repo_root c) (s_protobuf src));
  e ← lift (sha256_files (repo_root c) (s_encore src));
  k ← lift (sha256_files (repo_root c) (s_kubernetes src));
  _ ← wjson storage (path_of "git.json") (PDict git);
  _ ← wjson storage (path_of "tool-versions.json") (PDict tools);
  _ ← wjson storage (path_of "env-redacted.json") (PDict environ);
  _ ← wjson storage (path_of "hashes.json")
        (PDict ([("migrations", PDict m); ("protobuf_generated", PDict p); ("encore", PDict e); ("kubernetes", PDict k)]
                ++ hash_metadata m p e k));
  mret [("git", PDict git); ("tools", PDict tools); ("environment", PDict environ); ("hashes", PDict (hash_metadata m p e k))].
End collectors.
