(* ===== verification/CompareRuns.v ===== *)
(** Local-versus-CI parity ([observability/ci/compare_runs.py]): the compared fields of two run
    directories, the differences with their hints, and the three reports. *)
From S2P Require Import Prelude PyStr PyFloat PyVal Regex Json JsonFacts JsonIndent Hashing PyPath PyText PyIO Redaction Storage Provenance Freshness RunIndex RunContext.

Definition COMPARE_FIELDS : list (string * (string * string)) :=
  [("git.sha", ("git.json", "sha")); ("git.dirty", ("git.json", "dirty")); ("git.branch", ("git.json", "branch"));
   ("python.version", ("tool-versions.json", "python")); ("go.version", ("tool-versions.json", "go"));
   ("rust.version", ("tool-versions.json", "rustc")); ("encore.version", ("tool-versions.json", "encore"));
   ("os.name", ("tool-versions.json", "os")); ("encore.config_hash", ("hashes.json", "encore.config_hash"));
   ("kubernetes.manifest_hash", ("hashes.json", "kubernetes.manifest_hash"));
   ("db.schema_hash", ("db/metadata.json", "db.schema_hash")); ("db.migration_hash", ("hashes.json", "db.migration_hash"));
   ("protobuf.generated_hash", ("hashes.json", "protobuf.generated_hash"));
   ("pytest.collected", ("pytest/pytest-summary.json", "collected_count"));
   ("pytest.first_failure", ("pytest/pytest-summary.json", "first_failing_test_nodeid"))].

(** [_read]: an unreadable or malformed file is an empty object; bad UTF-8 is an exception. *)
Definition read_object (files : fs) (p : path) : res dict :=
  match read_json p files with
  | Ok (PDict d) => Ok d
  | Ok _ => Ok []
  | Raise (ValueError "UnicodeDecodeError") => Raise (ValueError "UnicodeDecodeError")
  | Raise _ => Ok []
  end.

(** One line of the comparison. *)
Record comparison : Type := Compared { c_field : string; c_local : pyval; c_ci : pyval; c_different : bool; c_hint : string }.
Definition comparison_dict (c : comparison) : dict :=
  [("field", PStr (c_field c)); ("local", c_local c); ("ci", c_ci c); ("different", PBool (c_different c)); ("hint", PStr (c_hint c))].

Definition py_ne (a b : pyval) : bool := negb (py_eqb a b).

Definition hint (field : string) (local ci : pyval) : string :=
  if bool_decide (field = "git.dirty") && truthy local then "Local has uncommitted files; CI tests the committed checkout."
  else if bool_decide (field = "db.schema_hash") then "Local DB schema differs from CI."
  else if bool_decide (field = "db.migration_hash") then "Migration content/hash differs."
  else if bool_decide (field = "protobuf.generated_hash") then "Generated protobuf hash differs."
  else if startswith "encore" field then "Encore configuration or CLI version differs."
  else if startswith "kubernetes" field then "Kubernetes manifest content differs."
  else if endswith "version" field || bool_decide (field = "os.name") then "Runtime parity differs for " +:+ field +:+ "."
  else if startswith "pytest" field then "Pytest collection or first failure differs."
  else field +:+ " differs between local and CI.".

(** [_append_comparison] *)
Definition compare_values (field : string) (local ci : pyval) (h : string) : comparison :=
  let different := py_ne local ci in Compared field local ci different (if different then h else "").

(** [_nested] *)
Fixpoint nested (value : pyval) (keys : list string) : pyval :=
  match keys with
  | [] => value
  | k :: keys' => match value with PDict d => nested (dget0 d k) keys' | _ => PNone end
  end.

(** [sorted(set(a) | set(b))] of the keys. *)
Definition union_keys (a b : dict) : list string := sort_by str_leb (dedup_first (dkeys a ++ dkeys b)).

Definition env_present (key : string) (env : dict) : bool :=
  match dget key env with
  | Some v => negb (py_eqb v (PStr "") || py_eqb v PNone || py_eqb v (PStr "<redacted:empty>"))
  | None => false
  end.
Definition compare_env (local ci : dict) : list comparison :=
  flat_map (fun key =>
    let l := env_present key local in
    let c := env_present key ci in
    if Bool.eqb l c then []
    else [Compared ("env." +:+ key +:+ ".present") (PBool l) (PBool c) true
            "Environment variable presence differs; values remain redacted."]) (union_keys local ci).

(** [_compare_mapping] *)
Definition compare_mapping (prefix : string) (local ci : pyval) (h : string) : list comparison :=
  let l := dict_or_empty local in
  let c := dict_or_empty ci in
  flat_map (fun key =>
    if py_ne (dget0 l key) (dget0 c key) then [Compared (prefix +:+ "." +:+ key) (dget0 l key) (dget0 c key) true h] else [])
    (union_keys l c).

(** What is read of one run directory. *)
Record run_files : Type := RunFiles { rf_object : string → dict }.
Definition fields_of (r : run_files) : list pyval := map (fun x => dget0 (rf_object r x.2.1) x.2.2) COMPARE_FIELDS.

Definition compare_field (l c : run_files) (x : string * (string * string)) : comparison :=
  let local := dget0 (rf_object l x.2.1) x.2.2 in
  let ci := dget0 (rf_object c x.2.1) x.2.2 in
  Compared x.1 local ci (py_ne local ci) (if py_ne local ci then hint x.1 local ci else "").

Definition compare_sequence (local ci : pyval) : list comparison :=
  if py_ne local ci
  then [Compared "pipeline.command_sequence" local ci true "Observed command sequence differs between local and CI."] else [].

Definition comparisons (l c : run_files) : list comparison :=
  let summary r := rf_object r "run-summary.json" in
  map (compare_field l c) COMPARE_FIELDS
  ++ [compare_values "db.migration_files" (nested (PDict (rf_object l "hashes.json")) ["migrations"; "files"])
        (nested (PDict (rf_object c "hashes.json")) ["migrations"; "files"]) "Migration file lists differ.";
      compare_values "pytest.collected_tests" (dgetd (rf_object l "pytest/pytest-summary.json") "collected_tests" (PList []))
        (dgetd (rf_object c "pytest/pytest-summary.json") "collected_tests" (PList [])) "Pytest collection differs."]
  ++ compare_env (rf_object l "env-redacted.json") (rf_object c "env-redacted.json")
  ++ compare_mapping "service.url" (dgetd (summary l) "service_urls" (PDict [])) (dgetd (summary c) "service_urls" (PDict []))
       "Service URL differs."
  ++ compare_mapping "service.readiness_ms" (dgetd (summary l) "service_readiness_ms" (PDict []))
       (dgetd (summary c) "service_readiness_ms" (PDict []))
       "Service readiness duration differs; investigate large regressions with the underlying command log."
  ++ compare_sequence (dgetd (summary l) "command_sequence" (PList [])) (dgetd (summary c) "command_sequence" (PList [])).

Definition differences (l c : run_files) : list comparison := filterb c_different (comparisons l c).
Definition likely_causes (ds : list comparison) : list string := dedup_first (filterb nonempty (map c_hint ds)).

Definition summary_value (local ci : path) (l c : run_files) : dict :=
  [("local", PStr (path_str local)); ("ci", PStr (path_str ci));
   ("comparisons", PList (map (fun x => PDict (comparison_dict x)) (comparisons l c)));
   ("differences", PList (map (fun x => PDict (comparison_dict x)) (differences l c)));
   ("likely_causes", PList (map PStr (likely_causes (differences l c))))].

(** * Reports *)

Definition em_dash : string := implode (map chr [226; 128; 148]%N).
Definition markdown_row (c : comparison) : string :=
  "| " +:+ c_field c +:+ " | `" +:+ py_str (c_local c) +:+ "` | `" +:+ py_str (c_ci c) +:+ "` | " +:+ c_hint c +:+ " |".
Definition parity_markdown (local ci : path) (ds : list comparison) : string :=
  join nl (["# Local vs CI parity diff"; ""; "- Local: `" +:+ path_str local +:+ "`"; "- CI: `" +:+ path_str ci +:+ "`"; "";
            "| Field | Local | CI | Likely impact |"; "|---|---|---|---|"] ++ map markdown_row ds
           ++ match ds with
              | [] => ["| " +:+ em_dash +:+ " | " +:+ em_dash +:+ " | " +:+ em_dash +:+ " | No compared differences found. |"]
              | _ => []
              end) +:+ nl.

(** [html.escape] *)
Definition escape_char (c : ascii) : string :=
  if is_char "&" c then "&amp;" else if is_char "<" c then "&lt;" else if is_char ">" c then "&gt;"
  else if is_char ch_dq c then "&quot;" else if is_char ch_sq c then "&#x27;" else str1 c.
Definition html_escape (s : string) : string := sflat escape_char s.

Definition html_row (c : comparison) : string :=
  "<tr><td>" +:+ html_escape (c_field c) +:+ "</td><td><code>" +:+ html_escape (py_str (c_local c)) +:+ "</code></td><td><code>"
  +:+ html_escape (py_str (c_ci c)) +:+ "</code></td><td>" +:+ html_escape (c_hint c) +:+ "</td></tr>".
Definition parity_html (local ci : path) (ds : list comparison) : string :=
  "<!doctype html><html><head><meta charset='utf-8'><title>Parity diff</title><style>body{font:15px system-ui;max-width:1200px;margin:30px auto}table{border-collapse:collapse;width:100%}td,th{border:1px solid #ccc;padding:8px;text-align:left}tr:nth-child(even){background:#f6f8fa}</style></head><body><h1>Local vs CI parity diff</h1><p>Local: <code>"
  +:+ html_escape (path_str local) +:+ "</code><br>CI: <code>" +:+ html_escape (path_str ci)
  +:+ "</code></p><table><thead><tr><th>Field</th><th>Local</th><th>CI</th><th>Likely impact</th></tr></thead><tbody>"
  +:+ join "" (map html_row ds) +:+ "</tbody></table></body></html>".

Section compare.
Context (os_error : path → option exn).

(** Every file the comparison reads of a run. *)
Definition RUN_FILES : list string :=
  ["git.json"; "tool-versions.json"; "hashes.json"; "db/metadata.json"; "pytest/pytest-summary.json"; "env-redacted.json"; "run-summary.json"].
Definition load_run (dir : path) (files : fs) : res run_files :=
  let! objs := res_mapM (fun name => let! d := read_object files (path_join dir (path_of name)) in Ok (name, d)) RUN_FILES in
  Ok (RunFiles (fun name => default [] (dget name objs))).

Definition write_file (p : path) (text : string) : io fs unit :=
  match os_error p with Some e => throw e | None => modify (<[p := text]>) end.

Definition compare_runs (local ci : path) (output_dir : option path) : io fs (path * path * path) :=
  let out := default local output_dir in
  _ ← match os_error out with Some e => throw e | None => skip end;
  l ← (fun files => (load_run local files, files));
  c ← (fun files => (load_run ci files, files));
  let ds := differences l c in
  let json_path := path_join out (path_of "parity-diff.json") in
  let md_path := path_join out (path_of "parity-diff.md") in
  let html_path := path_join out (path_of "parity-diff.html") in
  _ ← write_file json_path (dumps_indent (PDict (summary_value local ci l c)) +:+ nl);
  _ ← write_file md_path (parity_markdown local ci ds);
  _ ← write_file html_path (parity_html local ci ds);
  mret (json_path, md_path, html_path).
End compare.
