(* ===== verification/CompareRunsFacts.v ===== *)
(** What the parity report says: it lists no difference exactly when the two runs agree on
    everything that is compared, every listed difference is real, and the page it renders shows
    values only as escaped text. *)
From S2P Require Import Prelude PyStr PyFloat PyVal Regex Json JsonFacts JsonIndent Hashing PyPath PyText PyIO Redaction Storage Provenance Freshness RunIndex RunContext RunContextFacts CompareRuns.

(** * Parity *)

(** Two mappings with equal values under every key. *)
Definition same_mapping (a b : pyval) : Prop :=
  ∀ key, key ∈ dkeys (dict_or_empty a) ++ dkeys (dict_or_empty b) →
    py_eqb (dget0 (dict_or_empty a) key) (dget0 (dict_or_empty b) key) = true.
Abbreviation entry r file key dflt := (dgetd (rf_object r file) key dflt).

(** The two runs agree. *)
Record parity (l c : run_files) : Prop := {
  pa_fields : ∀ name file key, (name, (file, key)) ∈ COMPARE_FIELDS →
    py_eqb (dget0 (rf_object l file) key) (dget0 (rf_object c file) key) = true;
  pa_migrations : py_eqb (nested (PDict (rf_object l "hashes.json")) ["migrations"; "files"])
                    (nested (PDict (rf_object c "hashes.json")) ["migrations"; "files"]) = true;
  pa_tests : py_eqb (entry l "pytest/pytest-summary.json" "collected_tests" (PList []))
               (entry c "pytest/pytest-summary.json" "collected_tests" (PList [])) = true;
  pa_env : ∀ key, key ∈ dkeys (rf_object l "env-redacted.json") ++ dkeys (rf_object c "env-redacted.json") →
    env_present key (rf_object l "env-redacted.json") = env_present key (rf_object c "env-redacted.json");
  pa_urls : same_mapping (entry l "run-summary.json" "service_urls" (PDict [])) (entry c "run-summary.json" "service_urls" (PDict []));
  pa_readiness : same_mapping (entry l "run-summary.json" "service_readiness_ms" (PDict []))
                   (entry c "run-summary.json" "service_readiness_ms" (PDict []));
  pa_sequence : py_eqb (entry l "run-summary.json" "command_sequence" (PList []))
                  (entry c "run-summary.json" "command_sequence" (PList [])) = true
}.

Lemma elem_of_union_keys k a b : k ∈ union_keys a b ↔ k ∈ dkeys a ++ dkeys b.
Proof. unfold union_keys. by rewrite sort_by_perm, elem_of_dedup_first. Qed.

(** A list of comparisons without differences. *)
Definition quiet (cs : list comparison) : Prop := filterb c_different cs = [].
Lemma quiet_app a b : quiet (a ++ b) ↔ quiet a ∧ quiet b.
Proof. unfold quiet, filterb. rewrite List.filter_app. apply app_nil. Qed.
Lemma quiet_spec cs : quiet cs ↔ ∀ x, x ∈ cs → c_different x = false.
Proof. apply filterb_nil. Qed.
Lemma py_ne_false a b : py_ne a b = false ↔ py_eqb a b = true.
Proof. apply negb_false_iff. Qed.

(** A generator of at most one difference per key. *)
Lemma quiet_flat_map {A} (test : A → bool) (mk : A → comparison) (g : A → list comparison) keys :
  (∀ k, g k = if test k then [] else [mk k]) → (∀ k, c_different (mk k) = true) →
  quiet (flat_map g keys) ↔ ∀ k, k ∈ keys → test k = true.
Proof.
  intros Hg Hd. unfold quiet. rewrite filterb_nil. split.
  - intros H k Hk. destruct (test k) eqn:E; [done|]. specialize (Hd k). rewrite (H (mk k)) in Hd; [done|].
    apply list_elem_of_In, in_flat_map. exists k. split; [by apply list_elem_of_In|]. rewrite Hg, E. by left.
  - intros H x (k & Hk & Hx)%list_elem_of_In%in_flat_map. apply list_elem_of_In in Hk. rewrite Hg, (H k Hk) in Hx. by destruct Hx.
Qed.

Lemma compare_env_quiet l c :
  quiet (compare_env l c) ↔ ∀ key, key ∈ dkeys l ++ dkeys c → env_present key l = env_present key c.
Proof.
  unfold compare_env. rewrite (quiet_flat_map _ _ _ _ (fun k => eq_refl)) by done.
  setoid_rewrite elem_of_union_keys. by setoid_rewrite Bool.eqb_true_iff.
Qed.
Lemma compare_mapping_quiet prefix l c h : quiet (compare_mapping prefix l c h) ↔ same_mapping l c.
Proof.
  unfold compare_mapping, same_mapping. setoid_rewrite <- elem_of_union_keys. apply (quiet_flat_map _
    (fun key => Compared (prefix +:+ "." +:+ key) (dget0 (dict_or_empty l) key) (dget0 (dict_or_empty c) key) true h)); [|done].
  intros key. unfold py_ne. by destruct (py_eqb _ _).
Qed.
Lemma compare_sequence_quiet l c : quiet (compare_sequence l c) ↔ py_eqb l c = true.
Proof. unfold compare_sequence, py_ne, quiet. by destruct (py_eqb l c). Qed.
Lemma compare_fields_quiet l c :
  quiet (map (compare_field l c) COMPARE_FIELDS) ↔
  ∀ name file key, (name, (file, key)) ∈ COMPARE_FIELDS → py_eqb (dget0 (rf_object l file) key) (dget0 (rf_object c file) key) = true.
Proof.
  unfold quiet. rewrite filterb_nil. split.
  - intros H name file key Hin. apply py_ne_false. apply (H (compare_field l c (name, (file, key)))).
    by apply list_elem_of_fmap_2.
  - intros H x ([name [file key]] & -> & Hin)%list_elem_of_fmap. apply py_ne_false. by apply (H name).
Qed.

Lemma differences_nil l c : differences l c = [] ↔ parity l c.
Proof.
  change (quiet (comparisons l c) ↔ parity l c). unfold comparisons. rewrite !quiet_app.
  rewrite compare_fields_quiet, compare_env_quiet, !compare_mapping_quiet, compare_sequence_quiet.
  assert (∀ f1 a b h1 f2 a' b' h2, quiet [compare_values f1 a b h1; compare_values f2 a' b' h2] ↔ py_eqb a b = true ∧ py_eqb a' b' = true) as ->.
  { intros. unfold quiet, compare_values, py_ne. cbn. destruct (py_eqb a b), (py_eqb a' b'); cbn; naive_solver. }
  split; [intros (? & (? & ?) & ? & ? & ? & ?); by constructor|by intros []].
Qed.

(** A listed difference is one. *)
Lemma differences_real l c x : x ∈ differences l c → c_different x = true.
Proof. unfold differences. by intros [_ ?]%elem_of_filterb. Qed.

(** * The page *)

Definition markup (c : ascii) : bool := is_char "<" c || is_char ">" c || is_char ch_dq c || is_char ch_sq c.
Lemma escape_char_safe c : sall (fun d => negb (markup d)) (escape_char c) = true.
Proof. destruct c as [[] [] [] [] [] [] [] []]; vm_compute; reflexivity. Qed.
Lemma html_escape_safe s : sall (fun d => negb (markup d)) (html_escape s) = true.
Proof. unfold html_escape. induction s as [|c s IH]; [done|]. cbn [sflat]. rewrite sall_app, escape_char_safe. exact IH. Qed.

(** The markup characters of a text, in order. *)
Fixpoint marks (s : string) : string :=
  match s with String c s => if markup c then String c (marks s) else marks s | EmptyString => "" end.
Lemma marks_app a b : marks (a +:+ b) = marks a +:+ marks b.
Proof. induction a as [|c a IH]; [done|]. rewrite sapp_cons. cbn [marks]. rewrite IH. by destruct (markup c). Qed.
Lemma marks_safe s : sall (fun d => negb (markup d)) s = true → marks s = "".
Proof. induction s as [|c s IH]; [done|]. cbn [sall marks]. intros [Hc%negb_true_iff Hs]%andb_true_iff. rewrite Hc. auto. Qed.
Lemma marks_escape s : marks (html_escape s) = "".
Proof. apply marks_safe, html_escape_safe. Qed.

Local Opaque marks html_escape.
Lemma marks_row c c' : marks (html_row c) = marks (html_row c').
Proof. unfold html_row. by rewrite !marks_app, !marks_escape. Qed.
Lemma marks_rows ds ds' : length ds = length ds' → marks (join "" (map html_row ds)) = marks (join "" (map html_row ds')).
Proof.
  revert ds'. induction ds as [|d ds IH]; intros [|d' ds'] Hl; try done. injection Hl as Hl. specialize (IH ds' Hl).
  destruct ds as [|e ds], ds' as [|e' ds']; try done; [apply marks_row|].
  change (join "" (map html_row (d :: e :: ds))) with (html_row d +:+ "" +:+ join "" (map html_row (e :: ds))).
  change (join "" (map html_row (d' :: e' :: ds'))) with (html_row d' +:+ "" +:+ join "" (map html_row (e' :: ds'))).
  by rewrite !marks_app, (marks_row d d'), IH.
Qed.
Lemma marks_page local ci ds local' ci' ds' :
  length ds = length ds' → marks (parity_html local ci ds) = marks (parity_html local' ci' ds').
Proof. intros H. unfold parity_html. by rewrite !marks_app, !marks_escape, (marks_rows ds ds' H). Qed.
Local Transparent marks html_escape.

(** * Claims *)

(** C22: The parity report is exact.  When the comparison of a local run with a CI run ends, it has
    written the three reports from what it read of both run directories; the report lists no
    difference exactly when the runs agree on every compared field, the migrations, the collected
    tests, which variables are set, the service addresses and readiness, and the sequence of
    commands; and no value can add markup to the page: its angle brackets and quotation marks are
    those of any page, of any runs, with the same number of differences. *)
Theorem parity_report_exact os_error local ci out files r files' :
  compare_runs os_error local ci out files = (Ok r, files') →
  ∃ l c page, load_run local files = Ok l ∧ load_run ci files = Ok c
    ∧ (differences l c = [] ↔ parity l c)
    ∧ files' !! path_join (default local out) (path_of "parity-diff.json") = Some (dumps_indent (PDict (summary_value local ci l c)) +:+ nl)
    ∧ files' !! path_join (default local out) (path_of "parity-diff.md") = Some (parity_markdown local ci (differences l c))
    ∧ files' !! path_join (default local out) (path_of "parity-diff.html") = Some page
    ∧ page = parity_html local ci (differences l c)
    ∧ ∀ local' ci' ds, length ds = length (differences l c) → marks (parity_html local' ci' ds) = marks page.
Proof.
  unfold compare_runs, write_file. intros (u & f0 & H0 & H)%bind_inv.
  assert (f0 = files) as -> by (destruct (os_error _); [done|]; by injection H0 as _ <-).
  apply bind_inv in H as (l & f1 & Hl & H). injection Hl as Hl <-.
  apply bind_inv in H as (c & f2 & Hc & H). injection Hc as Hc <-.
  do 3 (let Hw := fresh in apply bind_inv in H as (? & ? & Hw & H); destruct (os_error _); [done|]; injection Hw as _ <-).
  injection H as _ <-. exists l, c, (parity_html local ci (differences l c)).
  split_and!; [done|done|apply differences_nil|..|done|intros; by apply marks_page].
  - by rewrite !lookup_insert_ne, lookup_insert_eq by (intros E%path_join_inj; discriminate E).
  - by rewrite !lookup_insert_ne, lookup_insert_eq by (intros E%path_join_inj; discriminate E).
  - by rewrite lookup_insert_eq.
Qed.

(** Two runs that differ in the commit they tested. *)
Definition demo_runs : fs :=
  {[ path_of "/r/local/git.json" := dumps false (PDict [("sha", PStr "a1"); ("dirty", PBool true)]);
     path_of "/r/ci/git.json" := dumps false (PDict [("sha", PStr "b2"); ("dirty", PBool true)]) ]}.
Local Notation demo_comparison := (compare_runs (fun _ => None) (path_of "/r/local") (path_of "/r/ci") None demo_runs).
Lemma parity_report_exact_witness : ∃ l c, load_run (path_of "/r/local") demo_runs = Ok l ∧ load_run (path_of "/r/ci") demo_runs = Ok c
  ∧ map c_field (differences l c) = ["git.sha"] ∧ ¬ parity l c.
Proof.
  assert (is_ok demo_comparison.1 = true) as H by (vm_compute; reflexivity).
  destruct demo_comparison as [[r|x] files'] eqn:E; [|discriminate H].
  destruct (parity_report_exact (fun _ => None) (path_of "/r/local") (path_of "/r/ci") None demo_runs r files' E)
    as (l & c & page & Hl & Hc & Hiff & _).
  exists l, c. split; [exact Hl|]. split; [exact Hc|].
  assert (map c_field (differences l c) = ["git.sha"]) as Hd by (vm_compute in Hl, Hc; injection Hl as <-; injection Hc as <-; vm_compute; reflexivity).
  split; [exact Hd|]. intros Hp%Hiff. rewrite Hp in Hd. discriminate Hd.
Defined.
