(* ===== verification/Links.v ===== *)
(** Links of the reports ([observability/ci/links.py]): percent-encoding, GitHub, Sentry and
    Honeycomb addresses.  The outputs of the two git commands and the reading of an ISO time
    stamp as seconds since the epoch are parameters. *)
From S2P Require Import Prelude PyStr PyFloat PyVal Regex Json JsonFacts JsonIndent Hashing PyPath PyText PyIO Redaction Storage Provenance Freshness RunIndex RunContext.

(** * [urllib.parse] *)

Definition hex_up (n : N) : ascii := if (n <? 10)%N then chr (48 + n) else chr (55 + n).
Definition percent (c : ascii) : string :=
  String "%" (String (hex_up (code c / 16)) (str1 (hex_up (code c mod 16)))).
Definition always_safe (c : ascii) : bool :=
  is_alnum c || is_char "_" c || is_char "." c || is_char "-" c || is_char "~" c.
Definition quote_char (safe : ascii → bool) (c : ascii) : string :=
  if always_safe c || safe c then str1 c else percent c.
(** [quote(s, safe='/')] *)
Definition quote (s : string) : string := sflat (quote_char (is_char "/")) s.
(** [quote_plus(s)] *)
Definition quote_plus (s : string) : string :=
  sflat (fun c => if is_char " " c then "+" else quote_char (fun _ => false) c) s.
Definition urlencode (l : list (string * string)) : string :=
  join "&" (map (fun kv => quote_plus kv.1 +:+ "=" +:+ quote_plus kv.2) l).

(** [json.dumps(value, separators=(",", ":"))] *)
Definition dumps_compact (v : pyval) : string := implode (print true comma colon v).

(** * [os.path.relpath] *)

Fixpoint relparts (target start : list string) : list string :=
  match target, start with
  | x :: target', y :: start' =>
      if bool_decide (x = y) then relparts target' start' else map (fun _ => "..") start ++ target
  | _, _ => map (fun _ => "..") start ++ target
  end.
(** Both paths made absolute with the working directory, [..] removed. *)
Definition relpath (cwd target start : path) : path :=
  let ab p := normpath (path_join cwd p) in
  Path false (relparts (p_parts (ab target)) (p_parts (ab start))).

Definition relative_artifact (cwd from_file target : path) : string := path_str (relpath cwd target (path_parent from_file)).

Definition REMOTE_PATTERN : regex := re_compile "github\.com[/:]([^/]+/[^/.]+)(?:\.git)?$".

Section links.
(** The environment, [git remote get-url origin] and [git rev-parse HEAD] (standard output, or
    any exception), links, and [datetime.fromisoformat(s).timestamp()] in whole seconds. *)
Context (env : list (string * string)) (git_remote git_head : proc) (resolve : path → path).
Context (timestamp : string → option Z).

Definition stdout_of (p : proc) : string :=
  match p with Completed _ out => strip (decode_output out) | ProcError _ => "" end.

Definition repository_from_remote : string :=
  match re_search REMOTE_PATTERN (stdout_of git_remote) with Some m => groupd m 1 | None => "" end.
Definition git_sha : string := stdout_of git_head.

Definition rstrip_slash : string → string := rstrip (is_char "/").
Definition or_str (a b : string) : string := if nonempty a then a else b.

Definition github_actions_url (c : RunContext) : string :=
  let server := rstrip_slash (getenv env "GITHUB_SERVER_URL" "https://github.com") in
  let repository := getenv env "GITHUB_REPOSITORY" "" in
  if nonempty repository && truthy (github_run_id c)
  then server +:+ "/" +:+ repository +:+ "/actions/runs/" +:+ py_str (github_run_id c) else "".

Definition line_fragment (line : option Z) : string :=
  match line with Some l => if (l =? 0)%Z then "" else "#L" +:+ str_of_Z l | None => "" end.

Definition source_url (c : RunContext) (file : string) (line : option Z) : string :=
  let repository := or_str (getenv env "GITHUB_REPOSITORY" "") repository_from_remote in
  if negb (nonempty repository) then
    "file:///" +:+ path_str (resolve (path_join (repo_root c) (path_of file))) +:+ line_fragment line
  else
    let server := rstrip_slash (getenv env "GITHUB_SERVER_URL" "https://github.com") in
    let sha := if truthy (github_sha c) then py_str (github_sha c) else or_str git_sha "HEAD" in
    server +:+ "/" +:+ repository +:+ "/blob/" +:+ sha +:+ "/" +:+ quote (replace_char ch_bs "/" file) +:+ line_fragment line.

Definition sentry_event_url (event_id : string) : string :=
  let org := or_str (getenv env "SENTRY_ORG" "") (getenv env "SENTRY_ORG_SLUG" "") in
  let base := rstrip_slash (getenv env "SENTRY_URL" "https://sentry.io") in
  if negb (nonempty event_id) || negb (nonempty org) then ""
  else base +:+ "/organizations/" +:+ quote org +:+ "/issues/?query=" +:+ quote event_id.

(** The filters of the query, in insertion order. *)
Definition honeycomb_filters (c : RunContext) (test_nodeid service_name failure_family : string) : dict :=
  let opt k v := if nonempty v then [(k, PStr v)] else [] in
  [("observability.run_id", run_id c)] ++ opt "test.nodeid" test_nodeid ++ opt "service.name" service_name
  ++ opt "test.failure_family" failure_family.

Definition trace_parameters (c : RunContext) (trace_id : string) : res (list (string * string)) :=
  match started_at c with
  | PStr s => Ok ([("trace_id", trace_id)] ++
      match timestamp s with
      | Some t => [("trace_start_ts", str_of_Z (Z.max 0 (t - 300))); ("trace_end_ts", str_of_Z (t + 7500))]
      | None => []                                                        (* ValueError: pass *)
      end)
  | _ => Raise TypeError
  end.

Definition query_spec (filters : dict) : pyval :=
  PDict [("calculations", PList [PDict [("op", PStr "COUNT")]]);
         ("filters", PList (map (fun kv => PDict [("column", PStr kv.1); ("op", PStr "="); ("value", kv.2)]) filters));
         ("time_range", PInt 7200)].

Definition suggested_fields : list string :=
  ["python.version"; "os.name"; "encore.config_hash"; "db.schema_hash"; "db.migration_hash"; "protobuf.generated_hash";
   "kubernetes.manifest_hash"; "service.name"; "test.nodeid"; "command.exit_code"; "test.failure_family";
   "github.run_id"; "git.dirty"].

Definition honeycomb_investigation (c : RunContext) (trace_id test_nodeid service_name failure_family : string) : res dict :=
  let filters := honeycomb_filters c test_nodeid service_name failure_family in
  let team := getenv env "HONEYCOMB_TEAM_SLUG" "" in
  let environment := getenv env "HONEYCOMB_ENVIRONMENT_SLUG" "" in
  let ui_base := rstrip_slash (getenv env "HONEYCOMB_UI_BASE_URL" "https://ui.honeycomb.io") in
  let place := ui_base +:+ "/" +:+ quote team +:+ "/environments/" +:+ quote environment in
  let! trace_url :=
    (if nonempty trace_id && nonempty team && nonempty environment
     then let! ps := trace_parameters c trace_id in Ok (place +:+ "/trace?" +:+ urlencode ps) else Ok "") in
  let dataset := or_str (getenv env "HONEYCOMB_DATASET" "") (or_str (getenv env "HONEYCOMB_SERVICE_NAME" "") "eve-trade-ci") in
  let query_url :=
    if nonempty team && nonempty environment
    then place +:+ "/datasets/" +:+ quote dataset +:+ "/?" +:+ urlencode [("query", dumps_compact (query_spec filters))] else "" in
  Ok [("trace_id", PStr trace_id); ("trace_url", PStr trace_url); ("query_url", PStr query_url); ("filters", PDict filters);
   ("suggested_fields", PList (map PStr suggested_fields));
   ("bubbleup_steps", PList (map PStr
     ["Open or build a Honeycomb query filtered by observability.run_id = " +:+ py_str (run_id c) +:+ ".";
      "Visualize duration with a heatmap or filter spans where error=true / command.exit_code != 0.";
      "Select the failed subset and choose BubbleUp / Compare to Baseline.";
      "Compare against a passing local run or passing CI run using the high-cardinality fields above."]))].
End links.

Example quote_ex : quote "a b/c#" = "a%20b/c%23" ∧ quote_plus "a b/c" = "a+b%2Fc".
Proof. vm_compute. done. Qed.
Example remote_ex :
  repository_from_remote (Completed 0 ("git@github.com:QuasarRay/eve-trade.git" +:+ nl)) = "QuasarRay/eve-trade".
Proof. vm_compute. reflexivity. Qed.
Example relpath_ex :
  relative_artifact (path_of "/") (path_of "/r/failure-report.md") (path_of "/r/db/tables.txt") = "db/tables.txt".
Proof. vm_compute. reflexivity. Qed.
