(* ===== verification/CollectPytest.v ===== *)
(** Extraction of test results ([observability/ci/collect_pytest.py]) from the text pytest
    prints and from its JUnit file.  The XML parser is a parameter: bytes to an element tree. *)
From S2P Require Import Prelude PyStr PyFloat PyVal Regex Json JsonFacts JsonIndent Hashing PyPath PyText PyIO Redaction Storage Provenance Freshness RunIndex RunContext Links.

Record PytestSummary : Type := Summary {
  ps_nodeid : string; ps_message : string; ps_assertion : string; ps_file : string; ps_line : option Z; ps_url : string;
  ps_failed : Z; ps_passed : Z; ps_skipped : Z; ps_error : Z; ps_duration : float; ps_collected : Z; ps_tests : list string }.

(** [PytestSummary()] *)
Definition no_summary : PytestSummary := Summary "" "" "" "" None "" 0 0 0 0 f_zero 0 [].

Definition opt_int (o : option Z) : pyval := match o with Some z => PInt z | None => PNone end.
Definition summary_to_dict (s : PytestSummary) : dict :=
  [("first_failing_test_nodeid", PStr (ps_nodeid s)); ("failure_message", PStr (ps_message s));
   ("assertion_text", PStr (ps_assertion s)); ("source_file", PStr (ps_file s)); ("source_line", opt_int (ps_line s));
   ("source_url", PStr (ps_url s)); ("failed_count", PInt (ps_failed s)); ("passed_count", PInt (ps_passed s));
   ("skipped_count", PInt (ps_skipped s)); ("error_count", PInt (ps_error s)); ("duration_seconds", PFloat (ps_duration s));
   ("collected_count", PInt (ps_collected s)); ("collected_tests", PList (map PStr (ps_tests s)));
   ("test.nodeid", PStr (ps_nodeid s)); ("test.file", PStr (ps_file s)); ("test.line", opt_int (ps_line s))].

(** * JUnit *)

(** An element of [xml.etree]: tag, attributes, text before the first child, children. *)
Inductive element : Type := Elem (tag : string) (attrib : list (string * string)) (text : option string) (children : list element).
Definition e_tag (e : element) := let 'Elem t _ _ _ := e in t.
Definition e_attrib (e : element) := let 'Elem _ a _ _ := e in a.
Definition e_text (e : element) := let 'Elem _ _ t _ := e in t.
Definition e_children (e : element) := let 'Elem _ _ _ c := e in c.
(** [e.attrib.get(k, dflt)] *)
Definition attr (e : element) (k dflt : string) : string := default dflt (dget k (e_attrib e)).
(** [e.find(tag)], [e.findall(tag)], [e.iter(tag)] *)
Definition e_find (tag : string) (e : element) : option element := find_first (fun x => bool_decide (e_tag x = tag)) (e_children e).
Definition e_findall (tag : string) (e : element) : list element := filterb (fun x => bool_decide (e_tag x = tag)) (e_children e).
Fixpoint e_iter (tag : string) (e : element) : list element :=
  match e with
  | Elem t _ _ cs => (if bool_decide (t = tag) then [e] else []) ++ flat_map (e_iter tag) cs
  end.

Definition int_attr (k : string) (e : element) : res Z :=
  match dget k (e_attrib e) with Some s => py_int (PStr s) | None => Ok 0%Z end.
Definition float_attr (k : string) (e : element) : res float :=
  match dget k (e_attrib e) with Some s => py_float (PStr s) | None => Ok f_zero end.

Definition sum_Z (l : list Z) (z : Z) : Z := fold_left Z.add l z.
(** [sum] of floats: compensated, as the interpreter does it after the first summand. *)
Definition f_sub : float → float → float := SFsub 53 1024.
Definition f_abs : float → float := SFabs.
Definition f_finite (f : float) : bool := match f with S754_zero _ | S754_finite _ _ _ => true | _ => false end.
Definition sum_step (acc : float * float) (x : float) : float * float :=
  let '(s, c) := acc in
  let t := f_add s x in
  (t, if f_leb (f_abs x) (f_abs s) then f_add c (f_add (f_sub s t) x) else f_add c (f_add (f_sub x t) s)).
Definition sum_float (l : list float) : pyval :=
  match l with
  | [] => PInt 0
  | x :: l' => let '(s, c) := fold_left sum_step l' (f_add f_zero x, f_zero) in
               PFloat (if f_nonzero c && f_finite c then f_add s c else s)
  end.

Definition first_line (value : string) : string := List.hd "" (splitlines value).
Definition classname_to_file (classname : string) : string :=
  if nonempty classname then replace_char "." "/" classname +:+ ".py" else "".

Definition case_file (e : element) : string :=
  let file := attr e "file" "" in if nonempty file then file else classname_to_file (attr e "classname" "").
Definition case_nodeid (e : element) : string :=
  let file := case_file e in
  if nonempty file then file +:+ "::" +:+ attr e "name" ""
  else strip_by (is_char ":") (attr e "classname" "" +:+ "::" +:+ attr e "name" "").
Definition case_failure (e : element) : option element :=
  match e_find "failure" e with Some f => Some f | None => e_find "error" e end.

(** The loop over the test cases: it stops at the first that failed. *)
Fixpoint junit_cases (tests : list string) (cases : list element) : list string * dict :=
  match cases with
  | [] => (tests, [])
  | e :: cases' =>
      let nodeid := case_nodeid e in
      let tests := if nonempty nodeid then tests ++ [nodeid] else tests in
      match case_failure e with
      | None => junit_cases tests cases'
      | Some f =>
          let text := default "" (e_text f) in
          let message := attr f "message" "" in
          (tests,
           [("first_failing_test_nodeid", PStr nodeid);
            ("failure_message", PStr (if nonempty message then message else first_line text));
            ("assertion_text", PStr text); ("source_file", PStr (case_file e));
            ("source_line", match dget "line" (e_attrib e) with Some l => PStr l | None => PNone end)])
      end
  end.

Definition parse_junit (parsed : option element) : res dict :=
  match parsed with
  | None => Ok []                                              (* ParseError or OSError *)
  | Some root =>
      let suites := if bool_decide (e_tag root = "testsuite") then [root] else e_findall "testsuite" root in
      let total k := let! l := res_mapM (int_attr k) suites in Ok (sum_Z l 0%Z) in
      let! failures := total "failures" in
      let! errors := total "errors" in
      let! skipped := total "skipped" in
      let! times := res_mapM (float_attr "time") suites in
      let! collected := total "tests" in
      let '(tests, first) := junit_cases [] (e_iter "testcase" root) in
      Ok (dupdate
            [("failed_count", PInt failures); ("error_count", PInt errors); ("skipped_count", PInt skipped);
             ("duration_seconds", sum_float times); ("collected_count", PInt collected);
             ("collected_tests", PList (map PStr tests));
             ("passed_count", PInt (Z.max 0 (collected - failures - errors - skipped)))] first)
  end.

(** * Text *)

Definition FAILED_LINE : regex := re_compile "(?m)^FAILED\s+([^\s]+)(?:\s+-\s+(.+))?$".
Definition LOCATION : regex := re_compile "(?m)^([^\s:]+\.py):(\d+):\s+(?:AssertionError|Error|FAILED)".
Definition ASSERTION : regex := re_compile "(?ms)(E\s+assert .+?)(?=\n\n|\n_{3,}|\Z)".
Definition SUMMARY : regex := re_compile "(?m)=+\s*(.*?)\s+in\s+([0-9.]+)s\s*=+".
Definition COUNT : regex := re_compile "(\d+)\s+(passed|failed|skipped|error|errors)".
Definition COLLECTED : regex := re_compile "collected\s+(\d+)\s+items?".
Definition VERDICT : regex := re_compile "(?m)^(?P<nodeid>\S+\.py(?:::\S+)+)\s+(?:PASSED|FAILED|SKIPPED|ERROR)\b".

Definition count_key (kind : string) : string :=
  if bool_decide (kind = "passed") then "passed_count"
  else if bool_decide (kind = "failed") then "failed_count"
  else if bool_decide (kind = "skipped") then "skipped_count" else "error_count".

(** [s.split("::", 1)[0]] *)
Definition before_colons (s : string) : string := match split1 "::" s with Some (a, _) => a | None => s end.
Definition dint (s : string) : res pyval := let! z := py_int (PStr s) in Ok (PInt z).

Definition text_failure (output : string) : dict :=
  match re_search FAILED_LINE output with
  | Some m => [("first_failing_test_nodeid", PStr (groupd m 1)); ("failure_message", PStr (groupd m 2));
               ("source_file", PStr (before_colons (groupd m 1)))]
  | None => []
  end.
Definition text_location (output : string) (d : dict) : res dict :=
  match re_search LOCATION output with
  | Some m => let! line := dint (groupd m 2) in Ok (dset "source_line" line (dset "source_file" (PStr (groupd m 1)) d))
  | None => Ok d
  end.
Definition text_assertion (output : string) (d : dict) : dict :=
  match re_search ASSERTION output with Some m => dset "assertion_text" (PStr (groupd m 1)) d | None => d end.
Fixpoint text_counts (ms : list rmatch) (d : dict) : res dict :=
  match ms with
  | [] => Ok d
  | m :: ms' => let! n := dint (groupd m 1) in text_counts ms' (dset (count_key (groupd m 2)) n d)
  end.
Definition text_totals (output : string) (d : dict) : res dict :=
  match re_search SUMMARY output with
  | Some m =>
      let! d := text_counts (re_finditer COUNT (groupd m 1)) d in
      let! f := py_float (PStr (groupd m 2)) in
      Ok (dset "duration_seconds" (PFloat f) d)
  | None => Ok d
  end.
Definition text_collected (output : string) (d : dict) : res dict :=
  match re_search COLLECTED output with
  | Some m => let! n := dint (groupd m 1) in Ok (dset "collected_count" n d)
  | None => Ok d
  end.
Definition collected_tests (output : string) : list string :=
  dedup_first (map (fun m => groupd m 1) (re_finditer VERDICT output)).

Definition parse_text (output : string) : res dict :=
  let! d := text_location output (text_failure output) in
  let! d := text_totals output (text_assertion output d) in
  let! d := text_collected output d in
  Ok (dset "collected_tests" (PList (map PStr (collected_tests output))) d).

(** * Merge *)

Definition line_of (v : pyval) : res (option Z) :=
  match v with
  | PInt _ | PStr _ => if isdigit (py_str v) then let! z := py_int v in Ok (Some z) else Ok None
  | _ => Ok None
  end.

Definition merge_summaries (text junit : dict) : dict :=
  dupdate text (filterb (fun kv => negb (py_eqb kv.2 PNone || py_eqb kv.2 (PStr ""))) junit).

Section collect.
Context (resolve : path → path) (os_error : path → option exn) (parse_xml : string → option element).
(** [source_url(context, file, line)] *)
Context (url : string → option Z → string).

Definition summary_of (merged : dict) : res PytestSummary :=
  let s k := py_str (dgetd merged k (PStr "")) in
  let n k := py_int (py_or (dgetd merged k (PInt 0)) (PInt 0)) in
  let file := s "source_file" in
  let! line := line_of (dget0 merged "source_line") in
  let! failed := n "failed_count" in
  let! passed := n "passed_count" in
  let! skipped := n "skipped_count" in
  let! error := n "error_count" in
  let! duration := py_float (py_or (dgetd merged "duration_seconds" (PFloat f_zero)) (PFloat f_zero)) in
  let! collected := n "collected_count" in
  let! tests := py_iter (dgetd merged "collected_tests" (PList [])) in
  Ok (Summary (s "first_failing_test_nodeid") (utake 4000 (s "failure_message")) (utake 4000 (s "assertion_text")) file line
        (if nonempty file then url file line else "") failed passed skipped error duration collected (map py_str tests)).

Definition collect_pytest (storage : RunStorage) (output : string) (junit : option path) : io fs PytestSummary :=
  let safe_output := redact_text output in
  _ ← write_text resolve os_error storage (path_of "pytest/pytest-output.txt") safe_output;
  files ← reads id;
  let found := match junit with Some p => files !! p | None => None end in
  junit_summary ← match found with Some bytes => lift (parse_junit (parse_xml bytes)) | None => mret [] end;
  text_summary ← lift (parse_text safe_output);
  summary ← lift (summary_of (merge_summaries text_summary junit_summary));
  _ ← match junit, found with
      | Some p, Some _ => _ ← copy resolve os_error storage p (path_of "pytest/pytest-junit.xml"); skip
      | _, _ => skip
      end;
  _ ← write_json resolve os_error storage (path_of "pytest/pytest-summary.json") (PDict (summary_to_dict summary));
  mret summary.
End collect.

(** * Behaviour on the inputs of the repository's own tests *)

Definition demo_output : string :=
  "collected 3 items" +:+ nl +:+ "tests/e2e/test_trade.py::test_a PASSED" +:+ nl
  +:+ "tests/e2e/test_trade.py::test_b FAILED" +:+ nl
  +:+ "E       assert 1 == 2" +:+ nl +:+ nl +:+ "tests/e2e/test_trade.py:42: AssertionError" +:+ nl
  +:+ "FAILED tests/e2e/test_trade.py::test_b - assert 1 == 2" +:+ nl
  +:+ "==== 1 failed, 2 passed in 0.12s ====" +:+ nl.
Example parse_text_ex :
  parse_text demo_output = Ok
    [("first_failing_test_nodeid", PStr "tests/e2e/test_trade.py::test_b"); ("failure_message", PStr "assert 1 == 2");
     ("source_file", PStr "tests/e2e/test_trade.py"); ("source_line", PInt 42); ("assertion_text", PStr "E       assert 1 == 2");
     ("failed_count", PInt 1); ("passed_count", PInt 2); ("duration_seconds", PFloat (f_lit 12 100)); ("collected_count", PInt 3);
     ("collected_tests", PList [PStr "tests/e2e/test_trade.py::test_a"; PStr "tests/e2e/test_trade.py::test_b"])].
Proof. vm_compute. reflexivity. Qed.
