(* ===== verification/Tracer.v ===== *)
(** Spans and their local journal ([observability/ci/honeycomb_tracer.py]).  The OpenTelemetry
    SDK and the HTTP client are parameters; the journal [telemetry/local-spans.jsonl], which is
    always written, is part of the run's files. *)
From S2P Require Import Prelude PyStr PyFloat PyVal Regex Json JsonFacts JsonIndent Hashing PyPath PyText PyIO Redaction Storage Provenance Freshness RunIndex RunContext.

(** [json.dumps(value, sort_keys=True, default=str)] *)
Definition dumps_line (v : pyval) : string := implode (print true (explode ", ") (explode ": ") (canon v)).

(** An exception as the tracer sees it: class, [str(exc)] and the rendering of
    [traceback.format_exception_only]. *)
Record seen_exn : Type := Seen { ex_cls : string; ex_msg : string; ex_rendered : string }.

(** What the SDK's calls on one span do: entering it ([start_as_current_span(...).__enter__()]),
    reading its trace id, setting an attribute, recording an exception and leaving it; [Some e]
    is a call that raises. *)
Record otel_span : Type := OtelSpan {
  ot_enter : string → dict → option exn; ot_trace : res N; ot_attribute : string → pyval → option exn; ot_record : seen_exn → option exn;
  ot_exit : option exn }.

(** [_otel_context] and [_otel_span] are set by [__enter__]. *)
Record TraceSpan : Type := Span {
  sp_name : string; sp_attributes : dict; sp_started_at : string; sp_exceptions : list pyval; sp_otel : option otel_span }.

(** [otel_tracer is not None] is [tr_otel]. *)
Record HoneycombTracer : Type := Tracer {
  tr_context : RunContext; tr_storage : RunStorage; tr_span_path : path; tr_strict : bool; tr_otel : bool }.

Definition not_blank (v : pyval) : bool := negb (py_eqb v PNone || py_eqb v (PStr "")).

Definition common_attributes (c : RunContext) : dict :=
  [("observability.run_id", run_id c); ("github.run_id", github_run_id c); ("github.run_attempt", github_run_attempt c);
   ("github.workflow", github_workflow c); ("github.job", github_job c); ("github.sha", github_sha c);
   ("github.ref", github_ref c)].

(** [tracer.span(name, attributes)] *)
Definition span (t : HoneycombTracer) (name : string) (attributes : dict) (now : string) : TraceSpan :=
  let common := dupdate (common_attributes (tr_context t)) attributes in
  Span name (redact_mapping (filterb (fun kv => not_blank kv.2) common)) now [] None.

(** [_otel_attributes] *)
Definition scalar (v : pyval) : bool := match v with PStr _ | PBool _ | PInt _ | PFloat _ => true | _ => false end.
Definition otel_value (v : pyval) : pyval :=
  match v with
  | PStr _ | PBool _ | PInt _ | PFloat _ => v
  | PList l | PTuple l => if forallb scalar l then PList l else PStr (dumps_line v)
  | _ => PStr (dumps_line v)
  end.
Definition otel_attributes (values : dict) : dict := map (fun kv => (kv.1, otel_value kv.2)) values.

(** [__enter__]: an exception of the SDK leaves it, and then neither the block nor [__exit__] runs. *)
Definition span_enter (t : HoneycombTracer) (otel : otel_span) (s : TraceSpan) : res TraceSpan :=
  if tr_otel t then
    match ot_enter otel (sp_name s) (otel_attributes (sp_attributes s)) with
    | Some e => Raise e
    | None => Ok (Span (sp_name s) (sp_attributes s) (sp_started_at s) (sp_exceptions s) (Some otel))
    end
  else Ok s.

(** [set_attribute] and [record_exception]: the span afterwards, and what the SDK's call raised. *)
Definition set_attribute (name : string) (value : pyval) (s : TraceSpan) : TraceSpan * option exn :=
  let safe := redact_value name value in
  (Span (sp_name s) (dset name safe (sp_attributes s)) (sp_started_at s) (sp_exceptions s) (sp_otel s),
   match sp_otel s with Some o => if py_eqb safe PNone then None else ot_attribute o name safe | None => None end).

Definition record_exception (e : seen_exn) (s : TraceSpan) : TraceSpan * option exn :=
  let event := PDict [("type", PStr (ex_cls e)); ("message", PStr (utake 1000 (redact_text (ex_msg e))));
                      ("stack", PStr (utake 2000 (strip (redact_text (ex_rendered e)))))] in
  (Span (sp_name s) (sp_attributes s) (sp_started_at s) (sp_exceptions s ++ [event]) (sp_otel s),
   match sp_otel s with Some o => ot_record o e | None => None end).

(** Calls on a span one after the other: the first that raises ends the sequence. *)
Definition span_then (r : TraceSpan * option exn) (f : TraceSpan → TraceSpan * option exn) : TraceSpan * option exn :=
  match r.2 with Some _ => r | None => f r.1 end.

(** [f"{value:032x}"] of the id the SDK gave the span; empty without the SDK, for the invalid id
    0, and when the SDK cannot tell. *)
Fixpoint hex_digits (n : nat) (v : N) (acc : text) : text :=
  match n with 0 => acc | S n' => hex_digits n' (v / 16) (hex_digit (v mod 16) :: acc) end.
Definition hex_len (v : N) : nat := N.to_nat (N.max 32 (N.size v / 4 + 1)).
Fixpoint drop_zeros (n : nat) (t : text) : text :=
  match n, t with S n', "0"%char :: t' => drop_zeros n' t' | _, _ => t end.
Definition hex032 (v : N) : string :=
  let ds := hex_digits (hex_len v) v [] in implode (drop_zeros (length ds - 32) ds).
Definition trace_id (otel_span : option (res N)) : string :=
  match otel_span with
  | Some (Ok v) => if (v =? 0)%N then "" else hex032 v
  | _ => ""
  end.

(** [span_for_stage] and [span_for_command]: a span of the active tracer, if there is one. *)
Definition span_for_stage (active : option HoneycombTracer) (stage_name : string) (attrs : dict) (now : string) : option TraceSpan :=
  (fun t => span t ("pipeline.stage." +:+ stage_name) (dupdate [("pipeline.stage", PStr stage_name)] attrs) now) <$> active.
Definition span_for_command (active : option HoneycombTracer) (command_name : string) (attrs : dict) (now : string) : option TraceSpan :=
  (fun t => span t ("pipeline.command." +:+ command_name) (dupdate [("pipeline.command", PStr command_name)] attrs) now) <$> active.

Section tracer.
Context (resolve : path → path) (os_error : path → option exn).

(** [open("a")] and one write; the lock makes it one step. *)
Definition append_line (target : path) (line : string) : io fs unit :=
  match os_error target with
  | Some e => throw e
  | None => modify (fun files => <[target := default "" (files !! target) +:+ line]> files)
  end.

Definition write_local_span (t : HoneycombTracer) (value : dict) : io fs unit :=
  append_line (tr_span_path t) (dumps_line (PDict value) +:+ nl).

(** [raise] when there is something to raise. *)
Definition raise_opt {S} (e : option exn) : io S unit := match e with Some e => throw e | None => skip end.

Definition span_trace_id (s : TraceSpan) : string := trace_id (ot_trace <$> sp_otel s).

(** [__exit__]: [exc] is the exception that ends the block, if any.  The calls of the SDK are not
    guarded: one that raises while the exception is recorded loses the line of the journal. *)
Definition span_exit (t : HoneycombTracer) (s : TraceSpan) (exc : option seen_exn) (ended : string) (duration_ms : float) : io fs unit :=
  let '(s, err) := match exc with Some e => record_exception e s | None => (s, None) end in
  let failed := match exc with Some _ => true | None => bool_decide (dget "error" (sp_attributes s) = Some (PBool true)) end in
  _ ← raise_opt err;
  _ ← write_local_span t
        [("name", PStr (sp_name s)); ("start_time", PStr (sp_started_at s)); ("end_time", PStr ended);
         ("duration_ms", PFloat duration_ms); ("status", PStr (if failed then "error" else "ok"));
         ("trace_id", PStr (span_trace_id s)); ("attributes", PDict (sp_attributes s)); ("exceptions", PList (sp_exceptions s))];
  raise_opt (match sp_otel s with Some o => ot_exit o | None => None end).

(** [_parse_headers] *)
Definition parse_header (result : list (string * string)) (item : string) : list (string * string) :=
  match split1 "=" item with
  | Some (key, value) => if nonempty (strip key) then dset (strip key) (strip value) result else result
  | None => result
  end.
Definition parse_headers (raw : string) : list (string * string) := fold_left parse_header (split_char "," raw) [].

(** The endpoint spans are exported to; [None] leaves the SDK off. *)
Definition otlp_endpoint (env : list (string * string)) : option string :=
  let traces_endpoint := strip (getenv env "OTEL_EXPORTER_OTLP_TRACES_ENDPOINT" "") in
  let generic := strip (getenv env "OTEL_EXPORTER_OTLP_ENDPOINT" "") in
  let api_key := strip (getenv env "HONEYCOMB_API_KEY" "") in
  let endpoint := if nonempty traces_endpoint then traces_endpoint else generic in
  let endpoint := if negb (nonempty endpoint) && nonempty api_key then "https://api.honeycomb.io" else endpoint in
  if negb (nonempty endpoint) then None
  else Some (if nonempty traces_endpoint then endpoint else rstrip (is_char "/") endpoint +:+ "/v1/traces").

Definition header_default (k v : string) (d : list (string * string)) : list (string * string) :=
  if dhas k d then d else dset k v d.
Definition otlp_headers (env : list (string * string)) : list (string * string) :=
  let headers := parse_headers (getenv env "OTEL_EXPORTER_OTLP_HEADERS" "") in
  let api_key := strip (getenv env "HONEYCOMB_API_KEY" "") in
  let headers := if nonempty api_key then header_default "x-honeycomb-team" api_key headers else headers in
  let dataset := let d := getenv env "HONEYCOMB_DATASET" "" in
                 if nonempty d then d else getenv env "HONEYCOMB_SERVICE_NAME" "" in
  if nonempty dataset then header_default "x-honeycomb-dataset" dataset headers else headers.

(** The resource of the exported spans. *)
Definition otel_resource (c : RunContext) : res dict :=
  let! sha := slice12 (github_sha c) in
  Ok [("service.name", PStr "eve-trade-ci"); ("service.version", py_or sha (PStr "local"));
      ("service.language", PStr "python"); ("deployment.environment", environment c);
      ("observability.run_id", run_id c); ("github.run_id", github_run_id c); ("github.sha", github_sha c)].

(** What importing and starting the SDK with an endpoint, headers and a resource raises. *)
Context (sdk_start : string → list (string * string) → dict → option exn).

(** [_initialize_otel]: whether [otel_tracer] was set. *)
Definition initialize_otel (env : list (string * string)) (t : HoneycombTracer) : io fs bool :=
  match otlp_endpoint env with
  | None => mret false
  | Some endpoint =>
      catch (resource ← lift (otel_resource (tr_context t));
             _ ← raise_opt (sdk_start endpoint (otlp_headers env) resource);
             mret true)
        (fun exc =>
           _ ← write_text resolve os_error (tr_storage t) (path_of "telemetry/initialization-error.txt")
                 (redact_text (exn_str exc) +:+ nl);
           if tr_strict t then throw exc else mret false)
  end.

(** [HoneycombTracer(context, enabled=enabled, strict=strict)] *)
Definition initialize_tracing (env : list (string * string)) (c : RunContext) (enabled strict : bool) : io fs HoneycombTracer :=
  storage ← init resolve os_error (ctx_run_dir c) strict;
  span_path ← path_in resolve os_error storage (path_of "telemetry/local-spans.jsonl");
  otel ← (if enabled then initialize_otel env (Tracer c storage span_path strict false) else mret false);
  mret (Tracer c storage span_path strict otel).

(** [shutdown()]: [provider] is what the provider's shutdown raises, if there is one. *)
Definition shutdown (t : HoneycombTracer) (provider : option exn) : io fs unit :=
  match provider with
  | None => skip
  | Some exc =>
      _ ← write_text resolve os_error (tr_storage t) (path_of "telemetry/shutdown-error.txt") (redact_text (exn_str exc) +:+ nl);
      if tr_strict t then throw exc else skip
  end.

(** * The triage board *)

Definition board_name := "Eve Trade CI/CD Failure Triage".
Definition board_payload : pyval :=
  let pair a b := PDict [("column", PStr a); ("alias", PStr b)] in
  PDict [("name", PStr board_name);
    ("description", PStr "Entry point for Eve Trade observed-run traces, failures, and BubbleUp investigations.");
    ("type", PStr "flexible"); ("layout_generation", PStr "manual");
    ("preset_filters", PList [pair "observability.run_id" "Run ID"; pair "service.name" "Service";
                              pair "test.failure_family" "Failure family"]);
    ("panels", PList [PDict [("type", PStr "text");
       ("text_panel", PDict [("content", PStr ("# Eve Trade failure triage" +:+ nl +:+ "Filter by `observability.run_id`, select failed or slow spans, then run BubbleUp against the baseline."))]);
       ("position", PDict [("x_coordinate", PInt 0); ("y_coordinate", PInt 0); ("height", PInt 4); ("width", PInt 12)])]]);
    ("tags", PList [PDict [("key", PStr "project"); ("value", PStr "eve-trade")];
                    PDict [("key", PStr "purpose"); ("value", PStr "ci-failure-triage")]])].

Definition boards_of (existing : pyval) : res (list pyval) :=
  match existing with
  | PList l => Ok l
  | PDict d => match dgetd d "boards" (PList []) with
               | PList l | PTuple l => Ok l
               | PDict d' => Ok (map (fun kv => PStr kv.1) d')
               | PStr s => Ok (map PStr (chars s))
               | _ => Raise TypeError
               end
  | _ => Ok []
  end.
Definition is_board (item : pyval) : bool :=
  match item with PDict d => py_eqb (dget0 d "name") (PStr board_name) | _ => false end.

(** [_honeycomb_json_request]: [urlopen] is given the method, the address and the body, and
    answers with the bytes of the response. *)
Definition honeycomb_json_request (urlopen : string → string → option string → res string) (url : string) (payload : option pyval) : res pyval :=
  let data := (fun v => implode (print true (explode ", ") (explode ": ") v)) <$> payload in
  let! body := urlopen (match data with Some _ => "POST" | None => "GET" end) url data in
  match utf8_decode body with
  | None => Raise (ValueError "UnicodeDecodeError")
  | Some text => match loads text with Some v => Ok v | None => Raise (ValueError "JSONDecodeError") end
  end.

(** The request, and the class of an exception. *)
Context (request : string → option pyval → res pyval) (exn_cls : exn → string).

Definition ensure_triage_board (env : list (string * string)) (c : RunContext) (strict : bool) : io fs dict :=
  storage ← init resolve os_error (ctx_run_dir c) strict;
  let configuration_key := strip (getenv env "HONEYCOMB_CONFIGURATION_KEY" "") in
  if negb (nonempty configuration_key) then
    mret [("configured", PBool false); ("reason", PStr "HONEYCOMB_CONFIGURATION_KEY unavailable")]
  else
    let api_base := rstrip (is_char "/") (getenv env "HONEYCOMB_API_BASE_URL" "https://api.honeycomb.io") in
    let url := api_base +:+ "/1/boards" in
    let put v := write_json resolve os_error storage (path_of "honeycomb-board.json") v in
    catch
      (existing ← lift (request url None);
       boards ← lift (boards_of existing);
       found ← (match find_first is_board boards with
                | Some board => mret (board, "existing")
                | None => board ← lift (request url (Some board_payload)); mret (board, "created")
                end);
       id ← lift (py_get_or found.1 "id" (PStr ""));
       let result := [("configured", PBool true); ("action", PStr found.2); ("board_id", id); ("board_name", PStr board_name)] in
       _ ← put (PDict result);
       mret result)
      (fun exc =>
         let result := [("configured", PBool false); ("error", PStr (redact_text (exn_cls exc +:+ ": " +:+ exn_str exc)))] in
         _ ← put (PDict result);
         if strict then throw exc else mret result).
End tracer.

Example trace_id_ex :
  trace_id (Some (Ok 255%N)) = "000000000000000000000000000000ff" ∧ trace_id None = ""
  ∧ trace_id (Some (Ok (2 ^ 128)%N)) = "100000000000000000000000000000000".
Proof. vm_compute. done. Qed.
Example parse_headers_ex : parse_headers "a = 1,b,=x,c=d=e" = [("a", "1"); ("c", "d=e")].
Proof. vm_compute. reflexivity. Qed.
Example endpoint_ex :
  otlp_endpoint [("HONEYCOMB_API_KEY", "k")] = Some "https://api.honeycomb.io/v1/traces"
  ∧ otlp_endpoint [] = None ∧ otlp_endpoint [("OTEL_EXPORTER_OTLP_TRACES_ENDPOINT", "http://c/t/")] = Some "http://c/t/".
Proof. vm_compute. done. Qed.
