(* ===== verification/Sentry.v ===== *)
(** Best-effort issue reporting ([observability/ci/sentry_reporter.py] and
    [observability/sentry/sentry_config.py]).  The SDK, [sentry-cli] and the operator's hook
    are parameters; the reporter's own state is the id of the event it sent. *)
From S2P Require Import Prelude PyStr PyFloat PyVal Regex Json JsonFacts JsonIndent Hashing PyPath PyText PyIO Redaction Storage Provenance Freshness RunIndex RunContext Links.

Definition release_name (env : list (string * string)) : pyval :=
  let sha := getenv env "GITHUB_SHA" "" in if nonempty sha then PStr sha else PNone.
Definition traces_sample_rate (env : list (string * string)) : res float :=
  match py_float (PStr (getenv env "SENTRY_TRACES_SAMPLE_RATE" "0.1")) with
  | Raise (ValueError _) => Ok (f_lit 1 10)
  | r => r
  end.

(** [shlex.split(s)] in POSIX mode: the word being read, whether one was begun, the words
    before it. [None] is [ValueError]: an open quotation or a trailing escape. *)
Inductive shmode : Type := ShPlain | ShSingle | ShDouble.
Fixpoint shlex_go (mode : shmode) (begun : bool) (word : string) (s : string) : option (list string) :=
  match s, mode with
  | "", ShPlain => Some (if begun then [word] else [])
  | "", _ => None
  | String c s', ShPlain =>
      if is_char " " c || is_char (chr 9) c || is_char ch_nl c || is_char (chr 13) c
      then (if begun then cons word else id) <$> shlex_go ShPlain false "" s'
      else if is_char ch_sq c then shlex_go ShSingle true word s'
      else if is_char ch_dq c then shlex_go ShDouble true word s'
      else if is_char ch_bs c then
        match s' with String d s'' => shlex_go ShPlain true (word +:+ str1 d) s'' | "" => None end
      else shlex_go ShPlain true (word +:+ str1 c) s'
  | String c s', ShSingle =>
      if is_char ch_sq c then shlex_go ShPlain true word s' else shlex_go ShSingle true (word +:+ str1 c) s'
  | String c s', ShDouble =>
      if is_char ch_dq c then shlex_go ShPlain true word s'
      else if is_char ch_bs c then
        match s' with
        | String d s'' => shlex_go ShDouble true (word +:+ (if is_char ch_dq d || is_char ch_bs d then str1 d else bs +:+ str1 d)) s''
        | "" => None
        end
      else shlex_go ShDouble true (word +:+ str1 c) s'
  end.
Definition shlex_split (s : string) : res (list string) :=
  match shlex_go ShPlain false "" s with Some l => Ok l | None => Raise (ValueError "No closing quotation") end.

Record SentryReporter : Type := Reporter { se_context : RunContext; se_storage : RunStorage; se_strict : bool; se_sdk : bool }.

(** What a call of the SDK does: importing it, [init] with or without [enable_logs], the message
    id of an event, or an exception. *)
Record sdk_calls : Type := Sdk {
  sdk_import : option exn; sdk_init : bool → dict → option exn; sdk_breadcrumb : option exn; sdk_capture : dict → dict → string → res pyval; sdk_flush : option exn }.

Section sentry.
Context (env : list (string * string)) (resolve : path → path) (os_error : path → option exn).
Context (sdk : sdk_calls).

Abbreviation wtext := (write_text resolve os_error).

Definition record_error (self : RunStorage) (phase : string) (exc : exn) : io fs unit :=
  _ ← wtext self (path_of ("sentry-" +:+ phase +:+ "-error.txt")) (redact_text (exn_str exc) +:+ nl); skip.

Definition sentry_environment : string :=
  let name := getenv env "OBSERVABILITY_ENV" "" in
  if nonempty name then name else if nonempty (getenv env "GITHUB_ACTIONS" "") then "github-actions" else "local".
Definition sentry_options : res dict :=
  let! rate := traces_sample_rate env in
  Ok [("dsn", match dget "SENTRY_DSN" env with Some dsn => PStr dsn | None => PNone end);
      ("environment", PStr sentry_environment); ("release", release_name env); ("traces_sample_rate", PFloat rate);
      ("send_default_pii", PBool false); ("max_breadcrumbs", PInt 50)].

(** [_initialize]: whether the SDK is in use afterwards.  An SDK that does not know
    [enable_logs] is started without it. *)
Definition initialize (storage : RunStorage) (strict : bool) : io fs bool :=
  catch
    (_ ← lift (match sdk_import sdk with Some e => Raise e | None => Ok () end);
     options ← lift sentry_options;
     _ ← lift (match sdk_init sdk true options with
               | None => Ok ()
               | Some TypeError => match sdk_init sdk false options with Some e => Raise e | None => Ok () end
               | Some e => Raise e
               end);
     mret true)
    (fun exc => _ ← record_error storage "initialization" exc; if strict then throw exc else mret false).

(** [SentryReporter(context, enabled=enabled, strict=strict)] *)
Definition sentry_init (c : RunContext) (enabled strict : bool) : io fs SentryReporter :=
  storage ← init resolve os_error (ctx_run_dir c) strict;
  sdk ← (if enabled && nonempty (getenv env "SENTRY_DSN" "") then initialize storage strict else mret false);
  mret (Reporter c storage strict sdk).

Definition breadcrumb (self : SentryReporter) : io fs unit :=
  if se_sdk self then
    match sdk_breadcrumb sdk with Some exc => record_error (se_storage self) "breadcrumb" exc | None => skip end
  else skip.

Record failure_event : Type := FailureEvent {
  fe_command : string; fe_argv : list string; fe_exit_code : Z; fe_stage : string; fe_artifact : string;
  fe_family : string; fe_nodeid : string; fe_sources : list string; fe_trace_url : string; fe_actions_url : string }.

(** The tags with a value, and the context of the event: the arguments masked. *)
Definition event_tags (c : RunContext) (e : failure_event) : dict :=
  filterb (fun kv => truthy kv.2)
    [("observability.run_id", run_id c); ("github.run_id", github_run_id c); ("github.sha", github_sha c);
     ("github.ref", github_ref c); ("pipeline.command", PStr (fe_command e)); ("pipeline.stage", PStr (fe_stage e));
     ("failure_family", PStr (fe_family e)); ("failed_test_nodeid", PStr (fe_nodeid e))].
Definition event_context (e : failure_event) : dict :=
  [("argv", PList (map PStr (safe_argv (fe_argv e)))); ("exit_code", PInt (fe_exit_code e));
   ("artifact_path", PStr (fe_artifact e)); ("first_failing_test", PStr (fe_nodeid e));
   ("source_links", PList (map PStr (fe_sources e))); ("honeycomb_trace_url", PStr (fe_trace_url e));
   ("github_actions_url", PStr (fe_actions_url e))].

Definition set_event (id : string) : io world unit := modify (fun w => World (w_files w) (w_index w) id).

Definition capture_command_failure (self : SentryReporter) (e : failure_event) : io world string :=
  event ← reads w_event;
  if negb (se_sdk self) || nonempty event then mret event
  else
    catch
      (id ← lift (sdk_capture sdk (event_tags (se_context self) e) (event_context e)
                    ("Eve Trade observed command failed: " +:+ fe_command e));
       let id := py_str (py_or id (PStr "")) in
       _ ← set_event id;
       _ ← on_files (write_json resolve os_error (se_storage self) (path_of "sentry-event.json")
             (PDict [("sentry_event_id", PStr id); ("sentry.event_id", PStr id); ("url", PStr (sentry_event_url env id))]));
       mret id)
      (fun exc =>
         _ ← on_files (record_error (se_storage self) "capture" exc);
         if se_strict self then throw exc else mret "").

(** [which("sentry-cli")] and its runs: the status and output, or an uncaught exception. *)
Context (have_cli : bool) (run_cli : list string → res (Z * string)).

Definition release_commands (release : string) : list (list string) :=
  [["sentry-cli"; "releases"; "new"; release];
   ["sentry-cli"; "releases"; "set-commits"; release; "--auto"; "--ignore-missing"];
   ["sentry-cli"; "releases"; "finalize"; release]].

Definition release_step (strict : bool) (argv : list string) : res (Z * pyval) :=
  let! r := run_cli argv in
  let '(rc, out) := r in
  if negb (rc =? 0)%Z && strict
  then Raise (RuntimeError ("Sentry release command failed: " +:+ py_str (PList (map PStr (take 3 argv)))))
  else Ok (rc, PDict [("argv", PList (map PStr (take 3 argv))); ("exit_code", PInt rc);
                      ("output", PStr (ulast 1000 (redact_text (decode_output out))))]).

Definition configure_release_cli (self : SentryReporter) : io fs dict :=
  let required := ["SENTRY_AUTH_TOKEN"; "SENTRY_ORG"; "SENTRY_PROJECT"] in
  match release_name env with
  | PStr release =>
      if have_cli && forallb (fun name => nonempty (getenv env name "")) required then
        results ← lift (res_mapM (release_step (se_strict self)) (release_commands release));
        _ ← write_json resolve os_error (se_storage self) (path_of "sentry-release.json") (PList (map snd results));
        mret [("configured", PBool (forallb (fun r => (r.1 =? 0)%Z) results)); ("results", PList (map snd results))]
      else mret [("configured", PBool false); ("reason", PStr "sentry-cli, release, or required credentials unavailable")]
  | _ => mret [("configured", PBool false); ("reason", PStr "sentry-cli, release, or required credentials unavailable")]
  end.

Definition run_optional_autofix_hook (self : SentryReporter) (event : string) : io fs dict :=
  let command := strip (getenv env "SENTRY_AUTOFIX_COMMAND" "") in
  if negb (nonempty command) || negb (nonempty event) then
    mret [("invoked", PBool false); ("reason", PStr "SENTRY_AUTOFIX_COMMAND or Sentry event ID unavailable")]
  else
    words ← lift (shlex_split command);
    let argv := words ++ [event] in
    catch
      (r ← lift (run_cli argv);
       let metadata := [("invoked", PBool true); ("argv", PList (map PStr (safe_argv argv))); ("exit_code", PInt r.1);
                        ("output", PStr (ulast 2000 (redact_text (decode_output r.2))))] in
       _ ← write_json resolve os_error (se_storage self) (path_of "sentry-autofix-hook.json") (PDict metadata);
       if negb (r.1 =? 0)%Z && se_strict self then throw (RuntimeError "operator-supplied Sentry Autofix hook failed")
       else mret metadata)
      (fun exc =>
         _ ← record_error (se_storage self) "autofix" exc;
         if se_strict self then throw exc
         else mret [("invoked", PBool true); ("error", PStr (redact_text (exn_str exc)))]).

Definition flush (self : SentryReporter) : io fs unit :=
  if se_sdk self then
    match sdk_flush sdk with Some exc => record_error (se_storage self) "flush" exc | None => skip end
  else skip.
End sentry.

Example shlex_ex :
  shlex_split ("fix --msg 'a b' x\ y " +:+ dq +:+ "q\" +:+ dq +:+ dq) = Ok ["fix"; "--msg"; "a b"; "x y"; "q" +:+ dq].
Proof. vm_compute. reflexivity. Qed.
