(* ===== verification/BestEffort.v ===== *)
(** Tracing and issue reporting are best effort: outside strict mode, in a run directory that can
    be written, no behaviour of the SDKs, the exporter or the remote services makes an operation
    of [honeycomb_tracer.py] or [sentry_reporter.py] raise. *)
From S2P Require Import Prelude PyStr PyFloat PyVal Regex Json JsonFacts JsonIndent Hashing PyPath PyText PyIO Redaction Storage Provenance Freshness RunIndex RunContext RunContextFacts Links Tracer Sentry.

(** * Computations that return *)

Definition returns {S A} (m : io S A) : Prop := ∀ s, ∃ a s', m s = (Ok a, s').

Section returns.
Context {S : Type}.
Lemma returns_ret {A} (a : A) : returns (S := S) (mret a).
Proof. intros s. by eexists _, _. Qed.
Lemma returns_skip : returns (S := S) skip.
Proof. apply returns_ret. Qed.
Lemma returns_reads {A} (f : S → A) : returns (reads f).
Proof. intros s. by eexists _, _. Qed.
Lemma returns_modify (f : S → S) : returns (modify f).
Proof. intros s. by eexists _, _. Qed.
Lemma returns_seq {A B} (m : io S A) (f : A → io S B) : returns m → (∀ a, returns (f a)) → returns (m ≫= f).
Proof. intros Hm Hf s. unfold mbind, io_bind. destruct (Hm s) as (a & s' & ->). apply Hf. Qed.
(** The body of a [try] may do anything when its handler returns. *)
Lemma returns_catch {A} (m : io S A) h : (∀ e, returns (h e)) → returns (catch m h).
Proof.
  intros Hh s. unfold catch. destruct (m s) as [[a|e] s'] eqn:E; [by eexists _, _|apply Hh].
Qed.
End returns.
Lemma returns_on_files {A} (m : io fs A) : returns m → returns (on_files m).
Proof. intros Hm w. unfold on_files. destruct (Hm (w_files w)) as (a & s' & ->). by eexists _, _. Qed.

Create HintDb returns.
#[export] Hint Resolve returns_ret returns_skip returns_reads returns_modify returns_catch returns_on_files : returns.
(** Reduce [returns m] along the structure of [m]. *)
Ltac returns_step :=
  match goal with
  | |- returns (_ ≫= _) => apply returns_seq; [|intros ?]
  | |- returns (catch _ _) => apply returns_catch; intros ?
  | |- returns (match ?x with _ => _ end) => destruct x
  | |- returns _ => solve [auto with returns]
  end.
Ltac returns_auto := repeat returns_step.

(** * A writable run directory *)

(** The artifacts the two modules write. *)
Definition TELEMETRY : list string :=
  ["sentry-initialization-error.txt"; "sentry-breadcrumb-error.txt"; "sentry-capture-error.txt"; "sentry-flush-error.txt";
   "sentry-event.json"; "telemetry/initialization-error.txt"; "telemetry/local-spans.jsonl"; "telemetry/shutdown-error.txt";
   "honeycomb-board.json"].

(** Creating files works, and none of these names leads out of the directory. *)
Record writable (resolve : path → path) (os_error : path → option exn) (dir : path) : Prop := {
  no_os_error : ∀ p, os_error p = None;
  resolved : resolve dir = dir;
  names_inside : ∀ name strict, name ∈ TELEMETRY → escapes (Storage dir strict) (resolve (path_join dir (path_of name))) = false }.

(** Calls of the OpenTelemetry SDK that do not raise, as its specification asks: the API must not
    throw into the code it instruments. *)
Record quiet (o : otel_span) : Prop := {
  q_enter : ∀ name attributes, ot_enter o name attributes = None;
  q_attribute : ∀ name v, ot_attribute o name v = None;
  q_record : ∀ e, ot_record o e = None;
  q_exit : ot_exit o = None }.
Definition span_quiet (s : TraceSpan) : Prop := ∀ o, sp_otel s = Some o → quiet o.

(** A [with] block on a span: entering, calls on the span, leaving. *)
Inductive span_call : Type :=
| SetAttribute (name : string) (value : pyval)
| RecordException (e : seen_exn).
Definition call_span (s : TraceSpan) (k : span_call) : TraceSpan * option exn :=
  match k with SetAttribute name value => set_attribute name value s | RecordException e => record_exception e s end.
Definition call_all (ks : list span_call) (s : TraceSpan) : TraceSpan * option exn :=
  fold_left (fun r k => span_then r (fun s => call_span s k)) ks (s, None).

Lemma call_span_quiet s k : span_quiet s → (call_span s k).2 = None ∧ sp_otel (call_span s k).1 = sp_otel s.
Proof.
  intros Hq. destruct k as [name value|e]; cbn; (split; [|done]); destruct (sp_otel s) as [o|] eqn:E; try done.
  - destruct (py_eqb _ _); [done|]. apply (q_attribute _ (Hq o E)).
  - apply (q_record _ (Hq o E)).
Qed.
Lemma call_all_quiet ks s : span_quiet s → ∃ s', call_all ks s = (s', None) ∧ sp_otel s' = sp_otel s.
Proof.
  unfold call_all. revert s. induction ks as [|k ks IH]; intros s Hq; [by exists s|]. cbn [fold_left].
  change (span_then (s, None) (fun s => call_span s k)) with (call_span s k).
  destruct (call_span_quiet s k Hq) as [He Ho]. destruct (call_span s k) as [s1 err]. cbn [fst snd] in He, Ho. subst err.
  destruct (IH s1) as (s' & Hs & Ho'); [by unfold span_quiet; rewrite Ho|]. exists s'. split; [done|congruence].
Qed.

Section best_effort.
Context (resolve : path → path) (os_error : path → option exn) (c : RunContext).
Context (Hw : writable resolve os_error (ctx_run_dir c)).
Abbreviation here := (Storage (ctx_run_dir c) false).

Lemma returns_path_in name : bool_decide (name ∈ TELEMETRY) = true → returns (path_in resolve os_error here (path_of name)).
Proof.
  intros Hn%bool_decide_eq_true_1. unfold path_in. cbn [run_dir]. rewrite (names_inside _ _ _ Hw) by done.
  rewrite (no_os_error _ _ _ Hw). apply returns_ret.
Qed.
Lemma returns_write_text name text : bool_decide (name ∈ TELEMETRY) = true → returns (write_text resolve os_error here (path_of name) text).
Proof.
  intros Hn. unfold write_text. apply returns_seq; [by apply returns_path_in|]. intros p.
  apply returns_seq; [|intros ?; apply returns_ret]. unfold atomic_write. rewrite (no_os_error _ _ _ Hw). apply returns_modify.
Qed.
Lemma returns_after_init {A} (f : RunStorage → io fs A) : returns (f here) → returns (st ← init resolve os_error (ctx_run_dir c) false; f st).
Proof.
  intros Hf s. unfold mbind, io_bind, init. rewrite (resolved _ _ _ Hw), (no_os_error _ _ _ Hw). apply Hf.
Qed.
Lemma returns_record_error phase e :
  bool_decide (("sentry-" +:+ phase +:+ "-error.txt") ∈ TELEMETRY) = true → returns (record_error resolve os_error here phase e).
Proof. intros Hp. unfold record_error. apply returns_seq; [by apply returns_write_text|intros ?; apply returns_ret]. Qed.

Lemma returns_sentry_init env sdk enabled : returns (sentry_init env resolve os_error sdk c enabled false).
Proof.
  unfold sentry_init. apply returns_after_init. unfold initialize.
  returns_auto. by apply returns_record_error.
Qed.
Lemma returns_breadcrumb sdk used : returns (breadcrumb resolve os_error sdk (Reporter c here false used)).
Proof. unfold breadcrumb. cbn [se_sdk se_storage]. returns_auto; by apply returns_record_error. Qed.
Lemma returns_flush sdk used : returns (flush resolve os_error sdk (Reporter c here false used)).
Proof. unfold flush. cbn [se_sdk se_storage]. returns_auto; by apply returns_record_error. Qed.
Lemma returns_capture env sdk used e : returns (capture_command_failure env resolve os_error sdk (Reporter c here false used) e).
Proof.
  unfold capture_command_failure. cbn [se_sdk se_storage se_strict].
  apply returns_seq; [apply returns_reads|]. intros event. destruct (_ || _); [apply returns_ret|].
  apply returns_catch. intros exc. apply returns_seq; [|intros ?; apply returns_ret].
  by apply returns_on_files, returns_record_error.
Qed.

Lemma returns_tracing sdk_start env enabled : returns (initialize_tracing resolve os_error sdk_start env c enabled false).
Proof.
  unfold initialize_tracing. apply returns_after_init. apply returns_seq; [by apply returns_path_in|]. intros p.
  apply returns_seq; [|intros ?; apply returns_ret]. destruct enabled; [|apply returns_ret].
  unfold initialize_otel. cbn [tr_storage tr_strict]. returns_auto. by apply returns_write_text.
Qed.
Lemma returns_span_exit t s exc ended ms : span_quiet s → returns (span_exit os_error t s exc ended ms).
Proof.
  intros Hq. unfold span_exit, write_local_span, append_line.
  assert ((match exc with Some e => record_exception e s | None => (s, None) end).2 = None
          ∧ sp_otel (match exc with Some e => record_exception e s | None => (s, None) end).1 = sp_otel s) as [Hr Ho].
  { destruct exc; [|done]. split; [|done]. cbn. destruct (sp_otel s) as [o|] eqn:E; [|done]. by apply (q_record _ (Hq o E)). }
  destruct (match exc with Some e => record_exception e s | None => (s, None) end) as [s1 err]. cbn [fst snd] in Hr, Ho. subst err.
  rewrite (no_os_error _ _ _ Hw), Ho. cbn [raise_opt]. returns_auto.
  destruct (sp_otel s) as [o|] eqn:E; [|apply returns_skip]. rewrite (q_exit _ (Hq o E)). apply returns_skip.
Qed.
Lemma returns_shutdown p otel provider : returns (shutdown resolve os_error (Tracer c here p false otel) provider).
Proof. unfold shutdown. cbn [tr_storage tr_strict]. returns_auto; by apply returns_write_text. Qed.
Lemma returns_board request cls env : returns (ensure_triage_board resolve os_error request cls env c false).
Proof.
  unfold ensure_triage_board. apply returns_after_init. cbv zeta. returns_auto. by apply returns_write_text.
Qed.
End best_effort.

(** * Claims *)

(** C17: Telemetry never breaks a run.  Outside strict mode and in a writable run directory,
    whatever the Sentry SDK, the start and the shutdown of the OpenTelemetry SDK and the Honeycomb
    API do, creating the reporter and the tracer, recording breadcrumbs, capturing a failure,
    flushing, shutting the tracer down and looking for the triage board all return; the release
    command line and the autofix hook, which start programs, are not among them.  The calls on a
    span are not guarded: entering a span, any sequence of attributes and exceptions, and leaving
    it return when no SDK was started, or when the SDK's own calls on spans do not raise; and an
    error of entering or leaving the SDK's span does leave the [with] statement. *)
Theorem telemetry_never_raises resolve os_error c sdk sdk_start request cls env :
  writable resolve os_error (ctx_run_dir c) →
  (∀ enabled, returns (sentry_init env resolve os_error sdk c enabled false) ∧ returns (initialize_tracing resolve os_error sdk_start env c enabled false))
  ∧ (∀ used, let reporter := Reporter c (Storage (ctx_run_dir c) false) false used in
       returns (breadcrumb resolve os_error sdk reporter) ∧ returns (flush resolve os_error sdk reporter)
       ∧ ∀ event, returns (capture_command_failure env resolve os_error sdk reporter event))
  ∧ (∀ p otel provider, returns (shutdown resolve os_error (Tracer c (Storage (ctx_run_dir c) false) p false otel) provider))
  ∧ returns (ensure_triage_board resolve os_error request cls env c false)
  ∧ (∀ t o name attributes now, tr_otel t = false ∨ quiet o →
       ∃ s, span_enter t o (span t name attributes now) = Ok s
         ∧ ∀ ks, ∃ s', call_all ks s = (s', None) ∧ ∀ exc ended ms, returns (span_exit os_error t s' exc ended ms))
  ∧ (∀ t o s e, tr_otel t = true → ot_enter o (sp_name s) (otel_attributes (sp_attributes s)) = Some e → span_enter t o s = Raise e)
  ∧ (∀ t o s e ended ms files, sp_otel s = Some o → ot_exit o = Some e → (span_exit os_error t s None ended ms files).1 = Raise e).
Proof.
  intros Hw. split_and!.
  - intros enabled. split; [by apply returns_sentry_init|by apply returns_tracing].
  - intros used. split_and!; [by apply returns_breadcrumb|by apply returns_flush|]. intros event. by apply returns_capture.
  - intros p otel provider. by apply returns_shutdown.
  - by apply returns_board.
  - intros t o name attributes now Hq.
    assert (∃ s, span_enter t o (span t name attributes now) = Ok s ∧ span_quiet s) as (s & Hs & Hsq).
    { unfold span_enter. destruct (tr_otel t); [|by eexists]. destruct Hq as [|Hq]; [done|]. rewrite (q_enter _ Hq).
      eexists. split; [done|]. by intros o' [= <-]. }
    exists s. split; [done|]. intros ks. destruct (call_all_quiet ks s Hsq) as (s' & Hc & Ho). exists s'. split; [done|].
    intros exc ended ms. apply (returns_span_exit resolve os_error c); [done|]. unfold span_quiet. by rewrite Ho.
  - intros t o s e Ht He. unfold span_enter. by rewrite Ht, He.
  - intros t o s e ended ms files Ho He. unfold span_exit, write_local_span, append_line.
    rewrite (no_os_error _ _ _ Hw), Ho, He. done.
Qed.

Lemma telemetry_never_raises_witness :
  returns (sentry_init [("SENTRY_DSN", "https://k@h/1")] id (fun _ => None)
             (Sdk None (fun _ _ => Some TypeError) (Some KeyError) (fun _ _ _ => Raise KeyError) (Some KeyError)) demo_context true false).
Proof.
  apply (telemetry_never_raises id (fun _ => None) demo_context
           (Sdk None (fun _ _ => Some TypeError) (Some KeyError) (fun _ _ _ => Raise KeyError) (Some KeyError))
           (fun _ _ _ => None) (fun _ _ => Raise KeyError) (fun _ => "KeyError")).
  constructor; [reflexivity|reflexivity|].
  intros name strict Hn. unfold TELEMETRY in Hn.
  repeat (apply elem_of_cons in Hn as [->|Hn]; [destruct strict; vm_compute; reflexivity|]). by apply elem_of_nil in Hn.
Defined.
