(* ===== verification/RunCommand.v ===== *)
(** Execution of one command with its artifacts ([observability/ci/run_command.py]): masked
    arguments and output, a manifest before the process starts, a log and metadata after it,
    a span and an optional Sentry event.  The process itself is a parameter. *)
From S2P Require Import Prelude PyStr PyFloat PyVal Regex Json JsonFacts JsonIndent Hashing PyPath PyText PyIO Redaction Storage Provenance Freshness RunIndex RunContext Links Tracer Sentry.

Record CommandResult : Type := Result {
  cr_name : string; cr_stage : string; cr_argv : list string; cr_exit_code : Z; cr_started_at : string;
  cr_ended_at : string; cr_duration_ms : float; cr_stdout : string; cr_stderr : string; cr_metadata_path : string;
  cr_log_path : string; cr_trace_id : string; cr_timed_out : bool; cr_command_id : string; cr_stage_id : string;
  cr_cwd : string; cr_expected_artifacts : pyval; cr_dependencies : pyval; cr_timeout_seconds : pyval }.

#[export] Instance result_eq_dec : EqDecision CommandResult.
Proof. intros x y. unfold Decision. decide equality; try apply spec_float_eq_dec; solve_decision. Defined.

Definition succeeded (r : CommandResult) : bool := (cr_exit_code r =? 0)%Z.

(** [asdict(result)] *)
Definition result_fields (r : CommandResult) : dict :=
  [("name", PStr (cr_name r)); ("stage", PStr (cr_stage r)); ("argv", PList (map PStr (cr_argv r)));
   ("exit_code", PInt (cr_exit_code r)); ("started_at", PStr (cr_started_at r)); ("ended_at", PStr (cr_ended_at r));
   ("duration_ms", PFloat (cr_duration_ms r)); ("stdout", PStr (cr_stdout r)); ("stderr", PStr (cr_stderr r));
   ("metadata_path", PStr (cr_metadata_path r)); ("log_path", PStr (cr_log_path r)); ("trace_id", PStr (cr_trace_id r));
   ("timed_out", PBool (cr_timed_out r)); ("command_id", PStr (cr_command_id r)); ("stage_id", PStr (cr_stage_id r));
   ("cwd", PStr (cr_cwd r)); ("expected_artifacts", cr_expected_artifacts r); ("dependencies", cr_dependencies r);
   ("timeout_seconds", cr_timeout_seconds r)].

Definition to_dict (include_output : bool) (r : CommandResult) : dict :=
  let value := if include_output then result_fields r else ddel "stderr" (ddel "stdout" (result_fields r)) in
  dupdate value
    [("pipeline.command", PStr (cr_name r)); ("pipeline.stage", PStr (cr_stage r));
     ("command.argv", PList (map PStr (cr_argv r))); ("command.exit_code", PInt (cr_exit_code r));
     ("command.duration_ms", PFloat (cr_duration_ms r)); ("artifact.path", PStr (cr_log_path r))].

(** What the process did: it ended, it ran into the time limit with what it had written (bytes
    or text), or it could not be started. *)
Inductive partial_output : Type := NoOutput | OutBytes (b : string) | OutText (s : string).
Inductive outcome : Type :=
| Ended (rc : Z) (stdout stderr : string)
| TimedOut (stdout stderr : partial_output) (e : seen_exn)
| NotStarted (e : seen_exn).

Definition decode_timeout (v : partial_output) : string :=
  match v with NoOutput => "" | OutBytes b => decode_replace b | OutText s => s end.

(** Exit status, standard output, standard error, the time-limit flag and the exception the
    span records. *)
Definition observe (o : outcome) (timeout : pyval) : Z * string * string * bool * option seen_exn :=
  match o with
  | Ended rc out err => (rc, decode_output out, decode_output err, false, None)
  | TimedOut out err e =>
      (124%Z, decode_timeout out,
       decode_timeout err +:+ nl +:+ "command timed out after " +:+ py_str timeout +:+ "s" +:+ nl, true, Some e)
  | NotStarted e => (127%Z, "", ex_cls e +:+ ": " +:+ ex_msg e +:+ nl, false, Some e)
  end.

Section safe_name.
(** [str.isalnum] on characters outside ASCII. *)
Context (uni_alnum : string → bool).

Definition alnum_char (ch : string) : bool :=
  match ch with String c "" => if is_ascii_char c then is_alnum c else uni_alnum ch | _ => uni_alnum ch end.
Definition safe_char (ch : string) : string :=
  if alnum_char ch || bool_decide (ch = "-") || bool_decide (ch = "_") then ch else "-".
Definition safe_name (value : string) : string :=
  let s := strip_by (is_char "-") (join "" (map safe_char (chars value))) in
  if nonempty s then s else "command".

Definition command_dir (stage name : string) : path := Path false ["commands"; safe_name stage; safe_name name].
End safe_name.

(** The text of the log. *)
Definition log_body (argv : list string) (cwd : path) (exit_code : Z) (duration_ms : float) (out err : string) : string :=
  "command: " +:+ join " " argv +:+ nl +:+
  "cwd: " +:+ path_str cwd +:+ nl +:+
  "exit_code: " +:+ str_of_Z exit_code +:+ nl +:+
  "duration_ms: " +:+ f_repr duration_ms +:+ nl +:+
  nl +:+ "--- stdout ---" +:+ nl +:+ out +:+ nl +:+ "--- stderr ---" +:+ nl +:+ err.

(** One request to run a command, and the process behind it. *)
Record request : Type := Request {
  rq_argv : list string; rq_name : string; rq_stage : string; rq_cwd : option path; rq_env : list (string * string);
  rq_timeout : pyval; rq_report : bool }.

(** What the call measures: clock before and after, duration, and what the SDK does with its span. *)
Record timing : Type := Timing { tm_started : string; tm_ended : string; tm_duration : float; tm_otel : otel_span }.

Section run.
Context (env : list (string * string)) (resolve : path → path) (os_error : path → option exn) (uni_alnum : string → bool).
Context (sdk : sdk_calls).
(** [subprocess.run(argv, cwd=, env=, timeout=)]: its outcome, and what the process does to the
    files. *)
Context (effects : list string → fs → fs).
Context (exec : list string → path → list (string * string) → pyval → outcome) (measure : request → timing).
(** How an exception of the SDK prints. *)
Context (seen : exn → seen_exn).

Definition command_manifest (rq : request) (cwd : path) (started : string) : dict :=
  [("schema_version", PStr "o11y.command-manifest.v1"); ("command_id", PStr (safe_name uni_alnum (rq_name rq)));
   ("stage_id", PStr (safe_name uni_alnum (rq_stage rq))); ("name", PStr (rq_name rq)); ("stage", PStr (rq_stage rq));
   ("argv", PList (map PStr (safe_argv (rq_argv rq)))); ("working_directory", PStr (path_str cwd));
   ("expected_artifacts", PList []); ("dependencies", PList []); ("timeout_seconds", rq_timeout rq);
   ("declared_at", PStr started)].

Definition span_attributes (rq : request) : dict :=
  [("pipeline.command", PStr (rq_name rq)); ("pipeline.stage", PStr (rq_stage rq)); ("pipeline.step", PStr (rq_name rq));
   ("command.argv", PList (map PStr (safe_argv (rq_argv rq)))); ("service.name", PStr "eve-trade-ci");
   ("service.language", PStr "python")].

(** [tracer.span(...)] and its [__enter__], or the null span. *)
Definition enter_command (tracer : option HoneycombTracer) (rq : request) (tm : timing) : res (option TraceSpan) :=
  match tracer with
  | None => Ok None
  | Some t =>
      let! s := span_enter t (tm_otel tm) (span t ("pipeline.command." +:+ rq_name rq) (span_attributes rq) (tm_started tm)) in
      Ok (Some s)
  end.

(** The block after the process ended: its exception, if any, and the three attributes. *)
Definition annotate (rq : request) (tm : timing) (exit_code : Z) (exc : option seen_exn) (s : TraceSpan) : TraceSpan * option exn :=
  let r := match exc with Some e => record_exception e s | None => (s, None) end in
  let r := span_then r (set_attribute "command.exit_code" (PInt exit_code)) in
  let r := span_then r (set_attribute "command.duration_ms" (PFloat (tm_duration tm))) in
  span_then r (set_attribute "error" (PBool (negb (exit_code =? 0)%Z))).

(** The rest of the [with] statement: [__exit__] with the exception of the block, then that
    exception; the trace id read in the block. *)
Definition command_span (t : HoneycombTracer) (rq : request) (tm : timing) (exit_code : Z) (exc : option seen_exn) (s : TraceSpan) : io fs string :=
  let '(s, err) := annotate rq tm exit_code exc s in
  _ ← span_exit os_error t s (seen <$> err) (tm_ended tm) (tm_duration tm);
  _ ← raise_opt err;
  mret (span_trace_id s).

Definition relative (base p : path) : res path :=
  match relative_to base p with Some q => Ok q | None => Raise (ValueError "not in the subpath") end.

Definition make_result (rq : request) (tm : timing) (cwd meta_rel log_rel : path) (trace : string) : CommandResult :=
  let '(exit_code, out, err, timed_out, _) :=
    observe (exec (rq_argv rq) cwd (dupdate env (rq_env rq)) (rq_timeout rq)) (rq_timeout rq) in
  Result (rq_name rq) (rq_stage rq) (safe_argv (rq_argv rq)) exit_code (tm_started tm) (tm_ended tm) (tm_duration tm)
    (redact_text out) (redact_text err) (path_str meta_rel) (path_str log_rel) trace timed_out
    (safe_name uni_alnum (rq_name rq)) (safe_name uni_alnum (rq_stage rq)) (path_str (resolve cwd)) (PList []) (PList [])
    (rq_timeout rq).

Definition failure_of (c : RunContext) (rq : request) (r : CommandResult) : failure_event :=
  FailureEvent (rq_name rq) (rq_argv rq) (cr_exit_code r) (rq_stage rq) (cr_log_path r) "unclassified" "" [] ""
    (github_actions_url env c).

Definition report (c : RunContext) (sentry : option SentryReporter) (rq : request) (r : CommandResult) : io world unit :=
  match sentry with
  | None => skip
  | Some se =>
      _ ← on_files (breadcrumb resolve os_error sdk se);
      if negb (succeeded r) && rq_report rq
      then _ ← capture_command_failure env resolve os_error sdk se (failure_of c rq r); skip
      else skip
  end.

Definition run_command (c : RunContext) (storage : RunStorage) (tracer : option HoneycombTracer)
    (sentry : option SentryReporter) (rq : request) : io world CommandResult :=
  let dir := command_dir uni_alnum (rq_stage rq) (rq_name rq) in
  let cwd := default (repo_root c) (rq_cwd rq) in
  let tm := measure rq in
  metadata_path ← on_files (path_in resolve os_error storage (path_join dir (path_of "command.json")));
  log_path ← on_files (path_in resolve os_error storage (path_join dir (path_of "command.log")));
  _ ← on_files (write_json resolve os_error storage (path_join dir (path_of "command-manifest.json"))
        (PDict (command_manifest rq (resolve cwd) (tm_started tm))));
  entered ← lift (enter_command tracer rq tm);
  _ ← on_files (modify (effects (rq_argv rq)));
  let '(exit_code, out, err, _, exc) :=
    observe (exec (rq_argv rq) cwd (dupdate env (rq_env rq)) (rq_timeout rq)) (rq_timeout rq) in
  trace ← match tracer, entered with
          | Some t, Some s => on_files (command_span t rq tm exit_code exc s)
          | _, _ => mret ""
          end;
  log_rel ← lift (relative (ctx_run_dir c) log_path);
  _ ← on_files (write_text resolve os_error storage log_rel
        (log_body (safe_argv (rq_argv rq)) (resolve cwd) exit_code (tm_duration tm) (redact_text out) (redact_text err)));
  meta_rel ← lift (relative (ctx_run_dir c) metadata_path);
  let r := make_result rq tm cwd meta_rel log_rel trace in
  _ ← on_files (write_json resolve os_error storage meta_rel (PDict (to_dict false r)));
  _ ← report c sentry rq r;
  mret r.
End run.

Example safe_name_ex : safe_name (fun _ => true) "a/../b c" = "a----b-c" ∧ safe_name (fun _ => true) ".." = "command".
Proof. vm_compute. done. Qed.
