(* ===== verification/Diagnosis.v ===== *)
(** Evidence-first diagnosis of a run ([observability/ci/diagnosis.py]): failure signatures of
    a command, the causal events, what the tests say, and the risks of a false green.
    [now i] is the i-th reading of the clock. *)
From S2P Require Import Prelude PyStr PyFloat PyVal Regex Json JsonFacts JsonIndent Hashing PyPath PyText PyIO Redaction Storage Provenance Freshness RunIndex RunContext Links Tracer Sentry RunCommand CollectPytest.

Definition DIAGNOSIS_SCHEMA_VERSION := "o11y.structured-diagnosis.v1".
Definition CLASSIFIER_VERSION := "o11y-causal-classifier-2026-07-09".
Definition COMMAND_EVENT := "COMMAND_EVENT".
Definition DATABASE_COLLECTOR_EVENT := "DATABASE_COLLECTOR_EVENT".
Definition KUBERNETES_COLLECTOR_EVENT := "KUBERNETES_COLLECTOR_EVENT".
Definition MISSING_EVIDENCE_EVENT := "MISSING_EVIDENCE_EVENT".
Definition TEST_EVENT := "TEST_EVENT".
Definition CONFIRMED := "CONFIRMED".
Definition HIGH := "HIGH".
Definition MEDIUM := "MEDIUM".
Definition D_UNKNOWN := "UNKNOWN".

Definition strs (l : list string) : pyval := PList (map PStr l).
Definition cents (n : Z) : pyval := PFloat (f_lit n 100).

(** * The pieces of a diagnosis *)

Definition observation (id summary evidence_reference confidence_band : string) : dict :=
  [("id", PStr id); ("kind", PStr "OBSERVATION"); ("summary", PStr summary);
   ("evidence_reference", PStr evidence_reference); ("confidence_band", PStr confidence_band)].
Definition derived (id summary : string) (based_on : list string) : dict :=
  [("id", PStr id); ("kind", PStr "DERIVED_FACT"); ("summary", PStr summary); ("based_on", strs based_on);
   ("confidence_band", PStr CONFIRMED)].
Definition inference (id summary : string) (based_on : list string) (band : string) (score : pyval) : dict :=
  [("id", PStr id); ("kind", PStr "INFERENCE"); ("summary", PStr summary); ("based_on", strs based_on);
   ("confidence_band", PStr band); ("confidence_score", score)].
Definition recommendation (action rationale would_confirm_or_reject : string) : dict :=
  [("kind", PStr "RECOMMENDATION"); ("action", PStr action); ("rationale", PStr rationale);
   ("would_confirm_or_reject", PStr would_confirm_or_reject)].

Definition event (event_id timestamp stage command_id component event_type severity message evidence_reference : string)
    (caused_by : list string) (relation : string) (confidence : pyval) (event_source : string) : dict :=
  [("event_id", PStr event_id); ("timestamp", PStr timestamp); ("stage", PStr stage); ("command_id", PStr command_id);
   ("process_id_if_available", PStr ""); ("component", PStr component); ("event_type", PStr event_type);
   ("severity", PStr severity); ("message", PStr message); ("source_file_or_log", PStr evidence_reference);
   ("evidence_reference", PStr evidence_reference); ("caused_by", strs caused_by); ("relation", PStr relation);
   ("confidence", confidence); ("event_source", PStr event_source)].

(** The failure and the exit of the command it caused. *)
Definition events (command : CommandResult) (stage component event_type message event_source : string) : list dict :=
  [event "E1" (cr_started_at command) stage (cr_name command) component event_type "error" message (cr_log_path command)
     [] "ROOT_CAUSE" (cents 86) event_source;
   event "E2" (cr_ended_at command) (cr_stage command) (cr_name command) "process" "COMMAND_EXIT_NONZERO" "error"
     (cr_name command +:+ " exited " +:+ str_of_Z (cr_exit_code command)) (cr_metadata_path command)
     ["E1"] "SYMPTOM" (PFloat (f_of_Z 1)) COMMAND_EVENT].

Definition primary (summary stage mechanism component external_system : string) (confidence_score : pyval)
    (confidence_band : string) (supporting contradicting missing unsupported : list string) : dict :=
  [("summary", PStr summary);
   ("category_dimensions", PDict [("stage", PStr stage); ("mechanism", PStr mechanism); ("component", PStr component);
                                  ("external_system", PStr external_system)]);
   ("confidence_score", confidence_score); ("confidence_band", PStr confidence_band);
   ("supporting_evidence", strs (filterb nonempty supporting));
   ("contradicting_evidence", strs (filterb nonempty contradicting));
   ("missing_evidence", strs (filterb nonempty missing)); ("unsupported_diagnoses", strs unsupported)].

Definition ev_field (k : string) (e : dict) : pyval := dget0 e k.
Definition is_root_cause (e : dict) : bool := py_eqb (ev_field "relation" e) (PStr "ROOT_CAUSE").
Definition causal_chain (evs : list dict) : pyval := PList (map (ev_field "event_id") evs).
Definition first_event (evs : list dict) : pyval := match evs with e :: _ => PDict e | [] => PNone end.
Definition root_cause (evs : list dict) : pyval :=
  match find_first is_root_cause evs with Some e => PDict e | None => first_event evs end.
Definition dicts (l : list dict) : pyval := PList (map PDict l).

(** Everything a branch of the diagnosis decides. *)
Record findings : Type := Findings {
  f_observations : list dict; f_derived : list dict; f_inferences : list dict; f_recommendations : list dict;
  f_events : list dict; f_primary : dict; f_harness : string; f_product : string; f_false_red : list dict; f_abstained : bool }.

Definition failure_payload (f : findings) (test_execution : dict) (failed_command : CommandResult) : dict :=
  [("product_status", PStr (f_product f)); ("harness_status", PStr (f_harness f)); ("analysis_status", PStr "OK");
   ("test_execution", PDict test_execution); ("observations", dicts (f_observations f));
   ("derived_facts", dicts (f_derived f)); ("inferences", dicts (f_inferences f));
   ("recommendations", dicts (f_recommendations f)); ("events", dicts (f_events f));
   ("causal_chain", causal_chain (f_events f)); ("earliest_causal_failure", first_event (f_events f));
   ("earliest_failed_command", PDict (to_dict false failed_command));
   ("most_supported_root_cause_event", root_cause (f_events f)); ("primary_diagnosis", PDict (f_primary f));
   ("false_red_risks", dicts (f_false_red f)); ("abstained", PBool (f_abstained f))].

(** * Signatures *)

Definition has_go_mod_unexpected_eof (lower : string) : bool :=
  contains "go mod download" lower && contains "unexpected eof" lower.
Definition has_docker_daemon_failure (lower : string) : bool :=
  contains "cannot connect to the docker daemon" lower || contains "is the docker daemon running" lower.
Definition has_database_refusal (lower : string) : bool :=
  contains "connection refused" lower
  && (contains "postgres" lower || contains ":5432" lower || contains "database_url" lower).

Definition network_mechanism (lower : string) : option (string * string) :=
  if contains "no such host" lower || contains "temporary failure in name resolution" lower
     || contains "could not resolve host" lower then Some ("DNS", "DNS resolution failure")
  else if contains "connection refused" lower then Some ("TCP_REFUSED", "TCP connection refused")
  else if contains "i/o timeout" lower || contains "context deadline exceeded" lower || contains "timed out" lower
          || contains "timeout was reached" lower then Some ("TIMEOUT", "network timeout")
  else if contains "connection reset by peer" lower then Some ("NETWORK_TRANSPORT", "connection reset by peer")
  else None.

Definition E_ASSERT : regex := re_compile "(?m)^\s*E\s+assert\s+".
Definition has_assertion_failure (s : PytestSummary) (output : string) : bool :=
  nonempty (ps_nodeid s) || negb (ps_failed s =? 0)%Z || negb (ps_error s =? 0)%Z
  || contains "assertionerror" (lower output) || re_test E_ASSERT output.

Definition STALE_MARKERS : list string := ["no such file or directory"; "can't open file"; "cannot find the path"; "enoent"].
Definition STALE_PATH : regex := re_compile ("(?i)(?:^|[\\/\s])observability[\\/][^\s:'\" +:+ dq +:+ "]+").
Definition is_stale_path_failure (output : string) : bool :=
  if any (fun marker => contains marker (lower output)) STALE_MARKERS then re_test STALE_PATH output else false.
Definition STALE_EXTRACT : regex :=
  re_compile ("(?i)([A-Za-z]:)?[^\s:'\" +:+ dq +:+ "]*observability[\\/][^\s:'\" +:+ dq +:+ "]+").
Definition extract_stale_path (output : string) : string :=
  match re_search STALE_EXTRACT output with Some m => group0 m | None => "" end.
(** [_first_match(pattern, text) or default] *)
Definition first_match (pattern : regex) (text : string) : string :=
  match re_search pattern text with Some m => groupd m 1 | None => "" end.
Definition HTTPS_HOST_SLASH : regex := re_compile_i ("https://([^/\" +:+ dq +:+ "'\s]+)/").
Definition HTTP_HOST : regex := re_compile_i ("https?://([^/\" +:+ dq +:+ "'\s]+)").
Definition PG_ENDPOINT : regex := re_compile_i "([a-zA-Z0-9_.-]+:5432)".

Definition stage_taxonomy (stage : string) : string :=
  default "UNKNOWN" (dget stage
    [("check", "STATIC_ANALYSIS"); ("test", "UNIT_TEST"); ("e2e", "E2E_TEST"); ("integration", "INTEGRATION_TEST");
     ("build", "CONTAINER_BUILD"); ("start", "CONTAINER_RUNTIME"); ("readiness", "CONTAINER_RUNTIME"); ("migrate", "DATABASE")]).

(** * Test truth *)

Definition RAN : regex := re_compile "(?m)^Ran\s+(\d+)\s+tests?\b".
Definition RAN_ZERO : regex := re_compile "(?m)^Ran\s+0\s+tests\b".
Definition output_of (r : CommandResult) : string := cr_stdout r +:+ nl +:+ cr_stderr r.

Fixpoint unittest_count (results : list CommandResult) : Z :=
  match results with
  | [] => 0
  | r :: results' =>
      match re_search RAN (output_of r) with
      | Some m => match py_int (PStr (groupd m 1)) with Ok z => z | Raise _ => 0 end
      | None => unittest_count results'
      end
  end.

Definition in_test_stage (r : CommandResult) : bool := bool_decide (cr_stage r ∈ ["e2e"; "test"]).
Definition is_e2e_command (command : string) : bool := bool_decide (command ∈ ["integration"; "e2e"]).
Definition env_missing (missing_evidence : list string) : bool :=
  any (fun item => contains "not set" (lower item)) missing_evidence.

Definition test_category (command : string) (results : list CommandResult) : string :=
  if is_e2e_command command || any (fun r => bool_decide (cr_stage r = "e2e")) results then "E2E_TEST"
  else if bool_decide (command = "test") then "UNIT_TEST" else "UNKNOWN".

Definition nz (z : Z) : bool := negb (z =? 0)%Z.
Definition tests_collected (results : list CommandResult) (s : PytestSummary) : Z :=
  if nz (ps_collected s) then ps_collected s else unittest_count results.
Definition tests_started (results : list CommandResult) (s : PytestSummary) : Z :=
  let started := (ps_passed s + ps_failed s + ps_error s)%Z in
  if nz (unittest_count results) && negb (nz started) then unittest_count results else started.
Definition tests_passed (results : list CommandResult) (s : PytestSummary) : Z :=
  if nz (unittest_count results) && negb (nz (ps_failed s)) && negb (nz (ps_error s)) && all succeeded results
  then unittest_count results else ps_passed s.
Definition tests_failed (s : PytestSummary) : Z := (ps_failed s + ps_error s)%Z.
Definition all_skipped (s : PytestSummary) : bool := nz (ps_collected s) && (ps_skipped s =? ps_collected s)%Z.

Definition test_status (command : string) (results : list CommandResult) (s : PytestSummary) (missing : list string) : string :=
  if bool_decide (test_category command results = "UNKNOWN") then "NOT_SCHEDULED"
  else
    let status := if any in_test_stage results then "STARTED" else "NOT_SCHEDULED" in
    let status := if bool_decide (status = "NOT_SCHEDULED") && bool_decide (command ∈ ["integration"; "e2e"; "test"])
                     && any (fun r => negb (succeeded r)) results then "BLOCKED" else status in
    if any (fun r => in_test_stage r && negb (succeeded r)) results then "FAILED"
    else if all_skipped s then "SKIPPED"
    else if env_missing missing then (if bool_decide (status = "NOT_SCHEDULED") then "BLOCKED" else "SKIPPED")
    else if nz (tests_failed s) then "FAILED"
    else if nz (tests_passed results s) then "PASSED"
    else if bool_decide (status = "STARTED") && (tests_collected results s =? 0)%Z then "UNKNOWN" else status.

Definition test_truth (command : string) (results : list CommandResult) (s : PytestSummary) (missing : list string) : dict :=
  [(test_category command results,
    PDict [("status", PStr (test_status command results s missing)); ("tests_collected", PInt (tests_collected results s));
           ("tests_started", PInt (tests_started results s)); ("tests_passed", PInt (tests_passed results s));
           ("tests_failed", PInt (tests_failed s)); ("tests_skipped", PInt (ps_skipped s))])].

Definition risk (name evidence : string) : dict := [("risk", PStr name); ("evidence", PStr evidence)].
Definition false_green_risks (command : string) (results : list CommandResult) (s : PytestSummary) (missing : list string) : list dict :=
  let test_started := any in_test_stage results in
  let explicit_zero_pytest := any (fun r => contains "collected 0" (lower (output_of r))) results in
  let explicit_zero_unittest := any (fun r => re_test RAN_ZERO (output_of r)) results in
  (if is_e2e_command command && test_started && (ps_collected s =? 0)%Z
   then [risk "ZERO_TESTS_COLLECTED" "Expected validation suite started but pytest collected 0 tests."] else [])
  ++ (if bool_decide (command = "test") && test_started && (explicit_zero_pytest || explicit_zero_unittest)
      then [risk "ZERO_TESTS_COLLECTED" "Expected validation suite started but reported 0 tests."] else [])
  ++ (if is_e2e_command command && all_skipped s
      then [risk "ALL_E2E_TESTS_SKIPPED" "E2E pytest collected tests but all collected tests were skipped."] else [])
  ++ (if is_e2e_command command && env_missing missing
      then [risk "MISSING_E2E_ENVIRONMENT" "Required E2E environment variables were not set."] else []).

(** [_product_status_from_tests] on the entries of the test truth. *)
Fixpoint product_status_from_tests (test_truth : dict) : string :=
  match test_truth with
  | [] => "UNRESOLVED"
  | (_, item) :: rest =>
      let d := match item with PDict d => d | _ => [] end in
      let status := py_str (dget0 d "status") in
      if bool_decide (status = "FAILED") then "FAILED"
      else if bool_decide (status ∈ ["SKIPPED"; "BLOCKED"; "UNKNOWN"; "NOT_SCHEDULED"]) then "UNRESOLVED"
      else if bool_decide (status = "PASSED") && truthy (dget0 d "tests_passed") then "PASSED"
      else product_status_from_tests rest
  end.

(** * One failed command *)

Section failure.
Context (command : CommandResult) (s : PytestSummary).
(** Are there results after the failed command? *)
Context (has_downstream : bool).

Abbreviation log := (cr_log_path command).
(** [command.stdout] and [command.stderr], joined. *)
Definition output : string := cr_stdout command +:+ nl +:+ cr_stderr command.

Definition base_observations : list dict :=
  [observation "O1" ("Command " +:+ cr_name command +:+ " exited with code " +:+ str_of_Z (cr_exit_code command) +:+ ".") log CONFIRMED;
   observation "O2" ("Declared command stage was " +:+ cr_stage command +:+ ".") (cr_metadata_path command) CONFIRMED].

Definition stale_path_findings : findings :=
  let path := extract_stale_path output in
  let seen := "Output referenced missing path " +:+ (if nonempty path then path else "unknown path") +:+ "." in
  {| f_observations := base_observations ++ [observation "O3" seen log CONFIRMED];
     f_derived := [derived "D1" "The failure happened before product validation could execute." ["O1"; "O3"]];
     f_inferences := [];
     f_recommendations := [recommendation
       "Update the automation to call the current distributed-backend/observability path."
       "The evidence is a missing script path in the harness, not a product assertion failure."
       "The same command should start the intended validation stage instead of exiting with ENOENT."];
     f_events := events command "CI_HARNESS" "python" "STALE_PATH" (strip ("stale path " +:+ path)) COMMAND_EVENT;
     f_primary := primary "Automation referenced a stale or missing repository path." "CI_HARNESS" "STALE_PATH" "ci-harness" ""
       (cents 95) HIGH [seen; "The command failed before test execution evidence was present."] []
       ["A successful run of the intended product validation command."]
       ["Python application bug"; "E2E product regression"; "Docker networking"];
     f_harness := "BROKEN"; f_product := "NOT_TESTED"; f_false_red := []; f_abstained := false |}.

Definition docker_findings : findings :=
  {| f_observations := base_observations ++ [observation "O3" "Docker emitted a daemon connectivity error." log CONFIRMED];
     f_derived := []; f_inferences := [];
     f_recommendations := [recommendation
       "Start or repair the Docker daemon on the runner and retry the same command."
       "The failed component was Docker daemon access."
       "A successful docker version or docker info call would reject this blocker."];
     f_events := events command "CONTAINER_RUNTIME" "docker" "DOCKER_DAEMON_UNAVAILABLE" "Docker daemon unavailable" COMMAND_EVENT;
     f_primary := primary "Docker daemon was unavailable to the validation runner." "CONTAINER_RUNTIME" "CONTAINER_RUNTIME"
       "docker" "docker-daemon" (cents 96) HIGH ["Direct Docker daemon error was present in command output."] []
       ["Docker daemon status and service logs from the runner host."] ["Application E2E bug"; "Database schema drift"];
     f_harness := "BROKEN"; f_product := "UNRESOLVED"; f_false_red := []; f_abstained := false |}.

(** The event that later work was blocked. *)
Definition blocked_event : dict :=
  event "E3" (cr_ended_at command) (cr_stage command) (cr_name command) "pipeline" "DOWNSTREAM_BLOCKED" "warning"
    "Later validation work was canceled, skipped, or blocked after dependency resolution failed." log ["E1"]
    "DOWNSTREAM_CONSEQUENCE" (cents 80) COMMAND_EVENT.

Definition go_mod_findings : findings :=
  let endpoint := let e := first_match HTTPS_HOST_SLASH output in if nonempty e then e else "proxy.golang.org" in
  let o3 := "Output contained a go mod download step." in
  let o4 := "Output contained unexpected EOF during module fetch." in
  let o5 := "The remote endpoint was " +:+ endpoint +:+ "." in
  {| f_observations := base_observations ++
       [observation "O3" o3 log CONFIRMED; observation "O4" o4 log CONFIRMED; observation "O5" o5 log CONFIRMED];
     f_derived := [derived "D1" "The earliest supported failing stage is dependency resolution." ["O3"; "O4"; "O5"]];
     f_inferences := [inference "I1"
       "The transfer or registry fetch path terminated early; the exact network origin is unresolved."
       ["O3"; "O4"; "O5"] HIGH (cents 82)];
     f_recommendations :=
       [recommendation "Retry the exact module fetch and compare repeatability across runners."
          "Unexpected EOF is a transfer interruption observation, not a Docker-networking observation."
          "A repeatable EOF on multiple runners points toward registry/proxy behavior; a local-only repeat points toward runner network path.";
        recommendation "Inspect GOPROXY behavior and reachability for proxy.golang.org before investigating Docker networking."
          "The contacted resource in evidence was the Go module proxy."
          "Successful proxy and direct fetches would reject dependency-transfer as the active blocker."];
     f_events := events command "DEPENDENCY_RESOLUTION" "go" "NETWORK_TRANSPORT"
                   ("go module fetch unexpected EOF from " +:+ endpoint) COMMAND_EVENT
                 ++ (if has_downstream || contains "canceled" (lower output) || contains "skipped" (lower output)
                     then [blocked_event] else []);
     f_primary := primary "Dependency transfer failed while fetching Go modules; exact transport origin is unresolved."
       "DEPENDENCY_RESOLUTION" "NETWORK_TRANSPORT" "go" endpoint (cents 82) HIGH [o3; o4; o5]
       ["Docker daemon failure was not the emitted low-level error.";
        "No database, Kubernetes, or application assertion evidence preceded the module fetch failure."]
       ["Repeat result for the same go mod download outside Docker.";
        "Runner connectivity evidence for GOPROXY/direct module fetch."]
       ["docker-networking"; "database"; "application E2E bug"; "Kubernetes"];
     f_harness := "OK"; f_product := "UNRESOLVED";
     f_false_red := [risk "FALSE_RED_DEPENDENCY_FETCH"
       "The failing low-level operation was a dependency download from an external module proxy."];
     f_abstained := false |}.

Definition assertion_findings : findings :=
  let nodeid := if nonempty (ps_nodeid s) then ps_nodeid s else "unknown test" in
  let seen := "Test assertion failure was extracted for " +:+ nodeid +:+ "." in
  {| f_observations := base_observations ++ [observation "O3" seen log CONFIRMED];
     f_derived := []; f_inferences := [];
     f_recommendations := [recommendation
       "Debug the named assertion with the captured command log and service state."
       "The earliest extracted failure is a test assertion, not an environment setup blocker."
       "Reproducing the assertion with healthy dependencies confirms a product/test behavior failure."];
     f_events := events command (stage_taxonomy (cr_stage command)) "test" "ASSERTION_FAILURE" nodeid TEST_EVENT;
     f_primary := primary "A product or test assertion failed after the test command executed."
       (stage_taxonomy (cr_stage command)) "APPLICATION_TEST_FAILURE" "test" "" (cents 87) HIGH
       [seen; if nonempty (ps_message s) then ps_message s else ps_assertion s]
       ["No earlier infrastructure blocker was observed in the command evidence."]
       ["Service logs and state snapshots around the assertion time."] ["infrastructure failure"];
     f_harness := "OK"; f_product := "FAILED"; f_false_red := []; f_abstained := false |}.

Definition database_findings : findings :=
  let endpoint := let e := first_match PG_ENDPOINT output in if nonempty e then e else "postgres:5432" in
  let seen := "Output contained PostgreSQL TCP connection refusal for " +:+ endpoint +:+ "." in
  {| f_observations := base_observations ++ [observation "O3" seen log CONFIRMED];
     f_derived := []; f_inferences := [];
     f_recommendations := [recommendation
       "Check PostgreSQL readiness and the configured database URL target."
       "The direct resource in evidence was a PostgreSQL endpoint refusing TCP connections."
       "A listening PostgreSQL socket and successful readiness query would reject this blocker."];
     f_events := events command "DATABASE" "postgres" "TCP_REFUSED" ("PostgreSQL refused connection at " +:+ endpoint) COMMAND_EVENT;
     f_primary := primary "Database connectivity was refused by the PostgreSQL endpoint." "DATABASE" "NETWORK_TRANSPORT"
       "postgres" endpoint (cents 88) HIGH [seen; "The command stage was a database readiness or integration step."]
       ["No Docker daemon-specific error was observed before the database refusal."]
       ["PostgreSQL process/listener status at the target host and port."] ["docker-networking"];
     f_harness := "OK"; f_product := "UNRESOLVED"; f_false_red := []; f_abstained := false |}.

Definition network_findings (mechanism message : string) : findings :=
  let stage := if bool_decide (mechanism = "DNS") then "DNS" else "NETWORK_TRANSPORT" in
  let seen := "Output contained " +:+ message +:+ "." in
  {| f_observations := base_observations ++ [observation "O3" seen log CONFIRMED];
     f_derived := []; f_inferences := [];
     f_recommendations := [recommendation
       "Collect endpoint-specific connectivity evidence for the failing resource."
       "The current evidence identifies the mechanism but not the unique origin."
       "DNS lookup, TCP connect, and retry evidence would separate local, proxy, and remote causes."];
     f_events := events command stage "network" mechanism message COMMAND_EVENT;
     f_primary := primary ("Network transport failure observed: " +:+ message +:+ ".") stage mechanism "network"
       (first_match HTTP_HOST output) (cents 74) MEDIUM [seen]
       ["No product assertion evidence preceded the transport failure."] ["Endpoint-specific connectivity checks."]
       ["application E2E bug"];
     f_harness := "OK"; f_product := "UNRESOLVED"; f_false_red := []; f_abstained := false |}.

Definition unknown_findings : findings :=
  {| f_observations := base_observations; f_derived := [];
     f_inferences := [inference "I1" "The root cause is not uniquely identifiable from the available command evidence."
                        ["O1"; "O2"] D_UNKNOWN (cents 20)];
     f_recommendations := [recommendation
       "Inspect the preserved command log and add a fixture if this failure pattern is recurring."
       "The classifier intentionally abstained instead of guessing from weak evidence."
       "A structured fixture with command, stage, and expected category would make the diagnosis reproducible."];
     f_events := events command (stage_taxonomy (cr_stage command)) "unknown" "UNKNOWN" "unclassified command failure" COMMAND_EVENT;
     f_primary := primary "Root cause unknown from available evidence." (stage_taxonomy (cr_stage command)) "UNKNOWN" "unknown" ""
       (cents 20) D_UNKNOWN ["A command failed and raw logs were preserved."] []
       ["A tool-specific structured error or narrower failure signature."] [];
     f_harness := "UNKNOWN"; f_product := "UNRESOLVED"; f_false_red := []; f_abstained := true |}.

(** The first signature that fires decides. *)
Definition find_failure : findings :=
  if is_stale_path_failure output then stale_path_findings
  else if has_docker_daemon_failure (lower output) then docker_findings
  else if has_go_mod_unexpected_eof (lower output) then go_mod_findings
  else if has_assertion_failure s output then assertion_findings
  else if has_database_refusal (lower output) then database_findings
  else match network_mechanism (lower output) with
       | Some (mechanism, message) => network_findings mechanism message
       | None => unknown_findings
       end.

Definition diagnose_command_failure : dict :=
  failure_payload find_failure (test_truth (cr_stage command) [command] s []) command.
End failure.

(** * Collector events *)

Section run.
Context (now : nat → string).

(** [database.get("error") or database.get(other) or text], printed. *)
Definition collector_message (d : dict) (other text : string) : string :=
  py_str (py_or (dget0 d "error") (py_or (dget0 d other) (PStr text))).
Definition collector_severity (d : dict) : string := if truthy (dget0 d "error") then "warning" else "info".
Definition event_number (evs : list dict) : string := "C" +:+ str_of_nat (length evs + 1).

Definition collector_event (evs : list dict) (command_id component event_type severity message reference relation : string)
    (confidence : pyval) (source : string) : dict :=
  event (event_number evs) (now (length evs + 1)) "EVIDENCE_COLLECTION" command_id component event_type severity message
    reference [] relation confidence source.

Definition database_events (database : dict) (evs : list dict) : list dict :=
  if is_empty database then evs
  else evs ++ [collector_event evs "database-collector" "postgres" "DATABASE_COLLECTOR_METADATA" (collector_severity database)
         (collector_message database "status" "database collector produced metadata") "db/" "COLLECTOR_CONTEXT" (cents 50)
         DATABASE_COLLECTOR_EVENT].
Definition kubernetes_events (kubernetes : dict) (evs : list dict) : list dict :=
  if is_empty kubernetes then evs
  else evs ++ [collector_event evs "kubernetes-collector" "kubernetes" "KUBERNETES_COLLECTOR_METADATA" (collector_severity kubernetes)
         (collector_message kubernetes "namespace" "kubernetes collector produced metadata") "kubernetes/" "COLLECTOR_CONTEXT"
         (cents 50) KUBERNETES_COLLECTOR_EVENT].
Definition missing_event (evs : list dict) (item : string) : list dict :=
  evs ++ [collector_event evs "evidence-inventory" "observability-runner" "MISSING_EVIDENCE" "warning" item "run-summary.json"
         "MISSING_EVIDENCE" (cents 80) MISSING_EVIDENCE_EVENT].

Definition collector_events (database kubernetes : dict) (missing_evidence : list string) : list dict :=
  fold_left missing_event missing_evidence (kubernetes_events kubernetes (database_events database [])).

(** * The run *)

Definition base_diagnosis (run_id command : string) (results : list CommandResult) (s : PytestSummary) (missing : list string) : dict :=
  [("schema_version", PStr DIAGNOSIS_SCHEMA_VERSION); ("classifier_version", PStr CLASSIFIER_VERSION);
   ("runner_version", PStr RUNNER_VERSION); ("generated_at", PStr (now 0)); ("run_id", PStr run_id);
   ("requested_command", PStr command); ("validation_result", PStr "UNKNOWN"); ("product_status", PStr "UNRESOLVED");
   ("harness_status", PStr "UNKNOWN"); ("analysis_status", PStr "UNKNOWN"); ("commands", dicts (map (to_dict false) results));
   ("test_execution", PDict (test_truth command results s missing)); ("observations", PList []); ("derived_facts", PList []);
   ("inferences", PList []); ("recommendations", PList []); ("events", PList []); ("causal_chain", PList []);
   ("earliest_causal_failure", PNone); ("earliest_failed_command", PNone); ("most_supported_root_cause_event", PNone);
   ("primary_diagnosis", PDict []); ("false_green_risks", PList []); ("false_red_risks", PList []);
   ("missing_evidence", strs missing); ("abstained", PBool false)].

(** [results[results.index(failed) + 1:]] *)
Definition downstream (failed : CommandResult) (results : list CommandResult) : list CommandResult :=
  match list_find (fun r => r = failed) results with Some (i, _) => drop (S i) results | None => [] end.

(** The collectors' events join those of the failure. *)
Definition add_collector_events (evs collected : list dict) (failure : dict) : dict :=
  match collected with
  | [] => failure
  | _ => dset "causal_chain" (causal_chain (evs ++ collected)) (dset "events" (dicts (evs ++ collected)) failure)
  end.

Definition is_nil {A} (l : list A) : bool := match l with [] => true | _ => false end.

Definition diagnose_failed (run_id command : string) (failed : CommandResult) (results : list CommandResult)
    (s : PytestSummary) (missing : list string) (database kubernetes : dict) : dict :=
  let has_downstream := negb (is_nil (downstream failed results)) in
  let failure := add_collector_events (f_events (find_failure failed s has_downstream))
                   (collector_events database kubernetes missing) (diagnose_command_failure failed s has_downstream) in
  let failure := dset "test_execution" (PDict (test_truth command results s missing)) failure in
  dset "analysis_status" (PStr "OK") (dset "validation_result" (PStr "failed")
    (dupdate (base_diagnosis run_id command results s missing) failure)).

Definition false_green_primary (risks : list dict) : dict :=
  primary "Validation command exited successfully, but required validation evidence is absent or skipped."
    "CI_HARNESS" "FALSE_GREEN_RISK" "observability-runner" "" (cents 90) HIGH
    (map (fun r => py_str (dget0 r "evidence")) risks) [] ["Fresh product correctness evidence from the expected suite."] [].
Definition false_green_recommendation : dict :=
  recommendation "Run the required suite with its service URLs and credentials configured."
    "The command returned success without evidence that product assertions executed."
    "Collected tests with started assertions and nonzero pass/fail counts would reject the false-green hypothesis.".
Definition passed_primary : dict :=
  primary "No failing command was observed." "UNKNOWN" "NONE_OBSERVED" "" "" (cents 95) HIGH
    ["All executed commands exited with code 0."] [] [] [].

Definition diagnose_passed (run_id command : string) (results : list CommandResult) (s : PytestSummary) (missing : list string) : dict :=
  let truth := test_truth command results s missing in
  let risks := false_green_risks command results s missing in
  let base := dset "false_green_risks" (dicts risks) (dset "test_execution" (PDict truth)
                (base_diagnosis run_id command results s missing)) in
  if is_nil risks then
    dupdate base [("validation_result", PStr "passed"); ("product_status", PStr (product_status_from_tests truth));
                  ("harness_status", PStr "OK"); ("analysis_status", PStr "OK"); ("primary_diagnosis", PDict passed_primary)]
  else
    dupdate base [("validation_result", PStr "passed_with_false_green_risk"); ("product_status", PStr "UNRESOLVED");
                  ("harness_status", PStr "BROKEN"); ("analysis_status", PStr "OK");
                  ("primary_diagnosis", PDict (false_green_primary risks));
                  ("recommendations", dicts [false_green_recommendation])].

(** [database] and [kubernetes] are [{}] when there is none. *)
Definition diagnose_run (run_id command : string) (results : list CommandResult) (s : PytestSummary) (missing : list string)
    (database kubernetes : dict) : dict :=
  match find_first (fun r => negb (succeeded r)) results with
  | Some failed => diagnose_failed run_id command failed results s missing database kubernetes
  | None => diagnose_passed run_id command results s missing
  end.
End run.

(** [diagnosis_brief] *)
Definition diagnosis_brief (diagnosis : dict) : res string :=
  let! p := as_dict (dgetd diagnosis "primary_diagnosis" (PDict [])) in
  let! dims := as_dict (dgetd p "category_dimensions" (PDict [])) in
  Ok (join " / " (filterb nonempty (map (fun k => py_str (dgetd dims k (PStr ""))) ["stage"; "mechanism"; "external_system"]))).
