(* ===== verification/DiagnosisFacts.v ===== *)
(** Correctness of the diagnosis: its schema, when the product counts as passed, when the
    classifier abstains, and the shape of the causal graph. *)
From S2P Require Import Prelude PyStr PyFloat PyVal Regex Json JsonFacts JsonIndent Hashing PyPath PyText PyIO Redaction Storage Provenance Freshness RunIndex RunContext Links Tracer Sentry RunCommand CollectPytest Diagnosis.

(** The patterns of the signatures are in the supported syntax. *)
Example signature_patterns :
  re_compiles "(?m)^\s*E\s+assert\s+" = true
  ∧ re_compiles ("(?i)(?:^|[\\/\s])observability[\\/][^\s:'\" +:+ dq +:+ "]+") = true
  ∧ re_compiles ("(?i)([A-Za-z]:)?[^\s:'\" +:+ dq +:+ "]*observability[\\/][^\s:'\" +:+ dq +:+ "]+") = true
  ∧ re_compiles ("https://([^/\" +:+ dq +:+ "'\s]+)/") = true ∧ re_compiles "([a-zA-Z0-9_.-]+:5432)" = true
  ∧ re_compiles "(?m)^Ran\s+0\s+tests\b" = true.
Proof. vm_compute. done. Qed.

Definition demo_result (name stage : string) (rc : Z) (out err : string) : CommandResult :=
  Result name stage [name] rc "2026-01-01T00:00:00+00:00" "2026-01-01T00:00:01+00:00" (f_of_Z 1000) out err
    "commands/test/x/command.json" "commands/test/x/command.log" "" false name stage "/repo" (PList []) (PList []) PNone.

Example stale_path_ex :
  is_stale_path_failure "python: can't open file 'C:\repo\observability\ci\run.py': No such file or directory" = true
  ∧ extract_stale_path "python: can't open file 'observability/ci/run.py'" = "observability/ci/run.py".
Proof. vm_compute. done. Qed.
Example endpoint_found :
  first_match PG_ENDPOINT "dial tcp db.local:5432: connection refused" = "db.local:5432"
  ∧ first_match HTTPS_HOST_SLASH "Get https://proxy.golang.org/x/y.zip: unexpected EOF" = "proxy.golang.org".
Proof. vm_compute. done. Qed.

(** Membership in a list of literals, by evaluation. *)
Ltac in_literal := apply (bool_decide_eq_true_1 (_ ∈ _)); vm_compute; reflexivity.

Section facts.
Context (now : nat → string) (run_id command : string) (results : list CommandResult) (s : PytestSummary)
        (missing : list string) (database kubernetes : dict).
Abbreviation diagnosis := (diagnose_run now run_id command results s missing database kubernetes).
Abbreviation failing := (fun r => negb (succeeded r)).

Lemma failed_cases :
  (∃ failed, find_first failing results = Some failed ∧ all succeeded results = false
     ∧ diagnosis = diagnose_failed now run_id command failed results s missing database kubernetes)
  ∨ (all succeeded results = true ∧ diagnosis = diagnose_passed now run_id command results s missing).
Proof.
  unfold diagnose_run. destruct (find_first failing results) as [failed|] eqn:E.
  - left. exists failed. split; [done|]. split; [|done].
    apply find_first_Some in E as (l1 & l2 & -> & Hf & _).
    destruct (all succeeded (l1 ++ failed :: l2)) eqn:Ha; [|done]. rewrite all_true in Ha.
    rewrite (Ha failed) in Hf; [done|]. apply elem_of_app. right. by left.
  - right. split; [|done]. apply find_first_None in E. rewrite all_true. intros x Hx.
    apply (proj1 (any_false _ _) E) in Hx. by destruct (succeeded x).
Qed.

(** What a failed run says is what the branch of its first failed command decided. *)
Lemma failed_fields failed k :
  k ∈ ["product_status"; "harness_status"; "validation_result"; "abstained"; "primary_diagnosis"; "recommendations"] →
  dget k (diagnose_failed now run_id command failed results s missing database kubernetes) =
  let f := find_failure failed s (negb (is_nil (downstream failed results))) in
  dget k [("product_status", PStr (f_product f)); ("harness_status", PStr (f_harness f));
          ("validation_result", PStr "failed"); ("abstained", PBool (f_abstained f)); ("primary_diagnosis", PDict (f_primary f));
          ("recommendations", dicts (f_recommendations f))].
Proof.
  intros Hk. unfold diagnose_failed, diagnose_command_failure, failure_payload, add_collector_events.
  repeat (apply elem_of_cons in Hk as [->|Hk]; [by destruct (collector_events _ _ _ _)|]).
  by apply elem_of_nil in Hk.
Qed.

(** No branch of a failure calls the product passed. *)
Lemma failure_never_passed failed down : f_product (find_failure failed s down) ≠ "PASSED".
Proof.
  unfold find_failure. repeat (destruct (_ : bool); [done|]). by destruct (network_mechanism _) as [[]|].
Qed.

Lemma product_of_truth :
  product_status_from_tests (test_truth command results s missing) = "PASSED" ↔
  test_status command results s missing = "PASSED" ∧ tests_passed results s ≠ 0%Z.
Proof.
  unfold test_truth. cbn [product_status_from_tests].
  change (py_str (dget0 _ "status")) with (test_status command results s missing).
  change (truthy (dget0 _ "tests_passed")) with (nz (tests_passed results s)). unfold nz.
  destruct (decide (test_status command results s missing = "PASSED")) as [E|E].
  - rewrite E. destruct (Z.eqb_spec (tests_passed results s) 0) as [Hz|Hz]; cbn; [|done].
    split; [discriminate|by intros [_ ?]].
  - rewrite (bool_decide_eq_false_2 _ E). cbn [andb].
    split; [|by intros [? _]]. repeat case_bool_decide; discriminate.
Qed.

(** When the tests count as passed. *)
Lemma status_passed :
  test_status command results s missing = "PASSED" ↔
  test_category command results ≠ "UNKNOWN" ∧ any (fun r => in_test_stage r && negb (succeeded r)) results = false
  ∧ all_skipped s = false ∧ env_missing missing = false ∧ tests_failed s = 0%Z ∧ tests_passed results s ≠ 0%Z.
Proof.
  unfold test_status, nz. destruct (decide (test_category command results = "UNKNOWN")) as [E|E].
  { rewrite (bool_decide_eq_true_2 _ E). split; [discriminate|by intros [? _]]. }
  rewrite (bool_decide_eq_false_2 _ E). cbv zeta.
  set (st0 := if any in_test_stage results then "STARTED" else "NOT_SCHEDULED").
  set (st := if _ && _ && _ then "BLOCKED" else st0).
  assert (st ≠ "PASSED") as Hst by (unfold st; case (bool_decide _ && _ && _); [discriminate|]; unfold st0; case (any _ _); discriminate).
  clearbody st. clear st0.
  destruct (any _ results); [split; [discriminate|naive_solver]|].
  destruct (all_skipped s); [split; [discriminate|naive_solver]|].
  destruct (env_missing missing); [split; [case_bool_decide; discriminate|naive_solver]|].
  destruct (Z.eqb_spec (tests_failed s) 0) as [Hf|Hf]; cbn [negb]; [|split; [discriminate|tauto]].
  destruct (Z.eqb_spec (tests_passed results s) 0) as [Hp|Hp]; cbn [negb]; [|tauto].
  split; [|tauto]. destruct (_ && _); [discriminate|]. intros ->. done.
Qed.

Lemma product_passed :
  dget "product_status" diagnosis = Some (PStr "PASSED") ↔
  all succeeded results = true ∧ false_green_risks command results s missing = []
  ∧ test_category command results ≠ "UNKNOWN" ∧ all_skipped s = false ∧ env_missing missing = false
  ∧ tests_failed s = 0%Z ∧ tests_passed results s ≠ 0%Z.
Proof.
  destruct failed_cases as [(failed & _ & Ha & ->)|[Ha ->]]; rewrite Ha.
  - rewrite failed_fields by in_literal. split; [|by intros [? _]]. cbn. intros [= H]. by apply failure_never_passed in H.
  - unfold diagnose_passed. destruct (false_green_risks command results s missing) as [|r rs]; cbn [is_nil].
    + trans (product_status_from_tests (test_truth command results s missing) = "PASSED").
      { change (Some (PStr (product_status_from_tests (test_truth command results s missing))) = Some (PStr "PASSED")
          ↔ product_status_from_tests (test_truth command results s missing) = "PASSED").
        generalize (product_status_from_tests (test_truth command results s missing)). intros t. naive_solver. }
      rewrite product_of_truth, status_passed.
      assert (any (fun r => in_test_stage r && negb (succeeded r)) results = false) as Hn.
      { apply any_false. intros x Hx. rewrite all_true in Ha. rewrite (Ha x Hx). apply andb_false_r. }
      rewrite Hn. tauto.
    + split; [discriminate|]. by intros (_ & ? & _).
Qed.

(** Which verdict a run gets. *)
Lemma verdict :
  dget "validation_result" diagnosis = Some (PStr
    (if all succeeded results then
       if is_nil (false_green_risks command results s missing) then "passed" else "passed_with_false_green_risk"
     else "failed")).
Proof.
  destruct failed_cases as [(failed & _ & Ha & ->)|[Ha ->]]; rewrite Ha.
  - by rewrite failed_fields by in_literal.
  - unfold diagnose_passed. by destruct (is_nil _).
Qed.
End facts.

(** * Abstention *)

(** Some signature recognises the failure. *)
Definition recognised (command : CommandResult) (s : PytestSummary) : bool :=
  is_stale_path_failure (output command) || has_docker_daemon_failure (lower (output command))
  || has_go_mod_unexpected_eof (lower (output command)) || has_assertion_failure s (output command)
  || has_database_refusal (lower (output command))
  || match network_mechanism (lower (output command)) with Some _ => true | None => false end.

Lemma abstains command s down : f_abstained (find_failure command s down) = negb (recognised command s).
Proof.
  unfold find_failure, recognised.
  destruct (is_stale_path_failure _); [done|]. destruct (has_docker_daemon_failure _); [done|].
  destruct (has_go_mod_unexpected_eof _); [done|]. destruct (has_assertion_failure _ _); [done|].
  destruct (has_database_refusal _); [done|]. by destruct (network_mechanism _) as [[]|].
Qed.

(** * The causal graph *)

Definition causes (e : dict) : list pyval := match ev_field "caused_by" e with PList l => l | _ => [] end.

(** Distinct ids; every cause is an earlier event; the first event, and no other, is the root
    cause. *)
Definition causal_wf (evs : list dict) : Prop :=
  NoDup (map (ev_field "event_id") evs)
  ∧ (∀ i e c, evs !! i = Some e → c ∈ causes e → ∃ j e', j < i ∧ evs !! j = Some e' ∧ ev_field "event_id" e' = c)
  ∧ (∀ i e, evs !! i = Some e → is_root_cause e = bool_decide (i = 0)).

(** What the collectors add: numbered, without causes, never the root cause. *)
Definition collected_ok (evs : list dict) : Prop := ∀ i e, evs !! i = Some e →
  ev_field "event_id" e = PStr ("C" +:+ str_of_nat (i + 1)) ∧ causes e = [] ∧ is_root_cause e = false.

Lemma collected_snoc now evs id comp ty sev msg ref rel conf src :
  rel ≠ "ROOT_CAUSE" → collected_ok evs → collected_ok (evs ++ [collector_event now evs id comp ty sev msg ref rel conf src]).
Proof.
  intros Hrel Hok i e Hi. apply lookup_app_Some in Hi as [Hi|[Hle Hi]]; [by apply Hok|].
  apply list_lookup_singleton_Some in Hi as [Hi <-]. assert (i = length evs) as -> by lia.
  split; [done|]. split; [done|]. unfold is_root_cause. rewrite py_eqb_PStr.
  apply bool_decide_eq_false. by intros [= ?].
Qed.

Lemma collector_events_ok now database kubernetes missing : collected_ok (collector_events now database kubernetes missing).
Proof.
  unfold collector_events.
  assert (collected_ok (kubernetes_events now kubernetes (database_events now database []))) as H0.
  { assert (collected_ok (database_events now database [])) as H1.
    { unfold database_events. destruct (is_empty database); [by intros i e ?|]. by apply collected_snoc; [|intros i e ?]. }
    unfold kubernetes_events. destruct (is_empty kubernetes); [done|]. by apply collected_snoc. }
  revert H0. generalize (kubernetes_events now kubernetes (database_events now database [])).
  induction missing as [|m l IH]; intros evs H0; simpl; [done|]. apply IH. by apply collected_snoc.
Qed.

(** The events of a failed command: the cause, the exit, and possibly blocked later work. *)
Lemma command_events command s down :
  ∃ stage component event_type message source tl,
    f_events (find_failure command s down) = events command stage component event_type message source ++ tl
    ∧ (tl = [] ∨ tl = [blocked_event command]).
Proof.
  unfold find_failure.
  destruct (is_stale_path_failure _); [do 6 eexists; split; [symmetry; apply app_nil_r|by left]|].
  destruct (has_docker_daemon_failure _); [do 6 eexists; split; [symmetry; apply app_nil_r|by left]|].
  destruct (has_go_mod_unexpected_eof _).
  { do 6 eexists. split; [reflexivity|]. destruct (_ || _ || _); [by right|by left]. }
  destruct (has_assertion_failure _ _); [do 6 eexists; split; [symmetry; apply app_nil_r|by left]|].
  destruct (has_database_refusal _); [do 6 eexists; split; [symmetry; apply app_nil_r|by left]|].
  destruct (network_mechanism _) as [[]|]; (do 6 eexists; split; [symmetry; apply app_nil_r|by left]).
Qed.

Lemma collected_ids evs : collected_ok evs → map (ev_field "event_id") evs = map (fun i => PStr ("C" +:+ str_of_nat i)) (seq 1 (length evs)).
Proof.
  intros Hok. apply list_eq. intros i. rewrite !list_lookup_fmap.
  destruct (evs !! i) as [e|] eqn:E; simpl.
  - apply Hok in E as H. destruct H as [-> _]. apply lookup_lt_Some in E. rewrite lookup_seq_lt by done. simpl.
    do 4 f_equal. lia.
  - apply lookup_ge_None in E. by rewrite lookup_seq_ge by lia.
Qed.

Lemma collected_ids_NoDup evs : collected_ok evs → NoDup (map (ev_field "event_id") evs).
Proof.
  intros Hok. rewrite collected_ids by done. apply NoDup_fmap_2, NoDup_seq. intros x y [= H]. by apply (inj str_of_nat).
Qed.

(** A well-formed graph stays so when collectors' events are appended. *)
Lemma causal_wf_app evs collected :
  causal_wf evs → evs ≠ [] → (∀ e, e ∈ evs → ∃ t, ev_field "event_id" e = PStr ("E" +:+ t)) → collected_ok collected →
  causal_wf (evs ++ collected).
Proof.
  intros (Hnd & Hc & Hr) Hne Hid Hok. split; [|split].
  - rewrite map_app. apply NoDup_app. split; [done|]. split; [|by apply collected_ids_NoDup].
    intros x (e & -> & He)%list_elem_of_fmap Hx. apply list_elem_of_fmap in Hx as (e' & Heq & (i & Hi)%list_elem_of_lookup).
    apply Hok in Hi as [Hi _]. destruct (Hid e He) as [t Ht]. rewrite Ht, Hi in Heq. done.
  - intros i e c Hi Hin. apply lookup_app_Some in Hi as [Hi|[_ Hi]].
    + destruct (Hc i e c Hi Hin) as (j & e' & ? & Hj & ?). exists j, e'. split; [done|]. split; [by apply lookup_app_l_Some|done].
    + apply Hok in Hi as (_ & Hn & _). rewrite Hn in Hin. by apply elem_of_nil in Hin.
  - intros i e Hi. apply lookup_app_Some in Hi as [Hi|[Hle Hi]]; [by apply Hr|].
    apply Hok in Hi as (_ & _ & ->). symmetry. apply bool_decide_eq_false. intros ->.
    destruct evs; [done|simpl in Hle; lia].
Qed.

Lemma command_events_wf command s down :
  let evs := f_events (find_failure command s down) in
  causal_wf evs ∧ (∀ e, e ∈ evs → ∃ t, ev_field "event_id" e = PStr ("E" +:+ t))
  ∧ ∃ e, evs !! 0 = Some e ∧ ev_field "command_id" e = PStr (cr_name command).
Proof.
  cbv zeta. destruct (command_events command s down) as (stage & comp & ty & msg & src & tl & -> & Htl).
  assert (∀ l : list dict, map (ev_field "event_id") l = map PStr ["E1"; "E2"] ∨ map (ev_field "event_id") l = map PStr ["E1"; "E2"; "E3"] →
            NoDup (map (ev_field "event_id") l) ∧ ∀ e, e ∈ l → ∃ t, ev_field "event_id" e = PStr ("E" +:+ t)) as Hids.
  { intros l Hl. split.
    - destruct Hl as [-> | ->]; apply NoDup_fmap_2; [by intros ?? [=]| |by intros ?? [=]|]; by apply (bool_decide_eq_true_1 (NoDup _)); vm_compute.
    - intros e He. apply (list_elem_of_fmap_2 (ev_field "event_id")) in He.
      change (ev_field "event_id" <$> l) with (map (ev_field "event_id") l) in He.
      destruct Hl as [Hl|Hl]; rewrite Hl in He; cbn [map] in He;
        repeat (apply elem_of_cons in He as [->|He]; [by eexists|]); by apply elem_of_nil in He. }
  destruct (Hids (events command stage comp ty msg src ++ tl)) as [Hnd Hid]; [destruct Htl as [-> | ->]; [by left|by right]|].
  split; [|split; [done|by eexists]].
  split; [done|]. split.
  - intros i e c Hi Hin. assert (1 ≤ i ∧ c = PStr "E1") as [Hi1 ->].
    { destruct Htl as [-> | ->]; destruct i as [|[|[|i]]]; try discriminate Hi; apply (inj Some) in Hi as <-; cbn in Hin;
        try (by apply elem_of_nil in Hin); apply list_elem_of_singleton in Hin; (split; [lia|done]). }
    exists 0. eexists. split; [lia|]. by split.
  - intros i e Hi. destruct Htl as [-> | ->]; destruct i as [|[|[|i]]]; try discriminate Hi; by apply (inj Some) in Hi as <-.
Qed.

Lemma failed_graph now run_id command failed results s missing database kubernetes :
  let evs := f_events (find_failure failed s (negb (is_nil (downstream failed results))))
             ++ collector_events now database kubernetes missing in
  let d := diagnose_failed now run_id command failed results s missing database kubernetes in
  dget "events" d = Some (dicts evs) ∧ dget "causal_chain" d = Some (causal_chain evs)
  ∧ dget "earliest_causal_failure" d = Some (first_event evs) ∧ dget "most_supported_root_cause_event" d = Some (first_event evs).
Proof.
  cbv zeta. unfold diagnose_failed, diagnose_command_failure, failure_payload.
  destruct (command_events failed s (negb (is_nil (downstream failed results)))) as (stage & comp & ty & msg & src & tl & -> & _).
  unfold add_collector_events. destruct (collector_events now database kubernetes missing); [rewrite !app_nil_r|]; done.
Qed.

(** The conditions of [_test_truth], as propositions. *)
Lemma known_category command results :
  test_category command results ≠ "UNKNOWN" ↔ command ∈ ["integration"; "e2e"; "test"] ∨ ∃ r, r ∈ results ∧ cr_stage r = "e2e".
Proof.
  unfold test_category, is_e2e_command. destruct (any _ results) eqn:Ha.
  - rewrite orb_true_r. apply any_true in Ha as (r & Hr & Hs%bool_decide_eq_true). split; [|done]. intros _. right. by exists r.
  - rewrite orb_false_r. assert (¬ ∃ r, r ∈ results ∧ cr_stage r = "e2e") as Hn.
    { intros (r & Hr & Hs). assert (any (fun r => bool_decide (cr_stage r = "e2e")) results = true) as H; [|congruence].
      apply any_true. exists r. split; [done|]. by apply bool_decide_eq_true. }
    repeat case_bool_decide; set_solver.
Qed.
Lemma all_skipped_false s : all_skipped s = false ↔ ¬ (ps_collected s ≠ 0%Z ∧ ps_skipped s = ps_collected s).
Proof. unfold all_skipped, nz. destruct (Z.eqb_spec (ps_collected s) 0), (Z.eqb_spec (ps_skipped s) (ps_collected s)); simpl; naive_solver. Qed.
Lemma env_missing_false missing : env_missing missing = false ↔ ∀ item, item ∈ missing → contains "not set" (lower item) = false.
Proof. apply any_false. Qed.

(** * Claims *)

(** C15: No false green: a run's product status is [PASSED] exactly when every command exited
    with 0, no false-green risk was found, the run is of a test category (the requested command is
    a test, integration or e2e run, or some command ran in the e2e stage), no missing evidence says
    that something is not set, not all collected tests were skipped, no test failed or erred, and
    some passed: by the pytest summary, or by the unittest counts in the commands' output.  Whether
    a command of a test stage was among them is not asked: the counts alone decide. *)
Theorem product_passed_iff now run_id command results s missing database kubernetes :
  dget "product_status" (diagnose_run now run_id command results s missing database kubernetes) = Some (PStr "PASSED") ↔
  (∀ r, r ∈ results → cr_exit_code r = 0%Z) ∧ false_green_risks command results s missing = []
  ∧ (command ∈ ["integration"; "e2e"; "test"] ∨ ∃ r, r ∈ results ∧ cr_stage r = "e2e")
  ∧ ¬ (ps_collected s ≠ 0%Z ∧ ps_skipped s = ps_collected s)
  ∧ (∀ item, item ∈ missing → contains "not set" (lower item) = false)
  ∧ (ps_failed s + ps_error s = 0)%Z ∧ tests_passed results s ≠ 0%Z.
Proof.
  rewrite product_passed, all_true. unfold succeeded.
  assert ((∀ x, x ∈ results → (cr_exit_code x =? 0)%Z = true) ↔ ∀ r, r ∈ results → cr_exit_code r = 0%Z) as ->.
  { split; intros H r Hr; [by apply Z.eqb_eq, H|by apply Z.eqb_eq, H]. }
  rewrite known_category, all_skipped_false, env_missing_false. done.
Qed.

(** The classifier abstains exactly when it knows nothing: a failed run is marked abstained
    (unknown mechanism, confidence 0.2) if and only if no signature - stale path, Docker daemon,
    Go module transfer, test assertion, database refusal, network - recognises the output of its
    first failed command; a run without a failed command is never marked abstained. *)
Theorem abstains_iff_unrecognised now run_id command results s missing database kubernetes :
  dget "abstained" (diagnose_run now run_id command results s missing database kubernetes) =
  Some (PBool (match find_first (fun r => negb (succeeded r)) results with
               | Some failed => negb (recognised failed s)
               | None => false
               end)).
Proof.
  unfold diagnose_run. destruct (find_first _ results) as [failed|].
  - rewrite failed_fields by in_literal. cbv zeta. rewrite abstains. done.
  - unfold diagnose_passed. by destruct (is_nil _).
Qed.

(** C25: The causal graph of a failed run is well formed: event ids are distinct and are the
    causal chain, every cause named is an earlier event, the earliest event is the only root
    cause and the one reported as most supported, and it names the first failed command,
    whatever the collectors add. *)
Theorem causal_graph_wf now run_id command results s missing database kubernetes failed :
  find_first (fun r => negb (succeeded r)) results = Some failed →
  let d := diagnose_run now run_id command results s missing database kubernetes in
  ∃ e evs, dget "events" d = Some (dicts (e :: evs)) ∧ dget "causal_chain" d = Some (causal_chain (e :: evs))
    ∧ causal_wf (e :: evs) ∧ ev_field "command_id" e = PStr (cr_name failed)
    ∧ dget "earliest_causal_failure" d = Some (PDict e) ∧ dget "most_supported_root_cause_event" d = Some (PDict e).
Proof.
  intros Hf. unfold diagnose_run. rewrite Hf. cbv zeta.
  destruct (failed_graph now run_id command failed results s missing database kubernetes) as (-> & -> & -> & ->).
  destruct (command_events_wf failed s (negb (is_nil (downstream failed results)))) as (Hwf & Hid & e & He & Hc).
  destruct (f_events _) as [|e' evs]; [done|]. apply (inj Some) in He as ->.
  exists e, (evs ++ collector_events now database kubernetes missing).
  split; [done|]. split; [done|]. split; [|done].
  apply (causal_wf_app (e :: evs)); [done|done|done|apply collector_events_ok].
Qed.

Definition demo_failure : CommandResult :=
  demo_result "go-test" "test" 1 "go mod download" "Get https://proxy.golang.org/m: unexpected EOF; canceled".
Definition demo_diagnosis : dict :=
  diagnose_run (fun _ => "now") "r1" "test" [demo_failure] no_summary ["X is not set"] [] [].

Lemma causal_graph_wf_witness :
  ∃ e evs, dget "events" demo_diagnosis = Some (dicts (e :: evs))
    ∧ dget "causal_chain" demo_diagnosis = Some (causal_chain (e :: evs))
    ∧ causal_wf (e :: evs) ∧ ev_field "command_id" e = PStr "go-test"
    ∧ dget "earliest_causal_failure" demo_diagnosis = Some (PDict e)
    ∧ dget "most_supported_root_cause_event" demo_diagnosis = Some (PDict e).
Proof.
  exact (causal_graph_wf (fun _ => "now") "r1" "test" [demo_failure] no_summary ["X is not set"] [] [] demo_failure eq_refl).
Defined.
