(* ===== verification/ClassifyFailure.v ===== *)
(** Rule-based failure classification ([observability/ci/classify_failure.py]): the rule table,
    the high-priority causal signatures, and the classification of a structured diagnosis. *)
From S2P Require Import Prelude PyStr PyFloat PyVal Regex Json JsonFacts JsonIndent Hashing PyPath PyText PyIO Redaction Storage Provenance Freshness RunIndex RunContext Links Tracer Sentry RunCommand CollectPytest Diagnosis.

Record FailureClassification : Type := Classification {
  fc_family : string; fc_services : list string; fc_confidence : float; fc_evidence : list string; fc_files : list string;
  fc_commands : list string; fc_version : string; fc_unsupported : option (list string) }.

Definition classification_to_dict (c : FailureClassification) : dict :=
  [("failure_family", PStr (fc_family c)); ("suspected_services", strs (fc_services c));
   ("confidence", PFloat (fc_confidence c)); ("evidence", strs (fc_evidence c));
   ("likely_solution_files", strs (fc_files c)); ("likely_next_commands", strs (fc_commands c));
   ("classifier_version", PStr (fc_version c)); ("unsupported_diagnoses", strs (default [] (fc_unsupported c)));
   ("test.failure_family", PStr (fc_family c))].

(** The dataclass with its default version. *)
Definition classified (family : string) (services : list string) (confidence : float) (evidence files commands unsupported : list string) : FailureClassification :=
  Classification family services confidence evidence files commands CLASSIFIER_VERSION (Some unsupported).

Record rule : Type := Rule {
  r_family : string; r_patterns : list string; r_services : list string; r_files : list string; r_commands : list string }.

Definition RULES : list rule :=
  [Rule "dependency/import-error"
     ["modulenotfounderror|importerror|no module named|command not found"]
     ["ci"]
     ["distributed-backend/observability/requirements.txt"; "distributed-backend/ci-cd/requirements.txt"; ".github/workflows/verify.yaml"]
     ["python -m pip check"; "python -m compileall distributed-backend/observability"];
   Rule "runtime-networking"
     ["connection refused|temporary failure in name resolution|no such host|network.*not found|quilkin"]
     ["encore-backend"; "quilkin"; "nsqd"]
     ["distributed-backend/src/gateway/udp.go"; "distributed-backend/orchestration/kubernetes/overlay/prod/networkpolicies.yaml"]
     ["kubectl -n eve-trade get pods,svc"; "kubectl -n eve-trade logs deploy/encore-backend --tail=200"];
   Rule "service-readiness"
     ["not ready|healthcheck|timed out waiting|readiness|deadline exceeded"]
     ["encore-backend"; "trade-settlement"; "nsqd"]
     ["distributed-backend/src/gateway/service.go"; "distributed-backend/src/market/api.go"; "distributed-backend/src/settlementworker/service.go"]
     ["kubectl -n eve-trade get pods"; "kubectl -n eve-trade logs deploy/encore-backend --tail=200"];
   Rule "migration/schema-drift"
     ["migration|schema.*(differ|drift|missing)|undefined table|undefined column|does not exist"]
     ["postgres"; "trade-settlement"]
     ["distributed-backend/src/trade-settlement/migrations/0001_settlement_schema.sql"; "distributed-backend/orchestration/kubernetes/base/migrate.yaml"]
     ["python distributed-backend/observability/ci/observed_run.py collect-only"; "kubectl -n eve-trade logs job/settlement-db-migrate"];
   Rule "generated-code-drift"
     ["protobuf|proto.*drift|generated.*differ|buf generate"]
     ["proto"; "ci"]
     ["buf.gen.yaml"; "proto"]
     ["buf generate"; "git diff -- proto/gen"];
   Rule "environment-parity"
     ["github actions|works locally|environment|version differs|image digest"]
     ["ci"]
     [".github/workflows/verify.yaml"; "ci-cd/pipeline.py"]
     ["python distributed-backend/observability/ci/compare_runs.py --local <local-run> --ci <ci-run>"];
   Rule "idempotency"
     ["idempot|duplicate|replay|settlement.*twice|double"]
     ["encore-backend"; "market"; "trade-settlement"]
     ["distributed-backend/src/gateway/udp.go"; "distributed-backend/src/market/handler.go"; "distributed-backend/src/settlementworker/service.go"; "distributed-backend/src/trade-settlement/src/executor.rs"]
     ["python -m pytest distributed-backend/tests/e2e -k idempotency -vv -s"];
   Rule "cancel-lifecycle"
     ["cancel|refund|cancelled"]
     ["market"; "trade-settlement"]
     ["gametrade/cancel_trade_instance.go"; "distributed-backend/src/market/handler.go"; "distributed-backend/src/trade-settlement/src/operations.rs"]
     ["python -m pytest distributed-backend/tests/e2e -k cancel -vv -s --maxfail=1"];
   Rule "rollback"
     ["rollback|atomic|partial write|transaction.*failed"]
     ["trade-settlement"; "postgres"]
     ["distributed-backend/src/trade-settlement/src/executor.rs"; "distributed-backend/src/trade-settlement/src/operations.rs"]
     ["python -m pytest distributed-backend/tests/e2e -k rollback -vv -s --maxfail=1"];
   Rule "client-tampering"
     ["tamper|wrong owner|wrong station|canonical|not owned|forged"]
     ["market"]
     ["distributed-backend/src/market/handler.go"; "distributed-backend/src/market/repository.go"]
     ["python -m pytest distributed-backend/tests/e2e -k 'owner or station or tamper' -vv -s"];
   Rule "accept-validation"
     ["accept.*(zero|negative|quantity)|rejects_zero_quantity|quantity_requested|insufficient isk|buyer and seller"]
     ["market"; "trade-settlement"]
     ["gametrade/accept_trade_instance.go"; "distributed-backend/src/market/handler.go"; "distributed-backend/src/trade-settlement/src/operations.rs"]
     ["python -m pytest distributed-backend/tests/e2e -k accepting_trade -vv -s --maxfail=1"];
   Rule "settlement-invariant"
     ["settlement.*invariant|escrow.*mismatch|settlement step|batch_state"]
     ["trade-settlement"; "settlementworker"]
     ["distributed-backend/src/trade-settlement/src/executor.rs"; "distributed-backend/src/settlementworker/service.go"; "distributed-backend/src/trade-settlement/src/operations.rs"]
     ["cargo test --manifest-path distributed-backend/src/trade-settlement/Cargo.toml"];
   Rule "db-invariant"
     ["constraint|sqlstate|ledger.*mismatch|projection.*invariant|foreign key"]
     ["postgres"; "trade-settlement"]
     ["distributed-backend/src/trade-settlement/migrations/0001_settlement_schema.sql"; "distributed-backend/src/trade-settlement/src/operations.rs"]
     ["python distributed-backend/observability/ci/observed_run.py collect-only"]].

(** * High-priority signatures *)

Definition STALE : regex := re_compile ("(?:^|[\\/\s])observability[\\/][^\s:'\" +:+ dq +:+ "]+").
Definition looks_like_stale_path (haystack : string) : bool :=
  if any (fun marker => contains marker haystack) ["no such file or directory"; "can't open file"; "cannot find the path"; "enoent"]
  then re_test STALE haystack else false.

Definition classify_causal_signature (haystack : string) : option FailureClassification :=
  if contains "go mod download" haystack && contains "unexpected eof" haystack then
    Some (classified "dependency-resolution/network-transport" ["go"; "proxy.golang.org"] (f_lit 82 100)
      ["observed go mod download"; "observed unexpected EOF during module fetch"; "observed proxy.golang.org endpoint";
       "Docker, database, Kubernetes, and application E2E root causes are unsupported without additional causal evidence."]
      ["go.mod"; "go.sum"]
      ["retry the exact go mod download"; "verify GOPROXY and proxy.golang.org reachability"]
      ["docker-networking"; "database"; "application E2E bug"; "Kubernetes"])
  else if looks_like_stale_path haystack then
    Some (classified "ci-harness/stale-path" ["ci-harness"] (f_lit 9 10)
      ["observed missing observability path before product tests could run"]
      [".github/workflows/verify.yaml"; "distributed-backend/observability/ci/observed_run.py"]
      ["run the current distributed-backend/observability observed command"]
      ["Python application bug"; "E2E product regression"; "Docker networking"])
  else if contains "cannot connect to the docker daemon" haystack || contains "is the docker daemon running" haystack then
    Some (classified "container-runtime/docker-daemon-unavailable" ["docker"] (f_lit 96 100)
      ["observed direct Docker daemon connectivity error"] ["docker-compose.integration.yml"]
      ["docker version"; "docker info"] ["application E2E bug"; "database schema drift"])
  else if contains "connection refused" haystack
          && (contains "postgres" haystack || contains ":5432" haystack || contains "database_url" haystack) then
    Some (classified "database/network-transport" ["postgres"] (f_lit 88 100)
      ["observed PostgreSQL TCP connection refusal"]
      ["distributed-backend/src/trade-settlement/migrations/0001_settlement_schema.sql"]
      ["inspect PostgreSQL readiness and configured database URL"] ["docker-networking"])
  else None.

(** * The rules *)

(** [[pattern for pattern in rule.patterns if re.search(pattern, haystack, re.IGNORECASE)]] *)
Definition rule_matches (haystack : string) (r : rule) : list string :=
  filterb (fun pattern => re_test (re_compile_i pattern) haystack) (r_patterns r).

(** The loop: the rule with the most matches, the first of them on a tie. *)
Definition better (haystack : string) (best : option (nat * rule * list string)) (r : rule) : option (nat * rule * list string) :=
  let matches := rule_matches haystack r in
  let score := length matches in
  if negb (score =? 0) && match best with None => true | Some (s, _, _) => s <? score end
  then Some (score, r, matches) else best.
Definition best_rule (haystack : string) : option (nat * rule * list string) := fold_left (better haystack) RULES None.

Definition rule_confidence (score : nat) (nodeid : string) : float :=
  f_min (f_lit 95 100)
    (f_add (f_add (f_lit 55 100) (f_mul (f_lit 12 100) (f_of_Z (Z.of_nat score)))) (if nonempty nodeid then f_lit 8 100 else f_zero)).

Definition unclassified : FailureClassification :=
  classified "unclassified" [] (f_lit 2 10) ["No transparent classification rule matched the available evidence."] []
    ["Open failure-report.html and inspect the first failing command and service logs."] [].

Definition from_rule (nodeid : string) (score : nat) (r : rule) (matches : list string) : FailureClassification :=
  classified (r_family r) (r_services r) (rule_confidence score nodeid)
    ((if nonempty nodeid then ["test nodeid: " +:+ nodeid] else []) ++ map (fun pattern => "matched /" +:+ pattern +:+ "/") matches)
    (r_files r) (r_commands r) [].

Definition haystack_of (nodeid assertion logs db_hints : string) : string :=
  lower (join nl [nodeid; assertion; ulast 30000 logs; ulast 10000 db_hints]).

Definition classify_failure (nodeid assertion logs db_hints : string) : FailureClassification :=
  let haystack := haystack_of nodeid assertion logs db_hints in
  match classify_causal_signature haystack with
  | Some c => c
  | None =>
      match best_rule haystack with
      | None => unclassified
      | Some (score, r, matches) => from_rule nodeid score r matches
      end
  end.

(** * From a diagnosis *)

Definition family_part (s : string) : string := replace_char "_" "-" (lower s).
Definition family_of (stage mechanism : string) : string :=
  let f := join "/" (map family_part (filterb (fun x => nonempty x && negb (bool_decide (x = "UNKNOWN"))) [stage; mechanism])) in
  if nonempty f then f else "unclassified".

Definition str_items (v : pyval) : res (list string) := let! l := py_iter v in Ok (map py_str l).

Definition classification_from_diagnosis (diagnosis : dict) : res FailureClassification :=
  let! primary := as_dict (dgetd diagnosis "primary_diagnosis" (PDict [])) in
  let! dimensions := as_dict (dgetd primary "category_dimensions" (PDict [])) in
  let stage := py_str (dgetd dimensions "stage" (PStr "UNKNOWN")) in
  let mechanism := py_str (dgetd dimensions "mechanism" (PStr "UNKNOWN")) in
  let external := py_str (dgetd dimensions "external_system" (PStr "")) in
  let! supporting := str_items (dgetd primary "supporting_evidence" (PList [])) in
  let! contradicting := str_items (dgetd primary "contradicting_evidence" (PList [])) in
  let evidence := supporting ++ contradicting in
  let! items := py_iter (dgetd diagnosis "recommendations" (PList [])) in
  let! next_commands := res_mapM (fun item => let! a := py_get_or item "action" item in Ok (py_str a)) items in
  let services := filterb nonempty [py_str (dgetd dimensions "component" (PStr "")); external] in
  let! confidence := py_float (py_or (dgetd primary "confidence_score" (PFloat (f_lit 2 10))) (PFloat (f_lit 2 10))) in
  let! unsupported := str_items (dgetd primary "unsupported_diagnoses" (PList [])) in
  Ok (classified (family_of stage mechanism) services confidence
        (match evidence with [] => [py_str (dgetd primary "summary" (PStr "No structured evidence summary available."))] | _ => evidence end)
        []
        (match next_commands with [] => ["Inspect the structured diagnosis JSON and command log."] | _ => next_commands end)
        unsupported).

Example rules_compile : forallb (fun r => forallb re_compiles (r_patterns r)) RULES = true.
Proof. vm_compute. reflexivity. Qed.
Example classify_ex :
  fc_family (classify_failure "tests/e2e/test_x.py::test_accept" "rejects_zero_quantity" "" "") = "accept-validation"
  ∧ fc_family (classify_failure "" "" "ModuleNotFoundError: no module named x" "") = "dependency/import-error".
Proof. vm_compute. done. Qed.
