(* ===== verification/ClassifyFacts.v ===== *)
(** Correctness of the failure classification: the scoring loop is a first-match search, and
    every diagnosis has a classification. *)
From S2P Require Import Prelude PyStr PyFloat PyVal Regex Json JsonFacts JsonIndent Hashing PyPath PyText PyIO Redaction Storage Provenance Freshness RunIndex RunContext Links Tracer Sentry RunCommand CollectPytest Diagnosis DiagnosisFacts ClassifyFailure.

(** * The scoring loop *)

Definition single (r : rule) : bool := length (r_patterns r) =? 1.
(** The one pattern of the rule occurs. *)
Definition fires (haystack : string) (r : rule) : bool := any (fun p => re_test (re_compile_i p) haystack) (r_patterns r).

Lemma rule_matches_single haystack r :
  single r = true → rule_matches haystack r = if fires haystack r then r_patterns r else [].
Proof.
  unfold single, rule_matches, fires. destruct (r_patterns r) as [|p [|]]; try discriminate. intros _.
  unfold filterb, any. cbn [List.filter existsb]. rewrite orb_false_r. by destruct (re_test _ _).
Qed.

Lemma best_kept haystack rs r ms :
  forallb single rs = true → fold_left (better haystack) rs (Some (1, r, ms)) = Some (1, r, ms).
Proof.
  induction rs as [|x rs IH]; cbn [forallb fold_left]; [done|]. intros [Hx Hrs]%andb_true_iff.
  replace (better haystack (Some (1, r, ms)) x) with (Some (1, r, ms)); [by apply IH|].
  unfold better. rewrite rule_matches_single by done. unfold single in Hx. apply Nat.eqb_eq in Hx.
  destruct (fires haystack x); [by rewrite Hx|done].
Qed.

Lemma best_first haystack rs :
  forallb single rs = true →
  fold_left (better haystack) rs None = (fun r => (1, r, r_patterns r)) <$> find_first (fires haystack) rs.
Proof.
  induction rs as [|x rs IH]; cbn [forallb fold_left find_first]; [done|]. intros [Hx Hrs]%andb_true_iff.
  unfold better at 2. rewrite rule_matches_single by done. pose proof Hx as Hl. unfold single in Hl. apply Nat.eqb_eq in Hl.
  destruct (fires haystack x) eqn:Hf.
  - rewrite Hl. cbn. by apply best_kept.
  - cbn. by apply IH.
Qed.

(** * Every diagnosis has a classification *)

Definition in_unit (f : float) : bool := f_ltb f_zero f && f_leb f (f_of_Z 1).

(** What the classification reads of a diagnosis. *)
Lemma classification_of summary stage mechanism component external score band sup con mis uns recs d :
  dget "primary_diagnosis" d = Some (PDict (primary summary stage mechanism component external (cents score) band sup con mis uns)) →
  dget "recommendations" d = Some (dicts (map (fun r => recommendation r.1.1 r.1.2 r.2) recs)) →
  in_unit (f_lit score 100) = true → filterb nonempty sup ≠ [] →
  ∃ c, classification_from_diagnosis d = Ok c ∧ fc_family c = family_of stage mechanism
    ∧ fc_confidence c = f_lit score 100 ∧ fc_evidence c ≠ [] ∧ fc_commands c ≠ [].
Proof.
  intros Hp Hr Hu Hs. unfold classification_from_diagnosis, dgetd. rewrite Hp, Hr.
  assert (∀ l, str_items (strs l) = Ok l) as Hstrs.
  { intros l. unfold str_items, strs. cbn. f_equal. rewrite map_map. apply map_id. }
  assert (truthy (cents score) = true) as Ht.
  { unfold cents, truthy. unfold in_unit in Hu. by destruct (f_lit score 100) as [[]|[]| |[]]. }
  cbn [default from_option id as_dict res_bind]. set (P := primary _ _ _ _ _ _ _ _ _ _ _).
  change (dget "supporting_evidence" P) with (Some (strs (filterb nonempty sup))).
  change (dget "contradicting_evidence" P) with (Some (strs (filterb nonempty con))).
  change (dget "unsupported_diagnoses" P) with (Some (strs uns)).
  change (dget "confidence_score" P) with (Some (cents score)).
  change (dget "category_dimensions" P) with (Some (PDict [("stage", PStr stage); ("mechanism", PStr mechanism);
    ("component", PStr component); ("external_system", PStr external)])).
  cbn [default from_option id as_dict res_bind]. rewrite !Hstrs. cbn [res_bind].
  change (py_iter (dicts _)) with (Ok (map PDict (map (fun r => recommendation r.1.1 r.1.2 r.2) recs))). cbn [res_bind].
  assert (res_mapM (fun item => let! a := py_get_or item "action" item in Ok (py_str a))
            (map PDict (map (fun r => recommendation r.1.1 r.1.2 r.2) recs)) = Ok (map (fun r => r.1.1) recs)) as ->.
  { clear. induction recs as [|r recs IH]; [done|]. cbn [map res_mapM]. rewrite IH. done. }
  cbn [res_bind]. unfold py_or. rewrite Ht. cbn [py_float cents res_bind].
  eexists. split; [reflexivity|]. split; [done|]. split; [done|]. cbn [fc_evidence fc_commands classified].
  split; [by destruct (filterb nonempty sup)|]. by destruct recs.
Qed.

(** A branch whose primary diagnosis has a confidence and support. *)
Definition classifiable (p : dict) (rs : list dict) : Prop :=
  ∃ summary stage mechanism component external score band sup con mis uns recs,
    p = primary summary stage mechanism component external (cents score) band sup con mis uns
    ∧ rs = map (fun r => recommendation r.1.1 r.1.2 r.2) recs
    ∧ in_unit (f_lit score 100) = true ∧ filterb nonempty sup ≠ [].

Lemma recs_one a b c : [recommendation a b c] = map (fun r => recommendation r.1.1 r.1.2 r.2) [(a, b, c)].
Proof. done. Qed.
Lemma recs_two a b c a' b' c' :
  [recommendation a b c; recommendation a' b' c'] = map (fun r => recommendation r.1.1 r.1.2 r.2) [(a, b, c); (a', b', c')].
Proof. done. Qed.

Ltac classifiable :=
  do 12 eexists; split; [reflexivity|]; split; [first [apply recs_one|apply recs_two]|];
  split; [vm_compute; reflexivity|]; discriminate.

Lemma findings_classifiable command s down :
  classifiable (f_primary (find_failure command s down)) (f_recommendations (find_failure command s down)).
Proof.
  unfold find_failure.
  destruct (is_stale_path_failure _); [classifiable|].
  destruct (has_docker_daemon_failure _); [classifiable|].
  destruct (has_go_mod_unexpected_eof _); [classifiable|].
  destruct (has_assertion_failure _ _); [classifiable|].
  destruct (has_database_refusal _); [classifiable|].
  destruct (network_mechanism _) as [[]|]; classifiable.
Qed.

Lemma risks_supported command results s missing r :
  r ∈ false_green_risks command results s missing → nonempty (py_str (dget0 r "evidence")) = true.
Proof.
  unfold false_green_risks. rewrite !elem_of_app. intros [H|[H|[H|H]]];
    (case_match; [by apply list_elem_of_singleton in H as ->|by apply elem_of_nil in H]).
Qed.

Lemma diagnosis_classified now run_id command results s missing database kubernetes :
  ∃ c, classification_from_diagnosis (diagnose_run now run_id command results s missing database kubernetes) = Ok c
    ∧ in_unit (fc_confidence c) = true ∧ fc_evidence c ≠ [] ∧ fc_commands c ≠ [].
Proof.
  assert (∀ d p rs, dget "primary_diagnosis" d = Some (PDict p) → dget "recommendations" d = Some (dicts rs) → classifiable p rs →
    ∃ c, classification_from_diagnosis d = Ok c ∧ in_unit (fc_confidence c) = true ∧ fc_evidence c ≠ [] ∧ fc_commands c ≠ []) as Hgen.
  { intros d p rs Hp Hr (? & ? & ? & ? & ? & score & ? & sup & ? & ? & ? & recs & -> & -> & Hu & Hs).
    destruct (classification_of _ _ _ _ _ _ _ _ _ _ _ _ _ Hp Hr Hu Hs) as (c & Hc & _ & Hconf & He & Hcmd).
    exists c. by rewrite Hconf. }
  destruct (failed_cases now run_id command results s missing database kubernetes) as [(failed & _ & _ & ->)|[_ ->]].
  - eapply Hgen; [| |apply findings_classifiable]; rewrite failed_fields by in_literal; reflexivity.
  - unfold diagnose_passed. pose proof (risks_supported command results s missing) as Hsup.
    destruct (false_green_risks command results s missing) as [|r rs]; cbn [is_nil].
    + eapply (Hgen _ _ []); [reflexivity|reflexivity|]. do 11 eexists. exists []. split; [reflexivity|]. split; [done|].
      split; [vm_compute; reflexivity|discriminate].
    + eapply (Hgen _ _ [_]); [reflexivity|reflexivity|]. do 12 eexists. split; [reflexivity|]. split; [apply recs_one|].
      split; [vm_compute; reflexivity|]. cbn [map]. unfold filterb. cbn [List.filter].
      rewrite (Hsup r) by (by left). discriminate.
Qed.

(** * Claims *)

(** C29: The scoring loop of [classify_failure] is a first-match search: without a causal
    signature the result is the classification of the first rule in the table whose pattern
    occurs in the lower-cased evidence, with one match, and [unclassified] if there is none. *)
Theorem classify_first_match nodeid assertion logs db_hints :
  classify_causal_signature (haystack_of nodeid assertion logs db_hints) = None →
  classify_failure nodeid assertion logs db_hints =
  match find_first (fires (haystack_of nodeid assertion logs db_hints)) RULES with
  | Some r => from_rule nodeid 1 r (r_patterns r)
  | None => unclassified
  end.
Proof.
  intros Hn. unfold classify_failure. rewrite Hn. unfold best_rule. rewrite best_first by (vm_compute; reflexivity).
  by destruct (find_first _ RULES).
Qed.
Lemma classify_first_match_witness :
  classify_failure "" "escrow mismatch" "deadlock, constraint violated" "" =
  match find_first (fires (haystack_of "" "escrow mismatch" "deadlock, constraint violated" "")) RULES with
  | Some r => from_rule "" 1 r (r_patterns r)
  | None => unclassified
  end.
Proof. apply (classify_first_match "" "escrow mismatch" "deadlock, constraint violated" ""). vm_compute. reflexivity. Defined.
