(* ===== verification/FailureReport.v ===== *)
(** Failure and run reports ([observability/ci/generate_failure_report.py]): the data of both
    reports, their Markdown and HTML, and the inventory of the run's artifacts. *)
From S2P Require Import Prelude PyStr PyFloat PyVal Regex Json JsonFacts JsonIndent Hashing PyPath PyText PyIO Redaction Storage Provenance Freshness RunIndex RunContext CompareRuns Links Tracer Sentry RunCommand CollectPytest Diagnosis ClassifyFailure.

(** * [f"{value:.0%}"] *)

(** The exact value rounded to an integer, ties to even. *)
Definition round_half_even (n d : Z) : Z :=
  let q := (n / d)%Z in
  let r := (2 * (n mod d))%Z in
  if (r <? d)%Z then q else if (d <? r)%Z then (q + 1)%Z else if Z.even q then q else (q + 1)%Z.
Definition percent_float (f : float) : string :=
  match f_mul f (f_of_Z 100) with
  | S754_zero s => (if s then "-" else "") +:+ "0%"
  | S754_infinity s => (if s then "-" else "") +:+ "inf%"
  | S754_nan => "nan%"
  | S754_finite s m e =>
      (if s then "-" else "") +:+ str_of_Z (round_half_even (f_num m e) (f_den e)) +:+ "%"
  end.
Definition percent0 (v : pyval) : res string :=
  match v with
  | PFloat f => Ok (percent_float f)
  | PInt z => Ok (percent_float (f_of_Z z))
  | PBool b => Ok (percent_float (f_of_Z (Z_of_bool b)))
  | PStr _ => Raise (ValueError "Unknown format code '%' for object of type 'str'")
  | _ => Raise TypeError
  end.

Example percent_ex :
  percent0 (cents 82) = Ok "82%" ∧ percent0 (PFloat (f_lit 5 1000)) = Ok "0%" ∧ percent0 (PFloat (f_lit 67 100)) = Ok "67%"
  ∧ percent0 (PInt 0) = Ok "0%".
Proof. vm_compute. done. Qed.

(** * Artifacts *)

Record artifact : Type := Artifact { a_path : string; a_href : string }.
Definition artifact_dict (a : artifact) : pyval := PDict [("path", PStr (a_path a)); ("href", PStr (a_href a))].

Definition artifact_inventory (cwd run_dir report_path : path) (files : fs) : list artifact :=
  map (fun kv => Artifact (path_str (default kv.1 (relative_to run_dir kv.1))) (relative_artifact cwd report_path kv.1))
    (filterb (fun kv => negb (bool_decide (kv.1 = report_path))
                        && negb (bool_decide (path_name kv.1 ∈ ["failure-report.html"; "failure-summary.json"])))
       (rglob_files run_dir files)).

(** [_load_json_if_exists] *)
Definition load_json_if_exists (p : path) (files : fs) : res pyval :=
  match read_json p files with
  | Ok v => Ok v
  | Raise (ValueError "UnicodeDecodeError") => Raise (ValueError "UnicodeDecodeError")
  | Raise _ => Ok (PDict [])
  end.

Definition executive_summary (command : CommandResult) (pytest : PytestSummary) (c : FailureClassification) : string :=
  (if nonempty (ps_nodeid pytest) then "CI failed in " +:+ ps_nodeid pytest
   else "Command " +:+ cr_name command +:+ " failed with exit code " +:+ str_of_Z (cr_exit_code command))
  +:+ "; likely failure family: " +:+ fc_family c +:+ " (" +:+ percent_float (fc_confidence c) +:+ " rule confidence).".

(** What the failure report shows. *)
Record report : Type := Report {
  rp_context : RunContext; rp_command : CommandResult; rp_pytest : PytestSummary; rp_class : FailureClassification;
  rp_actions_url : string; rp_sources : list (string * string); rp_honeycomb : dict; rp_event_id : string; rp_event_url : string;
  rp_database : dict; rp_kubernetes : dict; rp_artifacts : list artifact; rp_parity : list string; rp_missing : list string;
  rp_diagnosis : dict; rp_freshness : Freshness }.

Definition report_summary (r : report) : dict :=
  [("executive_summary", PStr (executive_summary (rp_command r) (rp_pytest r) (rp_class r)));
   ("run", PDict (ctx_to_dict (rp_context r))); ("failed_command", PDict (to_dict false (rp_command r)));
   ("pytest", PDict (summary_to_dict (rp_pytest r))); ("classification", PDict (classification_to_dict (rp_class r)));
   ("github_actions_url", PStr (rp_actions_url r));
   ("source_links", PList (map (fun x => PDict [("path", PStr x.1); ("url", PStr x.2)]) (rp_sources r)));
   ("honeycomb", PDict (rp_honeycomb r)); ("sentry", PDict [("event_id", PStr (rp_event_id r)); ("event_url", PStr (rp_event_url r))]);
   ("database", PDict (rp_database r)); ("kubernetes", PDict (rp_kubernetes r));
   ("artifacts", PList (map artifact_dict (rp_artifacts r))); ("parity_hints", strs (rp_parity r));
   ("missing_evidence", strs (rp_missing r)); ("diagnosis", PDict (rp_diagnosis r));
   ("freshness", PDict (freshness_to_dict (rp_freshness r)))].

(** * Markdown *)

Definition tick (s : string) : string := "`" +:+ s +:+ "`".
Definition link_item (a : artifact) : string := "- [" +:+ a_path a +:+ "](" +:+ a_href a +:+ ")".
Definition or_lines (l : list string) (dflt : string) : list string := match l with [] => [dflt] | _ => l end.
(** [d.get(k, dflt)], printed. *)
Definition gs (d : dict) (k dflt : string) : string := py_str (dgetd d k (PStr dflt)).
Definition is_service_log (a : artifact) : bool := startswith "runtime/logs/" (a_path a) || startswith "kubernetes/logs/" (a_path a).
Definition is_database (a : artifact) : bool := startswith "db/" (a_path a).
Definition dash (s : string) : string := "- " +:+ s.
Definition or_else (a b : string) : string := if nonempty a then a else b.

Definition freshness_lines (f : Freshness) : list string :=
  ["- Report SHA: " +:+ tick (fr_report_full_head_sha f); "- Current SHA: " +:+ tick (fr_current_full_head_sha f);
   "- Freshness state: " +:+ tick (fr_state f)].

Definition diagnosis_lines (p : dict) : res (list string) :=
  if is_empty p then Ok []
  else
    let! dims := as_dict (dgetd p "category_dimensions" (PDict [])) in
    let! pct := percent0 (dgetd p "confidence_score" (PInt 0)) in
    Ok [""; "## Structured diagnosis"; ""; "- Summary: " +:+ gs p "summary" ""; "- Stage: " +:+ tick (gs dims "stage" "");
        "- Mechanism: " +:+ tick (gs dims "mechanism" ""); "- Component: " +:+ tick (gs dims "component" "");
        "- External system: " +:+ tick (gs dims "external_system" "");
        "- Confidence: " +:+ tick (gs p "confidence_band" "") +:+ " (" +:+ pct +:+ ")"].

Definition command_lines (r : report) : list string :=
  let c := rp_command r in
  let t := rp_pytest r in
  ([""; "## Failed command"; ""; "- Stage: " +:+ tick (cr_stage c); "- Command: " +:+ tick (join " " (cr_argv c));
    "- Exit code: " +:+ tick (str_of_Z (cr_exit_code c)); "- Duration: " +:+ tick (f_repr (cr_duration_ms c) +:+ " ms");
    "- [Command log](" +:+ cr_log_path c +:+ ")"; ""; "## First failing test"; "";
    "- Node ID: " +:+ tick (or_else (ps_nodeid t) "not extracted");
    "- Failure: " +:+ or_else (ps_message t) "No pytest failure was extracted."]
   ++ (if nonempty (ps_url t) then ["- [Open failing source line](" +:+ ps_url t +:+ ")"] else []))%list.

Definition family_lines (r : report) : list string :=
  let c := rp_command r in
  let k := rp_class r in
  ([""; "## Failure family"; ""; "- Family: " +:+ tick (fc_family k); "- Confidence: " +:+ tick (percent_float (fc_confidence k));
    "- Suspected services: " +:+ or_else (join ", " (fc_services k)) "unknown"; ""] ++ map dash (fc_evidence k)
   ++ [""; "## Causal chain"; ""; "1. Pipeline stage " +:+ tick (cr_stage c) +:+ " invoked " +:+ tick (cr_name c) +:+ ".";
       "2. The command exited " +:+ tick (str_of_Z (cr_exit_code c)) +:+ " after " +:+ tick (f_repr (cr_duration_ms c) +:+ " ms") +:+ ".";
       "3. The first extracted failure was " +:+ tick (or_else (ps_nodeid (rp_pytest r)) "not a pytest test") +:+ ".";
       "4. Transparent rules classified the available evidence as " +:+ tick (fc_family k) +:+ ".";
       ""; "## Honeycomb and BubbleUp"; ""])%list.

Definition honeycomb_lines (h : dict) : res (list string) :=
  let url k label := if truthy (dget0 h k) then ["- [" +:+ label +:+ "](" +:+ py_str (dget0 h k) +:+ ")"] else [] in
  let! steps := str_items (dget0 h "bubbleup_steps") in
  let! fields := str_items (dget0 h "suggested_fields") in
  Ok (url "trace_url" "Open Honeycomb trace" ++ url "query_url" "Open suggested Honeycomb query" ++ map dash steps
      ++ [""; "Fields to inspect: " +:+ join ", " (map tick fields); ""; "## Sentry / Seer / Autofix"; ""]).

Definition closing_lines (r : report) : list string :=
  ((if nonempty (rp_event_url r) then ["- [Open Sentry event](" +:+ rp_event_url r +:+ ")"]
    else ["- No Sentry event was created; configure `SENTRY_DSN` to enable it."])
   ++ ["- In the Sentry issue, open Seer/Autofix if the organization plan and project support it.";
       "- Provide Seer the linked command log, failing source line, likely solution files, and Honeycomb trace/query. No guaranteed Seer API is assumed.";
       ""; "## Related service logs"; ""]
   ++ or_lines (map link_item (filterb is_service_log (rp_artifacts r))) "- No per-service log artifacts were collected."
   ++ [""; "## Database snapshots"; ""]
   ++ or_lines (map link_item (filterb is_database (rp_artifacts r))) "- No database snapshot artifacts were collected."
   ++ [""; "## Likely solution files"; ""] ++ map (fun x => "- [" +:+ x.1 +:+ "](" +:+ x.2 +:+ ")") (rp_sources r)
   ++ [""; "## Suggested next commands"; ""] ++ map (fun x => dash (tick x)) (fc_commands (rp_class r))
   ++ [""; "## Related artifacts"; ""] ++ map link_item (rp_artifacts r)
   ++ [""; "## Local vs CI parity"; ""]
   ++ or_lines (map dash (rp_parity r)) "- Compare this run with a passing local run using `compare_runs.py`."
   ++ [""; "## Missing evidence"; ""] ++ or_lines (map dash (rp_missing r)) "- None reported by collectors." ++ [""])%list.

Definition report_markdown (r : report) : res string :=
  let c := rp_context r in
  let f := rp_freshness r in
  let! p := as_dict (dgetd (rp_diagnosis r) "primary_diagnosis" (PDict [])) in
  let! structured := diagnosis_lines p in
  let! honeycomb := honeycomb_lines (rp_honeycomb r) in
  Ok (join nl
    (["# Eve Trade failure report"; ""; "## Freshness"; ""] ++ freshness_lines f
     ++ ["- Source stability: " +:+ tick (fr_source_stability f); "- Run status: " +:+ tick (fr_run_status f);
         "- Reason: " +:+ fr_reason f; ""; "## Executive summary"; "";
         executive_summary (rp_command r) (rp_pytest r) (rp_class r); ""; "## Run identity"; "";
         "- Run: " +:+ tick (py_str (run_id c)); "- Environment: " +:+ tick (py_str (environment c));
         "- Git SHA: " +:+ tick (py_str (github_sha c))]
     ++ structured
     ++ (if nonempty (rp_actions_url r) then ["- [Open GitHub Actions run](" +:+ rp_actions_url r +:+ ")"] else [])
     ++ command_lines r ++ family_lines r ++ honeycomb ++ closing_lines r)).

(** * HTML *)

(** The local function [link(label, url)]. *)
Definition html_link (label url : string) : string :=
  if nonempty url then "<a href=" +:+ dq +:+ html_escape url +:+ dq +:+ ">" +:+ html_escape label +:+ "</a>" else html_escape label.
Definition li (s : string) : string := "<li>" +:+ s +:+ "</li>".
Definition li_list (l : list string) (dflt : string) : string := or_else (join "" (map li l)) dflt.
Definition a_link (a : artifact) : string := html_link (a_path a) (a_href a).

Definition report_html (r : report) : res string :=
  let c := rp_command r in
  let t := rp_pytest r in
  let k := rp_class r in
  let h := rp_honeycomb r in
  let! steps := str_items (dget0 h "bubbleup_steps") in
  let url key := gs h key "" in
  Ok ("<!doctype html><html lang=" +:+ dq +:+ "en" +:+ dq +:+ "><head><meta charset=" +:+ dq +:+ "utf-8" +:+ dq
  +:+ "><meta name=" +:+ dq +:+ "viewport" +:+ dq +:+ " content=" +:+ dq +:+ "width=device-width" +:+ dq
  +:+ "><title>Eve Trade failure report</title><style>" +:+ nl
  +:+ "body{font:16px/1.5 system-ui,sans-serif;max-width:1100px;margin:32px auto;padding:0 20px;color:#17212b}header{background:#18222d;color:white;padding:24px;border-radius:8px}section{border:1px solid #d8dee4;border-radius:8px;padding:18px;margin:18px 0}code,pre{background:#f4f6f8;padding:2px 5px;border-radius:4px}.bad{color:#b42318}a{color:#0969da}table{border-collapse:collapse}td,th{padding:6px 10px;border:1px solid #d8dee4;text-align:left}</style></head><body>" +:+ nl
  +:+ "<header><h1>Eve Trade failure report</h1><p>" +:+ html_escape (executive_summary c t k) +:+ "</p></header>" +:+ nl
  +:+ "<section><h2>Run identity</h2><p><code>" +:+ html_escape (py_str (run_id (rp_context r))) +:+ "</code> | "
  +:+ html_escape (py_str (environment (rp_context r))) +:+ " | " +:+ html_link "GitHub Actions" (rp_actions_url r) +:+ "</p></section>" +:+ nl
  +:+ "<section><h2>Failure</h2><p class=" +:+ dq +:+ "bad" +:+ dq +:+ "><strong>" +:+ html_escape (cr_name c) +:+ "</strong> exited "
  +:+ str_of_Z (cr_exit_code c) +:+ "</p><p>Test: <code>" +:+ html_escape (or_else (ps_nodeid t) "not extracted") +:+ "</code></p><p>"
  +:+ html_link "Open failing source" (ps_url t) +:+ " | " +:+ html_link "Command log" (cr_log_path c) +:+ "</p><pre>"
  +:+ html_escape (ps_message t) +:+ "</pre></section>" +:+ nl
  +:+ "<section><h2>Classification</h2><p><strong>" +:+ html_escape (fc_family k) +:+ "</strong> (" +:+ percent_float (fc_confidence k)
  +:+ " rule confidence)</p><ul>" +:+ join "" (map (fun x => li (html_escape x)) (fc_evidence k)) +:+ "</ul></section>" +:+ nl
  +:+ "<section><h2>Honeycomb BubbleUp</h2><p>" +:+ html_link "Open trace" (url "trace_url") +:+ " | "
  +:+ html_link "Open suggested query" (url "query_url") +:+ "</p><ol>" +:+ join "" (map (fun x => li (html_escape x)) steps) +:+ "</ol></section>" +:+ nl
  +:+ "<section><h2>Sentry / Seer / Autofix</h2><p>" +:+ html_link "Open Sentry event" (rp_event_url r)
  +:+ "</p><p>Use Seer/Autofix from the generated Sentry issue when supported; attach the command log, trace, and likely solution links.</p></section>" +:+ nl
  +:+ "<section><h2>Related service logs</h2><ul>"
  +:+ li_list (map a_link (filterb is_service_log (rp_artifacts r))) "<li>No per-service log artifacts were collected.</li>"
  +:+ "</ul></section><section><h2>Database snapshots</h2><ul>"
  +:+ li_list (map a_link (filterb is_database (rp_artifacts r))) "<li>No database snapshot artifacts were collected.</li>" +:+ "</ul></section>" +:+ nl
  +:+ "<section><h2>Likely solution files</h2><ul>" +:+ join "" (map (fun x => li (html_link x.1 x.2)) (rp_sources r))
  +:+ "</ul><h3>Suggested next commands</h3><ul>"
  +:+ join "" (map (fun x => li ("<code>" +:+ html_escape x +:+ "</code>")) (fc_commands k)) +:+ "</ul></section>" +:+ nl
  +:+ "<section><h2>Local vs CI parity</h2><ul>"
  +:+ li_list (map html_escape (rp_parity r)) "<li>Compare this run with a passing local run using compare_runs.py.</li>"
  +:+ "</ul></section><section><h2>Missing evidence</h2><ul>"
  +:+ li_list (map html_escape (rp_missing r)) "<li>None reported by collectors.</li>" +:+ "</ul></section>" +:+ nl
  +:+ "<section><h2>All artifacts</h2><ul>" +:+ join "" (map (fun a => li (a_link a)) (rp_artifacts r)) +:+ "</ul></section>" +:+ nl
  +:+ "</body></html>").

(** * The run report *)

Record run_report : Type := RunReport {
  rr_run : pyval; rr_provenance : pyval; rr_freshness : Freshness; rr_diagnosis : dict; rr_artifacts : list artifact }.
Definition run_report_data (r : run_report) : dict :=
  [("schema_version", PStr "o11y.run-report.v1"); ("run", rr_run r); ("provenance", rr_provenance r);
   ("freshness", PDict (freshness_to_dict (rr_freshness r))); ("diagnosis", PDict (rr_diagnosis r));
   ("artifacts", PList (map artifact_dict (rr_artifacts r)))].

Definition stale_banner (f : Freshness) : list string :=
  if bool_decide (fr_state f = "EXACT") then []
  else [""; "**STALE EVIDENCE: do not use this report as proof of the current revision.**"].

Definition run_freshness_lines (f : Freshness) (branch : string) : list string :=
  (["# Eve Trade observed run report"; ""; "## Freshness"; ""] ++ freshness_lines f
   ++ ["- Branch: " +:+ tick branch; "- Source stability: " +:+ tick (fr_source_stability f); "- Run status: " +:+ tick (fr_run_status f);
       "- Dirty worktree: report " +:+ tick (py_str (fr_report_dirty f)) +:+ ", current " +:+ tick (py_str (fr_current_dirty f));
       "- Reason: " +:+ fr_reason f] ++ stale_banner f)%list.

(** [data['run'].get('run_id', '')] is evaluated even when the diagnosis has a run id. *)
Definition truth_lines (run : dict) (d : dict) : list string :=
  [""; "## Validation Truth"; ""; "- Run ID: " +:+ tick (py_str (dgetd d "run_id" (dgetd run "run_id" (PStr ""))));
   "- Requested command: " +:+ tick (gs d "requested_command" ""); "- Validation result: " +:+ tick (gs d "validation_result" "");
   "- Harness status: " +:+ tick (gs d "harness_status" ""); "- Product status: " +:+ tick (gs d "product_status" "");
   "- Analysis status: " +:+ tick (gs d "analysis_status" ""); ""; "### Commands Executed"; ""].

Definition command_item (item : pyval) : res string :=
  let! i := as_dict item in
  Ok ("- " +:+ tick (gs i "stage" "" +:+ "/" +:+ gs i "name" "") +:+ " exited " +:+ tick (gs i "exit_code" "") +:+ "; log "
      +:+ tick (gs i "log_path" "")).
Definition gn (d : dict) (k : string) : string := py_str (dget0 d k).
Definition truth_item (kv : string * pyval) : res string :=
  let! t := as_dict kv.2 in
  Ok ("- " +:+ tick kv.1 +:+ ": " +:+ tick (gn t "status") +:+ "; collected " +:+ tick (gn t "tests_collected") +:+ ", started "
      +:+ tick (gn t "tests_started") +:+ ", passed " +:+ tick (gn t "tests_passed") +:+ ", failed " +:+ tick (gn t "tests_failed")
      +:+ ", skipped " +:+ tick (gn t "tests_skipped")).

Definition cause_lines (earliest root : dict) : list string :=
  [""; "## Earliest Causal Failure"; ""; "- Event: " +:+ tick (gs earliest "event_id" "none");
   "- Stage: " +:+ tick (gs earliest "stage" "none"); "- Command: " +:+ tick (gs earliest "command_id" "none");
   "- Component: " +:+ tick (gs earliest "component" "none");
   "- Observed error: " +:+ gs earliest "message" "No failing event observed.";
   "- Evidence: " +:+ tick (gs earliest "evidence_reference" ""); ""; "## Most Supported Root Cause Event"; "";
   "- Event: " +:+ tick (gs root "event_id" "none"); "- Source: " +:+ tick (gs root "event_source" "none");
   "- Relation: " +:+ tick (gs root "relation" "none"); "- Message: " +:+ gs root "message" "No root-cause event observed."].

Definition primary_lines (p : dict) : res (list string) :=
  let! dims := as_dict (dgetd p "category_dimensions" (PDict [])) in
  let! pct := percent0 (dgetd p "confidence_score" (PInt 0)) in
  let items k := let! l := str_items (dgetd p k (PList [])) in Ok (or_lines (map dash l) "- None recorded.") in
  let! sup := items "supporting_evidence" in
  let! con := items "contradicting_evidence" in
  let! mis := items "missing_evidence" in
  let! uns := items "unsupported_diagnoses" in
  Ok ([""; "## Diagnosis"; ""; "- Summary: " +:+ gs p "summary" ""; "- Stage: " +:+ tick (gs dims "stage" "");
       "- Mechanism: " +:+ tick (gs dims "mechanism" ""); "- Component: " +:+ tick (gs dims "component" "");
       "- External system: " +:+ tick (gs dims "external_system" "");
       "- Confidence: " +:+ tick (gs p "confidence_band" "") +:+ " (" +:+ pct +:+ ")"; ""; "### Supporting Evidence"; ""] ++ sup
      ++ [""; "### Contradicting / Negative Evidence"; ""] ++ con ++ [""; "### Missing Evidence"; ""] ++ mis
      ++ [""; "### Unsupported Diagnoses"; ""] ++ uns ++ [""; "## Causal Chain"; ""])%list.

Definition event_item (item : pyval) : res string :=
  let! e := as_dict item in
  Ok ("- " +:+ tick (gn e "event_id") +:+ " " +:+ tick (gn e "relation") +:+ ": " +:+ gn e "message" +:+ " ("
      +:+ tick (gn e "evidence_reference") +:+ ")").
Definition recommendation_item (item : pyval) : res string :=
  let! i := as_dict item in
  Ok ("- " +:+ gn i "action" +:+ " Why: " +:+ gn i "rationale" +:+ " Confirm/reject: " +:+ gn i "would_confirm_or_reject").

Definition start_of (prov : pyval) : res dict :=
  match prov with PDict d => as_dict (dgetd d "start_provenance" prov) | _ => Ok [] end.

Definition run_markdown (r : run_report) : res string :=
  let d := rr_diagnosis r in
  let! p := as_dict (dgetd d "primary_diagnosis" (PDict [])) in
  let! start := start_of (rr_provenance r) in
  let! run := as_dict (rr_run r) in
  let! earliest := as_dict (or_empty (dget0 d "earliest_causal_failure")) in
  let! root := as_dict (py_or (dget0 d "most_supported_root_cause_event") (PDict earliest)) in
  let! commands := py_iter (dgetd d "commands" (PList [])) in
  let! command_items := res_mapM command_item commands in
  let! truths := as_dict (dgetd d "test_execution" (PDict [])) in
  let! truth_items := res_mapM truth_item truths in
  let! diagnosis := primary_lines p in
  let! evs := py_iter (dgetd d "events" (PList [])) in
  let! event_items := res_mapM event_item evs in
  let! recs := py_iter (dgetd d "recommendations" (PList [])) in
  let! rec_items := res_mapM recommendation_item recs in
  Ok (join nl
    (run_freshness_lines (rr_freshness r) (gs start "branch" "") ++ truth_lines run d
     ++ or_lines command_items "- No commands were recorded." ++ [""; "### Test Execution"; ""] ++ truth_items
     ++ cause_lines earliest root ++ diagnosis ++ event_items
     ++ (if truthy (dget0 d "events") then [] else ["- No failure event graph was needed because no command failed."])
     ++ [""; "## Recommendations"; ""] ++ or_lines rec_items "- No failure-specific recommendations."
     ++ [""; "## Raw Evidence References"; ""] ++ or_lines (map link_item (rr_artifacts r)) "- No artifacts recorded.")
    +:+ nl).

Definition run_html (r : run_report) : res string :=
  let! markdown := run_markdown r in
  Ok ("<!doctype html><html lang=" +:+ dq +:+ "en" +:+ dq +:+ "><head><meta charset=" +:+ dq +:+ "utf-8" +:+ dq
      +:+ "><title>Eve Trade observed run report</title><style>body{font:15px/1.5 system-ui,sans-serif;max-width:1100px;margin:32px auto;padding:0 20px;color:#17212b}pre{white-space:pre-wrap;background:#f4f6f8;padding:18px;border-radius:6px}</style></head><body><pre>"
      +:+ html_escape markdown +:+ "</pre></body></html>").

(** * Generation *)

Section generate.
(** The machine, the working directory, the git outputs of the links, and the time stamps. *)
Context (h : host) (cwd : path) (git_remote git_head : proc) (timestamp : string → option Z).
Abbreviation env := (h_env h).
Abbreviation wjson := (write_json (h_resolve h) (h_os_error h)).
Abbreviation wtext := (write_text (h_resolve h) (h_os_error h)).

Definition freshness_of (prov : pyval) : res Freshness :=
  let! d := as_dict (or_empty prov) in Ok (classify_freshness (h_git h) (h_read_file h) env d []).

Definition url_of (c : RunContext) (file : string) (line : option Z) : string :=
  source_url env git_remote git_head (h_resolve h) c file line.

(** The arguments of [generate_failure_report] that default to [None]. *)
Record report_args : Type := ReportArgs {
  ra_pytest : option PytestSummary; ra_class : option FailureClassification; ra_database : dict; ra_kubernetes : dict;
  ra_event_id : string; ra_trace_id : string; ra_missing : list string; ra_parity : list string; ra_diagnosis : dict }.

Definition generate_failure_report (c : RunContext) (command : CommandResult) (a : report_args) (storage : RunStorage) : io fs (path * path * path) :=
  let pytest := default no_summary (ra_pytest a) in
  let diagnosis := if is_empty (ra_diagnosis a) then diagnose_command_failure command pytest false else ra_diagnosis a in
  classification ← lift (match ra_class a with Some k => Ok k | None => classification_from_diagnosis diagnosis end);
  honeycomb ← lift (honeycomb_investigation env timestamp c (or_else (ra_trace_id a) (cr_trace_id command)) (ps_nodeid pytest)
                      (List.hd "" (fc_services classification)) (fc_family classification));
  md ← path_in (h_resolve h) (h_os_error h) storage (path_of "failure-report.md");
  ht ← path_in (h_resolve h) (h_os_error h) storage (path_of "failure-report.html");
  js ← path_in (h_resolve h) (h_os_error h) storage (path_of "failure-summary.json");
  files ← reads id;
  loaded ← lift (load_json_if_exists (path_join (ctx_run_dir c) (path_of "provenance.json")) files);
  freshness ← lift (freshness_of (py_or loaded (provenance c)));
  let r := {| rp_context := c; rp_command := command; rp_pytest := pytest; rp_class := classification;
              rp_actions_url := github_actions_url env c;
              rp_sources := map (fun file => (file, url_of c file None)) (fc_files classification); rp_honeycomb := honeycomb;
              rp_event_id := ra_event_id a; rp_event_url := sentry_event_url env (ra_event_id a); rp_database := ra_database a;
              rp_kubernetes := ra_kubernetes a; rp_artifacts := artifact_inventory cwd (ctx_run_dir c) md files;
              rp_parity := ra_parity a; rp_missing := ra_missing a; rp_diagnosis := diagnosis; rp_freshness := freshness |} in
  js_rel ← lift (relative (ctx_run_dir c) js);
  _ ← wjson storage js_rel (PDict (report_summary r));
  md_rel ← lift (relative (ctx_run_dir c) md);
  markdown ← lift (report_markdown r);
  _ ← wtext storage md_rel markdown;
  ht_rel ← lift (relative (ctx_run_dir c) ht);
  page ← lift (report_html r);
  _ ← wtext storage ht_rel page;
  mret (md, ht, js).

Definition generate_run_report (c : RunContext) (diagnosis prov : dict) (storage : RunStorage) : io fs (path * path * path) :=
  files ← reads id;
  loaded ← (if is_empty prov then lift (load_json_if_exists (path_join (ctx_run_dir c) (path_of "provenance.json")) files)
            else mret (PDict prov));
  let prov := py_or loaded (provenance c) in
  freshness ← lift (freshness_of prov);
  recorded ← lift (load_json_if_exists (path_join (ctx_run_dir c) (path_of "run-context.json")) files);
  let r := RunReport (py_or recorded (PDict (ctx_to_dict c))) prov freshness diagnosis
             (artifact_inventory cwd (ctx_run_dir c) (path_join (ctx_run_dir c) (path_of "run-report.md")) files) in
  js ← wjson storage (path_of "run-report.json") (PDict (run_report_data r));
  markdown ← lift (run_markdown r);
  md ← wtext storage (path_of "run-report.md") markdown;
  page ← lift (run_html r);
  ht ← wtext storage (path_of "run-report.html") page;
  mret (js, md, ht).
End generate.
