(* ===== verification/ReportFacts.v ===== *)
(** Every diagnosis of a run can be reported: the run report, its page, the classification and the
    brief of [observability/ci] read whatever [diagnose_run] produced without raising, and the report
    lists every command and every event. *)
From S2P Require Import Prelude PyStr PyFloat PyVal Regex Json JsonFacts JsonIndent Hashing PyPath PyText PyIO Redaction Storage Provenance Freshness RunIndex RunContext CompareRuns Links Tracer Sentry RunCommand CollectPytest Diagnosis DiagnosisFacts ClassifyFailure ClassifyFacts FailureReport.

(** What the consumers read of a diagnosis. *)
Record reportable (results : list CommandResult) (d : dict) : Prop := {
  ro_primary : ∃ p rs, dget "primary_diagnosis" d = Some (PDict p) ∧ dget "recommendations" d = Some (dicts rs) ∧ classifiable p rs;
  ro_commands : dget "commands" d = Some (dicts (map (to_dict false) results));
  ro_tests : ∃ category t, dget "test_execution" d = Some (PDict [(category, PDict t)]);
  ro_events : ∃ evs, dget "events" d = Some (dicts evs);
  ro_earliest : ∃ e, or_empty (dget0 d "earliest_causal_failure") = PDict e;
  ro_root : ∀ e, ∃ e', py_or (dget0 d "most_supported_root_cause_event") (PDict e) = PDict e' }.

Section reportable.
Context (now : nat → string) (run_id command : string) (results : list CommandResult) (s : PytestSummary)
        (missing : list string) (database kubernetes : dict).

Lemma or_empty_event evs : ∃ e, or_empty (first_event evs) = PDict e.
Proof. destruct evs as [|[|x e] evs]; by eexists. Qed.
Lemma or_event evs e : ∃ e', py_or (first_event evs) (PDict e) = PDict e'.
Proof. destruct evs as [|[|x e0] evs]; by eexists. Qed.

Lemma failed_reportable failed : reportable results (diagnose_failed now run_id command failed results s missing database kubernetes).
Proof.
  pose proof (failed_graph now run_id command failed results s missing database kubernetes) as Hg. cbv zeta in Hg.
  destruct Hg as (He & _ & Hf & Hm). split.
  - eexists _, _. split; [|split; [|apply findings_classifiable]]; rewrite failed_fields by in_literal; reflexivity.
  - unfold diagnose_failed, diagnose_command_failure, failure_payload, add_collector_events. by destruct (collector_events _ _ _ _).
  - eexists _, _. unfold diagnose_failed, diagnose_command_failure, failure_payload, add_collector_events.
    by destruct (collector_events _ _ _ _).
  - by eexists.
  - unfold dget0, dgetd. rewrite Hf. apply or_empty_event.
  - intros e. unfold dget0, dgetd. rewrite Hm. apply or_event.
Qed.

Lemma passed_reportable : reportable results (diagnose_passed now run_id command results s missing).
Proof.
  unfold diagnose_passed. pose proof (risks_supported command results s missing) as Hsup.
  destruct (false_green_risks command results s missing) as [|r rs]; cbn [is_nil]; split; try (by exists []); try (by eexists); try (by eexists _, _); try done.
  - exists passed_primary, []. split; [done|]. split; [done|]. do 11 eexists. exists []. split; [reflexivity|]. split; [done|].
    split; [vm_compute; reflexivity|discriminate].
  - eexists _, [_]. split; [done|]. split; [done|]. do 12 eexists. split; [reflexivity|]. split; [apply recs_one|].
    split; [vm_compute; reflexivity|]. cbn [map]. unfold filterb. cbn [List.filter]. rewrite (Hsup r) by (by left). discriminate.
Qed.

Lemma diagnosis_reportable : reportable results (diagnose_run now run_id command results s missing database kubernetes).
Proof.
  destruct (failed_cases now run_id command results s missing database kubernetes) as [(failed & _ & _ & ->)|[_ ->]];
    [apply failed_reportable|apply passed_reportable].
Qed.
End reportable.

(** * The report *)

Lemma res_mapM_dicts {A} (f : pyval → res A) (g : dict → A) (ds : list dict) :
  (∀ d, f (PDict d) = Ok (g d)) → res_mapM f (map PDict ds) = Ok (map g ds).
Proof. intros Hf. induction ds as [|d ds IH]; [done|]. cbn [map res_mapM]. by rewrite Hf, IH. Qed.

Lemma str_items_strs l : str_items (strs l) = Ok l.
Proof. unfold str_items, strs. cbn. f_equal. rewrite map_map. apply map_id. Qed.

(** The lines of the report on one command and one event. *)
Definition command_report (d : dict) : string :=
  "- " +:+ tick (gs d "stage" "" +:+ "/" +:+ gs d "name" "") +:+ " exited " +:+ tick (gs d "exit_code" "") +:+ "; log " +:+ tick (gs d "log_path" "").
Definition event_report (e : dict) : string :=
  "- " +:+ tick (gn e "event_id") +:+ " " +:+ tick (gn e "relation") +:+ ": " +:+ gn e "message" +:+ " (" +:+ tick (gn e "evidence_reference") +:+ ")".

Lemma primary_lines_Ok p rs : classifiable p rs → ∃ lines, primary_lines p = Ok lines.
Proof.
  intros (summary & stage & mechanism & component & external & score & band & sup & con & mis & uns & recs & -> & _).
  unfold primary_lines. set (P := primary _ _ _ _ _ _ _ _ _ _ _).
  change (dgetd P "category_dimensions" (PDict [])) with (PDict [("stage", PStr stage); ("mechanism", PStr mechanism);
    ("component", PStr component); ("external_system", PStr external)]).
  change (dgetd P "confidence_score" (PInt 0)) with (cents score).
  change (dgetd P "supporting_evidence" (PList [])) with (strs (filterb nonempty sup)).
  change (dgetd P "contradicting_evidence" (PList [])) with (strs (filterb nonempty con)).
  change (dgetd P "missing_evidence" (PList [])) with (strs (filterb nonempty mis)).
  change (dgetd P "unsupported_diagnoses" (PList [])) with (strs uns).
  cbn [as_dict res_bind percent0 cents]. rewrite !str_items_strs. by eexists.
Qed.

Lemma or_lines_in (l : list string) dflt x : x ∈ l → x ∈ or_lines l dflt.
Proof. destruct l; [by intros ?%elem_of_nil|done]. Qed.

Lemma run_markdown_lines results d r evs :
  reportable results d → rr_diagnosis r = d → is_ok (start_of (rr_provenance r)) = true → is_dict (rr_run r) = true →
  dget "events" d = Some (dicts evs) →
  ∃ lines, run_markdown r = Ok (join nl lines +:+ nl)
    ∧ (∀ x, x ∈ results → command_report (to_dict false x) ∈ lines) ∧ ∀ e, e ∈ evs → event_report e ∈ lines.
Proof.
  intros [(p & rs & Hp & Hr & Hc) Hcom (cat & t & Ht) _ (e & He) Hm] Hd Hstart Hrun Hev.
  destruct (Hm e) as [e' He']. destruct (primary_lines_Ok p rs Hc) as [plines Hpl].
  destruct (start_of (rr_provenance r)) as [start|] eqn:Hst; [|done].
  destruct (rr_run r) as [| | | | | | |run] eqn:Hrr; try done.
  unfold run_markdown. rewrite Hd, Hst, Hrr. unfold dgetd at 1. rewrite Hp. cbn [default from_option id as_dict res_bind].
  rewrite He. cbn [as_dict res_bind]. rewrite He'. cbn [as_dict res_bind].
  unfold dgetd at 1. rewrite Hcom. cbn [default from_option id py_iter dicts res_bind].
  rewrite (res_mapM_dicts command_item command_report) by done. cbn [res_bind].
  unfold dgetd at 1. rewrite Ht. cbn [default from_option id as_dict res_mapM truth_item snd res_bind].
  rewrite Hpl. cbn [res_bind]. unfold dgetd at 1. rewrite Hev. cbn [default from_option id py_iter dicts res_bind].
  rewrite (res_mapM_dicts event_item event_report) by done. cbn [res_bind].
  unfold dgetd at 1. rewrite Hr. cbn [default from_option id py_iter dicts res_bind].
  rewrite (res_mapM_dicts recommendation_item
    (fun i => "- " +:+ gn i "action" +:+ " Why: " +:+ gn i "rationale" +:+ " Confirm/reject: " +:+ gn i "would_confirm_or_reject")) by done.
  cbn [res_bind]. eexists. split; [reflexivity|]. split.
  - intros x Hx. apply elem_of_app. right. apply elem_of_app. right. apply elem_of_app. left. apply or_lines_in.
    apply list_elem_of_fmap. exists (to_dict false x). split; [done|]. apply list_elem_of_fmap. by exists x.
  - intros x Hx. do 7 (apply elem_of_app; right). apply elem_of_app. left. apply list_elem_of_fmap. by exists x.
Qed.

(** * Claims *)

(** C35: Every diagnosis is reported in full.  Whatever commands ran and whatever the collectors
    found, the diagnosis [diagnose_run] produces is read by every consumer without an exception:
    [classification_from_diagnosis] gives a confidence in (0, 1], at least one line of evidence and
    at least one next command; [diagnosis_brief] returns; and in a run with a recorded context and
    provenance, the Markdown report and its page are written, and the report has a line for every
    command, with its stage, name, exit code and log, and one for every event of the causal graph. *)
Theorem diagnosis_always_reported now run_id command results s missing database kubernetes r evs :
  let d := diagnose_run now run_id command results s missing database kubernetes in
  rr_diagnosis r = d → is_ok (start_of (rr_provenance r)) = true → is_dict (rr_run r) = true →
  dget "events" d = Some (dicts evs) →
  (∃ c, classification_from_diagnosis d = Ok c ∧ f_ltb f_zero (fc_confidence c) = true
     ∧ f_leb (fc_confidence c) (f_of_Z 1) = true ∧ fc_evidence c ≠ [] ∧ fc_commands c ≠ [])
  ∧ (∃ brief, diagnosis_brief d = Ok brief)
  ∧ (∃ page, run_html r = Ok page)
  ∧ ∃ lines, run_markdown r = Ok (join nl lines +:+ nl)
      ∧ (∀ x, x ∈ results → command_report (to_dict false x) ∈ lines) ∧ ∀ e, e ∈ evs → event_report e ∈ lines.
Proof.
  intros d Hd Hs Hr He. pose proof (diagnosis_reportable now run_id command results s missing database kubernetes) as Hrep.
  destruct (run_markdown_lines results d r evs Hrep Hd Hs Hr He) as (lines & Hl & Hc & Hev). split_and!.
  - destruct (diagnosis_classified now run_id command results s missing database kubernetes) as (c & Hcl & Hu & Hfe & Hn).
    apply andb_true_iff in Hu as [Hu1 Hu2]. by exists c.
  - destruct Hrep as [(p & rs & Hp & _ & (summary & stage & mechanism & component & external & score & band & sup & con & mis & uns & recs & -> & _)) _ _ _ _ _].
    unfold diagnosis_brief, dgetd. fold d in Hp. rewrite Hp. by eexists.
  - unfold run_html. rewrite Hl. by eexists.
  - by exists lines.
Qed.

(** One command failed with a refused connection. *)
Definition reported_command : CommandResult :=
  Result "migrate" "start" ["make"; "migrate"] 2 "t0" "t1" (f_of_Z 10) "" "dial tcp: connection refused" "m.json" "m.log" "" false
    "migrate" "start" "/r" (PList []) (PList []) PNone.
Definition reported_diagnosis : dict :=
  diagnose_run (fun _ => "now") "r" "check" [reported_command] no_summary ["no database"] [] [].
Definition reported_run : run_report :=
  RunReport (PDict []) (PDict []) (MkFreshness "UNKNOWN" "" "" PNone PNone "" "" "") reported_diagnosis [].

Lemma diagnosis_always_reported_witness : ∃ lines,
  run_markdown reported_run = Ok (join nl lines +:+ nl)
  ∧ "- `start/migrate` exited `2`; log `m.log`" ∈ lines.
Proof.
  assert (∃ evs, dget "events" reported_diagnosis = Some (dicts evs)) as [evs Hevs].
  { destruct (ro_events _ _ (diagnosis_reportable (fun _ => "now") "r" "check" [reported_command] no_summary ["no database"] [] []))
      as [evs H]. exists evs. exact H. }
  destruct (diagnosis_always_reported (fun _ => "now") "r" "check" [reported_command] no_summary ["no database"] [] [] reported_run evs)
    as (_ & _ & _ & lines & Hl & Hc & _); [reflexivity|reflexivity|reflexivity|exact Hevs|].
  exists lines. split; [exact Hl|]. assert (reported_command ∈ [reported_command]) as Hin by left.
  pose proof (Hc _ Hin) as H. vm_compute in H. vm_compute. exact H.
Defined.
