(* ===== verification/Regenerate.v ===== *)
(** Reading recorded results back: [command_result_from_dict] and [pytest_summary_from_dict] of
    [observability/ci/diagnosis.py], and the command line of
    [observability/ci/generate_failure_report.py] that regenerates the report of a recorded run.

    The dataclasses of the source accept a value of any type in any field.  The records of the
    model are typed, so the construction [C( **kwargs )] is a partial function here: [None]
    stands for an object one of whose fields is not of its declared type, which the source
    builds and nothing says anything about.  The keyword arguments themselves, and every error
    raised while they are computed, are modelled for all inputs. *)
From S2P Require Import Prelude PyStr PyFloat PyVal Regex Json JsonFacts JsonIndent Hashing PyPath PyText PyIO Redaction Storage Provenance Freshness RunIndex RunContext CompareRuns Links Tracer Sentry RunCommand CollectPytest Diagnosis ClassifyFailure FailureReport.

(** * Typed fields *)

Class Field (A : Type) : Type := {
  to_py : A → pyval;
  of_py : pyval → option A;
  of_to_py : ∀ a, of_py (to_py a) = Some a }.

#[export, refine] Instance field_str : Field string :=
  {| to_py := PStr; of_py v := match v with PStr s => Some s | _ => None end |}.
Proof. done. Defined.
#[export, refine] Instance field_int : Field Z :=
  {| to_py := PInt; of_py v := match v with PInt z => Some z | _ => None end |}.
Proof. done. Defined.
#[export, refine] Instance field_float : Field float :=
  {| to_py := PFloat; of_py v := match v with PFloat f => Some f | _ => None end |}.
Proof. done. Defined.
#[export, refine] Instance field_bool : Field bool :=
  {| to_py := PBool; of_py v := match v with PBool b => Some b | _ => None end |}.
Proof. done. Defined.
#[export, refine] Instance field_line : Field (option Z) :=
  {| to_py := opt_int; of_py v := match v with PInt z => Some (Some z) | PNone => Some None | _ => None end |}.
Proof. by intros [z|]. Defined.
#[export, refine] Instance field_any : Field pyval := {| to_py := id; of_py := Some |}.
Proof. done. Defined.
Definition all_strs (v : pyval) : option (list string) :=
  match v with PList l => mapM of_py l | _ => None end.
#[export, refine] Instance field_strs : Field (list string) := {| to_py l := PList (map PStr l); of_py := all_strs |}.
Proof. intros l. simpl. induction l as [|s l IH]; simpl; [done|]. by rewrite IH. Defined.

(** A keyword argument, with the default of its field. *)
Definition karg {A} `{Field A} (kwargs : dict) (k : string) (dflt : option A) : option A :=
  match dget k kwargs with Some v => of_py v | None => dflt end.

(** [kwargs.setdefault(k, v)] *)
Definition setdefault (k : string) (v : pyval) (kwargs : dict) : dict :=
  if dhas k kwargs then kwargs else dset k v kwargs.
Definition setdefaults (kwargs : dict) (l : dict) : dict := foldl (fun acc kv => setdefault kv.1 kv.2 acc) kwargs l.

(** [{key: value[key] for key in fields if key in value}]; the order is not observed. *)
Definition keep_fields (fields : list string) (value : dict) : dict :=
  filterb (fun kv => bool_decide (kv.1 ∈ fields)) value.

(** * [CommandResult( **kwargs )] *)

Definition RESULT_FIELDS : list string :=
  ["name"; "stage"; "argv"; "exit_code"; "started_at"; "ended_at"; "duration_ms"; "stdout"; "stderr"; "metadata_path";
   "log_path"; "trace_id"; "timed_out"; "command_id"; "stage_id"; "cwd"; "expected_artifacts"; "dependencies"; "timeout_seconds"].

Definition CommandResult_of (k : dict) : option CommandResult :=
  name ← karg k "name" None; stage ← karg k "stage" None; argv ← karg k "argv" None; exit_code ← karg k "exit_code" None;
  started ← karg k "started_at" None; ended ← karg k "ended_at" None; duration ← karg k "duration_ms" None;
  out ← karg k "stdout" None; err ← karg k "stderr" None; meta ← karg k "metadata_path" None; log ← karg k "log_path" None;
  trace ← karg k "trace_id" (Some ""); timed_out ← karg k "timed_out" (Some false);
  command_id ← karg k "command_id" (Some ""); stage_id ← karg k "stage_id" (Some ""); cwd ← karg k "cwd" (Some "");
  expected ← karg k "expected_artifacts" (Some PNone); dependencies ← karg k "dependencies" (Some PNone);
  timeout ← karg k "timeout_seconds" (Some PNone);
  Some (Result name stage argv exit_code started ended duration out err meta log trace timed_out command_id stage_id cwd
          expected dependencies timeout).

(** The arguments [command_result_from_dict] computes.  The conversions of [argv], [exit_code]
    and [duration_ms] run, and may raise, also when the key is there. *)
Definition result_kwargs (value : dict) (stdout stderr : string) : res dict :=
  let s k dflt := PStr (py_str (dgetd value k (PStr dflt))) in
  let kwargs := keep_fields RESULT_FIELDS value in
  let! argv := py_iter (dgetd value "argv" (PList [])) in
  let! exit_code := py_int (dgetd value "exit_code" (PInt 1)) in
  let! duration := py_float (dgetd value "duration_ms" (PFloat (f_of_Z 1000))) in
  Ok (setdefaults kwargs
        [("name", s "name" "fixture-command"); ("stage", s "stage" "test");
         ("argv", PList (map (fun item => PStr (py_str item)) argv)); ("exit_code", PInt exit_code);
         ("started_at", s "started_at" "2026-01-01T00:00:00+00:00"); ("ended_at", s "ended_at" "2026-01-01T00:00:01+00:00");
         ("duration_ms", PFloat duration); ("stdout", PStr stdout); ("stderr", PStr stderr);
         ("metadata_path", s "metadata_path" "commands/test/fixture-command/command.json");
         ("log_path", s "log_path" "commands/test/fixture-command/command.log"); ("trace_id", s "trace_id" "");
         ("timed_out", PBool (truthy (dgetd value "timed_out" (PBool false))))]).

Definition command_result_from_dict (value : dict) (stdout stderr : string) : res (option CommandResult) :=
  let! kwargs := result_kwargs value stdout stderr in Ok (CommandResult_of kwargs).

(** * [PytestSummary( **kwargs )] *)

(** The fields of the dataclass with their defaults. *)
Definition SUMMARY_FIELDS : dict :=
  [("first_failing_test_nodeid", PStr ""); ("failure_message", PStr ""); ("assertion_text", PStr ""); ("source_file", PStr "");
   ("source_line", PNone); ("source_url", PStr ""); ("failed_count", PInt 0); ("passed_count", PInt 0); ("skipped_count", PInt 0);
   ("error_count", PInt 0); ("duration_seconds", PFloat f_zero); ("collected_count", PInt 0); ("collected_tests", PList [])].

Definition PytestSummary_of (k : dict) : option PytestSummary :=
  nodeid ← karg k "first_failing_test_nodeid" (Some ""); message ← karg k "failure_message" (Some "");
  assertion ← karg k "assertion_text" (Some ""); file ← karg k "source_file" (Some "");
  line ← karg k "source_line" (Some None); url ← karg k "source_url" (Some "");
  failed ← karg k "failed_count" (Some 0%Z); passed ← karg k "passed_count" (Some 0%Z);
  skipped ← karg k "skipped_count" (Some 0%Z); error ← karg k "error_count" (Some 0%Z);
  duration ← karg k "duration_seconds" (Some f_zero); collected ← karg k "collected_count" (Some 0%Z);
  tests ← karg k "collected_tests" (Some []);
  Some (Summary nodeid message assertion file line url failed passed skipped error duration collected tests).

Definition pytest_summary_from_dict (value : option dict) : option PytestSummary :=
  PytestSummary_of (keep_fields (dkeys SUMMARY_FIELDS) (default [] value)).

(** * The command line of [generate_failure_report] *)

(** [_load_text_if_exists] *)
Definition load_text_if_exists (p : path) (files : fs) : string :=
  match files !! p with Some bytes => decode_output bytes | None => "" end.

(** [sorted(run_dir.glob("commands/**/command.json"))] *)
Definition is_command_file (dir p : path) : bool :=
  match p_parts <$> relative_to dir p with
  | Some ("commands" :: rest) => bool_decide (last rest = Some "command.json")
  | _ => false
  end.
Definition command_files (dir : path) (files : fs) : list path :=
  map fst (filterb (fun kv => is_command_file dir kv.1) (rglob_files dir files)).

(** [next((item for item in values if int(item.get("exit_code", 0)) != 0), values[-1])], with
    [found] the last value so far: the generator stops at the first failed command, and asks
    every value before it. *)
Fixpoint failed_value (found : dict) (values : list pyval) : res dict :=
  match values with
  | [] => Ok found
  | v :: rest =>
      let! code := py_get_or v "exit_code" (PInt 0) in
      let! z := py_int code in
      let! d := as_dict v in
      if (z =? 0)%Z then failed_value d rest else Ok d
  end.

(** The failed command from its metadata and its log. *)
Definition regenerated_command (value : dict) (metadata : path) (log_text : string) : res CommandResult :=
  let s k dflt := py_str (dgetd value k (PStr dflt)) in
  let! argv := py_iter (dgetd value "argv" (PList [])) in
  let! exit_code := py_int (dgetd value "exit_code" (PInt 1)) in
  let! duration := py_float (dgetd value "duration_ms" (PFloat f_zero)) in
  Ok (Result (s "name" "unknown-command") (s "stage" "unknown") (map py_str argv) exit_code (s "started_at" "") (s "ended_at" "")
        duration log_text "" (s "metadata_path" (path_str metadata)) (s "log_path" "") (s "trace_id" "")
        (truthy (dgetd value "timed_out" (PBool false))) "" "" "" PNone PNone PNone).

(** [key in v] and [v[key]] for a value read from JSON. *)
Definition py_member (k : string) (v : pyval) : res bool :=
  match v with
  | PDict d => Ok (dhas k d)
  | PList l => Ok (existsb (py_eqb (PStr k)) l)
  | PStr s => Ok (contains k s)
  | _ => Raise TypeError
  end.
Fixpoint summary_values (v : pyval) (fields : dict) : res dict :=
  match fields with
  | [] => Ok []
  | (key, dflt) :: rest =>
      let! there := py_member key v in
      let! x := if there : bool then py_item v key else Ok dflt in
      let! values := summary_values v rest in
      Ok ((key, x) :: values)
  end.
Definition regenerated_summary (v : pyval) : res (option PytestSummary) :=
  let! values := summary_values v SUMMARY_FIELDS in Ok (PytestSummary_of values).

(** How the script ends: [SystemExit] with a message, the path it prints, or a summary whose
    fields are not of their declared types. *)
Inductive regenerated : Type :=
| Exits (message : string)
| Prints (line : string)
| Untyped.

Section regenerate.
Context (h : host) (cwd : path) (git_remote git_head : proc) (timestamp : string → option Z).

Definition read_here (p : path) : io world pyval := fun w => (read_json (h_resolve h p) (w_files w), w).

(** [run_dir] is the argument.  A path is read at its resolution. *)
Definition regenerate_main (run_dir : path) : io world regenerated :=
  c ← load_run_context h cwd run_dir;
  files ← reads w_files;
  let found := command_files (h_resolve h run_dir) files in
  match last found with
  | None => mret (Exits "run contains no command metadata")
  | Some newest =>
      values ← io_mapM read_here found;
      value ← lift (failed_value [] values);
      let log := load_text_if_exists (h_resolve h (path_join run_dir (path_of (py_str (dgetd value "log_path" (PStr "")))))) files in
      command ← lift (regenerated_command value (default newest (relative_to (h_resolve h run_dir) newest)) log);
      let pytest_path := h_resolve h (path_join run_dir (path_of "pytest/pytest-summary.json")) in
      summary ← match files !! pytest_path with
                | None => mret (Some None)
                | Some _ => v ← read_here pytest_path; s ← lift (regenerated_summary v); mret (Some <$> s)
                end;
      match summary with
      | None => mret Untyped
      | Some summary =>
          loaded ← lift (load_json_if_exists (h_resolve h (path_join run_dir (path_of "diagnosis.json"))) files);
          storage ← on_files (init (h_resolve h) (h_os_error h) (ctx_run_dir c) false);
          diagnosis ← lift (as_dict (py_or loaded (PDict [])));
          outputs ← on_files (generate_failure_report h cwd git_remote git_head timestamp c command
                                (ReportArgs summary None [] [] "" "" [] [] diagnosis) storage);
          mret (Prints (path_str outputs.1.2))
      end
  end.
End regenerate.
