(* ===== verification/ObservedRun.v ===== *)
(** The observed runner ([observability/ci/observed_run.py]): it creates the run, executes the
    requested commands, collects evidence, diagnoses, reports, and finalises the run whatever
    happened on the way.  The local variables an exception handler still sees are part of the
    state. *)
From S2P Require Import Prelude PyStr PyFloat PyVal Regex Json JsonFacts JsonIndent Hashing PyPath PyText PyIO Redaction Storage Provenance Freshness RunIndex RunContext Collectors CompareRuns Links Tracer Sentry RunCommand CollectPytest Diagnosis ClassifyFailure FailureReport.

Definition TRANSIENT_COMMAND_MARKERS : list string :=
  ["tls handshake timeout"; "gnutls_handshake() failed"; "tls connection was non-properly terminated"; "timeout was reached";
   "i/o timeout"; "context deadline exceeded"; "temporary failure in name resolution"; "connection reset by peer";
   "connection refused"; "network is unreachable"; "no route to host"; "unexpected eof"; "proxyconnect tcp";
   "too many requests"; "502 bad gateway"; "503 service unavailable"; "504 gateway timeout"].

Definition is_transient_command_failure (r : CommandResult) : bool :=
  if succeeded r then false
  else if cr_timed_out r then true
  else any (fun marker => contains marker (lower (output_of r))) TRANSIENT_COMMAND_MARKERS.

(** [_truthy] *)
Definition env_truthy (value : string) : bool := bool_decide (lower (strip value) ∈ ["1"; "true"; "yes"; "on"]).

Definition service_urls (environment : dict) : dict :=
  filterb (fun kv => (endswith "_URL" kv.1 || endswith "_ENDPOINT" kv.1) && is_str kv.2) environment.

(** [_evidence_attributes]: the entries of a malformed container list raise. *)
Definition evidence_attributes (database kubernetes : dict) : res dict :=
  let! pods := py_iter (dgetd kubernetes "containers" (PList [])) in
  let names k := let! l := res_mapM (fun item => py_get item k) pods in
                 Ok (map (fun v => PStr (py_str v)) (filterb truthy l)) in
  let! pod_names := names "kubernetes.pod.name" in
  let! container_names := names "kubernetes.container.name" in
  Ok (filterb (fun kv => negb (py_eqb kv.2 PNone || py_eqb kv.2 (PStr "") || py_eqb kv.2 (PList [])))
        [("db.schema_hash", dgetd database "db.schema_hash" (PStr "")); ("kubernetes.namespace", dgetd kubernetes "namespace" (PStr ""));
         ("kubernetes.pod.name", PList pod_names); ("kubernetes.container.name", PList container_names)]).

(** * The command line *)

Record args : Type := Args {
  a_command : string; a_clean : bool; a_maxfail : Z; a_test_path : string; a_no_sentry : bool; a_no_honeycomb : bool;
  a_strict : bool; a_compare_to : option path }.
Definition COMMANDS : list string := ["check"; "test"; "integration"; "e2e"; "collect-only"].

(** * The machine *)

(** Everything outside the program: the machine when the run starts and when it ends, the
    processes, the SDKs and services, and how an exception prints. *)
Record machine : Type := Machine {
  m_start : host; m_finish : host; m_cwd : path; m_uni_alnum : string → bool; m_sdk : sdk_calls;
  m_effects : list string → fs → fs; m_exec : list string → path → list (string * string) → pyval → outcome;
  m_measure : request → timing; m_span_time : string → timing; m_which : string → bool; m_run : list string → ran;
  m_parse_xml : string → option element; m_remote : proc; m_head : proc; m_timestamp : string → option Z; m_sources : sources;
  m_sdk_start : string → list (string * string) → dict → option exn; m_http : string → option pyval → res pyval;
  m_seen : exn → seen_exn; m_traceback : exn → string; m_provider : option exn; m_have_cli : bool;
  m_run_cli : list string → res (Z * string); m_zip : list (string * string) → string; m_boto3 : option exn;
  m_s3 : path → string → string → option exn; m_now : nat → string }.

(** The environment the run sets for itself. *)
Definition with_env (env : list (string * string)) (h : host) : host :=
  Host env (h_git h) (h_read_file h) (h_exists h) (h_resolve h) (h_os_error h) (h_available h) (h_run_tool h) (h_executable h)
    (h_platform h) (h_os_name h) (h_machine h) (h_code_files h) (h_now h) (h_stamp h) (h_token h) (h_json_error h) (h_lock_error h).

(** * State *)

(** The variables of [execute]. *)
Record locals : Type := Locals {
  l_results : list CommandResult; l_pytest : option PytestSummary; l_db : dict; l_k8s : dict; l_missing : list string;
  l_exit : Z; l_status : string; l_diagnosis : dict; l_report : string; l_span : option TraceSpan; l_printed : list string }.
Definition no_locals : locals := Locals [] None [] [] [] 0 "INCOMPLETE" [] "" None [].
Record state : Type := State { s_world : world; s_locals : locals }.

Definition on_world {A} (m : io world A) : io state A := fun s =>
  let '(r, w) := m (s_world s) in (r, State w (s_locals s)).
Definition files_io {A} (m : io fs A) : io state A := on_world (on_files m).
Definition upd (f : locals → locals) : io state unit := modify (fun s => State (s_world s) (f (s_locals s))).
Definition local {A} (f : locals → A) : io state A := reads (fun s => f (s_locals s)).

Definition set_results v l := Locals v (l_pytest l) (l_db l) (l_k8s l) (l_missing l) (l_exit l) (l_status l) (l_diagnosis l) (l_report l) (l_span l) (l_printed l).
Definition set_pytest v l := Locals (l_results l) v (l_db l) (l_k8s l) (l_missing l) (l_exit l) (l_status l) (l_diagnosis l) (l_report l) (l_span l) (l_printed l).
Definition set_db v l := Locals (l_results l) (l_pytest l) v (l_k8s l) (l_missing l) (l_exit l) (l_status l) (l_diagnosis l) (l_report l) (l_span l) (l_printed l).
Definition set_k8s v l := Locals (l_results l) (l_pytest l) (l_db l) v (l_missing l) (l_exit l) (l_status l) (l_diagnosis l) (l_report l) (l_span l) (l_printed l).
Definition set_missing v l := Locals (l_results l) (l_pytest l) (l_db l) (l_k8s l) v (l_exit l) (l_status l) (l_diagnosis l) (l_report l) (l_span l) (l_printed l).
Definition set_exit v l := Locals (l_results l) (l_pytest l) (l_db l) (l_k8s l) (l_missing l) v (l_status l) (l_diagnosis l) (l_report l) (l_span l) (l_printed l).
Definition set_status v l := Locals (l_results l) (l_pytest l) (l_db l) (l_k8s l) (l_missing l) (l_exit l) v (l_diagnosis l) (l_report l) (l_span l) (l_printed l).
Definition set_diagnosis v l := Locals (l_results l) (l_pytest l) (l_db l) (l_k8s l) (l_missing l) (l_exit l) (l_status l) v (l_report l) (l_span l) (l_printed l).
Definition set_report v l := Locals (l_results l) (l_pytest l) (l_db l) (l_k8s l) (l_missing l) (l_exit l) (l_status l) (l_diagnosis l) v (l_span l) (l_printed l).
Definition set_span v l := Locals (l_results l) (l_pytest l) (l_db l) (l_k8s l) (l_missing l) (l_exit l) (l_status l) (l_diagnosis l) (l_report l) v (l_printed l).
Definition add_printed v l := Locals (l_results l) (l_pytest l) (l_db l) (l_k8s l) (l_missing l) (l_exit l) (l_status l) (l_diagnosis l) (l_report l) (l_span l) (l_printed l ++ [v]).

Definition first_failed (results : list CommandResult) : option CommandResult := find_first (fun r => negb (succeeded r)) results.

Section observed.
Context (m : machine) (a : args).
(** The run: its context, storage, tracer and reporter, and the host with the run's environment. *)
Context (c : RunContext) (h : host) (storage : RunStorage) (tracer : HoneycombTracer) (sentry : SentryReporter).

Abbreviation env := (h_env h).
Abbreviation resolve := (h_resolve h).
Abbreviation os_error := (h_os_error h).

Definition command (rq : request) : io world CommandResult :=
  run_command env resolve os_error (m_uni_alnum m) (m_sdk m) (m_effects m) (m_exec m) (m_measure m) (m_seen m) c storage (Some tracer) (Some sentry) rq.

Definition run_check : io world (list CommandResult) :=
  r1 ← command (Request [h_executable h; "-m"; "compileall"; "-q"; "distributed-backend/observability"]
                  "compile-observability" "check" None [] PNone true);
  r2 ← command (Request ["git"; "diff"; "--check"] "git-diff-check" "check" None [] PNone true);
  mret [r1; r2].

(** [os.pathsep] is a colon. *)
Definition pythonpath_env : list (string * string) :=
  let package_root := path_str (resolve (path_join (repo_root c) (path_of "distributed-backend"))) in
  [("PYTHONPATH", join ":" (filterb nonempty [package_root; getenv env "PYTHONPATH" ""]))].

Definition run_tests : io world (list CommandResult) :=
  let test_path := or_else (a_test_path a) "distributed-backend/observability/tests" in
  r ← command (Request [h_executable h; "-m"; "unittest"; "discover"; "-s"; test_path; "-v"]
                 "observability-unit-tests" "test" None pythonpath_env PNone false);
  mret [r].

(** [_safe_collect]: the collector's result, and the missing evidence it leaves behind. *)
Definition collected_missing (name : string) (result : dict) : list string :=
  if truthy (dget0 result "error") then [name +:+ ": " +:+ py_str (dget0 result "error")] else [].
Definition collector_failed (name : string) (e : exn) : string :=
  name +:+ " collector failed: " +:+ ex_cls (m_seen m e) +:+ ": " +:+ exn_str e.

(** In [collect-only] the list is the caller's own. *)
Definition safe_collect (name : string) (strict : bool) (operation : io fs dict) : io state dict :=
  catch (result ← files_io operation;
         missing ← local l_missing;
         _ ← upd (set_missing (missing ++ collected_missing name result));
         mret result)
    (fun e =>
       missing ← local l_missing;
       _ ← upd (set_missing (missing ++ [collector_failed name e]));
       if strict then throw e else mret []).

Definition E2E_VARIABLES : list string := ["EVE_TRADE_ENCORE_URL"; "EVE_TRADE_SIMULATOR_URL"; "EVE_TRADE_DATABASE_URL"].
Definition integration_missing : list string :=
  (if a_clean a then ["--clean was ignored; Encore E2E uses the configured runtime environment"] else [])
  ++ map (fun name => name +:+ " is not set; pytest will skip or fail according to the production gate")
       (filterb (fun name => negb (nonempty (getenv env name ""))) E2E_VARIABLES).

Definition collect_db_here : io fs dict := collect_db env resolve os_error (m_which m) (m_run m) storage.
Definition collect_k8s_here : io fs dict := collect_kubernetes resolve os_error (m_which m) (m_run m) "eve-trade" storage.
Definition collect_pytest_here (output : string) (junit : option path) : io fs PytestSummary :=
  collect_pytest resolve os_error (m_parse_xml m)
    (source_url env (m_remote m) (m_head m) resolve c) storage output junit.

(** What [_run_integration] returns. *)
Record integration : Type := Integration { i_results : list CommandResult; i_pytest : PytestSummary; i_db : dict; i_missing : list string }.

Definition e2e_argv (junit : path) : list string :=
  [h_executable h; "-m"; "pytest"; or_else (a_test_path a) "distributed-backend/tests/e2e"; "-vv"; "-s"; "--tb=short";
   "--junitxml=" +:+ path_str junit]
  ++ (if (a_maxfail a =? 0)%Z then [] else ["--maxfail=" +:+ str_of_Z (a_maxfail a)]).

Definition run_integration : io world integration :=
  junit ← on_files (path_in resolve os_error storage (path_of "pytest/pytest-junit.xml"));
  r ← command (Request (e2e_argv junit) "pytest-e2e-host" "e2e" None pythonpath_env (PInt 1800) false);
  summary ← on_files (collect_pytest_here (cr_stdout r +:+ nl +:+ cr_stderr r) (Some junit));
  db ← on_files (catch (d ← collect_db_here; mret (d, collected_missing "database" d))
                   (fun e => mret ([], [collector_failed "database" e])));
  mret (Integration [r] summary db.1 (integration_missing ++ db.2)).

(** * The body *)

(** A span around [body]: it ends with the exception of the body, if there is one. *)
Definition with_span {A} (name : string) (attributes : dict) (body : io state A) : io state A := fun s =>
  let tm := m_span_time m name in
  match span_enter tracer (tm_otel tm) (span tracer name attributes (tm_started tm)) with
  | Raise e => (Raise e, s)
  | Ok sp =>
      let '(r, s) := body s in
      let exc := match r with Raise e => Some (m_seen m e) | Ok _ => None end in
      match files_io (span_exit os_error tracer sp exc (tm_ended tm) (tm_duration tm)) s with
      | (Ok _, s) => (r, s)
      | (Raise e, s) => (Raise e, s)
      end
  end.

(** [run_span.set_attribute(name, value)] *)
Definition set_run_attribute (name : string) (value : pyval) : io state unit :=
  sp ← local l_span;
  match sp with
  | None => skip
  | Some sp =>
      let '(sp, err) := set_attribute name value sp in
      _ ← upd (set_span (Some sp));
      raise_opt err
  end.

(** The commands the mode asks for. *)
Definition dispatch : io state unit :=
  if bool_decide (a_command a = "check") then rs ← on_world run_check; upd (set_results rs)
  else if bool_decide (a_command a = "test") then rs ← on_world run_tests; upd (set_results rs)
  else if bool_decide (a_command a ∈ ["integration"; "e2e"]) then
    i ← on_world run_integration;
    missing ← local l_missing;
    upd (fun l => set_missing (missing ++ i_missing i) (set_db (i_db i) (set_pytest (Some (i_pytest i)) (set_results (i_results i) l))))
  else if bool_decide (a_command a = "collect-only") then
    db ← safe_collect "database" (a_strict a) collect_db_here;
    _ ← upd (set_db db);
    k8s ← safe_collect "kubernetes" (a_strict a) collect_k8s_here;
    upd (set_k8s k8s)
  else skip.

Definition is_start (r : CommandResult) : bool := contains "readiness" (cr_name r) || bool_decide (cr_stage r = "start").
Definition run_summary (exit_code : Z) (results : list CommandResult) (environment : dict) (missing : list string) : dict :=
  [("run_id", run_id c); ("command", PStr (a_command a)); ("exit_code", PInt exit_code);
   ("commands", PList (map (fun r => PDict (to_dict false r)) results)); ("command_sequence", strs (map cr_name results));
   ("service_readiness_ms", PDict (fold_left (fun d r => dset (cr_name r) (PFloat (cr_duration_ms r)) d) (filterb is_start results) []));
   ("service_urls", PDict (service_urls environment)); ("missing_evidence", strs missing)].

Definition first_service (k : FailureClassification) (dflt : string) : string := List.hd dflt (fc_services k).

(** [_capture_enriched_sentry] *)
Definition capture_enriched (failed : CommandResult) (t : PytestSummary) (k : FailureClassification) : io world unit :=
  investigation ← lift (honeycomb_investigation env (m_timestamp m) c (cr_trace_id failed) (ps_nodeid t) "" (fc_family k));
  _ ← capture_command_failure env resolve os_error (m_sdk m) sentry
        (FailureEvent (cr_name failed) (cr_argv failed) (cr_exit_code failed) (cr_stage failed) (cr_log_path failed) (fc_family k)
           (ps_nodeid t) (map (fun f => source_url env (m_remote m) (m_head m) resolve c f None) (fc_files k))
           (py_str (dgetd investigation "trace_url" (PStr ""))) (github_actions_url env c));
  skip.

Definition failure_attributes (failed : CommandResult) (t : PytestSummary) (k : FailureClassification) (event : string) (trace_url : pyval) : dict :=
  [("pipeline.command", PStr (cr_name failed)); ("pipeline.stage", PStr (cr_stage failed));
   ("command.exit_code", PInt (cr_exit_code failed)); ("command.duration_ms", PFloat (cr_duration_ms failed));
   ("test.nodeid", PStr (ps_nodeid t)); ("test.file", PStr (ps_file t)); ("test.line", PInt (default 0%Z (ps_line t)));
   ("test.failure_family", PStr (fc_family k)); ("service.name", PStr (first_service k "eve-trade-ci"));
   ("artifact.path", PStr (cr_log_path failed)); ("sentry.event_id", PStr event); ("honeycomb.trace_url", trace_url);
   ("source.url", PStr (ps_url t)); ("error", PBool true)].

(** What a failed run adds: the pytest extraction, the event, the span and the report. *)
Definition report_failure (failed : CommandResult) : io state unit :=
  known ← local l_pytest;
  t ← match known with
      | Some t => mret t
      | None => t ← files_io (collect_pytest_here (cr_stdout failed +:+ nl +:+ cr_stderr failed) None);
                _ ← upd (set_pytest (Some t)); mret t
      end;
  diagnosis ← local l_diagnosis;
  k ← lift (classification_from_diagnosis diagnosis);
  _ ← on_world (capture_enriched failed t k);
  investigation ← lift (honeycomb_investigation env (m_timestamp m) c (cr_trace_id failed) (ps_nodeid t) (first_service k "") (fc_family k));
  event ← on_world (reads w_event);
  _ ← with_span "pipeline.failure" (failure_attributes failed t k event (dgetd investigation "trace_url" (PStr ""))) skip;
  l ← local id;
  _ ← files_io (generate_failure_report h (m_cwd m) (m_remote m) (m_head m) (m_timestamp m) c failed
        (ReportArgs (Some t) (Some k) (l_db l) (l_k8s l) event (cr_trace_id failed) (l_missing l) [] diagnosis) storage);
  skip.

Definition body : io state unit :=
  environment ← files_io (collect_environment env resolve os_error h c (m_sources m) storage);
  git ← lift (as_dict (dget0 environment "git"));
  hashes ← lift (as_dict (dget0 environment "hashes"));
  environ ← lift (as_dict (dget0 environment "environment"));
  _ ← set_run_attribute "git.dirty" (PBool (truthy (dget0 git "dirty")));
  _ ← set_run_attribute "git.branch" (dgetd git "branch" (PStr ""));
  _ ← set_run_attribute "db.migration_hash" (dgetd hashes "db.migration_hash" (PStr ""));
  _ ← set_run_attribute "protobuf.generated_hash" (dgetd hashes "protobuf.generated_hash" (PStr ""));
  _ ← dispatch;
  l ← local id;
  let failed := first_failed (l_results l) in
  let exit_code := match failed with Some r => cr_exit_code r | None => 0%Z end in
  _ ← upd (set_exit exit_code);
  _ ← set_run_attribute "command.exit_code" (PInt exit_code);
  _ ← set_run_attribute "error" (PBool (negb (exit_code =? 0)%Z));
  evidence ← lift (evidence_attributes (l_db l) (l_k8s l));
  _ ← with_span "pipeline.evidence" evidence skip;
  _ ← files_io (write_json resolve os_error storage (path_of "run-summary.json")
        (PDict (run_summary exit_code (l_results l) environ (l_missing l))));
  let diagnosis := diagnose_run (m_now m) (py_str (run_id c)) (a_command a) (l_results l) (default no_summary (l_pytest l))
                     (l_missing l) (l_db l) (l_k8s l) in
  _ ← upd (set_diagnosis diagnosis);
  _ ← files_io (write_json resolve os_error storage (path_of "diagnosis.json") (PDict diagnosis));
  reports ← files_io (generate_run_report h (m_cwd m) c diagnosis [] storage);
  rel ← lift (relative (ctx_run_dir c) reports.1.2);
  _ ← upd (set_report (path_str rel));
  _ ← match failed with Some r => report_failure r | None => skip end;
  _ ← match a_compare_to a with
      | Some other => _ ← files_io (compare_runs os_error (ctx_run_dir c) other (Some (ctx_run_dir c))); skip
      | None => skip
      end;
  _ ← (if a_no_honeycomb a then skip
       else _ ← files_io (ensure_triage_board resolve os_error (m_http m) (fun e => ex_cls (m_seen m e)) env c (a_strict a)); skip);
  _ ← files_io (configure_release_cli env resolve os_error (m_have_cli m) (m_run_cli m) sentry);
  event ← on_world (reads w_event);
  _ ← files_io (run_optional_autofix_hook env resolve os_error (m_run_cli m) sentry event);
  upd (set_status "COMPLETE").

(** The span of the whole run; its attributes are the ones set on the way. *)
Definition spanned_body : io state unit := fun s =>
  let tm := m_span_time m "pipeline.run" in
  match span_enter tracer (tm_otel tm)
          (span tracer "pipeline.run" [("pipeline.command", PStr (a_command a)); ("pipeline.stage", PStr "run")] (tm_started tm)) with
  | Raise e => (Raise e, s)
  | Ok sp =>
      let '(r, s) := body (State (s_world s) (set_span (Some sp) (s_locals s))) in
      let exc := match r with Raise e => Some (m_seen m e) | Ok _ => None end in
      match files_io (span_exit os_error tracer (default sp (l_span (s_locals s))) exc (tm_ended tm) (tm_duration tm)) s with
      | (Ok _, s) => (r, s)
      | (Raise e, s) => (Raise e, s)
      end
  end.

(** [except Exception:] *)
Definition on_error (e : exn) : io state unit :=
  _ ← files_io (write_text resolve os_error storage (path_of "observability-error.txt") (redact_text (m_traceback m e)));
  _ ← upd (set_status "ANALYSIS_FAILED");
  results ← local l_results;
  _ ← upd (set_exit (match first_failed results with Some r => cr_exit_code r | None => 2%Z end));
  if a_strict a then throw e else skip.

(** Finalisation: the [try] block, and its handler. *)
Definition finalise_run : io state unit :=
  let hf := with_env env (m_finish m) in
  l ← local id;
  prov ← on_world (finalize_run_context hf c (l_status l) (a_command a) (l_exit l)
           (map (fun r => PDict (to_dict false r)) (l_results l))
           (if is_empty (l_diagnosis l) then "" else "diagnosis.json") (l_report l) storage);
  if is_empty (l_diagnosis l) then skip
  else _ ← files_io (generate_run_report hf (m_cwd m) c (l_diagnosis l) prov storage); skip.
Definition on_finalisation_error (e : exn) : io state unit :=
  _ ← files_io (write_text resolve os_error storage (path_of "observability-finalization-error.txt") (redact_text (m_traceback m e)));
  exit_code ← local l_exit;
  _ ← (if (exit_code =? 0)%Z then upd (set_exit 2%Z) else skip);
  if a_strict a then throw e else skip.
Definition finalise : io state unit := catch finalise_run on_finalisation_error.

Definition compress : io state unit :=
  if env_truthy (getenv env "OBS_COMPRESS_RUN" "") then
    catch (b ← files_io (bundle os_error (m_zip m) storage None);
           _ ← files_io (upload_optional resolve os_error (m_zip m) (m_boto3 m) (m_s3 m) env storage (Some b)); skip)
      (fun e => if a_strict a then throw e else skip)
  else skip.

Definition print_summary : io state unit :=
  t ← local l_pytest;
  _ ← match t with
      | Some t => upd (add_printed ("E2E_SUMMARY=" +:+ dumps_line (PDict (summary_to_dict t))))
      | None => skip
      end;
  upd (add_printed (path_str (ctx_run_dir c))).

Definition in_any_case : io state unit :=
  _ ← finalise;
  _ ← files_io (flush resolve os_error (m_sdk m) sentry);
  _ ← files_io (shutdown resolve os_error tracer (m_provider m));
  _ ← compress;
  print_summary.

Definition guarded : io state Z :=
  _ ← finally (catch spanned_body on_error) in_any_case;
  local l_exit.
End observed.

(** [os.environ.setdefault] *)
Definition env_default (k v : string) (env : list (string * string)) : list (string * string) := if dhas k env then env else dset k v env.

(** The host with the environment the run sets for itself, and the storage of the run. *)
Definition collector_output (c : RunContext) : path := path_join (ctx_run_dir c) (path_of "telemetry/collector-live").
Definition run_host (m : machine) (c : RunContext) : host :=
  with_env (env_default "OTEL_LOCAL_OUTPUT_DIR" (path_str (collector_output c))
              (env_default "OBSERVABILITY_RUN_ID" (py_str (run_id c)) (h_env (m_start m)))) (m_start m).

Definition execute (m : machine) (a : args) : io state (Z * RunContext) :=
  c ← on_world (create_run_context (m_start m) (m_cwd m) "");
  _ ← raise_opt (h_os_error (m_start m) (collector_output c));
  let h := run_host m c in
  storage ← files_io (init (h_resolve h) (h_os_error h) (ctx_run_dir c) (a_strict a));
  tracer ← files_io (initialize_tracing (h_resolve h) (h_os_error h) (m_sdk_start m) (h_env h) c (negb (a_no_honeycomb a)) (a_strict a));
  sentry ← files_io (sentry_init (h_env h) (h_resolve h) (h_os_error h) (m_sdk m) c (negb (a_no_sentry a)) (a_strict a));
  code ← guarded m a c h storage tracer sentry;
  mret (code, c).
