(* ===== verification/Confinement.v ===== *)
(** Containment of a whole run: every operation of the runner leaves the files outside the run
    directory as they were.  One lemma per operation, by the rules of [PyIO]; the processes the
    run starts are assumed to stay inside. *)
From S2P Require Import Prelude PyStr PyFloat PyVal Regex Json JsonFacts JsonIndent Hashing PyPath PyText PyIO Redaction Storage Provenance Freshness RunIndex RunContext Collectors CompareRuns Links Tracer Sentry RunCommand CollectPytest Diagnosis ClassifyFailure FailureReport ObservedRun.

(** * The relation on the larger states *)

Definition w_outside (dir : path) : relation world := fun w w' => outside_same dir (w_files w) (w_files w').
Definition s_outside (dir : path) : relation state := fun s s' => w_outside dir (s_world s) (s_world s').

#[export] Instance w_outside_preorder dir : PreOrder (w_outside dir).
Proof. split; [intros w; unfold w_outside; reflexivity|intros x y z; unfold w_outside; apply transitivity]. Qed.
#[export] Instance s_outside_preorder dir : PreOrder (s_outside dir).
Proof. split; [intros w; unfold s_outside; reflexivity|intros x y z; unfold s_outside; apply transitivity]. Qed.

Lemma keeps_on_files {A} dir (m : io fs A) : keeps (outside_same dir) m → keeps (w_outside dir) (on_files m).
Proof. intros H w. unfold on_files, w_outside. specialize (H (w_files w)). by destruct (m (w_files w)). Qed.
Lemma keeps_on_world {A} dir (m : io world A) : keeps (w_outside dir) m → keeps (s_outside dir) (on_world m).
Proof. intros H s. unfold on_world, s_outside. specialize (H (s_world s)). by destruct (m (s_world s)). Qed.
Lemma keeps_files_io {A} dir (m : io fs A) : keeps (outside_same dir) m → keeps (s_outside dir) (files_io m).
Proof. intros H. by apply keeps_on_world, keeps_on_files. Qed.
Lemma keeps_upd dir f : keeps (s_outside dir) (upd f).
Proof. intros s. unfold s_outside. simpl. reflexivity. Qed.
Lemma keeps_local {A} dir (f : locals → A) : keeps (s_outside dir) (local f).
Proof. apply keeps_reads, _. Qed.
(** A read of the files. *)
Lemma keeps_pure {S A} (R : relation S) `{!PreOrder R} (f : S → res A) : keeps R (fun s => (f s, s)).
Proof. intros s. reflexivity. Qed.

Lemma keeps_skip {S} (R : relation S) `{!PreOrder R} : keeps R skip.
Proof. apply keeps_ret, _. Qed.
#[export] Hint Resolve keeps_skip : effects.
#[export] Hint Extern 0 (PreOrder _) => typeclasses eauto : effects.

(** Each storage is opened on the run directory. *)
Lemma keeps_init {A} resolve os_error dir strict (f : RunStorage → io fs A) (R : relation fs) `{!PreOrder R} :
  (∀ st, run_dir st = resolve dir → keeps R (f st)) → keeps R (init resolve os_error dir strict ≫= f).
Proof.
  intros Hf files. unfold mbind, io_bind, init. destruct (os_error _); simpl; [reflexivity|]. by apply Hf.
Qed.

Section files.
Context (resolve : path → path) (os_error : path → option exn) (dir : path).
Abbreviation confined := (keeps (outside_same dir)).

Lemma confined_text st p s : run_dir st = dir → confined (write_text resolve os_error st p s).
Proof. intros <-. apply keeps_write_text. Qed.
Lemma confined_json st p v : run_dir st = dir → confined (write_json resolve os_error st p v).
Proof. intros <-. apply keeps_write_json. Qed.
Lemma confined_copy st p q : run_dir st = dir → confined (copy resolve os_error st p q).
Proof. intros <-. apply keeps_copy. Qed.
Lemma confined_path st p : confined (path_in resolve os_error st p).
Proof. apply keeps_path_in. Qed.
Hint Resolve confined_text confined_json confined_copy confined_path : effects.

Lemma confined_put st name text : run_dir st = dir → confined (put resolve os_error st name text).
Proof. intros. unfold put. keeps_auto. Qed.
Hint Resolve confined_put : effects.

Lemma confined_fold {A B} (f : A → B → io fs A) acc l : (∀ a b, confined (f a b)) → confined (io_fold f acc l).
Proof. intros Hf. revert acc. induction l as [|x l IH]; intros acc; simpl; keeps_auto. Qed.

Lemma confined_collect_db env which run st : run_dir st = dir → confined (collect_db env resolve os_error which run st).
Proof.
  intros H. unfold collect_db. destruct (_ || _); keeps_auto.
  - apply confined_fold. intros errors table. unfold snapshot. keeps_auto.
  - apply confined_fold. intros errors table. unfold migration_snapshot. keeps_auto.
Qed.

Lemma confined_collect_kubernetes which run ns st :
  run_dir st = dir → confined (collect_kubernetes resolve os_error which run ns st).
Proof. intros H. unfold collect_kubernetes, capture_file, pod_log. keeps_auto. Qed.

Lemma confined_collect_environment env h c src st :
  run_dir st = dir → confined (collect_environment env resolve os_error h c src st).
Proof. intros H. unfold collect_environment. keeps_auto. Qed.

Lemma confined_collect_pytest parse_xml url st output junit :
  run_dir st = dir → confined (collect_pytest resolve os_error parse_xml url st output junit).
Proof. intros H. unfold collect_pytest. keeps_auto. Qed.

(** ** Sentry *)

Lemma confined_record_error st phase e : run_dir st = dir → confined (record_error resolve os_error st phase e).
Proof. intros H. unfold record_error. keeps_auto. Qed.
Hint Resolve confined_record_error : effects.
Lemma confined_breadcrumb sdk se : run_dir (se_storage se) = dir → confined (breadcrumb resolve os_error sdk se).
Proof. intros H. unfold breadcrumb. keeps_auto. Qed.
Lemma confined_release env have run_cli se :
  run_dir (se_storage se) = dir → confined (configure_release_cli env resolve os_error have run_cli se).
Proof. intros H. unfold configure_release_cli. keeps_auto. Qed.
Lemma confined_autofix env run_cli se event :
  run_dir (se_storage se) = dir → confined (run_optional_autofix_hook env resolve os_error run_cli se event).
Proof. intros H. unfold run_optional_autofix_hook. keeps_auto. Qed.
Lemma confined_flush sdk se : run_dir (se_storage se) = dir → confined (flush resolve os_error sdk se).
Proof. intros H. unfold flush. keeps_auto. Qed.

(** ** Tracing *)

Lemma confined_append target line : inside dir target → confined (append_line os_error target line).
Proof.
  intros Hin files p Hp. unfold append_line. destruct (os_error target); [done|]. cbn [modify snd].
  rewrite lookup_insert_ne; [done|]. by intros ->.
Qed.
Lemma keeps_raise_opt {S} (R : relation S) `{!PreOrder R} e : keeps R (raise_opt e).
Proof. intros s. destruct e; reflexivity. Qed.
Hint Resolve confined_append keeps_raise_opt : effects.
Lemma confined_span_exit t sp exc ended d : inside dir (tr_span_path t) → confined (span_exit os_error t sp exc ended d).
Proof.
  intros H. unfold span_exit, write_local_span. destruct (match exc with Some _ => _ | None => _ end). keeps_auto.
Qed.
Lemma confined_shutdown t provider : run_dir (tr_storage t) = dir → confined (shutdown resolve os_error t provider).
Proof. intros H. unfold shutdown. keeps_auto. Qed.
Lemma confined_initialize_otel sdk_start env t :
  run_dir (tr_storage t) = dir → confined (initialize_otel resolve os_error sdk_start env t).
Proof. intros H. unfold initialize_otel. keeps_auto. Qed.
Lemma confined_board request exn_cls env c strict :
  resolve (ctx_run_dir c) = dir → confined (ensure_triage_board resolve os_error request exn_cls env c strict).
Proof.
  intros H. unfold ensure_triage_board. apply keeps_init; [apply _|]. intros st Hst. rewrite H in Hst. keeps_auto.
Qed.

(** ** Reports *)

Lemma confined_write_file p text : inside dir p → confined (write_file os_error p text).
Proof.
  intros Hin files q Hq. unfold write_file. destruct (os_error p); [done|]. cbn [modify snd].
  rewrite lookup_insert_ne; [done|]. by intros ->.
Qed.
Lemma inside_join d (l : list string) : inside d (path_join d (Path false l)).
Proof. apply inside_prefix. split; [done|]. by exists l. Qed.
Lemma confined_compare local ci : confined (compare_runs os_error local ci (Some dir)).
Proof.
  unfold compare_runs. cbn [default from_option id].
  assert (∀ name text, p_abs (path_of name) = false → confined (write_file os_error (path_join dir (path_of name)) text)) as Hw.
  { intros name text Hn. apply confined_write_file. destruct (path_of name). simpl in Hn. subst. apply inside_join. }
  keeps_auto; try apply keeps_pure, _; by apply Hw.
Qed.
End files.

#[export] Hint Resolve keeps_raise_opt confined_text confined_json confined_copy confined_path confined_collect_db confined_collect_kubernetes
  confined_collect_environment confined_collect_pytest confined_record_error confined_breadcrumb confined_release confined_autofix
  confined_flush confined_span_exit confined_shutdown confined_initialize_otel confined_board confined_compare
  keeps_on_files keeps_files_io keeps_on_world keeps_upd keeps_local : effects.

Lemma confined_failure_report h cwd gr gh ts c command a st dir :
  run_dir st = dir → keeps (outside_same dir) (generate_failure_report h cwd gr gh ts c command a st).
Proof. intros H. unfold generate_failure_report. keeps_auto. Qed.
Lemma confined_run_report h cwd c diagnosis prov st dir :
  run_dir st = dir → keeps (outside_same dir) (generate_run_report h cwd c diagnosis prov st).
Proof. intros H. unfold generate_run_report. keeps_auto. Qed.
#[export] Hint Resolve confined_failure_report confined_run_report : effects.

(** * Commands *)

Lemma keeps_set_event dir id : keeps (w_outside dir) (set_event id).
Proof. intros w. unfold w_outside. simpl. reflexivity. Qed.
Lemma confined_capture env resolve os_error sdk se e dir :
  run_dir (se_storage se) = dir → keeps (w_outside dir) (capture_command_failure env resolve os_error sdk se e).
Proof. intros H. unfold capture_command_failure. keeps_auto. apply keeps_set_event. Qed.
#[export] Hint Resolve confined_capture keeps_set_event : effects.

Section command.
Context (env : list (string * string)) (resolve : path → path) (os_error : path → option exn) (uni_alnum : string → bool)
        (sdk : sdk_calls) (effects : list string → fs → fs)
        (exec : list string → path → list (string * string) → pyval → outcome) (measure : request → timing)
        (seen : exn → seen_exn) (dir : path).
(** The processes stay in the run directory. *)
Hypothesis effects_inside : ∀ argv files, outside_same dir files (effects argv files).

Lemma confined_command_span t rq tm code exc sp :
  inside dir (tr_span_path t) → keeps (outside_same dir) (command_span os_error seen t rq tm code exc sp).
Proof. intros H. unfold command_span. destruct (annotate _ _ _ _ _). keeps_auto. Qed.
Hint Resolve confined_command_span : effects.

Lemma confined_run_command c st tracer se rq :
  run_dir st = dir → (∀ t, tracer = Some t → inside dir (tr_span_path t)) → (∀ s, se = Some s → run_dir (se_storage s) = dir) →
  keeps (w_outside dir) (run_command env resolve os_error uni_alnum sdk effects exec measure seen c st tracer se rq).
Proof.
  intros Hst Ht Hse. unfold run_command, RunCommand.report. keeps_auto.
  apply keeps_on_files. intros files. apply effects_inside.
Qed.
End command.

(** * The life cycle *)

Lemma confined_index_update h root record dir : keeps (w_outside dir) (index_update h root record).
Proof.
  intros w. unfold index_update, w_outside. destruct (h_lock_error h); [reflexivity|].
  destruct (update_run_index _ _ _ _ _ _) as [[]|]; simpl; reflexivity.
Qed.
#[export] Hint Resolve confined_index_update : effects.

Lemma confined_finalize h c status command code executed dp rp st dir :
  run_dir st = dir → keeps (w_outside dir) (finalize_run_context h c status command code executed dp rp st).
Proof. intros H. unfold finalize_run_context. cbv zeta. keeps_auto. Qed.
#[export] Hint Resolve confined_finalize : effects.

(** [keeps_auto], into the smaller states. *)
Ltac confine := repeat (keeps_step || apply keeps_on_files || apply keeps_files_io || apply keeps_on_world); eauto with effects.

(** * The run *)

Section observed.
Context (m : machine) (a : args) (c : RunContext) (h : host) (storage : RunStorage) (tracer : HoneycombTracer)
        (sentry : SentryReporter) (dir : path).
Hypothesis storage_dir : run_dir storage = dir.
Hypothesis ctx_dir : ctx_run_dir c = dir.
Hypothesis dir_resolved : h_resolve h dir = dir.
Hypothesis tracer_dir : run_dir (tr_storage tracer) = dir.
Hypothesis span_inside : inside dir (tr_span_path tracer).
Hypothesis sentry_dir : run_dir (se_storage sentry) = dir.
Hypothesis effects_inside : ∀ argv files, outside_same dir files (m_effects m argv files).
Abbreviation confined := (keeps (s_outside dir)).

Lemma confined_command rq : keeps (w_outside dir) (command m c h storage tracer sentry rq).
Proof. apply confined_run_command; [done|done|by intros t [= <-]|by intros s [= <-]]. Qed.
Hint Resolve confined_command : effects.

Lemma confined_span_around {A} name attributes (b : io state A) : confined b → confined (with_span m h tracer name attributes b).
Proof.
  intros Hb s. unfold with_span. destruct (span_enter _ _ _) as [sp|x]; [|reflexivity].
  specialize (Hb s). destruct (b s) as [r s1]. simpl in Hb.
  set (e := match r with Ok _ => _ | Raise _ => _ end).
  pose proof (keeps_files_io dir _ (confined_span_exit (h_os_error h) dir tracer sp e
    (tm_ended (m_span_time m name)) (tm_duration (m_span_time m name)) span_inside) s1) as Hx.
  destruct (files_io _ s1) as [[u|x] s2]; simpl in *; by etrans.
Qed.
Hint Resolve confined_span_around : effects.

Lemma confined_safe_collect name strict op : keeps (outside_same dir) op → confined (safe_collect m name strict op).
Proof. intros H. unfold safe_collect. confine. Qed.
Hint Resolve confined_safe_collect : effects.

Lemma confined_integration : keeps (w_outside dir) (run_integration m a c h storage tracer sentry).
Proof. unfold run_integration, collect_pytest_here, collect_db_here. confine. Qed.
Lemma confined_dispatch : confined (dispatch m a c h storage tracer sentry).
Proof.
  pose proof confined_integration as Hi. unfold dispatch, run_check, run_tests. confine.
  all: apply confined_safe_collect; unfold collect_db_here, collect_k8s_here; eauto with effects.
Qed.
Lemma confined_report_failure failed : confined (report_failure m c h storage tracer sentry failed).
Proof. unfold report_failure, collect_pytest_here, capture_enriched. confine. Qed.
Hint Resolve confined_dispatch confined_report_failure : effects.

Lemma confined_body : confined (body m a c h storage tracer sentry).
Proof.
  unfold body, set_run_attribute. cbv zeta. confine.
  - rewrite ctx_dir. apply confined_compare.
  - apply confined_board. by rewrite ctx_dir.
Qed.

Lemma confined_spanned : confined (spanned_body m a c h storage tracer sentry).
Proof.
  intros s. unfold spanned_body. cbv zeta. destruct (span_enter _ _ _) as [sp|x]; [|reflexivity].
  pose proof (confined_body (State (s_world s) (set_span (Some sp) (s_locals s)))) as Hb.
  destruct (body _ _ _ _ _ _ _ _) as [r s1]. change (s_outside dir s s1) in Hb.
  set (e := match r with Ok _ => _ | Raise _ => _ end).
  pose proof (keeps_files_io dir _ (confined_span_exit (h_os_error h) dir tracer (default sp (l_span (s_locals s1))) e
    (tm_ended (m_span_time m "pipeline.run")) (tm_duration (m_span_time m "pipeline.run")) span_inside) s1) as Hx.
  destruct (files_io _ s1) as [[u|x] s2]; simpl in *; by etrans.
Qed.

Lemma confined_in_any_case :
  env_truthy (getenv (h_env h) "OBS_COMPRESS_RUN" "") = false → confined (in_any_case m a c h storage tracer sentry).
Proof. intros Hz. unfold in_any_case, finalise, finalise_run, on_finalisation_error, compress, print_summary. rewrite Hz. confine. Qed.

Lemma confined_guarded :
  env_truthy (getenv (h_env h) "OBS_COMPRESS_RUN" "") = false → confined (guarded m a c h storage tracer sentry).
Proof.
  intros Hz. unfold guarded, on_error. pose proof confined_spanned as Hs. pose proof (confined_in_any_case Hz) as Hi. confine.
Qed.
End observed.

(** * Execution *)

(** The continuation may use what the first step returned. *)
Lemma keeps_bind_ok {S A B} (R : relation S) `{!PreOrder R} (m : io S A) (f : A → io S B) :
  keeps R m → (∀ a s s', m s = (Ok a, s') → keeps R (f a)) → keeps R (m ≫= f).
Proof.
  intros Hm Hf s. unfold mbind, io_bind. specialize (Hm s). destruct (m s) as [[x|e] s'] eqn:E; simpl in *; [|done].
  etrans; [exact Hm|]. by eapply Hf.
Qed.

Lemma init_dir resolve os_error dir strict files st files' :
  init resolve os_error dir strict files = (Ok st, files') → run_dir st = resolve dir ∧ files' = files.
Proof. unfold init. destruct (os_error _); [done|]. by intros [= <- <-]. Qed.

Lemma files_io_ok {A} (m : io fs A) s a s' :
  files_io m s = (Ok a, s') → ∃ files', m (w_files (s_world s)) = (Ok a, files').
Proof.
  unfold files_io, on_world, on_files. destruct (m (w_files (s_world s))) as [r files']. intros [= -> _]. by eexists.
Qed.

Lemma tracing_dir resolve os_error sdk_start env c enabled strict files t files' :
  initialize_tracing resolve os_error sdk_start env c enabled strict files = (Ok t, files') →
  run_dir (tr_storage t) = resolve (ctx_run_dir c) ∧ inside (run_dir (tr_storage t)) (tr_span_path t).
Proof.
  unfold initialize_tracing. intros (st & f1 & [Hst ->]%init_dir & H)%bind_inv.
  apply bind_inv in H as (p & f2 & [Hp ->]%path_in_ok & H). apply bind_inv in H as (u & f3 & _ & H).
  by injection H as <- <-.
Qed.

Lemma sentry_dir env resolve os_error sdk c enabled strict files se files' :
  sentry_init env resolve os_error sdk c enabled strict files = (Ok se, files') → run_dir (se_storage se) = resolve (ctx_run_dir c).
Proof.
  unfold sentry_init. intros (st & f1 & [Hst ->]%init_dir & H)%bind_inv.
  apply bind_inv in H as (u & f2 & _ & H). by injection H as <- _.
Qed.

Lemma keeps_init_any resolve os_error d strict dir : keeps (outside_same dir) (init resolve os_error d strict).
Proof. intros files. unfold init. destruct (os_error _); simpl; reflexivity. Qed.
Lemma confined_tracing resolve os_error sdk_start env c enabled strict :
  keeps (outside_same (resolve (ctx_run_dir c))) (initialize_tracing resolve os_error sdk_start env c enabled strict).
Proof.
  unfold initialize_tracing. apply keeps_init; [apply _|]. intros st Hst. keeps_auto.
Qed.
Lemma confined_sentry_init env resolve os_error sdk c enabled strict :
  keeps (outside_same (resolve (ctx_run_dir c))) (sentry_init env resolve os_error sdk c enabled strict).
Proof. unfold sentry_init, initialize. apply keeps_init; [apply _|]. intros st Hst. keeps_auto. Qed.

Definition run_root (m : machine) : path := repository_root (h_exists (m_start m)) (h_resolve (m_start m) (m_cwd m)).
(** The directory of the run. *)
Definition run_directory (m : machine) : path := ctx_run_dir (new_context (m_start m) (run_root m) "").

Lemma create_context h start id w c w' :
  create_run_context h start id w = (Ok c, w') → c = new_context h (repository_root (h_exists h) (h_resolve h start)) id.
Proof.
  unfold create_run_context. cbv zeta. intros H.
  repeat (apply bind_inv in H as (? & ? & _ & H)). by injection H as <- _.
Qed.

Lemma confined_create h start id :
  keeps (w_outside (h_resolve h (ctx_run_dir (new_context h (repository_root (h_exists h) (h_resolve h start)) id))))
    (create_run_context h start id).
Proof.
  unfold create_run_context. cbv zeta. set (c := new_context _ _ _).
  apply keeps_bind_ok; [apply _|apply keeps_on_files, keeps_init_any|]. intros st w w' H.
  assert (run_dir st = h_resolve h (ctx_run_dir c)) as Hst.
  { unfold on_files in H. destruct (init _ _ _ _ (w_files w)) as [r files] eqn:E. injection H as -> _. by apply init_dir in E as [? _]. }
  confine.
Qed.

Lemma getenv_default k v k' env dflt : k ≠ k' → getenv (env_default k' v env) k dflt = getenv env k dflt.
Proof. intros Hne. unfold env_default, getenv. destruct (dhas k' env); [done|]. by rewrite dget_dset_ne. Qed.

Lemma confined_execute m a :
  h_resolve (m_start m) (run_directory m) = run_directory m →
  (∀ argv files, outside_same (run_directory m) files (m_effects m argv files)) →
  env_truthy (getenv (h_env (m_start m)) "OBS_COMPRESS_RUN" "") = false →
  keeps (s_outside (run_directory m)) (execute m a).
Proof.
  intros Hres Heff Hz. unfold execute. cbv zeta.
  apply keeps_bind_ok; [apply _| |].
  { apply keeps_on_world. pose proof (confined_create (m_start m) (m_cwd m) "") as Hk.
    change (ctx_run_dir _) with (run_directory m) in Hk. by rewrite Hres in Hk. }
  intros c s s' Hc. unfold on_world in Hc. destruct (create_run_context _ _ _ (s_world s)) as [r w'] eqn:E.
  injection Hc as -> _. apply create_context in E. assert (ctx_run_dir c = run_directory m) as Hdir by by rewrite E.
  apply keeps_bind; [apply _|apply keeps_raise_opt, _|]. intros _.
  apply keeps_bind_ok; [apply _|apply keeps_files_io, keeps_init_any|].
  intros st s1 s1' (f1 & [Hst _]%init_dir)%files_io_ok.
  cbn [h_resolve h_os_error with_env run_host] in *. rewrite Hdir, Hres in Hst.
  apply keeps_bind_ok; [apply _| |].
  { apply keeps_files_io. replace (run_directory m) with (h_resolve (m_start m) (ctx_run_dir c)) by (by rewrite Hdir).
    apply confined_tracing. }
  intros t s2 s2' (f2 & [Ht Hin]%tracing_dir)%files_io_ok. rewrite Hdir, Hres in Ht. rewrite Ht in Hin.
  apply keeps_bind_ok; [apply _| |].
  { apply keeps_files_io. replace (run_directory m) with (h_resolve (m_start m) (ctx_run_dir c)) by (by rewrite Hdir).
    apply confined_sentry_init. }
  intros se s3 s3' (f3 & Hse%sentry_dir)%files_io_ok. rewrite Hdir, Hres in Hse.
  apply keeps_bind; [apply _| |intros ?; apply keeps_ret, _].
  apply confined_guarded; try done. cbn [h_env with_env run_host]. by rewrite !getenv_default.
Qed.

(** * The index *)

(** An update of the index of [root] with a record of the run [k]. *)
Inductive run_indexed (root : path) (k : string) : relation store :=
| Run_indexed json_error resolve now record idx st st' :
    update_run_index json_error root resolve now record st = Ok (idx, st') → dget0 record "run_id" = PStr k →
    run_indexed root k st st'.
(** What a computation may do to the index and the pointer of the latest run. *)
Definition w_indexed (root : path) (k : string) : relation world := fun w w' => rtc (run_indexed root k) (w_index w) (w_index w').
Definition s_indexed (root : path) (k : string) : relation state := fun s s' => w_indexed root k (s_world s) (s_world s').
#[export] Instance w_indexed_preorder root k : PreOrder (w_indexed root k).
Proof. split; [intros w; unfold w_indexed; reflexivity|intros x y z; unfold w_indexed; apply transitivity]. Qed.
#[export] Instance s_indexed_preorder root k : PreOrder (s_indexed root k).
Proof. split; [intros w; unfold s_indexed; reflexivity|intros x y z; unfold s_indexed; apply transitivity]. Qed.

Section indexed.
Context (root : path) (k : string).
Abbreviation w_keeps := (keeps (w_indexed root k)).
Abbreviation s_keeps := (keeps (s_indexed root k)).

Lemma indexed_on_files {A} (m : io fs A) : w_keeps (on_files m).
Proof. intros w. unfold on_files, w_indexed. destruct (m (w_files w)). reflexivity. Qed.
Lemma indexed_on_world {A} (m : io world A) : w_keeps m → s_keeps (on_world m).
Proof. intros H s. unfold on_world, s_indexed. specialize (H (s_world s)). by destruct (m (s_world s)). Qed.
Lemma indexed_files {A} (m : io fs A) : s_keeps (files_io m).
Proof. apply indexed_on_world, indexed_on_files. Qed.
Lemma indexed_upd f : s_keeps (upd f).
Proof. intros s. unfold s_indexed. simpl. reflexivity. Qed.
Lemma indexed_local {A} (f : locals → A) : s_keeps (local f).
Proof. apply keeps_reads, _. Qed.
Lemma indexed_event id : w_keeps (set_event id).
Proof. intros w. unfold w_indexed. simpl. reflexivity. Qed.
Lemma indexed_update h record : dget0 record "run_id" = PStr k → w_keeps (index_update h root record).
Proof.
  intros Hr w. unfold index_update, w_indexed. destruct (h_lock_error h); [reflexivity|].
  destruct (update_run_index _ _ _ _ _ _) as [[idx st]|e] eqn:E; [|reflexivity]. apply rtc_once. by econstructor.
Qed.
Create HintDb indexed.
Hint Resolve indexed_on_files indexed_files indexed_upd indexed_local indexed_event indexed_on_world keeps_skip keeps_raise_opt : indexed.
Hint Extern 0 (PreOrder _) => typeclasses eauto : indexed.
Ltac index_auto := repeat (keeps_step || apply indexed_files || apply indexed_on_files || apply indexed_on_world); eauto with indexed.

Lemma indexed_capture env resolve os_error sdk se e : w_keeps (capture_command_failure env resolve os_error sdk se e).
Proof. unfold capture_command_failure. index_auto. Qed.
Hint Resolve indexed_capture : indexed.
Lemma indexed_command m c h st tracer se rq : w_keeps (command m c h st tracer se rq).
Proof. unfold command, run_command, RunCommand.report. index_auto. Qed.
Hint Resolve indexed_command : indexed.

Lemma indexed_span {A} m h tracer name attributes (b : io state A) : s_keeps b → s_keeps (with_span m h tracer name attributes b).
Proof.
  intros Hb s. unfold with_span. destruct (span_enter _ _ _) as [sp|e]; [|reflexivity].
  specialize (Hb s). destruct (b s) as [r s1]. cbv zeta. set (x := span_exit _ _ _ _ _ _). pose proof (indexed_files x s1) as Hx.
  destruct (files_io x s1) as [[u|e] s2]; simpl in *; by etrans.
Qed.
Hint Resolve indexed_span : indexed.

Lemma indexed_body m a c h st tracer se : s_keeps (body m a c h st tracer se).
Proof.
  assert (∀ name strict op, s_keeps (safe_collect m name strict op)) as Hc by (intros; unfold safe_collect; index_auto).
  assert (w_keeps (run_integration m a c h st tracer se)) as Hi by (unfold run_integration; index_auto).
  assert (∀ n v, s_keeps (set_run_attribute n v)) as Ha.
  { intros n v. unfold set_run_attribute. index_auto. }
  unfold body, dispatch, run_check, run_tests, report_failure, capture_enriched. cbv zeta. index_auto.
Qed.

Lemma indexed_spanned m a c h st tracer se : s_keeps (spanned_body m a c h st tracer se).
Proof.
  intros s. unfold spanned_body. cbv zeta. destruct (span_enter _ _ _) as [sp|e]; [|reflexivity].
  pose proof (indexed_body m a c h st tracer se (State (s_world s) (set_span (Some sp) (s_locals s)))) as Hb.
  destruct (body _ _ _ _ _ _ _ _) as [r s1]. change (s_indexed root k s s1) in Hb.
  set (x := span_exit _ _ _ _ _ _). pose proof (indexed_files x s1) as Hx.
  destruct (files_io x s1) as [[u|e] s2]; simpl in *; by etrans.
Qed.

Lemma lift_ok {S A} (r : res A) (s : S) a s' : lift r s = (Ok a, s') → r = Ok a.
Proof. unfold lift. by intros [= -> _]. Qed.

(** The record of a provenance names its run. *)
Lemma record_names_run resolve prov command code dp rp record :
  dget0 prov "run_id" = PStr k → nonempty k = true →
  record_from_provenance root resolve prov command code dp rp = Ok record → dget0 record "run_id" = PStr k.
Proof.
  intros Hk Hne. unfold record_from_provenance, normalize_record. cbv zeta. rewrite Hk. cbn [py_item dget].
  intros (id & Hid & (n & _ & H)%res_bind_Ok)%res_bind_Ok. injection H as <-.
  rewrite decide_True in Hid by done. injection Hid as <-. cbn. destruct k; done.
Qed.

Lemma indexed_finalize h c status command code executed dp rp st :
  repo_root c = root → py_str (run_id c) = k → nonempty k = true →
  w_keeps (finalize_run_context h c status command code executed dp rp st).
Proof.
  intros Hroot Hid Hne. unfold finalize_run_context. cbv zeta.
  apply keeps_bind; [apply _|apply keeps_lift, _|]. intros start. unfold final_envelope. cbv zeta.
  do 5 (apply keeps_bind; [apply _|apply indexed_on_files|intros _]).
  rewrite Hroot, Hid. apply keeps_bind_ok; [apply _|apply keeps_lift, _|]. intros record w w' Hr.
  apply keeps_bind; [apply _| |intros ?; apply keeps_ret, _]. apply indexed_update.
  apply lift_ok in Hr. eapply record_names_run; [|done|exact Hr]. reflexivity.
Qed.

Lemma indexed_guarded m a c h st tracer se :
  repo_root c = root → py_str (run_id c) = k → nonempty k = true → s_keeps (guarded m a c h st tracer se).
Proof.
  intros Hroot Hid Hne. pose proof (indexed_spanned m a c h st tracer se) as Hs.
  assert (∀ h st0 code executed dp rp st1, w_keeps (finalize_run_context h c st0 (a_command a) code executed dp rp st1)) as Hf
    by (intros; by apply indexed_finalize).
  unfold guarded, on_error, in_any_case, finalise, finalise_run, on_finalisation_error, compress, print_summary. cbv zeta.
  index_auto.
Qed.

Lemma indexed_create h start : let c := new_context h (repository_root (h_exists h) (h_resolve h start)) "" in
  repo_root c = root → run_id c = PStr k → nonempty k = true → w_keeps (create_run_context h start "").
Proof.
  cbv zeta. set (c := new_context _ _ _). intros Hroot Hid Hne. unfold create_run_context. cbv zeta. fold c.
  assert (dget0 (match provenance c with PDict d => d | _ => [] end) "run_id" = PStr k) as Hp by (rewrite <- Hid; reflexivity).
  apply keeps_bind; [apply _|apply indexed_on_files|intros stg].
  do 7 (apply keeps_bind; [apply _|apply indexed_on_files|intros _]).
  change (provenance c) with (PDict (match provenance c with PDict d => d | _ => [] end)). set (prov := match provenance c with PDict d => d | _ => [] end) in *.
  clearbody prov. change (repository_root (h_exists h) (h_resolve h start)) with (repo_root c). rewrite Hroot.
  apply keeps_bind_ok; [apply _|apply keeps_lift, _|]. intros prov' w w' Hl. unfold lift in Hl. injection Hl as <- _.
  apply keeps_bind_ok; [apply _|apply keeps_lift, _|]. intros record w1 w1' Hr.
  apply keeps_bind; [apply _| |intros ?; apply keeps_ret, _]. apply indexed_update.
  apply lift_ok in Hr. by eapply record_names_run.
Qed.
End indexed.

(** The id of the run. *)
Definition run_name (m : machine) : string := py_str (run_id (new_context (m_start m) (run_root m) "")).
Lemma run_name_nonempty m : nonempty (run_name m) = true.
Proof. unfold run_name, new_context, derive_run_id. cbn [run_id py_str nonempty]. by destruct (nonempty (strip _)). Qed.

Lemma indexed_execute m a : keeps (s_indexed (run_root m) (run_name m)) (execute m a).
Proof.
  pose proof (run_name_nonempty m) as Hne. unfold execute. cbv zeta. apply keeps_bind_ok; [apply _| |].
  { apply indexed_on_world. apply indexed_create; [reflexivity|reflexivity|exact Hne]. }
  intros c s s' Hc. unfold on_world in Hc. destruct (create_run_context _ _ _ (s_world s)) as [r w'] eqn:E.
  injection Hc as -> _. apply create_context in E.
  apply keeps_bind; [apply _|apply keeps_raise_opt, _|]. intros _.
  do 3 (apply keeps_bind; [apply _|apply indexed_files|intros ?]).
  apply keeps_bind; [apply _| |intros ?; apply keeps_ret, _].
  apply indexed_guarded; [by rewrite E|by rewrite E|done].
Qed.
