(* ===== verification/ObservedRunFacts.v ===== *)
(** Correctness of the observed runner: its exit code, and what a run may touch. *)
From S2P Require Import Prelude PyStr PyFloat PyVal Regex Json JsonFacts JsonIndent Hashing PyPath PyText PyIO Redaction Storage Provenance Freshness RunIndex RunContext RunContextFacts Collectors CompareRuns Links Tracer Sentry RunCommand CollectPytest Diagnosis ClassifyFailure FailureReport ObservedRun Confinement.

(** * The variables of the run *)

(** Results and exit code are as they were. *)
Definition same_verdict : relation state := fun s s' =>
  l_results (s_locals s') = l_results (s_locals s) ∧ l_exit (s_locals s') = l_exit (s_locals s)
  ∧ l_status (s_locals s') = l_status (s_locals s).
#[export] Instance same_verdict_preorder : PreOrder same_verdict.
Proof. split; [done|]. intros x y z (? & ? & ?) (? & ? & ?). unfold same_verdict. by repeat split; etrans. Qed.

Lemma verdict_on_world {A} (m : io world A) : keeps same_verdict (on_world m).
Proof. intros s. unfold on_world. by destruct (m (s_world s)). Qed.
Lemma verdict_files {A} (m : io fs A) : keeps same_verdict (files_io m).
Proof. apply verdict_on_world. Qed.
Lemma verdict_local {A} (f : locals → A) : keeps same_verdict (local f).
Proof. apply keeps_reads, _. Qed.
Lemma verdict_set_span v : keeps same_verdict (upd (set_span v)).
Proof. by intros s. Qed.
Lemma verdict_span_attribute name v : keeps same_verdict (set_run_attribute name v).
Proof.
  unfold set_run_attribute. apply keeps_bind; [apply _|apply verdict_local|]. intros [sp|]; [|apply keeps_skip, _].
  destruct (set_attribute name v sp). apply keeps_bind; [apply _|apply verdict_set_span|]. intros _. apply keeps_raise_opt, _.
Qed.
Lemma verdict_pytest v : keeps same_verdict (upd (set_pytest v)).
Proof. by intros s. Qed.
Lemma verdict_diagnosis v : keeps same_verdict (upd (set_diagnosis v)).
Proof. by intros s. Qed.
Lemma verdict_report v : keeps same_verdict (upd (set_report v)).
Proof. by intros s. Qed.
Lemma verdict_printed v : keeps same_verdict (upd (add_printed v)).
Proof. by intros s. Qed.
Lemma verdict_span {A} m h tracer name attributes (b : io state A) :
  keeps same_verdict b → keeps same_verdict (with_span m h tracer name attributes b).
Proof.
  intros Hb s. unfold with_span. cbv zeta. destruct (span_enter _ _ _) as [sp|x]; [|reflexivity].
  specialize (Hb s). destruct (b s) as [r s1].
  set (x := span_exit _ _ _ _ _ _). pose proof (verdict_files x s1) as Hx.
  destruct (files_io x s1) as [[u|e] s2]; simpl in *; by etrans.
Qed.
Create HintDb verdict.
#[export] Hint Resolve verdict_on_world verdict_files verdict_local verdict_span_attribute verdict_pytest verdict_diagnosis
  verdict_report verdict_printed verdict_span keeps_skip : verdict.
#[export] Hint Extern 0 (PreOrder _) => typeclasses eauto : verdict.
Ltac verdict_auto := repeat keeps_step; eauto with verdict.

Lemma verdict_report_failure m c h st tracer se failed : keeps same_verdict (report_failure m c h st tracer se failed).
Proof. unfold report_failure. verdict_auto. Qed.
#[export] Hint Resolve verdict_report_failure : verdict.

(** * When the body succeeds *)

(** What holds after a computation that returned. *)
Definition returns {A} (P : state → Prop) (m : io state A) : Prop := ∀ s a s', m s = (Ok a, s') → P s'.

Lemma returns_bind {A B} P (m : io state A) (f : A → io state B) : (∀ a, returns P (f a)) → returns P (m ≫= f).
Proof. intros Hf s b s' (a & s1 & _ & H)%bind_inv. by eapply Hf. Qed.

Lemma returns_keeps {A B} (I P : state → Prop) (m : io state A) (f : A → io state B) s b s' :
  keeps same_verdict m → (∀ s1 s2, same_verdict s1 s2 → I s1 → I s2) →
  (∀ a s1, I s1 → f a s1 = (Ok b, s') → P s') → I s → (m ≫= f) s = (Ok b, s') → P s'.
Proof.
  intros Hm HI Hf Hs (a & s1 & E & H)%bind_inv. specialize (Hm s). rewrite E in Hm. by eapply Hf; [eapply HI|].
Qed.

Definition exit_of (results : list CommandResult) (none : Z) : Z :=
  match first_failed results with Some r => cr_exit_code r | None => none end.
(** The exit code is that of the first failed command. *)
Definition code_set (s : state) : Prop := l_exit (s_locals s) = exit_of (l_results (s_locals s)) 0.
Definition completed (s : state) : Prop := code_set s ∧ l_status (s_locals s) = "COMPLETE".

Lemma code_set_kept s1 s2 : same_verdict s1 s2 → code_set s1 → code_set s2.
Proof. unfold code_set. intros (-> & -> & _). done. Qed.

Lemma body_completes m a c h st tracer se : returns completed (body m a c h st tracer se).
Proof.
  unfold body. cbv zeta. do 9 (apply returns_bind; intros ?).
  intros s b s' (l & s1 & Hl & H)%bind_inv. injection Hl as <- <-.
  apply bind_inv in H as (u & s2 & Hu & H). injection Hu as _ <-.
  set (s2 := State _ _) in H. assert (code_set s2) as Hs2 by done. clearbody s2. revert Hs2 H.
  repeat (apply returns_keeps; [verdict_auto|exact code_set_kept|intros ? ?]).
  intros Hs. clear -Hs. intros H. injection H as _ <-. by split.
Qed.

Lemma spanned_completes m a c h st tracer se : returns completed (spanned_body m a c h st tracer se).
Proof.
  intros s u s' H. unfold spanned_body in H. cbv zeta in H. destruct (span_enter _ _ _) as [sp|x]; [|done].
  destruct (body _ _ _ _ _ _ _ _) as [r s1] eqn:E.
  set (x := span_exit _ _ _ _ _ _) in H. pose proof (verdict_files x s1) as (Hr & Hc & Hst).
  destruct (files_io x s1) as [[v|e] s2]; [|done]. injection H as -> <-. apply body_completes in E as [E1 E2].
  unfold completed, code_set in *. cbn in *. by rewrite Hr, Hc, Hst.
Qed.

(** After an exception the code is not 0. *)
Definition analysis_failed (s : state) : Prop :=
  l_exit (s_locals s) = exit_of (l_results (s_locals s)) 2 ∧ l_status (s_locals s) = "ANALYSIS_FAILED".

Lemma on_error_spec m a h st e s u s' : on_error m a h st e s = (Ok u, s') → analysis_failed s'.
Proof.
  unfold on_error. intros (? & s1 & _ & H)%bind_inv. apply bind_inv in H as (? & s2 & H2 & H). injection H2 as _ <-.
  apply bind_inv in H as (? & s3 & H3 & H). injection H3 as <- <-.
  apply bind_inv in H as (? & s4 & H4 & H). injection H4 as _ <-.
  destruct (a_strict a); [done|]. injection H as _ <-. done.
Qed.

Lemma protected_spec m a c h st tracer se s u s' :
  catch (spanned_body m a c h st tracer se) (on_error m a h st) s = (Ok u, s') →
  match (spanned_body m a c h st tracer se s).1 with Ok _ => completed s' | Raise _ => analysis_failed s' end.
Proof.
  unfold catch. destruct (spanned_body _ _ _ _ _ _ _ s) as [[v|e] s1] eqn:E; cbn [fst].
  - intros H. injection H as _ <-. by eapply spanned_completes.
  - intros H. by eapply on_error_spec.
Qed.

Lemma verdict_finalise_run m a c h st : keeps same_verdict (finalise_run m a c h st).
Proof. unfold finalise_run. cbv zeta. verdict_auto. Qed.

(** Finalisation keeps results and status; when it raised, it turns a 0 into a 2. *)
Definition code_after (finalised : bool) (code : Z) : Z := if negb finalised && (code =? 0)%Z then 2%Z else code.

Lemma finalise_spec m a c h st s u s' :
  finalise m a c h st s = (Ok u, s') →
  l_results (s_locals s') = l_results (s_locals s) ∧ l_status (s_locals s') = l_status (s_locals s)
  ∧ l_exit (s_locals s') = code_after (is_ok (finalise_run m a c h st s).1) (l_exit (s_locals s)).
Proof.
  unfold finalise, catch. pose proof (verdict_finalise_run m a c h st s) as (Hr & Hx & Hst).
  destruct (finalise_run m a c h st s) as [[v|e] s1]; cbn [fst snd is_ok code_after negb andb] in *.
  - intros [= _ <-]. done.
  - unfold on_finalisation_error. intros (? & s2 & E & H)%bind_inv.
    pose proof (verdict_files (write_text (h_resolve h) (h_os_error h) st (path_of "observability-finalization-error.txt")
      (redact_text (m_traceback m e))) s1) as (Hr' & Hx' & Hst'). rewrite E in Hr', Hx', Hst'. cbn [snd] in *.
    apply bind_inv in H as (code & s3 & H3 & H). injection H3 as <- <-.
    apply bind_inv in H as (? & s4 & H4 & H). destruct (a_strict a); [done|]. injection H as _ <-.
    unfold code_after. rewrite <- Hx, <- Hx'. cbn [negb andb].
    destruct (l_exit (s_locals s2) =? 0)%Z; injection H4 as _ <-; cbn; split_and!; congruence.
Qed.

Lemma failed_code results r : first_failed results = Some r → cr_exit_code r ≠ 0%Z.
Proof.
  intros (l1 & l2 & _ & Hr & _)%find_first_Some. unfold succeeded in Hr. by destruct (Z.eqb_spec (cr_exit_code r) 0).
Qed.

(** The exit code of a run: that of the first failed command; without one, 0 when neither the run
    nor its finalisation raised, and 2 otherwise. *)
Definition exit_contract (results : list CommandResult) (status : string) (ran finalised : bool) (code : Z) : Prop :=
  match first_failed results with
  | Some r => code = cr_exit_code r ∧ code ≠ 0%Z
  | None => if ran && finalised then code = 0%Z ∧ status = "COMPLETE" else code = 2%Z
  end.

Lemma guarded_exit m a c h st tracer se s code s' :
  guarded m a c h st tracer se s = (Ok code, s') →
  ∃ s0, catch (spanned_body m a c h st tracer se) (on_error m a h st) s = (Ok (), s0)
    ∧ l_results (s_locals s') = l_results (s_locals s0)
    ∧ exit_contract (l_results (s_locals s')) (l_status (s_locals s')) (is_ok (spanned_body m a c h st tracer se s).1)
        (is_ok (finalise_run m a c h st s0).1) code.
Proof.
  unfold guarded. intros (u & s1 & H & Hl)%bind_inv. injection Hl as <- <-. unfold finally in H.
  destruct (catch _ _ s) as [r s0] eqn:E. destruct (in_any_case _ _ _ _ _ _ _ s0) as [[v|e] s2] eqn:Ea; [|done].
  injection H as -> <-. destruct u. exists s0. split; [done|].
  unfold in_any_case in Ea. apply bind_inv in Ea as (? & s3 & (Hr & Hst & Hx)%finalise_spec & Hrest).
  assert (keeps same_verdict (_ ← files_io (flush (h_resolve h) (h_os_error h) (m_sdk m) se);
    _ ← files_io (shutdown (h_resolve h) (h_os_error h) tracer (m_provider m)); _ ← compress m a h st; print_summary c)) as Hk
    by (unfold compress, print_summary; verdict_auto).
  specialize (Hk s3). rewrite Hrest in Hk. destruct Hk as (Hr' & Hx' & Hst'). cbn [snd] in *.
  rewrite Hr', Hst', Hx', Hr, Hst, Hx. split; [done|]. apply protected_spec in E. unfold exit_contract.
  destruct (spanned_body _ _ _ _ _ _ _ s) as [[w|e] sx]; cbn [fst is_ok andb] in *;
    destruct E as [Hc Hs]; unfold code_set, exit_of in Hc; rewrite Hc; unfold code_after;
    destruct (first_failed (l_results (s_locals s0))) as [r|] eqn:Ef.
  - pose proof (failed_code _ _ Ef) as Hne. rewrite (proj2 (Z.eqb_neq _ _) Hne), andb_false_r. done.
  - by destruct (is_ok _).
  - pose proof (failed_code _ _ Ef) as Hne. rewrite (proj2 (Z.eqb_neq _ _) Hne), andb_false_r. done.
  - by rewrite andb_false_r.
Qed.

(** * A small machine *)

Definition demo_timing : timing := Timing "2026-01-01T00:00:00+00:00" "2026-01-01T00:00:01+00:00" (f_of_Z 1000)
  (OtelSpan (fun _ _ => None) (Ok 255%N) (fun _ _ => None) (fun _ => None) None).
(** The second command of a check fails. *)
Definition demo_exec (argv : list string) (cwd : path) (env : list (string * string)) (timeout : pyval) : outcome :=
  match argv with "git" :: _ => Ended 3 "" "trailing whitespace" | _ => Ended 0 "" "" end.
Definition demo_machine : machine :=
  {| m_start := demo_host; m_finish := demo_host; m_cwd := path_of "/r/sub"; m_uni_alnum := fun _ => true;
     m_sdk := Sdk None (fun _ _ => None) None (fun _ _ _ => Ok PNone) None; m_effects := fun _ => id; m_exec := demo_exec;
     m_measure := fun _ => demo_timing; m_span_time := fun _ => demo_timing; m_which := fun _ => false;
     m_run := fun _ => Failed "OSError" ""; m_parse_xml := fun _ => None; m_remote := ProcError "OSError"; m_head := ProcError "OSError";
     m_timestamp := fun _ => None; m_sources := Sources [] [] [] []; m_sdk_start := fun _ _ _ => None;
     m_http := fun _ _ => Raise (OSError OsOther 0 ""); m_seen := fun e => Seen "Exception" (exn_str e) ""; m_traceback := exn_str;
     m_provider := None; m_have_cli := false; m_run_cli := fun _ => Ok (0%Z, ""); m_zip := fun _ => ""; m_boto3 := None;
     m_s3 := fun _ _ _ => None; m_now := fun _ => "2026-01-01T00:00:02+00:00" |}.
Definition demo_args : args := Args "check" false 0 "" false false false None.
Definition demo_state : state := State (World ∅ (Store Missing Missing []) "") no_locals.

(** * Claims *)

(** C14: The exit code of the observed runner is earned.  If [execute] returns, the [try]
    statement of the run ended in some state [s0] with the results the run still has, and the code
    is the nonzero code of the first failed command when one failed; otherwise it is 0 exactly when
    neither the block of the run nor, from [s0], its finalisation raised, and then the final status
    is COMPLETE; and it is 2 when either raised and the exception was caught. *)
Theorem execute_exit_code m a s code c s' :
  execute m a s = (Ok (code, c), s') →
  let h := run_host m c in
  let st := Storage (h_resolve h (ctx_run_dir c)) (a_strict a) in
  ∃ tracer se s1 s0,
    catch (spanned_body m a c h st tracer se) (on_error m a h st) s1 = (Ok (), s0)
    ∧ l_results (s_locals s') = l_results (s_locals s0)
    ∧ exit_contract (l_results (s_locals s')) (l_status (s_locals s')) (is_ok (spanned_body m a c h st tracer se s1).1)
        (is_ok (finalise_run m a c h st s0).1) code.
Proof.
  unfold execute. intros H. apply bind_inv in H as (c0 & s1 & _ & H). apply bind_inv in H as (? & s2 & _ & H). cbv zeta in H.
  apply bind_inv in H as (st & s3 & Hi & H). apply bind_inv in H as (tracer & s4 & _ & H).
  apply bind_inv in H as (se & s5 & _ & H). apply bind_inv in H as (k & s6 & Hg & H). injection H as <- <- <-. cbv zeta.
  assert (st = Storage (h_resolve (run_host m c0) (ctx_run_dir c0)) (a_strict a)) as ->.
  { apply files_io_ok in Hi as (f & Hi). unfold init in Hi. destruct (h_os_error _ _); [done|]. by injection Hi as <- _. }
  apply guarded_exit in Hg as (s0 & Hg). by exists tracer, se, s5, s0.
Qed.
Lemma execute_exit_code_witness :
  ∃ code c s', execute demo_machine demo_args demo_state = (Ok (code, c), s') ∧ code = 3%Z
    ∧ ∃ ran finalised, exit_contract (l_results (s_locals s')) (l_status (s_locals s')) ran finalised code.
Proof.
  assert ((fun r => match r with Ok (code, _) => code | Raise _ => 0%Z end) (execute demo_machine demo_args demo_state).1 = 3%Z) as H
    by (vm_compute; reflexivity).
  destruct (execute demo_machine demo_args demo_state) as [[[code c]|e] s'] eqn:E; [|discriminate H].
  exists code, c, s'. split; [reflexivity|]. split; [exact H|].
  destruct (execute_exit_code _ _ _ _ _ _ E) as (tracer & se & s1 & s0 & _ & _ & Hx). eexists _, _. exact Hx.
Defined.


