(* ===== verification/RegenerateFacts.v ===== *)
(** Facts about reading recorded results back: a result and a summary survive the round trip
    through their dictionaries, the loop of the command line agrees with
    [pytest_summary_from_dict], and regeneration reports the command the run recorded as
    failed. *)
From S2P Require Import Prelude PyStr PyFloat PyVal Regex Json JsonFacts JsonIndent Hashing PyPath PyText PyIO Redaction Storage Provenance Freshness RunIndex RunContext CompareRuns Links Tracer Sentry RunCommand CollectPytest Diagnosis ClassifyFailure FailureReport Regenerate ObservedRun RunContextFacts.

(** * Keyword arguments *)

Lemma dget_keep_fields k fields d : dget k (keep_fields fields d) = if bool_decide (k ∈ fields) then dget k d else None.
Proof.
  unfold keep_fields. induction d as [|[k' v] d IH]; [simpl; by case_bool_decide|].
  cbn [filterb List.filter fst]. destruct (bool_decide (k' ∈ fields)) eqn:E; cbn [dget]; destruct (decide (k = k')) as [->|Hk].
  - by rewrite E.
  - done.
  - etrans; [apply IH|]. by rewrite E.
  - done.
Qed.

Lemma dget_setdefault k k' v d :
  dget k (setdefault k' v d) = if decide (k = k') then Some (default v (dget k d)) else dget k d.
Proof.
  unfold setdefault, dhas. case_decide as Hk; [subst k'|].
  - destruct (dget k d) eqn:E; [done|]. by rewrite dget_dset_eq.
  - destruct (dget k' d); [done|]. by rewrite dget_dset_ne.
Qed.

Lemma dget_setdefaults k kwargs l :
  dget k (setdefaults kwargs l) = match dget k kwargs with Some v => Some v | None => dget k l end.
Proof.
  revert kwargs. induction l as [|[k' v] l IH]; intros kwargs; cbn; [by destruct (dget k kwargs)|].
  unfold setdefaults in IH. rewrite IH, dget_setdefault. destruct (decide (k = k')) as [->|]; [|done].
  by destruct (dget k' kwargs).
Qed.

(** Two lists of defaults that agree wherever the value has no member. *)
Definition same_default (value : dict) (a b : string * pyval) : Prop := a.1 = b.1 ∧ (dget a.1 value = None → a.2 = b.2).

Lemma dget_same_default value l m k :
  Forall2 (same_default value) l m → dget k value = None → dget k l = dget k m.
Proof.
  intros H Hk. induction H as [|[a x] [b y] l m [Hab Hxy] _ IH]; [done|]. cbn in *. subst b.
  destruct (decide (k = a)) as [->|]; [|done]. by rewrite Hxy.
Qed.

(** The defaults of [command_result_from_dict]. *)
Definition result_defaults (stdout stderr : string) : dict :=
  [("name", PStr "fixture-command"); ("stage", PStr "test"); ("argv", PList []); ("exit_code", PInt 1);
   ("started_at", PStr "2026-01-01T00:00:00+00:00"); ("ended_at", PStr "2026-01-01T00:00:01+00:00");
   ("duration_ms", PFloat (f_of_Z 1000)); ("stdout", PStr stdout); ("stderr", PStr stderr);
   ("metadata_path", PStr "commands/test/fixture-command/command.json");
   ("log_path", PStr "commands/test/fixture-command/command.log"); ("trace_id", PStr ""); ("timed_out", PBool false)].

(** The arguments are the members of the value, and the defaults where it has none. *)
Lemma dget_result_kwargs value out err kwargs k :
  result_kwargs value out err = Ok kwargs → k ∈ RESULT_FIELDS →
  dget k kwargs = match dget k value with Some v => Some v | None => dget k (result_defaults out err) end.
Proof.
  unfold result_kwargs.
  destruct (py_iter _) as [argv|] eqn:Ha; [|done]. destruct (py_int _) as [code|] eqn:Hc; [|done].
  destruct (py_float _) as [ms|] eqn:Hf; [|done]. cbn [res_bind]. intros <-%Ok_inj Hk.
  rewrite dget_setdefaults, dget_keep_fields, (bool_decide_eq_true_2 _ Hk).
  destruct (dget k value) as [v|] eqn:E; [done|]. apply (dget_same_default value); [|done].
  unfold dgetd in *. repeat constructor; cbn [fst snd]; intros Hn; rewrite Hn in *; try done.
  - by apply Ok_inj in Ha as <-.
  - by apply Ok_inj in Hc as <-.
  - by apply Ok_inj in Hf as <-.
Qed.

(** * A result and a summary survive the round trip *)

(** What a dictionary without the output is completed with. *)
Definition with_output (include_output : bool) (r : CommandResult) (out err : string) : CommandResult :=
  if include_output then r
  else Result (cr_name r) (cr_stage r) (cr_argv r) (cr_exit_code r) (cr_started_at r) (cr_ended_at r) (cr_duration_ms r) out err
         (cr_metadata_path r) (cr_log_path r) (cr_trace_id r) (cr_timed_out r) (cr_command_id r) (cr_stage_id r) (cr_cwd r)
         (cr_expected_artifacts r) (cr_dependencies r) (cr_timeout_seconds r).

(** The untyped fields are JSON values with sorted keys, so reading them gives them back. *)
Definition canonical_extras (r : CommandResult) : Prop :=
  canon (cr_expected_artifacts r) = cr_expected_artifacts r ∧ canon (cr_dependencies r) = cr_dependencies r
  ∧ canon (cr_timeout_seconds r) = cr_timeout_seconds r.

Lemma to_dict_NoDup inc r : NoDup (dkeys (to_dict inc r)).
Proof. destruct inc; by apply (bool_decide_eq_true_1 (NoDup _)); vm_compute. Qed.

Lemma dget_read_back (e d : dict) k : canon (PDict e) = PDict d → NoDup (dkeys e) → dget k d = canon <$> dget k e.
Proof. intros [= <-]. apply dget_canon. Qed.

Lemma dget_recorded inc r d k : canon (PDict (to_dict inc r)) = PDict d → dget k d = canon <$> dget k (to_dict inc r).
Proof. intros Hd. apply dget_read_back; [done|]. apply to_dict_NoDup. Qed.

Lemma canon_strs l : map canon (map PStr l) = map PStr l.
Proof. induction l; simpl; congruence. Qed.

Lemma canon_opt_int o : canon (opt_int o) = opt_int o.
Proof. by destruct o. Qed.

Lemma recorded_field inc r out err d k :
  canon (PDict (to_dict inc r)) = PDict d → k ∈ RESULT_FIELDS →
  match dget k d with Some v => Some v | None => dget k (result_defaults out err) end
  = canon <$> dget k (result_fields (with_output inc r out err)).
Proof.
  intros Hd Hk. rewrite (dget_recorded _ _ _ _ Hd). clear Hd.
  unfold RESULT_FIELDS in Hk. rewrite !elem_of_cons, elem_of_nil in Hk.
  destruct inc, r; destruct_or! Hk; try done; subst k; reflexivity.
Qed.

Lemma karg_to_py {A} `{Field A} kwargs k (dflt : option A) (a : A) : dget k kwargs = Some (to_py a) → karg kwargs k dflt = Some a.
Proof. unfold karg. intros ->. apply of_to_py. Qed.

Lemma CommandResult_of_fields kwargs r :
  (∀ k, k ∈ RESULT_FIELDS → dget k kwargs = dget k (result_fields r)) → CommandResult_of kwargs = Some r.
Proof.
  intros H. unfold CommandResult_of.
  assert (∀ {A} `{Field A} k (a : A) dflt, bool_decide (k ∈ RESULT_FIELDS) = true → dget k (result_fields r) = Some (to_py a) →
            karg kwargs k dflt = Some a) as G.
  { intros A F k a dflt Hk E. apply karg_to_py. by rewrite (H k (bool_decide_eq_true_1 _ Hk)). }
  rewrite (G _ field_str "name" (cr_name r) _ eq_refl eq_refl), (G _ field_str "stage" (cr_stage r) _ eq_refl eq_refl),
    (G _ field_strs "argv" (cr_argv r) _ eq_refl eq_refl), (G _ field_int "exit_code" (cr_exit_code r) _ eq_refl eq_refl),
    (G _ field_str "started_at" (cr_started_at r) _ eq_refl eq_refl), (G _ field_str "ended_at" (cr_ended_at r) _ eq_refl eq_refl),
    (G _ field_float "duration_ms" (cr_duration_ms r) _ eq_refl eq_refl), (G _ field_str "stdout" (cr_stdout r) _ eq_refl eq_refl),
    (G _ field_str "stderr" (cr_stderr r) _ eq_refl eq_refl), (G _ field_str "metadata_path" (cr_metadata_path r) _ eq_refl eq_refl),
    (G _ field_str "log_path" (cr_log_path r) _ eq_refl eq_refl), (G _ field_str "trace_id" (cr_trace_id r) _ eq_refl eq_refl),
    (G _ field_bool "timed_out" (cr_timed_out r) _ eq_refl eq_refl), (G _ field_str "command_id" (cr_command_id r) _ eq_refl eq_refl),
    (G _ field_str "stage_id" (cr_stage_id r) _ eq_refl eq_refl), (G _ field_str "cwd" (cr_cwd r) _ eq_refl eq_refl),
    (G _ field_any "expected_artifacts" (cr_expected_artifacts r) _ eq_refl eq_refl),
    (G _ field_any "dependencies" (cr_dependencies r) _ eq_refl eq_refl),
    (G _ field_any "timeout_seconds" (cr_timeout_seconds r) _ eq_refl eq_refl).
  by destruct r.
Qed.

Lemma result_fields_canon r k : canonical_extras r → canon <$> dget k (result_fields r) = dget k (result_fields r).
Proof.
  intros (H1 & H2 & H3). unfold result_fields.
  repeat (cbn [dget]; case_decide; [cbn [fmap option_fmap option_map canon]; by rewrite ?canon_strs, ?H1, ?H2, ?H3|]). done.
Qed.

Lemma dget_recorded_core inc r d k v :
  canon (PDict (to_dict inc r)) = PDict d → dget k (to_dict inc r) = Some v → canon v = v → dget k d = Some v.
Proof. intros Hd Hv Hc. rewrite (dget_recorded _ _ _ _ Hd), Hv. cbn. by f_equal. Qed.

(** A command result survives the round trip through its dictionary: whatever the key order
    of the JSON text it was stored in, [command_result_from_dict] rebuilds from [to_dict] the
    very result, with the captured output taken from the dictionary when it was included and
    from the arguments when it was left out.  No conversion on the way raises. *)
Theorem command_result_roundtrip inc r out err d :
  canonical_extras r → canon (PDict (to_dict inc r)) = PDict d →
  command_result_from_dict d out err = Ok (Some (with_output inc r out err)).
Proof.
  intros Hx Hd. unfold command_result_from_dict.
  destruct (result_kwargs d out err) as [kwargs|] eqn:Hk.
  - cbn [res_bind]. f_equal. apply CommandResult_of_fields. intros k Hf.
    rewrite (dget_result_kwargs _ _ _ _ _ Hk Hf), (recorded_field inc r) by done.
    apply result_fields_canon. by destruct inc.
  - exfalso. revert Hk. unfold result_kwargs, dgetd.
    rewrite (dget_recorded_core _ _ _ "argv" (PList (map PStr (cr_argv r))) Hd) by first [by destruct inc|cbn; by rewrite canon_strs].
    rewrite (dget_recorded_core _ _ _ "exit_code" (PInt (cr_exit_code r)) Hd) by (by destruct inc).
    by rewrite (dget_recorded_core _ _ _ "duration_ms" (PFloat (cr_duration_ms r)) Hd) by (by destruct inc).
Qed.

Definition demo_command : CommandResult :=
  Result "unit" "test" ["python"; "-m"; "pytest"] 1 "t0" "t1" (f_lit 5 2) "out" "err" "commands/test/unit/command.json"
    "commands/test/unit/command.log" "tr" false "test.unit" "test" "/r" (PList [PStr "a"]) PNone (PInt 30).
Lemma command_result_roundtrip_witness :
  ∃ d, canon (PDict (to_dict false demo_command)) = PDict d
  ∧ command_result_from_dict d "log" "" = Ok (Some (with_output false demo_command "log" "")).
Proof. eexists. split; [reflexivity|]. by apply (command_result_roundtrip false demo_command "log" ""). Defined.

(** * Summaries *)

Lemma dget_summary_values v fields values k :
  summary_values v fields = Ok values → NoDup (dkeys fields) →
  ∀ d, v = PDict d → dget k values = match dget k fields with Some dflt => Some (dgetd d k dflt) | None => None end.
Proof.
  revert values. induction fields as [|[key dflt] fields IH]; intros values H Hnd d ->.
  { by apply Ok_inj in H as <-. }
  cbn in H. unfold dhas in H. apply NoDup_cons in Hnd as [_ Hnd].
  destruct (dget key d) as [x|] eqn:E; cbn in H; destruct (summary_values (PDict d) fields) as [vs|] eqn:Hv; try done;
    apply Ok_inj in H as <-; cbn; (case_decide as Hk; [subst k; unfold dgetd; by rewrite E|by apply IH]).
Qed.
Lemma summary_values_ok d fields : ∃ values, summary_values (PDict d) fields = Ok values.
Proof.
  induction fields as [|[key dflt] fields [vs IH]]; [by eexists|].
  cbn. unfold dhas. destruct (dget key d); cbn; rewrite IH; by eexists.
Qed.

(** A missing argument and the default given explicitly are the same. *)
Lemma karg_dflt {A} `{Field A} kwargs kwargs' k (a : A) :
  dget k kwargs' = Some (default (to_py a) (dget k kwargs)) → karg kwargs' k (Some a) = karg kwargs k (Some a).
Proof. unfold karg. intros ->. destruct (dget k kwargs); [done|]. apply of_to_py. Qed.

Lemma summary_loop_agrees d : regenerated_summary (PDict d) = Ok (pytest_summary_from_dict (Some d)).
Proof.
  unfold regenerated_summary. destruct (summary_values_ok d SUMMARY_FIELDS) as [values Hv]. rewrite Hv. cbn [res_bind]. f_equal.
  assert (∀ A (F : Field A) k (a : A), dget k SUMMARY_FIELDS = Some (to_py a) →
            karg values k (Some a) = karg (keep_fields (dkeys SUMMARY_FIELDS) d) k (Some a)) as G.
  { intros A F k a E. apply karg_dflt.
    rewrite (dget_summary_values _ _ _ _ Hv ltac:(by apply (bool_decide_eq_true_1 (NoDup _)); vm_compute) d eq_refl), E.
    rewrite dget_keep_fields, bool_decide_eq_true_2; [done|].
    apply dget_Some_elem in E. by apply (list_elem_of_fmap_2 fst) in E. }
  unfold pytest_summary_from_dict, PytestSummary_of. cbn [default].
  rewrite (G _ field_str "first_failing_test_nodeid" "" eq_refl), (G _ field_str "failure_message" "" eq_refl),
    (G _ field_str "assertion_text" "" eq_refl), (G _ field_str "source_file" "" eq_refl),
    (G _ field_line "source_line" None eq_refl), (G _ field_str "source_url" "" eq_refl),
    (G _ field_int "failed_count" 0%Z eq_refl), (G _ field_int "passed_count" 0%Z eq_refl),
    (G _ field_int "skipped_count" 0%Z eq_refl), (G _ field_int "error_count" 0%Z eq_refl),
    (G _ field_float "duration_seconds" f_zero eq_refl), (G _ field_int "collected_count" 0%Z eq_refl).
  by rewrite (G _ field_strs "collected_tests" [] eq_refl).
Qed.

Lemma summary_reads_back s d : canon (PDict (summary_to_dict s)) = PDict d → pytest_summary_from_dict (Some d) = Some s.
Proof.
  intros Hd.
  assert (∀ A (F : Field A) k (a : A) dflt, bool_decide (k ∈ dkeys SUMMARY_FIELDS) = true →
            dget k (summary_to_dict s) = Some (to_py a) → canon (to_py a) = to_py a →
            karg (keep_fields (dkeys SUMMARY_FIELDS) d) k dflt = Some a) as G.
  { intros A F k a dflt Hk E Hc. apply karg_to_py. rewrite dget_keep_fields, Hk.
    rewrite (dget_read_back _ _ _ Hd) by (by apply (bool_decide_eq_true_1 (NoDup _)); vm_compute). rewrite E. cbn. by rewrite Hc. }
  unfold pytest_summary_from_dict, PytestSummary_of. cbn [default].
  rewrite (G _ field_str "first_failing_test_nodeid" (ps_nodeid s) _ eq_refl eq_refl eq_refl),
    (G _ field_str "failure_message" (ps_message s) _ eq_refl eq_refl eq_refl),
    (G _ field_str "assertion_text" (ps_assertion s) _ eq_refl eq_refl eq_refl),
    (G _ field_str "source_file" (ps_file s) _ eq_refl eq_refl eq_refl),
    (G _ field_line "source_line" (ps_line s) _ eq_refl eq_refl (canon_opt_int _)),
    (G _ field_str "source_url" (ps_url s) _ eq_refl eq_refl eq_refl),
    (G _ field_int "failed_count" (ps_failed s) _ eq_refl eq_refl eq_refl),
    (G _ field_int "passed_count" (ps_passed s) _ eq_refl eq_refl eq_refl),
    (G _ field_int "skipped_count" (ps_skipped s) _ eq_refl eq_refl eq_refl),
    (G _ field_int "error_count" (ps_error s) _ eq_refl eq_refl eq_refl),
    (G _ field_float "duration_seconds" (ps_duration s) _ eq_refl eq_refl eq_refl),
    (G _ field_int "collected_count" (ps_collected s) _ eq_refl eq_refl eq_refl),
    (G _ field_strs "collected_tests" (ps_tests s) _ eq_refl eq_refl (f_equal PList (canon_strs _))).
  by destruct s.
Qed.

(** The loop of the command line that fills in the defaults of a test summary field by field
    computes the same summary as [pytest_summary_from_dict], which leaves them to the
    dataclass, for every dictionary; and a summary written by [to_dict] is read back by either,
    whatever the key order of the JSON text. *)
Theorem summary_readers_agree :
  (∀ d, regenerated_summary (PDict d) = Ok (pytest_summary_from_dict (Some d)))
  ∧ (∀ s d, canon (PDict (summary_to_dict s)) = PDict d → pytest_summary_from_dict (Some d) = Some s).
Proof. split; [exact summary_loop_agrees|exact summary_reads_back]. Qed.

(** * Regeneration *)

(** The metadata of a command as the JSON reader returns it. *)
Definition recorded (r : CommandResult) : dict := sort_keys (map (fun kv => (kv.1, canon kv.2)) (to_dict false r)).

Lemma recorded_canon r : canon (PDict (to_dict false r)) = PDict (recorded r).
Proof. done. Qed.

Lemma dget_recorded_value r k v dflt :
  dget k (to_dict false r) = Some v → canon v = v → dgetd (recorded r) k dflt = v.
Proof. intros Hv Hc. unfold dgetd. by rewrite (dget_recorded_core false r _ k v (recorded_canon r) Hv Hc). Qed.

(** The command a report is about: the first that failed, or the last one. *)
Definition reported (rs : list CommandResult) : option CommandResult :=
  match first_failed rs with Some r => Some r | None => last rs end.

Lemma failed_value_reports found rs :
  failed_value found (map (fun r => PDict (recorded r)) rs) = Ok (default found (recorded <$> reported rs)).
Proof.
  revert found. induction rs as [|r rs IH]; intros found; [done|]. cbn [map failed_value py_get_or].
  change (default (PInt 0) (dget "exit_code" (recorded r))) with (dgetd (recorded r) "exit_code" (PInt 0)).
  rewrite (dget_recorded_value r "exit_code" (PInt (cr_exit_code r))) by done. cbn [res_bind py_int as_dict].
  unfold reported, first_failed in *. cbn [find_first]. unfold succeeded.
  destruct (cr_exit_code r =? 0)%Z; [|done]. rewrite IH. cbn [negb].
  destruct (find_first _ rs); [done|]. rewrite last_cons. by destruct (last rs).
Qed.

(** What regeneration keeps of a result: everything but the ids and the declared artifacts,
    dependencies and limits; its output is the text of the log. *)
Definition replayed (r : CommandResult) (log : string) : CommandResult :=
  Result (cr_name r) (cr_stage r) (cr_argv r) (cr_exit_code r) (cr_started_at r) (cr_ended_at r) (cr_duration_ms r) log ""
    (cr_metadata_path r) (cr_log_path r) (cr_trace_id r) (cr_timed_out r) "" "" "" PNone PNone PNone.

Lemma map_py_str l : map py_str (map PStr l) = l.
Proof. induction l; simpl; congruence. Qed.

Lemma regenerated_command_recorded r meta log : regenerated_command (recorded r) meta log = Ok (replayed r log).
Proof.
  unfold regenerated_command. pose proof (dget_recorded_value r) as G.
  rewrite (G "argv" (PList (map PStr (cr_argv r))) _ eq_refl (f_equal PList (canon_strs _))),
    (G "exit_code" (PInt (cr_exit_code r)) _ eq_refl eq_refl), (G "duration_ms" (PFloat (cr_duration_ms r)) _ eq_refl eq_refl).
  cbn [py_iter py_int py_float res_bind]. rewrite map_py_str.
  rewrite (G "name" (PStr (cr_name r)) _ eq_refl eq_refl), (G "stage" (PStr (cr_stage r)) _ eq_refl eq_refl),
    (G "started_at" (PStr (cr_started_at r)) _ eq_refl eq_refl), (G "ended_at" (PStr (cr_ended_at r)) _ eq_refl eq_refl),
    (G "metadata_path" (PStr (cr_metadata_path r)) _ eq_refl eq_refl), (G "log_path" (PStr (cr_log_path r)) _ eq_refl eq_refl),
    (G "trace_id" (PStr (cr_trace_id r)) _ eq_refl eq_refl), (G "timed_out" (PBool (cr_timed_out r)) _ eq_refl eq_refl).
  done.
Qed.

Lemma bind_done {S A B} (m : io S A) (f : A → io S B) s a s' : m s = (Ok a, s') → (m ≫= f) s = f a s'.
Proof. unfold mbind, io_bind. by intros ->. Qed.
Lemma lift_done {S A} (r : res A) (a : A) (s : S) : r = Ok a → lift r s = (Ok a, s).
Proof. by intros ->. Qed.

Section regeneration.
Context (h : host) (cwd : path) (git_remote git_head : proc) (timestamp : string → option Z).
Implicit Types (w : world) (files : fs).

(** The recorded state of a run: its context, the metadata of its commands in the order of
    their paths, its test summary if it has one, and its diagnosis ([{}] without one). *)
Record recorded_run (run_dir : path) (w : world) (c : RunContext) (rs : list CommandResult)
    (summary : option PytestSummary) (diagnosis : dict) : Prop := {
  rec_context : load_run_context h cwd run_dir w = (Ok c, w);
  rec_commands : Forall2 (fun p r => read_json (h_resolve h p) (w_files w) = Ok (PDict (recorded r)))
                   (command_files (h_resolve h run_dir) (w_files w)) rs;
  rec_summary : match summary with
                | None => w_files w !! h_resolve h (path_join run_dir (path_of "pytest/pytest-summary.json")) = None
                | Some s => read_json (h_resolve h (h_resolve h (path_join run_dir (path_of "pytest/pytest-summary.json")))) (w_files w)
                            = Ok (canon (PDict (summary_to_dict s)))
                            ∧ is_Some (w_files w !! h_resolve h (path_join run_dir (path_of "pytest/pytest-summary.json")))
                end;
  rec_diagnosis : load_json_if_exists (h_resolve h (path_join run_dir (path_of "diagnosis.json"))) (w_files w) = Ok (PDict diagnosis);
  rec_writable : h_os_error h (h_resolve h (ctx_run_dir c)) = None }.

Lemma mapM_read_here w ps vs :
  Forall2 (fun p v => read_json (h_resolve h p) (w_files w) = Ok v) ps vs → io_mapM (read_here h) ps w = (Ok vs, w).
Proof.
  induction 1 as [|p v ps vs Hp _ IH]; [done|]. cbn [io_mapM]. unfold mbind, io_bind, read_here in *. by rewrite Hp, IH.
Qed.

Lemma py_or_dict d : as_dict (py_or (PDict d) (PDict [])) = Ok d.
Proof. by destruct d. Qed.

(** The outcome of the script from that of the report. *)
Definition printed {A B} (o : res (A * path * B) * fs) (w : world) : res regenerated * world :=
  (res_map (fun x => Prints (path_str x.1.2)) o.1, World o.2 (w_index w) (w_event w)).

(** C21: Regenerating the report of a recorded run makes the report of the first recorded command
    that failed, or, when none did, of the last one.  Of that command the name, the stage, the
    arguments, the exit code, the times, the paths, the trace and whether it timed out are those
    recorded, its log is the output, and the identifiers of command and stage, the working
    directory, the expected artifacts, the dependencies and the time limit are dropped, although
    they are recorded ([replayed]); the test summary and the diagnosis are as they were written.  The outcome is
    exactly that of [generate_failure_report] on them. *)
Theorem regenerates_recorded_failure run_dir w c rs r summary diagnosis :
  recorded_run run_dir w c rs summary diagnosis → reported rs = Some r →
  regenerate_main h cwd git_remote git_head timestamp run_dir w =
  printed (generate_failure_report h cwd git_remote git_head timestamp c
             (replayed r (load_text_if_exists (h_resolve h (path_join run_dir (path_of (cr_log_path r)))) (w_files w)))
             (ReportArgs summary None [] [] "" "" [] [] diagnosis) (Storage (h_resolve h (ctx_run_dir c)) false) (w_files w)) w.
Proof.
  intros [Hc Hr Hs Hd Hw] Hf. unfold regenerate_main. rewrite (bind_done _ _ _ _ _ Hc), (bind_done (reads w_files) _ w (w_files w) w) by done.
  set (found := command_files _ _) in *.
  destruct (last found) as [newest|] eqn:Hl.
  2: { apply last_None in Hl. rewrite Hl in Hr. apply Forall2_nil_inv_l in Hr as ->. done. }
  rewrite (bind_done _ _ _ _ _ (mapM_read_here w found (map (fun r => PDict (recorded r)) rs) ltac:(by apply Forall2_fmap_r))).
  assert (failed_value [] (map (fun r => PDict (recorded r)) rs) = Ok (recorded r)) as Hv by (by rewrite failed_value_reports, Hf).
  rewrite (bind_done _ _ _ _ _ (lift_done _ _ _ Hv)). cbv zeta.
  rewrite (dget_recorded_value r "log_path" (PStr (cr_log_path r)) (PStr "") eq_refl eq_refl). cbn [py_str].
  rewrite (bind_done _ _ _ _ _ (lift_done _ _ _ (regenerated_command_recorded r _ _))).
  rewrite (bind_done _ _ w (Some summary) w).
  2: { destruct summary as [s|]; [|by rewrite Hs].
       destruct Hs as [Hs [b Hb]]. rewrite Hb. unfold mbind, io_bind, read_here, lift. rewrite Hs.
       unfold canon; fold canon. by rewrite summary_loop_agrees, (summary_reads_back s). }
  rewrite (bind_done _ _ _ _ _ (lift_done _ _ _ Hd)).
  rewrite (bind_done _ _ w (Storage (h_resolve h (ctx_run_dir c)) false) w) by (unfold on_files, init; rewrite Hw; by destruct w).
  rewrite (bind_done _ _ _ _ _ (lift_done _ _ _ (py_or_dict diagnosis))).
  unfold mbind, io_bind, on_files, printed.
  by destruct (generate_failure_report _ _ _ _ _ _ _ _ _ _) as [[[[md ht] js]|e] files'].
Qed.
End regeneration.

Definition demo_run : world :=
  World (<[path_of "/r/x/run-context.json" := dumps_indent (PDict [("repo_root", PStr "/r"); ("run_id", PStr "x");
                                               ("started_at", PStr "t"); ("environment", PStr "local")])]>
         (<[path_of "/r/x/commands/test/unit/command.json" := dumps_indent (PDict (to_dict false demo_command))]>
         (<[path_of "/r/x/commands/test/unit/command.log" := "boom"]> ∅))) (Store Missing Missing []) "".
Definition demo_loaded : RunContext :=
  match (load_run_context demo_host (path_of "/r") (path_of "/r/x") demo_run).1 with Ok c => c | Raise _ => demo_context end.
Lemma demo_run_recorded : recorded_run demo_host (path_of "/r") (path_of "/r/x") demo_run demo_loaded [demo_command] None [].
Proof.
  constructor; [vm_compute; reflexivity| |vm_compute; reflexivity|vm_compute; reflexivity|vm_compute; reflexivity].
  replace (command_files _ _) with [path_of "/r/x/commands/test/unit/command.json"] by (vm_compute; reflexivity).
  constructor; [vm_compute; reflexivity|constructor].
Qed.
Lemma regenerates_recorded_failure_witness :
  regenerate_main demo_host (path_of "/r") (ProcError "") (ProcError "") (fun _ => None) (path_of "/r/x") demo_run
  = printed (generate_failure_report demo_host (path_of "/r") (ProcError "") (ProcError "") (fun _ => None) demo_loaded
      (replayed demo_command (load_text_if_exists (h_resolve demo_host (path_join (path_of "/r/x") (path_of (cr_log_path demo_command))))
         (w_files demo_run)))
      (ReportArgs None None [] [] "" "" [] [] []) (Storage (h_resolve demo_host (ctx_run_dir demo_loaded)) false) (w_files demo_run)) demo_run.
Proof.
  exact (regenerates_recorded_failure demo_host (path_of "/r") (ProcError "") (ProcError "") (fun _ => None) (path_of "/r/x") demo_run
           demo_loaded [demo_command] demo_command None [] demo_run_recorded eq_refl).
Defined.
