(* ===== verification/IndexLock.v ===== *)
(** Concurrent runs updating one index behind the lock file ([_index_lock] and
    [update_run_index] of [observability/ci/run_index.py]).  A process computes its deadline
    from the monotonic clock and then polls: it tries to create the lock file with
    [O_CREAT | O_EXCL], and when the file exists it reads the clock, gives up at the deadline
    or sleeps for a twentieth of a second.  With the lock it reads the index, replaces
    [index.json], then [latest-local.txt], and unlinks the lock.  Every call that can fail has
    its failing step, and a process may be killed anywhere. *)
From S2P Require Import Prelude PyStr PyFloat PyVal Regex Json JsonFacts JsonIndent Hashing PyPath Provenance Freshness RunIndex RunIndexFacts.

(** [timeout_seconds: float = 30.0] and [time.sleep(0.05)], in milliseconds. *)
Definition timeout_ms : Z := 30000.
Definition poll_ms : Z := 50.

Section lock.
Context (json_error : string → string) (root : path) (resolve : path → path).
(** The record and the clock of each process. *)
Context (job : nat → string * dict).

(** The files when the update of [p] computed from [s] has replaced [index.json]. *)
Definition computed (p : nat) (s : store) : option store :=
  match update_run_index json_error root resolve (job p).1 (job p).2 s with Ok (_, s') => Some s' | Raise _ => None end.
Definition put_index (f : file) (s : store) : store := Store f (st_pointer s) (st_runs s).
Definition put_pointer (f : file) (s : store) : store := Store (st_index s) f (st_runs s).
Definition run_update (p : nat) (s : store) : store :=
  match computed p s with Some s' => put_index (st_index s') s | None => s end.

Inductive lphase : Type :=
| Arriving                          (* about to compute the deadline *)
| Opening (deadline : Z)            (* about to call os.open *)
| Denied (deadline : Z)             (* FileExistsError caught, about to read the clock *)
| Sleeping (deadline wake : Z)      (* in time.sleep *)
| Locked                            (* lock file created *)
| Loaded (s : store)                (* index read *)
| Indexed (s : store)               (* index.json replaced, s is the store it computed *)
| Stored                            (* the body returned *)
| Raising (wrote : bool)            (* the body raised, index.json replaced before or not *)
| Released                          (* returned, lock file unlinked *)
| Failed (wrote : bool)             (* raised, lock file unlinked *)
| TimedOut (deadline : Z)           (* TimeoutError *)
| OpenFailed                        (* mkdir or os.open raised another OSError *)
| Abandoned (held wrote : bool).    (* killed, or os.close or unlink raised *)

(** The lock file, the files, the monotonic clock, the processes, and the processes that
    replaced [index.json], in the order they did. *)
Record lworld : Type := LWorld {
  lw_lock : bool; lw_store : store; lw_clock : Z; lw_procs : list lphase; lw_log : list nat }.

(** Between creating and unlinking the lock file. *)
Definition critical (ph : lphase) : bool :=
  match ph with Locked | Loaded _ | Indexed _ | Stored | Raising _ => true | Abandoned held _ => held | _ => false end.
(** Its record was put in [index.json]. *)
Definition committed (ph : lphase) : bool :=
  match ph with Indexed _ | Stored | Released => true | Raising w | Failed w | Abandoned _ w => w | _ => false end.
Definition ended (ph : lphase) : bool :=
  match ph with Released | Failed _ | TimedOut _ | OpenFailed | Abandoned _ _ => true | _ => false end.

(** One action of one process at time [t]: whether it is a fault (the process is killed, or a
    call of the operating system raises), whether the lock file exists, the files and the phase
    before; the same after, and whether it replaced [index.json]. *)
Inductive act (t : Z) (p : nat) : bool → bool → store → lphase → bool → store → lphase → bool → Prop :=
| ADeadline l s : act t p false l s Arriving l s (Opening (t + timeout_ms)) false
| ACreate s d : act t p false false s (Opening d) true s Locked false
| AExists s d : act t p false true s (Opening d) true s (Denied d) false
| AOpenError l s d : act t p true l s (Opening d) l s OpenFailed false
| AMkdirError l s : act t p true l s Arriving l s OpenFailed false
| AGiveUp l s d : (d <= t)%Z → act t p false l s (Denied d) l s (TimedOut d) false
| ASleep l s d : (t < d)%Z → act t p false l s (Denied d) l s (Sleeping d (t + poll_ms)) false
| AWake l s d wake : (wake <= t)%Z → act t p false l s (Sleeping d wake) l s (Opening d) false
| ALoad l s : act t p false l s Locked l s (Loaded s) false
| APidError l s : act t p true l s Locked l s (Raising false) false
| AIndex l s s0 s' : computed p s0 = Some s' → act t p false l s (Loaded s0) l (put_index (st_index s') s) (Indexed s') true
| ARaise l s s0 : computed p s0 = None → act t p false l s (Loaded s0) l s (Raising false) false
| AIndexError l s s0 : act t p true l s (Loaded s0) l s (Raising false) false
| APointer l s s' : act t p false l s (Indexed s') l (put_pointer (st_pointer s') s) Stored false
| APointerError l s s' : act t p true l s (Indexed s') l s (Raising true) false
| AUnlink l s : act t p false l s Stored false s Released false
| AUnlinkRaising l s w : act t p false l s (Raising w) false s (Failed w) false
| AUnlinkError l s ph : ph = Stored ∨ (∃ w, ph = Raising w) → act t p true l s ph l s (Abandoned true (committed ph)) false
| AKill l s ph : ended ph = false → act t p true l s ph l s (Abandoned (critical ph) (committed ph)) false.

(** Time passes, then one process acts. *)
Inductive lock_step (fault : bool) : lworld → lworld → Prop :=
| LStep t p w ph l s ph' b : (lw_clock w <= t)%Z → lw_procs w !! p = Some ph →
    act t p fault (lw_lock w) (lw_store w) ph l s ph' b →
    lock_step fault w (LWorld l s t (<[p := ph']> (lw_procs w)) (lw_log w ++ if b then [p] else [])).

Definition lock_init (n : nat) (s0 : store) (t0 : Z) : lworld := LWorld false s0 t0 (replicate n Arriving) [].

Inductive lock_reachable (n : nat) (s0 : store) (t0 : Z) : lworld → Prop :=
| lreach_init : lock_reachable n s0 t0 (lock_init n s0 t0)
| lreach_step fault w w' : lock_reachable n s0 t0 w → lock_step fault w w' → lock_reachable n s0 t0 w'.

(** * Invariant *)

Record lock_inv (s0 : store) (t0 : Z) (w : lworld) : Prop := {
  li_mutex : ∀ p q a b, lw_procs w !! p = Some a → lw_procs w !! q = Some b → critical a = true → critical b = true → p = q;
  li_lock : lw_lock w = true ↔ ∃ p a, lw_procs w !! p = Some a ∧ critical a = true;
  li_snapshot : ∀ p s, lw_procs w !! p = Some (Loaded s) → s = lw_store w;
  li_store : st_index (lw_store w) = st_index (foldl (fun s p => run_update p s) s0 (lw_log w));
  li_nodup : NoDup (lw_log w);
  li_log : ∀ p, p ∈ lw_log w ↔ ∃ a, lw_procs w !! p = Some a ∧ committed a = true;
  li_clock : (t0 <= lw_clock w)%Z;
  li_deadline : ∀ p d, lw_procs w !! p = Some (TimedOut d) → (t0 + timeout_ms <= d <= lw_clock w)%Z;
  li_waiting : ∀ p a d, lw_procs w !! p = Some a → a = Opening d ∨ a = Denied d ∨ (∃ k, a = Sleeping d k) → (t0 + timeout_ms <= d)%Z
}.

Lemma lookup_insert_cases {A} (l : list A) p q x y :
  <[p := x]> l !! q = Some y → (q = p ∧ y = x) ∨ (q ≠ p ∧ l !! q = Some y).
Proof.
  destruct (decide (q = p)) as [->|Hne].
  - intros H. left. split; [done|]. apply list_lookup_insert_Some in H as [(_ & -> & _)|[? _]]; done.
  - rewrite list_lookup_insert_ne by done. auto.
Qed.

Ltac lsplit H := let E := fresh in apply lookup_insert_cases in H as [[-> E]|[? H]]; [subst|].

(** What an action does to the lock, the files and the phase. *)
Section act_facts.
Context {t : Z} {p : nat} {fault l : bool} {s : store} {ph : lphase} {l' : bool} {s' : store} {ph' : lphase} {b : bool}.
Context (Hact : act t p fault l s ph l' s' ph' b).

Lemma act_lock :
  (critical ph' = critical ph ∧ l' = l) ∨ (critical ph = false ∧ l = false ∧ critical ph' = true ∧ l' = true)
  ∨ (critical ph = true ∧ critical ph' = false ∧ l' = false).
Proof. destruct Hact as [| | | | | | | | | | | | | | | | |l0 s0 ph0 [->|[w ->]]|]; simpl; tauto. Qed.

Lemma act_store : s' = s ∨ critical ph = true.
Proof. destruct Hact; auto. Qed.

Lemma act_log : if b then committed ph = false ∧ committed ph' = true else committed ph' = committed ph.
Proof. destruct Hact; done. Qed.

Lemma act_loaded x : ph' = Loaded x → x = s ∧ s' = s.
Proof. destruct Hact; intros [=]; auto. Qed.

Lemma act_index :
  if b then ∃ s0 s1, ph = Loaded s0 ∧ computed p s0 = Some s1 ∧ st_index s' = st_index s1 else st_index s' = st_index s.
Proof. destruct Hact; simpl; eauto. Qed.

Definition waits (d : Z) (a : lphase) : Prop := a = Opening d ∨ a = Denied d ∨ ∃ k, a = Sleeping d k.

Lemma act_waits d : waits d ph' → d = (t + timeout_ms)%Z ∨ waits d ph.
Proof. unfold waits. destruct Hact; naive_solver. Qed.

Lemma act_timed_out d : ph' = TimedOut d → ph = Denied d ∧ (d <= t)%Z.
Proof. destruct Hact; intros [=]; by subst. Qed.

End act_facts.

(** An update reads the index file only. *)
Lemma run_update_index p s1 s2 : st_index s1 = st_index s2 → st_index (run_update p s1) = st_index (run_update p s2).
Proof.
  destruct s1 as [f a x], s2 as [g c y]. cbn [st_index]. intros ->. unfold run_update, computed, update_run_index.
  change (load_index json_error (Store g c y)) with (load_index json_error (Store g a x)).
  destruct (load_index json_error (Store g a x)) as [[idx errors]|e]; [|done]. cbn [res_bind].
  repeat (match goal with |- context [res_bind ?m _] => destruct m; cbn [res_bind]; [|done] end).
  by case_match.
Qed.

(** The log after an action of [p]. *)
Lemma log_phase w t p f old l s new b :
  (∀ q, q ∈ lw_log w ↔ ∃ a, lw_procs w !! q = Some a ∧ committed a = true) →
  lw_procs w !! p = Some old → act t p f (lw_lock w) (lw_store w) old l s new b →
  ∀ q, q ∈ lw_log w ++ (if b then [p] else []) ↔ ∃ a, <[p := new]> (lw_procs w) !! q = Some a ∧ committed a = true.
Proof.
  intros Hlog Hold Hact%act_log q. pose proof (lookup_lt_Some _ _ _ Hold) as Hlt.
  rewrite elem_of_app, Hlog. destruct (decide (q = p)) as [->|Hne].
  - rewrite list_lookup_insert_eq by done. destruct b; [set_solver|]. rewrite Hold. set_solver.
  - rewrite list_lookup_insert_ne by done. destruct b; set_solver.
Qed.

(** The lock bit after an action of [p]. *)
Lemma lock_phase w t p f old l s new b :
  (∀ p q a b, lw_procs w !! p = Some a → lw_procs w !! q = Some b → critical a = true → critical b = true → p = q) →
  (lw_lock w = true ↔ ∃ p a, lw_procs w !! p = Some a ∧ critical a = true) →
  lw_procs w !! p = Some old → act t p f (lw_lock w) (lw_store w) old l s new b →
  l = true ↔ ∃ q a, <[p := new]> (lw_procs w) !! q = Some a ∧ critical a = true.
Proof.
  intros Hmx Hlk Hp Hact%act_lock. pose proof (lookup_lt_Some _ _ _ Hp) as Hlt.
  destruct Hact as [[Hc ->]|[(Ho & Hl & Hn & ->)|(Ho & Hn & ->)]].
  - rewrite Hlk. split; intros (q & a & Hq & Ha).
    + destruct (decide (q = p)) as [->|Hne]; [|exists q, a; by rewrite list_lookup_insert_ne].
      exists p, new. rewrite list_lookup_insert_eq by done. split; congruence.
    + lsplit Hq; [exists p, old; split; congruence|by exists q, a].
  - split; [|done]. intros _. exists p, new. by rewrite list_lookup_insert_eq.
  - split; [done|]. intros (q & a & Hq & Ha). lsplit Hq; [congruence|]. by destruct (Hmx p q _ _ Hp Hq).
Qed.

Lemma mutex_phase w t p f old l s new b :
  (∀ p q a b, lw_procs w !! p = Some a → lw_procs w !! q = Some b → critical a = true → critical b = true → p = q) →
  (lw_lock w = true ↔ ∃ p a, lw_procs w !! p = Some a ∧ critical a = true) →
  lw_procs w !! p = Some old → act t p f (lw_lock w) (lw_store w) old l s new b →
  ∀ q q' a c, <[p := new]> (lw_procs w) !! q = Some a → <[p := new]> (lw_procs w) !! q' = Some c →
    critical a = true → critical c = true → q = q'.
Proof.
  intros Hmx Hlk Hp Hact%act_lock.
  assert (∀ q a, q ≠ p → lw_procs w !! q = Some a → critical a = true → critical new = true → False) as Hother.
  { intros q a Hne Hq Ha Hn. destruct Hact as [[Hc _]|[(_ & Hl & _)|(_ & ? & _)]]; [|by rewrite (proj2 Hlk) in Hl by eauto|congruence].
    apply Hne. apply (Hmx q p a old); congruence. }
  intros q q' a c Ha Hc Hca Hcc. lsplit Ha; lsplit Hc; [done|exfalso; eauto..|by eapply Hmx].
Qed.

Lemma lock_step_inv s0 t0 f w w' : lock_inv s0 t0 w → lock_step f w w' → lock_inv s0 t0 w'.
Proof.
  intros [Hmx Hlk Hsn Hst Hnd Hlog Hck Hdl Hwt]. destruct 1 as [t p w ph l s ph' b Ht Hp Hact]. split; cbn [lw_procs lw_lock lw_store lw_log lw_clock].
  - by eapply mutex_phase.
  - by eapply lock_phase.
  - intros q x Hq. lsplit Hq; [by destruct (act_loaded Hact x) as [-> ->]|].
    destruct (act_store Hact) as [->|Hc]; [by eapply Hsn|]. by destruct (Hmx p q _ _ Hp Hq Hc).
  - pose proof (act_index Hact) as Hi. destruct b; [|by rewrite Hi, app_nil_r].
    destruct Hi as (x & s1 & -> & Hcomp & ->). rewrite foldl_snoc, <- (run_update_index p _ _ Hst), <- (Hsn _ _ Hp).
    unfold run_update. by rewrite Hcomp.
  - pose proof (act_log Hact) as Hb. destruct b; [|by rewrite app_nil_r]. apply NoDup_app.
    split_and!; [done| |apply NoDup_singleton]. intros q (a & Ha & Hc)%Hlog. rewrite list_elem_of_singleton.
    intros ->. destruct Hb. congruence.
  - by eapply log_phase.
  - lia.
  - intros q d Hq. lsplit Hq; [|specialize (Hdl q d Hq); lia].
    destruct (act_timed_out Hact d) as [-> Hd]; [done|]. specialize (Hwt p _ d Hp). naive_solver.
  - intros q a d Hq Ha. lsplit Hq; [|by eapply Hwt]. destruct (act_waits Hact d Ha) as [->|Hw]; [lia|by eapply Hwt].
Qed.

Lemma lock_reachable_inv n s0 t0 w : lock_reachable n s0 t0 w → lock_inv s0 t0 w.
Proof.
  induction 1 as [|f w w' _ IH Hs]; [|by eapply lock_step_inv].
  assert (∀ p a, lw_procs (lock_init n s0 t0) !! p = Some a → a = Arriving) as Hw
    by (intros p a Ha; by apply lookup_replicate in Ha as [-> _]).
  split; cbn [lock_init lw_lock lw_store lw_log lw_clock]; try done.
  - intros p q a b Ha%Hw Hb%Hw. by subst.
  - split; [done|]. intros (p & a & Ha%Hw & Hc). by subst.
  - intros p s Ha%Hw. done.
  - constructor.
  - intros p. split; [set_solver|]. intros (a & Ha%Hw & Hc). by subst.
  - intros p d Ha%Hw. done.
  - intros p a d Ha%Hw. naive_solver.
Qed.


(** Updates of the index are serialised.  In every reachable state of any number of
    processes, at most one process is between creating and unlinking the lock file (or was,
    when it was killed), and the index is exactly what running the committed updates one after
    the other, in the order they committed, would have produced: no interleaving of reads and
    writes loses or mixes updates. *)
Theorem index_updates_serialised n s0 t0 w :
  lock_reachable n s0 t0 w →
  (∀ p q a b, lw_procs w !! p = Some a → lw_procs w !! q = Some b → critical a = true → critical b = true → p = q)
  ∧ st_index (lw_store w) = st_index (foldl (fun s p => run_update p s) s0 (lw_log w))
  ∧ NoDup (lw_log w)
  ∧ ∀ p, p ∈ lw_log w ↔ ∃ a, lw_procs w !! p = Some a ∧ committed a = true.
Proof. intros [Hmx _ _ Hst Hnd Hlog _ _ _]%lock_reachable_inv. auto. Qed.




(** * Progress *)

(** The sleeps that still fit before the deadline [d] at time [c]. *)
Definition sleeps_left (d c : Z) : nat := Z.to_nat ((d - c + (poll_ms - 1)) / poll_ms).

Lemma sleeps_left_mono d c c' : (c <= c')%Z → sleeps_left d c' ≤ sleeps_left d c.
Proof. intros H. unfold sleeps_left, poll_ms. Z.to_euclidean_division_equations. lia. Qed.

Lemma sleeps_left_sleep d t : (t < d)%Z → S (sleeps_left d (t + poll_ms)) = sleeps_left d t.
Proof. unfold sleeps_left, poll_ms. intros H. Z.to_euclidean_division_equations. lia. Qed.

(** The actions a process still takes at most, at time [c]. *)
Definition rank (c : Z) (ph : lphase) : nat :=
  match ph with
  | Arriving => 3 * sleeps_left timeout_ms 0 + 6
  | Opening d => 3 * sleeps_left d c + 5
  | Denied d => 3 * sleeps_left d c + 4
  | Sleeping d wake => 3 * sleeps_left d wake + 6
  | Locked => 4 | Loaded _ => 3 | Indexed _ => 2 | Stored | Raising _ => 1
  | Released | Failed _ | TimedOut _ | OpenFailed | Abandoned _ _ => 0
  end.
Definition remaining (w : lworld) : nat := sum_list_with (rank (lw_clock w)) (lw_procs w).

Lemma sum_list_with_update {A} (f : A → nat) (l : list A) p x y :
  l !! p = Some x → sum_list_with f (<[p := y]> l) + f x = sum_list_with f l + f y.
Proof.
  revert p. induction l as [|z l IH]; intros [|p]; simpl; [done..| |].
  - intros [= ->]. lia.
  - intros H%IH. lia.
Qed.

Lemma sum_list_with_le {A} (f g : A → nat) (l : list A) : (∀ x, f x ≤ g x) → sum_list_with f l ≤ sum_list_with g l.
Proof. intros H. induction l as [|x l IH]; simpl; [done|]. specialize (H x). lia. Qed.

Lemma rank_mono c c' ph : (c <= c')%Z → rank c' ph ≤ rank c ph.
Proof. intros H. destruct ph as [|d|d| | | | | | | | | | |]; cbn [rank]; try done; pose proof (sleeps_left_mono d c c' H); lia. Qed.

Lemma act_decreases t p f l s ph l' s' ph' b : act t p f l s ph l' s' ph' b → rank t ph' < rank t ph.
Proof.
  destruct 1 as [| | | | | |l s d Ht|l s d k Ht| | | | | | | | | |l s ph [->|[w ->]]|l s ph Hph]; cbn [rank]; try lia.
  - replace (sleeps_left (t + timeout_ms) t) with (sleeps_left timeout_ms 0); [lia|]. unfold sleeps_left. f_equal. f_equal. lia.
  - pose proof (sleeps_left_sleep d t Ht). lia.
  - pose proof (sleeps_left_mono d k t Ht). lia.
  - destruct ph; try done; cbn [rank]; lia.
Qed.

Lemma lock_step_decreases f w w' : lock_step f w w' → remaining w' < remaining w.
Proof.
  unfold remaining. destruct 1 as [t p w ph l s ph' b Ht Hp Hact]. cbn [lw_procs lw_clock].
  pose proof (sum_list_with_update (rank t) _ _ _ ph' Hp). pose proof (act_decreases _ _ _ _ _ _ _ _ _ _ Hact).
  pose proof (sum_list_with_le (rank t) (rank (lw_clock w)) (lw_procs w) (fun x => rank_mono _ _ x Ht)). lia.
Qed.

(** A step of the system, faulty or not. *)
Definition any_step (w w' : lworld) : Prop := ∃ f, lock_step f w w'.

Lemma lock_steps_bound k w w' : nsteps any_step k w w' → k + remaining w' ≤ remaining w.
Proof. induction 1 as [|k w w1 w' [f Hs] _ IH]; [lia|]. pose proof (lock_step_decreases _ _ _ Hs). lia. Qed.

(** At most 600 sleeps of 50 ms fit in 30 s; a poll is three actions. *)
Definition max_actions : nat := 3 * 600 + 6.

Lemma sum_list_with_replicate {A} (f : A → nat) n x : sum_list_with f (replicate n x) = n * f x.
Proof. induction n as [|n IH]; simpl; [done|]. by rewrite IH. Qed.

Lemma lock_reachable_remaining n s0 t0 w : lock_reachable n s0 t0 w → remaining w ≤ n * max_actions.
Proof.
  induction 1 as [|f w w' _ IH Hs]; [|pose proof (lock_step_decreases _ _ _ Hs); lia].
  unfold remaining, lock_init. cbn [lw_procs lw_clock]. by rewrite sum_list_with_replicate.
Qed.

(** A process that has not ended can act without a fault: it waits for no other process. *)
Lemma lock_progress w p ph : lw_procs w !! p = Some ph → ended ph = false → ∃ w', lock_step false w w'.
Proof.
  intros Hp He.
  assert (∃ t l s ph' b, (lw_clock w <= t)%Z ∧ act t p false (lw_lock w) (lw_store w) ph l s ph' b)
    as (t & l & s & ph' & b & Ht & Hact); [|by eexists; eapply LStep].
  destruct ph as [|d|d|d k| |s| | |w0| | | | |]; try done.
  - exists (lw_clock w). do 4 eexists. split; [lia|constructor].
  - exists (lw_clock w). destruct (lw_lock w); do 4 eexists; (split; [lia|constructor]).
  - exists (Z.max d (lw_clock w)). do 4 eexists. split; [lia|]. apply AGiveUp. lia.
  - exists (Z.max k (lw_clock w)). do 4 eexists. split; [lia|]. apply AWake. lia.
  - exists (lw_clock w). do 4 eexists. split; [lia|constructor].
  - exists (lw_clock w). destruct (computed p s) as [s'|] eqn:E; do 4 eexists; (split; [lia|by econstructor]).
  - exists (lw_clock w). do 4 eexists. split; [lia|constructor].
  - exists (lw_clock w). do 4 eexists. split; [lia|constructor].
  - exists (lw_clock w). do 4 eexists. split; [lia|constructor].
Qed.

(** C7: Concurrent updates finish, whatever fails.  However [n] processes interleave, whatever
    calls raise and whichever processes are killed, they take at most 1806 actions each (600
    polls of three actions, and six): the deadline ends the polling.  Where no process can act
    of itself any more, each has released the lock with its record committed, failed and
    released it, given up, failed to create the lock file, or was cut off; no process gave up
    before its 30 seconds had passed; and the lock file is gone unless a process was cut off
    while it held it. *)
Theorem concurrent_updates_finish n s0 t0 w :
  lock_reachable n s0 t0 w →
  (∀ k w', nsteps any_step k w w' → k ≤ n * max_actions)
  ∧ (∀ p d, lw_procs w !! p = Some (TimedOut d) → (t0 + timeout_ms <= d <= lw_clock w)%Z)
  ∧ ((∀ w', ¬ lock_step false w w') →
     (lw_lock w = true ↔ ∃ p wrote, lw_procs w !! p = Some (Abandoned true wrote))
     ∧ ∀ p a, lw_procs w !! p = Some a →
         (a = Released ∧ p ∈ lw_log w) ∨ (∃ wrote, a = Failed wrote ∧ (wrote = true ↔ p ∈ lw_log w))
         ∨ (∃ d, a = TimedOut d ∧ p ∉ lw_log w) ∨ (a = OpenFailed ∧ p ∉ lw_log w)
         ∨ ∃ held wrote, a = Abandoned held wrote ∧ (wrote = true ↔ p ∈ lw_log w)).
Proof.
  intros Hr. pose proof (lock_reachable_inv _ _ _ _ Hr) as [_ Hlk _ _ _ Hlog _ Hdl _]. split_and!; [|done|].
  - intros k w' Hk%lock_steps_bound. pose proof (lock_reachable_remaining _ _ _ _ Hr). lia.
  - intros Hstuck. assert (∀ p a, lw_procs w !! p = Some a → ended a = true) as Hdone.
    { intros p a Hp. destruct (ended a) eqn:E; [done|]. destruct (lock_progress _ _ _ Hp E) as (w' & Hs). by destruct (Hstuck w'). }
    split.
    + rewrite Hlk. split; [|naive_solver]. intros (p & a & Hp & Hc). exists p. specialize (Hdone p a Hp).
      destruct a as [| | | | | | | | | | | | |held wrote]; try done. exists wrote. by destruct held.
    + intros p a Hp. specialize (Hdone p a Hp). rewrite (Hlog p), Hp. destruct a; try done; naive_solver.
Qed.

End lock.

(** * Witnesses: two processes, the first has committed *)

Definition demo_jobs (p : nat) : string * dict :=
  if (p =? 0)%nat then ("now", demo_record "r0" "t1" "COMPLETE") else ("now", demo_record "r1" "t0" "FAILED").
Definition demo_after : store :=
  match computed no_message demo_root normpath demo_jobs 0 empty_store with Some s => s | None => empty_store end.
Definition demo_indexed : store := put_index (st_index demo_after) empty_store.
Definition demo_stored : lworld := LWorld true (put_pointer (st_pointer demo_after) demo_indexed) 10 [Stored; Arriving] [0].

Notation demo_reach := (lock_reachable no_message demo_root normpath demo_jobs 2 empty_store 0).

(** One step of a demonstration, with the world it leads to given. *)
Lemma demo_step t p ph ph' b w w' :
  demo_reach w → (lw_clock w <= t)%Z → lw_procs w !! p = Some ph →
  act no_message demo_root normpath demo_jobs t p false (lw_lock w) (lw_store w) ph (lw_lock w') (lw_store w') ph' b →
  w' = LWorld (lw_lock w') (lw_store w') t (<[p := ph']> (lw_procs w)) (lw_log w ++ if b then [p] else []) →
  demo_reach w'.
Proof. intros Hr Ht Hp Ha ->. eapply lreach_step; [done|]. by eapply LStep. Qed.

Lemma demo_stored_reachable : demo_reach demo_stored.
Proof.
  apply (demo_step 10 0 (Indexed demo_after) Stored false (LWorld true demo_indexed 10 [Indexed demo_after; Arriving] [0]));
    [|simpl; lia|done|constructor|done].
  apply (demo_step 10 0 (Loaded empty_store) (Indexed demo_after) true (LWorld true empty_store 10 [Loaded empty_store; Arriving] []));
    [|simpl; lia|done|constructor; vm_compute; reflexivity|done].
  apply (demo_step 10 0 Locked (Loaded empty_store) false (LWorld true empty_store 10 [Locked; Arriving] []));
    [|simpl; lia|done|constructor|done].
  apply (demo_step 10 0 (Opening 30010) Locked false (LWorld false empty_store 10 [Opening 30010; Arriving] []));
    [|simpl; lia|done|constructor|done].
  apply (demo_step 10 0 Arriving (Opening 30010) false (lock_init 2 empty_store 0)); [|simpl; lia|done|constructor|done].
  apply lreach_init.
Qed.


(** The second process starts 5 ms later, finds the lock, sleeps, and finds it again half a
    minute later: it gives up; then the first unlinks the lock. *)
Definition demo_finished : lworld := LWorld false (lw_store demo_stored) 30100 [Released; TimedOut 30015] [0].
Lemma demo_finished_reachable : demo_reach demo_finished.
Proof.
  apply (demo_step 30100 0 Stored Released false (LWorld true (lw_store demo_stored) 30090 [Stored; TimedOut 30015] [0]));
    [|simpl; lia|done|constructor|done].
  apply (demo_step 30090 1 (Denied 30015) (TimedOut 30015) false (LWorld true (lw_store demo_stored) 30080 [Stored; Denied 30015] [0]));
    [|simpl; lia|done|constructor; lia|done].
  apply (demo_step 30080 1 (Opening 30015) (Denied 30015) false (LWorld true (lw_store demo_stored) 30070 [Stored; Opening 30015] [0]));
    [|simpl; lia|done|constructor|done].
  apply (demo_step 30070 1 (Sleeping 30015 66) (Opening 30015) false (LWorld true (lw_store demo_stored) 16 [Stored; Sleeping 30015 66] [0]));
    [|simpl; lia|done|constructor; lia|done].
  apply (demo_step 16 1 (Denied 30015) (Sleeping 30015 66) false (LWorld true (lw_store demo_stored) 15 [Stored; Denied 30015] [0]));
    [|simpl; lia|done|by constructor|done].
  apply (demo_step 15 1 (Opening 30015) (Denied 30015) false (LWorld true (lw_store demo_stored) 15 [Stored; Opening 30015] [0]));
    [|simpl; lia|done|constructor|done].
  apply (demo_step 15 1 Arriving (Opening 30015) false demo_stored); [apply demo_stored_reachable|simpl; lia|done|constructor|done].
Qed.

Lemma concurrent_updates_finish_witness :
  lw_lock demo_finished ≠ true ∧ 0 ∈ lw_log demo_finished ∧ 1 ∉ lw_log demo_finished
  ∧ (∀ k w', nsteps (any_step no_message demo_root normpath demo_jobs) k demo_finished w' → k ≤ 2 * max_actions).
Proof.
  destruct (concurrent_updates_finish no_message demo_root normpath demo_jobs 2 empty_store 0 _ demo_finished_reachable)
    as (Hbound & _ & Hend).
  destruct Hend as [Hl Hp].
  - intros w' Hs. pose proof (lock_step_decreases _ _ _ _ _ _ _ Hs) as H. cbn in H. lia.
  - split_and!; [|destruct (Hp 0 Released eq_refl) as [[_ H]|H]; [exact H|naive_solver]
                 |destruct (Hp 1 _ eq_refl) as [[H _]|[H|[(d & _ & H)|H]]]; [discriminate H|naive_solver|exact H|naive_solver]
                 |exact Hbound].
    intros (p & wrote & H)%Hl. destruct p as [|[|p]]; discriminate H.
Defined.
