(* ===== verification/CiEvidence.v ===== *)
(** Provenance-bound evidence bundles of CI jobs ([observability/ci/ci_evidence.py]): what a
    producer writes, and what the aggregator accepts. *)
From S2P Require Import Prelude PyStr PyFloat PyVal Regex Json JsonIndent Hashing PyPath PyText Redaction.

Definition EVIDENCE_SCHEMA_VERSION := "o11y.ci-evidence.v2".
Definition COMMAND_EVIDENCE_SCHEMA_VERSION := "o11y.ci-command-evidence.v1".
Definition MAX_EXCERPT_CHARS : nat := 8192.
Definition MAX_COMMAND_RECORDS : nat := 64.
Definition REQUIRED_CONTEXT_FIELDS : list string :=
  ["repository"; "branch_ref"; "commit_sha"; "workflow"; "run_id"; "run_attempt"].

(** A mapping from strings to strings: environments and contexts. *)
Abbreviation smapping := (list (string * string)).

(** * Digest and context *)

Definition unsigned (value : dict) : dict := filterb (fun kv => negb (bool_decide (kv.1 = "artifact_digest"))) value.
Definition canonical_digest (value : dict) : string := "sha256:" +:+ sha256_hex (dumps true (PDict (unsigned value))).

Definition github_context (env : smapping) : smapping :=
  [("repository", getenv env "GITHUB_REPOSITORY" ""); ("branch_ref", getenv env "GITHUB_REF" "");
   ("commit_sha", getenv env "GITHUB_SHA" ""); ("workflow", getenv env "GITHUB_WORKFLOW" "");
   ("run_id", getenv env "GITHUB_RUN_ID" ""); ("run_attempt", getenv env "GITHUB_RUN_ATTEMPT" "")].
Definition context_dict (c : smapping) : dict := map (fun kv => (kv.1, PStr kv.2)) c.

Definition require_context (context : smapping) : res unit :=
  match filterb (fun f => negb (nonempty (getenv context f ""))) REQUIRED_CONTEXT_FIELDS with
  | [] => Ok tt
  | missing => Raise (ValueError ("missing GitHub context: " +:+ join ", " missing))
  end.

(** One line of [verify_evidence_context]'s loop. *)
Definition check_field (bundle : dict) (expected : smapping) (field : string) : list string :=
  let actual := py_str (dgetd bundle field (PStr "")) in
  let wanted := getenv expected field "" in
  if negb (nonempty actual) || negb (bool_decide (actual = wanted))
  then [field +:+ " mismatch: expected " +:+ repr_str wanted +:+ ", got " +:+ repr_str actual] else [].

Definition verify_evidence_context (bundle : dict) (expected : smapping) : list string :=
  (if py_eqb (dget0 bundle "schema_version") (PStr EVIDENCE_SCHEMA_VERSION) then [] else ["unsupported evidence schema"])
  ++ flat_map (check_field bundle expected) REQUIRED_CONTEXT_FIELDS
  ++ (if negb (py_eqb (dget0 bundle "collector_status") (PStr "COMPLETE")) && dhas "artifact_digest" bundle
      then ["collector did not complete"] else [])
  ++ (if dhas "artifact_digest" bundle && negb (py_eqb (dget0 bundle "artifact_digest") (PStr (canonical_digest bundle)))
      then ["artifact digest mismatch"] else []).

(** * Files *)

Section files.
Context (json_error : string → string).

Definition read_json (f : file) : res dict :=
  match f with
  | Missing => Raise (OSError OsOther 2 "No such file or directory")
  | Unreadable _ msg => Raise (OSError OsOther 0 msg)
  | Content bytes =>
      match utf8_decode bytes with
      | None => Raise (ValueError "UnicodeDecodeError")
      | Some text =>
          match loads text with
          | None => Raise (ValueError (json_error text))
          | Some (PDict d) => Ok d
          | Some _ => Raise (ValueError "evidence JSON must be an object")
          end
      end
  end.
Definition write_json (value : dict) : string := dumps_indent (PDict value) +:+ nl.

(** A directory: [None] when it does not exist, else its entries. *)
Abbreviation directory := (option (list (string * file))).

(** [sorted(path.glob("*.json"))] *)
Definition glob_json (entries : list (string * file)) : list (string * file) :=
  sort_by (fun a b => str_leb a.1 b.1) (filterb (fun e => endswith ".json" e.1) entries).

(** * Producer *)

Definition start_evidence (env : smapping) (job_id job_name now : string) : res string :=
  let context := github_context env in
  let! _ := require_context context in
  Ok (write_json (dupdate ([("schema_version", PStr EVIDENCE_SCHEMA_VERSION)] ++ context_dict context)
        [("job_id", PStr job_id); ("job_name", PStr job_name); ("started_at", PStr now)])).

Definition expected_command (context : smapping) (job_id job_name : string) : smapping :=
  [("schema_version", COMMAND_EVIDENCE_SCHEMA_VERSION); ("repository", getenv context "repository" "");
   ("sha", getenv context "commit_sha" ""); ("workflow_run_id", getenv context "run_id" "");
   ("workflow_run_attempt", getenv context "run_attempt" ""); ("job_id", job_id); ("job_name", job_name)].

Definition load_command_record (context : smapping) (job_id job_name : string) (candidate : string * file) : res pyval :=
  let! record := read_json candidate.2 in
  match filterb (fun kv => negb (py_eqb (dget0 record kv.1) (PStr kv.2))) (expected_command context job_id job_name) with
  | [] => Ok (PDict record)
  | mismatches => Raise (ValueError ("command evidence context mismatch in " +:+ candidate.1 +:+ ": " +:+ join ", " (dkeys mismatches)))
  end.
Definition load_command_records (dir : directory) (context : smapping) (job_id job_name : string) : res (list pyval) :=
  match dir with
  | None => Ok []
  | Some entries => res_mapM (load_command_record context job_id job_name) (take MAX_COMMAND_RECORDS (glob_json entries))
  end.

Definition sorted_set (l : list string) : list string := sort_by str_leb (dedup_first l).

(** The bundle without its digest. *)
Definition evidence_bundle (env : smapping) (job_id job_name step_identity command_identity normalized_status : string)
    (dependencies : list string) (commands : list pyval) (started_at : pyval) (now : string) : dict :=
  let context := github_context env in
  dupdate ([("schema_version", PStr EVIDENCE_SCHEMA_VERSION)] ++ context_dict context)
    [("job_id", PStr job_id); ("job_name", PStr job_name); ("step_identity", PStr step_identity);
     ("started_at", started_at); ("ended_at", PStr now); ("command_identity", PStr command_identity);
     ("exit_status", PStr normalized_status);
     ("normalized_diagnostic",
       PDict [("class", PStr (if bool_decide (normalized_status = "success") then "NONE" else "OBSERVED_FAILURE"));
              ("summary", PStr ("Job " +:+ job_name +:+ " concluded " +:+ normalized_status +:+ "."));
              ("caused_by", PList [])]);
     ("dependencies", PList (map PStr (sorted_set dependencies))); ("commands", PList commands);
     ("collector_status", PStr "COMPLETE");
     ("provenance", PDict [("event_name", PStr (getenv env "GITHUB_EVENT_NAME" ""));
                           ("runner_name", PStr (getenv env "RUNNER_NAME" ""));
                           ("runner_os", PStr (getenv env "RUNNER_OS" ""))])].

(** The bundle and the text of [output_path]. *)
Definition finish_evidence (start : file) (env : smapping) (job_id job_name step_identity command_identity status : string)
    (dependencies : list string) (commands_path : option directory) (now : string) : res (dict * string) :=
  let context := github_context env in
  let! _ := require_context context in
  let! started := read_json start in
  let errors := verify_evidence_context started context
    ++ (if negb (py_eqb (dget0 started "job_id") (PStr job_id)) || negb (py_eqb (dget0 started "job_name") (PStr job_name))
        then ["start marker job identity does not match final evidence"] else []) in
  match errors with
  | _ :: _ => Raise (ValueError (join "; " errors))
  | [] =>
      let normalized_status := lower (strip status) in
      if negb (bool_decide (normalized_status ∈ ["success"; "failure"; "cancelled"; "skipped"]))
      then Raise (ValueError ("unsupported job status: " +:+ repr_str status))
      else
        let! commands := match commands_path with
                         | Some dir => load_command_records dir context job_id job_name
                         | None => Ok []
                         end in
        let! started_at := py_item (PDict started) "started_at" in
        let bundle := evidence_bundle env job_id job_name step_identity command_identity normalized_status
                        dependencies commands started_at now in
        let bundle := dset "artifact_digest" (PStr (canonical_digest bundle)) bundle in
        Ok (bundle, write_json bundle)
  end.

(** * Aggregator side *)

Definition load_bundle (expected : smapping) (candidate : string * file) : sum dict (list string) :=
  match read_json candidate.2 with
  | Raise e => inr [candidate.1 +:+ ": corrupted artifact: " +:+ exn_str e]
  | Ok bundle =>
      match verify_evidence_context bundle expected with
      | [] => inl bundle
      | errors => inr (map (fun m => candidate.1 +:+ ": " +:+ m) errors)
      end
  end.

Definition load_evidence_directory (path : string) (dir : directory) (expected : smapping) : list dict * list string :=
  match dir with
  | None => ([], ["producer evidence directory is missing: " +:+ path])
  | Some entries =>
      let loaded := map (load_bundle expected) (glob_json entries) in
      (flat_map (fun x => match x with inl b => [b] | inr _ => [] end) loaded,
       flat_map (fun x => match x with inl _ => [] | inr es => es end) loaded)
  end.
End files.

Definition safe_key (value : string) : string :=
  let s := strip_by (is_char "-") (re_sub (re_compile "[^A-Za-z0-9_.-]+") (fun _ => "-") value) in
  if nonempty s then s else "unknown".
