(* ===== verification/CiEvidenceFacts.v ===== *)
(** Correctness of CI evidence: a bundle the producer writes is accepted by the aggregator of
    the same workflow run, nothing else is, and the digest binds the content. *)
From S2P Require Import Prelude PyStr PyFloat PyVal Regex Json JsonFacts JsonIndent Hashing PyPath PyText Redaction CiEvidence.

(** * The acceptance test *)

(** What it means for a bundle to belong to a workflow run. *)
Record belongs (bundle : dict) (expected : list (string * string)) : Prop := {
  be_schema : dget0 bundle "schema_version" = PStr EVIDENCE_SCHEMA_VERSION;
  be_fields : ∀ f, f ∈ REQUIRED_CONTEXT_FIELDS →
    nonempty (getenv expected f "") = true ∧ py_str (dgetd bundle f (PStr "")) = getenv expected f "";
  be_digest : dhas "artifact_digest" bundle = true →
    dget0 bundle "collector_status" = PStr "COMPLETE" ∧ dget0 bundle "artifact_digest" = PStr (canonical_digest bundle)
}.

Lemma check_field_nil bundle expected f :
  check_field bundle expected f = [] ↔
  nonempty (getenv expected f "") = true ∧ py_str (dgetd bundle f (PStr "")) = getenv expected f "".
Proof.
  unfold check_field. destruct (nonempty (py_str (dgetd bundle f (PStr "")))) eqn:E; simpl.
  - case_bool_decide as H; simpl; [rewrite <- H, E; done|naive_solver].
  - split; [done|]. intros [H1 H2]. congruence.
Qed.

Lemma verify_nil bundle expected : verify_evidence_context bundle expected = [] ↔ belongs bundle expected.
Proof.
  unfold verify_evidence_context. rewrite !app_nil, flat_map_nil, !py_eqb_PStr. setoid_rewrite check_field_nil.
  split.
  - intros (H1 & H2 & H3 & H4). split.
    + clear -H1. by case_bool_decide.
    + done.
    + intros Hd. rewrite Hd in *. split; [clear -H3|clear -H4]; by case_bool_decide.
  - intros [H1 H2 H3]. rewrite (bool_decide_eq_true_2 _ H1). split_and!; [done|done|..].
    + destruct (dhas "artifact_digest" bundle); [|by rewrite Bool.andb_false_r].
      destruct (H3 eq_refl) as [Hc _]. by rewrite (bool_decide_eq_true_2 _ Hc).
    + destruct (dhas "artifact_digest" bundle); [|done].
      destruct (H3 eq_refl) as [_ Hd]. by rewrite (bool_decide_eq_true_2 _ Hd).
Qed.

(** The acceptance test rejects exactly what it should: evidence is accepted if and only
    if it has the supported schema, agrees on repository, ref, commit, workflow, run and
    attempt with the aggregator's own non-empty context, and, when it is final evidence,
    says the collector completed and carries the digest of its own content. *)
Theorem verify_iff_belongs bundle expected : verify_evidence_context bundle expected = [] ↔ belongs bundle expected.
Proof. apply verify_nil. Qed.

(** * The digest *)

Lemma unsigned_perm d e : d ≡ₚ e → unsigned d ≡ₚ unsigned e.
Proof. unfold unsigned. by intros ->. Qed.

Lemma dkeys_unsigned_NoDup d : NoDup (dkeys d) → NoDup (dkeys (unsigned d)).
Proof. apply NoDup_map_filterb. Qed.

Lemma unsigned_canon (d : dict) :
  unsigned (map (fun kv => (kv.1, canon kv.2)) d) = map (fun kv => (kv.1, canon kv.2)) (unsigned d).
Proof.
  unfold unsigned, filterb. induction d as [|[k v] d IH]; [done|]. cbn [map List.filter fst]. rewrite IH.
  by destruct (negb (bool_decide (k = "artifact_digest"))).
Qed.

Definition canon_dict (d : dict) : dict := sort_keys (map (fun kv => (kv.1, canon kv.2)) d).

(** The digest does not depend on the order of keys, so it survives the file. *)
Lemma digest_canon d : NoDup (dkeys d) → canonical_digest (canon_dict d) = canonical_digest d.
Proof.
  intros Hnd. unfold canonical_digest. do 2 f_equal.
  rewrite <- (dumps_canon true (PDict (unsigned d))). cbn [canon].
  transitivity (dumps true (PDict (map (fun kv => (kv.1, canon kv.2)) (unsigned d)))).
  - apply dumps_perm; [apply dkeys_unsigned_NoDup, sort_keys_NoDup; by rewrite dkeys_canon|].
    rewrite <- unsigned_canon. apply unsigned_perm. apply sort_keys_perm.
  - apply dumps_perm; [rewrite dkeys_canon; by apply dkeys_unsigned_NoDup|]. symmetry. apply sort_keys_perm.
Qed.

Lemma unsigned_dset_digest v d : dhas "artifact_digest" d = false → unsigned (dset "artifact_digest" v d) = unsigned d.
Proof.
  intros H. rewrite dset_new.
  - unfold unsigned, filterb. rewrite List.filter_app. simpl. by rewrite app_nil_r.
  - unfold dhas in H. destruct (dget "artifact_digest" d) eqn:E; [done|]. by apply dget_None in E.
Qed.

(** The digest binds the content: two bundles with the same digest are the same JSON
    document apart from the digest field, or else two different texts with one SHA-256 value
    are at hand. *)
Theorem digest_binds_content a b :
  jsonable (PDict a) = true → wf_val (PDict a) → ascii_val (PDict a) = true →
  jsonable (PDict b) = true → wf_val (PDict b) → ascii_val (PDict b) = true →
  canonical_digest a = canonical_digest b →
  canon (PDict (unsigned a)) = canon (PDict (unsigned b)) ∨ ∃ x y, x ≠ y ∧ sha256_hex x = sha256_hex y.
Proof.
  intros Hja Hwa Haa Hjb Hwb Hab H. unfold canonical_digest in H.
  assert (sha256_hex (dumps true (PDict (unsigned a))) = sha256_hex (dumps true (PDict (unsigned b)))) as Hs.
  { by apply (inj (String.append "sha256:")) in H. }
  destruct (decide (dumps true (PDict (unsigned a)) = dumps true (PDict (unsigned b)))) as [Heq|Hne]; [|right; eauto].
  left.
  assert (∀ d, jsonable (PDict d) = true → wf_val (PDict d) → ascii_val (PDict d) = true →
    jsonable (PDict (unsigned d)) = true ∧ wf_val (PDict (unsigned d)) ∧ ascii_val (PDict (unsigned d)) = true) as Hun.
  { intros d Hj [Hn Hw]%wf_PDict Ha. cbn [jsonable ascii_val] in *. rewrite forallb_forall in Hj, Ha. split_and!.
    - apply forallb_forall. intros x [Hx _]%list_elem_of_In%elem_of_filterb. by apply Hj, list_elem_of_In.
    - apply wf_PDict. split; [by apply dkeys_unsigned_NoDup|]. rewrite Forall_forall in *.
      intros x [Hx _]%elem_of_filterb. by apply Hw.
    - apply forallb_forall. intros x [Hx _]%list_elem_of_In%elem_of_filterb. by apply Ha, list_elem_of_In. }
  destruct (Hun a) as (? & ? & ?); [done..|]. destruct (Hun b) as (? & ? & ?); [done..|].
  rewrite !dumps_ascii in Heq by done. by apply dumps_inj.
Qed.

(** * Producer to aggregator *)

Lemma dget_canon_dict k d : NoDup (dkeys d) → dget k (canon_dict d) = canon <$> dget k d.
Proof. apply dget_canon. Qed.

Lemma require_context_Ok c : require_context c = Ok tt → ∀ f, f ∈ REQUIRED_CONTEXT_FIELDS → nonempty (getenv c f "") = true.
Proof.
  unfold require_context. destruct (filterb _ _) as [|x l] eqn:E; [|done]. intros _ f Hf.
  destruct (nonempty (getenv c f "")) eqn:Hn; [done|]. exfalso.
  assert (f ∈ filterb (fun f => negb (nonempty (getenv c f ""))) REQUIRED_CONTEXT_FIELDS) as Hin
    by (apply elem_of_filterb; by rewrite Hn). rewrite E in Hin. set_solver.
Qed.

(** Verification only reads strings and the digest, so it is invariant under the file. *)
Lemma belongs_canon d expected : wf_val (PDict d) → belongs d expected →
  (∀ f, f ∈ REQUIRED_CONTEXT_FIELDS → ∃ s, dget f d = Some (PStr s)) → belongs (canon_dict d) expected.
Proof.
  intros [Hnd Hw]%wf_PDict [Hs Hf Hd] Hstr.
  assert (∀ k s, dget0 d k = PStr s → dget0 (canon_dict d) k = PStr s) as Hget.
  { intros k s. unfold dget0, dgetd. rewrite dget_canon_dict by done. destruct (dget k d); simpl; congruence || by intros ->. }
  split.
  - by apply Hget.
  - intros f Hin. destruct (Hf f Hin) as [Hn Heq]. split; [done|]. destruct (Hstr f Hin) as [s Hk].
    unfold dgetd in *. rewrite dget_canon_dict, Hk by done. by rewrite Hk in Heq.
  - intros Hhas. rewrite digest_canon by done.
    assert (dhas "artifact_digest" d = true) as Hhd.
    { unfold dhas in *. rewrite dget_canon_dict in Hhas by done. by destruct (dget "artifact_digest" d). }
    destruct (Hd Hhd) as [Hc Hdig]. split; by apply Hget.
Qed.

Lemma bundle_context_field env job_id job_name step cmd status deps commands sa now f :
  f ∈ REQUIRED_CONTEXT_FIELDS →
  dget f (evidence_bundle env job_id job_name step cmd status deps commands sa now)
  = Some (PStr (getenv (github_context env) f "")) ∧ f ≠ "artifact_digest".
Proof.
  intros Hf. unfold REQUIRED_CONTEXT_FIELDS in Hf.
  do 6 (apply elem_of_cons in Hf as [->|Hf]; [split; [reflexivity|discriminate]|]). by apply elem_of_nil in Hf.
Qed.

(** The bundle [finish_evidence] builds, before and after signing. *)
Lemma finish_evidence_belongs json_error start env job_id job_name step cmd status deps dir now bundle text :
  finish_evidence json_error start env job_id job_name step cmd status deps dir now = Ok (bundle, text) →
  text = write_json bundle ∧ belongs bundle (github_context env)
  ∧ ∀ f, f ∈ REQUIRED_CONTEXT_FIELDS → ∃ s, dget f bundle = Some (PStr s).
Proof.
  unfold finish_evidence. intros ([] & Hreq & (started & _ & H)%res_bind_Ok)%res_bind_Ok.
  pose proof (require_context_Ok _ Hreq) as Hctx.
  destruct (_ ++ _); [|done]. destruct (negb _) eqn:Hst; [done|].
  apply res_bind_Ok in H as (commands & _ & (sa & _ & H)%res_bind_Ok).
  set (unsg := evidence_bundle _ _ _ _ _ _ _ _ _ _) in H.
  assert (text = write_json bundle ∧ bundle = dset "artifact_digest" (PStr (canonical_digest unsg)) unsg) as [-> ->]
    by (split; congruence).
  assert (dhas "artifact_digest" unsg = false) as Hno by reflexivity.
  assert (∀ f s, dget f unsg = Some (PStr s) → f ≠ "artifact_digest" →
          dget f (dset "artifact_digest" (PStr (canonical_digest unsg)) unsg) = Some (PStr s)) as Hk
    by (intros f s Hf Hne; by rewrite dget_dset_ne).
  pose proof (fun f Hf => bundle_context_field env job_id job_name step cmd (lower (strip status)) deps commands sa now f Hf) as Hfields.
  fold unsg in Hfields.
  split_and!; [done| |].
  - split.
    + unfold dget0, dgetd. by rewrite (Hk "schema_version" EVIDENCE_SCHEMA_VERSION).
    + intros f Hf. split; [by apply Hctx|]. destruct (Hfields f Hf) as [Hg Hne]. unfold dgetd. by rewrite (Hk _ _ Hg Hne).
    + intros _. unfold dget0, dgetd. rewrite dget_dset_eq. split; [by rewrite (Hk "collector_status" "COMPLETE")|].
      unfold canonical_digest at 2. by rewrite unsigned_dset_digest.
  - intros f Hf. destruct (Hfields f Hf) as [Hg Hne]. eexists. by apply Hk.
Qed.

Lemma read_write_json json_error d :
  jsonable (PDict d) = true → wf_val (PDict d) → ascii_val (PDict d) = true →
  read_json json_error (Content (write_json d)) = Ok (canon_dict d).
Proof.
  intros Hj Hw Ha. unfold read_json, write_json. rewrite utf8_decode_ascii.
  - by rewrite loads_dumps_indent by auto.
  - unfold is_ascii_str. rewrite sall_app. apply Bool.andb_true_iff. split; [by apply dumps_indent_ascii|done].
Qed.

(** C10: Evidence survives the trip from job to aggregator: when a producer finishes, the
    file it wrote, read back and checked against the same workflow context, is accepted
    without errors and is the bundle it built (as JSON).  The bundle's text is ASCII and has
    no floats, which the hypotheses say of the loaded command records too. *)
Theorem finished_evidence_accepted json_error start env job_id job_name step cmd status deps dir now bundle text name :
  finish_evidence json_error start env job_id job_name step cmd status deps dir now = Ok (bundle, text) →
  jsonable (PDict bundle) = true → wf_val (PDict bundle) → ascii_val (PDict bundle) = true →
  load_bundle json_error (github_context env) (name, Content text) = inl (canon_dict bundle).
Proof.
  intros H Hj Hw Ha. destruct (finish_evidence_belongs _ _ _ _ _ _ _ _ _ _ _ _ _ H) as (-> & Hb & Hs).
  unfold load_bundle. cbn [snd]. rewrite read_write_json by done.
  by rewrite (proj2 (verify_nil _ _) (belongs_canon _ _ Hw Hb Hs)).
Qed.

(** * The evidence directory *)

Lemma glob_json_elem entries e : e ∈ glob_json entries ↔ e ∈ entries ∧ endswith ".json" e.1 = true.
Proof. unfold glob_json. by rewrite sort_by_perm, elem_of_filterb. Qed.

Lemma load_bundle_inl json_error expected e b :
  load_bundle json_error expected e = inl b ↔ read_json json_error e.2 = Ok b ∧ belongs b expected.
Proof.
  unfold load_bundle. rewrite <- verify_nil. destruct (read_json json_error e.2) as [d|x].
  - destruct (verify_evidence_context d expected) eqn:E; [|naive_solver congruence].
    split; [intros [= <-]; done|intros [[= ->] _]; done].
  - naive_solver.
Qed.

Lemma load_bundle_inr json_error expected e es : load_bundle json_error expected e = inr es → es ≠ [].
Proof.
  unfold load_bundle. destruct (read_json json_error e.2) as [d|x]; [|by intros [= <-]].
  destruct (verify_evidence_context d expected); [done|by intros [= <-]].
Qed.

Lemma load_evidence_spec json_error path entries expected :
  let '(evidence, errors) := load_evidence_directory json_error path (Some entries) expected in
  (∀ b, b ∈ evidence ↔ ∃ name f, (name, f) ∈ entries ∧ endswith ".json" name = true
                                  ∧ read_json json_error f = Ok b ∧ belongs b expected)
  ∧ (errors = [] ↔ ∀ name f, (name, f) ∈ entries → endswith ".json" name = true →
                     ∃ b, read_json json_error f = Ok b ∧ belongs b expected).
Proof.
  unfold load_evidence_directory. split.
  - intros b. rewrite list_elem_of_In, in_flat_map. split.
    + intros ([b'|es] & Hin & Hb); [|done]. destruct Hb as [->|[]]. apply in_map_iff in Hin as ([name f] & Hl & Hin).
      apply list_elem_of_In, glob_json_elem in Hin as [Hin Hname]. apply load_bundle_inl in Hl as [Hr Hb].
      by exists name, f.
    + intros (name & f & Hin & Hname & Hr & Hb). exists (inl b). split; [|by left]. apply in_map_iff.
      exists (name, f). split; [by apply load_bundle_inl|]. apply list_elem_of_In, glob_json_elem. done.
  - rewrite flat_map_nil. split.
    + intros H name f Hin Hname. destruct (load_bundle json_error expected (name, f)) as [b|es] eqn:E.
      * exists b. by apply load_bundle_inl in E.
      * exfalso. eapply load_bundle_inr; [exact E|]. apply (H (inr es)). rewrite <- E.
        apply list_elem_of_fmap_2, glob_json_elem. done.
    + intros H x ([name f] & -> & [Hin Hname]%glob_json_elem)%list_elem_of_fmap.
      destruct (H name f Hin Hname) as (b & Hb). by rewrite (proj2 (load_bundle_inl _ _ (name, f) b) Hb).
Qed.

(** Loading the evidence directory is sound, complete and never raises: a bundle is
    loaded exactly when it is the content of a [.json] file that parses and belongs to this
    workflow run, and the error list is empty exactly when every [.json] file is such a
    bundle, so a corrupted, tampered or foreign file is always reported. *)
Theorem load_evidence_sound_complete json_error path entries expected :
  let '(evidence, errors) := load_evidence_directory json_error path (Some entries) expected in
  (∀ b, b ∈ evidence ↔ ∃ name f, (name, f) ∈ entries ∧ endswith ".json" name = true
                                  ∧ read_json json_error f = Ok b ∧ belongs b expected)
  ∧ (errors = [] ↔ ∀ name f, (name, f) ∈ entries → endswith ".json" name = true →
                     ∃ b, read_json json_error f = Ok b ∧ belongs b expected).
Proof. apply load_evidence_spec. Qed.

(** * Command records *)

Lemma res_mapM_elem {A B} (f : A → res B) l r : res_mapM f l = Ok r → ∀ y, y ∈ r → ∃ x, x ∈ l ∧ f x = Ok y.
Proof.
  revert r. induction l as [|x l IH]; intros r; simpl; [intros [= <-]; set_solver|].
  intros (y & Hy & (r' & Hr & [= <-])%res_bind_Ok)%res_bind_Ok z [->|Hz]%elem_of_cons.
  - exists x. split; [set_solver|done].
  - destruct (IH r' Hr z Hz) as (x' & Hx & Hf). exists x'. split; [set_solver|done].
Qed.

(** A job's evidence carries only its own commands: every command record that is loaded
    names this repository, commit, workflow run, attempt and job, and at most
    [MAX_COMMAND_RECORDS] of them are taken; a record of another job or run stops the
    producer with an error. *)
Theorem command_records_bound json_error dir context job_id job_name records :
  load_command_records json_error dir context job_id job_name = Ok records →
  length records ≤ MAX_COMMAND_RECORDS
  ∧ ∀ r, r ∈ records → ∃ d, r = PDict d
      ∧ ∀ k v, (k, v) ∈ expected_command context job_id job_name → dget0 d k = PStr v.
Proof.
  unfold load_command_records. destruct dir as [entries|]; [|intros [= <-]; split; [simpl; lia|set_solver]].
  intros H. split.
  - assert (∀ (l : list (string * file)) r, res_mapM (load_command_record json_error context job_id job_name) l = Ok r → length r = length l) as Hlen.
    { intros l. induction l as [|x l IH]; intros r; simpl; [by intros [= <-]|].
      intros (y & _ & (r' & Hr & [= <-])%res_bind_Ok)%res_bind_Ok. simpl. by rewrite (IH r'). }
    rewrite (Hlen _ _ H), length_take. lia.
  - intros r Hr. destruct (res_mapM_elem _ _ _ H r Hr) as ([name f] & _ & Hload). unfold load_command_record in Hload.
    apply res_bind_Ok in Hload as (d & _ & Hd). cbn [fst snd] in Hd.
    destruct (filterb _ _) as [|x l] eqn:E; [|done]. injection Hd as <-. exists d. split; [done|]. intros k v Hin.
    destruct (py_eqb (dget0 d k) (PStr v)) eqn:Heq; [rewrite py_eqb_PStr in Heq; by apply bool_decide_eq_true in Heq|].
    exfalso. assert ((k, v) ∈ filterb (fun kv => negb (py_eqb (dget0 d kv.1) (PStr kv.2))) (expected_command context job_id job_name)) as Hbad
      by (apply elem_of_filterb; split; [done|]; cbn [fst snd]; by rewrite Heq).
    rewrite E in Hbad. set_solver.
Qed.

(** * Witnesses *)

Definition demo_env : list (string * string) :=
  [("GITHUB_REPOSITORY", "eve/trade"); ("GITHUB_REF", "refs/heads/main"); ("GITHUB_SHA", "a1"); ("GITHUB_WORKFLOW", "ci");
   ("GITHUB_RUN_ID", "7"); ("GITHUB_RUN_ATTEMPT", "1")].
Definition no_json_error (s : string) : string := "".
Definition demo_start_file : file :=
  Content (match start_evidence demo_env "go" "Go" "t0" with Ok t => t | Raise _ => "" end).
Definition demo_finish : res (dict * string) :=
  finish_evidence no_json_error demo_start_file demo_env "go" "Go" "step" "cmd" "success" ["proto"] None "t1".
Definition demo_bundle : dict := match demo_finish with Ok (b, _) => b | Raise _ => [] end.
Definition demo_text : string := match demo_finish with Ok (_, t) => t | Raise _ => "" end.

Lemma finished_evidence_accepted_witness :
  load_bundle no_json_error (github_context demo_env) ("go.json", Content demo_text) = inl (canon_dict demo_bundle).
Proof.
  apply (finished_evidence_accepted no_json_error demo_start_file demo_env "go" "Go" "step" "cmd" "success" ["proto"] None "t1");
    [vm_compute; reflexivity|vm_compute; reflexivity|apply wf_valb_wf; vm_compute; reflexivity|vm_compute; reflexivity].
Defined.

Lemma digest_binds_content_witness :
  canon (PDict (unsigned demo_bundle)) = canon (PDict (unsigned (canon_dict demo_bundle)))
  ∨ ∃ x y, x ≠ y ∧ sha256_hex x = sha256_hex y.
Proof.
  apply (digest_binds_content demo_bundle (canon_dict demo_bundle));
    [vm_compute; reflexivity|apply wf_valb_wf; vm_compute; reflexivity|vm_compute; reflexivity
    |vm_compute; reflexivity|apply wf_valb_wf; vm_compute; reflexivity|vm_compute; reflexivity|vm_compute; reflexivity].
Defined.

Definition demo_command : dict :=
  map (fun kv => (kv.1, PStr kv.2)) (expected_command (github_context demo_env) "go" "Go").

Lemma command_records_bound_witness :
  length [PDict (canon_dict demo_command)] ≤ MAX_COMMAND_RECORDS.
Proof.
  apply (command_records_bound no_json_error (Some [("001.json", Content (write_json demo_command))])
           (github_context demo_env) "go" "Go"). vm_compute. reflexivity.
Defined.
