(* ===== verification/CiCommands.v ===== *)
(** Evidence of one command ([observability/ci/ci_evidence.py], [run_command_evidence] and its
    helpers): bounded excerpts and structured diagnostics of the redacted output. *)
From S2P Require Import Prelude PyStr PyFloat PyVal Regex Json JsonIndent Hashing PyPath PyText Redaction CiEvidence.

(** * Excerpts *)

Definition half_of (limit : nat) : nat := Z.to_nat (Z.max 1 ((Z.of_nat limit - 80) / 2)).
Definition bounded_excerpt (value : string) (limit : nat) : string :=
  if (ulen value <=? limit)%nat then value
  else
    let half := half_of limit in
    let omitted := (Z.of_nat (ulen value) - Z.of_nat half * 2)%Z in
    utake half value +:+ nl +:+ "... <" +:+ str_of_Z omitted +:+ " characters omitted> ..." +:+ nl +:+ ulast half value.

Definition first_diagnostic_line (value : string) : string :=
  utake 512 (default "command exited nonzero" (find_first nonempty (map strip (splitlines value)))).

(** * Structured diagnostics *)

Definition rest_of (m : rmatch) : string := implode (m_end m).2.
Definition upto (sub s : string) : string := match find_sub sub s with Some n => stake n s | None => s end.

(** Lines that are JSON objects with a [rule_id]. *)
Definition diag_architecture (combined : string) : list dict :=
  flat_map (fun line =>
    match loads line with
    | Some (PDict parsed) => if truthy (dget0 parsed "rule_id") then [dupdate [("type", PStr "architecture")] parsed] else []
    | _ => []
    end) (splitlines combined).

Definition TERRAFORM_ERROR : regex := re_compile "(?m)^Error:\s*(?P<summary>.+)$".
Definition TERRAFORM_ADDRESS : regex := re_compile
  ("registry\.terraform\.io/[A-Za-z0-9_.-]+/[A-Za-z0-9_.-]+|module\.[A-Za-z0-9_.\[\]\" +:+ dq +:+ "-]+").
Definition diag_terraform (combined : string) : list dict :=
  map (fun m =>
    let detail := strip (upto (nl +:+ "Error:") (rest_of m)) in
    [("type", PStr "terraform"); ("severity", PStr "error"); ("summary", PStr (strip (groupd m 1)));
     ("detail", PStr (bounded_excerpt detail 2048));
     ("address", PStr (match re_search TERRAFORM_ADDRESS detail with Some a => group0 a | None => "" end))])
    (re_finditer TERRAFORM_ERROR combined).

Definition BUF_DIFF : regex := re_compile "(?m)^(?:diff -u\s+\S+\.orig\s+|\+\+\+\s+)(?P<path>\S+)".
Definition diag_buf (combined : string) : list dict :=
  let paths := filterb (fun p => negb (bool_decide (p = "/dev/null")))
                 (map (fun m => removesuffix ".orig" (groupd m 1)) (re_finditer BUF_DIFF combined)) in
  map (fun path => [("type", PStr "buf_format"); ("path", PStr path)]) (sorted_set paths).

Definition VULN_ID : regex := re_compile "GO-\d{4}-\d+".
Definition FIXED_IN : regex := re_compile "(?m)^\s*Fixed in:\s*(\S+)".
Definition FOUND_IN : regex := re_compile "(?m)^\s*Found in:\s*(\S+)".
Definition TRACES : regex := re_compile "(?m)^\s*(?:Example traces found|Call traces):\s*$".
Definition GO_TOOLCHAIN : regex := re_compile "@go\d+\.\d+(?:\.\d+)?$".

(** The loop over the lines after a trace heading, at most 20 of them. *)
Fixpoint trace_lines (acc : list string) (lines : list string) : list string :=
  match lines with
  | [] => acc
  | line :: lines' =>
      let stripped := strip line in
      if negb (nonempty stripped) then trace_lines acc lines'
      else if startswith "More info:" stripped || startswith "Symbols:" stripped || startswith "Your code is affected" stripped
      then acc
      else
        let acc := acc ++ [utake 512 stripped] in
        if (length acc =? 20)%nat then acc else trace_lines acc lines'
  end.

Definition vuln_section (combined id : string) (next : option string) : string :=
  let from := match find_sub id combined with Some n => sdrop n combined | None => "" end in
  match next with
  | Some id' => match find_sub id' (sdrop (String.length id) from) with
                | Some n => stake (String.length id + n) from
                | None => from
                end
  | None => from
  end.
Definition diag_vuln (combined id : string) (next : option string) : dict :=
  let section := vuln_section combined id next in
  let affected := match re_search FOUND_IN section with Some m => groupd m 1 | None => "" end in
  let fixed := match re_search FIXED_IN section with Some m => groupd m 1 | None => "" end in
  [("type", PStr "govulncheck"); ("vulnerability_id", PStr id);
   ("fixed_version", PStr (match rsplit1 "@" fixed with Some (_, v) => v | None => fixed end));
   ("package", PStr (match rsplit1 "@" affected with Some (p, _) => p | None => affected end));
   ("module", PStr (if re_test GO_TOOLCHAIN affected then "standard-library" else ""));
   ("reachable", PBool true);
   ("call_traces", PList (map PStr (match re_search TRACES section with
                                    | Some m => trace_lines [] (splitlines (rest_of m))
                                    | None => []
                                    end)))].
Fixpoint diag_vulns (combined : string) (ids : list string) : list dict :=
  match ids with
  | [] => []
  | id :: ids' => diag_vuln combined id (head ids') :: diag_vulns combined ids'
  end.
Definition diag_govulncheck (combined : string) : list dict :=
  diag_vulns combined (dedup_first (map group0 (re_finditer VULN_ID combined))).

Definition MISSING_MODULE : regex := re_compile ("Cannot find module ['\" +:+ dq +:+ "]([^'\" +:+ dq +:+ "]+)").
Definition diag_gui (combined : string) (exit_code : Z) : list dict :=
  match re_search MISSING_MODULE combined with
  | Some m => [[("type", PStr "gui"); ("category", PStr "missing_package"); ("package", PStr (groupd m 1))]]
  | None =>
      if negb (exit_code =? 0)%Z && nonempty (strip combined)
      then [[("type", PStr "gui"); ("category", PStr "test_failure"); ("message", PStr (first_diagnostic_line combined))]]
      else []
  end.

Definition E2E_SUMMARY : regex := re_compile "(?m)^E2E_SUMMARY=(\{.*\})$".
Definition diag_e2e (combined : string) : list dict :=
  flat_map (fun m =>
    match loads (groupd m 1) with
    | Some (PDict summary) => [dupdate [("type", PStr "e2e")] summary]
    | _ => []
    end) (re_finditer E2E_SUMMARY combined).

Definition structured_diagnostics (step_name command stdout stderr : string) (exit_code : Z) : list dict :=
  let combined := stdout +:+ nl +:+ stderr in
  let lowered := lower (step_name +:+ " " +:+ command) in
  let mentions word := contains word lowered in
  let diagnostics :=
    (if mentions "architecture" then diag_architecture combined else [])
    ++ (if mentions "terraform" then diag_terraform combined else [])
    ++ (if mentions "buf" then diag_buf combined else [])
    ++ (if mentions "govulncheck" || mentions "vulnerability audit" then diag_govulncheck combined else [])
    ++ (if mentions "gui" || mentions "pnpm" then diag_gui combined exit_code else [])
    ++ diag_e2e combined in
  if negb (exit_code =? 0)%Z && (match diagnostics with [] => true | _ => false end)
  then [[("type", PStr "command_failure"); ("message", PStr (first_diagnostic_line combined))]]
  else diagnostics.

(** * Running a command *)

(** [subprocess.run(..., capture_output=True, text=True)]: decoded output, or an [OSError]. *)
Inductive captured : Type :=
| Captured (rc : Z) (stdout stderr : string)
| CaptureError (message : string).

Record command_run : Type := CommandRun {
  cr_exit : Z; cr_printed_out : string; cr_printed_err : string; cr_record : dict
}.

Definition with_newline (s : string) : string := if nonempty s then (if endswith nl s then s else s +:+ nl) else "".

Definition run_command_evidence (env : list (string * string)) (job_id job_name step_name command : string)
    (outcome : captured) (started_at finished_at : string) : res command_run :=
  let context := github_context env in
  let! _ := require_context context in
  let '(exit_code, stdout, stderr) :=
    match outcome with
    | Captured rc out err => (rc, out, err)
    | CaptureError message => (127%Z, "", message)
    end in
  let redacted_stdout := redact_text stdout in
  let redacted_stderr := redact_text stderr in
  Ok (CommandRun exit_code (with_newline redacted_stdout) (with_newline redacted_stderr)
    [("schema_version", PStr COMMAND_EVIDENCE_SCHEMA_VERSION); ("repository", PStr (getenv context "repository" ""));
     ("sha", PStr (getenv context "commit_sha" "")); ("workflow_run_id", PStr (getenv context "run_id" ""));
     ("workflow_run_attempt", PStr (getenv context "run_attempt" "")); ("job_id", PStr job_id); ("job_name", PStr job_name);
     ("step_name", PStr step_name); ("command", PStr (redact_text command)); ("started_at", PStr started_at);
     ("finished_at", PStr finished_at); ("exit_code", PInt exit_code);
     ("stdout_excerpt", PStr (bounded_excerpt redacted_stdout MAX_EXCERPT_CHARS));
     ("stderr_excerpt", PStr (bounded_excerpt redacted_stderr MAX_EXCERPT_CHARS));
     ("diagnostics", PList (map PDict (take 128
        (structured_diagnostics step_name command redacted_stdout redacted_stderr exit_code))))]).

(** * Behaviour on the shapes of output the tools print *)

Example terraform_ex :
  diag_terraform ("noise" +:+ nl +:+ "Error: Inconsistent lock" +:+ nl +:+ "  registry.terraform.io/hashicorp/aws: no" +:+ nl
                  +:+ "Error: Second")
  = [[("type", PStr "terraform"); ("severity", PStr "error"); ("summary", PStr "Inconsistent lock");
      ("detail", PStr "registry.terraform.io/hashicorp/aws: no"); ("address", PStr "registry.terraform.io/hashicorp/aws")];
     [("type", PStr "terraform"); ("severity", PStr "error"); ("summary", PStr "Second"); ("detail", PStr "");
      ("address", PStr "")]].
Proof. vm_compute. reflexivity. Qed.
Example buf_ex :
  diag_buf ("diff -u api/b.proto.orig api/b.proto" +:+ nl +:+ "--- x" +:+ nl +:+ "+++ api/a.proto" +:+ nl +:+ "+++ /dev/null")
  = [[("type", PStr "buf_format"); ("path", PStr "api/a.proto")]; [("type", PStr "buf_format"); ("path", PStr "api/b.proto")]].
Proof. vm_compute. reflexivity. Qed.
Example vuln_ex :
  diag_govulncheck ("GO-2024-1" +:+ nl +:+ "  Found in: net/http@go1.22.1" +:+ nl +:+ "  Fixed in: net/http@go1.22.5" +:+ nl
    +:+ "  Example traces found:" +:+ nl +:+ "    #1: main.go" +:+ nl +:+ "GO-2024-2" +:+ nl +:+ " Found in: x/y@v1")
  = [[("type", PStr "govulncheck"); ("vulnerability_id", PStr "GO-2024-1"); ("fixed_version", PStr "go1.22.5");
      ("package", PStr "net/http"); ("module", PStr "standard-library"); ("reachable", PBool true);
      ("call_traces", PList [PStr "#1: main.go"])];
     [("type", PStr "govulncheck"); ("vulnerability_id", PStr "GO-2024-2"); ("fixed_version", PStr "");
      ("package", PStr "x/y"); ("module", PStr ""); ("reachable", PBool true); ("call_traces", PList [])]].
Proof. vm_compute. reflexivity. Qed.
Example gui_ex :
  diag_gui "Error: Cannot find module 'vite' at" 1 = [[("type", PStr "gui"); ("category", PStr "missing_package"); ("package", PStr "vite")]].
Proof. vm_compute. reflexivity. Qed.
