(* ===== verification/CiCommandsFacts.v ===== *)
(** Correctness of command evidence: excerpts are bounded, a failing command always has a
    diagnostic, and the record is accepted as evidence of its own job. *)
From S2P Require Import Prelude PyStr PyFloat PyVal Regex Json JsonFacts JsonIndent Hashing PyPath PyText Redaction CiEvidence CiEvidenceFacts CiCommands.

(** * Lengths in characters *)

(** Bytes that begin a character. *)
Definition leads (t : text) : nat := length (filterb (fun c => negb (is_cont c)) t).

Lemma leads_app a b : leads (a ++ b) = leads a + leads b.
Proof. unfold leads, filterb. by rewrite List.filter_app, length_app. Qed.
Lemma leads_cons c t : leads (c :: t) = (if is_cont c then 0 else 1) + leads t.
Proof. unfold leads, filterb. simpl. by destruct (is_cont c). Qed.
Lemma leads_le t : leads t ≤ length t.
Proof. induction t as [|c t IH]; [done|]. rewrite leads_cons. simpl. destruct (is_cont c); lia. Qed.

Lemma chars_go_head c t : ∃ g r, chars_go (c :: t) = (c :: g) :: r.
Proof. simpl. destruct (chars_go t) as [|[|d g] r]; [eauto..|]. destruct (is_cont d); eauto. Qed.

Lemma chars_go_length c t : length (chars_go (c :: t)) = S (leads t).
Proof.
  revert c. induction t as [|d t IH]; intros c; [done|]. specialize (IH d).
  change (chars_go (c :: d :: t)) with
    (match chars_go (d :: t) with
     | (d :: g) :: r => if is_cont d then (c :: d :: g) :: r else [c] :: (d :: g) :: r
     | r => [c] :: r
     end).
  destruct (chars_go_head d t) as (g & r & Hg). rewrite Hg in *. simpl in IH.
  rewrite leads_cons. destruct (is_cont d); simpl in *; lia.
Qed.

Lemma chars_go_app a b : length (chars_go (a ++ b)) ≤ length (chars_go a) + length (chars_go b).
Proof.
  destruct a as [|c a]; [simpl; lia|]. cbn [app]. rewrite !chars_go_length, leads_app.
  destruct b as [|d b]; [change (leads []) with 0; simpl; lia|]. rewrite chars_go_length, leads_cons.
  destruct (is_cont d); simpl; lia.
Qed.

Lemma chars_go_single t : Forall (fun g => length (chars_go g) = 1) (chars_go t).
Proof.
  induction t as [|c t IH]; [constructor|]. simpl. destruct (chars_go t) as [|[|d g] r]; [by repeat constructor|..].
  - constructor; [done|exact IH].
  - apply Forall_cons in IH as [Hg Hr]. destruct (is_cont d) eqn:Ed.
    + constructor; [|done]. rewrite chars_go_length in Hg |- *. by rewrite leads_cons, Ed.
    + constructor; [done|]. by constructor.
Qed.

Lemma chars_go_concat_le gs : Forall (fun g => length (chars_go g) = 1) gs → length (chars_go (concat gs)) ≤ length gs.
Proof.
  induction 1 as [|g gs Hg _ IH]; [done|]. simpl. pose proof (chars_go_app g (concat gs)). lia.
Qed.

Lemma ulen_explode s : ulen s = length (chars_go (explode s)).
Proof. unfold ulen, chars. apply length_map. Qed.
Lemma ulen_app a b : ulen (a +:+ b) ≤ ulen a + ulen b.
Proof. rewrite !ulen_explode, explode_app. apply chars_go_app. Qed.
Lemma ulen_bytes s : ulen s ≤ String.length s.
Proof.
  assert (String.length s = length (explode s)) as -> by (unfold explode; induction s; simpl; congruence).
  rewrite ulen_explode. destruct (explode s) as [|c t]; [done|]. rewrite chars_go_length. pose proof (leads_le t). simpl. lia.
Qed.
Lemma ulen_join gs : Forall (fun g => length (chars_go g) = 1) gs → ulen (join "" (map implode gs)) ≤ length gs.
Proof. intros H. rewrite join_empty, ulen_explode, explode_implode. by apply chars_go_concat_le. Qed.

Lemma ulen_utake n s : ulen (utake n s) ≤ n.
Proof.
  unfold utake, chars. rewrite firstn_map. etrans; [apply ulen_join; apply Forall_take, chars_go_single|].
  rewrite length_take. lia.
Qed.
Lemma ulen_ulast n s : 0 < n → ulen (ulast n s) ≤ n.
Proof.
  intros Hn. unfold ulast, udrop, chars. rewrite (proj2 (Nat.eqb_neq n 0)) by lia. rewrite skipn_map.
  etrans; [apply ulen_join; apply Forall_drop, chars_go_single|].
  rewrite length_drop, ulen_explode. lia.
Qed.

(** * Decimal numerals *)

Lemma digits_fold_lower ds acc :
  (0 ≤ acc)%Z → (acc * 10 ^ Z.of_nat (length ds) ≤ foldl (fun a c => (a * 10 + Z.of_N (code c - 48))%Z) acc ds)%Z.
Proof.
  revert acc. induction ds as [|c ds IH]; intros acc Hacc; [simpl; lia|]. cbn [foldl length].
  etrans; [|apply IH; lia]. rewrite Nat2Z.inj_succ, Z.pow_succ_r by lia.
  assert (0 < 10 ^ Z.of_nat (length ds))%Z by (apply Z.pow_pos_nonneg; lia). nia.
Qed.

(** A number below [10^k] has at most [k] digits. *)
Lemma pretty_length (x : N) k : (0 < k)%nat → (Z.of_N x < 10 ^ Z.of_nat k)%Z → length (explode (pretty x)) ≤ k.
Proof.
  intros Hk Hx. destruct (pretty_N_digits x) as (c & ds & -> & Hv & Hd & Hz). simpl.
  destruct (decide (c = "0"%char)) as [->|Hc]; [rewrite Hz by done; simpl; lia|].
  apply Forall_cons in Hd as [Hdc _].
  assert (1 ≤ Z.of_N (code c - 48))%Z as H1.
  { unfold is_digit, between in Hdc. apply Bool.andb_true_iff in Hdc as [Hlo%N.leb_le _].
    assert (code c ≠ 48%N). { intros E. apply Hc. rewrite <- (ascii_N_embedding c). unfold code in E. by rewrite E. } lia. }
  unfold digits_val in Hv. cbn [foldl] in Hv.
  pose proof (digits_fold_lower ds (0 * 10 + Z.of_N (code c - 48))%Z ltac:(lia)) as Hlow.
  assert (10 ^ Z.of_nat (length ds) < 10 ^ Z.of_nat k)%Z as Hpow.
  { assert (0 < 10 ^ Z.of_nat (length ds))%Z by (apply Z.pow_pos_nonneg; lia). nia. }
  apply Z.pow_lt_mono_r_iff in Hpow; lia.
Qed.

Lemma str_of_Z_length z k : (0 < k)%nat → (0 ≤ z < 10 ^ Z.of_nat k)%Z → ulen (str_of_Z z) ≤ k.
Proof.
  intros Hk Hz. etrans; [apply ulen_bytes|].
  assert (∀ s, String.length s = length (explode s)) as -> by (intros s; unfold explode; induction s; simpl; congruence).
  rewrite str_of_Z_text. destruct z as [|p|p]; [| |lia]; (apply pretty_length; [done|]; cbn [Z.to_N Z.of_N]; lia).
Qed.

(** * Properties *)

(** An excerpt fits: for every limit that leaves room for the marker (at least 82
    characters) and every text of fewer than 10^49 characters, the excerpt has at most
    [limit] characters, and a text that already fits is kept unchanged. *)
Theorem bounded_excerpt_fits value limit :
  82 ≤ limit → (Z.of_nat (ulen value) < 10 ^ 49)%Z →
  ulen (bounded_excerpt value limit) ≤ limit ∧ (ulen value ≤ limit → bounded_excerpt value limit = value).
Proof.
  intros Hl Hv. unfold bounded_excerpt. destruct (ulen value <=? limit)%nat eqn:E.
  { apply Nat.leb_le in E. done. }
  apply Nat.leb_gt in E. split; [|lia].
  assert (0 < half_of limit ∧ half_of limit * 2 + 80 ≤ limit) as [Hh1 Hh2].
  { unfold half_of. assert (1 ≤ (Z.of_nat limit - 80) / 2)%Z by (apply Z.div_le_lower_bound; lia).
    pose proof (Z.mul_div_le (Z.of_nat limit - 80) 2 ltac:(lia)). lia. }
  set (omitted := (Z.of_nat (ulen value) - Z.of_nat (half_of limit) * 2)%Z).
  assert (ulen (str_of_Z omitted) ≤ 49) as Hd by (apply str_of_Z_length; [lia|unfold omitted; simpl (Z.of_nat 49); lia]).
  pose proof (ulen_utake (half_of limit) value) as H1. pose proof (ulen_ulast (half_of limit) value Hh1) as H2.
  etrans; [apply ulen_app|]. etrans; [apply Nat.add_le_mono_l, ulen_app|].
  etrans; [apply Nat.add_le_mono_l, Nat.add_le_mono_l, ulen_app|].
  etrans; [do 3 apply Nat.add_le_mono_l; apply ulen_app|].
  etrans; [do 4 apply Nat.add_le_mono_l; apply ulen_app|].
  etrans; [do 5 apply Nat.add_le_mono_l; apply ulen_app|].
  change (ulen nl) with 1. change (ulen "... <") with 5. change (ulen " characters omitted> ...") with 24. lia.
Qed.

(** A failing command is never silent: whatever it printed, its evidence has at least
    one structured diagnostic. *)
Theorem failure_has_diagnostic step_name command stdout stderr exit_code :
  exit_code ≠ 0%Z → structured_diagnostics step_name command stdout stderr exit_code ≠ [].
Proof.
  intros Hx. unfold structured_diagnostics. rewrite (proj2 (Z.eqb_neq _ _) Hx). cbn [negb andb].
  set (ds := _ ++ _). destruct ds; [|done]. done.
Qed.

(** A command's record is evidence of its job: the record [run_command_evidence] writes
    is accepted by [load_command_records] for the same workflow context and job, and its
    exit code is the command's (127 when it could not be started). *)
Theorem command_record_accepted json_error env job_id job_name step command outcome t0 t1 run name :
  run_command_evidence env job_id job_name step command outcome t0 t1 = Ok run →
  jsonable (PDict (cr_record run)) = true → wf_val (PDict (cr_record run)) → ascii_val (PDict (cr_record run)) = true →
  load_command_record json_error (github_context env) job_id job_name (name, Content (write_json (cr_record run)))
  = Ok (PDict (canon_dict (cr_record run)))
  ∧ dget0 (cr_record run) "exit_code" = PInt (cr_exit run)
  ∧ cr_exit run = match outcome with Captured rc _ _ => rc | CaptureError _ => 127%Z end.
Proof.
  intros Hrun Hj Hw Ha. unfold load_command_record. cbn [fst snd]. rewrite read_write_json by done. cbn [res_bind].
  pose proof Hw as [Hnd _]%wf_PDict.
  unfold run_command_evidence in Hrun. apply res_bind_Ok in Hrun as ([] & _ & Hrun).
  assert (∀ k v, dget k (cr_record run) = Some (PStr v) → negb (py_eqb (dget0 (canon_dict (cr_record run)) k) (PStr v)) = false) as Hk.
  { intros k v Hkv. unfold dget0, dgetd. rewrite dget_canon_dict, Hkv by done. simpl fmap. cbn. by rewrite bool_decide_eq_true_2. }
  destruct outcome as [rc out err|msg]; injection Hrun as <-; (split; [|done]);
    unfold expected_command, filterb; cbn [List.filter fst snd]; by rewrite !Hk.
Qed.

(** * Witnesses *)

Lemma bounded_excerpt_fits_witness : ulen (bounded_excerpt (join "" (replicate 40 "abcé")) 100) ≤ 100.
Proof. apply (bounded_excerpt_fits (join "" (replicate 40 "abcé")) 100); [lia|vm_compute; reflexivity]. Defined.

Lemma failure_has_diagnostic_witness : structured_diagnostics "Run Go tests" "go test" "" "" 1 ≠ [].
Proof. apply (failure_has_diagnostic "Run Go tests" "go test" "" "" 1). discriminate. Defined.

Definition demo_command_run : command_run :=
  match run_command_evidence demo_env "go" "Go" "Run Go tests" "go test ./..." (Captured 0 "ok" "") "t0" "t1" with
  | Ok r => r
  | Raise _ => CommandRun 0 "" "" []
  end.

Lemma command_record_accepted_witness :
  load_command_record no_json_error (github_context demo_env) "go" "Go" ("001.json", Content (write_json (cr_record demo_command_run)))
  = Ok (PDict (canon_dict (cr_record demo_command_run))).
Proof.
  apply (command_record_accepted no_json_error demo_env "go" "Go" "Run Go tests" "go test ./..." (Captured 0 "ok" "") "t0" "t1");
    [vm_compute; reflexivity|vm_compute; reflexivity|apply wf_valb_wf; vm_compute; reflexivity|vm_compute; reflexivity].
Defined.
