(* ===== verification/CiAggregate.v ===== *)
(** Aggregation of producer evidence ([observability/ci/ci_aggregate.py]): which jobs the
    evidence covers, the verdict of the run and its exit code. *)
From S2P Require Import Prelude PyStr PyFloat PyVal Regex Json Hashing PyPath PyText Provenance CiEvidence.

Definition CI_AGGREGATE_SCHEMA_VERSION := "o11y.ci-aggregate.v2".
Definition CLASSIFIER_VERSION := "o11y-ci-aggregate-2026-07-10".
Definition DIAGNOSIS_SCHEMA_VERSION := "o11y.structured-diagnosis.v1".
Definition WORKFLOW_EVENT := "WORKFLOW_EVENT".
Definition FAILURE_RESULTS : list string := ["failure"; "cancelled"; "timed_out"; "action_required"].
Definition DEPENDENCY_GRAPH : list (string * list string) :=
  [("go", ["proto"]);
   ("e2e", ["go"; "rust-trade-settlement"; "terraform"; "kubernetes"; "python"; "architecture"; "gui-contract"; "security"])].

(** [value.lstrip("\ufeff")]: byte order marks in front. *)
Definition BOM : string := implode (map chr [239; 187; 191]%N).
Fixpoint lstrip_bom (fuel : nat) (s : string) : string :=
  match fuel with
  | 0 => s
  | S n => if startswith BOM s then lstrip_bom n (sdrop 3 s) else s
  end.

Definition load_needs (json_error : string → string) (value : string) : res dict :=
  let value := lstrip_bom (String.length value) value in
  if negb (nonempty (strip value)) then Ok []
  else match loads value with
       | None => Raise (ValueError (json_error value))
       | Some (PDict d) => Ok d
       | Some _ => Raise (ValueError "GitHub needs JSON must be an object")
       end.

(** * Jobs *)

Record job : Type := Job { j_job : string; j_result : string; j_outputs : dict }.
Definition summarize_needs (needs : dict) : list job :=
  map (fun '(name, raw_value) =>
    let value := dict_or_empty raw_value in
    Job name (lower (py_str (py_or (dgetd value "result" (PStr "unknown")) (PStr "unknown"))))
        (dict_or_empty (dgetd value "outputs" (PDict [])))) needs.

(** A job with the bundles of its id. *)
Record assessed : Type := Assessed { a_job : job; a_bundles : list dict }.

Definition bundles_of (evidence : list dict) (name : string) : list dict :=
  filterb (fun b => bool_decide (py_str (dgetd b "job_id" (PStr "")) = name)) evidence.

(** [command for bundle in bundles for command in bundle.get("commands", [])] *)
Definition commands_of (bundles : list dict) : res (list pyval) :=
  let! ls := res_mapM (fun b => py_iter (dgetd b "commands" (PList []))) bundles in Ok (concat ls).

(** [next(d for c in commands for d in c.get("diagnostics", []) if d.get("type") == "e2e")] *)
Fixpoint first_e2e (diagnostics : list pyval) : res (option dict) :=
  match diagnostics with
  | [] => Ok None
  | d :: ds =>
      let! t := py_get d "type" in
      if py_eqb t (PStr "e2e") then let! x := as_dict d in Ok (Some x) else first_e2e ds
  end.
Fixpoint e2e_summary (commands : list pyval) : res dict :=
  match commands with
  | [] => Ok []
  | c :: cs =>
      let! raw := py_get_or c "diagnostics" (PList []) in
      let! ds := py_iter raw in
      let! found := first_e2e ds in
      match found with Some d => Ok d | None => e2e_summary cs end
  end.

(** [a and b] on conditions that may raise. *)
Definition res_and (a : res bool) (b : unit → res bool) : res bool := let! x := a in if x then b tt else Ok false.
Fixpoint res_any {A} (f : A → res bool) (l : list A) : res bool :=
  match l with [] => Ok false | x :: l' => let! b := f x in if b : bool then Ok true else res_any f l' end.

Definition count (summary : dict) (k : string) : res Z := py_int (dgetd summary k (PInt 0)).
Definition passed_step (step : string) (command : pyval) : res bool :=
  res_and (let! n := py_get command "step_name" in Ok (py_eqb n (PStr step)))
    (fun _ => let! x := py_get command "exit_code" in Ok (py_eqb x (PInt 0))).

Definition successful_e2e_command (bundles : list dict) : res bool :=
  let! commands := commands_of bundles in
  let! summary := e2e_summary commands in
  res_and (res_any (passed_step "Run observed integration tests") commands) (fun _ =>
  res_and (let! n := count summary "collected_count" in Ok (0 <? n)%Z) (fun _ =>
  res_and (let! n := count summary "passed_count" in Ok (0 <? n)%Z) (fun _ =>
  res_and (let! n := count summary "failed_count" in Ok (n =? 0)%Z) (fun _ =>
  res_and (let! n := count summary "error_count" in Ok (n =? 0)%Z) (fun _ =>
  let! f := py_float (dgetd summary "duration_seconds" (PFloat f_zero)) in Ok (f_ltb f_zero f)))))).

Definition REQUIRED_GO_STEPS : list string := ["Run Go race detector"; "Run Go tests"; "Run Go vulnerability audit"].

(** The set comprehension of step names; an unhashable name raises. *)
Fixpoint observed_steps (commands : list pyval) : res (list pyval) :=
  match commands with
  | [] => Ok []
  | c :: cs =>
      let! x := py_get c "exit_code" in
      let! rest_first := (if py_eqb x (PInt 0) then
                            let! n := py_get c "step_name" in
                            match n with PList _ | PDict _ => Raise TypeError | _ => Ok [n] end
                          else Ok []) in
      let! rest := observed_steps cs in
      Ok (rest_first ++ rest)
  end.

(** The messages about one job. *)
Definition assess_job (evidence : list dict) (j : job) : res (assessed * list string) :=
  let bundles := bundles_of evidence (j_job j) in
  let producer :=
    match bundles with
    | [] => ["mandatory producer evidence is missing for job " +:+ j_job j]
    | _ => if negb (bool_decide (j_result j = "skipped")) && negb (any (fun b => truthy (dget0 b "commands")) bundles)
           then ["mandatory command evidence is missing for job " +:+ j_job j] else []
    end in
  let! e2e := (if bool_decide (j_job j = "e2e") && bool_decide (j_result j = "success")
               then let! ok := successful_e2e_command bundles in
                    Ok (if ok : bool then [] else ["successful e2e job lacks nonzero-duration passing test evidence"])
               else Ok []) in
  let! go := (if bool_decide (j_job j = "go") && bool_decide (j_result j = "success")
              then let! commands := commands_of bundles in
                   let! observed := observed_steps commands in
                   Ok (map (fun step => "successful go job lacks passing command evidence for " +:+ step)
                         (filterb (fun step => negb (any (fun n => py_eqb n (PStr step)) observed)) REQUIRED_GO_STEPS))
              else Ok []) in
  Ok (Assessed j bundles, producer ++ e2e ++ go).

Definition assess_evidence (needs : dict) (evidence : list dict) (evidence_errors : list string)
    : res (list assessed * list string) :=
  let! rs := res_mapM (assess_job evidence) (summarize_needs needs) in
  Ok (map fst rs, evidence_errors ++ flat_map snd rs).

Definition all_success (jobs : list assessed) : bool := all (fun a => bool_decide (j_result (a_job a) = "success")) jobs.

Definition aggregate_exit_code (needs : dict) (evidence : list dict) (evidence_errors : list string) : res Z :=
  let! r := assess_evidence needs evidence evidence_errors in
  match r with
  | ([], _) | (_, _ :: _) => Ok 1%Z
  | (jobs, []) => Ok (if all_success jobs then 0 else 1)%Z
  end.

(** * Events *)

Definition failed (result : string) : bool := bool_decide (result ∈ FAILURE_RESULTS).
Definition failed_dependencies (name : string) (failed_names : list string) : list string :=
  filterb (fun d => bool_decide (d ∈ failed_names)) (default [] (dget name DEPENDENCY_GRAPH)).

Definition classify_job (a : assessed) (failed_names : list string) : string :=
  let result := j_result (a_job a) in
  let blocked := match failed_dependencies (j_job (a_job a)) failed_names with [] => false | _ => true end in
  if bool_decide (result = "skipped") && blocked then "SKIPPED_DUE_TO_DEPENDENCY"
  else if bool_decide (result = "skipped") then "BLOCKED"
  else if failed result then "OBSERVED_FAILURE"
  else if bool_decide (result = "success") && negb (match a_bundles a with [] => true | _ => false end) then "OBSERVED_SUCCESS"
  else "INSUFFICIENT_EVIDENCE".

Definition min_str (l : list string) : string :=
  match sort_by str_leb l with [] => "" | x :: _ => x end.

(** The float sums of the source, in its order of operations. *)
Definition job_confidence (has_bundles diagnosed dependency : bool) : float :=
  let c := f_add (f_lit 3 10) (if has_bundles then f_lit 1 4 else f_zero) in
  let c := if has_bundles && diagnosed then f_add c (f_lit 3 20) else c in
  let c := if dependency then f_add c (f_lit 3 20) else c in
  f_min c (f_lit 19 20).

Record event : Type := Event {
  e_id : string; e_timestamp : string; e_command_id : string; e_component : string; e_type : string;
  e_severity : string; e_message : string; e_reference : string; e_caused_by : list string;
  e_classification : string; e_confidence : float
}.

Definition job_event (failed_names : list string) (a : assessed) : event :=
  let j := a_job a in
  let bundles := a_bundles a in
  let has := match bundles with [] => false | _ => true end in
  let c := classify_job a failed_names in
  let dep := bool_decide (c = "SKIPPED_DUE_TO_DEPENDENCY") in
  let reference := if has then "ci/producer-evidence" else "ci/jobs-summary.json" in
  Event ("JOB:" +:+ j_job j) (min_str (map (fun b => py_str (dgetd b "started_at" (PStr ""))) bundles))
    (join "," (map (fun b => py_str (dgetd b "command_identity" (PStr ""))) bundles)) (j_job j)
    ("JOB_" +:+ upper (j_result j))
    (if failed (j_result j) then "error" else if bool_decide (j_result j = "skipped") then "warning" else "info")
    ("GitHub Actions job " +:+ j_job j +:+ " concluded " +:+ j_result j +:+ "; classified as " +:+ c +:+ ".")
    reference
    (if dep then map (fun n => "JOB:" +:+ n) (sort_by str_leb (failed_dependencies (j_job j) failed_names)) else [])
    c (job_confidence has (all (fun b => truthy (dget0 b "normalized_diagnostic")) bundles) dep).

Definition event_dict (e : event) : dict :=
  [("event_id", PStr (e_id e)); ("timestamp", PStr (e_timestamp e)); ("stage", PStr "CI_WORKFLOW");
   ("command_id", PStr (e_command_id e)); ("process_id_if_available", PStr ""); ("component", PStr (e_component e));
   ("event_type", PStr (e_type e)); ("severity", PStr (e_severity e)); ("message", PStr (e_message e));
   ("source_file_or_log", PStr (e_reference e)); ("evidence_reference", PStr (e_reference e));
   ("caused_by", PList (map PStr (e_caused_by e))); ("relation", PStr (e_classification e));
   ("classification", PStr (e_classification e)); ("confidence", PFloat (e_confidence e)); ("event_source", PStr WORKFLOW_EVENT)].

Definition event_key (e : event) : string := if nonempty (e_timestamp e) then e_timestamp e else "9999".

Definition confidence_band (score : float) : string :=
  if f_leb (f_lit 9 10) score then "CONFIRMED"
  else if f_leb (f_lit 7 10) score then "HIGH"
  else if f_leb (f_lit 4 10) score then "MEDIUM" else "LOW".

(** * The diagnosis *)

Definition e2e_status (e2e : option assessed) (failed_names : list string) : res string :=
  match e2e with
  | None => Ok "NOT_SCHEDULED"
  | Some a =>
      let result := j_result (a_job a) in
      if bool_decide (result = "success") then
        let! ok := successful_e2e_command (a_bundles a) in Ok (if ok : bool then "PASSED" else "INSUFFICIENT_EVIDENCE")
      else if bool_decide (result = "failure") then Ok "FAILED"
      else if bool_decide (result = "skipped") then
        Ok (match failed_dependencies "e2e" failed_names with [] => "SKIPPED" | _ => "BLOCKED" end)
      else if bool_decide (result ∈ ["cancelled"; "timed_out"]) then Ok "BLOCKED"
      else Ok "INSUFFICIENT_EVIDENCE"
  end.

Definition primary_diagnosis (jobs : list assessed) (observed_failures : list event) (missing : list string) : dict :=
  let '(summary, mechanism, confidence) :=
    match missing, observed_failures with
    | _ :: _, _ => ("CI causality is unresolved because mandatory current-run producer evidence is missing or invalid.",
                    "INSUFFICIENT_EVIDENCE", f_lit 19 20)
    | [], _ :: _ => ("CI contains observed failures, but no validated evidence establishes a root cause.",
                     "OBSERVED_FAILURE", f_lit 7 10)
    | [], [] => ("All required jobs and their current-run producer evidence concluded successfully.",
                 "NONE_OBSERVED", match jobs with [] => f_zero | _ => f_lit 7 10 end)
    end in
  [("summary", PStr summary);
   ("category_dimensions", PDict [("stage", PStr "CI_WORKFLOW"); ("mechanism", PStr mechanism); ("component", PStr "");
                                  ("external_system", PStr "github-actions")]);
   ("confidence_score", PFloat confidence); ("confidence_band", PStr (confidence_band confidence));
   ("supporting_evidence", PList (map (fun e => PStr (e_message e)) observed_failures));
   ("contradicting_evidence", PList []); ("missing_evidence", PList (map PStr missing));
   ("unsupported_diagnoses", PList [PStr "A failed job is not a confirmed root cause without direct causal evidence."])].

Definition recommendation (action rationale confirm : string) : pyval :=
  PDict [("kind", PStr "RECOMMENDATION"); ("action", PStr action); ("rationale", PStr rationale);
         ("would_confirm_or_reject", PStr confirm)].
Definition recommendations (observed_failures : list event) (missing : list string) : list pyval :=
  map (fun m => recommendation "Restore and validate the missing current-run producer evidence." m
                  "Matching provenance and digest would permit evidence-based classification.") missing
  ++ map (fun e => recommendation ("Inspect direct diagnostics for job " +:+ e_component e +:+ ".")
                     "The current evidence proves failure but not causality."
                     "A validated diagnostic with an explicit dependency or reproduction link may support LIKELY_CAUSE.")
       observed_failures.

Definition test_execution (status : string) (summary : dict) : res dict :=
  let! collected := count summary "collected_count" in
  let! passed := count summary "passed_count" in
  let! failures := count summary "failed_count" in
  let! errors := count summary "error_count" in
  let! skipped := count summary "skipped_count" in
  let! duration := py_float (dgetd summary "duration_seconds" (PFloat f_zero)) in
  Ok [("status", PStr status); ("tests_collected", PInt collected); ("tests_started", PInt collected);
      ("tests_passed", PInt passed); ("tests_failed", PInt (failures + errors)); ("tests_skipped", PInt skipped);
      ("duration_seconds", PFloat duration)].

Fixpoint observations (index : nat) (events : list event) : list pyval :=
  match events with
  | [] => []
  | e :: es =>
      PDict [("id", PStr ("O" +:+ str_of_nat (S index))); ("kind", PStr "OBSERVATION"); ("summary", PStr (e_message e));
             ("evidence_reference", PStr (e_reference e)); ("confidence_band", PStr (confidence_band (e_confidence e)))]
      :: observations (S index) es
  end.

Definition confidence_model : dict :=
  [("validated_provenance", PFloat (f_lit 1 4)); ("direct_job_result", PFloat (f_lit 3 10));
   ("normalized_diagnostic", PFloat (f_lit 3 20)); ("dependency_link", PFloat (f_lit 3 20));
   ("temporal_consistency", PFloat (f_lit 1 10)); ("independent_reproduction", PFloat (f_lit 1 20));
   ("rule", PStr "Causal labels require an explicit evidence link; job failure alone is observational.")].

Definition diagnose_ci_needs (run_id now : string) (needs : dict) (evidence : list dict) (evidence_errors : list string)
    : res dict :=
  let! r := assess_evidence needs evidence evidence_errors in
  let '(jobs, missing) := r in
  let failed_names := map (fun a => j_job (a_job a)) (filterb (fun a => failed (j_result (a_job a))) jobs) in
  let events := sort_by (fun a b => str_leb (event_key a) (event_key b)) (map (job_event failed_names) jobs) in
  let e2e := find_first (fun a => bool_decide (j_job (a_job a) = "e2e")) jobs in
  let! e2e_status := e2e_status e2e failed_names in
  let no_jobs := match jobs with [] => true | _ => false end in
  let no_missing := match missing with [] => true | _ => false end in
  let evidence_complete := negb no_jobs && no_missing in
  let success := evidence_complete && all_success jobs in
  let product_status := if success && bool_decide (e2e_status = "PASSED") then "PASSED"
                        else if bool_decide (e2e_status = "FAILED") then "FAILED" else "UNRESOLVED" in
  let observed_failures := filterb (fun e => bool_decide (e_classification e = "OBSERVED_FAILURE")) events in
  let! per_job := res_mapM (fun a => commands_of (a_bundles a)) jobs in
  let commands := concat per_job in
  let! summary := e2e_summary commands in
  let! execution := test_execution e2e_status summary in
  Ok [("schema_version", PStr DIAGNOSIS_SCHEMA_VERSION); ("classifier_version", PStr CLASSIFIER_VERSION);
      ("runner_version", PStr RUNNER_VERSION); ("generated_at", PStr now); ("run_id", PStr run_id);
      ("requested_command", PStr "ci-aggregate"); ("validation_result", PStr (if success then "passed" else "failed"));
      ("product_status", PStr product_status);
      ("harness_status", PStr (if success then "OK" else if no_missing then "CI_WORKFLOW_FAILED" else "INSUFFICIENT_EVIDENCE"));
      ("analysis_status", PStr (if evidence_complete then "OK" else "INSUFFICIENT_EVIDENCE"));
      ("commands", PList commands);
      ("ci_jobs", PList (map (fun a => PDict [("job", PStr (j_job (a_job a))); ("result", PStr (j_result (a_job a)));
                                              ("outputs", PDict (j_outputs (a_job a)))]) jobs));
      ("test_execution", PDict [("E2E_TEST", PDict execution)]); ("observations", PList (observations 0 events));
      ("derived_facts", PList []); ("inferences", PList []);
      ("recommendations", PList (recommendations observed_failures missing));
      ("events", PList (map (fun e => PDict (event_dict e)) events)); ("causal_chain", PList []);
      ("earliest_causal_failure", PNone); ("earliest_failed_command", PNone); ("most_supported_root_cause_event", PNone);
      ("primary_diagnosis", PDict (primary_diagnosis jobs observed_failures missing));
      ("false_green_risks", PList (if no_missing then [] else [PStr "Mandatory producer evidence is absent or invalid."]));
      ("false_red_risks", PList []); ("missing_evidence", PList (map PStr missing));
      ("abstained", PBool (negb (match observed_failures with [] => true | _ => false end) || negb no_missing));
      ("confidence_model", PDict confidence_model)].
