(* ===== verification/CiAggregateFacts.v ===== *)
(** Correctness of the aggregation: a green run means that every job succeeded and is covered
    by evidence of this very workflow run. *)
From S2P Require Import Prelude PyStr PyFloat PyVal Regex Json JsonFacts JsonIndent Hashing PyPath PyText Provenance Redaction CiEvidence CiEvidenceFacts CiAggregate.

(** * Assessment *)

Lemma res_mapM_Forall2 {A B} (f : A → res B) l r : res_mapM f l = Ok r → Forall2 (fun x y => f x = Ok y) l r.
Proof.
  revert r. induction l as [|x l IH]; intros r; simpl; [intros [= <-]; constructor|].
  intros (y & Hy & (r' & Hr & [= <-])%res_bind_Ok)%res_bind_Ok. constructor; [done|by apply IH].
Qed.

Lemma assess_evidence_Ok needs evidence errors jobs missing :
  assess_evidence needs evidence errors = Ok (jobs, missing) →
  ∃ rs, Forall2 (fun j r => assess_job evidence j = Ok r) (summarize_needs needs) rs
        ∧ jobs = map fst rs ∧ missing = errors ++ flat_map snd rs.
Proof.
  unfold assess_evidence. intros (rs & Hrs & [= <- <-])%res_bind_Ok. exists rs. split; [by apply res_mapM_Forall2|done].
Qed.

Lemma assess_job_Ok evidence j a ms :
  assess_job evidence j = Ok (a, ms) → a = Assessed j (bundles_of evidence (j_job j)).
Proof.
  unfold assess_job. intros (e2e & _ & (go & _ & H)%res_bind_Ok)%res_bind_Ok. congruence.
Qed.

(** What a clean assessment of a successful job guarantees. *)
Definition evidenced (evidence : list dict) (name : string) : Prop :=
  (∃ b, b ∈ evidence ∧ py_str (dgetd b "job_id" (PStr "")) = name ∧ truthy (dget0 b "commands") = true)
  ∧ (name = "e2e" → successful_e2e_command (bundles_of evidence name) = Ok true)
  ∧ (name = "go" → ∃ commands observed,
       commands_of (bundles_of evidence name) = Ok commands ∧ observed_steps commands = Ok observed
       ∧ ∀ step, step ∈ REQUIRED_GO_STEPS → PStr step ∈ observed).

Lemma assess_job_clean evidence j a :
  assess_job evidence j = Ok (a, []) → j_result j = "success" → evidenced evidence (j_job j).
Proof.
  unfold assess_job. intros (e2e & He & (go & Hg & H)%res_bind_Ok)%res_bind_Ok Hres.
  injection H as _ Hms. apply app_nil in Hms as [Hprod [-> ->]%app_nil]. split_and!.
  - clear He Hg. destruct (bundles_of evidence (j_job j)) as [|b0 bs] eqn:Eb; [done|]. rewrite <- Eb in Hprod.
    rewrite Hres in Hprod. cbn [negb andb] in Hprod.
    destruct (any (fun b => truthy (dget0 b "commands")) (bundles_of evidence (j_job j))) eqn:Eany; [|done].
    apply any_true in Eany as (b & Hb & Ht). exists b.
    apply elem_of_filterb in Hb as [Hb Hid]. apply bool_decide_eq_true in Hid. done.
  - intros Hn. rewrite Hn, Hres in He. cbn in He. rewrite Hn.
    apply res_bind_Ok in He as (ok & Hok & He). destruct ok; [done|discriminate].
  - intros Hn. rewrite Hn, Hres in Hg. cbn [andb] in Hg. rewrite !bool_decide_eq_true_2 in Hg by done. cbn [andb] in Hg.
    apply res_bind_Ok in Hg as (commands & Hc & (observed & Ho & Hg)%res_bind_Ok).
    exists commands, observed. rewrite Hn. split_and!; [done|done|]. intros step Hstep.
    apply Ok_inj, map_eq_nil in Hg.
    destruct (any (fun n => py_eqb n (PStr step)) observed) eqn:E.
    + apply any_true in E as (n & Hn' & Heq). rewrite py_eqb_PStr in Heq. apply bool_decide_eq_true in Heq. by subst.
    + exfalso. assert (step ∈ filterb (fun step => negb (any (fun n => py_eqb n (PStr step)) observed)) REQUIRED_GO_STEPS) as Hin
        by (apply elem_of_filterb; by rewrite E). rewrite Hg in Hin. set_solver.
Qed.

Lemma aggregate_zero needs evidence errors :
  aggregate_exit_code needs evidence errors = Ok 0%Z ↔
  ∃ jobs, assess_evidence needs evidence errors = Ok (jobs, []) ∧ jobs ≠ [] ∧ all_success jobs = true.
Proof.
  unfold aggregate_exit_code. rewrite res_bind_Ok. split.
  - intros ([jobs missing] & Ha & H). destruct jobs as [|a jobs]; [done|]. destruct missing; [|done].
    exists (a :: jobs). destruct (all_success (a :: jobs)); done.
  - intros (jobs & Ha & Hne & Hs). exists (jobs, []). split; [done|]. destruct jobs; [done|]. by rewrite Hs.
Qed.

Lemma green_jobs needs evidence errors :
  aggregate_exit_code needs evidence errors = Ok 0%Z →
  needs ≠ [] ∧ errors = [] ∧
  ∀ name raw, (name, raw) ∈ needs →
    lower (py_str (py_or (dgetd (dict_or_empty raw) "result" (PStr "unknown")) (PStr "unknown"))) = "success"
    ∧ evidenced evidence name.
Proof.
  intros (jobs & Ha & Hne & Hs)%aggregate_zero.
  apply assess_evidence_Ok in Ha as (rs & Hrs & -> & Hm). symmetry in Hm. apply app_nil in Hm as [-> Hm].
  split_and!; [by intros ->; inversion Hrs; subst|done|]. intros name raw Hin.
  assert (∃ j, j ∈ summarize_needs needs ∧ j_job j = name
    ∧ j_result j = lower (py_str (py_or (dgetd (dict_or_empty raw) "result" (PStr "unknown")) (PStr "unknown")))) as (j & Hj & Hname & Hres).
  { exists (Job name (lower (py_str (py_or (dgetd (dict_or_empty raw) "result" (PStr "unknown")) (PStr "unknown"))))
      (dict_or_empty (dgetd (dict_or_empty raw) "outputs" (PDict [])))).
    split; [|done]. unfold summarize_needs. apply list_elem_of_fmap. by exists (name, raw). }
  apply list_elem_of_lookup in Hj as [i Hi]. destruct (Forall2_lookup_l _ _ _ _ _ Hrs Hi) as ([a ms] & Hri & Haj).
  pose proof (assess_job_Ok _ _ _ _ Haj) as ->.
  assert (ms = []) as ->. { rewrite flat_map_nil in Hm. apply list_elem_of_lookup_2, Hm in Hri. exact Hri. }
  assert (j_result j = "success") as Hsucc.
  { unfold all_success, all in Hs. rewrite forallb_forall in Hs.
    assert (bool_decide (j_result (a_job (Assessed j (bundles_of evidence (j_job j)))) = "success") = true) as Hb.
    { apply Hs. apply list_elem_of_In, list_elem_of_fmap. eexists. split; [|by eapply list_elem_of_lookup_2]. done. }
    by apply bool_decide_eq_true in Hb. }
  split; [congruence|]. rewrite <- Hname. by eapply assess_job_clean.
Qed.

(** * Properties *)

(** C1: A green CI run is backed by evidence, end to end.  If the aggregator, given the
    evidence directory of a workflow run, exits with 0, then there is at least one job,
    every job's result is success, every [.json] file of the directory belongs to this run,
    and every job has a file whose bundle belongs to this repository, commit, run and attempt,
    names the job and has command records; the e2e job's commands passed with a non-empty
    test run, and the go job has passing records of all three required steps. *)
Theorem green_run_is_evidenced json_error path entries expected needs evidence errors :
  load_evidence_directory json_error path (Some entries) expected = (evidence, errors) →
  aggregate_exit_code needs evidence errors = Ok 0%Z →
  needs ≠ []
  ∧ (∀ name f, (name, f) ∈ entries → endswith ".json" name = true → ∃ b, read_json json_error f = Ok b ∧ belongs b expected)
  ∧ ∀ name raw, (name, raw) ∈ needs →
      lower (py_str (py_or (dgetd (dict_or_empty raw) "result" (PStr "unknown")) (PStr "unknown"))) = "success"
      ∧ evidenced evidence name
      ∧ ∃ file f b, (file, f) ∈ entries ∧ read_json json_error f = Ok b ∧ belongs b expected
          ∧ py_str (dgetd b "job_id" (PStr "")) = name ∧ truthy (dget0 b "commands") = true.
Proof.
  pose proof (load_evidence_spec json_error path entries expected) as Hload.
  intros E. rewrite E in Hload. destruct Hload as [Hev Herr]. intros (Hne & He & Hjobs)%green_jobs. split_and!; [done|by apply Herr|].
  intros name raw Hin. destruct (Hjobs name raw Hin) as [Hres Hevd]. split_and!; [done|done|].
  destruct Hevd as [(b & Hb & Hid & Ht) _]. apply Hev in Hb as (file & f & Hf & _ & Hr & Hbel). by exists file, f, b.
Qed.

(** The report and the exit code agree: whenever the diagnosis is produced, the exit code
    is 0 exactly when the diagnosis says the validation passed, and then the harness status
    is OK, no evidence is missing and the diagnosis does not abstain for missing evidence. *)
Theorem diagnosis_agrees_with_exit_code run_id now needs evidence errors d :
  diagnose_ci_needs run_id now needs evidence errors = Ok d →
  ∃ code, aggregate_exit_code needs evidence errors = Ok code
    ∧ (code = 0%Z ↔ dget0 d "validation_result" = PStr "passed")
    ∧ (code = 0%Z → dget0 d "harness_status" = PStr "OK" ∧ dget0 d "missing_evidence" = PList []
                    ∧ dget0 d "analysis_status" = PStr "OK")
    ∧ (dget0 d "product_status" = PStr "PASSED" → code = 0%Z).
Proof.
  unfold diagnose_ci_needs, aggregate_exit_code. intros ([jobs missing] & Ha & H)%res_bind_Ok. rewrite Ha. cbn [res_bind].
  apply res_bind_Ok in H as (st & _ & (pj & _ & (summary & _ & (ex & _ & H)%res_bind_Ok)%res_bind_Ok)%res_bind_Ok).
  injection H as <-.
  destruct jobs as [|a jobs]; [exists 1%Z; split_and!; [done|by split|done|]|].
  { cbn. by destruct (bool_decide (st = "FAILED")). }
  destruct missing as [|m ms]; [|exists 1%Z; split_and!; [done|by split|done|]].
  2: { cbn. by destruct (bool_decide (st = "FAILED")). }
  destruct (all_success (a :: jobs)) eqn:Es.
  - exists 0%Z. split_and!; [done|by split|by intros _|done].
  - exists 1%Z. split_and!; [done|by split|done|]. cbn. by destruct (bool_decide (st = "FAILED")).
Qed.

(** Job events stay observational.  Whatever the evidence, a job event is never in the
    CONFIRMED confidence band (the float sums stay below 0.9), a cause is given exactly when
    the job was skipped because of a dependency, and every cause is a dependency of the job
    that did fail in this run. *)
Theorem job_event_observational failed_names a :
  let e := job_event failed_names a in
  confidence_band (e_confidence e) ∈ ["LOW"; "MEDIUM"; "HIGH"]
  ∧ (e_caused_by e ≠ [] ↔ e_classification e = "SKIPPED_DUE_TO_DEPENDENCY")
  ∧ ∀ c, c ∈ e_caused_by e → ∃ n deps, c = "JOB:" +:+ n ∧ n ∈ failed_names
      ∧ dget (j_job (a_job a)) DEPENDENCY_GRAPH = Some deps ∧ n ∈ deps.
Proof.
  intros e. split_and!.
  - unfold e, job_event. cbn [e_confidence].
    generalize (match a_bundles a with [] => false | _ => true end). intros h.
    generalize (all (fun b => truthy (dget0 b "normalized_diagnostic")) (a_bundles a)). intros n.
    generalize (bool_decide (classify_job a failed_names = "SKIPPED_DUE_TO_DEPENDENCY")). intros d.
    apply (bool_decide_unpack _). destruct h, n, d; vm_compute; exact I.
  - unfold e, job_event. cbn [e_caused_by e_classification]. case_bool_decide as Hc; [|naive_solver].
    split; [done|]. intros _ Hnil. apply map_eq_nil in Hnil.
    unfold classify_job in Hc.
    destruct (failed_dependencies (j_job (a_job a)) failed_names) as [|x l] eqn:E.
    + rewrite Bool.andb_false_r in Hc. repeat case_match; discriminate.
    + pose proof (sort_by_perm str_leb (x :: l)) as Hp. rewrite Hnil in Hp. by apply Permutation_nil_cons in Hp.
  - intros c Hc. unfold e, job_event in Hc. cbn [e_caused_by] in Hc. case_bool_decide; [|set_solver].
    apply list_elem_of_fmap in Hc as (n & -> & Hn). rewrite sort_by_perm in Hn. unfold failed_dependencies in Hn.
    apply elem_of_filterb in Hn as [Hn Hf]. apply bool_decide_eq_true in Hf.
    destruct (dget (j_job (a_job a)) DEPENDENCY_GRAPH) as [deps|]; [|set_solver]. by exists n, deps.
Qed.

(** * Witnesses: one job with one passing command *)

Definition demo_commands : list (string * file) :=
  [("001.json", Content (write_json (map (fun kv => (kv.1, PStr kv.2)) (expected_command (github_context demo_env) "python" "Python"))))].
Definition demo_job_text : string :=
  match start_evidence demo_env "python" "Python" "t0" with
  | Ok t => match finish_evidence no_json_error (Content t) demo_env "python" "Python" "step" "cmd" "success" [] (Some (Some demo_commands)) "t1" with
            | Ok (_, text) => text
            | Raise _ => ""
            end
  | Raise _ => ""
  end.
Definition demo_needs : dict := [("python", PDict [("result", PStr "success")])].
Local Notation demo_loaded :=
  (load_evidence_directory no_json_error "artifacts" (Some [("python.json", Content demo_job_text)]) (github_context demo_env)).

Lemma green_run_is_evidenced_witness :
  ∃ evidence errors, demo_loaded = (evidence, errors) ∧ aggregate_exit_code demo_needs evidence errors = Ok 0%Z
    ∧ evidenced evidence "python".
Proof.
  assert ((fun l => aggregate_exit_code demo_needs l.1 l.2) demo_loaded = Ok 0%Z) as Hz by (vm_compute; reflexivity).
  destruct demo_loaded as [evidence errors] eqn:E. exists evidence, errors. split; [reflexivity|]. split; [exact Hz|].
  destruct (green_run_is_evidenced no_json_error "artifacts" [("python.json", Content demo_job_text)]
              (github_context demo_env) demo_needs evidence errors E Hz) as (_ & _ & H).
  apply (H "python" (PDict [("result", PStr "success")])). left.
Defined.

Lemma diagnosis_agrees_with_exit_code_witness : ∃ d code,
  diagnose_ci_needs "r1" "now" demo_needs [] [] = Ok d ∧ aggregate_exit_code demo_needs [] [] = Ok code
  ∧ (code = 0%Z ↔ dget0 d "validation_result" = PStr "passed").
Proof.
  eexists. assert (∀ d, diagnose_ci_needs "r1" "now" demo_needs [] [] = Ok d → ∃ code,
    diagnose_ci_needs "r1" "now" demo_needs [] [] = Ok d ∧ aggregate_exit_code demo_needs [] [] = Ok code
    ∧ (code = 0%Z ↔ dget0 d "validation_result" = PStr "passed")) as H.
  { intros d Hd. destruct (diagnosis_agrees_with_exit_code "r1" "now" demo_needs [] [] d Hd) as (code & Hc & Hiff & _).
    exists code. auto. }
  apply H. vm_compute. reflexivity.
Defined.
