(* ===== verification/CiMain.v ===== *)
(** The entry points of the CI evidence: what a producer job runs ([main] of
    [observability/ci/ci_evidence.py]) and the job that aggregates them ([main] of
    [observability/ci/ci_aggregate.py]), which records the run, its diagnosis and its report and
    ends with the exit code of the workflow.  The options are arguments: a parser that rejects
    them ends the process before anything happens ([CommandLines]). *)
From S2P Require Import Prelude PyStr PyFloat PyVal Regex Json JsonFacts JsonIndent Hashing PyPath PyText PyIO Redaction Storage Provenance Freshness RunIndex RunContext CompareRuns RunCommand FailureReport CiEvidence CiCommands CiAggregate.

(** * Producers *)

Inductive producer_args : Type :=
| StartArgs (job_id job_name : string) (target : path)
| RunArgs (job_id job_name step_name command_env : string) (working_directory output_path : path)
| FinishArgs (job_id job_name step_identity command_identity status : string) (dependencies : list string)
    (start_path output_path : path) (commands_path : option path).

(** The files and what was printed. *)
Record producer : Type := Producer { pr_files : fs; pr_out : string; pr_err : string }.

Section producer.
(** The environment, the clock, the messages of the JSON decoder, the errors of the operating
    system on a path, which directories exist, and the outcome of a shell command. *)
Context (env : list (string * string)) (now : string) (json_error : string → string).
Context (os_error : path → option exn) (is_dir : path → bool).
Context (shell : string → path → fs → captured).

Definition file_at (files : fs) (p : path) : file :=
  match files !! p with Some bytes => Content bytes | None => Missing end.
Definition directory_at (files : fs) (p : path) : option (list (string * file)) :=
  if is_dir p then Some (map (fun kv => (path_name kv.1, Content kv.2))
                            (filterb (fun kv => bool_decide (path_parent kv.1 = p)) (map_to_list files)))
  else None.

(** [path.parent.mkdir(parents=True, exist_ok=True); _write_json(path, value)] *)
Definition put_evidence (p : path) (text : string) : io producer unit :=
  match os_error (path_parent p), os_error p with
  | Some e, _ | None, Some e => throw e
  | None, None => modify (fun s => Producer (<[p := text]> (pr_files s)) (pr_out s) (pr_err s))
  end.
Definition echo (out err : string) : io producer unit :=
  modify (fun s => Producer (pr_files s) (pr_out s +:+ out) (pr_err s +:+ err)).

(** The exit status of the process: 0 where [main] returns. *)
Definition evidence_main (args : producer_args) : io producer Z :=
  match args with
  | StartArgs job_id job_name target =>
      text ← lift (start_evidence env job_id job_name now);
      _ ← put_evidence target text;
      mret 0%Z
  | RunArgs job_id job_name step_name command_env working_directory output_path =>
      let command := getenv env command_env "" in
      if negb (nonempty command)
      then throw (ValueError ("command environment variable " +:+ command_env +:+ " is empty"))
      else
        files ← reads pr_files;
        run ← lift (run_command_evidence env job_id job_name step_name command (shell command working_directory files) now now);
        _ ← echo (cr_printed_out run) (cr_printed_err run);
        _ ← put_evidence output_path (write_json (cr_record run));
        mret (cr_exit run)
  | FinishArgs job_id job_name step_identity command_identity status dependencies start_path output_path commands_path =>
      files ← reads pr_files;
      finished ← lift (finish_evidence json_error (file_at files start_path) env job_id job_name step_identity command_identity
                         status dependencies (directory_at files <$> commands_path) now);
      _ ← put_evidence output_path finished.2;
      mret 0%Z
  end.
End producer.

(** * The aggregator *)

(** [f"{index:03d}"] *)
Definition pad3 (n : nat) : string :=
  let s := str_of_nat n in join "" (replicate (3 - String.length s) "0") +:+ s.

(** The world, and the variables [main] still reads in its handler. *)
Record astate : Type := AState { as_world : world; as_diagnosis : dict; as_report : string; as_printed : list string }.
Definition in_world {A} (m : io world A) : io astate A := fun s =>
  let '(r, w) := m (as_world s) in (r, AState w (as_diagnosis s) (as_report s) (as_printed s)).
Definition in_files {A} (m : io fs A) : io astate A := in_world (on_files m).

Definition assessed_dict (a : assessed) : pyval :=
  PDict [("job", PStr (j_job (a_job a))); ("result", PStr (j_result (a_job a))); ("outputs", PDict (j_outputs (a_job a)));
         ("evidence", PList (map PDict (a_bundles a)))].

Section aggregator.
(** The machine when the run starts and when it ends, the working directory, and the text of a
    traceback. *)
Context (hs hf : host) (cwd : path) (traceback : exn → string).
Abbreviation wjson := (Storage.write_json (h_resolve hs) (h_os_error hs)).
Abbreviation wtext := (Storage.write_text (h_resolve hs) (h_os_error hs)).

(** [for index, bundle in enumerate(evidence): ...] *)
Fixpoint write_bundles (storage : RunStorage) (index : nat) (evidence : list dict) : io astate unit :=
  match evidence with
  | [] => skip
  | bundle :: rest =>
      job_id ← lift (py_item (PDict bundle) "job_id");
      _ ← in_files (wjson storage (path_of ("ci/producer-evidence/" +:+ pad3 index +:+ "-" +:+ py_str job_id +:+ ".json")) (PDict bundle));
      write_bundles storage (S index) rest
  end.

Section run.
Context (needs : dict) (evidence : list dict) (evidence_errors : list string).
Context (c : RunContext) (storage : RunStorage).

Definition finalize_aggregate (status : string) (exit_code : Z) : io astate dict :=
  d ← reads as_diagnosis;
  report ← reads as_report;
  in_world (finalize_run_context hf c status "ci-aggregate" exit_code [] (if is_empty d then "" else "diagnosis.json") report storage).

(** The body of the [try]. *)
Definition aggregate_body (exit_code : Z) : io astate unit :=
  assessment ← lift (assess_evidence needs evidence evidence_errors);
  let '(jobs, missing) := assessment in
  _ ← in_files (wjson storage (path_of "ci/jobs-summary.json")
        (PDict [("schema_version", PStr CI_AGGREGATE_SCHEMA_VERSION); ("needs", PDict needs);
                ("jobs", PList (map assessed_dict jobs)); ("evidence_errors", PList (map PStr missing))]));
  _ ← write_bundles storage 0 evidence;
  diagnosis ← lift (diagnose_ci_needs (py_str (run_id c)) (h_now hs) needs evidence evidence_errors);
  _ ← modify (fun s => AState (as_world s) diagnosis (as_report s) (as_printed s));
  _ ← in_files (wjson storage (path_of "diagnosis.json") (PDict diagnosis));
  reports ← in_files (generate_run_report hs cwd c diagnosis [] storage);
  rel ← lift (relative (ctx_run_dir c) reports.1.2);
  _ ← modify (fun s => AState (as_world s) (as_diagnosis s) (path_str rel) (as_printed s));
  prov ← finalize_aggregate (match missing with [] => "COMPLETE" | _ => "INSUFFICIENT_EVIDENCE" end) exit_code;
  _ ← in_files (generate_run_report hf cwd c diagnosis prov storage);
  skip.

(** [except Exception:] *)
Definition aggregate_failed (e : exn) : io astate unit :=
  _ ← in_files (wtext storage (path_of "observability-error.txt") (redact_text (traceback e)));
  catch (_ ← finalize_aggregate "ANALYSIS_FAILED" 2; skip)
    (fun e' => _ ← in_files (wtext storage (path_of "observability-finalization-error.txt") (redact_text (traceback e'))); skip).

(** The [try] statement with the exit code after it. *)
Definition aggregate_guarded (exit_code : Z) : io astate Z :=
  catch (_ ← aggregate_body exit_code; mret exit_code) (fun e => _ ← aggregate_failed e; mret 2%Z).
End run.

(** [raw_needs] is the text of [--needs-file] or [--needs-json], or what reading it raises;
    [evidence_dir] the directory of [--evidence-dir].  The result is the argument of
    [SystemExit]. *)
Definition aggregate_main (raw_needs : res string) (dir_name : string) (evidence_dir : option (list (string * file))) : io astate Z :=
  raw ← lift raw_needs;
  needs ← lift (load_needs (h_json_error hs) raw);
  let '(evidence, evidence_errors) :=
    load_evidence_directory (h_json_error hs) dir_name evidence_dir (github_context (h_env hs)) in
  c ← in_world (create_run_context hs cwd "");
  storage ← in_files (init (h_resolve hs) (h_os_error hs) (ctx_run_dir c) false);
  exit_code ← lift (aggregate_exit_code needs evidence evidence_errors);
  code ← aggregate_guarded needs evidence evidence_errors c storage exit_code;
  _ ← modify (fun s => AState (as_world s) (as_diagnosis s) (as_report s) (as_printed s ++ [path_str (ctx_run_dir c)]));
  mret code.
End aggregator.
