(* ===== verification/CiMainFacts.v ===== *)
(** The entry points of the CI evidence do what the parts promise: the exit code of the
    aggregator and the diagnosis it leaves on disk agree, what it writes stays in its run
    directory, and the file a producer writes is the one the aggregator accepts. *)
From S2P Require Import Prelude PyStr PyFloat PyVal Regex Json JsonFacts JsonIndent Hashing PyPath PyText PyIO Redaction Storage Provenance Freshness RunIndex RunContext RunContextFacts RunCommand FailureReport Confinement CiEvidence CiEvidenceFacts CiCommands CiAggregate CiAggregateFacts CiMain.

(** * A file the rest of the run does not touch *)

Definition same_at (p : path) : relation fs := fun files files' => files' !! p = files !! p.
Definition w_same_at (p : path) : relation world := fun w w' => same_at p (w_files w) (w_files w').

#[export] Instance same_at_preorder p : PreOrder (same_at p).
Proof. split; [done|]. intros x y z Hxy Hyz. unfold same_at in *. congruence. Qed.
#[export] Instance w_same_at_preorder p : PreOrder (w_same_at p).
Proof. split; [intros w; reflexivity|]. intros x y z Hxy Hyz. unfold w_same_at, same_at in *. congruence. Qed.

Lemma same_on_files {A} p (m : io fs A) : keeps (same_at p) m → keeps (w_same_at p) (on_files m).
Proof. intros H w. specialize (H (w_files w)). unfold on_files. destruct (m (w_files w)). exact H. Qed.

Section untouched.
Context (resolve : path → path) (os_error : path → option exn) (Hid : ∀ q, resolve q = q).
Context (storage : RunStorage).
Abbreviation target := (path_join (run_dir storage) (path_of "diagnosis.json")).

Lemma same_text name text :
  path_join (run_dir storage) name ≠ target → keeps (same_at target) (write_text resolve os_error storage name text).
Proof.
  intros Hne files. unfold write_text, mbind, io_bind. rewrite path_in_spec, Hid. destruct (bool_decide _); [|done].
  destruct (os_error (path_parent _)); [done|]. unfold atomic_write. destruct (os_error _); [done|].
  unfold same_at. cbn. by rewrite lookup_insert_ne.
Qed.
Lemma same_json name v :
  path_join (run_dir storage) name ≠ target → keeps (same_at target) (Storage.write_json resolve os_error storage name v).
Proof. apply same_text. Qed.
End untouched.

(** Another name in the run directory. *)
Ltac other_name := intros E%path_join_inj; discriminate E.

Lemma same_report h cwd c d prov storage :
  (∀ q, h_resolve h q = q) →
  keeps (same_at (path_join (run_dir storage) (path_of "diagnosis.json"))) (generate_run_report h cwd c d prov storage).
Proof.
  intros Hid. unfold generate_run_report. keeps_auto; try (apply same_json; [done|other_name]); apply same_text; [done|other_name|done|other_name].
Qed.

Lemma same_index h root record p : keeps (w_same_at p) (index_update h root record).
Proof.
  intros w. unfold index_update. destruct (h_lock_error h); [done|]. by destruct (update_run_index _ _ _ _ _ _) as [[]|].
Qed.

Lemma same_finalize h c status command code executed dp rp storage :
  (∀ q, h_resolve h q = q) →
  keeps (w_same_at (path_join (run_dir storage) (path_of "diagnosis.json")))
    (finalize_run_context h c status command code executed dp rp storage).
Proof.
  intros Hid. unfold finalize_run_context. cbv zeta.
  keeps_auto; try apply same_index; apply same_on_files, same_json; (done || other_name).
Qed.

(** * The aggregator *)

Lemma in_world_inv {A} (m : io world A) s r s' :
  in_world m s = (r, s') →
  m (as_world s) = (r, as_world s') ∧ as_diagnosis s' = as_diagnosis s ∧ as_printed s' = as_printed s.
Proof. unfold in_world. destruct (m (as_world s)) as [r0 w]. by intros [= <- <-]. Qed.

Lemma in_world_keeps {A} (R : relation world) (m : io world A) s r s' :
  keeps R m → in_world m s = (r, s') → R (as_world s) (as_world s') ∧ as_diagnosis s' = as_diagnosis s.
Proof. intros Hk (Hm & Hd & _)%in_world_inv. specialize (Hk (as_world s)). by rewrite Hm in Hk. Qed.

Section aggregator.
Context (hs hf : host) (cwd : path) (traceback : exn → string).
Context (Hs : ∀ q, h_resolve hs q = q) (Hf : ∀ q, h_resolve hf q = q).
Context (needs : dict) (evidence : list dict) (errors : list string) (c : RunContext) (storage : RunStorage).

(** The diagnosis of a run, as memory and disk hold it. *)
Definition diagnosed (s : astate) : Prop :=
  diagnose_ci_needs (py_str (run_id c)) (h_now hs) needs evidence errors = Ok (as_diagnosis s)
  ∧ w_files (as_world s) !! path_join (run_dir storage) (path_of "diagnosis.json")
    = Some (dumps_indent (PDict (as_diagnosis s)) +:+ nl).

Lemma diagnosed_kept {A} (m : io world A) s r s' :
  keeps (w_same_at (path_join (run_dir storage) (path_of "diagnosis.json"))) m → in_world m s = (r, s') → diagnosed s → diagnosed s'.
Proof.
  intros Hk Hm [Hd Hw]. destruct (in_world_keeps _ _ _ _ _ Hk Hm) as [Hsame Hds]. unfold diagnosed. rewrite Hds.
  split; [done|]. by rewrite Hsame.
Qed.

Lemma body_diagnosed code s u s' :
  aggregate_body hs hf cwd needs evidence errors c storage code s = (Ok u, s') → diagnosed s'.
Proof.
  unfold aggregate_body. intros ([jobs missing] & s0 & _ & H)%bind_inv.
  do 2 (apply bind_inv in H as (? & ? & _ & H)).
  apply bind_inv in H as (d & s3 & Hd & H). injection Hd as Hd <-.
  apply bind_inv in H as (? & ? & Hm & H). injection Hm as _ <-.
  apply bind_inv in H as (? & s4 & Hw & H). apply in_world_inv in Hw as (Hw%put_at & Hds & _); [|done]. cbn in Hds.
  assert (diagnosed s4) as H4. { unfold diagnosed. rewrite Hds, Hw. split; [done|]. apply lookup_insert_eq. }
  apply bind_inv in H as (? & s5 & Hr & H).
  eapply diagnosed_kept in Hr; [|by apply same_on_files, same_report|done].
  apply bind_inv in H as (? & ? & Hrel & H). injection Hrel as _ <-.
  apply bind_inv in H as (? & s6 & Hm & H). injection Hm as _ <-.
  apply bind_inv in H as (prov & s7 & Hfin & H). unfold finalize_aggregate in Hfin.
  do 2 (apply bind_inv in Hfin as (? & ? & Hrd & Hfin); injection Hrd as _ <-).
  eapply diagnosed_kept in Hfin; [|by apply same_finalize|exact Hr].
  apply bind_inv in H as (? & s8 & Hr2 & H). injection H as _ <-.
  eapply diagnosed_kept in Hr2; [done|by apply same_on_files, same_report|done].
Qed.

Lemma guarded_outcome verdict s code s' :
  aggregate_guarded hs hf cwd traceback needs evidence errors c storage verdict s = (Ok code, s') →
  code = 2%Z ∨ code = verdict ∧ diagnosed s'.
Proof.
  unfold aggregate_guarded, catch. match goal with |- match ?x with _ => _ end = _ → _ => destruct x as [[z|e] s1] eqn:E end.
  - intros [= <- <-]. right. apply bind_inv in E as (u & s2 & Hb & Hz). injection Hz as <- <-. by apply body_diagnosed in Hb.
  - intros (? & ? & _ & H)%bind_inv. injection H as <- _. by left.
Qed.
End aggregator.

Lemma aggregate_code needs evidence errors code : aggregate_exit_code needs evidence errors = Ok code → code = 0%Z ∨ code = 1%Z.
Proof.
  intros ([jobs missing] & _ & H)%res_bind_Ok. destruct jobs, missing; try destruct (all_success _); simplify_eq; auto.
Qed.

(** Where the aggregator puts the diagnosis. *)
Definition diagnosis_path (h : host) (cwd : path) : path :=
  path_join (ctx_run_dir (new_context h (repository_root (h_exists h) (h_resolve h cwd)) "")) (path_of "diagnosis.json").

(** * What the aggregator may touch *)

Definition a_outside (dir : path) : relation astate := fun s s' => w_outside dir (as_world s) (as_world s').
#[export] Instance a_outside_preorder dir : PreOrder (a_outside dir).
Proof. split; [intros s; unfold a_outside; reflexivity|]. intros x y z Hxy Hyz. unfold a_outside in *. by etrans. Qed.

Lemma keeps_in_world {A} dir (m : io world A) : keeps (w_outside dir) m → keeps (a_outside dir) (in_world m).
Proof. intros H s. specialize (H (as_world s)). unfold in_world. destruct (m (as_world s)). exact H. Qed.
Lemma keeps_in_files {A} dir (m : io fs A) : keeps (outside_same dir) m → keeps (a_outside dir) (in_files m).
Proof. intros H. by apply keeps_in_world, keeps_on_files. Qed.
Lemma keeps_locals dir f : (∀ s, as_world (f s) = as_world s) → keeps (a_outside dir) (modify f).
Proof. intros H s. unfold a_outside. cbn. rewrite H. reflexivity. Qed.
#[export] Hint Resolve keeps_in_files keeps_in_world : effects.

Lemma confined_bundles hs storage dir index evidence :
  run_dir storage = dir → (∀ q, h_resolve hs q = q) → keeps (a_outside dir) (write_bundles hs storage index evidence).
Proof.
  intros Hd Hid. revert index. induction evidence as [|b l IH]; intros index; cbn [write_bundles]; keeps_auto.
Qed.

(** Whether the analysis succeeds or fails, nothing outside the run directory changes. *)
Lemma aggregate_confined hs hf cwd traceback needs evidence errors c storage dir verdict :
  run_dir storage = dir → (∀ q, h_resolve hs q = q) → (∀ q, h_resolve hf q = q) →
  keeps (a_outside dir) (aggregate_guarded hs hf cwd traceback needs evidence errors c storage verdict).
Proof.
  intros Hd Hs Hf. unfold aggregate_guarded, aggregate_body, aggregate_failed, finalize_aggregate.
  keeps_auto; try (apply keeps_locals; done); by apply confined_bundles.
Qed.

(** * Claims *)

(** C2: The exit code of the aggregator is the verdict it leaves on disk.  When the entry point
    ends, its code is 0, 1 or 2; if it is not 2 (the analysis failed), then [diagnosis.json] in the
    run directory holds the diagnosis of the loaded needs and evidence, which says [passed] exactly
    when the code is 0; and with 0 there was at least one job, no evidence error, and every job
    succeeded and is evidenced. *)
Theorem aggregate_main_verdict hs hf cwd traceback raw dir_name entries s code s' :
  (∀ q, h_resolve hs q = q) → (∀ q, h_resolve hf q = q) →
  aggregate_main hs hf cwd traceback raw dir_name entries s = (Ok code, s') →
  ∃ text needs evidence errors,
    raw = Ok text ∧ load_needs (h_json_error hs) text = Ok needs
    ∧ load_evidence_directory (h_json_error hs) dir_name entries (github_context (h_env hs)) = (evidence, errors)
    ∧ (code = 2%Z
       ∨ (code = 0%Z ∨ code = 1%Z)
         ∧ w_files (as_world s') !! diagnosis_path hs cwd = Some (dumps_indent (PDict (as_diagnosis s')) +:+ nl)
         ∧ (code = 0%Z ↔ dget0 (as_diagnosis s') "validation_result" = PStr "passed")
         ∧ (code = 0%Z → needs ≠ [] ∧ errors = [] ∧ ∀ name value, (name, value) ∈ needs →
              lower (py_str (py_or (dgetd (dict_or_empty value) "result" (PStr "unknown")) (PStr "unknown"))) = "success"
              ∧ evidenced evidence name)).
Proof.
  intros Hs Hf (text & s0 & Hraw & H)%bind_inv. injection Hraw as Hraw <-.
  apply bind_inv in H as (needs & s1 & Hneeds & H). injection Hneeds as Hneeds <-.
  destruct (load_evidence_directory _ _ _ _) as [evidence errors] eqn:Hload.
  apply bind_inv in H as (c & s2 & Hc & H). apply in_world_inv in Hc as [Hc%create_context _].
  apply bind_inv in H as (storage & s3 & Hst & H). apply in_world_inv in Hst as [Hst _].
  assert (run_dir storage = ctx_run_dir c) as Hdir.
  { unfold on_files in Hst. destruct (init _ _ _ _ _) as [r files] eqn:E. injection Hst as -> _. apply init_dir in E as [-> _]. apply Hs. }
  apply bind_inv in H as (verdict & s4 & Hv & H). injection Hv as Hv <-.
  apply bind_inv in H as (code' & s5 & Hg & H). apply bind_inv in H as (? & ? & Hm & H). injection Hm as _ <-. injection H as <- <-.
  exists text, needs, evidence, errors. split_and!; [done..|]. cbn [as_world as_diagnosis].
  destruct (guarded_outcome _ _ _ _ Hs Hf _ _ _ _ _ _ _ _ _ Hg) as [->|[-> [Hd Hw]]]; [by left|right].
  destruct (diagnosis_agrees_with_exit_code _ _ _ _ _ _ Hd) as (z & Hz & Hiff & _). rewrite Hv in Hz. injection Hz as <-.
  split_and!; [by eapply aggregate_code| |done|].
  - unfold diagnosis_path. rewrite <- Hc, <- Hdir. done.
  - intros ->. by apply green_jobs.
Qed.

(** A producer's file is the aggregator's evidence, through the entry point: when [finish] ends
    with 0, the file at [output_path] is a bundle that the aggregator of the same workflow run
    accepts under any name. *)
Lemma finish_main_accepted env now json_error os_error is_dir shell job_id job_name step cmd status deps start_path output_path commands s s' name :
  evidence_main env now json_error os_error is_dir shell
    (FinishArgs job_id job_name step cmd status deps start_path output_path commands) s = (Ok 0%Z, s') →
  ∃ bundle, file_at (pr_files s') output_path = Content (CiEvidence.write_json bundle)
    ∧ belongs bundle (github_context env)
    ∧ (jsonable (PDict bundle) = true → wf_val (PDict bundle) → ascii_val (PDict bundle) = true →
       load_bundle json_error (github_context env) (name, file_at (pr_files s') output_path) = inl (canon_dict bundle)).
Proof.
  cbn [evidence_main]. intros (files & s0 & Hr & H)%bind_inv. injection Hr as <- <-.
  apply bind_inv in H as ([bundle text] & s1 & Hfin & H). injection Hfin as Hfin <-.
  apply bind_inv in H as (u & s2 & Hput & H). injection H as <-. exists bundle.
  destruct (finish_evidence_belongs _ _ _ _ _ _ _ _ _ _ _ _ _ Hfin) as (-> & Hb & Hfields).
  unfold put_evidence in Hput. destruct (os_error (path_parent _)); [done|]. destruct (os_error _); [done|]. injection Hput as _ <-.
  unfold file_at. cbn [pr_files snd]. rewrite lookup_insert_eq. split_and!; [done..|]. intros Hj Hw Ha.
  unfold load_bundle. cbn [snd]. rewrite read_write_json by done. by rewrite (proj2 (verify_nil _ _) (belongs_canon _ _ Hw Hb Hfields)).
Qed.

(** The exit status of [run] is that of the command, and its record says so. *)
Lemma run_main_exit env now json_error os_error is_dir shell job_id job_name step command_env wd output_path s code s' :
  evidence_main env now json_error os_error is_dir shell (RunArgs job_id job_name step command_env wd output_path) s = (Ok code, s') →
  code = match shell (getenv env command_env "") wd (pr_files s) with Captured rc _ _ => rc | CaptureError _ => 127%Z end
  ∧ ∃ record, pr_files s' !! output_path = Some (CiEvidence.write_json record) ∧ dget0 record "exit_code" = PInt code.
Proof.
  cbn [evidence_main]. destruct (negb _); [done|]. intros (files & s0 & Hr & H)%bind_inv. injection Hr as <- <-.
  apply bind_inv in H as (run & s1 & Hrun & H). injection Hrun as Hrun <-.
  apply bind_inv in H as (? & s2 & He & H). injection He as _ <-.
  apply bind_inv in H as (? & s3 & Hput & H). injection H as <- <-.
  unfold put_evidence in Hput. destruct (os_error (path_parent _)); [done|]. destruct (os_error _); [done|]. injection Hput as _ <-.
  unfold run_command_evidence in Hrun. apply res_bind_Ok in Hrun as ([] & _ & Hrun). cbn [pr_files].
  destruct (shell _ _ _); injection Hrun as <-; (split; [done|]); eexists; (split; [apply lookup_insert_eq|done]).
Qed.

(** A runner with the context of the demonstration workflow. *)
Definition demo_runner : host :=
  {| h_env := demo_env; h_git := demo_git; h_read_file := fun _ => None;
     h_exists := fun p => bool_decide (p = path_of "/r/.git"); h_resolve := id; h_os_error := fun _ => None;
     h_available := fun _ => false; h_run_tool := fun _ => ProcError "OSError"; h_executable := "python"; h_platform := "Linux";
     h_os_name := "posix"; h_machine := "x86_64"; h_code_files := None; h_now := "2026-01-01T00:00:00+00:00";
     h_stamp := "20260101T000000Z"; h_token := "abc123"; h_json_error := no_json_error; h_lock_error := None |}.
Local Notation demo_aggregate :=
  (aggregate_main demo_runner demo_runner (path_of "/r/sub") exn_str (Ok (dumps false (PDict demo_needs))) "artifacts"
     (Some [("python.json", Content demo_job_text)]) (AState (World ∅ (Store Missing Missing []) "") [] "" [])).
Lemma aggregate_main_verdict_witness :
  ∃ s', demo_aggregate = (Ok 0%Z, s')
    ∧ w_files (as_world s') !! path_of "/r/.o11y/runs/gha-7-1-a1-f921bd/diagnosis.json"
      = Some (dumps_indent (PDict (as_diagnosis s')) +:+ nl)
    ∧ dget0 (as_diagnosis s') "validation_result" = PStr "passed".
Proof.
  assert (bool_decide (demo_aggregate.1 = Ok 0%Z) = true) as H by (vm_compute; reflexivity).
  destruct demo_aggregate as [r s'] eqn:E. apply bool_decide_eq_true in H. cbn [fst] in H. subst r. exists s'. split; [reflexivity|].
  destruct (aggregate_main_verdict demo_runner demo_runner (path_of "/r/sub") exn_str (Ok (dumps false (PDict demo_needs))) "artifacts"
    (Some [("python.json", Content demo_job_text)]) (AState (World ∅ (Store Missing Missing []) "") [] "" []) 0%Z s'
    (fun _ => eq_refl) (fun _ => eq_refl) E) as (text & needs & evidence & errors & _ & _ & _ & [H|(_ & Hw & Hp & _)]); [discriminate H|].
  split; [exact Hw|apply Hp; reflexivity].
Defined.
