(* ===== verification/Secrecy.v ===== *)
(** Secrets of the environment do not reach a run directory when a run is created or finalised:
    two environments that differ only in the values of sensitive variables give the same files,
    the same index and the same results.  Every operation gets one congruence lemma. *)
From S2P Require Import Prelude PyStr PyFloat PyVal Regex RegexFacts Json JsonFacts JsonIndent Hashing PyPath PyText PyIO Redaction RedactionFacts Storage Provenance Freshness RunIndex RunContext RunContextFacts RunCommand FailureReport CiEvidence CiEvidenceFacts CiCommands CiAggregate CiAggregateFacts CiMain CiMainFacts.

(** * Environments an observer cannot tell apart *)

Definition public_entry (a b : string * string) : Prop :=
  a.1 = b.1 ∧ (if is_sensitive_key a.1 then bool_decide (a.2 = "") = bool_decide (b.2 = "") else a.2 = b.2).
Definition public_eq : relation (list (string * string)) := Forall2 public_entry.

#[export] Instance public_entry_equivalence : Equivalence public_entry.
Proof.
  unfold public_entry. split.
  - intros [k v]. simpl. by destruct (is_sensitive_key k).
  - intros [k v] [k' v']. simpl. intros [-> H]. by destruct (is_sensitive_key k').
  - intros [k v] [k' v'] [k'' v'']. simpl. intros [-> H1] [-> H2]. destruct (is_sensitive_key k''); by rewrite H1.
Qed.
#[export] Instance public_eq_equivalence : Equivalence public_eq.
Proof. unfold public_eq. split; apply _. Qed.

Lemma getenv_public e e' name dflt : public_eq e e' → is_sensitive_key name = false → getenv e name dflt = getenv e' name dflt.
Proof.
  intros H Hn. unfold getenv. f_equal. induction H as [|[k v] [k' v'] e e' [Hk Hv] _ IH]; [done|]. simpl in *. subst k'.
  destruct (decide (name = k)) as [<-|]; [|done]. by rewrite Hn in Hv; subst.
Qed.

(** The same machine with another environment. *)
Definition in_env (e : list (string * string)) (h : host) : host :=
  Host e (h_git h) (h_read_file h) (h_exists h) (h_resolve h) (h_os_error h) (h_available h) (h_run_tool h) (h_executable h)
    (h_platform h) (h_os_name h) (h_machine h) (h_code_files h) (h_now h) (h_stamp h) (h_token h) (h_json_error h) (h_lock_error h).

Section public.
Context (e e' : list (string * string)) (Hpub : public_eq e e') (h : host).

(** Replace the reads of public variables. *)
Ltac public_reads := repeat (rewrite (getenv_public e e' _ _ Hpub) by (vm_compute; reflexivity)).

Lemma env_redacted_public :
  redact_mapping (map (fun kv => (kv.1, PStr kv.2)) e) = redact_mapping (map (fun kv => (kv.1, PStr kv.2)) e').
Proof.
  unfold redact_mapping. f_equal. clear h. revert Hpub. induction 1 as [|[k v] [k' v'] l l' [Hk Hv] _ IH]; [done|]. cbn [map fst snd] in *. subst k'.
  f_equal; [|exact IH]. f_equal. destruct (is_sensitive_key k) eqn:Hs.
  - rewrite !redact_value_sensitive by done. f_equal. unfold redacted_presence, present.
    change (py_eqb (PStr ?x) PNone) with false. cbn [orb]. change (py_eqb (PStr ?x) (PStr "")) with (bool_decide (x = "")). by rewrite Hv.
  - by subst.
Qed.

Lemma git_state_public git read_file : collect_git_state git read_file e = collect_git_state git read_file e'.
Proof. unfold collect_git_state. by public_reads. Qed.
Lemma collect_git_public : collect_git (in_env e h) = collect_git (in_env e' h).
Proof. unfold collect_git, in_env. cbn [h_git h_read_file h_env]. rewrite git_state_public. by public_reads. Qed.
Lemma provenance_public root id started finished status commands :
  run_provenance (in_env e h) root id started finished status commands = run_provenance (in_env e' h) root id started finished status commands.
Proof.
  unfold run_provenance, collect_run_provenance, in_env, tool_versions. cbn [h_git h_read_file h_env h_resolve h_code_files h_platform h_machine
    h_available h_run_tool h_executable h_os_name]. rewrite git_state_public. by public_reads.
Qed.
Lemma run_id_public sha : derive_run_id (in_env e h) sha = derive_run_id (in_env e' h) sha.
Proof. unfold derive_run_id, in_env. cbn [h_env h_stamp h_token]. by public_reads. Qed.

Lemma new_context_public root id : new_context (in_env e h) root id = new_context (in_env e' h) root id.
Proof.
  unfold new_context. cbv zeta. rewrite collect_git_public. generalize (collect_git (in_env e' h)). intros git.
  rewrite run_id_public. rewrite provenance_public.
  unfold environment_name. cbn [in_env h_env h_now]. by public_reads.
Qed.
Lemma create_public start id : create_run_context (in_env e h) start id = create_run_context (in_env e' h) start id.
Proof.
  unfold create_run_context. cbv zeta. rewrite new_context_public, collect_git_public.
  cbn [in_env h_env h_exists h_resolve h_os_error h_now]. by rewrite env_redacted_public.
Qed.
Lemma finalize_public c status command code executed :
  finalize_run_context (in_env e h) c status command code executed = finalize_run_context (in_env e' h) c status command code executed.
Proof. unfold finalize_run_context. cbv zeta. by rewrite provenance_public. Qed.
Lemma report_public cwd : generate_run_report (in_env e h) cwd = generate_run_report (in_env e' h) cwd.
Proof.
  unfold generate_run_report, freshness_of, classify_freshness. cbn [in_env h_env h_git h_read_file h_resolve h_os_error].
  by rewrite git_state_public.
Qed.
Lemma workflow_context_public : github_context e = github_context e'.
Proof. unfold github_context. by public_reads. Qed.
End public.

(** * Computations with the same outcome from every state *)

Definition io_eq {S A} : relation (io S A) := fun m n => ∀ s, m s = n s.

Lemma bind_eq {S A B} (m n : io S A) (f g : A → io S B) : io_eq m n → (∀ a, io_eq (f a) (g a)) → io_eq (m ≫= f) (n ≫= g).
Proof. intros Hm Hf s. unfold mbind, io_bind. rewrite Hm. destruct (n s) as [[a|x] s1]; [apply Hf|done]. Qed.
Lemma catch_eq {S A} (m n : io S A) (f g : exn → io S A) : io_eq m n → (∀ x, io_eq (f x) (g x)) → io_eq (catch m f) (catch n g).
Proof. intros Hm Hf s. unfold catch. rewrite Hm. destruct (n s) as [[a|x] s1]; [done|apply Hf]. Qed.
Lemma in_world_eq {A} (m n : io world A) : io_eq m n → io_eq (in_world m) (in_world n).
Proof. intros H s. unfold in_world. by rewrite H. Qed.

(** Reduce an equality of computations to the operations that differ. *)
Ltac io_step :=
  match goal with
  | |- io_eq (_ ≫= _) (_ ≫= _) => apply bind_eq; [|intros ?]
  | |- io_eq (catch _ _) (catch _ _) => apply catch_eq; [|intros ?]
  | |- io_eq (in_world _) (in_world _) => apply in_world_eq
  | |- io_eq (let '(_, _) := ?x in _) _ => destruct x
  | |- io_eq ?m ?m => intros ?; reflexivity
  end.

Section aggregator.
Context (e e' f f' : list (string * string)) (He : public_eq e e') (Hf : public_eq f f') (hs hf : host) (cwd : path).

Lemma finalize_eq c storage status code :
  io_eq (finalize_aggregate (in_env f hf) c storage status code) (finalize_aggregate (in_env f' hf) c storage status code).
Proof. unfold finalize_aggregate. repeat io_step. intros w. by rewrite (finalize_public f f' Hf). Qed.

Lemma body_eq needs evidence errors c storage code :
  io_eq (aggregate_body (in_env e hs) (in_env f hf) cwd needs evidence errors c storage code)
        (aggregate_body (in_env e' hs) (in_env f' hf) cwd needs evidence errors c storage code).
Proof.
  unfold aggregate_body. rewrite (report_public e e' He), (report_public f f' Hf).
  repeat (io_step || apply finalize_eq || (intros ?; reflexivity)).
Qed.

Lemma guarded_eq traceback needs evidence errors c storage code :
  io_eq (aggregate_guarded (in_env e hs) (in_env f hf) cwd traceback needs evidence errors c storage code)
        (aggregate_guarded (in_env e' hs) (in_env f' hf) cwd traceback needs evidence errors c storage code).
Proof.
  unfold aggregate_guarded, aggregate_failed.
  repeat (io_step || apply body_eq || apply finalize_eq || (intros ?; reflexivity)).
Qed.
End aggregator.

(** * Claims *)

(** C9: The secrets of a CI job stay out of everything the aggregator leaves behind.  Two runs of
    the aggregator on the same machine and evidence, whose environments have the same variables
    in the same order, the same values under names that are not sensitive, and under sensitive
    names values that are both empty or both nonempty ([public_eq]), end with the same exit code
    or exception and leave the same files, the same index and the same output.  Whether a
    sensitive variable is set and whether it is empty may show. *)
Theorem aggregate_hides_secrets e e' f f' hs hf cwd traceback raw dir_name entries s :
  public_eq e e' → public_eq f f' →
  aggregate_main (in_env e hs) (in_env f hf) cwd traceback raw dir_name entries s
  = aggregate_main (in_env e' hs) (in_env f' hf) cwd traceback raw dir_name entries s.
Proof.
  intros He Hf. unfold aggregate_main. rewrite (create_public e e' He). cbn [in_env h_env h_json_error]. rewrite (workflow_context_public e e' He).
  revert s. match goal with |- ∀ s, ?m s = ?n s => change (io_eq m n) end.
  repeat (io_step || apply guarded_eq || (intros ?; reflexivity)); done.
Qed.

Definition demo_secret (dsn : string) : list (string * string) := demo_env ++ [("SENTRY_DSN", dsn); ("HOME", "/root")].
Lemma demo_secret_public a b : a ≠ "" → b ≠ "" → public_eq (demo_secret a) (demo_secret b).
Proof.
  intros Ha Hb. unfold public_eq, demo_secret. apply Forall2_app; [reflexivity|].
  constructor; [|reflexivity]. split; [done|]. cbn [fst snd]. change (is_sensitive_key "SENTRY_DSN") with true. by rewrite !bool_decide_false by done.
Qed.
Lemma aggregate_hides_secrets_witness :
  aggregate_main (in_env (demo_secret "https://a@sentry/1") demo_runner) (in_env (demo_secret "https://a@sentry/1") demo_runner)
    (path_of "/r/sub") exn_str (Ok (dumps false (PDict demo_needs))) "artifacts" (Some [("python.json", Content demo_job_text)])
    (AState (World ∅ (Store Missing Missing []) "") [] "" [])
  = aggregate_main (in_env (demo_secret "https://b@sentry/2") demo_runner) (in_env (demo_secret "https://b@sentry/2") demo_runner)
    (path_of "/r/sub") exn_str (Ok (dumps false (PDict demo_needs))) "artifacts" (Some [("python.json", Content demo_job_text)])
    (AState (World ∅ (Store Missing Missing []) "") [] "" []).
Proof. apply (aggregate_hides_secrets _ _ _ _ demo_runner demo_runner); apply demo_secret_public; discriminate. Defined.
