(* ===== verification/KubePolicy.v ===== *)
(** Policies over rendered Kubernetes manifests ([scripts/verify_rendered_kubernetes.py]): which
    resources a production render may contain, how images must be pinned and which secrets each
    workload must and must not reference.  The YAML reader and printer are parameters: [verify]
    takes the documents of the file, and [safe_dump] renders a value. *)
From S2P Require Import Prelude PyStr PyFloat PyVal Regex PyText.

(** * Helpers *)

Definition DIGEST_IMAGE : regex := re_compile "^(?P<repository>\S+)@sha256:(?P<digest>[0-9a-f]{64})$".
Definition WORKLOAD_KINDS : list string := ["Deployment"; "StatefulSet"; "DaemonSet"; "Job"].
Definition KNOWN_SENTINEL_DIGESTS : list string :=
  [join "" (replicate 8 "deadbeef"); join "" (replicate 4 "0123456789abcdef")].

(** [nested(value, *keys)] *)
Fixpoint nested (value : pyval) (keys : list string) : pyval :=
  match keys, value with
  | [], _ => value
  | k :: keys', PDict d => nested (dget0 d k) keys'
  | _ :: _, _ => PNone
  end.

Definition pod_spec (resource : dict) : pyval :=
  if py_eqb (dget0 resource "kind") (PStr "CronJob")
  then py_or (nested (PDict resource) ["spec"; "jobTemplate"; "spec"; "template"; "spec"]) (PDict [])
  else py_or (nested (PDict resource) ["spec"; "template"; "spec"]) (PDict []).

(** The name a [secretRef] or [secretKeyRef] entry gives. *)
Definition own_reference (key : string) (child : pyval) : list string :=
  if bool_decide (key ∈ ["secretRef"; "secretKeyRef"])
  then match child with
       | PDict d => if truthy (dget0 d "name") then [py_str (dget0 d "name")] else []
       | _ => []
       end
  else [].

(** [secret_references], as a list: only membership is asked of it. *)
Fixpoint secret_references (value : pyval) : list string :=
  match value with
  | PDict d => (fix go (l : dict) : list string :=
                  match l with [] => [] | (key, child) :: l' => own_reference key child ++ secret_references child ++ go l' end) d
  | PList l => (fix go (l : list pyval) : list string :=
                  match l with [] => [] | child :: l' => secret_references child ++ go l' end) l
  | _ => []
  end.

(** [len(set(digest)) == 1] *)
Definition one_character (s : string) : bool := bool_decide (length (dedup_first (chars s)) = 1).

Definition image_reference_error (image : string) : option string :=
  match re_fullmatch DIGEST_IMAGE image with
  | None => Some "mutable or syntactically invalid"
  | Some m =>
      let repository := groupd m 1 in
      let digest := groupd m 2 in
      if one_character digest || bool_decide (digest ∈ KNOWN_SENTINEL_DIGESTS) then Some "placeholder digest"
      else if startswith "registry.example.com/" repository then Some "placeholder registry"
      else None
  end.

(** [env_value]: the first row of the name decides. *)
Fixpoint env_row (name : string) (rows : list pyval) : string :=
  match rows with
  | [] => ""
  | PDict row :: rows' =>
      if py_eqb (dget0 row "name") (PStr name) then py_str (py_or (dget0 row "value") (PStr "")) else env_row name rows'
  | _ :: rows' => env_row name rows'
  end.
Definition env_value (container : dict) (name : string) : res string :=
  let! rows := py_iter (dgetd container "env" (PList [])) in Ok (env_row name rows).

(** * [verify] *)

Definition identity : Type := string * string.
Definition resource_name (row : dict) : string := py_str (py_or (nested (PDict row) ["metadata"; "name"]) (PStr "")).
Definition identity_of (row : dict) : identity := (py_str (dget0 row "kind"), resource_name row).
Definition slash (kind name : string) : string := kind +:+ "/" +:+ name.

(** [dict] with a pair as key: a later resource of the same identity replaces the earlier one
    and keeps its place. *)
Fixpoint iset (i : identity) (row : dict) (l : list (identity * dict)) : list (identity * dict) :=
  match l with
  | [] => [(i, row)]
  | (j, r) :: l' => if bool_decide (i = j) then (i, row) :: l' else (j, r) :: iset i row l'
  end.
Definition by_identity (rows : list dict) : list (identity * dict) :=
  fold_left (fun l row => iset (identity_of row) row l) rows [].
Definition iget (i : identity) (l : list (identity * dict)) : option dict :=
  snd <$> find_first (fun x => bool_decide (x.1 = i)) l.

Definition QUILKIN_UPSTREAM := "encore-backend.eve-trade.svc.cluster.local:26000".

Section verify.
Context (safe_dump : pyval → string).

Definition is_simulator (name : string) (row : dict) : res bool :=
  if bool_decide (name = "simulator") then Ok true
  else let! label := py_get (py_or (nested (PDict row) ["metadata"; "labels"]) (PDict [])) "app.kubernetes.io/name" in
       Ok (py_eqb label (PStr "simulator")).

Definition quilkin_errors (c : dict) : res (list string) :=
  let! upstream := env_value c "QUILKIN_BACKEND_ENDPOINT" in
  Ok ((if bool_decide (upstream = QUILKIN_UPSTREAM) then [] else ["quilkin must use the stable Encore service FQDN"])
      ++ (if contains "ENCORE_BACKEND_SERVICE_HOST" (safe_dump (PDict c))
          then ["quilkin depends on disabled Kubernetes service-link variables"] else [])).

Definition image_of (c : dict) : string := py_str (py_or (dget0 c "image") (PStr "")).
Definition image_errors (kind name : string) (c : dict) : list string :=
  match image_reference_error (image_of c) with
  | Some reason => ["workload " +:+ slash kind name +:+ " container " +:+ py_str (dget0 c "name") +:+ " uses " +:+ reason
                    +:+ " image " +:+ repr_str (image_of c)]
  | None => []
  end.
Definition container_errors (kind name : string) (container : pyval) : res (list string) :=
  match container with
  | PDict c =>
      let! more := if bool_decide (name = "quilkin") && py_eqb (dget0 c "name") (PStr "quilkin") then quilkin_errors c else Ok [] in
      Ok (image_errors kind name c ++ more)
  | _ => Raise AttributeError
  end.

Definition containers_of (row : dict) : res (list pyval) :=
  let! inits := res_bind (py_get_or (pod_spec row) "initContainers" (PList [])) py_iter in
  let! mains := res_bind (py_get_or (pod_spec row) "containers" (PList [])) py_iter in
  Ok (inits ++ mains).

Definition workload_errors (kind name : string) (row : dict) : res (list string) :=
  let! containers := containers_of row in
  let! errors := res_mapM (container_errors kind name) containers in
  Ok ((match containers with [] => ["workload " +:+ slash kind name +:+ " has no containers"] | _ => [] end) ++ concat errors).

Definition kind_of (row : dict) : string := py_str (py_or (dget0 row "kind") (PStr "")).
Definition is_workload (kind : string) : bool := bool_decide (kind ∈ WORKLOAD_KINDS) || bool_decide (kind = "CronJob").

Definition resource_errors (row : dict) : res (list string) :=
  let kind := kind_of row in
  let name := resource_name row in
  let! simulator := is_simulator name row in
  let! workload := if is_workload kind then workload_errors kind name row else Ok [] in
  Ok ((if simulator then ["production render contains simulator resource " +:+ slash kind name] else []) ++ workload).

(** [required_secret_contracts] *)
Definition CONTRACTS : list (identity * list string) :=
  [(("Deployment", "encore-backend"), ["gateway-edge-auth"; "market-database"]);
   (("Deployment", "trade-settlement"), ["trade-settlement-database"]);
   (("Job", "settlement-db-migrate"), ["trade-settlement-migration-database"])].

Definition when_error (b : bool) (message : string) : list string := if b then [message] else [].
Definition contract_errors (index : list (identity * dict)) (c : identity * list string) : list string :=
  let '(i, required) := c in
  match iget i index with
  | None => ["production render is missing " +:+ slash i.1 i.2]
  | Some row =>
      let actual := secret_references (pod_spec row) in
      let missing := filterb (fun s => negb (bool_decide (s ∈ actual))) required in
      when_error (negb (bool_decide (missing = [])))
        (slash i.1 i.2 +:+ " is missing secret references " +:+ py_repr (PList (map PStr (sort_by str_leb missing))))
      ++ when_error (bool_decide (i = ("Job", "settlement-db-migrate")) && bool_decide ("trade-settlement-database" ∈ actual))
           "migration job uses the runtime database credential"
      ++ when_error (bool_decide (i = ("Deployment", "encore-backend")) && bool_decide ("trade-settlement-database" ∈ actual))
           "encore-backend uses the settlement writer database credential"
      ++ when_error (bool_decide (i.1 = "Deployment") && bool_decide ("trade-settlement-migration-database" ∈ actual))
           ("runtime workload " +:+ i.2 +:+ " uses the migration database credential")
  end.

Definition EXPOSED_TYPES : list string := ["NodePort"; "LoadBalancer"; "ExternalName"].
Definition service_type (row : dict) : string := py_str (py_or (nested (PDict row) ["spec"; "type"]) (PStr "ClusterIP")).
Definition service_errors (x : identity * dict) : list string :=
  let '((kind, name), row) := x in
  if negb (bool_decide (kind = "Service")) || bool_decide (name = "quilkin") then []
  else when_error (bool_decide (service_type row ∈ EXPOSED_TYPES))
         ("internal service " +:+ name +:+ " is exposed as " +:+ service_type row).

Definition hashable (v : pyval) : bool := negb (is_list v || is_dict v).
(** [set(v) == {"Ingress", "Egress"}] *)
Definition denies_both (policy_types : list pyval) : bool :=
  all (fun t => py_eqb t (PStr "Ingress") || py_eqb t (PStr "Egress")) policy_types
  && any (fun t => py_eqb t (PStr "Ingress")) policy_types && any (fun t => py_eqb t (PStr "Egress")) policy_types.
Definition default_deny_errors (index : list (identity * dict)) : res (list string) :=
  let row := default [] (iget ("NetworkPolicy", "default-deny") index) in
  let! types := py_iter (py_or (nested (PDict row) ["spec"; "policyTypes"]) (PList [])) in
  if all hashable types
  then Ok (when_error (negb (denies_both types)) "production default-deny NetworkPolicy must deny both ingress and egress")
  else Raise TypeError.

Definition dict_rows (documents : list pyval) : list dict :=
  flat_map (fun v => match v with PDict d => [d] | _ => [] end) documents.

Definition verify (documents : list pyval) : res (list string) :=
  let rows := dict_rows documents in
  let index := by_identity rows in
  let! resources := res_mapM resource_errors rows in
  let! deny := default_deny_errors index in
  Ok (concat resources ++ flat_map (contract_errors index) CONTRACTS ++ flat_map service_errors index ++ deny).

(** * [main] *)

Definition is_template_error (error : string) : bool :=
  contains "placeholder digest image" error || contains "placeholder registry image" error.

(** Standard output, standard error and the exit status. *)
Record printed : Type := Printed { out_lines : list string; err_lines : list string; status : Z }.

Definition verdict (errors : list string) (out : list string) : printed :=
  let err := map (fun e => "rendered Kubernetes policy violation: " +:+ e) errors in
  match errors with
  | [] => Printed (out ++ ["rendered Kubernetes reliability policies passed"]) err 0
  | _ => Printed out err 1
  end.

Definition verify_main (expect_unresolved : bool) (documents : list pyval) : res printed :=
  let! errors := verify documents in
  if expect_unresolved then
    let unresolved := filterb is_template_error errors in
    let others := filterb (fun e => negb (bool_decide (e ∈ unresolved))) errors in
    Ok (match unresolved with
        | [] => verdict (others ++ ["production template unexpectedly contains no unresolved image identities"]) []
        | _ => verdict others ["production template retains " +:+ str_of_nat (length unresolved)
                               +:+ " unresolved image identities; release provenance is required"]
        end)
  else Ok (verdict errors []).
End verify.
