(* ===== verification/KubePolicyFacts.v ===== *)
(** Correctness of the manifest policies: a clean report is a production-ready render, and the
    template mode excuses nothing but unresolved images. *)
From S2P Require Import Prelude PyStr PyFloat PyVal Regex RegexFacts PyText KubePolicy.

(** * Secret references *)

(** A value refers to a secret when a [secretRef] or [secretKeyRef] anywhere inside names it. *)
Inductive refers (name : string) : pyval → Prop :=
| refers_here d key child :
    (key, PDict child) ∈ d → key ∈ ["secretRef"; "secretKeyRef"] → truthy (dget0 child "name") = true →
    py_str (dget0 child "name") = name → refers name (PDict d)
| refers_value d key child : (key, child) ∈ d → refers name child → refers name (PDict d)
| refers_item l child : child ∈ l → refers name child → refers name (PList l).
#[local] Hint Constructors refers : core.

Lemma own_reference_spec name key child :
  name ∈ own_reference key child ↔
  key ∈ ["secretRef"; "secretKeyRef"] ∧ ∃ d, child = PDict d ∧ truthy (dget0 d "name") = true ∧ py_str (dget0 d "name") = name.
Proof.
  unfold own_reference. case_bool_decide as Hk; [|split; [by intros ?%not_elem_of_nil|by intros [? _]]].
  destruct child as [| | | | | | |d]; try (split; [by intros ?%not_elem_of_nil|by intros (_ & d' & [=] & _)]).
  destruct (truthy (dget0 d "name")) eqn:Ht.
  - rewrite list_elem_of_singleton. split; [intros ->; eauto 10|]. by intros (_ & d' & [= <-] & _ & <-).
  - split; [by intros ?%not_elem_of_nil|]. intros (_ & d' & [= <-] & Ht' & _). congruence.
Qed.

Lemma secret_references_spec name v : name ∈ secret_references v ↔ refers name v.
Proof.
  induction v as [| | | | |l IH|l IH|d IH] using pyval_ind'; simpl;
    try (split; [by intros ?%not_elem_of_nil|by inversion 1]).
  - transitivity (∃ c, c ∈ l ∧ refers name c); [|split; [intros (c & ? & ?); eauto|by inversion 1; eauto]].
    induction IH as [|c l Hc _ IHl]; [split; [by intros ?%not_elem_of_nil|by intros (? & ?%not_elem_of_nil & _)]|].
    rewrite elem_of_app, Hc, IHl. setoid_rewrite elem_of_cons. naive_solver.
  - transitivity (∃ k c, (k, c) ∈ d ∧ (name ∈ own_reference k c ∨ refers name c)).
    + induction IH as [|[k c] d Hc _ IHd]; [split; [by intros ?%not_elem_of_nil|by intros (? & ? & ?%not_elem_of_nil & _)]|].
      rewrite !elem_of_app, IHd. simpl in Hc. rewrite Hc. setoid_rewrite elem_of_cons. naive_solver.
    + setoid_rewrite own_reference_spec. split.
      * intros (k & c & Hin & [(Hk & e & -> & ? & ?)|?]); eauto.
      * inversion 1; subst; eauto 12.
Qed.

(** * Images *)

Definition is_hex (c : ascii) : bool := false || between 48 57 c || between 97 102 c.
Definition not_space (c : ascii) : bool := negb (is_space c).

Lemma DIGEST_IMAGE_eq :
  DIGEST_IMAGE = RSeq RStart (RSeq (RGroup 1 (RSeq (RSet not_space) (RStar true (RSet not_space))))
    (rsets_then (map is_char (explode "@sha256:")) (RSeq (RGroup 2 (rrep 64 (RSet is_hex))) RDollar))).
Proof. reflexivity. Qed.

Definition hex_text (w : text) : Prop := length w = 64 ∧ Forall (fun c => is_hex c = true) w.
Definition repository_text (w : text) : Prop := w ≠ [] ∧ Forall (fun c => not_space c = true) w.
Definition at_sha : text := explode "@sha256:".

(** The pattern accepts exactly [repository@sha256:digest], and its groups are the two parts. *)
Lemma digest_image_Some image m :
  re_fullmatch DIGEST_IMAGE image = Some m →
  ∃ r d, explode image = r ++ at_sha ++ d ∧ repository_text r ∧ hex_text d ∧ groupd m 1 = implode r ∧ groupd m 2 = implode d.
Proof.
  rewrite DIGEST_IMAGE_eq. intros H. apply fullmatch_groups in H as (p1 & p2 & p3 & H1 & H3 & He & (v & Hv & Hl) & -> & ->); [|done..].
  apply denote_plus_set in H1 as (r & Hr & Hn & Hf). apply denote_rep_set in H3 as (d & Hd & Hlen & Hx).
  rewrite (consumed_moved _ _ _ Hd), (consumed_moved _ _ _ Hr). apply is_char_text in Hl as ->.
  exists r, d. destruct Hr as [Hr _], Hv as [Hv _], Hd as [Hd _]. cbn [fst snd] in Hr. split; [|done].
  by rewrite Hr, Hv, Hd, He, app_nil_r.
Qed.

Lemma digest_image_complete r d :
  repository_text r → hex_text d → re_fullmatch DIGEST_IMAGE (implode (r ++ at_sha ++ d)) ≠ None.
Proof.
  intros [Hn Hf] [Hlen Hx] H. unfold re_fullmatch in H. rewrite match_at_None, explode_implode, DIGEST_IMAGE_eq in H.
  set (p1 := (rev r ++ [], at_sha ++ d)). set (p2 := (rev at_sha ++ p1.1, d)). set (p3 := (rev d ++ p2.1, [] : text)).
  apply (H p3). exists p3. split; [|done]. exists ([], r ++ at_sha ++ d). split; [done|]. exists p1. split.
  { apply denote_plus_set. exists r. done. }
  apply denote_sets_then. exists at_sha, p2. split; [done|]. split; [by apply is_char_text|].
  exists p3. split; [|done]. apply denote_rep_set. exists d. split; [|done]. split; [by rewrite app_nil_r|done].
Qed.

(** An image reference that names one immutable, real image. *)
Definition pinned (image : string) : Prop :=
  ∃ repository digest, image = repository +:+ "@sha256:" +:+ digest
    ∧ repository_text (explode repository) ∧ hex_text (explode digest)
    ∧ one_character digest = false ∧ digest ∉ KNOWN_SENTINEL_DIGESTS ∧ ¬ ∃ t, repository = "registry.example.com/" +:+ t.

Lemma image_split_unique r d r' d' :
  hex_text d → hex_text d' → r ++ at_sha ++ d = r' ++ at_sha ++ d' → r = r' ∧ d = d'.
Proof.
  intros [Hd _] [Hd' _] H. rewrite !app_assoc in H. apply app_inj_2 in H as [H ->]; [|congruence].
  by apply app_inv_tail in H.
Qed.

Lemma image_reference_ok image : image_reference_error image = None ↔ pinned image.
Proof.
  unfold image_reference_error. destruct (re_fullmatch DIGEST_IMAGE image) as [m|] eqn:E.
  - apply digest_image_Some in E as (r & d & Hi & Hr & Hd & -> & ->).
    assert (image = implode r +:+ "@sha256:" +:+ implode d) as ->.
    { rewrite <- (implode_explode image), Hi, !implode_app. done. }
    split.
    + intros H. exists (implode r), (implode d). rewrite !explode_implode.
      destruct (one_character _); [done|]. case_bool_decide; [done|].
      destruct (startswith _ _) eqn:Es; [done|]. split_and!; try done.
      intros (t & Ht). rewrite Ht, startswith_app in Es. done.
    + intros (r' & d' & Heq & Hr' & Hd' & H1 & H2 & H3).
      apply (f_equal explode) in Heq. rewrite !explode_app, !explode_implode in Heq.
      apply image_split_unique in Heq as [-> ->]; [|done..]. rewrite !implode_explode.
      rewrite H1, bool_decide_false by done. destruct (startswith _ r') eqn:Es; [|done].
      apply startswith_spec in Es. done.
  - split; [done|]. intros (r & d & -> & Hr & Hd & _). exfalso. eapply (digest_image_complete (explode r) (explode d)); [done..|].
    by rewrite !implode_app, !implode_explode.
Qed.

(** * The index by identity *)

(** The last resource of an identity in the render. *)
Definition latest (rows : list dict) (i : identity) (row : dict) : Prop :=
  ∃ before after, rows = before ++ row :: after ∧ identity_of row = i ∧ ∀ r, r ∈ after → identity_of r ≠ i.

Lemma iget_iset i j row l : iget i (iset j row l) = if decide (i = j) then Some row else iget i l.
Proof.
  unfold iget. induction l as [|[k r] l IH]; simpl.
  { destruct (decide (i = j)); [by rewrite bool_decide_true|by rewrite bool_decide_false by congruence]. }
  repeat case_bool_decide; simpl; repeat case_bool_decide; destruct (decide _); subst; done || congruence.
Qed.

Lemma by_identity_snoc rows row : by_identity (rows ++ [row]) = iset (identity_of row) row (by_identity rows).
Proof. unfold by_identity. by rewrite fold_left_app. Qed.

Lemma latest_snoc rows r i row :
  latest (rows ++ [r]) i row ↔ if decide (identity_of r = i) then row = r else latest rows i row.
Proof.
  split.
  - intros (b & a & Heq & Hi & Ha). destruct (decide (identity_of r = i)) as [Hr|Hr].
    + destruct a as [|x a _] using rev_ind; [by apply app_inj_tail in Heq as [_ ->]|].
      rewrite app_comm_cons, app_assoc in Heq. apply app_inj_tail in Heq as [_ <-]. exfalso. by apply (Ha r); [apply elem_of_app; right; left|].
    + destruct a as [|x a _] using rev_ind; [apply app_inj_tail in Heq as [_ ->]; congruence|].
      rewrite app_comm_cons, app_assoc in Heq. apply app_inj_tail in Heq as [-> ->]. exists b, a. split_and!; [done..|].
      intros y Hy. apply Ha, elem_of_app. by left.
  - destruct (decide _) as [Hr|Hr].
    + intros ->. exists rows, []. split_and!; [done..|]. by intros ? ?%not_elem_of_nil.
    + intros (b & a & -> & Hi & Ha). exists b, (a ++ [r]). split_and!; [by rewrite <- app_assoc|done|].
      intros y [Hy|Hy]%elem_of_app; [by apply Ha|by apply list_elem_of_singleton in Hy as ->].
Qed.

Lemma iget_by_identity rows i row : iget i (by_identity rows) = Some row ↔ latest rows i row.
Proof.
  induction rows as [|r rows IH] using rev_ind.
  { split; [done|]. intros (b & a & Heq & _). by destruct b. }
  rewrite by_identity_snoc, iget_iset, latest_snoc. destruct (decide (i = _)) as [->|]; [rewrite decide_True by done|rewrite decide_False by done].
  - split; congruence.
  - done.
Qed.

Lemma iset_keys i row l : NoDup l.*1 → NoDup (iset i row l).*1 ∧ ∀ j, j ∈ (iset i row l).*1 ↔ j = i ∨ j ∈ l.*1.
Proof.
  induction l as [|[k r] l IH]; simpl; [intros _; split; [apply NoDup_singleton|set_solver]|].
  intros [Hk Hl]%NoDup_cons. case_bool_decide; simpl; [subst; split; [by constructor|set_solver]|].
  destruct (IH Hl) as [Hn Hj]. split; [|intros j; rewrite !elem_of_cons, Hj; tauto].
  constructor; [|done]. rewrite Hj. intros [->|]; done.
Qed.

Lemma elem_by_identity rows i row : (i, row) ∈ by_identity rows ↔ latest rows i row.
Proof.
  rewrite <- iget_by_identity. assert (NoDup (by_identity rows).*1) as Hn.
  { induction rows as [|r rows IH] using rev_ind; [constructor|]. rewrite by_identity_snoc. by apply iset_keys. }
  revert Hn. generalize (by_identity rows). intros l Hn. unfold iget. induction l as [|[k r] l IH]; simpl.
  { split; [by intros ?%not_elem_of_nil|done]. }
  apply NoDup_cons in Hn as [Hk Hn]. rewrite elem_of_cons. case_bool_decide; simpl in *; subst.
  - split; [intros [[= ->]|Hin]; [done|]|intros [= ->]; by left]. destruct Hk. apply list_elem_of_fmap. by exists (i, row).
  - rewrite <- IH by done. split; [intros [[= -> ->]|]; done|by right].
Qed.

(** * What a clean report means *)

Section ready.
Context (safe_dump : pyval → string).

Definition quilkin_ready (c : dict) : Prop :=
  env_value c "QUILKIN_BACKEND_ENDPOINT" = Ok QUILKIN_UPSTREAM ∧ contains "ENCORE_BACKEND_SERVICE_HOST" (safe_dump (PDict c)) = false.

(** A container of workload [name]: its image is pinned, and Quilkin reaches Encore by name. *)
Definition container_ready (name : string) (container : pyval) : Prop :=
  ∃ c, container = PDict c ∧ pinned (image_of c)
    ∧ (name = "quilkin" → dget0 c "name" = PStr "quilkin" → quilkin_ready c).

Definition separation (i : identity) (row : dict) : Prop :=
  (i = ("Job", "settlement-db-migrate") → ¬ refers "trade-settlement-database" (pod_spec row))
  ∧ (i = ("Deployment", "encore-backend") → ¬ refers "trade-settlement-database" (pod_spec row))
  ∧ (i.1 = "Deployment" → ¬ refers "trade-settlement-migration-database" (pod_spec row)).

(** The policy, without reference to the order of checks. *)
Record production_ready (rows : list dict) : Prop := {
  pr_simulator : ∀ row, row ∈ rows → resource_name row ≠ "simulator"
    ∧ nested (PDict row) ["metadata"; "labels"; "app.kubernetes.io/name"] ≠ PStr "simulator";
  pr_images : ∀ row, row ∈ rows → is_workload (kind_of row) = true →
    ∃ containers, containers_of row = Ok containers ∧ containers ≠ [] ∧ ∀ c, c ∈ containers → container_ready (resource_name row) c;
  pr_secrets : ∀ i required, (i, required) ∈ CONTRACTS →
    ∃ row, latest rows i row ∧ (∀ s, s ∈ required → refers s (pod_spec row)) ∧ separation i row;
  pr_services : ∀ name row, latest rows ("Service", name) row → name ≠ "quilkin" → service_type row ∉ EXPOSED_TYPES;
  pr_deny : ∃ row types, latest rows ("NetworkPolicy", "default-deny") row
    ∧ py_iter (nested (PDict row) ["spec"; "policyTypes"]) = Ok types ∧ ∀ t, t ∈ types ↔ t = PStr "Ingress" ∨ t = PStr "Egress" }.

Lemma image_errors_nil kind name c : image_errors kind name c = [] ↔ pinned (image_of c).
Proof. unfold image_errors. rewrite <- image_reference_ok. by destruct (image_reference_error _). Qed.

Lemma quilkin_errors_nil c errors : quilkin_errors safe_dump c = Ok errors → (errors = [] ↔ quilkin_ready c).
Proof.
  unfold quilkin_errors, quilkin_ready. destruct (env_value c _) as [u|]; [|done]. intros [= <-].
  case_bool_decide as Hu; [subst|split; [done|by intros [[= ->] _]]]. simpl. destruct (contains _ _); naive_solver.
Qed.

Lemma container_errors_nil kind name container errors :
  container_errors safe_dump kind name container = Ok errors → (errors = [] ↔ container_ready name container).
Proof.
  unfold container_errors, container_ready. destruct container as [| | | | | | |c]; try done. rewrite py_eqb_PStr.
  intros (more & Hm & [= <-])%res_bind_Ok. rewrite app_nil, image_errors_nil.
  assert (more = [] ↔ (name = "quilkin" → dget0 c "name" = PStr "quilkin" → quilkin_ready c)) as ->; [|naive_solver].
  repeat case_bool_decide; simpl in Hm; [by rewrite (quilkin_errors_nil _ _ Hm); naive_solver|injection Hm as <-; naive_solver..].
Qed.

Lemma workload_errors_nil kind name row errors :
  workload_errors safe_dump kind name row = Ok errors →
  (errors = [] ↔ ∃ cs, containers_of row = Ok cs ∧ cs ≠ [] ∧ ∀ c, c ∈ cs → container_ready name c).
Proof.
  unfold workload_errors. intros (cs & Hcs & (es & Hes & [= <-])%res_bind_Ok)%res_bind_Ok.
  rewrite app_nil, (gathered_nil _ _ _ _ (container_errors_nil kind name) Hes), Hcs.
  destruct cs; naive_solver.
Qed.

Lemma nested_app value ks ls : nested value (ks ++ ls) = nested (nested value ks) ls.
Proof.
  revert value. induction ks as [|k ks IH]; intros value; [done|].
  destruct value; simpl; by destruct ls || apply IH.
Qed.
(** [nested(v, ...) or {}] followed by [.get] is [nested] with one more key. *)
Lemma nested_get v ks k x :
  py_get (py_or (nested v ks) (PDict [])) k = Ok x → x = nested v (ks ++ [k]).
Proof.
  rewrite nested_app. unfold py_or. destruct (truthy (nested v ks)) eqn:Ht.
  - destruct (nested v ks); try done. by intros [= <-].
  - intros [= <-]. destruct (nested v ks) as [| | | | | | |[]]; done.
Qed.

Lemma resource_errors_nil row errors :
  resource_errors safe_dump row = Ok errors →
  (errors = [] ↔
   (resource_name row ≠ "simulator" ∧ nested (PDict row) ["metadata"; "labels"; "app.kubernetes.io/name"] ≠ PStr "simulator")
   ∧ (is_workload (kind_of row) = true →
      ∃ cs, containers_of row = Ok cs ∧ cs ≠ [] ∧ ∀ c, c ∈ cs → container_ready (resource_name row) c)).
Proof.
  unfold resource_errors. intros (sim & Hsim & (w & Hw & [= <-])%res_bind_Ok)%res_bind_Ok. rewrite app_nil.
  assert ((if sim then ["production render contains simulator resource " +:+ slash (kind_of row) (resource_name row)] else []) = []
          ↔ resource_name row ≠ "simulator" ∧ nested (PDict row) ["metadata"; "labels"; "app.kubernetes.io/name"] ≠ PStr "simulator") as ->.
  { unfold is_simulator in Hsim. case_bool_decide; [injection Hsim as <-; naive_solver|].
    apply res_bind_Ok in Hsim as (x & ->%nested_get & [= <-]). rewrite py_eqb_PStr. case_bool_decide; naive_solver. }
  destruct (is_workload _); [by rewrite (workload_errors_nil _ _ _ _ Hw); naive_solver|]. injection Hw as <-. naive_solver.
Qed.

Lemma when_error_nil b m : when_error b m = [] ↔ b = false.
Proof. by destruct b. Qed.

Lemma missing_nil (required actual : list string) :
  filterb (fun s => negb (bool_decide (s ∈ actual))) required = [] ↔ ∀ s, s ∈ required → s ∈ actual.
Proof.
  split.
  - intros H s Hs. destruct (decide (s ∈ actual)); [done|]. exfalso. apply (not_elem_of_nil s). rewrite <- H.
    apply elem_of_filterb. split; [done|]. by rewrite bool_decide_false.
  - intros H. destruct (filterb _ _) as [|s l] eqn:E; [done|].
    assert (s ∈ s :: l) as Hs by left. rewrite <- E in Hs. apply elem_of_filterb in Hs as [Hs Hn]. rewrite bool_decide_true in Hn by auto. done.
Qed.

Lemma contract_errors_nil rows i required :
  contract_errors (by_identity rows) (i, required) = [] ↔
  ∃ row, latest rows i row ∧ (∀ s, s ∈ required → refers s (pod_spec row)) ∧ separation i row.
Proof.
  unfold contract_errors. destruct (iget i (by_identity rows)) as [row|] eqn:E.
  - apply iget_by_identity in E as Hl. transitivity ((∀ s, s ∈ required → refers s (pod_spec row)) ∧ separation i row).
    + rewrite !app_nil, !when_error_nil, negb_false_iff, !andb_false_iff, !bool_decide_eq_false, bool_decide_eq_true, missing_nil.
      setoid_rewrite secret_references_spec. unfold separation.
      destruct (decide (i = ("Job", "settlement-db-migrate"))), (decide (i = ("Deployment", "encore-backend"))), (decide (i.1 = "Deployment")); tauto.
    + split; [naive_solver|]. intros (row' & Hl' & H). apply iget_by_identity in Hl'. by simplify_eq.
  - split; [done|]. intros (row & Hl & _). apply iget_by_identity in Hl. congruence.
Qed.

Lemma service_errors_nil rows :
  flat_map service_errors (by_identity rows) = [] ↔
  ∀ name row, latest rows ("Service", name) row → name ≠ "quilkin" → service_type row ∉ EXPOSED_TYPES.
Proof.
  rewrite flat_map_nil. split.
  - intros H name row Hl%elem_by_identity Hn. apply H in Hl. unfold service_errors in Hl.
    rewrite (bool_decide_true (_ = _)), (bool_decide_false (name = _)) in Hl by done.
    by apply when_error_nil, bool_decide_eq_false in Hl.
  - intros H [[kind name] row] Hl%elem_by_identity. unfold service_errors. case_bool_decide; [|done]. subst. simpl.
    case_bool_decide; [done|]. apply when_error_nil, bool_decide_eq_false. by eapply H.
Qed.

Lemma denies_both_spec types :
  denies_both types = true ↔ ∀ t, t ∈ types ↔ t = PStr "Ingress" ∨ t = PStr "Egress".
Proof.
  unfold denies_both. rewrite !andb_true_iff, all_true, !any_true. setoid_rewrite orb_true_iff. setoid_rewrite py_eqb_PStr.
  setoid_rewrite bool_decide_eq_true. split.
  - intros [[Ha (x & Hx & ->)] (y & Hy & ->)] t. split; [apply Ha|by intros [->| ->]].
  - intros H. split; [split|]; [intros t; apply H|exists (PStr "Ingress")|exists (PStr "Egress")]; split; try done; apply H; auto.
Qed.

(** [set(x or [])]: an empty or missing list of policy types denies nothing. *)
Lemma deny_types v types :
  py_iter (py_or v (PList [])) = Ok types → denies_both types = true ↔ ∃ ts, py_iter v = Ok ts ∧ denies_both ts = true.
Proof.
  unfold py_or. destruct (truthy v) eqn:Ht; [intros H; split; [eauto|intros (ts & Hts & ?); congruence]|].
  intros [= <-]. split; [done|]. intros (ts & Hts & Hd). exfalso.
  destruct v as [|[]| | |s|l|l|d]; try done; simpl in Ht; [destruct s|destruct l|destruct l|destruct d]; try done; injection Hts as <-; done.
Qed.

Lemma default_deny_nil rows errors :
  default_deny_errors (by_identity rows) = Ok errors →
  (errors = [] ↔ ∃ row types, latest rows ("NetworkPolicy", "default-deny") row
    ∧ py_iter (nested (PDict row) ["spec"; "policyTypes"]) = Ok types ∧ ∀ t, t ∈ types ↔ t = PStr "Ingress" ∨ t = PStr "Egress").
Proof.
  unfold default_deny_errors. intros (types & Ht & H)%res_bind_Ok. destruct (all _ _); [|done]. injection H as <-.
  rewrite when_error_nil, negb_false_iff, (deny_types _ _ Ht). setoid_rewrite <- iget_by_identity.
  setoid_rewrite <- denies_both_spec. destruct (iget _ _) as [row|]; simpl; [naive_solver|].
  split; [|naive_solver]. intros (ts & [=] & _).
Qed.

Lemma render_errors_nil documents errors :
  verify safe_dump documents = Ok errors → errors = [] ↔ production_ready (dict_rows documents).
Proof.
  unfold verify. intros (rs & Hrs & (deny & Hd & <-%Ok_inj)%res_bind_Ok)%res_bind_Ok.
  rewrite (app_nil (concat _)), (app_nil (flat_map (contract_errors _) _)), (app_nil (flat_map service_errors _)).
  rewrite (gathered_nil _ _ _ _ resource_errors_nil Hrs), service_errors_nil, (default_deny_nil _ _ Hd), flat_map_nil.
  split.
  - intros (Hr & Hc & Hs & Hn). constructor; [intros row Hrow; apply (Hr row Hrow)|intros row Hrow; apply (Hr row Hrow)|intros i req Hin|done|done].
    by apply contract_errors_nil, (Hc (i, req)).
  - intros [H1 H2 H3 H4 H5]. split_and!; [eauto| |done|done]. intros [i req] Hin. apply contract_errors_nil. by apply H3.
Qed.

Lemma verdict_status errors out : status (verdict errors out) = 0%Z ↔ errors = [].
Proof. by destruct errors. Qed.

Lemma template_status documents errors p :
  verify safe_dump documents = Ok errors → verify_main safe_dump true documents = Ok p →
  status p = 0%Z ↔ errors ≠ [] ∧ ∀ e, e ∈ errors → is_template_error e = true.
Proof.
  unfold verify_main. intros ->. cbn [res_bind]. intros [= <-].
  destruct (filterb is_template_error errors) as [|x l] eqn:E.
  - rewrite verdict_status. rewrite filterb_nil in E. split; [intros [_ ?]%app_nil; done|].
    intros [Hn Ha]. destruct errors as [|e errors]; [done|]. specialize (Ha e ltac:(left)). rewrite E in Ha by left. done.
  - rewrite verdict_status, filterb_nil, <- E. setoid_rewrite negb_false_iff. setoid_rewrite bool_decide_eq_true.
    setoid_rewrite elem_of_filterb. split; [|naive_solver]. intros H. split; [intros ->; done|]. naive_solver.
Qed.
End ready.

(** * Claims *)

(** C19: The manifest gate accepts exactly the production-ready renders.  When
    [verify_rendered_kubernetes] ends (it raises only on a render of the wrong shape), it exits
    with 0 if and only if no resource belongs to the simulator, every workload has containers
    and each runs an image pinned by a real SHA-256 digest, Quilkin reaches Encore by its stable
    name, the last resource of each contracted identity references exactly the credentials it is
    entitled to among the database ones, no internal service is exposed, and the default-deny
    policy denies ingress and egress. *)
Theorem render_accepted_iff safe_dump documents p :
  verify_main safe_dump false documents = Ok p → status p = 0%Z ↔ production_ready safe_dump (dict_rows documents).
Proof. intros (errors & He & [= <-])%res_bind_Ok. rewrite verdict_status. by apply render_errors_nil. Qed.

Definition demo_digest : string := "1ecb7edf62a0408027bd5729dfd6b1b8766e578e8df93995b225dfd0944eb651".
Definition demo_container (name : string) (secrets : list string) : pyval :=
  PDict [("name", PStr name); ("image", PStr ("ghcr.io/eve/" +:+ name +:+ "@sha256:" +:+ demo_digest));
         ("envFrom", PList (map (fun s => PDict [("secretRef", PDict [("name", PStr s)])]) secrets))].
Definition demo_workload (kind name : string) (secrets : list string) : pyval :=
  PDict [("kind", PStr kind); ("metadata", PDict [("name", PStr name)]);
         ("spec", PDict [("template", PDict [("spec", PDict [("containers", PList [demo_container name secrets])])])])].
Definition demo_render (settlement_secret : string) : list pyval :=
  [demo_workload "Deployment" "encore-backend" ["gateway-edge-auth"; "market-database"];
   demo_workload "Deployment" "trade-settlement" [settlement_secret];
   demo_workload "Job" "settlement-db-migrate" ["trade-settlement-migration-database"];
   PDict [("kind", PStr "Service"); ("metadata", PDict [("name", PStr "encore-backend")])];
   PDict [("kind", PStr "NetworkPolicy"); ("metadata", PDict [("name", PStr "default-deny")]);
          ("spec", PDict [("policyTypes", PList [PStr "Egress"; PStr "Ingress"])])]].

Lemma render_accepted_iff_witness :
  production_ready py_repr (dict_rows (demo_render "trade-settlement-database"))
  ∧ ¬ production_ready py_repr (dict_rows (demo_render "trade-settlement-migration-database")).
Proof.
  split.
  - eapply (render_accepted_iff py_repr (demo_render "trade-settlement-database")); vm_compute; reflexivity.
  - intros H. apply (render_accepted_iff py_repr (demo_render "trade-settlement-migration-database")
      (verdict ["Deployment/trade-settlement is missing secret references ['trade-settlement-database']";
                "runtime workload trade-settlement uses the migration database credential"] [])) in H; [|vm_compute; reflexivity].
    discriminate H.
Defined.
