(* ===== verification/LocalCi.v ===== *)
(** The verification entry point ([eve_trade_local_ci_k8s.py]): one function per component, each
    a sequence of checked processes, and the fail-closed [main].  The processes are a parameter:
    what one does may depend on everything that ran before it.  The state is the log of the
    processes with their outcomes, the files, and what was printed. *)
From S2P Require Import Prelude PyStr PyFloat PyVal Regex PyPath PyIO Storage.

(** * Processes *)

Record call : Type := Call { c_argv : list string; c_cwd : path; c_env : option (list (string * string)) }.
Inductive outcome : Type :=
| Exited (rc : Z) (out err : string)
| NotStarted (errno : Z) (msg : string).
Abbreviation history := (list (call * outcome)).

Record st : Type := St { log : history; disk : fs; stdout : list string; stderr : list string }.

Inductive temp_op : Type := TempCreate | TempWrite | TempUnlink.

Definition COMPONENTS : list string :=
  ["protobuf"; "architecture"; "gui"; "go"; "rust"; "python"; "terraform"; "kubernetes"; "security"; "e2e"; "o11y"].
Definition KUSTOMIZE_ROOTS : list string :=
  ["distributed-backend/orchestration/kubernetes/base"; "distributed-backend/orchestration/kubernetes/overlay/local";
   "distributed-backend/orchestration/kubernetes/overlay/prod";
   "distributed-backend/orchestration/kubernetes/chaos/litmus/overlays/prod"].
Definition TERRAFORM_ROOTS : list (string * string) :=
  [("distributed-backend/terraform/eks", "-lockfile=readonly"); ("distributed-backend/terraform/gke", "");
   ("distributed-backend/terraform/talos-omni", "-lockfile=readonly")].

Section runner.
(** The repository, the environment, [shutil.which], the processes with their effect on the
    files, resolution of links, the name of the temporary file, what using it raises, and the
    text of a signal. *)
Context (ROOT : path) (environ : list (string * string)) (which : history → string → option string).
Context (exec : history → fs → call → outcome * fs) (resolve : path → path).
Context (temp : path) (temp_error : temp_op → option exn) (signal_text : Z → string).

Definition RUST_ROOT : path := path_join ROOT (path_of "distributed-backend/src/trade-settlement").

Definition say (line : string) : io st unit := modify (fun s => St (log s) (disk s) (stdout s ++ [line]) (stderr s)).
Definition complain (line : string) : io st unit := modify (fun s => St (log s) (disk s) (stdout s) (stderr s ++ [line])).

Definition spawn (c : call) : io st (Z * string * string) := fun s =>
  let '(o, disk') := exec (log s) (disk s) c in
  let s' := St (log s ++ [(c, o)]) disk' (stdout s) (stderr s) in
  match o with
  | Exited rc out err => (Ok (rc, out, err), s')
  | NotStarted errno msg => (Raise (OSError OsOther errno msg), s')
  end.

(** [subprocess.CalledProcessError]; the only handler treats it as it treats [RuntimeError]. *)
Definition called_process_error (argv : list string) (rc : Z) : exn :=
  RuntimeError ("Command '" +:+ py_repr (PList (map PStr argv)) +:+ "' "
    +:+ (if (rc <? 0)%Z then "died with " +:+ signal_text (- rc) else "returned non-zero exit status " +:+ str_of_Z rc) +:+ ".").
Definition check (argv : list string) (rc : Z) : io st unit :=
  if (rc =? 0)%Z then skip else throw (called_process_error argv rc).

(** Strict decoding in text mode. *)
Definition decode_text (bytes : string) : res string :=
  match utf8_decode bytes with
  | Some s => Ok (universal_newlines s)
  | None => Raise (ValueError "UnicodeDecodeError")
  end.

(** [subprocess.run(argv, cwd=ROOT, check=True, capture_output=True, text=True).stdout] *)
Definition capture_text (argv : list string) : io st string :=
  '(rc, out, err) ← spawn (Call argv ROOT None);
  text ← lift (decode_text out); _ ← lift (decode_text err);
  _ ← check argv rc; mret text.
(** [subprocess.check_output(argv, cwd=ROOT, text=True)] *)
Definition check_output (argv : list string) : io st string :=
  '(rc, out, _) ← spawn (Call argv ROOT None); text ← lift (decode_text out); _ ← check argv rc; mret text.
(** [subprocess.run(argv, cwd=ROOT, check=True, capture_output=True).stdout] *)
Definition capture_bytes (argv : list string) : io st string :=
  '(rc, out, _) ← spawn (Call argv ROOT None); _ ← check argv rc; mret out.

Definition require (commands : list string) : io st unit :=
  h ← reads log;
  match filterb (fun c => match which h c with None => true | Some _ => false end) commands with
  | [] => skip
  | missing => throw (RuntimeError ("required command(s) not found: " +:+ join ", " missing))
  end.

Definition run_in (cwd : path) (env : option (list (string * string))) (argv : list string) : io st unit :=
  _ ← say ("$ " +:+ join " " argv);
  '(rc, _, _) ← spawn (Call argv cwd env);
  check argv rc.
Definition run : list string → io st unit := run_in ROOT None.
Definition run_env (env : list (string * string)) : list string → io st unit := run_in ROOT (Some env).
Definition with_var (k v : string) : list (string * string) := dset k v environ.
Definition runs (l : list (list string)) : io st unit := io_iter run l.

(** * Components *)

Definition protobuf_commands : list (list string) :=
  [["go"; "install"; "google.golang.org/protobuf/cmd/protoc-gen-go@v1.36.11"];
   ["buf"; "format"; "--diff"; "--exit-code"];
   ["buf"; "lint"];
   ["buf"; "build"];
   ["buf"; "generate"];
   ["buf"; "generate"];
   ["git"; "diff"; "--exit-code"; "--"; "proto/gen"]].
Definition protobuf : io st unit :=
  _ ← require ["buf"; "go"; "git"];
  runs protobuf_commands.

Definition architecture_commands : list (list string) :=
  [["python"; "-m"; "pip"; "install"; "PyYAML==6.0.3"];
   ["python"; "scripts/verify_architecture_boundaries.py"];
   ["python"; "scripts/verify_schema_ownership.py"];
   ["python"; "-m"; "unittest"; "discover"; "-s"; "scripts/tests"; "-v"]].
Definition architecture : io st unit :=
  _ ← require ["python"; "git"];
  runs architecture_commands.

Definition gui_commands : list (list string) :=
  [["pnpm"; "install"; "--frozen-lockfile"];
   ["pnpm"; "run"; "gui:test"]].
Definition gui : io st unit :=
  _ ← require ["pnpm"];
  runs gui_commands.

Definition gofmt_roots : list string :=
  ["distributed-backend/src/gateway"; "distributed-backend/src/market"; "distributed-backend/src/settlement";
   "distributed-backend/src/settlementworker"; "distributed-backend/internal"; "gametrade"; "proto/gen"; "go_modules_test.go"].
Definition encore_env : list (string * string) := with_var "GOFLAGS" "-mod=mod".
Definition race_env : list (string * string) := with_var "ENCORERUNTIME_NOPANIC" "1".
Definition backend_image (head : string) : string := "eve-trade/encore-backend:" +:+ strip head.
Definition git_head : list string := ["git"; "rev-parse"; "HEAD"].

Definition go_toolchain : io st unit :=
  version ← capture_text ["go"; "version"];
  let version := strip version in
  _ ← say version;
  if contains "go1.26.5" version then skip
  else throw (RuntimeError ("full verification requires Go 1.26.5, found: " +:+ version)).
Definition harden_encore : io st unit :=
  h ← reads log;
  match which h "encore" with
  | None => throw (RuntimeError "encore executable disappeared after prerequisite validation")
  | Some binary =>
      run ["bash"; "scripts/harden_encore_install.sh"; path_str (path_parent (path_parent (resolve (path_of binary))))]
  end.
Definition go_format : io st unit :=
  formatted ← capture_text (["gofmt"; "-l"] ++ gofmt_roots);
  if nonempty (strip formatted) then throw (RuntimeError ("gofmt required for:" +:+ nl +:+ formatted)) else skip.

Definition go_mod_commands : list (list string) :=
  [["go"; "mod"; "download"];
   ["go"; "mod"; "verify"];
   ["go"; "mod"; "tidy"];
   ["git"; "diff"; "--exit-code"; "--"; "go.mod"; "go.sum"]].
Definition race_commands : list (list string) :=
  [["go"; "test"; "-race"; "./distributed-backend/src/gateway"; "./distributed-backend/src/settlementworker";
   "./distributed-backend/internal/..."; "./gametrade"];
   ["go"; "test"; "-race"; "./distributed-backend/src/market"; "-run"; "^TestSettlement"; "-skip"; "APIErrors"];
   ["go"; "test"; "-race"; "./distributed-backend/src/market"; "-run"; "^TestDuplicateSettlementResultProjectionIsHarmless$"]].
Definition go_lint_commands : list (list string) :=
  [["go"; "vet"; "./..."];
   ["staticcheck"; "./..."];
   ["govulncheck"; "-version"];
   ["govulncheck"; "./..."]].
Definition go : io st unit :=
  _ ← require ["encore"; "go"; "gofmt"; "git"; "govulncheck"; "staticcheck"];
  _ ← go_toolchain;
  _ ← harden_encore;
  _ ← runs go_mod_commands;
  _ ← go_format;
  _ ← run_env encore_env ["encore"; "test"; "./..."];
  _ ← io_iter (run_env race_env) race_commands;
  _ ← runs go_lint_commands;
  _ ← run_env race_env ["go"; "test"; "-run"; "^$"; "-fuzz"; "^FuzzAuthenticatedPayload"; "-fuzztime"; "10s";
                        "./distributed-backend/src/gateway"];
  head ← check_output git_head;
  run_env encore_env ["encore"; "build"; "docker"; "--config"; "infra/encore/self-host.nsq.json"; backend_image head].

Definition rust_commands : list (list string) :=
  [["cargo"; "fmt"; "--all"; "--"; "--check"];
   ["cargo"; "check"; "--locked"; "--all-targets"; "--all-features"];
   ["cargo"; "test"; "--locked"; "--all-features"];
   ["cargo"; "clippy"; "--locked"; "--all-targets"; "--all-features"; "--"; "-D"; "warnings"]].
Definition rust : io st unit :=
  _ ← require ["cargo"];
  io_iter (run_in RUST_ROOT None) rust_commands.

Definition python_env : list (string * string) := with_var "PYTHONPATH" "distributed-backend".
Definition simulator_commands : list (list string) :=
  [["python"; "-m"; "coverage"; "run"; "--rcfile=.coveragerc"; "manage.py"; "test"; "trade_gui"];
   ["python"; "-m"; "coverage"; "report"; "--rcfile=.coveragerc"; "--fail-under=80"]].
Definition python_checks : io st unit :=
  _ ← require ["python"];
  _ ← run ["python"; "-m"; "compileall"; "simulator/eve_trade_simulator"; "simulator/trade_gui";
           "distributed-backend/tests/e2e"; "distributed-backend/observability"];
  _ ← io_iter (run_in (path_join ROOT (path_of "simulator")) None) simulator_commands;
  _ ← run_env python_env ["python"; "-m"; "coverage"; "run"; "--rcfile=distributed-backend/observability/.coveragerc"; "-m";
                          "unittest"; "discover"; "-s"; "distributed-backend/observability/tests"; "-v"];
  run ["python"; "-m"; "coverage"; "report"; "--rcfile=distributed-backend/observability/.coveragerc"; "--fail-under=35"].

Definition chdir (root : string) : string := "-chdir=" +:+ root.
Definition terraform_root (r : string * string) : list (list string) :=
  let '(root, lockfile_arg) := r in
  [["terraform"; chdir root; "init"; "-backend=false"] ++ (if nonempty lockfile_arg then [lockfile_arg] else []) ++ ["-no-color"]]
  ++ (if bool_decide (root = "distributed-backend/terraform/eks")
      then [["terraform"; chdir root; "providers"; "lock"; "-platform=linux_amd64"; "-platform=windows_amd64"];
            ["git"; "diff"; "--exit-code"; "--"; root +:+ "/.terraform.lock.hcl"]]
      else [])
  ++ [["terraform"; chdir root; "providers"];
      ["terraform"; chdir root; "validate"; "-no-color"];
      ["terraform"; chdir root; "test"; "-no-color"]].
Definition terraform_commands : list (list string) :=
  [["terraform"; "version"];
   ["terraform"; "fmt"; "-check"; "-recursive"; "distributed-backend/terraform"]].
Definition terraform : io st unit :=
  _ ← require ["terraform"];
  _ ← runs terraform_commands;
  io_iter (fun r => runs (terraform_root r)) TERRAFORM_ROOTS.

Definition on_temp (op : temp_op) (f : fs → fs) : io st unit := fun s =>
  match temp_error op with
  | Some e => (Raise e, s)
  | None => (Ok (), St (log s) (f (disk s)) (stdout s) (stderr s))
  end.
Definition kustomize (root : string) : list string := ["kubectl"; "kustomize"; root].
Definition prod_root : string := "distributed-backend/orchestration/kubernetes/overlay/prod".
Definition kubernetes : io st unit :=
  _ ← require ["kubectl"; "python"];
  _ ← io_iter (fun root => run (kustomize root)) KUSTOMIZE_ROOTS;
  _ ← on_temp TempCreate <[temp := ""]>;
  finally
    (output ← capture_bytes (kustomize prod_root);
     _ ← on_temp TempWrite <[temp := output]>;
     run ["python"; "scripts/verify_rendered_kubernetes.py"; "--expect-unresolved-image-template"; path_str temp])
    (on_temp TempUnlink (delete temp)).

Definition REQUIREMENTS : list string :=
  ["simulator/requirements.txt"; "simulator/requirements-test.txt"; "distributed-backend/tests/e2e/requirements.txt";
   "distributed-backend/observability/requirements.txt"; "distributed-backend/observability/requirements-test.txt"].
Definition security : io st unit :=
  _ ← require ["cargo"; "cargo-audit"; "govulncheck"; "pip-audit"; "trivy"];
  _ ← run ["govulncheck"; "./..."];
  _ ← run_in RUST_ROOT None ["cargo"; "audit"; "--deny"; "warnings"; "--ignore"; "RUSTSEC-2023-0071"];
  _ ← io_iter (fun requirement => run ["pip-audit"; "--requirement"; requirement]) REQUIREMENTS;
  head ← check_output git_head;
  _ ← run ["trivy"; "image"; "--scanners"; "vuln"; "--severity"; "HIGH,CRITICAL"; "--ignore-unfixed"; "--exit-code"; "1"; backend_image head];
  run ["trivy"; "fs"; "--scanners"; "vuln,secret,misconfig"; "--severity"; "HIGH,CRITICAL"; "--ignore-unfixed"; "--ignorefile";
       ".trivyignore.yaml"; "--show-suppressed"; "--exit-code"; "1"; "."].

Definition e2e : io st unit :=
  _ ← require ["bash"; "docker"; "kind"; "kubectl"; "python"];
  run ["bash"; "scripts/run_kind_e2e.sh"].

Definition o11y : io st unit :=
  _ ← require ["python"];
  run_env python_env ["python"; "-m"; "unittest"; "discover"; "-s"; "distributed-backend/observability/tests"; "-v"].

Definition RUNNERS : list (string * io st unit) :=
  [("protobuf", protobuf); ("architecture", architecture); ("gui", gui); ("go", go); ("rust", rust); ("python", python_checks);
   ("terraform", terraform); ("kubernetes", kubernetes); ("security", security); ("e2e", e2e); ("o11y", o11y)].

(** * [main] *)

Definition run_component (component : string) : io st unit :=
  _ ← say (nl +:+ "== " +:+ component +:+ " ==");
  match dget component RUNNERS with Some m => m | None => throw KeyError end.

(** [except (OSError, RuntimeError, CalledProcessError)] *)
Definition handled (e : exn) : bool := match e with OSError _ _ _ | RuntimeError _ => true | _ => false end.

Definition selection (component : list string) : list string :=
  dedup_first (match component with [] => COMPONENTS | _ => component end).

Definition pass_line (selected : list string) : string :=
  if bool_decide (selected = COMPONENTS) then nl +:+ "VERIFICATION_RESULT=COMPLETE_PASS"
  else nl +:+ "VERIFICATION_RESULT=PARTIAL_PASS components=" +:+ join "," selected.

(** [component] holds the [--component] options; an unknown one ends in the parser with 2.  The
    parser itself, with its errors and [--help], is [local_parse_args] of [CommandLines]. *)
Definition main (component : list string) : io st Z :=
  if all (fun c => bool_decide (c ∈ COMPONENTS)) component then
    let selected := selection component in
    catch (_ ← io_iter run_component selected; _ ← say (pass_line selected); mret 0%Z)
      (fun e => if handled e
                then _ ← complain (nl +:+ "VERIFICATION_RESULT=FAILED" +:+ nl +:+ exn_str e); mret 1%Z
                else throw e)
  else mret 2%Z.
End runner.
