(* ===== verification/LocalCiFacts.v ===== *)
(** Correctness of the verification entry point: it is fail-closed, a pass means that every
    planned process ran and succeeded, and it always ends. *)
From S2P Require Import Prelude PyStr PyFloat PyVal Regex PyPath PyIO Storage LocalCi.

(** * Rules for logged computations *)

Definition ok_entry (x : call * outcome) : Prop := ∃ out err, x.2 = Exited 0 out err.

(** [logged P m]: [m] extends the log by entries whose calls satisfy [P] when it returns.  All of
    them succeeded, except possibly the last one when it raises; there are at most [n]. *)
Definition logged {A} (n : nat) (P : list call → Prop) (m : io st A) : Prop := ∀ s,
  ∃ new, log (m s).2 = log s ++ new ∧ length new ≤ n
    ∧ match (m s).1 with Ok _ => Forall ok_entry new ∧ P new.*1 | Raise _ => Forall ok_entry (removelast new) end.

Definition nothing : list call → Prop := fun l => l = [].
Definition exactly (calls : list call) : list call → Prop := fun l => l = calls.

Lemma logged_weaken {A} n n' (P Q : list call → Prop) (m : io st A) :
  logged n P m → n ≤ n' → (∀ l, P l → Q l) → logged n' Q m.
Proof. intros Hm Hn HPQ s. destruct (Hm s) as (new & -> & ? & H). exists new. split_and!; [done|lia|]. destruct (m s).1; naive_solver. Qed.

Lemma logged_quiet {A} (m : io st A) : (∀ s, log (m s).2 = log s) → logged 0 nothing m.
Proof. intros H s. exists []. rewrite H, app_nil_r. split_and!; [done..|]. by destruct (m s).1; repeat constructor. Qed.

Lemma Forall_removelast {A} (P : A → Prop) l : Forall P l → Forall P (removelast l).
Proof. induction 1 as [|x l Hx Hl IH]; simpl; [constructor|]. destruct l; by constructor. Qed.
Lemma Forall_removelast_app {A} (P : A → Prop) l k : Forall P l → Forall P (removelast k) → Forall P (removelast (l ++ k)).
Proof.
  intros Hl Hk. destruct k as [|x k]; [rewrite app_nil_r; by apply Forall_removelast|].
  rewrite removelast_app by done. by apply Forall_app.
Qed.

Lemma logged_bind {A B} n k (P Q : list call → Prop) (m : io st A) (f : A → io st B) :
  logged n P m → (∀ a, logged k Q (f a)) → logged (n + k) (fun l => ∃ l1 l2, l = l1 ++ l2 ∧ P l1 ∧ Q l2) (m ≫= f).
Proof.
  intros Hm Hf s. unfold mbind, io_bind. destruct (Hm s) as (l1 & H1 & Hn1 & Hr1).
  destruct (m s) as [[a|e] s1]; simpl in *; [|exists l1; split_and!; [done|lia|done]].
  destruct (Hf a s1) as (l2 & H2 & Hn2 & Hr2). exists (l1 ++ l2). rewrite H2, H1, <- app_assoc, length_app.
  split_and!; [done|lia|]. destruct Hr1 as [Ho1 HP]. destruct ((f a s1).1) as [b|e].
  - destruct Hr2 as [Ho2 HQ]. split; [by apply Forall_app|]. exists l1.*1, l2.*1. by rewrite fmap_app.
  - by apply Forall_removelast_app.
Qed.

(** Sequencing with the calls known, or with those of the first part. *)
Lemma logged_seq {A B} n k c (Q : list call → Prop) (m : io st A) (f : A → io st B) :
  logged n (exactly c) m → (∀ a, logged k (fun l => Q (c ++ l)) (f a)) → logged (n + k) Q (m ≫= f).
Proof. intros Hm Hf. eapply logged_weaken; [by eapply logged_bind|done|]. intros l (l1 & l2 & -> & -> & HQ). done. Qed.
Lemma logged_skip_bind {A B} k (Q : list call → Prop) (m : io st A) (f : A → io st B) :
  (∀ s, log (m s).2 = log s) → (∀ a, logged k Q (f a)) → logged k Q (m ≫= f).
Proof. intros Hm Hf. apply (logged_seq 0 k []); [|done]. by eapply logged_weaken; [apply logged_quiet| |]. Qed.

Lemma logged_iter {A} (c : A → list call) (f : A → io st unit) l :
  (∀ x, logged (length (c x)) (exactly (c x)) (f x)) → logged (length (flat_map c l)) (exactly (flat_map c l)) (io_iter f l).
Proof.
  intros Hf. induction l as [|x l IH]; simpl.
  - by eapply logged_weaken; [apply logged_quiet|..].
  - rewrite length_app. apply (logged_seq _ _ (c x)); [apply Hf|]. intros _. eapply logged_weaken; [apply IH|done|].
    intros l' ->. done.
Qed.

Section runner.
Context (ROOT : path) (environ : list (string * string)) (which : history → string → option string).
Context (exec : history → fs → call → outcome * fs) (resolve : path → path).
Context (temp : path) (temp_error : temp_op → option exn) (signal_text : Z → string).

Abbreviation run' := (run ROOT exec signal_text).
Abbreviation run_in' := (run_in exec signal_text).
Abbreviation run_env' := (run_env ROOT exec signal_text).
Abbreviation runs' := (runs ROOT exec signal_text).

(** A process whose continuation starts no other and returns only after status 0. *)
Lemma logged_checked {A} c (k : Z * string * string → io st A) :
  (∀ x s, log (k x s).2 = log s) → (∀ rc out err s a s', k (rc, out, err) s = (Ok a, s') → rc = 0%Z) →
  logged 1 (exactly [c]) (spawn exec c ≫= k).
Proof.
  intros Hq Hz s. unfold mbind, io_bind, spawn. destruct (exec (log s) (disk s) c) as [o d].
  exists [(c, o)]. destruct o as [rc out err|errno msg]; simpl; [|by repeat constructor].
  rewrite Hq. split_and!; [done..|]. destruct (k _ _) as [[a|e] s'] eqn:E; simpl; [|constructor].
  apply Hz in E as ->. split; [|done]. repeat constructor. by exists out, err.
Qed.

Lemma check_quiet argv rc s : log (check signal_text argv rc s).2 = log s.
Proof. unfold check. by destruct (rc =? 0)%Z. Qed.
Lemma check_zero argv rc s s' : check signal_text argv rc s = (Ok (), s') → rc = 0%Z.
Proof. unfold check. destruct (Z.eqb_spec rc 0); [done|]. by intros [=]. Qed.

Lemma logged_run_in cwd env argv : logged 1 (exactly [Call argv cwd env]) (run_in' cwd env argv).
Proof.
  apply logged_skip_bind; [done|]. intros _. apply logged_checked.
  - intros [[rc out] err] s. apply check_quiet.
  - intros rc out err s [] s' H. by eapply check_zero.
Qed.

Lemma quiet_bind {A B} (m : io st A) (f : A → io st B) s :
  log (m s).2 = log s → (∀ a s, log (f a s).2 = log s) → log ((m ≫= f) s).2 = log s.
Proof. intros Hm Hf. unfold mbind, io_bind. destruct (m s) as [[a|e] s']; simpl in *; [by rewrite Hf|done]. Qed.

Lemma logged_capture_text argv : logged 1 (exactly [Call argv ROOT None]) (capture_text ROOT exec signal_text argv).
Proof.
  apply logged_checked.
  - intros [[rc out] err] s. repeat (apply quiet_bind; [done || apply check_quiet|intros ? ?]). done.
  - intros rc out err s a s' (t & s1 & _ & (u & s2 & _ & ([] & s3 & H & _)%bind_inv)%bind_inv)%bind_inv. by eapply check_zero.
Qed.
Lemma logged_check_output argv : logged 1 (exactly [Call argv ROOT None]) (check_output ROOT exec signal_text argv).
Proof.
  apply logged_checked.
  - intros [[rc out] err] s. repeat (apply quiet_bind; [done || apply check_quiet|intros ? ?]). done.
  - intros rc out err s a s' (t & s1 & _ & ([] & s3 & H & _)%bind_inv)%bind_inv. by eapply check_zero.
Qed.
Lemma logged_capture_bytes argv : logged 1 (exactly [Call argv ROOT None]) (capture_bytes ROOT exec signal_text argv).
Proof.
  apply logged_checked.
  - intros [[rc out] err] s. repeat (apply quiet_bind; [done || apply check_quiet|intros ? ?]). done.
  - intros rc out err s a s' ([] & s3 & H & _)%bind_inv. by eapply check_zero.
Qed.

Lemma require_quiet l s : log (require which l s).2 = log s.
Proof. unfold require, mbind, io_bind, reads. simpl. by destruct (filterb _ l). Qed.

(** The calls of a list of commands. *)
Definition calls_in (cwd : path) (env : option (list (string * string))) (l : list (list string)) : list call :=
  map (fun argv => Call argv cwd env) l.
Lemma logged_runs_in cwd env l :
  logged (length (calls_in cwd env l)) (exactly (calls_in cwd env l)) (io_iter (run_in' cwd env) l).
Proof.
  assert (calls_in cwd env l = flat_map (fun argv => [Call argv cwd env]) l) as ->.
  { unfold calls_in. induction l as [|a l IH]; simpl; [done|by rewrite IH]. }
  apply (logged_iter (fun argv => [Call argv cwd env])). intros. apply logged_run_in.
Qed.

Lemma logged_le {A} n n' (P : list call → Prop) (m : io st A) : logged n P m → n ≤ n' → logged n' P m.
Proof. intros. by eapply logged_weaken. Qed.
Lemma logged_last {A} n c (Q : list call → Prop) (m : io st A) : logged n (exactly c) m → Q c → logged n Q m.
Proof. intros Hm HQ. eapply logged_weaken; [done..|]. by intros l ->. Qed.
Lemma logged_ex {A B X} n k (c : X → list call) (Q : list call → Prop) (m : io st A) (f : A → io st B) :
  logged n (fun l => ∃ x, l = c x) m → (∀ a x, logged k (fun l => Q (c x ++ l)) (f a)) → logged (n + k) Q (m ≫= f).
Proof.
  intros Hm Hf s. unfold mbind, io_bind. destruct (Hm s) as (l1 & H1 & Hn1 & Hr1).
  destruct (m s) as [[a|e] s1]; simpl in *; [|exists l1; split_and!; [done|lia|done]].
  destruct Hr1 as [Ho1 [x Hx]]. destruct (Hf a x s1) as (l2 & H2 & Hn2 & Hr2). exists (l1 ++ l2).
  rewrite H2, H1, <- app_assoc, length_app. split_and!; [done|lia|]. destruct ((f a s1).1) as [b|e].
  - destruct Hr2 as [Ho2 HQ]. split; [by apply Forall_app|]. by rewrite fmap_app, Hx.
  - by apply Forall_removelast_app.
Qed.

(** * What each component must run *)

Definition here : list (list string) → list call := calls_in ROOT None.
Definition under (env : list (string * string)) : list (list string) → list call := calls_in ROOT (Some env).

Definition go_plan (install head : string) : list call :=
  here ([["go"; "version"]; ["bash"; "scripts/harden_encore_install.sh"; install]] ++ go_mod_commands ++ [["gofmt"; "-l"] ++ gofmt_roots])
  ++ under (encore_env environ) [["encore"; "test"; "./..."]] ++ under (race_env environ) race_commands ++ here go_lint_commands
  ++ under (race_env environ) [["go"; "test"; "-run"; "^$"; "-fuzz"; "^FuzzAuthenticatedPayload"; "-fuzztime"; "10s"; "./distributed-backend/src/gateway"]]
  ++ here [git_head]
  ++ under (encore_env environ) [["encore"; "build"; "docker"; "--config"; "infra/encore/self-host.nsq.json"; backend_image head]].
Definition python_plan : list call :=
  here [["python"; "-m"; "compileall"; "simulator/eve_trade_simulator"; "simulator/trade_gui"; "distributed-backend/tests/e2e"; "distributed-backend/observability"]]
  ++ calls_in (path_join ROOT (path_of "simulator")) None simulator_commands
  ++ under (python_env environ) [["python"; "-m"; "coverage"; "run"; "--rcfile=distributed-backend/observability/.coveragerc"; "-m"; "unittest"; "discover"; "-s"; "distributed-backend/observability/tests"; "-v"]]
  ++ here [["python"; "-m"; "coverage"; "report"; "--rcfile=distributed-backend/observability/.coveragerc"; "--fail-under=35"]].
Definition security_plan (head : string) : list call :=
  here [["govulncheck"; "./..."]]
  ++ calls_in (RUST_ROOT ROOT) None [["cargo"; "audit"; "--deny"; "warnings"; "--ignore"; "RUSTSEC-2023-0071"]]
  ++ here (map (fun r => ["pip-audit"; "--requirement"; r]) REQUIREMENTS ++ [git_head;
       ["trivy"; "image"; "--scanners"; "vuln"; "--severity"; "HIGH,CRITICAL"; "--ignore-unfixed"; "--exit-code"; "1"; backend_image head];
       ["trivy"; "fs"; "--scanners"; "vuln,secret,misconfig"; "--severity"; "HIGH,CRITICAL"; "--ignore-unfixed"; "--ignorefile";
        ".trivyignore.yaml"; "--show-suppressed"; "--exit-code"; "1"; "."]]).

(** The processes of a component that passes; the install directory of Encore and the commit
    are what the machine answered. *)
Definition PLANS : list (string * (list call → Prop)) :=
  [("protobuf", exactly (here protobuf_commands)); ("architecture", exactly (here architecture_commands));
   ("gui", exactly (here gui_commands)); ("go", fun l => ∃ install head, l = go_plan install head);
   ("rust", exactly (calls_in (RUST_ROOT ROOT) None rust_commands)); ("python", exactly python_plan);
   ("terraform", exactly (here (terraform_commands ++ flat_map terraform_root TERRAFORM_ROOTS)));
   ("kubernetes", exactly (here (map kustomize KUSTOMIZE_ROOTS ++ [kustomize prod_root;
      ["python"; "scripts/verify_rendered_kubernetes.py"; "--expect-unresolved-image-template"; path_str temp]])));
   ("security", fun l => ∃ head, l = security_plan head); ("e2e", exactly (here [["bash"; "scripts/run_kind_e2e.sh"]]));
   ("o11y", exactly (under (python_env environ)
      [["python"; "-m"; "unittest"; "discover"; "-s"; "distributed-backend/observability/tests"; "-v"]]))].
Definition planned (component : string) : list call → Prop := default (fun _ => False) (dget component PLANS).
Definition COSTS : list nat := [7; 4; 2; 18; 4; 5; 16; 6; 10; 1; 1].

Ltac required := apply logged_skip_bind; [apply require_quiet|intros _].
Ltac leaf := first [apply logged_runs_in|apply logged_run_in|apply logged_check_output|apply logged_capture_text|apply logged_capture_bytes].
Ltac seq := eapply logged_seq; [leaf|intros ?].
Ltac final := eapply logged_last; [leaf|].

Lemma logged_throw {A} n (P : list call → Prop) e : logged n P (throw (A := A) e).
Proof. intros s. exists []. rewrite app_nil_r. split_and!; [done|simpl; lia|constructor]. Qed.
Lemma logged_then_quiet {A B} n (P : list call → Prop) (m : io st A) (f : A → io st B) :
  logged n P m → (∀ a s, log (f a s).2 = log s) → logged n P (m ≫= f).
Proof.
  intros Hm Hf. eapply logged_weaken; [eapply logged_bind; [done|intros a; apply logged_quiet, Hf]|lia|].
  intros l (l1 & l2 & -> & H1 & ->). by rewrite app_nil_r.
Qed.

Lemma logged_go_toolchain : logged 1 (exactly (here [["go"; "version"]])) (go_toolchain ROOT exec signal_text).
Proof.
  apply logged_then_quiet; [leaf|]. intros v s. apply quiet_bind; [done|]. intros _ s'. by destruct (contains _ _).
Qed.
Lemma logged_go_format : logged 1 (exactly (here [["gofmt"; "-l"] ++ gofmt_roots])) (go_format ROOT exec signal_text).
Proof. apply logged_then_quiet; [leaf|]. intros v s. by destruct (nonempty _). Qed.
Lemma logged_harden :
  logged 1 (fun l => ∃ install, l = here [["bash"; "scripts/harden_encore_install.sh"; install]])
    (harden_encore ROOT which exec resolve signal_text).
Proof.
  apply logged_skip_bind; [done|]. intros h. destruct (which h "encore") as [b|].
  - eapply logged_last; [leaf|]. by eexists.
  - apply logged_throw.
Qed.

Lemma logged_go : logged 18 (planned "go") (go ROOT environ which exec resolve signal_text).
Proof.
  required. eapply logged_le; [|reflexivity].
  eapply (logged_seq 1 17); [apply logged_go_toolchain|intros _]. eapply (logged_ex 1 16); [apply logged_harden|intros _ install].
  eapply (logged_seq 4 12); [leaf|intros _]. eapply (logged_seq 1 11); [apply logged_go_format|intros _].
  eapply (logged_seq 1 10); [leaf|intros _]. eapply (logged_seq 3 7); [leaf|intros _]. eapply (logged_seq 4 3); [leaf|intros _].
  eapply (logged_seq 1 2); [leaf|intros _]. eapply (logged_seq 1 1); [leaf|intros head]. final. by exists install, head.
Qed.
Lemma logged_python : logged 5 (planned "python") (python_checks ROOT environ which exec signal_text).
Proof.
  required. eapply (logged_seq 1 4); [leaf|intros _]. eapply (logged_seq 2 2); [leaf|intros _].
  eapply (logged_seq 1 1); [leaf|intros _]. by final.
Qed.
Lemma logged_security : logged 10 (planned "security") (security ROOT which exec signal_text).
Proof.
  required. eapply (logged_seq 1 9); [leaf|intros _]. eapply (logged_seq 1 8); [leaf|intros _].
  eapply (logged_seq 5 3); [apply (logged_iter (fun r => here [["pip-audit"; "--requirement"; r]])); intros r; leaf|intros _].
  eapply (logged_seq 1 2); [leaf|intros head]. eapply (logged_seq 1 1); [leaf|intros _]. final. by exists head.
Qed.
Lemma logged_terraform : logged 16 (planned "terraform") (terraform ROOT which exec signal_text).
Proof.
  required. eapply (logged_seq 2 14); [leaf|intros _].
  eapply logged_last; [apply (logged_iter (fun r => here (terraform_root r))); intros r; leaf|reflexivity].
Qed.

Lemma logged_finally {A} n (P : list call → Prop) (m : io st A) f :
  logged n P m → (∀ s, log (f s).2 = log s) → logged n P (finally m f).
Proof.
  intros Hm Hf s. unfold finally. destruct (Hm s) as (l & Hl & Hn & Hr). destruct (m s) as [r s1]. specialize (Hf s1).
  simpl in *. destruct (f s1) as [[u|e] s2]; simpl in *; exists l; rewrite Hf; split_and!; try done.
  destruct r; [|done]. destruct Hr as [Hr _]. by apply Forall_removelast.
Qed.
Lemma on_temp_quiet op g s : log (on_temp temp_error op g s).2 = log s.
Proof. unfold on_temp. by destruct (temp_error op). Qed.
Lemma logged_kubernetes : logged 6 (planned "kubernetes") (kubernetes ROOT which exec temp temp_error signal_text).
Proof.
  required. eapply (logged_seq 4 2); [apply (logged_iter (fun r => here [kustomize r])); intros r; leaf|intros _].
  apply logged_skip_bind; [apply on_temp_quiet|intros _]. apply logged_finally; [|apply on_temp_quiet].
  eapply (logged_seq 1 1); [leaf|intros out]. apply logged_skip_bind; [apply on_temp_quiet|intros _]. by final.
Qed.

Abbreviation runner := (run_component ROOT environ which exec resolve temp temp_error signal_text).

(** Every component runs its plan, within its cost. *)
Definition cost (component : string) : nat := default 0 (dget component (zip COMPONENTS COSTS)).
Lemma logged_component component : logged (cost component) (planned component) (runner component).
Proof.
  apply logged_skip_bind; [done|intros _].
  destruct (decide (component ∈ COMPONENTS)) as [Hin|Hout].
  - repeat (apply elem_of_cons in Hin as [->|Hin]); [..|by apply not_elem_of_nil in Hin].
    + change (logged 7 (planned "protobuf") (protobuf ROOT which exec signal_text)). required. by final.
    + change (logged 4 (planned "architecture") (architecture ROOT which exec signal_text)). required. by final.
    + change (logged 2 (planned "gui") (gui ROOT which exec signal_text)). required. by final.
    + apply logged_go.
    + change (logged 4 (planned "rust") (rust ROOT which exec signal_text)). required. by final.
    + apply logged_python.
    + apply logged_terraform.
    + apply logged_kubernetes.
    + apply logged_security.
    + change (logged 1 (planned "e2e") (e2e ROOT which exec signal_text)). required. by final.
    + change (logged 1 (planned "o11y") (o11y ROOT environ which exec signal_text)). required. by final.
  - assert (dget component (RUNNERS ROOT environ which exec resolve temp temp_error signal_text) = None) as ->; [|apply logged_throw].
    by apply dget_None.
Qed.

(** A sequence of components runs their plans one after the other. *)
Lemma logged_components l :
  logged (sum_list_with cost l) (fun calls => ∃ plans, Forall2 planned l plans ∧ calls = concat plans) (io_iter runner l).
Proof.
  induction l as [|c l IH]; simpl.
  - eapply logged_weaken; [by apply logged_quiet|done|]. intros l ->. by exists [].
  - eapply logged_weaken; [eapply logged_bind; [apply logged_component|intros _; apply IH]|done|].
    intros calls (l1 & l2 & -> & H1 & plans & Hp & ->). exists (l1 :: plans). by split; [constructor|].
Qed.

Abbreviation main' := (main ROOT environ which exec resolve temp temp_error signal_text).

Lemma selection_known component c :
  all (fun c => bool_decide (c ∈ COMPONENTS)) component = true → c ∈ selection component → c ∈ COMPONENTS.
Proof.
  rewrite all_true. setoid_rewrite bool_decide_eq_true. intros H. unfold selection. rewrite elem_of_dedup_first.
  destruct component; [done|]. apply H.
Qed.

(** What [main] leaves behind, on every path. *)
Lemma main_outcome component s :
  ∃ new, log (main' component s).2 = log s ++ new ∧ length new ≤ 74
    ∧ (if bool_decide ((main' component s).1 = Ok 0%Z)
       then Forall ok_entry new ∧ (∃ plans, Forall2 planned (selection component) plans ∧ new.*1 = concat plans)
            ∧ last (stdout (main' component s).2) = Some (pass_line (selection component))
       else Forall ok_entry (removelast new)).
Proof.
  unfold main. destruct (all _ component) eqn:Hall.
  2: { exists []. rewrite app_nil_r. split_and!; [done|simpl; lia|]. by rewrite bool_decide_false. }
  assert (sum_list_with cost (selection component) ≤ 74) as Hsum.
  { change 74 with (sum_list_with cost COMPONENTS).
    assert (selection component ⊆+ COMPONENTS) as (k & ->)%submseteq_Permutation; [|rewrite sum_list_with_app; lia].
    apply NoDup_submseteq; [apply dedup_first_NoDup|]. intros c. by apply selection_known. }
  destruct (logged_components (selection component) s) as (new & Hl & Hn & Hr). exists new.
  unfold catch. destruct (io_iter runner (selection component) s) as [[[]|e] s1] eqn:E; simpl in *.
  - rewrite !(bind_ok _ _ _ _ _ E). split_and!; [done|lia|]. rewrite bool_decide_true by done. destruct Hr as [Ho Hp].
    split_and!; [done..|]. apply last_snoc.
  - rewrite !(bind_raise _ _ _ _ _ E). destruct (handled e); (split_and!; [done|lia|by rewrite bool_decide_false]).
Qed.
End runner.

(** * Claims *)

(** C18: A pass is earned.  When the verification entry point exits with 0, every process it
    started exited with 0, the processes are exactly the plans of the selected components in
    order, none left out, and the line it prints last says [COMPLETE_PASS] only if all eleven
    components were selected in the canonical order. *)
Theorem pass_means_verified ROOT environ which exec resolve temp temp_error signal_text component s s' :
  log s = [] → main ROOT environ which exec resolve temp temp_error signal_text component s = (Ok 0%Z, s') →
  Forall ok_entry (log s')
  ∧ (∃ plans, Forall2 (planned ROOT environ temp) (selection component) plans ∧ (log s').*1 = concat plans)
  ∧ last (stdout s') = Some (pass_line (selection component))
  ∧ (last (stdout s') = Some (nl +:+ "VERIFICATION_RESULT=COMPLETE_PASS") ↔ selection component = COMPONENTS).
Proof.
  intros Hs Hm. destruct (main_outcome ROOT environ which exec resolve temp temp_error signal_text component s) as (new & Hl & _ & Hr).
  rewrite Hm in Hl, Hr. simpl in *. rewrite Hs in Hl. simpl in Hl. subst new. destruct Hr as (Ho & Hp & Hlast).
  split_and!; [done..|]. rewrite Hlast. unfold pass_line. case_bool_decide; [done|]. split; [by intros [=]|done].
Qed.

(** C28: Verification is fail-closed and always ends: whatever the machine does, at most 74
    processes are started, and unless the result is 0 nothing is started after the first process
    that failed. *)
Theorem verification_ends ROOT environ which exec resolve temp temp_error signal_text component s :
  let out := main ROOT environ which exec resolve temp temp_error signal_text component s in
  ∃ new, log out.2 = log s ++ new ∧ length new ≤ 74 ∧ Forall ok_entry (removelast new)
    ∧ (out.1 = Ok 0%Z ∨ out.1 = Ok 1%Z ∨ out.1 = Ok 2%Z ∨ ∃ e, out.1 = Raise e ∧ handled e = false).
Proof.
  intros out. destruct (main_outcome ROOT environ which exec resolve temp temp_error signal_text component s) as (new & Hl & Hn & Hr).
  exists new. split_and!; [done..| |].
  - case_bool_decide; [destruct Hr; by apply Forall_removelast|done].
  - unfold out, main. destruct (all _ _); [|auto]. unfold catch. destruct (_ ≫= _ : io st Z) as [[z|e] s1] eqn:E.
    + apply bind_inv in E as (u & s2 & _ & E). injection E as <- _. auto.
    + destruct (handled e) eqn:Hh; [auto|]. eauto 10.
Qed.

(** A machine on which everything passes. *)
Definition demo_exec (h : history) (files : fs) (c : call) : outcome * fs :=
  (Exited 0 (if bool_decide (c_argv c = ["go"; "version"]) then "go version go1.26.5 linux/amd64" else "") "", files).
Local Notation demo_verification :=
  (main (path_of "/r") [] (fun _ _ => Some "/opt/encore/bin/encore") demo_exec id (path_of "/tmp/x.yaml") (fun _ => None)
     (fun _ => "") [] (St [] ∅ [] [])).
Lemma pass_means_verified_witness :
  ∃ s', demo_verification = (Ok 0%Z, s') ∧ length (log s') = 74
    ∧ last (stdout s') = Some (nl +:+ "VERIFICATION_RESULT=COMPLETE_PASS").
Proof.
  assert ((fun o : res Z * st => bool_decide (o.1 = Ok 0%Z) && bool_decide (length (log o.2) = 74)) demo_verification = true) as H
    by (vm_compute; reflexivity).
  destruct demo_verification as [r s'] eqn:E. apply andb_true_iff in H as [H1%bool_decide_eq_true H2%bool_decide_eq_true].
  simpl in H1, H2. subst r. exists s'. split; [reflexivity|]. split; [exact H2|].
  apply (pass_means_verified (path_of "/r") [] (fun _ _ => Some "/opt/encore/bin/encore") demo_exec id (path_of "/tmp/x.yaml")
           (fun _ => None) (fun _ => "") [] (St [] ∅ [] []) s' eq_refl E). reflexivity.
Defined.
