(* ===== verification/Architecture.v ===== *)
(** Architecture boundaries ([scripts/verify_architecture_boundaries.py]) and ownership of the
    settlement schema ([scripts/verify_schema_ownership.py]): rules over the texts of the
    repository.  The repository is its files by path relative to the root; which directories
    exist and the functions Python's parser finds in a test file are parameters. *)
From S2P Require Import Prelude PyStr PyFloat PyVal Regex Json PyPath PyText Hashing Storage.

Definition CANONICAL_PATH : string :=
  "game frontend -> Quilkin UDP -> Encore gateway -> Market -> Encore Pub/Sub settlement work -> settlement worker -> Rust trade-settlement".
Definition FORBIDDEN_ACTIVE_REFERENCES : list string :=
  ["connectrpc.com/connect"; "protoc-gen-connect-go"; "rabbitmqsettlement"; "github.com/rabbitmq/amqp091-go"; "MARKET_URL";
   "RABBITMQ_URL"; "RABBITMQ_SETTLEMENT_"].
Definition REMOVED_PATHS : list string :=
  ["distributed-backend/src/api-gateway"; "distributed-backend/src/messaging"; "distributed-backend/src/settlement-worker";
   "distributed-backend/proto/eve/market"; "distributed-backend/proto/gen"].
Definition GO_STRING_LITERAL : regex :=
  re_compile_s ("`(?P<raw>[^`]*)`|" +:+ dq +:+ "(?P<quoted>(?:\\.|[^" +:+ dq +:+ "\\])*)" +:+ dq).
Definition SQL_MUTATION : regex :=
  re_compile_i ("\b(INSERT\s+INTO|UPDATE\s+[A-Za-z_][\w.\" +:+ dq +:+ "]*\s+SET|DELETE\s+FROM|TRUNCATE(?:\s+TABLE)?)\b").

Record Diagnostic : Type := Diag { d_rule : string; d_path : string; d_line : nat; d_token : string; d_message : string }.
Definition diag_to_dict (d : Diagnostic) : dict :=
  [("rule_id", PStr (d_rule d)); ("path", PStr (d_path d)); ("line", PInt (Z.of_nat (d_line d))); ("token", PStr (d_token d));
   ("message", PStr (d_message d))].
Definition diagnostic (rule_id path : string) (line : nat) (token message : string) : Diagnostic :=
  Diag rule_id (replace_char ch_bs "/" path) line token message.

(** [text.count("\n", 0, offset) + 1] *)
Definition token_line (text : string) (offset : nat) : nat := count_char ch_nl (stake offset text) + 1.
(** [text.index(token)], where the token is known to occur. *)
Definition index (text token : string) : nat := default 0 (find_sub token text).

(** [match.start()] *)
Definition start_of (m : rmatch) : nat := length (m_start m).1.

Definition go_string_matches (text : string) (pattern : regex) : list (rmatch * nat) :=
  flat_map (fun literal =>
    let content := match group literal 1 with Some raw => raw | None => groupd literal 2 end in
    map (fun m => (m, token_line text (start_of literal + start_of m))) (re_finditer pattern content))
    (re_finditer GO_STRING_LITERAL text).

(** [match.group(1).split()[0].upper()] *)
Definition first_word (s : string) : string := upper ((fix go (s : string) : string :=
  match s with "" => "" | String c s' => if is_space c then "" else String c (go s') end) (lstrip is_space s)).

(** * Reading *)

(** [path.read_text(encoding="utf-8")] *)
Definition read_text (bytes : string) : res string :=
  match utf8_decode bytes with
  | Some s => Ok (universal_newlines s)
  | None => Raise (ValueError "UnicodeDecodeError")
  end.
(** [bytes.decode("utf-8", errors="ignore")] *)
Fixpoint decode_ignore_go (fuel : nat) (t : text) : text :=
  match fuel, t with
  | S n, a :: t' =>
      if (code a <? 128)%N then a :: decode_ignore_go n t'
      else match utf8_lead a with
           | None => decode_ignore_go n t'
           | Some (k, lo, hi) =>
               let '(cs, r) := conts k lo hi t' in (if (length cs =? k)%nat then a :: cs else []) ++ decode_ignore_go n r
           end
  | _, _ => []
  end.
Definition read_text_ignore (bytes : string) : string :=
  universal_newlines (implode (decode_ignore_go (String.length bytes) (explode bytes))).

(** [path.suffix] *)
Definition suffix_of (p : path) : string :=
  match rsplit1 "." (path_name p) with
  | Some (a, b) => if nonempty a && nonempty b then "." +:+ b else ""
  | None => ""
  end.
(** [dir.glob("*.go")] *)
Definition go_files (files : fs) (dir : path) : list (path * string) :=
  filterb (fun kv => bool_decide (path_parent kv.1 = dir) && endswith ".go" (path_name kv.1)) (map_to_list files).

(** * Rules *)

Definition GAME_FORBIDDEN : list string := ["encore.dev/"; "github.com/jackc/pgx"; "/src/gateway"; "/src/market"].
Definition game_errors (kv : path * string) : res (list Diagnostic) :=
  let! text := read_text kv.2 in
  Ok (flat_map (fun forbidden =>
        if contains forbidden text
        then [diagnostic "GAME_DOMAIN_FORBIDDEN_DEPENDENCY" (path_str kv.1) (token_line text (index text forbidden)) forbidden
                "game domain must not depend on service or infrastructure packages"]
        else []) GAME_FORBIDDEN).
Definition market_errors (kv : path * string) : res (list Diagnostic) :=
  let! text := read_text kv.2 in
  Ok (map (fun x => diagnostic "MARKET_DATABASE_MUTATION" (path_str kv.1) x.2 (first_word (groupd x.1 1))
                      "Market must not mutate the settlement database directly") (go_string_matches text SQL_MUTATION)).
Definition gateway_errors (kv : path * string) : res (list Diagnostic) :=
  let! text := read_text kv.2 in
  Ok (if contains "/gametrade" text || contains "/trade-settlement" text
      then let token := if contains "/gametrade" text then "/gametrade" else "/trade-settlement" in
           [diagnostic "GATEWAY_DOMAIN_LEAK" (path_str kv.1) (token_line text (index text token)) token
              "gateway transport must not depend on settlement domain implementations"]
      else []).

Definition check_source_boundaries (files : fs) : res (list Diagnostic) :=
  let! game := res_mapM game_errors (go_files files (path_of "gametrade")) in
  let! market := res_mapM market_errors (go_files files (path_of "distributed-backend/src/market")) in
  let! gateway := res_mapM gateway_errors (go_files files (path_of "distributed-backend/src/gateway")) in
  Ok (concat game ++ concat market ++ concat gateway).

Definition SKIP_PARTS : list string :=
  [".git"; "vendor"; "target"; ".terraform"; ".o11y"; "artifacts"; "fixtures"; ".gomodcache"; "changes"].
Definition TEXT_SUFFIXES : list string :=
  [".go"; ".mod"; ".sum"; ".yaml"; ".yml"; ".json"; ".py"; ".ps1"; ".md"; ".tf"].
Definition this_file : path := path_of "scripts/verify_architecture_boundaries.py".
Definition is_active (p : path) : bool :=
  negb (bool_decide (p = this_file)) && negb (any (fun part => bool_decide (part ∈ SKIP_PARTS)) (p_parts p))
  && bool_decide (lower (suffix_of p) ∈ TEXT_SUFFIXES).
Definition iter_text_files (files : fs) : list (path * string) :=
  sort_by (fun a b => parts_leb (p_parts a.1) (p_parts b.1)) (filterb (fun kv => is_active kv.1) (map_to_list files)).

Definition stale_errors (kv : path * string) : list Diagnostic :=
  let text := read_text_ignore kv.2 in
  flat_map (fun forbidden =>
    if contains forbidden text
    then [diagnostic "STALE_ACTIVE_REFERENCE" (path_str kv.1) (token_line text (index text forbidden)) forbidden
            "active source contains a stale architecture reference"]
    else []) FORBIDDEN_ACTIVE_REFERENCES.

Definition PACKET_TEST : string := "test_button_press_conforms_to_versioned_protocol_schema_and_golden_packet".
Definition test_path : path := path_of "simulator/trade_gui/tests.py".

Section main.
(** Directories that exist, and the functions [ast.walk] finds in a source text. *)
Context (is_dir : path → bool) (functions_of : string → res (list string)).

Definition exists_ (files : fs) (p : path) : bool := is_dir p || match files !! p with Some _ => true | None => false end.

Definition check_simulator_packet_test (files : fs) : res (list Diagnostic) :=
  match files !! test_path with
  | None => Ok [diagnostic "SIMULATOR_PACKET_TEST_MISSING" "simulator/trade_gui/tests.py" 0 "" "simulator packet boundary test file is missing"]
  | Some bytes =>
      let! text := read_text bytes in
      let! names := functions_of text in
      Ok (if bool_decide (PACKET_TEST ∈ names) then []
          else [diagnostic "SIMULATOR_PACKET_TEST_MISSING" (path_str test_path) 0 PACKET_TEST "simulator packet boundary test is missing"])
  end.

Definition marker_errors (files : fs) : list Diagnostic :=
  (if exists_ files (path_of "encore.app") then []
   else [diagnostic "ENCORE_APP_MISSING" "encore.app" 0 "encore.app" "Encore application marker is missing"])
  ++ flat_map (fun removed =>
       if exists_ files (path_of removed)
       then [diagnostic "REMOVED_PATH_PRESENT" removed 0 removed "removed architecture path is present"] else []) REMOVED_PATHS.
Definition docs_errors (files : fs) : res (list Diagnostic) :=
  let! docs := match files !! path_of "README.md" with Some bytes => read_text bytes | None => Ok "" end in
  Ok (if contains CANONICAL_PATH docs then []
      else [diagnostic "CANONICAL_PATH_MISSING" "README.md" 0 CANONICAL_PATH "README must document the canonical request path"]).

Definition architecture_errors (files : fs) : res (list Diagnostic) :=
  let! boundaries := check_source_boundaries files in
  let! docs := docs_errors files in
  let! packet := check_simulator_packet_test files in
  Ok (boundaries ++ marker_errors files ++ docs ++ flat_map stale_errors (iter_text_files files) ++ packet).

(** Lines on standard output and standard error, and the exit status. *)
Definition architecture_main (files : fs) : res (list string * list string * Z) :=
  let! errors := architecture_errors files in
  Ok (match errors with
      | [] => (["architecture boundary checks passed"], [], 0%Z)
      | _ => ([], map (fun e => implode (print true (explode ", ") (explode ": ") (canon (PDict (diag_to_dict e))))) errors, 1%Z)
      end).
End main.

(** * Schema ownership *)

Definition CANONICAL : path := path_of "distributed-backend/src/trade-settlement/migrations/0001_settlement_schema.sql".
Definition RENDER_COPY : path := path_of "distributed-backend/orchestration/kubernetes/base/migrations/0001_settlement_schema.sql".

Definition read_bytes (files : fs) (p : path) : res string :=
  match files !! p with Some b => Ok b | None => Raise (OSError OsOther 2 ("No such file or directory: '" +:+ path_str p +:+ "'")) end.

Definition schema_main (files : fs) : res (list string * list string * Z) :=
  let! canonical := read_bytes files CANONICAL in
  let! rendered := read_bytes files RENDER_COPY in
  Ok (if bool_decide (canonical = rendered)
      then (["canonical settlement schema verified: sha256:" +:+ sha256_hex canonical], [], 0%Z)
      else ([], ["schema ownership violation: Kubernetes migration copy differs from canonical Rust migration"], 1%Z)).

Example literal_ex :
  let text := "x := " +:+ dq +:+ "a\" +:+ dq +:+ "b" +:+ dq +:+ nl +:+ "y := `" +:+ nl +:+ "  update t set x`" in
  map (fun m => (groupd m 1, groupd m 2)) (re_finditer GO_STRING_LITERAL text)
  = [("", "a\" +:+ dq +:+ "b"); (nl +:+ "  update t set x", "")]
  ∧ map (fun x => (first_word (groupd x.1 1), x.2)) (go_string_matches text SQL_MUTATION) = [("UPDATE", 3)].
Proof. vm_compute. split; reflexivity. Qed.
