(* ===== verification/ArchitectureFacts.v ===== *)
(** Correctness of the architecture gate: it passes exactly the conforming repositories, and its
    diagnostics point at the line of the first occurrence. *)
From S2P Require Import Prelude PyStr PyFloat PyVal Regex Json PyPath PyText Hashing Storage Architecture.

(** * Lines *)

Definition lines (text : string) : list string := split_char ch_nl text.
Definition one_line (token : string) : bool := nonempty token && (count_char ch_nl token =? 0).

Lemma split_char_nonnil c s : ∃ x l, split_char c s = x :: l.
Proof. induction s as [|d s (x & l & IH)]; simpl; [by eauto|]. destruct (ascii_dec c d); [by eauto|]. rewrite IH. eauto. Qed.

(** A token without line break at the head of a text is at the head of its first line. *)
Lemma startswith_first_line token s x l :
  count_char ch_nl token = 0 → split_char ch_nl s = x :: l → startswith token x = startswith token s.
Proof.
  revert token x l. induction s as [|c s IH]; intros token x l Hn; cbn [split_char]; [by intros [= <- <-]|].
  destruct token as [|d token]; [by destruct x|]. cbn [count_char] in Hn.
  destruct (ascii_dec ch_nl d) as [|Hd]; [done|].
  destruct (split_char_nonnil ch_nl s) as (y & k & Hy). rewrite Hy.
  destruct (ascii_dec ch_nl c) as [<-|Hc]; intros [= <- <-]; cbn [startswith].
  - by destruct (ascii_dec d ch_nl) as [->|].
  - destruct (ascii_dec d c); [|done]. by eapply IH.
Qed.

Lemma contains_cons sub c s : contains sub (String c s) = startswith sub (String c s) || contains sub s.
Proof. done. Qed.

(** The line of the first occurrence contains it, and no line before does. *)
Lemma find_sub_line token s n :
  one_line token = true → find_sub token s = Some n →
  ∃ line, lines s !! count_char ch_nl (stake n s) = Some line ∧ contains token line = true
    ∧ ∀ j line', j < count_char ch_nl (stake n s) → lines s !! j = Some line' → contains token line' = false.
Proof.
  intros [Hne Ht%Nat.eqb_eq]%andb_true_iff. revert n. unfold lines.
  induction s as [|c s IH]; intros n; cbn [find_sub].
  { destruct (startswith token "") eqn:E; [|done]. by destruct token. }
  destruct (split_char_nonnil ch_nl s) as (y & k & Hy). destruct (startswith token (String c s)) eqn:E.
  - intros [= <-]. cbn [stake count_char]. destruct (split_char_nonnil ch_nl (String c s)) as (x & l & Hx).
    rewrite Hx. exists x. split_and!; [done| |intros j ? ?; lia].
    rewrite <- (startswith_first_line _ _ _ _ Ht Hx) in E. destruct x; simpl in *; by rewrite E.
  - destruct (find_sub token s) as [n'|]; [|done]. intros [= <-]. destruct (IH _ eq_refl) as (line & Hl & Hc & Hb).
    cbn [stake count_char split_char]. destruct (ascii_dec ch_nl c) as [<-|Hn]; cbn [Nat.add].
    + exists line. split_and!; [done..|]. intros [|j] line' Hj; [intros [= <-]; by destruct token|]. apply Hb. lia.
    + rewrite Hy in *. destruct (count_char ch_nl (stake n' s)) as [|m] eqn:Em.
      * injection Hl as <-. exists (String c y). split_and!; [done| |intros j ? ?; lia]. by rewrite contains_cons, Hc, orb_true_r.
      * exists line. split_and!; [done..|]. intros [|j] line' Hj.
        -- intros [= <-]. rewrite contains_cons, (Hb 0 y) by (lia || done). rewrite orb_false_r.
           rewrite <- E. apply (startswith_first_line token (String c s) (String c y) k); [done|]. cbn [split_char].
           by destruct (ascii_dec ch_nl c); [|rewrite Hy].
        -- intros Hj'. apply (Hb (S j)); [lia|done].
Qed.

Lemma contains_find token s : contains token s = true → ∃ n, find_sub token s = Some n.
Proof.
  induction s as [|c s IH]; cbn [find_sub contains].
  - rewrite orb_false_r. intros ->. eauto.
  - destruct (startswith _ _); [by eauto|]. intros (n & ->)%IH. eauto.
Qed.

(** [text] holds [token] on line [n], counted from 1, and on no line before. *)
Definition first_on_line (token text : string) (n : nat) : Prop :=
  ∃ line, lines text !! (n - 1) = Some line ∧ contains token line = true
    ∧ ∀ j line', j < n - 1 → lines text !! j = Some line' → contains token line' = false.

Lemma token_line_first token text :
  one_line token = true → contains token text = true → first_on_line token text (token_line text (index text token)).
Proof.
  intros H1 (n & Hn)%contains_find. unfold index, token_line. rewrite Hn. cbn [default].
  destruct (find_sub_line _ _ _ H1 Hn) as (line & Hl & Hc & Hb). exists line. rewrite Nat.add_sub. done.
Qed.

Lemma token_diagnostics_first (text rule p message : string) (tokens : list string) e :
  all one_line tokens = true →
  e ∈ flat_map (fun t => if contains t text then [diagnostic rule p (token_line text (index text t)) t message] else []) tokens →
  first_on_line (d_token e) text (d_line e).
Proof.
  rewrite all_true. intros H1 (t & Ht & He)%list_elem_of_In%in_flat_map. apply list_elem_of_In in Ht, He.
  destruct (contains t text) eqn:E; [|by apply not_elem_of_nil in He]. apply list_elem_of_singleton in He as ->.
  apply token_line_first; [by apply H1|done].
Qed.

(** * What the rules look for *)

Lemma finditer_nil r s : re_finditer r s = [] ↔ re_search r s = None.
Proof.
  unfold re_finditer, re_scan, re_search. cbn [scan]. destruct (search_from r [] (explode s)) as [m|]; [|done].
  split; [|done]. destruct (m_end m) as [b a]. destruct (shorter _ _); [by destruct (scan _ _ _ _)|].
  destruct a as [|c t]; [done|]. destruct (scan _ _ _ _) as [[|[] ]]; done.
Qed.

(** The content of a Go string literal. *)
Definition literal_content (m : rmatch) : string := match group m 1 with Some raw => raw | None => groupd m 2 end.

Lemma go_string_matches_nil text pattern :
  go_string_matches text pattern = [] ↔
  ∀ m, m ∈ re_finditer GO_STRING_LITERAL text → re_search pattern (literal_content m) = None.
Proof.
  unfold go_string_matches. rewrite flat_map_nil. setoid_rewrite <- finditer_nil. unfold literal_content.
  split; intros H m Hm; [by apply H, map_eq_nil in Hm|by rewrite H].
Qed.

Lemma elem_of_go_files files dir p bytes :
  (p, bytes) ∈ go_files files dir ↔ files !! p = Some bytes ∧ path_parent p = dir ∧ endswith ".go" (path_name p) = true.
Proof.
  unfold go_files. rewrite elem_of_filterb, elem_of_map_to_list, andb_true_iff, bool_decide_eq_true. done.
Qed.
Lemma elem_of_text_files files p bytes :
  (p, bytes) ∈ iter_text_files files ↔ files !! p = Some bytes ∧ is_active p = true.
Proof. unfold iter_text_files. rewrite sort_by_perm, elem_of_filterb, elem_of_map_to_list. done. Qed.

Lemma filter_tokens_nil (text : string) (tokens : list string) (f : string → Diagnostic) :
  flat_map (fun t => if contains t text then [f t] else []) tokens = [] ↔ ∀ t, t ∈ tokens → contains t text = false.
Proof. rewrite flat_map_nil. split; intros H t Ht; specialize (H t Ht); by destruct (contains t text). Qed.

Section conforming.
Context (is_dir : path → bool) (functions_of : string → res (list string)).

(** A repository that keeps its boundaries. *)
Record conforming (files : fs) : Prop := {
  cf_game : ∀ p bytes, files !! p = Some bytes → path_parent p = path_of "gametrade" → endswith ".go" (path_name p) = true →
    ∃ text, read_text bytes = Ok text ∧ ∀ t, t ∈ GAME_FORBIDDEN → contains t text = false;
  cf_market : ∀ p bytes, files !! p = Some bytes → path_parent p = path_of "distributed-backend/src/market" → endswith ".go" (path_name p) = true →
    ∃ text, read_text bytes = Ok text
      ∧ ∀ m, m ∈ re_finditer GO_STRING_LITERAL text → re_search SQL_MUTATION (literal_content m) = None;
  cf_gateway : ∀ p bytes, files !! p = Some bytes → path_parent p = path_of "distributed-backend/src/gateway" → endswith ".go" (path_name p) = true →
    ∃ text, read_text bytes = Ok text ∧ contains "/gametrade" text = false ∧ contains "/trade-settlement" text = false;
  cf_app : exists_ is_dir files (path_of "encore.app") = true;
  cf_removed : ∀ r, r ∈ REMOVED_PATHS → exists_ is_dir files (path_of r) = false;
  cf_docs : ∃ bytes text, files !! path_of "README.md" = Some bytes ∧ read_text bytes = Ok text ∧ contains CANONICAL_PATH text = true;
  cf_active : ∀ p bytes t, files !! p = Some bytes → is_active p = true → t ∈ FORBIDDEN_ACTIVE_REFERENCES →
    contains t (read_text_ignore bytes) = false;
  cf_packet : ∃ bytes text names, files !! test_path = Some bytes ∧ read_text bytes = Ok text ∧ functions_of text = Ok names
    ∧ PACKET_TEST ∈ names }.

Definition of_file (P : string → Prop) (kv : path * string) : Prop := ∃ text, read_text kv.2 = Ok text ∧ P text.
Lemma of_file_Ok (P : string → Prop) (kv : path * string) text : read_text kv.2 = Ok text → (of_file P kv ↔ P text).
Proof. intros H. unfold of_file. rewrite H. naive_solver. Qed.

Lemma game_errors_nil kv e :
  game_errors kv = Ok e → (e = [] ↔ of_file (fun text => ∀ t, t ∈ GAME_FORBIDDEN → contains t text = false) kv).
Proof. intros (text & Ht & <-%Ok_inj)%res_bind_Ok. by rewrite filter_tokens_nil, (of_file_Ok _ _ _ Ht). Qed.
Lemma market_errors_nil kv e :
  market_errors kv = Ok e → (e = [] ↔ of_file (fun text => ∀ m, m ∈ re_finditer GO_STRING_LITERAL text →
    re_search SQL_MUTATION (literal_content m) = None) kv).
Proof.
  intros (text & Ht & <-%Ok_inj)%res_bind_Ok. rewrite (of_file_Ok _ _ _ Ht), <- go_string_matches_nil.
  split; [apply map_eq_nil|by intros ->].
Qed.
Lemma gateway_errors_nil kv e :
  gateway_errors kv = Ok e →
  (e = [] ↔ of_file (fun text => contains "/gametrade" text = false ∧ contains "/trade-settlement" text = false) kv).
Proof.
  intros (text & Ht & <-%Ok_inj)%res_bind_Ok. rewrite (of_file_Ok _ _ _ Ht).
  destruct (contains "/gametrade" text), (contains "/trade-settlement" text); simpl; naive_solver.
Qed.

Lemma boundaries_nil files e :
  check_source_boundaries files = Ok e →
  (e = [] ↔
   (∀ kv, kv ∈ go_files files (path_of "gametrade") → of_file (fun text => ∀ t, t ∈ GAME_FORBIDDEN → contains t text = false) kv)
   ∧ (∀ kv, kv ∈ go_files files (path_of "distributed-backend/src/market") → of_file (fun text => ∀ m, m ∈ re_finditer GO_STRING_LITERAL text →
        re_search SQL_MUTATION (literal_content m) = None) kv)
   ∧ ∀ kv, kv ∈ go_files files (path_of "distributed-backend/src/gateway") →
       of_file (fun text => contains "/gametrade" text = false ∧ contains "/trade-settlement" text = false) kv).
Proof.
  intros (g & Hg & (m & Hm & (w & Hw & <-%Ok_inj)%res_bind_Ok)%res_bind_Ok)%res_bind_Ok.
  by rewrite !app_nil, (gathered_nil _ _ _ _ game_errors_nil Hg), (gathered_nil _ _ _ _ market_errors_nil Hm),
    (gathered_nil _ _ _ _ gateway_errors_nil Hw).
Qed.

Lemma marker_nil files :
  marker_errors is_dir files = [] ↔
  exists_ is_dir files (path_of "encore.app") = true ∧ ∀ r, r ∈ REMOVED_PATHS → exists_ is_dir files (path_of r) = false.
Proof.
  unfold marker_errors. rewrite (app_nil (if exists_ _ _ _ then _ else _)), flat_map_nil.
  split; (intros [H1 H2]; split; [by destruct (exists_ is_dir files (path_of "encore.app"))|]);
    intros r Hr; specialize (H2 r Hr); by destruct (exists_ is_dir files (path_of r)).
Qed.

Lemma docs_nil files e :
  docs_errors files = Ok e →
  (e = [] ↔ ∃ bytes text, files !! path_of "README.md" = Some bytes ∧ read_text bytes = Ok text ∧ contains CANONICAL_PATH text = true).
Proof.
  intros (docs & Hd & <-%Ok_inj)%res_bind_Ok. destruct (files !! _) as [bytes|].
  - destruct (contains CANONICAL_PATH docs) eqn:E; split; try done; [by eauto|]. intros (b & t & [= <-] & Ht & Hc). congruence.
  - injection Hd as <-. split; [done|]. by intros (b & t & [=] & _).
Qed.

Lemma packet_nil files e :
  check_simulator_packet_test functions_of files = Ok e →
  (e = [] ↔ ∃ bytes text names, files !! test_path = Some bytes ∧ read_text bytes = Ok text ∧ functions_of text = Ok names
    ∧ PACKET_TEST ∈ names).
Proof.
  unfold check_simulator_packet_test. destruct (files !! test_path) as [bytes|].
  - intros (text & Ht & (names & Hn & <-%Ok_inj)%res_bind_Ok)%res_bind_Ok. case_bool_decide; split; try done; [by eauto 10|].
    intros (b & t & n & [= <-] & Ht' & Hn' & ?). congruence.
  - intros <-%Ok_inj. split; [done|]. by intros (b & t & n & [=] & _).
Qed.

Lemma stale_nil files :
  flat_map stale_errors (iter_text_files files) = [] ↔
  ∀ p bytes t, files !! p = Some bytes → is_active p = true → t ∈ FORBIDDEN_ACTIVE_REFERENCES → contains t (read_text_ignore bytes) = false.
Proof.
  rewrite flat_map_nil. split.
  - intros H p bytes t Hp Ha Ht. specialize (H (p, bytes)). unfold stale_errors in H. rewrite filter_tokens_nil in H.
    apply H; [|done]. by apply elem_of_text_files.
  - intros H [p bytes] [Hp Ha]%elem_of_text_files. unfold stale_errors. rewrite filter_tokens_nil. eauto.
Qed.

Lemma all_go_files files dir (P : path * string → Prop) :
  (∀ kv, kv ∈ go_files files dir → P kv) ↔
  ∀ p bytes, files !! p = Some bytes → path_parent p = dir → endswith ".go" (path_name p) = true → P (p, bytes).
Proof.
  split.
  - intros H p bytes Hp Hd He. apply H. by apply elem_of_go_files.
  - intros H [p bytes] (Hp & Hd & He)%elem_of_go_files. by apply H.
Qed.

Lemma architecture_errors_nil files e : architecture_errors is_dir functions_of files = Ok e → e = [] ↔ conforming files.
Proof.
  intros (b & Hb & (d & Hd & (k & Hk & <-%Ok_inj)%res_bind_Ok)%res_bind_Ok)%res_bind_Ok.
  rewrite (app_nil b), (app_nil (marker_errors _ _)), (app_nil d), (app_nil (flat_map _ _)).
  rewrite (boundaries_nil _ _ Hb), (docs_nil _ _ Hd), (packet_nil _ _ Hk), marker_nil, stale_nil, !all_go_files.
  split; [intros ((? & ? & ?) & (? & ?) & ? & ? & ?); by constructor|]. intros []. done.
Qed.
End conforming.

(** * Claims *)

(** C27: The architecture gate passes exactly the conforming repositories: when it ends, it exits
    with 0 if and only if the game domain names no service or infrastructure package, no string
    literal of Market mutates the database, the gateway names no settlement implementation, the
    Encore marker exists, no removed path does, the README documents the canonical path, no active
    text holds a stale reference, and the simulator's packet test exists. *)
Theorem architecture_passes_iff is_dir functions_of files out err code :
  architecture_main is_dir functions_of files = Ok (out, err, code) → code = 0%Z ↔ conforming is_dir functions_of files.
Proof.
  intros (e & He & H)%res_bind_Ok. rewrite <- (architecture_errors_nil _ _ _ _ He). destruct e; by simplify_eq.
Qed.

(** Diagnostics of forbidden tokens point at the right line: the reported line of the text
    holds the reported token, and no line before it does. *)
Theorem diagnostics_point_at_first_line kv e :
  (e ∈ stale_errors kv → first_on_line (d_token e) (read_text_ignore kv.2) (d_line e))
  ∧ (∀ l, game_errors kv = Ok l ∨ gateway_errors kv = Ok l → e ∈ l →
       ∃ text, read_text kv.2 = Ok text ∧ first_on_line (d_token e) text (d_line e)).
Proof.
  split.
  - apply token_diagnostics_first. vm_compute. reflexivity.
  - intros l [(text & Ht & <-%Ok_inj)%res_bind_Ok|(text & Ht & <-%Ok_inj)%res_bind_Ok] He; exists text; (split; [done|]).
    + revert He. apply token_diagnostics_first. vm_compute. reflexivity.
    + destruct (contains "/gametrade" text) eqn:Eg; [|destruct (contains "/trade-settlement" text) eqn:Es];
        [apply list_elem_of_singleton in He as ->; by apply token_line_first..|by apply not_elem_of_nil in He].
Qed.

Lemma diagnostics_point_at_first_line_witness :
  first_on_line "MARKET_URL" ("one" +:+ nl +:+ "see MARKET_URL") 2.
Proof.
  apply (proj1 (diagnostics_point_at_first_line (path_of "notes.md", "one" +:+ nl +:+ "see MARKET_URL")
    (diagnostic "STALE_ACTIVE_REFERENCE" "notes.md" 2 "MARKET_URL" "active source contains a stale architecture reference"))).
  vm_compute. left.
Defined.

Definition demo_repository : fs :=
  {[ path_of "encore.app" := "{}"; path_of "README.md" := CANONICAL_PATH; test_path := PACKET_TEST;
     path_of "gametrade/rules.go" := "package gametrade";
     path_of "distributed-backend/src/market/read.go" := "const q = `SELECT 1`" ]}.
Lemma architecture_passes_iff_witness : conforming (fun _ => false) (fun text => Ok [text]) demo_repository.
Proof.
  apply (architecture_passes_iff (fun _ => false) (fun text => Ok [text]) demo_repository
           ["architecture boundary checks passed"] [] 0%Z); vm_compute; reflexivity.
Defined.

(** A defect: the line of a database mutation is counted from the opening quote, one character
    too early, so a statement at the start of a line of a raw string is reported one line above. *)
Theorem mutation_line_off_by_one :
  map (fun x => (first_word (groupd x.1 1), x.2)) (go_string_matches ("q := `" +:+ nl +:+ "UPDATE wallet SET x`") SQL_MUTATION) = [("UPDATE", 1)]
  ∧ lines ("q := `" +:+ nl +:+ "UPDATE wallet SET x`") !! 0 = Some "q := `".
Proof. vm_compute. split; reflexivity. Qed.
