(* ===== verification/Pipeline.v ===== *)
(** The Dagger pipeline ([distributed-backend/ci-cd/pipeline.py]): settings, the containers of each
    check and the dispatch of commands.  The Dagger client is a parameter: a container is the list
    of calls that built it, and reading its output runs it. *)
From S2P Require Import Prelude PyStr PyFloat PyVal Regex Json JsonFacts JsonIndent PyPath PyIO.

Definition GO_IMAGE : string := "golang:1.26.5-bookworm@sha256:1ecb7edf62a0408027bd5729dfd6b1b8766e578e8df93995b225dfd0944eb651".
Definition RUST_IMAGE : string := "rust:1-bookworm@sha256:19817ead3289c8c631c73df281e18b59b172f6a31f4f563290f69cddd06c30e9".
Definition PYTHON_IMAGE : string := "python:3.13-slim@sha256:c33f0bc4364a6881bed1ec0cc2665e6c53c87a43e774aaeab88e6f17af105e4f".
Definition NODE_IMAGE : string := "node:24.7.0-alpine@sha256:be4d5e92ac68483ec71440bf5934865b4b7fcb93588f17a24d411d15f0204e4f".
Definition KUSTOMIZE_IMAGE : string := "alpine/k8s:1.33.1".
Definition TERRAFORM_IMAGE : string := "hashicorp/terraform:1.15.8@sha256:7ae513256f7ce67879e218ae8593d6fbe216ec9e123abe6c94e4e10704857963".
Definition ENCORE_CLI_VERSION : string := "1.57.9".
Definition ENCORE_CLI_SHA256 : string := "dfd43dcd456f91414a823315480da921333e6d1e3535ab48c47c09225d022af5".
Definition BUF_VERSION : string := "1.70.0".
Definition PROTOC_GEN_GO_VERSION : string := "1.36.11".
Definition SERVICE_IMAGE_NAMES : list string := ["encore-backend"; "trade-settlement"; "quilkin"].
Definition TERRAFORM_ROOTS : list (string * string) :=
  [("aws", "distributed-backend/terraform/eks"); ("gcp", "distributed-backend/terraform/gke");
   ("talos-omni", "distributed-backend/terraform/talos-omni")].
Definition TERRAFORM_LOCKFILE_ARGS : list (string * string) :=
  [("aws", "-lockfile=readonly"); ("gcp", ""); ("talos-omni", "-lockfile=readonly")].
Definition SOURCE_EXCLUDES : list string :=
  [".git"; ".cache"; ".ci-venv"; ".venv"; "distributed-backend/ci-cd/out"; ".o11y"; "target";
   "distributed-backend/src/trade-settlement/target"; "**/.pytest_cache"; "**/__pycache__"; "**/*.pyc"].

(** * Settings *)

Section settings.
Context (environ : list (string * string)).

(** [os.environ.get(name) or default] *)
Definition env (name dflt : string) : string := let v := getenv environ name "" in if nonempty v then v else dflt.
(** [a or b]; an absent option is the empty string. *)
Definition or_ (a b : string) : string := if nonempty a then a else b.

Definition ALIASES : list (string * string) := [("eks", "aws"); ("gke", "gcp"); ("talos", "talos-omni"); ("omni", "talos-omni")].
Definition cloud_provider (explicit : string) : res string :=
  let asked := or_ explicit (env "EVE_TRADE_CLOUD_PROVIDER" "aws") in
  let value := default asked (dget (lower asked) ALIASES) in
  if dhas value TERRAFORM_ROOTS then Ok value
  else Raise (ValueError ("deployment target must be one of: " +:+ join ", " (dkeys TERRAFORM_ROOTS))).
Definition image_registry (explicit : string) : string :=
  rstrip (is_char "/")
    (or_ explicit (or_ (env "IMAGE_REGISTRY" "") (or_ (env "CI_REGISTRY_IMAGE" "") "registry.local/eve-trade"))).
Definition image_tag (explicit : string) : string :=
  or_ explicit (or_ (env "IMAGE_TAG" "") (or_ (env "CI_COMMIT_TAG" "") (or_ (env "CI_COMMIT_SHORT_SHA" "") (env "CI_COMMIT_SHA" "local")))).
End settings.

(** * Containers *)

(** The calls on a container; the source tree leaves out [SOURCE_EXCLUDES]. *)
Inductive step : Type :=
| From_ (image : string)
| Cache (target volume : string)
| Directory (target : string)
| Workdir (dir : string)
| Exec (argv : list string).
Definition container : Type := list step.

(** The containers that were run, the file of image references, and what was printed. *)
Record st : Type := St { ran : list (string * container); digests : option string; shown : list string }.

Definition go_base_install : string :=
  nl
   +:+ "set -euo pipefail" +:+ nl
   +:+ "GOBIN=/usr/local/bin go install github.com/bufbuild/buf/cmd/buf@v" +:+ BUF_VERSION +:+ nl
   +:+ "GOBIN=/usr/local/bin go install google.golang.org/protobuf/cmd/protoc-gen-go@v" +:+ PROTOC_GEN_GO_VERSION +:+ nl
   +:+ "ENCORE_CLI_VERSION=" +:+ ENCORE_CLI_VERSION +:+ " ENCORE_CLI_SHA256=" +:+ ENCORE_CLI_SHA256 +:+ " ENCORE_INSTALL=/root/.encore bash scripts/install_encore_cli.sh" +:+ nl
   +:+ "bash scripts/harden_encore_install.sh /root/.encore" +:+ nl
   +:+ "ln -sf /root/.encore/bin/encore /usr/local/bin/encore" +:+ nl.
Definition go_base : container :=
  [From_ GO_IMAGE; Cache "/go/pkg/mod" "go-mod"; Cache "/root/.cache/go-build" "go-build"; Directory "/workspace"; Workdir "/workspace";
   Exec ["bash"; "-lc"; go_base_install]].
Definition rust_base : container :=
  [From_ RUST_IMAGE;
   Exec ["bash"; "-lc"; "apt-get update && apt-get install -y --no-install-recommends protobuf-compiler pkg-config ca-certificates && rm -rf /var/lib/apt/lists/*"];
   Exec ["rustup"; "component"; "add"; "rustfmt"; "clippy"]; Directory "/workspace";
   Workdir "/workspace/distributed-backend/src/trade-settlement"].
Definition on_source (image : string) (argv : list string) : container :=
  [From_ image; Directory "/workspace"; Workdir "/workspace"; Exec argv].

Definition proto_script : string :=
  "buf build && buf lint && buf format --diff --exit-code && buf generate && git diff --exit-code -- proto/gen".
Definition go_script : string :=
  nl
   +:+ "set -euo pipefail" +:+ nl
   +:+ "go mod download" +:+ nl
   +:+ "go mod verify" +:+ nl
   +:+ "go mod tidy" +:+ nl
   +:+ "git diff --exit-code -- go.mod go.sum" +:+ nl
   +:+ "test -z " +:+ dq +:+ "$(gofmt -l distributed-backend/src/gateway distributed-backend/src/market distributed-backend/src/settlement distributed-backend/src/settlementworker distributed-backend/internal gametrade proto/gen go_modules_test.go)" +:+ dq +:+ nl
   +:+ "GOFLAGS=-mod=mod encore test ./..." +:+ nl
   +:+ "ENCORERUNTIME_NOPANIC=1 go test -race ./distributed-backend/src/gateway ./distributed-backend/src/settlementworker ./distributed-backend/internal/... ./gametrade" +:+ nl
   +:+ "ENCORERUNTIME_NOPANIC=1 go test -race ./distributed-backend/src/market -run '^TestSettlement' -skip 'APIErrors'" +:+ nl
   +:+ "ENCORERUNTIME_NOPANIC=1 go test -race ./distributed-backend/src/market -run '^TestDuplicateSettlementResultProjectionIsHarmless$'" +:+ nl
   +:+ "go vet ./..." +:+ nl
   +:+ "GOBIN=/usr/local/bin go install honnef.co/go/tools/cmd/staticcheck@v0.7.0" +:+ nl
   +:+ "staticcheck ./..." +:+ nl
   +:+ "GOBIN=/usr/local/bin go install golang.org/x/vuln/cmd/govulncheck@v1.5.0" +:+ nl
   +:+ "govulncheck ./..." +:+ nl
   +:+ "ENCORERUNTIME_NOPANIC=1 go test -run '^$' -fuzz '^FuzzAuthenticatedPayload' -fuzztime 10s ./distributed-backend/src/gateway" +:+ nl.
Definition rust_script : string :=
  "cargo fmt --all -- --check && cargo check --locked --all-targets --all-features && cargo test --locked --all-features && cargo clippy --locked --all-targets --all-features -- -D warnings".
Definition python_script : string :=
  nl
   +:+ "set -euo pipefail" +:+ nl
   +:+ "python -m compileall simulator/eve_trade_simulator simulator/trade_gui distributed-backend/tests/e2e distributed-backend/observability" +:+ nl
   +:+ "python -m pip install -r simulator/requirements-test.txt -r distributed-backend/observability/requirements-test.txt" +:+ nl
   +:+ "python -m pip install PyYAML==6.0.3" +:+ nl
   +:+ "python -m pip_audit --requirement simulator/requirements.txt" +:+ nl
   +:+ "python -m pip_audit --requirement simulator/requirements-test.txt" +:+ nl
   +:+ "python -m pip_audit --requirement distributed-backend/tests/e2e/requirements.txt" +:+ nl
   +:+ "python -m pip_audit --requirement distributed-backend/observability/requirements.txt" +:+ nl
   +:+ "python -m pip_audit --requirement distributed-backend/observability/requirements-test.txt" +:+ nl
   +:+ "(cd simulator && python -m coverage run --rcfile=.coveragerc manage.py test trade_gui && python -m coverage report --rcfile=.coveragerc --fail-under=80)" +:+ nl
   +:+ "python -m coverage erase" +:+ nl
   +:+ "PYTHONPATH=distributed-backend python -m coverage run --rcfile=distributed-backend/observability/.coveragerc -m unittest discover -s distributed-backend/observability/tests -v" +:+ nl
   +:+ "python -m coverage report --rcfile=distributed-backend/observability/.coveragerc --fail-under=35" +:+ nl
   +:+ "python scripts/verify_architecture_boundaries.py" +:+ nl
   +:+ "python scripts/verify_schema_ownership.py" +:+ nl
   +:+ "python -m unittest discover -s scripts/tests -v" +:+ nl.
Definition gui_script : string :=
  "corepack enable && corepack prepare pnpm@11.7.0 --activate && pnpm install --frozen-lockfile && pnpm run gui:test".
Definition kubernetes_script : string :=
  nl
   +:+ "set -euo pipefail" +:+ nl
   +:+ "kubectl kustomize distributed-backend/orchestration/kubernetes/overlay/local >/tmp/eve-trade-local.yaml" +:+ nl
   +:+ "kubectl kustomize distributed-backend/orchestration/kubernetes/overlay/prod >/tmp/eve-trade-prod.yaml" +:+ nl
   +:+ "kubectl kustomize distributed-backend/orchestration/kubernetes/chaos/litmus/overlays/prod >/tmp/eve-trade-chaos.yaml" +:+ nl
   +:+ "python scripts/verify_rendered_kubernetes.py --expect-unresolved-image-template /tmp/eve-trade-prod.yaml" +:+ nl
   +:+ "python -m unittest discover -s scripts/tests -v" +:+ nl.
Definition terraform_lock_check (provider root : string) : string :=
  if bool_decide (provider = "eks")
  then " && terraform -chdir=" +:+ root +:+ " providers lock -platform=linux_amd64 -platform=windows_amd64 && git diff --exit-code -- " +:+ root +:+ "/.terraform.lock.hcl"
  else "".
Definition terraform_script (provider root lockfile_args : string) : string :=
  let lock_check := terraform_lock_check provider root in
  "terraform fmt -check -recursive distributed-backend/terraform && terraform -chdir=" +:+ root +:+ " init -backend=false " +:+ lockfile_args +:+ lock_check +:+ " && terraform -chdir=" +:+ root +:+ " providers && terraform -chdir=" +:+ root +:+ " validate && terraform -chdir=" +:+ root +:+ " test".
Definition build_script (registry tag : string) : string :=
  "GOFLAGS=-mod=mod encore build docker --config infra/encore/self-host.nsq.json " +:+ registry +:+ "/encore-backend:" +:+ tag.
Definition render_script (output : string) : string :=
  nl
   +:+ "set -euo pipefail" +:+ nl
   +:+ "kubectl kustomize distributed-backend/orchestration/kubernetes/overlay/prod > /tmp/rendered.yaml" +:+ nl
   +:+ "cp /tmp/rendered.yaml /workspace/" +:+ output +:+ nl.
Definition chaos_script (output : string) : string :=
  "kubectl kustomize distributed-backend/orchestration/kubernetes/chaos/litmus/overlays/prod > /workspace/" +:+ output.

(** * Commands *)

Section pipeline.
(** Running a container, after those that ran before it. *)
Context (stdout_of : list (string * container) → container → res string).

Definition run_container (title : string) (c : container) : io st string := fun s =>
  let shown1 := shown s ++ [nl +:+ "==> " +:+ title] in
  let ran1 := ran s ++ [(title, c)] in
  match stdout_of (ran s) c with
  | Ok output => (Ok output, St ran1 (digests s) (if nonempty (strip output) then shown1 ++ [output] else shown1))
  | Raise e => (Raise e, St ran1 (digests s) shown1)
  end.
Definition run_ (title : string) (c : container) : io st unit := _ ← run_container title c; skip.

Definition proto_checks : io st unit := run_ "protobuf contract checks" (go_base ++ [Exec ["bash"; "-lc"; proto_script]]).
Definition go_checks : io st unit := run_ "Encore Go checks" (go_base ++ [Exec ["bash"; "-lc"; go_script]]).
Definition rust_checks : io st unit := run_ "Rust settlement checks" (rust_base ++ [Exec ["bash"; "-lc"; rust_script]]).
Definition python_checks : io st unit := run_ "Python checks" (on_source PYTHON_IMAGE ["bash"; "-lc"; python_script]).
Definition gui_checks : io st unit := run_ "GUI contract checks" (on_source NODE_IMAGE ["sh"; "-c"; gui_script]).
Definition kubernetes_checks : io st unit := run_ "Kubernetes render checks" (on_source KUSTOMIZE_IMAGE ["sh"; "-c"; kubernetes_script]).

Definition terraform_check (provider : string) : io st unit :=
  match dget provider TERRAFORM_ROOTS, dget provider TERRAFORM_LOCKFILE_ARGS with
  | Some root, Some lockfile_args =>
      run_ ("Terraform " +:+ provider) (on_source TERRAFORM_IMAGE ["sh"; "-c"; terraform_script provider root lockfile_args])
  | _, _ => throw KeyError
  end.
Definition terraform_checks (providers : list string) : io st unit := io_iter terraform_check providers.

Definition digests_text (registry tag : string) : string :=
  implode (pprint true 0 (PDict (map (fun name => (name, PStr (registry +:+ "/" +:+ name +:+ ":" +:+ tag))) SERVICE_IMAGE_NAMES))).
Definition build_images (registry tag : string) : io st unit :=
  _ ← run_ "Build Encore backend image" (go_base ++ [Exec ["bash"; "-lc"; build_script registry tag]]);
  modify (fun s => St (ran s) (Some (digests_text registry tag)) (shown s)).
Definition render_kubernetes (registry tag output : string) : io st unit :=
  run_ "Render Kubernetes" (on_source KUSTOMIZE_IMAGE ["sh"; "-c"; render_script output]).
Definition render_chaos (output : string) : io st unit :=
  run_ "Render Litmus chaos" (on_source KUSTOMIZE_IMAGE ["sh"; "-c"; chaos_script output]).

Definition check : io st unit :=
  _ ← proto_checks; _ ← kubernetes_checks; _ ← python_checks; terraform_checks (dkeys TERRAFORM_ROOTS).
Definition test : io st unit := _ ← go_checks; _ ← rust_checks; _ ← python_checks; gui_checks.
Definition integration : io st unit := go_checks.
Definition deploy (registry tag : string) : io st unit := render_kubernetes registry tag "distributed-backend/ci-cd/out/kubernetes.yaml".
Definition chaos (namespace selector : string) (timeout_seconds : Z) (cleanup : bool) : io st unit :=
  render_chaos "distributed-backend/ci-cd/out/chaos-litmus.yaml".

(** The parsed options; absent ones are empty. *)
Record args : Type := Args {
  command : string; registry_arg : string; tag_arg : string; provider_arg : string; all_clouds : bool; output : string;
  namespace : string; selector : string; timeout_seconds : Z; cleanup : bool }.

(** A default the parser computes for every command. *)
Definition chaos_timeout (environ : list (string * string)) : res Z := py_int (PStr (env environ "CHAOS_TIMEOUT_SECONDS" "900")).

(** The dispatch on the command, with the settings computed first for all of them. *)
Definition dispatch (environ : list (string * string)) (a : args) (provider : string) : io st unit :=
  let registry := image_registry environ (registry_arg a) in
  let tag := image_tag environ (tag_arg a) in
  if bool_decide (command a = "check") then check
  else if bool_decide (command a = "test") then test
  else if bool_decide (command a = "security") then kubernetes_checks
  else if bool_decide (command a = "build") then build_images registry tag
  else if bool_decide (command a = "publish") then build_images registry tag
  else if bool_decide (command a = "integration") then integration
  else if bool_decide (command a = "terraform") then terraform_checks (if all_clouds a then dkeys TERRAFORM_ROOTS else [provider])
  else if bool_decide (command a = "render-kubernetes") then render_kubernetes registry tag (output a)
  else if bool_decide (command a = "render-chaos") then render_chaos (output a)
  else if bool_decide (command a = "deploy") then deploy registry tag
  else if bool_decide (command a = "chaos") then chaos (namespace a) (selector a) (timeout_seconds a) (cleanup a)
  else skip.
Definition run (environ : list (string * string)) (a : args) : io st unit :=
  provider ← lift (cloud_provider environ (provider_arg a)); dispatch environ a provider.
End pipeline.
