(* ===== verification/PipelineFacts.v ===== *)
(** Correctness of the pipeline: every command runs its plan of containers and stops at the first
    that fails; which settings are accepted; and a check that never runs. *)
From S2P Require Import Prelude PyStr PyFloat PyVal Regex Json JsonFacts JsonIndent PyPath PyIO Pipeline.

(** * Settings *)

Lemma cloud_provider_spec environ explicit p :
  cloud_provider environ explicit = Ok p →
  p ∈ dkeys TERRAFORM_ROOTS
  ∧ (p = or_ explicit (env environ "EVE_TRADE_CLOUD_PROVIDER" "aws")
     ∨ (lower (or_ explicit (env environ "EVE_TRADE_CLOUD_PROVIDER" "aws")), p) ∈ ALIASES).
Proof.
  unfold cloud_provider. destruct (dhas _ _) eqn:E; [|done]. intros <-%Ok_inj. split.
  - unfold dhas in E. match goal with |- ?v ∈ ?l => destruct (decide (v ∈ l)) as [|Hn]; [done|] end.
    apply dget_None in Hn. by rewrite Hn in E.
  - destruct (dget _ ALIASES) eqn:F; [|by left]. right. by apply dget_Some_elem.
Qed.

(** * Plans *)

Section follows.
Context (stdout_of : list (string * container) → container → res string).

(** [m] runs a prefix of the plan [l], all of it with success when it returns. *)
Definition follows {A} (l : list (string * container)) (m : io st A) : Prop := ∀ s,
  ∃ done rest, l = done ++ rest ∧ ran (m s).2 = ran s ++ done
    ∧ (is_ok (m s).1 = true → rest = [])
    ∧ ∀ l1 x l2, done = l1 ++ x :: l2 → (l2 ≠ [] ∨ is_ok (m s).1 = true) → is_ok (stdout_of (ran s ++ l1) x.2) = true.

Lemma follows_run title c : follows [(title, c)] (run_ stdout_of title c).
Proof.
  intros s. exists [(title, c)], []. unfold run_, mbind, io_bind, run_container.
  destruct (stdout_of (ran s) c) as [o|e] eqn:E; simpl; (split_and!; [done..|]); intros [|y l1] x l2 Heq; simplify_eq/=.
  - intros _. by rewrite app_nil_r, E.
  - by destruct l1.
  - by intros [|].
  - by destruct l1.
Qed.

Lemma follows_quiet {A} (m : io st A) : (∀ s, ran (m s).2 = ran s) → follows [] m.
Proof. intros H s. exists [], []. rewrite H. split_and!; [done|by rewrite app_nil_r|done|]. by intros [|] ? ? [=]. Qed.

Lemma follows_bind {A B} l1 l2 (m : io st A) (f : A → io st B) :
  follows l1 m → (∀ a, follows l2 (f a)) → follows (l1 ++ l2) (m ≫= f).
Proof.
  intros Hm Hf s. unfold mbind, io_bind. destruct (Hm s) as (d1 & r1 & H1 & Hr1 & Hd1 & Hok1).
  destruct (m s) as [[a|e] s1]; simpl in *.
  - rewrite (Hd1 eq_refl), app_nil_r in H1. subst d1. destruct (Hf a s1) as (d2 & r2 & H2 & Hr2 & Hd2 & Hok2).
    exists (l1 ++ d2), r2. split_and!; [by rewrite H2, app_assoc|by rewrite Hr2, Hr1, app_assoc|done|].
    intros k1 x k2 Heq Hlast. apply app_eq_inv in Heq as [(k & -> & Heq)|(k & -> & ->)].
    + destruct k as [|y k]; simpl in *.
      * subst. rewrite app_nil_r in *. apply (Hok2 [] x k2) in Hlast; [|done]. by rewrite Hr1, app_nil_r in Hlast.
      * simplify_eq. apply (Hok1 k1 y k); [done|]. by right.
    + rewrite app_assoc, <- Hr1. by apply (Hok2 k x k2).
  - exists d1, (r1 ++ l2). split_and!; [by rewrite H1, <- app_assoc|done|done|done].
Qed.

Lemma follows_iter {A} (c : A → list (string * container)) (f : A → io st unit) l :
  (∀ x, x ∈ l → follows (c x) (f x)) → follows (flat_map c l) (io_iter f l).
Proof.
  induction l as [|x l IH]; intros Hf; simpl; [by apply follows_quiet|].
  apply follows_bind; [apply Hf; left|]. intros _. apply IH. intros y Hy. apply Hf. by right.
Qed.

(** The container of each check, and what each command must run. *)
Definition proto_c := ("protobuf contract checks", go_base ++ [Exec ["bash"; "-lc"; proto_script]]).
Definition go_c := ("Encore Go checks", go_base ++ [Exec ["bash"; "-lc"; go_script]]).
Definition rust_c := ("Rust settlement checks", rust_base ++ [Exec ["bash"; "-lc"; rust_script]]).
Definition python_c := ("Python checks", on_source PYTHON_IMAGE ["bash"; "-lc"; python_script]).
Definition gui_c := ("GUI contract checks", on_source NODE_IMAGE ["sh"; "-c"; gui_script]).
Definition kubernetes_c := ("Kubernetes render checks", on_source KUSTOMIZE_IMAGE ["sh"; "-c"; kubernetes_script]).
Definition terraform_c (p : string) : string * container :=
  ("Terraform " +:+ p, on_source TERRAFORM_IMAGE ["sh"; "-c"; terraform_script p (getenv TERRAFORM_ROOTS p "") (getenv TERRAFORM_LOCKFILE_ARGS p "")]).
Definition build_c (registry tag : string) : string * container :=
  ("Build Encore backend image", go_base ++ [Exec ["bash"; "-lc"; build_script registry tag]]).
Definition render_c (output : string) : string * container := ("Render Kubernetes", on_source KUSTOMIZE_IMAGE ["sh"; "-c"; render_script output]).
Definition chaos_c (output : string) : string * container := ("Render Litmus chaos", on_source KUSTOMIZE_IMAGE ["sh"; "-c"; chaos_script output]).

Definition plan (environ : list (string * string)) (a : args) (provider : string) : list (string * container) :=
  let registry := image_registry environ (registry_arg a) in
  let tag := image_tag environ (tag_arg a) in
  default [] (dget (command a)
    [("check", [proto_c; kubernetes_c; python_c] ++ map terraform_c ["aws"; "gcp"; "talos-omni"]);
     ("test", [go_c; rust_c; python_c; gui_c]); ("security", [kubernetes_c]); ("build", [build_c registry tag]);
     ("publish", [build_c registry tag]); ("integration", [go_c]);
     ("terraform", map terraform_c (if all_clouds a then ["aws"; "gcp"; "talos-omni"] else [provider]));
     ("render-kubernetes", [render_c (output a)]); ("render-chaos", [chaos_c (output a)]);
     ("deploy", [render_c "distributed-backend/ci-cd/out/kubernetes.yaml"]);
     ("chaos", [chaos_c "distributed-backend/ci-cd/out/chaos-litmus.yaml"])]).

Lemma follows_terraform providers :
  (∀ p, p ∈ providers → p ∈ dkeys TERRAFORM_ROOTS) → follows (map terraform_c providers) (terraform_checks stdout_of providers).
Proof.
  intros Hp. assert (map terraform_c providers = flat_map (fun p => [terraform_c p]) providers) as ->.
  { clear Hp. induction providers as [|p l IH]; simpl; [done|by rewrite IH]. }
  apply follows_iter. intros p Hin. apply Hp in Hin.
  repeat (apply elem_of_cons in Hin as [->|Hin]); [apply follows_run..|by apply not_elem_of_nil in Hin].
Qed.
Lemma follows_build registry tag : follows [build_c registry tag] (build_images stdout_of registry tag).
Proof. apply (follows_bind [_] []); [apply follows_run|]. intros _. by apply follows_quiet. Qed.

Ltac on_command c :=
  match goal with |- context [command ?a = c] =>
    let E := fresh in
    destruct (decide (command a = c)) as [E|E];
    [rewrite (bool_decide_true (command a = c)) by exact E|rewrite (bool_decide_false (command a = c)) by exact E]
  end.
Lemma follows_plan environ a p :
  cloud_provider environ (provider_arg a) = Ok p → follows (plan environ a p) (run stdout_of environ a).
Proof.
  intros Hp. destruct (cloud_provider_spec _ _ _ Hp) as [Hk _].
  assert (follows (plan environ a p) (dispatch stdout_of environ a p)) as H; [|intros s; specialize (H s)].
  2: { unfold run. by rewrite (bind_ok _ _ s p s) by (unfold lift; by rewrite Hp). }
  unfold plan, dispatch. cbn [dget].
  on_command "check"; [cbn [default]; apply (follows_bind [_]); [apply follows_run|intros _];
    apply (follows_bind [_]); [apply follows_run|intros _]; apply (follows_bind [_]); [apply follows_run|intros _]; by apply follows_terraform|].
  on_command "test"; [cbn [default]; do 3 (apply (follows_bind [_]); [apply follows_run|intros _]); apply follows_run|].
  on_command "security"; [apply follows_run|].
  on_command "build"; [apply follows_build|].
  on_command "publish"; [apply follows_build|].
  on_command "integration"; [apply follows_run|].
  on_command "terraform"; [cbn [default]; apply follows_terraform; destruct (all_clouds a); [done|]; by intros q ->%list_elem_of_singleton|].
  on_command "render-kubernetes"; [apply follows_run|].
  on_command "render-chaos"; [apply follows_run|].
  on_command "deploy"; [apply follows_run|].
  on_command "chaos"; [apply follows_run|].
  by apply follows_quiet.
Qed.
End follows.

(** * Claims *)

(** C26: The pipeline follows its plan: with an accepted deployment target, a command runs a prefix
    of its plan of containers, in order and nothing else; nothing runs after a container that
    failed; and if the command returns, the whole plan ran and every container succeeded. *)
Theorem pipeline_follows_plan stdout_of environ a p s :
  cloud_provider environ (provider_arg a) = Ok p →
  let out := run stdout_of environ a s in
  ∃ done rest, plan environ a p = done ++ rest ∧ ran out.2 = ran s ++ done ∧ (is_ok out.1 = true → rest = [])
    ∧ ∀ before x after, done = before ++ x :: after → (after ≠ [] ∨ is_ok out.1 = true) →
        is_ok (stdout_of (ran s ++ before) x.2) = true.
Proof. intros Hp. by apply follows_plan. Qed.

Definition demo_args : args := Args "check" "" "" "GKE" false "" "" "" 900 false.
Lemma pipeline_follows_plan_witness :
  ∃ done rest, plan [] demo_args "gcp" = done ++ rest
    ∧ ran (run (fun _ _ => Ok "") [] demo_args (St [] None [])).2 = done ∧ rest = [] ∧ length done = 6.
Proof.
  destruct (pipeline_follows_plan (fun _ _ => Ok "") [] demo_args "gcp" (St [] None [])) as (d & r & Hd & Hr & Hok & _);
    [vm_compute; reflexivity|].
  exists d, r. assert (r = []) as Hr0 by (apply Hok; vm_compute; reflexivity).
  split; [exact Hd|]. split; [exact Hr|]. split; [exact Hr0|]. rewrite Hr0, app_nil_r in Hd. rewrite <- Hd. vm_compute. reflexivity.
Defined.

(** C39: A defect: the Terraform lock file is never checked.  Whatever deployment target the
    pipeline accepts, the guard of the check compares it with [eks], which is an alias that
    [cloud_provider] replaces and no key of the table of roots. *)
Theorem lock_check_never_runs environ explicit provider root :
  (cloud_provider environ explicit = Ok provider ∨ provider ∈ dkeys TERRAFORM_ROOTS) → terraform_lock_check provider root = "".
Proof.
  intros Hp. assert (provider ∈ dkeys TERRAFORM_ROOTS) as Hin.
  { destruct Hp as [Hp|Hp]; [by apply cloud_provider_spec in Hp as [? _]|done]. }
  unfold terraform_lock_check. rewrite bool_decide_false; [done|]. intros ->.
  by repeat (apply elem_of_cons in Hin as [Hin|Hin]; [discriminate Hin|]); apply not_elem_of_nil in Hin.
Qed.
Lemma lock_check_never_runs_witness : terraform_lock_check "aws" "distributed-backend/terraform/eks" = "".
Proof. apply (lock_check_never_runs [] "EKS" "aws"). left. vm_compute. reflexivity. Defined.
