(* ===== verification/Fallback.v ===== *)
(** Local development helpers: the UDP relay that stands in for Quilkin
    ([scripts/quilkin_udp_fallback.py]) and the bounded download of the simulator's dependencies
    ([scripts/downloads/fetch_simulator_deps.py]). *)
From S2P Require Import Prelude PyStr PyFloat PyVal Regex PyPath PyIO.

(** * The relay *)

Definition addr : Type := string * Z.
Record datagram : Type := Datagram { dg_data : string; dg_peer : addr }.

(** Where the loop of [main] waits: for a request, or for the response to the request of a
    client. *)
Inductive phase : Type := AwaitRequest | AwaitResponse (remote : addr).

(** One [recvfrom] and the [sendto] after it. *)
Definition relay_step (target : addr) (p : phase) (d : datagram) : datagram * phase :=
  match p with
  | AwaitRequest => (Datagram (dg_data d) target, AwaitResponse (dg_peer d))
  | AwaitResponse remote => (Datagram (dg_data d) remote, AwaitRequest)
  end.
(** The datagrams sent for the datagrams received. *)
Fixpoint relay (target : addr) (p : phase) (received : list datagram) : list datagram :=
  match received with
  | [] => []
  | d :: rest => let '(sent, p') := relay_step target p d in sent :: relay target p' rest
  end.

(** An exchange: the request of a client and the response of the backend. *)
Record exchange : Type := Exchange { x_client : addr; x_request : string; x_response : string }.
Definition received_of (target : addr) (x : exchange) : list datagram :=
  [Datagram (x_request x) (x_client x); Datagram (x_response x) target].
Definition sent_of (target : addr) (x : exchange) : list datagram :=
  [Datagram (x_request x) target; Datagram (x_response x) (x_client x)].

(** * Downloads *)

Inductive attempt : Type :=
| Succeeded
| FailedWith (message : string)           (* CalledProcessError or TimeoutExpired *)
| CannotStart (errno : Z) (msg : string). (* OSError, which nothing catches *)

Record st : Type := St { tried : list (list string); said : list string }.

Section downloads.
Context (executable : string) (outcome : list (list string) → list string → attempt).

Definition say (line : string) : io st unit := modify (fun s => St (tried s) (said s ++ [line])).

Definition run_attempt (command : list string) : io st bool := fun s =>
  let s1 := St (tried s ++ [command]) (said s ++ ["+ " +:+ join " " command]) in
  match outcome (tried s) command with
  | Succeeded => (Ok true, s1)
  | FailedWith m => (Ok false, St (tried s1) (said s1 ++ ["attempt failed: " +:+ m]))
  | CannotStart errno m => (Raise (OSError OsOther errno m), s1)
  end.

(** [for command in commands: if run_attempt(command): break] with what became of it. *)
Fixpoint first_success (commands : list (list string)) : io st bool :=
  match commands with
  | [] => mret false
  | c :: rest => ok ← run_attempt c; if (ok : bool) then mret true else first_success rest
  end.

Definition pip_attempts (wheel_dir : string) : list (list string) :=
  [[executable; "-m"; "pip"; "download"; "-r"; "simulator/requirements.txt"; "-d"; wheel_dir];
   [executable; "-m"; "pip"; "download"; "--prefer-binary"; "-r"; "simulator/requirements.txt"; "-d"; wheel_dir]].
Definition docker_attempts : list (list string) :=
  [["docker"; "pull"; "ghcr.io/embarkstudios/quilkin:0.9.0"];
   ["docker"; "pull"; "us-docker.pkg.dev/quilkin/release/quilkin:0.1.0"]].

Definition fetch_main (wheel_dir : string) : io st Z :=
  pip ← first_success (pip_attempts wheel_dir);
  if (pip : bool) then
    docker ← first_success docker_attempts;
    if (docker : bool) then mret 0%Z
    else _ ← say "Quilkin image download failed; use scripts/quilkin_udp_fallback.py for local UDP proxy fallback."; mret 0%Z
  else mret 1%Z.
End downloads.

(** * Facts *)

Lemma relay_exchange target x rest :
  relay target AwaitRequest (received_of target x ++ rest) = sent_of target x ++ relay target AwaitRequest rest.
Proof. done. Qed.

(** The relay never drops, duplicates or alters a payload: it only chooses where it goes. *)
Lemma relay_payloads target p received : dg_data <$> relay target p received = dg_data <$> received.
Proof. revert p. induction received as [|d l IH]; intros [|r]; simpl; [done..|by rewrite IH|by rewrite IH]. Qed.

Lemma first_success_bound executable_outcome commands s :
  ∃ k, k ≤ length commands ∧ tried (first_success executable_outcome commands s).2 = tried s ++ take k commands.
Proof.
  revert s. induction commands as [|c l IH]; intros s.
  - exists 0. simpl. by rewrite app_nil_r.
  - cbn [first_success]. unfold mbind, io_bind, run_attempt. destruct (executable_outcome (tried s) c).
    + exists 1. simpl. split; [lia|done].
    + match goal with |- context [first_success _ l ?s1] => destruct (IH s1) as (k & Hk & Ht) end. exists (S k).
      simpl in *. rewrite Ht, <- app_assoc. split; [lia|done].
    + exists 1. simpl. split; [lia|done].
Qed.

Lemma first_success_ok outcome commands s s' :
  first_success outcome commands s = (Ok false, s') → tried s' = tried s ++ commands.
Proof.
  revert s. induction commands as [|c l IH]; intros s; cbn [first_success].
  - intros [= <-]. by rewrite app_nil_r.
  - unfold mbind, io_bind, run_attempt. destruct (outcome (tried s) c); [done| |done].
    intros H. rewrite (IH _ H). simpl. by rewrite <- app_assoc.
Qed.

(** The download is bounded: whatever pip and docker do, it starts a prefix of the two pip
    commands and then of the two docker commands; docker is started only once pip succeeded, and
    the exit code is 1 exactly when both pip commands were tried in vain. *)
Lemma fetch_bounded executable outcome wheel_dir s :
  ∃ k j, k ≤ 2 ∧ j ≤ 2
  ∧ tried (fetch_main executable outcome wheel_dir s).2 = tried s ++ take k (pip_attempts executable wheel_dir) ++ take j docker_attempts
  ∧ ((fetch_main executable outcome wheel_dir s).1 = Ok 1%Z → k = 2 ∧ j = 0).
Proof.
  unfold fetch_main, mbind, io_bind. set (pip := pip_attempts _ _).
  pose proof (first_success_bound outcome pip s) as (k & Hk & Ht). pose proof (first_success_ok outcome pip s) as Hf.
  destruct (first_success outcome pip s) as [[[]|e] s1]; cbn [fst snd] in *.
  - pose proof (first_success_bound outcome docker_attempts s1) as (j & Hj & Hd). exists k, j.
    rewrite Ht, <- app_assoc in Hd. destruct (first_success outcome docker_attempts s1) as [[[]|e] s2]; done.
  - exists 2, 0. specialize (Hf s1 eq_refl). cbn. rewrite Hf. repeat split; lia.
  - exists k, 0. cbn in *. rewrite Ht, app_nil_r. repeat split; [done|lia|done..].
Qed.

(** Once it waits for a response of the backend where the backend waits for a request, the relay
    answers no client any more. *)
Lemma relay_out_of_step target xs :
  relay target (AwaitResponse target) (flat_map (received_of target) xs)
  = flat_map (fun x => [Datagram (x_request x) target; Datagram (x_response x) target]) xs.
Proof. induction xs as [|x xs IH]; [done|]. simpl. by rewrite IH. Qed.

(** In lock step the relay serves every client: if each request is answered before the next one
    arrives, every request goes to the backend and every response to the client that asked. *)
Lemma relay_serves_in_lock_step target xs :
  relay target AwaitRequest (flat_map (received_of target) xs) = flat_map (sent_of target) xs.
Proof. induction xs as [|x xs IH]; [done|]. cbn [flat_map]. by rewrite relay_exchange, IH. Qed.

(** * Claims *)

(** C40: A defect: the relay does not look at who sent a datagram.  After any exchanges in lock
    step, if one request arrives while the backend has not answered another, the first client is
    sent that request as its response, the backend never gets it, and the backend's answer goes
    back to the backend.  If later traffic is again in lock step (a request, then its answer),
    the relay stays out of step: every request reaches the backend, every answer is sent back to
    the backend, and no client is answered. *)
Theorem relay_confuses_clients target c1 c2 q1 q2 r1 before after :
  relay target AwaitRequest
    (flat_map (received_of target) before ++ [Datagram q1 c1; Datagram q2 c2; Datagram r1 target] ++ flat_map (received_of target) after)
  = flat_map (sent_of target) before ++ [Datagram q1 target; Datagram q2 c1; Datagram r1 target]
    ++ flat_map (fun x => [Datagram (x_request x) target; Datagram (x_response x) target]) after.
Proof.
  induction before as [|x xs IH]; [|cbn [flat_map]; by rewrite <- !app_assoc, relay_exchange, IH].
  simpl. by rewrite relay_out_of_step.
Qed.
