(* ===== verification/CommandLines.v ===== *)
(** The command lines of the scripts: what each parser accepts, and the entry points from the
    arguments of the process to its exit status.  A rejected command line ends with 2 and a
    request for help with 0, in both cases before the script does anything; [None] is a command
    line with a bare [--] (see [ArgParse]). *)
From S2P Require Import Prelude PyStr PyFloat PyVal Regex Json JsonFacts JsonIndent Hashing PyPath PyText PyIO ArgParse Redaction Storage Provenance Freshness RunIndex RunContext Collectors CompareRuns Links CollectPytest Tracer Sentry RunCommand Diagnosis ClassifyFailure FailureReport Regenerate ObservedRun CiEvidence CiCommands CiAggregate CiMain KubePolicy LocalCi Pipeline Fallback.

(** The exit status of a process that runs [main] on the parsed arguments. *)
Definition exit_status {S A} (p : parsed A) (main : A → io S Z) : io S (option Z) :=
  match p with
  | Parsed a => code ← main a; mret (Some code)
  | Help => mret (Some 0%Z)
  | Rejected => mret (Some 2%Z)
  | Separator => mret None
  end.

(** * [observability/ci/observed_run.py] *)
Definition observed_parser (strict : bool) : ArgParse.parser :=
  argument_parser
    [flag ["--clean"] "clean"; int_option "--maxfail" "maxfail"; text_option "--test-path" "test_path";
     flag ["--no-sentry"] "no_sentry"; flag ["--no-honeycomb"] "no_honeycomb"; flag ["--strict"] "strict";
     text_option "--compare-to" "compare_to"]
    [Pos "command" (conv_choice COMMANDS)]
    [("command", PNone); ("clean", PBool false); ("maxfail", PInt 0); ("test_path", PStr ""); ("no_sentry", PBool false);
     ("no_honeycomb", PBool false); ("strict", PBool strict); ("compare_to", PNone)].

Definition observed_args_of (ns : dict) : ObservedRun.args :=
  ObservedRun.Args (ns_str ns "command") (ns_bool ns "clean") (ns_int ns "maxfail") (ns_str ns "test_path") (ns_bool ns "no_sentry")
    (ns_bool ns "no_honeycomb") (ns_bool ns "strict") (path_of <$> ns_opt ns "compare_to").

(** [--strict] is on without the flag where the environment asks for it. *)
Definition observed_parse_args (env : list (string * string)) (argv : list string) : parsed ObservedRun.args :=
  parsed_map observed_args_of (ArgParse.parse_args (observed_parser (env_truthy (getenv env "OBSERVABILITY_STRICT" ""))) argv).

Definition observed_cli (m : machine) (argv : list string) : io ObservedRun.state (option Z) :=
  exit_status (observed_parse_args (h_env (m_start m)) argv) (fun a => r ← execute m a; mret r.1).

(** * [ci-cd/pipeline.py] *)
Definition shared_options : list opt :=
  [text_option "--registry" "registry"; text_option "--tag" "tag";
   Opt ["--cloud-provider"; "--deployment-target"] "cloud_provider" StoreValue conv_str false].
Definition shared_defaults : dict := [("registry", PNone); ("tag", PNone); ("cloud_provider", PNone)].
Definition pipeline_sub (options : list opt) (defaults : dict) : ArgParse.parser :=
  argument_parser (shared_options ++ options) [] (shared_defaults ++ defaults).

Definition pipeline_subparsers (environ : list (string * string)) (timeout : Z) : list (string * ArgParse.parser) :=
  map (fun command => (command, pipeline_sub [] [])) ["check"; "test"; "security"; "build"; "publish"; "integration"; "deploy"]
  ++ [("terraform", pipeline_sub [flag ["--all-clouds"; "--all-targets"] "all_clouds"] [("all_clouds", PBool false)]);
      ("render-kubernetes", pipeline_sub [text_option "--output" "output"] [("output", PStr "distributed-backend/ci-cd/out/kubernetes.yaml")]);
      ("render-chaos", pipeline_sub [text_option "--output" "output"] [("output", PStr "distributed-backend/ci-cd/out/chaos-litmus.yaml")]);
      ("chaos", pipeline_sub [text_option "--namespace" "namespace"; text_option "--selector" "selector";
                     int_option "--timeout-seconds" "timeout_seconds"; flag ["--cleanup"] "cleanup"]
                  [("namespace", PStr (Pipeline.env environ "CHAOS_NAMESPACE" "eve-trade"));
                   ("selector", PStr (Pipeline.env environ "CHAOS_SELECTOR" "chaos.eve-trade.io/suite=pod-resilience"));
                   ("timeout_seconds", PInt timeout); ("cleanup", PBool false)])].

Definition pipeline_args_of (ns : dict) : Pipeline.args :=
  Pipeline.Args (ns_str ns "command") (ns_str ns "registry") (ns_str ns "tag") (ns_str ns "cloud_provider") (ns_bool ns "all_clouds")
    (ns_str ns "output") (ns_str ns "namespace") (ns_str ns "selector") (ns_int ns "timeout_seconds") (ns_bool ns "cleanup").

(** The default of [--timeout-seconds] is converted while the parser is built, for every command. *)
Definition pipeline_parse_args (environ : list (string * string)) (argv : list string) : res (parsed Pipeline.args) :=
  let! timeout := chaos_timeout environ in
  Ok (parsed_map pipeline_args_of (parse_subcommand "command" (pipeline_subparsers environ timeout) argv)).

Definition pipeline_cli (stdout_of : list (string * container) → container → res string) (environ : list (string * string))
    (argv : list string) : io Pipeline.st (option Z) :=
  p ← lift (pipeline_parse_args environ argv);
  exit_status p (fun a => _ ← Pipeline.run stdout_of environ a; mret 0%Z).

(** * [observability/ci/ci_evidence.py] *)
Definition job_options : list opt := [required_option "--job-id" "job_id"; required_option "--job-name" "job_name"].
Definition producer_subparsers : list (string * ArgParse.parser) :=
  [("start", argument_parser (job_options ++ [required_option "--path" "path"]) [] []);
   ("finish", argument_parser
      (job_options ++ [required_option "--step-identity" "step_identity"; required_option "--command-identity" "command_identity";
                       required_option "--status" "status"; Opt ["--dependency"] "dependency" AppendValue conv_str false;
                       required_option "--start-path" "start_path"; required_option "--output-path" "output_path";
                       text_option "--commands-path" "commands_path"]) []
      [("dependency", PList []); ("commands_path", PNone)]);
   ("run", argument_parser
      (job_options ++ [required_option "--step-name" "step_name"; text_option "--command-env" "command_env";
                       text_option "--working-directory" "working_directory"; required_option "--output-path" "output_path"]) []
      [("command_env", PStr "CI_EVIDENCE_COMMAND"); ("working_directory", PStr ".")])].

Definition producer_args_of (ns : dict) : producer_args :=
  let s := ns_str ns in
  let p k := path_of (ns_str ns k) in
  if bool_decide (s "command" = "start") then StartArgs (s "job_id") (s "job_name") (p "path")
  else if bool_decide (s "command" = "run")
  then RunArgs (s "job_id") (s "job_name") (s "step_name") (s "command_env") (p "working_directory") (p "output_path")
  else FinishArgs (s "job_id") (s "job_name") (s "step_identity") (s "command_identity") (s "status") (ns_strs ns "dependency")
         (p "start_path") (p "output_path") (path_of <$> ns_opt ns "commands_path").

Definition producer_parse_args (argv : list string) : parsed producer_args :=
  parsed_map producer_args_of (parse_subcommand "command" producer_subparsers argv).

Section producer_cli.
Context (env : list (string * string)) (now : string) (json_error : string → string).
Context (os_error : path → option exn) (is_dir : path → bool) (shell : string → path → fs → captured).
Definition producer_cli (argv : list string) : io producer (option Z) :=
  exit_status (producer_parse_args argv) (evidence_main env now json_error os_error is_dir shell).
End producer_cli.

(** * [observability/ci/ci_aggregate.py] *)
Record aggregate_options : Type := AggregateOptions { needs_json : string; needs_file : option path; evidence_dir : path }.
Definition aggregate_parser (env : list (string * string)) : ArgParse.parser :=
  argument_parser
    [text_option "--needs-json" "needs_json"; text_option "--needs-file" "needs_file"; text_option "--evidence-dir" "evidence_dir"] []
    [("needs_json", PStr (getenv env "OBS_CI_NEEDS_JSON" "")); ("needs_file", PNone); ("evidence_dir", PStr ".o11y/producer-artifacts")].
Definition aggregate_options_of (ns : dict) : aggregate_options :=
  AggregateOptions (ns_str ns "needs_json") (path_of <$> ns_opt ns "needs_file") (path_of (ns_str ns "evidence_dir")).
Definition aggregate_parse_args (env : list (string * string)) (argv : list string) : parsed aggregate_options :=
  parsed_map aggregate_options_of (ArgParse.parse_args (aggregate_parser env) argv).

(** [read_text(encoding="utf-8-sig")] of a file: a leading byte order mark is dropped. *)
Definition BOM : string := implode (map chr [239; 187; 191]%N).
Definition read_text_sig (p : path) (files : fs) : res string :=
  match files !! p with
  | None => Raise (OSError OsOther 2 "No such file or directory")
  | Some bytes => match utf8_decode (removeprefix BOM bytes) with
                  | Some text => Ok (universal_newlines text)
                  | None => Raise (ValueError "UnicodeDecodeError")
                  end
  end.

Section aggregate_cli.
Context (hs hf : host) (cwd : path) (traceback : exn → string) (is_dir : path → bool).
Definition run_aggregate (o : aggregate_options) : io astate Z :=
  files ← reads (fun s => w_files (as_world s));
  let raw := match needs_file o with Some p => read_text_sig (h_resolve hs p) files | None => Ok (needs_json o) end in
  aggregate_main hs hf cwd traceback raw (path_str (evidence_dir o)) (directory_at is_dir files (h_resolve hs (evidence_dir o))).
Definition aggregate_cli (argv : list string) : io astate (option Z) := exit_status (aggregate_parse_args (h_env hs) argv) run_aggregate.
End aggregate_cli.

(** * [eve_trade_local_ci_k8s.py] *)
Definition local_parser : ArgParse.parser :=
  argument_parser [Opt ["--component"] "component" AppendValue (conv_choice LocalCi.COMPONENTS) false] [] [("component", PNone)].
Definition local_parse_args (argv : list string) : parsed (list string) :=
  parsed_map (fun ns => ns_strs ns "component") (ArgParse.parse_args local_parser argv).

Section local_cli.
Context (ROOT : path) (environ : list (string * string)) (which : history → string → option string).
Context (exec : history → fs → call → LocalCi.outcome * fs) (resolve : path → path).
Context (temp : path) (temp_error : temp_op → option exn) (signal_text : Z → string).
Definition local_cli (argv : list string) : io LocalCi.st (option Z) :=
  exit_status (local_parse_args argv) (LocalCi.main ROOT environ which exec resolve temp temp_error signal_text).
End local_cli.

(** * [scripts/verify_rendered_kubernetes.py]: the manifest and whether it is a template *)
Definition rendered_parser : ArgParse.parser :=
  argument_parser [flag ["--expect-unresolved-image-template"] "expect_unresolved_image_template"]
    [Pos "manifest" conv_str] [("manifest", PNone); ("expect_unresolved_image_template", PBool false)].
Definition rendered_parse_args (argv : list string) : parsed (path * bool) :=
  parsed_map (fun ns => (path_of (ns_str ns "manifest"), ns_bool ns "expect_unresolved_image_template")) (ArgParse.parse_args rendered_parser argv).

(** [documents] reads the YAML documents of a file; the state is what was printed. *)
Section rendered_cli.
Context (safe_dump : pyval → string) (documents : path → res (list pyval)).
Definition rendered_cli (argv : list string) : io (list string * list string) (option Z) :=
  exit_status (rendered_parse_args argv)
    (fun a => docs ← lift (documents a.1);
              p ← lift (verify_main safe_dump a.2 docs);
              _ ← modify (fun s => (s.1 ++ out_lines p, s.2 ++ err_lines p));
              mret (KubePolicy.status p)).
End rendered_cli.

(** * [observability/ci/compare_runs.py] *)
Definition compare_parser : ArgParse.parser :=
  argument_parser [required_option "--local" "local"; required_option "--ci" "ci"; text_option "--output" "output"] []
    [("local", PNone); ("ci", PNone); ("output", PNone)].
Definition compare_parse_args (argv : list string) : parsed (path * path * option path) :=
  parsed_map (fun ns => (path_of (ns_str ns "local"), path_of (ns_str ns "ci"), path_of <$> ns_opt ns "output"))
    (ArgParse.parse_args compare_parser argv).
(** The files and the lines printed. *)
Definition compare_cli (os_error : path → option exn) (argv : list string) : io (fs * list string) (option Z) :=
  exit_status (compare_parse_args argv)
    (fun a s => let '(r, files) := compare_runs os_error a.1.1 a.1.2 a.2 s.1 in
                match r with
                | Ok (_, _, html) => (Ok 0%Z, (files, s.2 ++ [path_str html]))
                | Raise e => (Raise e, (files, s.2))
                end).

(** * [observability/ci/classify_failure.py] *)
Definition classify_parser : ArgParse.parser :=
  argument_parser
    [text_option "--nodeid" "nodeid"; text_option "--assertion" "assertion"; text_option "--logs" "logs"; text_option "--db-hints" "db_hints"]
    [] [("nodeid", PStr ""); ("assertion", PStr ""); ("logs", PNone); ("db_hints", PStr "")].
(** The line printed, for the files of the machine. *)
Definition classified (files : fs) (ns : dict) : string :=
  let logs := match ns_opt ns "logs" with Some p => load_text_if_exists (path_of p) files | None => "" end in
  implode (pprint true 0 (PDict (classification_to_dict
    (classify_failure (ns_str ns "nodeid") (ns_str ns "assertion") logs (ns_str ns "db_hints"))))).
Definition classify_cli (files : fs) (argv : list string) : parsed string := parsed_map (classified files) (ArgParse.parse_args classify_parser argv).

(** * [observability/ci/generate_failure_report.py] *)
Definition regenerate_parser : ArgParse.parser := argument_parser [] [Pos "run_dir" conv_str] [("run_dir", PNone)].
Definition regenerate_parse_args (argv : list string) : parsed path := parsed_map (fun ns => path_of (ns_str ns "run_dir")) (ArgParse.parse_args regenerate_parser argv).

(** * [scripts/quilkin_udp_fallback.py] and [scripts/downloads/fetch_simulator_deps.py] *)
Definition fallback_parser : ArgParse.parser :=
  argument_parser [text_option "--listen-host" "listen_host"; int_option "--listen-port" "listen_port";
                   text_option "--target-host" "target_host"; int_option "--target-port" "target_port"] []
    [("listen_host", PStr "127.0.0.1"); ("listen_port", PInt 26001); ("target_host", PStr "127.0.0.1"); ("target_port", PInt 26000)].
(** The address bound and the address forwarded to. *)
Definition fallback_parse_args (argv : list string) : parsed (addr * addr) :=
  parsed_map (fun ns => ((ns_str ns "listen_host", ns_int ns "listen_port"), (ns_str ns "target_host", ns_int ns "target_port")))
    (ArgParse.parse_args fallback_parser argv).
Definition fallback_banner (a : addr * addr) : string :=
  "fallback UDP proxy listening on " +:+ a.1.1 +:+ ":" +:+ str_of_Z a.1.2 +:+ " -> " +:+ a.2.1 +:+ ":" +:+ str_of_Z a.2.2.
(** The line printed, and the datagrams the relay sends for those it receives. *)
Definition fallback_cli (argv : list string) (received : list datagram) : parsed (string * list datagram) :=
  parsed_map (fun a => (fallback_banner a, relay a.2 AwaitRequest received)) (fallback_parse_args argv).

Definition fetch_parser : ArgParse.parser :=
  argument_parser [int_option "--timeout" "timeout"; text_option "--wheel-dir" "wheel_dir"] []
    [("timeout", PInt 60); ("wheel_dir", PStr ".downloads/python-wheels")].
Definition fetch_parse_args (argv : list string) : parsed (Z * path) :=
  parsed_map (fun ns => (ns_int ns "timeout", path_of (ns_str ns "wheel_dir"))) (ArgParse.parse_args fetch_parser argv).
(** The outcome of a command depends on the time it is given. *)
Section fetch_cli.
Context (executable : string) (outcome : Z → list (list string) → list string → attempt) (os_error : path → option exn).
Definition fetch_cli (argv : list string) : io Fallback.st (option Z) :=
  exit_status (fetch_parse_args argv)
    (fun a => match os_error a.2 with
              | Some e => throw e
              | None => fetch_main executable (outcome a.1) (path_str a.2)
              end).
End fetch_cli.

Example observed_line :
  observed_parse_args [] ["--max=2"; "e2e"; "--no-s"; "--compare-to"; "old"]
  = Parsed (ObservedRun.Args "e2e" false 2 "" true false false (Some (path_of "old")))
  ∧ observed_parse_args [] ["deploy"] = Rejected ∧ observed_parse_args [] ["--no"; "check"] = Rejected
  ∧ observed_parse_args [] ["check"; "--maxfail"; "-1"] = Parsed (ObservedRun.Args "check" false (-1) "" false false false None)
  ∧ observed_parse_args [] ["-hx"; "--no"] = Help.
Proof. vm_compute. done. Qed.
Example evidence_line :
  producer_parse_args ["start"; "--job-id"; "j"; "--job-name=n"; "--path"; "a/b"] = Parsed (StartArgs "j" "n" (path_of "a/b"))
  ∧ producer_parse_args ["start"; "--job-id"; "j"] = Rejected ∧ producer_parse_args ["--x"; "start"; "-h"] = Help.
Proof. vm_compute. done. Qed.
