(* ===== verification/CommandLinesFacts.v ===== *)
(** Facts about the command lines: what is written on the line of an observed run is what its
    parser returns, whatever texts it holds; and an exit of the pipeline with success stands for
    the work of the command on its line. *)
From S2P Require Import Prelude PyStr PyFloat PyVal Regex Json JsonFacts JsonIndent Hashing PyPath PyText PyIO ArgParse Redaction Storage Provenance Freshness RunIndex RunContext RunContextFacts Collectors CompareRuns Links CollectPytest Tracer Sentry RunCommand Diagnosis ClassifyFailure FailureReport Regenerate ObservedRun CiEvidence CiCommands CiAggregate CiMain KubePolicy LocalCi Pipeline PipelineFacts Fallback CommandLines.

(** * Integers *)




(** * Steps of the parser *)




(** * The arguments of an observed run *)



Section observed_line.
Context (strict : bool).
Abbreviation table := (option_strings (observed_parser strict)).
Abbreviation word_of := (classify_word table).
Abbreviation o_clean := (flag ["--clean"] "clean").
Abbreviation o_maxfail := (int_option "--maxfail" "maxfail").
Abbreviation o_test_path := (text_option "--test-path" "test_path").
Abbreviation o_no_sentry := (flag ["--no-sentry"] "no_sentry").
Abbreviation o_no_honeycomb := (flag ["--no-honeycomb"] "no_honeycomb").
Abbreviation o_strict := (flag ["--strict"] "strict").
Abbreviation o_compare_to := (text_option "--compare-to" "compare_to").




End observed_line.




(** * The pipeline, from its command line to its exit status *)







